(* ===== verification/_CoqProject ===== *)
-Q . S2P
Prelude.v
OsMem.v
Crc16.v
Sw.v
Apdu.v
Tlv.v
Hal.v
SimHal.v
SimTimer.v
ArmHal.v
Rng.v
ArmIo.v
Uart.v
Platform.v
Fault.v
Semihost.v
SimLink.v
FsTypes.v
FsStore.v
Fs.v
FsTree.v
KernelTypes.v
CmdSelect.v
CmdBinary.v
CmdCreate.v
Dispatch.v
Kernel.v
SameCard.v
PowerCut.v
Session.v
Responses.v
CardLoop.v
Pump.v
ArmCard.v
ArmSession.v
SimCard.v
SamsungHal.v
CFlash.v
BootHdr.v
BootLoader.v
BootSafety.v
BootMain.v
Startup.v
Deviations.v
