(* ===== verification/Prelude.v ===== *)
(** * smartcard-os in Rocq

    A model of the native smart card operating system under src/, with the
    theorems that make it correct.

    ** The program

    A card runs one of two programs.  The boot ROM (src/hal/arm-scv1/boot_main.c,
    src/boot/) owns the OS slot, two regions of code flash: it starts the image
    in the slot when the slot's header says ACTIVE and matches it, and otherwise
    serves loader commands over the card link.  The operating system
    (src/kernel, src/apdu, src/filesystem) mounts a file tree kept in EEPROM and
    FLASH and answers ISO 7816-4 commands.  Both stand on a hardware layer
    (include/hal/hal.h) with three implementations: the SCV1 chip, a simulator
    and a placeholder.

    ** Files

    Prelude.v      machine integers, pointers and checked memory accesses,
                   loops, lists indexed by [Z], tactics and hints
    OsMem.v        src/kernel/os_mem.c
    Crc16.v        src/kernel/crc16.c
    Sw.v           include/apdu/sw.h
    Apdu.v         src/apdu/apdu_parse.c, apdu_resp.c
    Tlv.v          src/apdu/tlv.c
    Hal.v          include/hal/hal.h: the classes [HalNvm] (the operations on
                   non-volatile memory) and [HalNvmSpec] (their contract)
    SimHal.v       simulator/virtual_card.c, src/hal/simulator: an instance
    SimTimer.v     the clock of src/hal/simulator/hal_sim_platform.c, in binary64
    ArmHal.v       src/hal/arm-scv1/hal_arm_nvm.c, hal_arm_platform.c,
                   semihost.c: an instance; the memory map of scv1.h
    Rng.v          the random generators of the two devices fill every request,
                   agree, and never reach the state zero
    SamsungHal.v   src/hal/samsung: an instance that is never ready
    ArmIo.v        src/hal/arm-scv1/hal_arm_io.c: the card link of the chip
    Uart.v         the UART driver under it, down to the registers: the classes
                   [UartBus] and [UartSpec]
    Platform.v     hal_arm_platform.c: all of [hal_init], and the timer: the
                   classes [SysTickBus] and [SysTickSpec]
    Fault.v        the vector table and fault handlers of startup.c
    Semihost.v     semihost.c down to its traps: the classes [Debugger] and
                   [DebuggerSpec]
    SimLink.v      simulator/transport.c: the card link of the simulator
    FsTypes.v      include/filesystem/fs_types.h
    FsStore.v      src/filesystem/fs_store.c: superblock, descriptors, data
    Fs.v           src/filesystem/fs.c, operation by operation
    FsTree.v       the file tree: specifications and invariants of Fs.v
    KernelTypes.v  include/os/kernel.h, include/apdu/dispatch.h, and the
                   classes [FsSpec] and [HandlerSpec] between the layers
    CmdSelect.v, CmdBinary.v, CmdCreate.v
                   src/filesystem/cmd_select.c, cmd_binary.c, cmd_create.c
    Dispatch.v     src/apdu/apdu_dispatch.c
    Kernel.v       src/kernel/kernel.c
    SameCard.v     the operating system over two devices in lock-step
    PowerCut.v     what a power failure between two writes leaves behind: a device
                   that records every state of its memories
    Session.v      sequences of commands to one card
    Responses.v    the status words of each command, and the order of the checks
    CardLoop.v     src/kernel/card_loop.c over a sequence of link events
    Pump.v         the same loop over a card link: the classes [CardLink]
                   (hal_card_receive, hal_card_send) and [CardLinkSpec]
    ArmCard.v      src/hal/arm-scv1/card_main.c: the firmware end to end
    ArmSession.v   two runs of the firmware with a power-down in between
    SimCard.v      simulator/main.c, the banner of simulator/virtual_card.c: the
                   simulator end to end
    CFlash.v       src/boot/cflash.c
    BootHdr.v      src/boot/boot_hdr.c
    BootLoader.v   src/boot/boot_loader.c, and the abstract machine of the slot
    BootSafety.v   what sessions of loader commands guarantee
    BootMain.v     src/hal/arm-scv1/boot_main.c: the boot ROM end to end
    Startup.v      from reset to [main]: the hand-over of boot_main.c, the reset
                   handler of startup.c, the layout of scv1.ld
    Deviations.v   concrete runs where the code does not do what its comments or
                   documents say

    ** How the code is translated

    An unsigned integer is a [Z] with its wrap-around written out ([u8], [u16],
    [u32], [u64]).  A pointer is [NULL] or [Ptr x]; a buffer is the list of the
    bytes that may be accessed.  Every function that accesses memory or loops
    runs in [option], where [None] is an access outside an object or a loop that
    ran out of fuel: a theorem that a function returns [Some] is a theorem of
    memory safety and of termination.  State is passed explicitly: the mirror of
    the superblock and the device ([store]), the selection, the kernel
    ([scos_kernel]), the loader's context ([boot_ctx]).  A function that writes
    through a pointer argument returns what the pointer points to afterwards.
    Local arrays that C leaves uninitialised start as [local_array], and
    the proofs show that what they hold at first never matters.

    The layers meet in type classes.  The file system is proved against
    [HalNvmSpec], which each device discharges; the command handlers are proved
    against [FsSpec I], what the file system keeps of an invariant [I] of the
    card, and the dispatcher and the kernel against [HandlerSpec I]; both are
    instantiated twice, with the invariant of memory safety ([safe_inv], which
    holds for any contents of the memory) and with that of a well-formed tree
    ([card_inv]).  The pump is proved against [CardLinkSpec], which the links of
    the chip (ArmCard.v) and of the simulator (SimCard.v) discharge.  What is
    not part of the repository, the UART, SysTick and the debugger, is a class
    of operations with its documented behaviour as laws, and a concrete instance
    that keeps them; the drivers are proved against the laws.

    ** What is proved

    - The card always answers: [Kernel.scos_process_always_answers] for any
      input and any memory contents, [Kernel.reachable_card_serves] for every
      state reached by commands, resets and power cycles,
      [CardLoop.card_loop_one_response_each] for any behaviour of the link,
      [ArmCard.firmware_survives_any_input] for any memory, any image files
      and any bytes on the serial line, [SimCard.simulator_always_exits] for any
      arguments, image files and standard input, with the exit code and the
      settings the grammar of its command line gives,
      [ArmCard.firmware_answers_each_line] for a reader that speaks the
      protocol, with the responses the kernel gives.
    - What it answers: [Responses.responses_are_typed], the status words of each
      command and when data come with them, and [Responses.validation_order].
    - The card does nothing it refused:
      [Kernel.refused_command_changes_nothing], [Kernel.dead_card_only_answers],
      [CmdBinary.update_binary_isolated]; READ and UPDATE BINARY never leave the
      selected DF ([CmdBinary.binary_confined_to_df]).
    - Power failures: cut between two writes of any command of a card with a
      well-formed tree, the next power-up finds the files and contents of before
      the command or of after it ([PowerCut.power_cut_is_atomic]); an interrupted personalisation is the
      exception, and the card stays unusable ([PowerCut.interrupted_format]).
    - The device does not matter: two devices with the same geometry and contents
      answer the same commands with the same bytes and keep the same contents
      ([SameCard.memory_driver_irrelevant]), in particular the simulator and the
      chip.
    - The file tree: creation and deletion refine the abstract tree
      ([FsTree.fs_create_file_spec], [FsTree.fs_delete_file_spec]), selection
      follows its rules ([FsTree.fs_select_by_path_spec],
      [FsTree.fs_select_by_fid_order]), a blank card gets its factory tree and a
      damaged card is left alone.
    - The commands: SELECT, READ BINARY, CREATE FILE and DELETE FILE on every
      branch; SELECT succeeds exactly for the file its parameters name
      ([CmdSelect.scos_cmd_select_answers]); the FCP parser computes a reference
      reader and accepts exactly the descriptions of a file
      ([CmdCreate.parse_fcp_accepts]); the round trip through the FCP that SELECT
      returns.
    - Storage: descriptors and superblock read back, damage is detected
      ([Crc16.crc16_detects_two_byte_burst]), allocations are disjoint, power
      cycles restore the card, on the file system, the simulator and the chip;
      end to end, what is written over the serial line of a new card is read
      back over it in the next run ([ArmSession.data_outlives_power],
      [ArmSession.firmware_resumes]).
    - Encodings: the APDU parser against the four ISO cases, the BER-TLV reader
      against a reference decoder, the line protocol against a reference
      decoder of lines, and the two card links against each other.
    - The boot ROM: the loader refines an abstract machine of the slot
      ([BootSafety.boot_handle_refines]); without an ERASE an installed image is
      never touched, without an ACTIVATE nothing boots; whatever arrives, only
      an active slot with a matching image is started
      ([BootMain.boot_rom_jumps_only_active]); a download over the link installs
      the image it is given ([BootMain.boot_rom_installs_over_uart]), and where
      its files are kept it starts by itself at every later power-up
      ([Startup.installed_os_starts]).
    - Below C: an image started at power-up gets a stack in SRAM and an entry
      point inside it ([Startup.cold_start_hands_over_safely]), and its [main]
      the memory it was linked for ([Startup.startup_initialises_memory]); no
      fault is forgiven but the probe's ([Fault.only_probe_fault_resumes]); the
      registers of the UART carry the stream of characters, and the semihosting
      traps the files, that the models above read and write
      ([Uart.uart_driver_is_a_stream], [Semihost.semihosting_refines_files]);
      the timer never runs ahead ([Platform.timer_never_runs_ahead]).

    ** Fuel and bounds

    Loops over an index run over the list of their indices.  The other loops
    take fuel, and each definition says how much: the TLV reader a unit for each
    byte of its buffer, the erase loop one for each page, the random generators
    one for each byte, the copy and the clearing of the reset handler one for
    each word of SRAM, the driver's polling one more than the peripheral's
    documented patience, the card loop, the loader loop and the receivers one for
    each character of input.  One unit more pays for the last test.  Theorems
    that return [Some] show that this is enough.  Serial input is finite and
    shorter than 2^32 characters; a receiver that has used it up waits.

    ** Not modelled

    - Machine code: the reset handler runs whatever [main] it is given on word
      memory, and the C programs of the other files keep their variables in
      records; that the compiler puts the ones into the other is not stated.
      Barriers and [wfi] have no counterpart.
    - A power failure in the middle of one [hal_nvm_write] or [hal_nvm_erase]:
      the failures of PowerCut.v fall between them.
    - The compile-time guard of hal_samsung_stub.c and the portability macros of
      virtual_card.c.
    - Host file errors of the simulator other than a file that does not open,
      and the message on stderr then.
    - Tests, fuzzers, tools and documents of the repository. *)

From stdpp Require Export prelude gmap.
From Stdlib Require Export ZArith Zify ZifyBool Lia.

#[global] Open Scope Z_scope.
#[global] Set Default Proof Using "Type*".

Ltac Zify.zify_post_hook ::= Z.to_euclidean_division_equations.

(** ** Machine integers

    An unsigned C integer is a [Z]; a cast or an assignment to a narrower type
    is the wrap-around written out. *)

Definition u8 (x : Z) : Z := x mod 256.
Definition u16 (x : Z) : Z := x mod 65536.
Definition u32 (x : Z) : Z := x mod 4294967296.
Definition u64 (x : Z) : Z := x mod 18446744073709551616.

Definition is_u8 (x : Z) : Prop := 0 ≤ x < 256.
Definition is_u16 (x : Z) : Prop := 0 ≤ x < 65536.
Definition is_u32 (x : Z) : Prop := 0 ≤ x < 4294967296.

Definition bytes (l : list Z) : Prop := Forall is_u8 l.

(** ** Pointers and memory

    A pointer argument is either null or points to an object; a buffer is the
    list of the bytes that may be accessed through the pointer.  A computation
    that may leave the bounds of an object runs in [option]: [None] stands for
    undefined behaviour (an access outside the object) and for a loop whose
    fuel ran out, so a theorem that a function returns [Some] is a theorem of
    memory safety and of termination. *)

Inductive ptr (A : Type) : Type :=
| NULL : ptr A
| Ptr : A → ptr A.
Arguments NULL {A}.
Arguments Ptr {A} _.

Definition is_null {A} (p : ptr A) : bool :=
  match p with NULL => true | Ptr _ => false end.

(** [*p] *)
Definition deref {A} (p : ptr A) : option A :=
  match p with NULL => None | Ptr a => Some a end.

Declare Scope card_scope.
Delimit Scope card_scope with card.

Definition len (b : list Z) : Z := Z.of_nat (length b).

(** [b[i]] *)
Definition rd (b : list Z) (i : Z) : option Z :=
  if 0 <=? i then b !! Z.to_nat i else None.

(** [b[i] = v] *)
Definition wr (b : list Z) (i v : Z) : option (list Z) :=
  if (0 <=? i) && (i <? len b) then Some (<[Z.to_nat i := v]> b) else None.

(** The [n] bytes at offset [off], and the same with the bounds checked. *)
Definition slice (off n : Z) (b : list Z) : list Z :=
  take (Z.to_nat n) (drop (Z.to_nat off) b).

Definition rd_n (b : list Z) (off n : Z) : option (list Z) :=
  if (0 <=? off) && (0 <=? n) && (off + n <=? len b) then Some (slice off n b) else None.

(** [b] with the bytes [src] stored from offset [off] on. *)
Definition splice (b : list Z) (off : Z) (src : list Z) : list Z :=
  take (Z.to_nat off) b ++ src ++ drop (Z.to_nat off + length src) b.

Definition wr_n (b : list Z) (off : Z) (src : list Z) : option (list Z) :=
  if (0 <=? off) && (off + len src <=? len b) then Some (splice b off src) else None.

(** [&b[off]]: the pointer keeps access to the rest of the object. *)
Definition at_off (b : list Z) (off : Z) : ptr (list Z) := Ptr (drop (Z.to_nat off) b).

(** [for (i = 0; i < n; i++)] runs over these indices. *)
Definition upto (n : Z) : list Z := seqZ 0 n.

Fixpoint foreach {S : Type} (idx : list Z) (body : Z → S → option S) (s : S) : option S :=
  match idx with
  | [] => Some s
  | i :: idx => s' ← body i s; foreach idx body s'
  end.

(** ** Specifications of computations: the computation is defined and its
    result satisfies [Q]. *)
Definition wp {A} (m : option A) (Q : A → Prop) : Prop :=
  match m with Some a => Q a | None => False end.

#[global] Open Scope card_scope.

(** ** Lemmas *)

Section wp_lemmas.
Context {A B : Type}.

Lemma wp_some (a : A) (Q : A → Prop) : Q a → wp (Some a) Q.
Proof. done. Qed.

Lemma wp_bind (m : option A) (f : A → option B) (Q : B → Prop) :
  wp m (λ a, wp (f a) Q) → wp (m ≫= f) Q.
Proof. by destruct m. Qed.

Lemma wp_mono (m : option A) (P Q : A → Prop) :
  wp m P → (∀ a, P a → Q a) → wp m Q.
Proof. destruct m; simpl; auto. Qed.

Lemma wp_elim (m : option A) (Q : A → Prop) : wp m Q → ∃ a, m = Some a ∧ Q a.
Proof. destruct m as [a|]; [|done]. by exists a. Qed.

Lemma wp_intro (m : option A) a (Q : A → Prop) : m = Some a → Q a → wp m Q.
Proof. by intros ->. Qed.
End wp_lemmas.

(** One step of a computation whose first part is specified by [H]. *)
Ltac wp_step H :=
  first [ eapply wp_bind; eapply wp_mono; [apply H|]
        | eapply wp_mono; [apply H|] ].

(** Move every boolean test of the goal or of a hypothesis to [Prop]. *)
Ltac bool_prop :=
  repeat match goal with
  | H : (_ && _) = true |- _ => apply andb_prop in H as [? ?]
  | H : (_ && _) = false |- _ => apply andb_false_iff in H
  | H : (_ || _) = true |- _ => apply orb_prop in H
  | H : (_ || _) = false |- _ => apply orb_false_iff in H as [? ?]
  | H : negb _ = true |- _ => apply negb_true_iff in H
  | H : negb _ = false |- _ => apply negb_false_iff in H
  | H : (_ <=? _) = true |- _ => apply Z.leb_le in H
  | H : (_ <=? _) = false |- _ => apply Z.leb_gt in H
  | H : (_ <? _) = true |- _ => apply Z.ltb_lt in H
  | H : (_ <? _) = false |- _ => apply Z.ltb_ge in H
  | H : (_ =? _) = true |- _ => apply Z.eqb_eq in H
  | H : (_ =? _) = false |- _ => apply Z.eqb_neq in H
  end.

(** Case analysis on the first test of the goal. *)
Ltac case_if :=
  match goal with
  | |- context [if ?b then _ else _] => destruct b eqn:?; bool_prop
  end.

Section integers.
Implicit Types x : Z.

Lemma u8_range x : is_u8 (u8 x).
Proof. unfold is_u8, u8. lia. Qed.
Lemma u16_range x : is_u16 (u16 x).
Proof. unfold is_u16, u16. lia. Qed.
Lemma u32_range x : is_u32 (u32 x).
Proof. unfold is_u32, u32. lia. Qed.
Lemma u8_id x : is_u8 x → u8 x = x.
Proof. unfold is_u8, u8. lia. Qed.
Lemma u16_id x : is_u16 x → u16 x = x.
Proof. unfold is_u16, u16. lia. Qed.
Lemma u32_id x : is_u32 x → u32 x = x.
Proof. unfold is_u32, u32. lia. Qed.
Lemma u64_id x : 0 ≤ x < 18446744073709551616 → u64 x = x.
Proof. unfold u64. lia. Qed.

(** Shifting left and or-ing in a value that fits below is addition. *)
Lemma lor_shiftl_add (a b n : Z) :
  0 ≤ n → 0 ≤ b < 2 ^ n → Z.lor (Z.shiftl a n) b = a * 2 ^ n + b.
Proof.
  intros Hn Hb. rewrite <- Z.shiftl_mul_pow2 by lia.
  apply Z.bits_inj'. intros k Hk. rewrite Z.lor_spec.
  destruct (decide (k < n)).
  - rewrite Z.shiftl_spec_low by lia. simpl.
    rewrite <- (Z.mod_pow2_bits_low (Z.shiftl a n + b) n k) by lia.
    f_equal. rewrite Z.shiftl_mul_pow2, Z.add_comm, Z.mod_add, Z.mod_small; lia.
  - assert (Z.testbit b k = false) as ->.
    { rewrite <- (Z.mod_small b (2 ^ n)) by lia. apply Z.mod_pow2_bits_high. lia. }
    rewrite orb_false_r, Z.shiftl_spec by lia.
    replace k with ((k - n) + n) at 2 by lia.
    rewrite <- Z.div_pow2_bits by lia. f_equal.
    rewrite Z.shiftl_mul_pow2, Z.add_comm, Z.div_add, Z.div_small; lia.
Qed.

Lemma land_255 x : Z.land x 255 = x mod 256.
Proof. change 255 with (Z.ones 8). by rewrite Z.land_ones by lia. Qed.
End integers.

Create HintDb card discriminated.
#[export] Hint Resolve u8_range u16_range u32_range : card.
#[export] Hint Unfold is_u8 is_u16 is_u32 : card.

(** Concrete buffers are checked by computation. *)
#[export] Instance is_u8_dec x : Decision (is_u8 x).
Proof. unfold is_u8. apply _. Defined.
#[export] Instance bytes_dec l : Decision (bytes l).
Proof. unfold bytes. apply _. Defined.

Ltac solve_bytes := apply (bool_decide_unpack _); vm_compute; exact I.

Section buffers.
Implicit Types (b src : list Z) (off n i v : Z).

Lemma len_nonneg b : 0 ≤ len b.
Proof. unfold len. lia. Qed.

Lemma len_cons x b : len (x :: b) = 1 + len b.
Proof. unfold len. simpl length. lia. Qed.

Lemma bytes_cons x b : bytes (x :: b) ↔ is_u8 x ∧ bytes b.
Proof. apply Forall_cons. Qed.

Lemma len_app b src : len (b ++ src) = len b + len src.
Proof. unfold len. rewrite length_app. lia. Qed.

Lemma len_replicate n v : 0 ≤ n → len (replicate (Z.to_nat n) v) = n.
Proof. unfold len. rewrite length_replicate. lia. Qed.

Lemma len_drop b off : 0 ≤ off ≤ len b → len (drop (Z.to_nat off) b) = len b - off.
Proof. unfold len. rewrite length_drop. lia. Qed.

Lemma len_slice off n b :
  0 ≤ off → 0 ≤ n → off + n ≤ len b → len (slice off n b) = n.
Proof. unfold slice, len. rewrite length_take, length_drop. lia. Qed.

Lemma len_splice b off src :
  0 ≤ off → off + len src ≤ len b → len (splice b off src) = len b.
Proof.
  unfold splice, len. rewrite !length_app, length_take, length_drop. lia.
Qed.

Lemma rd_some b i : 0 ≤ i < len b → ∃ x, rd b i = Some x ∧ b !! Z.to_nat i = Some x.
Proof.
  unfold rd, len. intros Hi. replace (0 <=? i) with true by lia.
  destruct (lookup_lt_is_Some_2 b (Z.to_nat i)) as [x Hx]; [lia|]. eauto.
Qed.

Lemma rd_byte b i : bytes b → 0 ≤ i < len b → ∃ x, rd b i = Some x ∧ is_u8 x.
Proof.
  intros Hb Hi. destruct (rd_some b i Hi) as (x & Hx & Hl). exists x. split; [done|].
  by eapply (Forall_lookup_1 _ _ _ _ Hb).
Qed.

Lemma wr_some b i v : 0 ≤ i < len b → wr b i v = Some (<[Z.to_nat i := v]> b).
Proof. intros Hi. unfold wr. by replace ((0 <=? i) && (i <? len b)) with true by lia. Qed.

Lemma rd_n_some b off n :
  0 ≤ off → 0 ≤ n → off + n ≤ len b → rd_n b off n = Some (slice off n b).
Proof.
  intros. unfold rd_n.
  by replace ((0 <=? off) && (0 <=? n) && (off + n <=? len b)) with true by lia.
Qed.

Lemma wr_n_some b off src :
  0 ≤ off → off + len src ≤ len b → wr_n b off src = Some (splice b off src).
Proof.
  intros. unfold wr_n. by replace ((0 <=? off) && (off + len src <=? len b)) with true by lia.
Qed.

Lemma slice_0_all b : slice 0 (len b) b = b.
Proof. unfold slice, len. rewrite drop_0. apply take_ge. lia. Qed.

Lemma slice_app_l a b n : 0 ≤ n ≤ len a → slice 0 n (a ++ b) = slice 0 n a.
Proof. intros Hn. unfold slice, len in *. change (Z.to_nat 0) with 0%nat. rewrite !drop_0. apply take_app_le. lia. Qed.

Lemma splice_all b src : len src = len b → splice b 0 src = src.
Proof.
  unfold splice, len. intros H. rewrite take_0, drop_ge by lia. by rewrite app_nil_r.
Qed.

Lemma lookup_slice off n b (k : nat) :
  0 ≤ off → slice off n b !! k = if decide (Z.of_nat k < n) then b !! (Z.to_nat off + k)%nat else None.
Proof.
  intros Hoff. unfold slice. case_decide.
  - rewrite lookup_take_lt by lia. by rewrite lookup_drop.
  - by rewrite lookup_take_ge by lia.
Qed.

Lemma lookup_splice b off src (k : nat) :
  0 ≤ off → off + len src ≤ len b →
  splice b off src !! k =
    if decide (off ≤ Z.of_nat k < off + len src) then src !! (k - Z.to_nat off)%nat else b !! k.
Proof.
  unfold len, splice. intros Hoff Hle. case_decide as Hk.
  - rewrite lookup_app_r by (rewrite length_take; lia). rewrite length_take.
    rewrite lookup_app_l by lia. f_equal. lia.
  - destruct (decide (Z.of_nat k < off)).
    + rewrite lookup_app_l by (rewrite length_take; lia). by rewrite lookup_take_lt by lia.
    + rewrite lookup_app_r by (rewrite length_take; lia). rewrite length_take.
      rewrite lookup_app_r by lia. rewrite lookup_drop. f_equal. lia.
Qed.

Lemma slice_slice b o n o' n' :
  0 ≤ o → 0 ≤ o' → o' + n' ≤ n → slice o' n' (slice o n b) = slice (o + o') n' b.
Proof.
  intros. apply list_eq. intros k. rewrite !lookup_slice by lia.
  case_decide; [|done]. case_decide; [|lia]. f_equal. lia.
Qed.

Lemma slice_splice_prefix b size off src :
  0 ≤ off → off + len src ≤ size → size ≤ len b →
  slice 0 size (splice b off src) = splice (slice 0 size b) off src.
Proof.
  intros. pose proof (len_nonneg src). apply list_eq. intros k.
  rewrite lookup_slice by lia. rewrite !lookup_splice by (rewrite ?len_slice; lia).
  rewrite lookup_slice by lia. simpl. repeat case_decide; done || lia.
Qed.

Lemma slice_zero b o : slice o 0 b = [].
Proof. done. Qed.

Lemma splice_nil b off : splice b off [] = b.
Proof. unfold splice. simpl. by rewrite Nat.add_0_r, take_drop. Qed.

(** Two adjacent stores are one. *)
Lemma splice_splice_adjacent b off x y :
  0 ≤ off → off + len x + len y ≤ len b →
  splice (splice b off x) (off + len x) y = splice b off (x ++ y).
Proof.
  intros. pose proof (len_nonneg x). pose proof (len_nonneg y). apply list_eq. intros k.
  rewrite !lookup_splice by (rewrite ?len_splice, ?len_app; lia).
  rewrite len_app. repeat case_decide; try lia; try done.
  - rewrite lookup_app_r by (unfold len in *; lia). f_equal. unfold len in *. lia.
  - rewrite lookup_app_l by (unfold len in *; lia). done.
Qed.

(** Bytes outside the spliced range keep their value. *)
Lemma slice_splice_other b off src o n :
  0 ≤ off → off + len src ≤ len b → 0 ≤ o → 0 ≤ n →
  o + n ≤ off ∨ off + len src ≤ o →
  slice o n (splice b off src) = slice o n b.
Proof.
  unfold len. intros Hoff Hle Ho Hn Hd. apply list_eq. intros k.
  rewrite !lookup_slice by done. case_decide; [|done]. unfold splice.
  destruct Hd.
  - rewrite lookup_app_l by (rewrite length_take; lia). by rewrite lookup_take_lt by lia.
  - rewrite lookup_app_r by (rewrite length_take; lia). rewrite length_take.
    rewrite lookup_app_r by lia. rewrite lookup_drop. f_equal. lia.
Qed.

(** The spliced range holds the new bytes. *)
Lemma slice_splice_same b off src :
  0 ≤ off → off + len src ≤ len b → slice off (len src) (splice b off src) = src.
Proof.
  unfold len. intros Hoff Hle. apply list_eq. intros k.
  rewrite lookup_slice by done. case_decide; [|by rewrite lookup_ge_None_2 by lia].
  unfold splice. rewrite lookup_app_r by (rewrite length_take; lia). rewrite length_take.
  rewrite lookup_app_l by lia. f_equal. lia.
Qed.

Lemma slice_splice_inner b off src o n :
  0 ≤ off → off + len src ≤ len b → off ≤ o → 0 ≤ n → o + n ≤ off + len src →
  slice o n (splice b off src) = slice (o - off) n src.
Proof.
  unfold len. intros. apply list_eq. intros k.
  rewrite !lookup_slice by lia. case_decide; [|done].
  unfold splice. rewrite lookup_app_r by (rewrite length_take; lia). rewrite length_take.
  rewrite lookup_app_l by lia. f_equal. lia.
Qed.

Lemma bytes_replicate (n : nat) (x : Z) : is_u8 x → bytes (replicate n x).
Proof. intros. by apply Forall_replicate. Qed.

Lemma bytes_slice off n b : bytes b → bytes (slice off n b).
Proof. intros. by apply Forall_take, Forall_drop. Qed.

Lemma bytes_drop (k : nat) b : bytes b → bytes (drop k b).
Proof. intros. by apply Forall_drop. Qed.

Lemma bytes_splice b off src : bytes b → bytes src → bytes (splice b off src).
Proof.
  intros Hb Hs. unfold splice, bytes. rewrite !Forall_app.
  split_and!; [by apply Forall_take|done|by apply Forall_drop].
Qed.

Lemma slice_app_cons off n b x :
  0 ≤ off → 0 ≤ n → b !! Z.to_nat off = Some x →
  slice off (Z.succ n) b = x :: slice (Z.succ off) n b.
Proof.
  intros Hoff Hn Hx. unfold slice. rewrite (drop_S b x _ Hx).
  by replace (Z.to_nat (Z.succ n)) with (S (Z.to_nat n)) by lia;
     replace (Z.to_nat (Z.succ off)) with (S (Z.to_nat off)) by lia.
Qed.

Lemma splice_snoc b off src v :
  0 ≤ off → off + len src < len b →
  <[Z.to_nat (off + len src) := v]> (splice b off src) = splice b off (src ++ [v]).
Proof.
  unfold len, splice. intros Hoff Hlt.
  rewrite insert_app_r_alt by (rewrite length_take; lia). rewrite length_take.
  rewrite insert_app_r_alt by lia. rewrite <- !app_assoc. f_equal. f_equal.
  rewrite length_app. simpl.
  destruct (drop (Z.to_nat off + length src) b) as [|y l] eqn:E.
  { apply (f_equal length) in E. rewrite length_drop in E. simpl in E. lia. }
  replace (_ - _ - _)%nat with 0%nat by lia. simpl. f_equal.
  rewrite Nat.add_assoc, <- drop_drop, E. done.
Qed.

Lemma splice_tail b k src :
  0 ≤ k ≤ len b → len src ≤ len b - k →
  take (Z.to_nat k) b ++ splice (drop (Z.to_nat k) b) 0 src = splice b k src.
Proof.
  intros. unfold splice. simpl. rewrite drop_drop. done.
Qed.

Lemma take_splice b l src :
  0 ≤ l ≤ len b → take (Z.to_nat (l + len src)) (splice b l src) = take (Z.to_nat l) b ++ src.
Proof.
  intros Hl. unfold splice. rewrite take_app_ge by (rewrite length_take; unfold len in *; lia).
  f_equal. rewrite length_take. unfold len in *. rewrite take_app_le by lia.
  apply take_ge. lia.
Qed.

Lemma elem_of_upto n i : i ∈ upto n ↔ 0 ≤ i < n.
Proof. unfold upto. rewrite elem_of_seqZ. lia. Qed.
End buffers.

Section loops.
Context {S : Type}.
Implicit Types (body : Z → S → option S).

Lemma foreach_app idx js body s :
  foreach (idx ++ js) body s = s' ← foreach idx body s; foreach js body s'.
Proof.
  revert s. induction idx as [|i idx IH]; intros s; simpl; [done|].
  destruct (body i s); simpl; auto.
Qed.

Lemma foreach_ext idx body body' s :
  (∀ i s, body i s = body' i s) → foreach idx body s = foreach idx body' s.
Proof.
  intros Heq. revert s. induction idx as [|i idx IH]; intros s; simpl; [done|].
  rewrite Heq. destruct (body' i s); simpl; auto.
Qed.

Lemma foreach_ext_in idx body body' s :
  (∀ i s, i ∈ idx → body i s = body' i s) → foreach idx body s = foreach idx body' s.
Proof.
  revert s. induction idx as [|i idx IH]; intros s Heq; simpl; [done|].
  rewrite Heq by set_solver. destruct (body' i s); simpl; [apply IH|done]. intros. apply Heq. set_solver.
Qed.

Lemma upto_succ n : 0 ≤ n → upto (Z.succ n) = upto n ++ [n].
Proof. intros. unfold upto. rewrite <- (Z2Nat.id n) by lia. rewrite <- Nat2Z.inj_succ, seqZ_S. done. Qed.

(** A loop that reads a buffer byte by byte is a fold over its bytes. *)
Lemma foreach_rd (f : S → Z → S) (b : list Z) n (s : S) :
  0 ≤ n ≤ len b →
  foreach (upto n) (λ i a, x ← rd b i; Some (f a x)) s = Some (fold_left f (slice 0 n b) s).
Proof.
  intros Hn. unfold upto.
  assert (∀ (m : nat) k a, 0 ≤ k → k + Z.of_nat m ≤ len b →
    foreach (seqZ k (Z.of_nat m)) (λ i a, x ← rd b i; Some (f a x)) a =
    Some (fold_left f (slice k (Z.of_nat m) b) a)) as Hgen.
  { induction m as [|m IH]; intros k a Hk Hm; [done|].
    rewrite seqZ_cons by lia. cbn [foreach].
    destruct (rd_some b k) as (x & Hx & Hl); [lia|]. rewrite Hx. simpl.
    replace (Z.pred (Z.of_nat (Datatypes.S m))) with (Z.of_nat m) by lia.
    rewrite IH by lia. replace (Z.of_nat (Datatypes.S m)) with (Z.succ (Z.of_nat m)) by lia.
    by rewrite (slice_app_cons _ _ _ x) by (done || lia). }
  specialize (Hgen (Z.to_nat n) 0 s). rewrite Z2Nat.id in Hgen by lia. apply Hgen; lia.
Qed.

End loops.

Section store_loop.
(** A loop that stores byte after byte is a splice. *)
Lemma foreach_wr (d src : list Z) (off : Z) (g : Z → option Z) :
  0 ≤ off → off + len src ≤ len d →
  (∀ j x, src !! j = Some x → g (Z.of_nat j) = Some x) →
  foreach (upto (len src)) (λ i d, x ← g i; wr d (off + i) x) d = Some (splice d off src).
Proof.
  intros Hoff. induction src as [|x src IH] using rev_ind; intros Hle Hg.
  { unfold splice. simpl. by rewrite Nat.add_0_r, take_drop. }
  rewrite len_app in *. change (len [x]) with 1 in *.
  rewrite Z.add_1_r, upto_succ, foreach_app by apply len_nonneg.
  rewrite IH; [|lia|].
  2: { intros j y Hj. apply Hg. by apply lookup_app_l_Some. }
  pose proof (len_nonneg src). simpl.
  assert (g (len src) = Some x) as -> by (apply Hg; by rewrite list_lookup_middle).
  simpl. rewrite wr_some by (rewrite len_splice; lia).
  simpl. by rewrite splice_snoc by lia.
Qed.
End store_loop.

#[export] Hint Resolve bytes_slice bytes_drop bytes_splice len_nonneg : card.

(** Arithmetic about the lengths of byte strings. *)
Ltac len_lia :=
  repeat first [ rewrite len_app | rewrite len_cons ];
  repeat match goal with
  | H : context [len (_ ++ _)] |- _ => rewrite len_app in H
  | H : context [len (_ :: _)] |- _ => rewrite len_cons in H
  end;
  change (@len []) with 0 in *;
  repeat match goal with
  | |- context [len ?b] => lazymatch goal with H : 0 <= len b |- _ => fail | _ => pose proof (len_nonneg b) end
  | H : context [len ?b] |- _ => lazymatch goal with H : 0 <= len b |- _ => fail | _ => pose proof (len_nonneg b) end
  end; lia.

(** Evaluate the reads from a buffer that is given element by element. *)
Lemma bind_some {A B} (a : A) (f : A → option B) : (Some a ≫= f) = f a.
Proof. done. Qed.

Ltac bind_simpl := repeat (rewrite bind_some; cbv beta).

Ltac rd_simpl :=
  repeat match goal with
  | |- context [rd ?l ?k] =>
      let v := eval vm_compute in (rd l k) in
      lazymatch v with Some _ => rewrite (eq_refl v <: rd l k = v) end
  end;
  bind_simpl.

(** ** Big-endian integers *)

Definition be16 (v : Z) : list Z := [u8 (Z.shiftr v 8); u8 (Z.land v 0xFF)].

Definition be32 (v : Z) : list Z :=
  [u8 (Z.shiftr v 24); u8 (Z.shiftr v 16); u8 (Z.shiftr v 8); u8 (Z.land v 0xFF)].

Lemma be16_val x y :
  is_u8 x → is_u8 y → u16 (Z.lor (Z.shiftl (u16 x) 8) (u16 y)) = x * 256 + y.
Proof.
  unfold is_u8. intros. rewrite (u16_id x), (u16_id y) by (unfold is_u16; lia).
  rewrite lor_shiftl_add by lia. apply u16_id. unfold is_u16. lia.
Qed.

Lemma be32_val a b c d :
  is_u8 a → is_u8 b → is_u8 c → is_u8 d →
  Z.lor (Z.lor (Z.lor (u32 (Z.shiftl (u32 a) 24)) (u32 (Z.shiftl (u32 b) 16)))
               (u32 (Z.shiftl (u32 c) 8))) (u32 d)
  = ((a * 256 + b) * 256 + c) * 256 + d.
Proof.
  unfold is_u8. intros. rewrite !(u32_id a), !(u32_id b), !(u32_id c), !(u32_id d) by (unfold is_u32; lia).
  rewrite !u32_id by (unfold is_u32; rewrite Z.shiftl_mul_pow2 by done; lia).
  rewrite <- !Z.lor_assoc. rewrite (lor_shiftl_add c d 8) by lia.
  rewrite (lor_shiftl_add b _ 16) by lia. rewrite (lor_shiftl_add a _ 24) by lia. lia.
Qed.

Lemma shiftr_256 v k : 0 ≤ k → Z.shiftr v k = v / 2 ^ k.
Proof. apply Z.shiftr_div_pow2. Qed.

(** The number the bytes of [be16] and [be32] stand for. *)
Lemma be16_bytes v : is_u16 v → ∃ x y, be16 v = [x; y] ∧ is_u8 x ∧ is_u8 y ∧ x * 256 + y = v.
Proof.
  unfold is_u16. intros. eexists _, _. split; [done|]. split; [apply u8_range|]. split; [apply u8_range|].
  unfold u8. rewrite land_255, shiftr_256 by done. change (2 ^ 8) with 256. lia.
Qed.

Lemma be32_bytes v :
  is_u32 v → ∃ a b c d, be32 v = [a; b; c; d] ∧ is_u8 a ∧ is_u8 b ∧ is_u8 c ∧ is_u8 d ∧
    ((a * 256 + b) * 256 + c) * 256 + d = v.
Proof.
  unfold is_u32. intros. eexists _, _, _, _. split; [done|]. do 4 (split; [apply u8_range|]).
  unfold u8. rewrite land_255, !shiftr_256 by done.
  change (2 ^ 8) with 256. change (2 ^ 16) with 65536. change (2 ^ 24) with 16777216. lia.
Qed.

Lemma bytes_be16 v : bytes (be16 v).
Proof. repeat constructor; apply u8_range. Qed.

Lemma bytes_be32 v : bytes (be32 v).
Proof. repeat constructor; apply u8_range. Qed.

Lemma bytes_app l l' : bytes l → bytes l' → bytes (l ++ l').
Proof. intros. by apply Forall_app. Qed.

#[export] Hint Resolve bytes_be16 bytes_be32 bytes_app : card.
