(* ===== verification/OsMem.v ===== *)
(** * Memory primitives of the OS core (src/kernel/os_mem.c)

    The freestanding replacements of the libc routines, as the loops the source
    writes, and the lemmas that give each loop as a block operation. *)

From S2P Require Import Prelude.

Definition os_memset (dst : ptr (list Z)) (value len : Z) : option (ptr (list Z)) :=
  match dst with
  | NULL => Some NULL
  | Ptr p =>
      p' ← foreach (upto len) (λ i p, wr p i (u8 value)) p;
      Some (Ptr p')
  end.

Definition os_memcpy_checked (dst : ptr (list Z)) (dst_cap : Z) (src : ptr (list Z)) (len : Z)
    : option (bool * ptr (list Z)) :=
  if len =? 0 then Some (true, dst) else
  match dst, src with
  | Ptr d, Ptr s =>
      if dst_cap <? len then Some (false, dst) else
      d' ← foreach (upto len) (λ i d, x ← rd s i; wr d (0 + i) x) d;
      Some (true, Ptr d')
  | _, _ => Some (false, dst)
  end.

Definition os_memeq_ct (a b : ptr (list Z)) (len : Z) : option bool :=
  match a, b with
  | Ptr pa, Ptr pb =>
      diff ← foreach (upto len)
               (λ i diff, x ← rd pa i; y ← rd pb i; Some (Z.lor diff (u8 (Z.lxor x y)))) 0;
      Some (diff =? 0)
  | _, _ => Some false
  end.

Definition os_memzero (dst : ptr (list Z)) (len : Z) : option (ptr (list Z)) :=
  os_memset dst 0 len.

(** ** Block forms *)

Lemma lookup_slice_in off n b (j : nat) x :
  0 ≤ off → slice off n b !! j = Some x → Z.of_nat j < n ∧ b !! (Z.to_nat off + j)%nat = Some x.
Proof. intros Hoff. rewrite lookup_slice by done. by case_decide. Qed.

Lemma rd_slice n b (j : nat) x :
  slice 0 n b !! j = Some x → rd b (Z.of_nat j) = Some x.
Proof.
  intros [_ H]%lookup_slice_in; [|done]. unfold rd.
  replace (0 <=? Z.of_nat j) with true by lia. by rewrite Nat2Z.id.
Qed.

Lemma os_memset_block p v n :
  0 ≤ n ≤ len p →
  os_memset (Ptr p) v n = Some (Ptr (splice p 0 (replicate (Z.to_nat n) (u8 v)))).
Proof.
  intros Hn. unfold os_memset.
  pose proof (foreach_wr p (replicate (Z.to_nat n) (u8 v)) 0 (λ _, Some (u8 v))) as H.
  rewrite len_replicate in H by lia.
  rewrite (foreach_ext _ _ (λ i d, x ← Some (u8 v); wr d (0 + i) x)) by (intros; done).
  rewrite H; [done|lia|lia|]. intros j x Hj. apply lookup_replicate in Hj as [-> _]. done.
Qed.

(** The whole contract of the checked copy. *)
Lemma os_memcpy_checked_block d cap s n :
  0 ≤ n ≤ len s → cap ≤ len d →
  os_memcpy_checked (Ptr d) cap (Ptr s) n =
    Some (if n <=? cap then (true, Ptr (splice d 0 (slice 0 n s)))
          else (n =? 0, Ptr d)).
Proof.
  intros Hn Hcap. unfold os_memcpy_checked. destruct (Z.eqb_spec n 0) as [->|Hne].
  { case_if; [|done]. unfold splice, slice. simpl. by rewrite drop_0. }
  rewrite Z.leb_antisym. destruct (Z.ltb_spec cap n); simpl; [done|].
  pose proof (foreach_wr d (slice 0 n s) 0 (λ i, rd s i)) as Hw.
  rewrite len_slice in Hw by lia. rewrite Hw; [done|lia|lia|apply rd_slice].
Qed.

Lemma lor_zero a b : Z.lor a b = 0 ↔ a = 0 ∧ b = 0.
Proof. apply Z.lor_eq_0_iff. Qed.

Lemma memeq_loop_zero pa pb (n : nat) d :
  bytes pa → bytes pb → Z.of_nat n ≤ len pa → Z.of_nat n ≤ len pb →
  ∃ d', foreach (upto (Z.of_nat n))
          (λ i diff, x ← rd pa i; y ← rd pb i; Some (Z.lor diff (u8 (Z.lxor x y)))) d = Some d' ∧
        (d' = 0 ↔ d = 0 ∧ slice 0 (Z.of_nat n) pa = slice 0 (Z.of_nat n) pb).
Proof.
  intros Ha Hb. induction n as [|n IH]; intros Hla Hlb.
  { exists d. split; [done|]. unfold slice. simpl. tauto. }
  destruct IH as (d' & Hd' & Hiff); [lia..|].
  rewrite Nat2Z.inj_succ, upto_succ, foreach_app, Hd' by lia. simpl.
  destruct (rd_byte pa (Z.of_nat n)) as (x & Hx & Hxb); [done|lia|].
  destruct (rd_byte pb (Z.of_nat n)) as (y & Hy & Hyb); [done|lia|].
  rewrite Hx, Hy. simpl. eexists. split; [done|]. rewrite lor_zero, Hiff.
  unfold rd in Hx, Hy. replace (0 <=? Z.of_nat n) with true in * by lia.
  rewrite Nat2Z.id in *. unfold slice. rewrite Z2Nat.inj_succ, Nat2Z.id by lia.
  rewrite (take_S_r _ n x), (take_S_r _ n y) by (rewrite lookup_drop; done).
  assert (u8 (Z.lxor x y) = 0 ↔ x = y) as ->.
  { rewrite <- (Z.lxor_eq_0_iff x y). unfold u8. rewrite <- land_255. unfold is_u8 in *.
    assert (Z.land (Z.lxor x y) 255 = Z.lxor x y) as ->; [|done].
    rewrite land_255, Z.mod_small; [done|]. split; [apply Z.lxor_nonneg; lia|].
    destruct (decide (Z.lxor x y = 0)); [lia|]. apply (Z.log2_lt_pow2 _ 8).
    - assert (0 ≤ Z.lxor x y) by (apply Z.lxor_nonneg; lia). lia.
    - pose proof (Z.log2_lxor x y).
      assert (∀ z, 0 ≤ z < 256 → Z.log2 z < 8) as Hl.
      { intros z Hz. destruct (decide (z = 0)) as [->|]; [done|]. apply Z.log2_lt_pow2; lia. }
      pose proof (Hl x Hxb). pose proof (Hl y Hyb). lia. }
  split.
  - intros [[? ?] ->]. split; congruence.
  - intros [? [Happ ?]%app_inj_2]; [|done]. split; [done|]. by simplify_eq.
Qed.

(** The constant-time comparison looks at every byte and answers [true]
    exactly when the two buffers agree on their first [n] bytes. *)
Lemma os_memeq_ct_correct pa pb n :
  bytes pa → bytes pb → 0 ≤ n → n ≤ len pa → n ≤ len pb →
  ∃ r, os_memeq_ct (Ptr pa) (Ptr pb) n = Some r ∧
       (r = true ↔ slice 0 n pa = slice 0 n pb).
Proof.
  intros Ha Hb Hn Hla Hlb.
  destruct (memeq_loop_zero pa pb (Z.to_nat n) 0) as (d & Hd & Hiff); [done..|lia|lia|].
  rewrite Z2Nat.id in * by lia. unfold os_memeq_ct. rewrite Hd. simpl. eexists. split; [done|].
  rewrite Z.eqb_eq, Hiff. tauto.
Qed.

Lemma os_memeq_ct_correct_witness :
  ∃ r, os_memeq_ct (Ptr [1;2;3]) (Ptr [1;2;4]) 2 = Some r ∧ (r = true ↔ slice 0 2 [1;2;3] = slice 0 2 [1;2;4]).
Proof.
  apply (os_memeq_ct_correct [1;2;3] [1;2;4] 2).
  1-2: repeat constructor; vm_compute; intuition discriminate.
  all: vm_compute; discriminate.
Defined.
