(* ===== verification/Crc16.v ===== *)
(** * CRC-16/CCITT-FALSE (src/kernel/crc16.c)

    The bitwise CRC that protects the superblock, every file descriptor and the
    boot header, and what it is able to detect: it is injective in any two
    adjacent bytes, so a corruption confined to two adjacent bytes changes it,
    and a block that ends in its own CRC has residue zero. *)

From S2P Require Import Prelude.

(** The body of the inner loop, and of the outer one. *)
Definition crc16_bit (crc : Z) : Z :=
  if negb (Z.land crc 0x8000 =? 0)
  then u16 (Z.lxor (u16 (Z.shiftl crc 1)) 0x1021)
  else u16 (Z.shiftl crc 1).

Definition crc16_byte (crc b : Z) : Z :=
  Nat.iter 8 crc16_bit (Z.lxor crc (u16 (Z.shiftl b 8))).

Definition crc16 (data : ptr (list Z)) (len : Z) : option Z :=
  match data with
  | NULL => Some 0xFFFF
  | Ptr p => foreach (upto len) (λ i crc, x ← rd p i; Some (crc16_byte crc x)) 0xFFFF
  end.

(** The CRC of a byte string. *)
Definition crc_bytes (l : list Z) : Z := fold_left crc16_byte l 0xFFFF.

#[global] Arguments crc16 : simpl never.

Lemma crc16_bytes p n : 0 ≤ n ≤ len p → crc16 (Ptr p) n = Some (crc_bytes (slice 0 n p)).
Proof. intros Hn. unfold crc16, crc_bytes. by rewrite foreach_rd. Qed.

(** ** One step is linear over exclusive or, and injective *)

Lemma testbit_high x n k : 0 ≤ x < 2 ^ n → 0 ≤ n ≤ k → Z.testbit x k = false.
Proof.
  intros Hx Hn. rewrite <- (Z.mod_small x (2 ^ n)) by lia. apply Z.mod_pow2_bits_high. lia.
Qed.

Lemma lxor_bound x y n : 0 ≤ n → 0 ≤ x < 2 ^ n → 0 ≤ y < 2 ^ n → 0 ≤ Z.lxor x y < 2 ^ n.
Proof.
  intros Hn Hx Hy. assert (0 ≤ Z.lxor x y) by (apply Z.lxor_nonneg; lia). split; [done|].
  destruct (decide (Z.lxor x y = 0)) as [->|]; [lia|]. apply Z.log2_lt_cancel.
  rewrite Z.log2_pow2 by done. apply Z.log2_lt_pow2; [lia|]. revert H.
  destruct (decide (2 ^ n ≤ Z.lxor x y)) as [Hge|]; [|lia]. intros _. exfalso.
  assert (Z.testbit (Z.lxor x y) (Z.log2 (Z.lxor x y)) = true) as Hb by (apply Z.bit_log2; lia).
  assert (n ≤ Z.log2 (Z.lxor x y)) by (apply Z.log2_le_pow2; lia).
  rewrite Z.lxor_spec, !(testbit_high _ n) in Hb by lia. done.
Qed.

Lemma lxor_u16 x y : is_u16 x → is_u16 y → is_u16 (Z.lxor x y).
Proof. apply (lxor_bound x y 16). done. Qed.

Lemma testbit_15 x : is_u16 x → Z.testbit x 15 = (32768 <=? x).
Proof.
  intros Hx. unfold is_u16 in Hx. rewrite Z.testbit_eqb by done. change (2 ^ 15) with 32768.
  destruct (Z.leb_spec 32768 x).
  - replace (x / 32768) with 1 by lia. done.
  - by rewrite Z.div_small by lia.
Qed.

Lemma land_8000 x : is_u16 x → negb (Z.land x 0x8000 =? 0) = Z.testbit x 15.
Proof.
  intros Hx. destruct (Z.testbit x 15) eqn:E.
  - apply negb_true_iff, Z.eqb_neq. intros H0.
    assert (Z.testbit (Z.land x 0x8000) 15 = true) by (by rewrite Z.land_spec, E).
    by rewrite H0 in *.
  - apply negb_false_iff, Z.eqb_eq. apply Z.bits_inj'. intros k Hk.
    rewrite Z.land_spec, Z.bits_0. change 0x8000 with (2 ^ 15).
    rewrite Z.pow2_bits_eqb by done. destruct (Z.eqb_spec 15 k) as [<-|]; [by rewrite E|].
    apply andb_false_r.
Qed.

(** Dropping bit 16 of a 17-bit value is an exclusive or. *)
Lemma lxor_drop_bit16 y : 65536 ≤ y < 131072 → u16 y = Z.lxor y 0x10000.
Proof.
  intros Hy. set (z := y - 65536). assert (is_u16 z) as Hz by (unfold is_u16; lia).
  assert (Z.lxor z 0x10000 = y) as Hxor.
  { rewrite <- Z.add_nocarry_lxor; [lia|]. apply Z.bits_inj'. intros k Hk.
    rewrite Z.land_spec, Z.bits_0. change 0x10000 with (2 ^ 16).
    rewrite Z.pow2_bits_eqb by done. destruct (Z.eqb_spec 16 k) as [<-|].
    - by rewrite (testbit_high z 16).
    - apply andb_false_r. }
  rewrite <- Hxor at 2. rewrite Z.lxor_assoc, Z.lxor_nilpotent, Z.lxor_0_r.
  unfold u16. lia.
Qed.

(** One step doubles and reduces by the polynomial. *)
Lemma crc16_bit_alt x :
  is_u16 x → crc16_bit x = Z.lxor (2 * x) (if Z.testbit x 15 then 0x11021 else 0).
Proof.
  intros Hx. unfold crc16_bit. rewrite land_8000 by done.
  rewrite Z.shiftl_mul_pow2 by done. change (2 ^ 1) with 2. rewrite (Z.mul_comm x).
  rewrite testbit_15 by done. unfold is_u16 in Hx. destruct (Z.leb_spec 32768 x).
  - rewrite (u16_id (Z.lxor _ _)) by (apply lxor_u16; [apply u16_range|done]).
    rewrite lxor_drop_bit16 by lia. by rewrite Z.lxor_assoc.
  - rewrite Z.lxor_0_r. apply u16_id. unfold is_u16. lia.
Qed.

Lemma crc16_bit_u16 x : is_u16 (crc16_bit x).
Proof. unfold crc16_bit. case_if; apply u16_range. Qed.

Lemma crc16_bit_lxor x y :
  is_u16 x → is_u16 y → crc16_bit (Z.lxor x y) = Z.lxor (crc16_bit x) (crc16_bit y).
Proof.
  intros Hx Hy. rewrite !crc16_bit_alt by auto using lxor_u16. rewrite Z.lxor_spec.
  replace (2 * Z.lxor x y) with (Z.lxor (2 * x) (2 * y)).
  2: { rewrite !(Z.mul_comm 2). change 2 with (2 ^ 1).
       by rewrite <- !Z.shiftl_mul_pow2, Z.shiftl_lxor by done. }
  rewrite !Z.lxor_assoc. f_equal.
  rewrite (Z.lxor_comm _ (Z.lxor (2 * y) _)), Z.lxor_assoc. f_equal.
  by destruct (Z.testbit x 15), (Z.testbit y 15).
Qed.

(** The polynomial is odd, so the lowest bit tells which case was taken. *)
Lemma crc16_bit_inj x y : is_u16 x → is_u16 y → crc16_bit x = crc16_bit y → x = y.
Proof.
  intros Hx Hy. rewrite !crc16_bit_alt by done. intros Heq.
  assert (Z.testbit x 15 = Z.testbit y 15) as Hb.
  { apply (f_equal (λ z, Z.testbit z 0)) in Heq. rewrite !Z.lxor_spec in Heq.
    rewrite !Z.testbit_even_0 in Heq. by destruct (Z.testbit x 15), (Z.testbit y 15). }
  rewrite Hb in Heq. apply (f_equal (λ z, Z.lxor z (if Z.testbit y 15 then 69665 else 0))) in Heq.
  rewrite !Z.lxor_assoc, Z.lxor_nilpotent, !Z.lxor_0_r in Heq. lia.
Qed.

Lemma crc16_bit_small x : 0 ≤ x < 32768 → crc16_bit x = 2 * x.
Proof.
  intros Hx. rewrite crc16_bit_alt by (unfold is_u16; lia).
  rewrite testbit_15 by (unfold is_u16; lia). replace (32768 <=? x) with false by lia.
  apply Z.lxor_0_r.
Qed.

(** ** The same for several steps *)

Abbreviation steps n := (Nat.iter n crc16_bit).

Lemma steps_u16 n x : is_u16 x → is_u16 (steps n x).
Proof. intros Hx. destruct n; simpl; [done|apply crc16_bit_u16]. Qed.

Lemma steps_lxor n x y :
  is_u16 x → is_u16 y → steps n (Z.lxor x y) = Z.lxor (steps n x) (steps n y).
Proof.
  intros Hx Hy. induction n as [|n IH]; simpl; [done|].
  rewrite IH. apply crc16_bit_lxor; by apply steps_u16.
Qed.

Lemma steps_inj n x y : is_u16 x → is_u16 y → steps n x = steps n y → x = y.
Proof.
  intros Hx Hy. induction n as [|n IH]; simpl; [done|].
  intros Heq. apply IH. apply crc16_bit_inj; auto using steps_u16.
Qed.

Lemma steps_add n m x : steps (n + m) x = steps n (steps m x).
Proof. apply Nat.iter_add. Qed.

(** A byte reaches the top half in eight steps without being reduced. *)
Lemma steps_8_byte b : is_u8 b → steps 8 b = Z.shiftl b 8.
Proof.
  intros Hb. unfold is_u8 in Hb. rewrite Z.shiftl_mul_pow2 by done. cbn [Nat.iter nat_rect].
  rewrite (crc16_bit_small b) by lia.
  do 7 (rewrite (crc16_bit_small (_ * _)) by lia). lia.
Qed.

Lemma shiftl_u16 b : is_u8 b → is_u16 (Z.shiftl b 8).
Proof. unfold is_u8, is_u16. rewrite Z.shiftl_mul_pow2 by done. lia. Qed.

Lemma u8_u16 b : is_u8 b → is_u16 b.
Proof. unfold is_u8, is_u16. lia. Qed.

#[local] Hint Resolve lxor_u16 steps_u16 shiftl_u16 u8_u16 crc16_bit_u16 : card.

Lemma crc16_byte_alt c b : is_u8 b → crc16_byte c b = steps 8 (Z.lxor c (Z.shiftl b 8)).
Proof. intros. unfold crc16_byte. by rewrite (u16_id (Z.shiftl b 8)) by auto with card. Qed.

Lemma crc16_byte_u16 c b : is_u16 (crc16_byte c b).
Proof. unfold crc16_byte. cbn [Nat.iter nat_rect]. apply crc16_bit_u16. Qed.

(** From here on a CRC step is only rewritten with the lemmas above. *)
#[global] Opaque crc16_bit crc16_byte.

(** Two bytes are absorbed as one 16-bit word. *)
Lemma crc16_two_bytes c a b :
  is_u16 c → is_u8 a → is_u8 b →
  crc16_byte (crc16_byte c a) b = steps 16 (Z.lxor (Z.lxor c (Z.shiftl a 8)) b).
Proof.
  intros. rewrite !crc16_byte_alt by done. change 16%nat with (8 + 8)%nat.
  rewrite steps_add. f_equal. rewrite <- (steps_8_byte b) by done.
  by rewrite <- steps_lxor by auto with card.
Qed.

Lemma crc_bytes_u16 l : is_u16 (crc_bytes l).
Proof.
  unfold crc_bytes. destruct l as [|x l _] using rev_ind; [done|].
  rewrite fold_left_app. apply crc16_byte_u16.
Qed.

Lemma crc_bytes_snoc l b : crc_bytes (l ++ [b]) = crc16_byte (crc_bytes l) b.
Proof. unfold crc_bytes. by rewrite fold_left_app. Qed.

Lemma crc_tail_inj l c c' :
  is_u16 c → is_u16 c' → bytes l →
  fold_left crc16_byte l c = fold_left crc16_byte l c' → c = c'.
Proof.
  intros Hc Hc' Hl. revert c c' Hc Hc'. induction Hl as [|b l Hb Hl IH]; [done|].
  intros c c' Hc Hc' Heq. simpl in Heq. apply IH in Heq; [|apply crc16_byte_u16..].
  rewrite !crc16_byte_alt in Heq by done.
  apply steps_inj in Heq; [|auto with card..].
  apply (f_equal (λ z, Z.lxor z (Z.shiftl b 8))) in Heq.
  by rewrite !Z.lxor_assoc, Z.lxor_nilpotent, !Z.lxor_0_r in Heq.
Qed.

Lemma lxor_word x y : is_u8 y → Z.lxor (Z.shiftl x 8) y = x * 256 + y.
Proof.
  intros Hy. rewrite <- Z.add_nocarry_lxor; [by rewrite Z.shiftl_mul_pow2|].
  apply Z.bits_inj'. intros k Hk. rewrite Z.land_spec, Z.bits_0.
  destruct (decide (k < 8)).
  - by rewrite Z.shiftl_spec_low by done.
  - rewrite (testbit_high y 8) by (unfold is_u8 in *; lia). apply andb_false_r.
Qed.

Lemma lxor_word_inj a b a' b' :
  is_u8 a → is_u8 b → is_u8 a' → is_u8 b' →
  Z.lxor (Z.shiftl a 8) b = Z.lxor (Z.shiftl a' 8) b' → a = a' ∧ b = b'.
Proof.
  intros Ha Hb Ha' Hb'.
  rewrite !lxor_word by done. unfold is_u8 in *. lia.
Qed.

Lemma crc16_two_bytes_inj c a b a' b' :
  is_u16 c → is_u8 a → is_u8 b → is_u8 a' → is_u8 b' →
  crc16_byte (crc16_byte c a) b = crc16_byte (crc16_byte c a') b' → a = a' ∧ b = b'.
Proof.
  intros Hc Ha Hb Ha' Hb' Heq.
  rewrite (crc16_two_bytes c a b Hc Ha Hb), (crc16_two_bytes c a' b' Hc Ha' Hb') in Heq.
  assert (Z.lxor (Z.lxor c (Z.shiftl a 8)) b = Z.lxor (Z.lxor c (Z.shiftl a' 8)) b') as Hx.
  { apply (steps_inj 16); auto 10 with card. }
  rewrite !Z.lxor_assoc in Hx. apply (f_equal (Z.lxor c)) in Hx.
  rewrite <- !(Z.lxor_assoc c c), Z.lxor_nilpotent, !Z.lxor_0_l in Hx.
  by apply lxor_word_inj.
Qed.

Lemma crc_burst_differs pre post a b a' b' :
  bytes pre → bytes post → is_u8 a → is_u8 b → is_u8 a' → is_u8 b' →
  (a, b) ≠ (a', b') →
  crc_bytes (pre ++ [a; b] ++ post) ≠ crc_bytes (pre ++ [a'; b'] ++ post).
Proof.
  intros Hpre Hpost Ha Hb Ha' Hb' Hne Heq. apply Hne. unfold crc_bytes in Heq.
  rewrite !fold_left_app in Heq. fold (crc_bytes pre) in Heq.
  apply (crc_tail_inj post) in Heq; [|apply crc16_byte_u16..|done].
  cbn [fold_left] in Heq.
  by destruct (crc16_two_bytes_inj _ a b a' b' (crc_bytes_u16 pre) Ha Hb Ha' Hb' Heq) as [-> ->].
Qed.

Lemma crc16_all l : crc16 (Ptr l) (len l) = Some (crc_bytes l).
Proof. rewrite crc16_bytes by (pose proof (len_nonneg l); lia). by rewrite slice_0_all. Qed.

(** [C35] A corruption confined to two adjacent bytes is always detected: two
    buffers that differ only there have different check sums. *)
Theorem crc16_detects_two_byte_burst pre post a b a' b' :
  bytes pre → bytes post → is_u8 a → is_u8 b → is_u8 a' → is_u8 b' → (a, b) ≠ (a', b') →
  ∃ c c', crc16 (Ptr (pre ++ [a; b] ++ post)) (len (pre ++ [a; b] ++ post)) = Some c ∧
    crc16 (Ptr (pre ++ [a'; b'] ++ post)) (len (pre ++ [a'; b'] ++ post)) = Some c' ∧ c ≠ c'.
Proof.
  intros. eexists _, _. split; [apply crc16_all|]. split; [apply crc16_all|].
  by apply crc_burst_differs.
Qed.

Lemma crc16_detects_two_byte_burst_witness :
  ∃ c c', crc16 (Ptr ([1] ++ [2; 3] ++ [4])) 4 = Some c ∧
    crc16 (Ptr ([1] ++ [2; 4] ++ [4])) 4 = Some c' ∧ c ≠ c'.
Proof.
  apply (crc16_detects_two_byte_burst [1] [4] 2 3 2 4); try (unfold is_u8; lia).
  1-2: repeat constructor; unfold is_u8; lia.
  intros [=].
Defined.

(** A block followed by its own CRC, high byte first, has residue zero. *)
Lemma crc_residue l hi lo :
  bytes l → is_u8 hi → is_u8 lo →
  hi * 256 + lo = crc_bytes l ↔ crc_bytes (l ++ [hi; lo]) = 0.
Proof.
  intros Hl Hhi Hlo. change [hi; lo] with ([hi] ++ [lo]).
  rewrite app_assoc, !crc_bytes_snoc.
  rewrite crc16_two_bytes by auto using crc_bytes_u16.
  assert (steps 16 0 = 0) as H0 by (vm_compute; reflexivity).
  rewrite Z.lxor_assoc, lxor_word by done. split.
  - intros ->. by rewrite Z.lxor_nilpotent.
  - intros Heq. rewrite <- H0 in Heq at 1.
    apply steps_inj in Heq; [by apply Z.lxor_eq in Heq| |done].
    apply lxor_u16; [apply crc_bytes_u16|]. unfold is_u8, is_u16 in *. lia.
Qed.

Example crc16_known_answer : crc16 (Ptr [49;50;51;52;53;54;55;56;57]) 9 = Some 0x29B1.
Proof. vm_compute. reflexivity. Qed.

(** ** Sealed records *)

(** A record followed by the check sum of its bytes. *)
Definition seal (body : list Z) : list Z := body ++ be16 (crc_bytes body).

Lemma bytes_seal l : bytes l → bytes (seal l).
Proof. intros. apply bytes_app; [done|apply bytes_be16]. Qed.

(** Clients reason with the lemmas above; unfolding on symbolic bytes never helps. *)
#[global] Opaque crc16 crc_bytes.
