(* ===== verification/Sw.v ===== *)
(** * Status words (include/apdu/sw.h)

    The ISO/IEC 7816-4 status words of the card and the two bytes they are sent
    as. *)

From S2P Require Import Prelude.

Definition SW_OK : Z := 0x9000.
Definition SW_MORE_DATA (n : Z) : Z := u16 (Z.lor 0x6100 (Z.land n 0xFF)).
Definition SW_NVM_UNCHANGED_EOF : Z := 0x6282.
Definition SW_NVM_CHANGED_PIN_TRIES (n : Z) : Z := u16 (Z.lor 0x63C0 (Z.land n 0x0F)).
Definition SW_NVM_UNCHANGED_ERROR : Z := 0x6400.
Definition SW_MEMORY_FAILURE : Z := 0x6581.
Definition SW_WRONG_LENGTH : Z := 0x6700.
Definition SW_LOGICAL_CHANNEL_NOT_SUPPORTED : Z := 0x6881.
Definition SW_SECURE_MESSAGING_NOT_SUPPORTED : Z := 0x6882.
Definition SW_LAST_CMD_EXPECTED : Z := 0x6883.
Definition SW_CHAINING_NOT_SUPPORTED : Z := 0x6884.
Definition SW_CMD_INCOMPATIBLE_FILE : Z := 0x6981.
Definition SW_SECURITY_NOT_SATISFIED : Z := 0x6982.
Definition SW_AUTH_METHOD_BLOCKED : Z := 0x6983.
Definition SW_REFERENCE_DATA_INVALIDATED : Z := 0x6984.
Definition SW_CONDITIONS_NOT_SATISFIED : Z := 0x6985.
Definition SW_COMMAND_NOT_ALLOWED_NO_EF : Z := 0x6986.
Definition SW_WRONG_DATA : Z := 0x6A80.
Definition SW_FUNC_NOT_SUPPORTED : Z := 0x6A81.
Definition SW_FILE_NOT_FOUND : Z := 0x6A82.
Definition SW_RECORD_NOT_FOUND : Z := 0x6A83.
Definition SW_NOT_ENOUGH_SPACE : Z := 0x6A84.
Definition SW_INCORRECT_P1P2 : Z := 0x6A86.
Definition SW_LC_INCONSISTENT_P1P2 : Z := 0x6A87.
Definition SW_REFERENCE_DATA_NOT_FOUND : Z := 0x6A88.
Definition SW_FILE_ALREADY_EXISTS : Z := 0x6A89.
Definition SW_WRONG_P1P2 : Z := 0x6B00.
Definition SW_WRONG_LE (n : Z) : Z := u16 (Z.lor 0x6C00 (Z.land n 0xFF)).
Definition SW_INS_NOT_SUPPORTED : Z := 0x6D00.
Definition SW_CLA_NOT_SUPPORTED : Z := 0x6E00.
Definition SW_NO_PRECISE_DIAGNOSIS : Z := 0x6F00.

Definition sw1 (sw : Z) : Z := u8 (Z.shiftr sw 8).
Definition sw2 (sw : Z) : Z := u8 (Z.land sw 0xFF).

(** The two bytes determine the status word. *)
Lemma sw_bytes sw : is_u16 sw → sw1 sw * 256 + sw2 sw = sw.
Proof.
  intros Hsw. unfold sw1, sw2, u8, is_u16 in *. rewrite land_255.
  rewrite Z.shiftr_div_pow2 by done. change (2 ^ 8) with 256. lia.
Qed.

Lemma sw1_byte sw : is_u8 (sw1 sw).
Proof. apply u8_range. Qed.
Lemma sw2_byte sw : is_u8 (sw2 sw).
Proof. apply u8_range. Qed.
#[export] Hint Resolve sw1_byte sw2_byte : card.
