(* ===== verification/Apdu.v ===== *)
(** * Command APDUs: parser, class check, response builder
    (src/apdu/apdu_parse.c, src/apdu/apdu_resp.c, include/apdu/apdu.h) *)

From S2P Require Import Prelude OsMem Sw.

Definition APDU_HEADER_LEN : Z := 4.
Definition APDU_SHORT_LC_MAX : Z := 255.
Definition APDU_SHORT_LE_MAX : Z := 256.

(** A C enumeration variable that [os_memset] may zero is kept as an integer. *)
Definition APDU_CASE_1 : Z := 1.
Definition APDU_CASE_2 : Z := 2.
Definition APDU_CASE_3 : Z := 3.
Definition APDU_CASE_4 : Z := 4.

Record apdu_command := ApduCommand {
  c_cla : Z; c_ins : Z; c_p1 : Z; c_p2 : Z;
  c_data : ptr (list Z);
  c_lc : Z;
  c_le : Z;
  c_le_present : bool;
  c_acase : Z;
}.

Definition apdu_command_zero : apdu_command := ApduCommand 0 0 0 0 NULL 0 0 false 0.

Inductive apdu_parse_status :=
| APDU_PARSE_OK | APDU_PARSE_TOO_SHORT | APDU_PARSE_BAD_LENGTH | APDU_PARSE_EXTENDED.

Inductive apdu_cla_status :=
| APDU_CLA_OK | APDU_CLA_INVALID | APDU_CLA_CHANNEL_UNSUPPORTED
| APDU_CLA_SM_UNSUPPORTED | APDU_CLA_CHAINING_UNSUPPORTED.

#[export] Instance apdu_parse_status_eq_dec : EqDecision apdu_parse_status.
Proof. solve_decision. Defined.
#[export] Instance apdu_cla_status_eq_dec : EqDecision apdu_cla_status.
Proof. solve_decision. Defined.

(** Le = 0 on the wire means 256. *)
Definition le_of_wire (b : Z) : Z := if b =? 0 then u16 APDU_SHORT_LE_MAX else u16 b.

Definition apdu_parse (buf : ptr (list Z)) (len : Z) (out : ptr apdu_command)
    : option (apdu_parse_status * ptr apdu_command) :=
  match out with
  | NULL => Some (APDU_PARSE_TOO_SHORT, NULL)
  | Ptr _ =>
  match buf with
  | NULL => Some (APDU_PARSE_TOO_SHORT, Ptr apdu_command_zero)
  | Ptr b =>
    if len <? APDU_HEADER_LEN then Some (APDU_PARSE_TOO_SHORT, Ptr apdu_command_zero) else
    cla ← rd b 0; ins ← rd b 1; p1 ← rd b 2; p2 ← rd b 3;
    (* Case 1: header only *)
    if len =? APDU_HEADER_LEN then
      Some (APDU_PARSE_OK, Ptr (ApduCommand cla ins p1 p2 NULL 0 0 false APDU_CASE_1))
    else
    p3 ← rd b 4;
    (* exactly five bytes: the fifth is Le *)
    if len =? APDU_HEADER_LEN + 1 then
      Some (APDU_PARSE_OK,
            Ptr (ApduCommand cla ins p1 p2 NULL 0 (le_of_wire p3) true APDU_CASE_2))
    else
    (* a zero Lc followed by more data is the extended encoding *)
    if p3 =? 0 then Some (APDU_PARSE_EXTENDED, Ptr apdu_command_zero) else
    let lc := u32 p3 in
    let total := u32 len in
    let case3_len := u32 (APDU_HEADER_LEN + 1 + lc) in
    let case4_len := u32 (APDU_HEADER_LEN + 1 + lc + 1) in
    if total =? case3_len then
      Some (APDU_PARSE_OK,
            Ptr (ApduCommand cla ins p1 p2 (at_off b (APDU_HEADER_LEN + 1)) (u16 lc)
                   0 false APDU_CASE_3))
    else if total =? case4_len then
      le_byte ← rd b (case4_len - 1);
      Some (APDU_PARSE_OK,
            Ptr (ApduCommand cla ins p1 p2 (at_off b (APDU_HEADER_LEN + 1)) (u16 lc)
                   (le_of_wire le_byte) true APDU_CASE_4))
    else Some (APDU_PARSE_BAD_LENGTH, Ptr apdu_command_zero)
  end
  end.

Definition apdu_parse_status_sw (st : apdu_parse_status) : Z :=
  match st with
  | APDU_PARSE_OK => SW_OK
  | APDU_PARSE_TOO_SHORT | APDU_PARSE_BAD_LENGTH => SW_WRONG_LENGTH
  | APDU_PARSE_EXTENDED => SW_FUNC_NOT_SUPPORTED
  end.

Definition apdu_check_cla (cla : Z) : apdu_cla_status :=
  if cla =? 0xFF then APDU_CLA_INVALID else
  if negb (Z.land cla 0xE0 =? 0) then APDU_CLA_INVALID else
  if negb (Z.land cla 0x10 =? 0) then APDU_CLA_CHAINING_UNSUPPORTED else
  if negb (Z.land cla 0x0C =? 0) then APDU_CLA_SM_UNSUPPORTED else
  if negb (Z.land cla 0x03 =? 0) then APDU_CLA_CHANNEL_UNSUPPORTED else
  APDU_CLA_OK.

Definition apdu_cla_status_sw (st : apdu_cla_status) : Z :=
  match st with
  | APDU_CLA_OK => SW_OK
  | APDU_CLA_CHANNEL_UNSUPPORTED => SW_LOGICAL_CHANNEL_NOT_SUPPORTED
  | APDU_CLA_SM_UNSUPPORTED => SW_SECURE_MESSAGING_NOT_SUPPORTED
  | APDU_CLA_CHAINING_UNSUPPORTED => SW_CHAINING_NOT_SUPPORTED
  | APDU_CLA_INVALID => SW_CLA_NOT_SUPPORTED
  end.

(** ** Response builder *)

Record apdu_response := ApduResponse {
  r_buf : ptr (list Z);
  r_cap : Z;
  r_len : Z;
  r_overflow : bool;
}.

Definition rsp_set_overflow (r : apdu_response) : apdu_response :=
  ApduResponse (r_buf r) (r_cap r) (r_len r) true.

Definition apdu_rsp_init (r : ptr apdu_response) (buf : ptr (list Z)) (cap : Z)
    : ptr apdu_response :=
  match r with
  | NULL => NULL
  | Ptr _ => Ptr (ApduResponse buf (if is_null buf then 0 else cap) 0 false)
  end.

Definition apdu_rsp_put (r : ptr apdu_response) (src : ptr (list Z)) (n : Z)
    : option (bool * ptr apdu_response) :=
  match r with
  | NULL => Some (false, NULL)
  | Ptr r =>
    if n =? 0 then Some (true, Ptr r) else
    if is_null src then Some (false, Ptr (rsp_set_overflow r)) else
    let reserve := 2 in
    let available := if reserve <=? r_cap r then u32 (r_cap r - reserve) else 0 in
    if available <? u32 (r_len r + n) then Some (false, Ptr (rsp_set_overflow r)) else
    match r_buf r with
    | NULL => None
    | Ptr b =>
      '(ok, d) ← os_memcpy_checked (at_off b (r_len r)) (r_cap r - r_len r) src n;
      match d with
      | NULL => None
      | Ptr d =>
        let b' := Ptr (take (Z.to_nat (r_len r)) b ++ d) in
        if negb ok then Some (false, Ptr (ApduResponse b' (r_cap r) (r_len r) true)) else
        Some (true, Ptr (ApduResponse b' (r_cap r) (u16 (r_len r + n)) (r_overflow r)))
      end
    end
  end.

Definition apdu_rsp_put_u8 (r : ptr apdu_response) (b : Z) : option (bool * ptr apdu_response) :=
  apdu_rsp_put r (Ptr [b]) 1.

Definition apdu_rsp_put_u16 (r : ptr apdu_response) (v : Z) : option (bool * ptr apdu_response) :=
  apdu_rsp_put r (Ptr [u8 (Z.shiftr v 8); u8 (Z.land v 0xFF)]) 2.

Definition apdu_rsp_finish (r : ptr apdu_response) (sw : Z) : option (Z * ptr apdu_response) :=
  match r with
  | NULL => Some (0, NULL)
  | Ptr r =>
    match r_buf r with
    | NULL => Some (0, Ptr r)
    | Ptr b =>
      if r_cap r <? 2 then Some (0, Ptr r) else
      let len := if r_overflow r then 0 else r_len r in
      let status := if r_overflow r then SW_NO_PRECISE_DIAGNOSIS else sw in
      b ← wr b len (sw1 status);
      b ← wr b (len + 1) (sw2 status);
      let len := u16 (len + 2) in
      Some (len, Ptr (ApduResponse (Ptr b) (r_cap r) len (r_overflow r)))
    end
  end.

(** ** Reference encoding: the four ISO cases *)

(** The wire byte of an expected length. *)
Definition le_to_wire (le : Z) : Z := if le =? 256 then 0 else le.

Definition encode_command (cla ins p1 p2 : Z) (d : list Z) (le : option Z) : list Z :=
  [cla; ins; p1; p2]
  ++ (if decide (d = []) then [] else len d :: d)
  ++ (match le with None => [] | Some n => [le_to_wire n] end).

Definition parsed_command (cla ins p1 p2 : Z) (d : list Z) (le : option Z) : apdu_command :=
  ApduCommand cla ins p1 p2
    (if decide (d = []) then NULL
     else Ptr (d ++ match le with None => [] | Some n => [le_to_wire n] end))
    (len d)
    (default 0 le)
    (match le with None => false | Some _ => true end)
    (match d, le with
     | [], None => APDU_CASE_1 | [], Some _ => APDU_CASE_2
     | _, None => APDU_CASE_3 | _, Some _ => APDU_CASE_4
     end).

Definition valid_body (d : list Z) (le : option Z) : Prop :=
  len d ≤ APDU_SHORT_LC_MAX ∧ match le with None => True | Some n => 1 ≤ n ≤ APDU_SHORT_LE_MAX end.

(** ** Parser lemmas *)

Lemma le_wire_roundtrip n : 1 ≤ n ≤ 256 → le_of_wire (le_to_wire n) = n.
Proof.
  intros. unfold le_of_wire, le_to_wire, APDU_SHORT_LE_MAX, u16.
  destruct (Z.eqb_spec n 256) as [->|]; [done|]. destruct (Z.eqb_spec n 0); lia.
Qed.

Lemma le_to_of_wire x : is_u8 x → le_to_wire (le_of_wire x) = x ∧ 1 ≤ le_of_wire x ≤ 256.
Proof.
  unfold is_u8, le_of_wire, le_to_wire, APDU_SHORT_LE_MAX, u16. intros.
  destruct (Z.eqb_spec x 0) as [->|]; [done|].
  rewrite Z.mod_small by lia. destruct (Z.eqb_spec x 256); lia.
Qed.

Lemma le_of_wire_range x : is_u8 x → 1 ≤ le_of_wire x ≤ 256.
Proof. apply le_to_of_wire. Qed.

(** The parser on an APDU of [5 + m] bytes. *)
Lemma apdu_parse_long a0 a1 a2 a3 a4 r m o :
  is_u8 a4 → 0 < m → m < 65000 →
  apdu_parse (Ptr (a0 :: a1 :: a2 :: a3 :: a4 :: r)) (5 + m) (Ptr o) =
    if a4 =? 0 then Some (APDU_PARSE_EXTENDED, Ptr apdu_command_zero)
    else if m =? a4 then
      Some (APDU_PARSE_OK, Ptr (ApduCommand a0 a1 a2 a3 (Ptr r) a4 0 false APDU_CASE_3))
    else if m =? a4 + 1 then
      le_byte ← r !! Z.to_nat a4;
      Some (APDU_PARSE_OK,
            Ptr (ApduCommand a0 a1 a2 a3 (Ptr r) a4 (le_of_wire le_byte) true APDU_CASE_4))
    else Some (APDU_PARSE_BAD_LENGTH, Ptr apdu_command_zero).
Proof.
  intros Ha4 Hr Hr'. unfold is_u8 in Ha4.
  unfold apdu_parse, APDU_HEADER_LEN, u16, u32.
  change (rd (a0 :: a1 :: a2 :: a3 :: a4 :: r) 0) with (Some a0).
  change (rd (a0 :: a1 :: a2 :: a3 :: a4 :: r) 1) with (Some a1).
  change (rd (a0 :: a1 :: a2 :: a3 :: a4 :: r) 2) with (Some a2).
  change (rd (a0 :: a1 :: a2 :: a3 :: a4 :: r) 3) with (Some a3).
  change (rd (a0 :: a1 :: a2 :: a3 :: a4 :: r) 4) with (Some a4).
  cbn [mbind option_bind].
  replace (5 + m <? 4) with false by lia. replace (5 + m =? 4) with false by lia.
  replace (5 + m =? 4 + 1) with false by lia.
  destruct (a4 =? 0); [done|].
  rewrite !(Z.mod_small a4), !(Z.mod_small (5 + m)), !(Z.mod_small (4 + 1 + a4)), !(Z.mod_small (4 + 1 + a4 + 1)) by lia.
  replace (5 + m =? 4 + 1 + a4) with (m =? a4) by lia.
  replace (5 + m =? 4 + 1 + a4 + 1) with (m =? a4 + 1) by lia.
  change (at_off (a0 :: a1 :: a2 :: a3 :: a4 :: r) (4 + 1)) with (Ptr r).
  destruct (m =? a4); [done|]. destruct (m =? a4 + 1); [|done].
  replace (4 + 1 + a4 + 1 - 1) with (5 + a4) by lia. unfold rd.
  replace (0 <=? 5 + a4) with true by lia.
  replace (Z.to_nat (5 + a4)) with (5 + Z.to_nat a4)%nat by lia. done.
Qed.

(** A command parsed out of a longer buffer: its data pointer leads into it. *)
Definition with_tail (c : apdu_command) (t : list Z) : apdu_command :=
  ApduCommand (c_cla c) (c_ins c) (c_p1 c) (c_p2 c)
    (match c_data c with NULL => NULL | Ptr d => Ptr (d ++ t) end)
    (c_lc c) (c_le c) (c_le_present c) (c_acase c).

Lemma with_tail_nil c : with_tail c [] = c.
Proof. destruct c as [? ? ? ? [|d] ? ? ? ?]; [done|]. unfold with_tail. cbn. by rewrite app_nil_r. Qed.

Lemma apdu_parse_encode_buffer cla ins p1 p2 d le t o :
  valid_body d le →
  apdu_parse (Ptr (encode_command cla ins p1 p2 d le ++ t)) (len (encode_command cla ins p1 p2 d le))
    (Ptr o) = Some (APDU_PARSE_OK, Ptr (with_tail (parsed_command cla ins p1 p2 d le) t)).
Proof.
  intros [Hd Hle]. unfold APDU_SHORT_LC_MAX, APDU_SHORT_LE_MAX in *.
  unfold encode_command, parsed_command, with_tail. destruct d as [|x d].
  { rewrite !decide_True by done. destruct le as [n|]; [|reflexivity].
    change (Some (APDU_PARSE_OK, Ptr (ApduCommand cla ins p1 p2 NULL 0
      (le_of_wire (le_to_wire n)) true APDU_CASE_2)) =
      Some (APDU_PARSE_OK, Ptr (ApduCommand cla ins p1 p2 NULL 0 n true APDU_CASE_2))).
    by rewrite le_wire_roundtrip. }
  rewrite decide_False by done. set (D := x :: d) in *.
  assert (0 < len D) by (unfold D; rewrite len_cons; pose proof (len_nonneg d); lia).
  set (T := match le with None => [] | Some n => [le_to_wire n] end).
  assert (len T = match le with None => 0 | Some _ => 1 end) as HT by (unfold T; by destruct le).
  change (([cla; ins; p1; p2] ++ (len D :: D) ++ T) ++ t) with (cla :: ins :: p1 :: p2 :: len D :: ((D ++ T) ++ t)).
  change ([cla; ins; p1; p2] ++ (len D :: D) ++ T) with (cla :: ins :: p1 :: p2 :: len D :: (D ++ T)).
  replace (len (cla :: _)) with (5 + len (D ++ T)) by (rewrite !len_cons; lia).
  rewrite apdu_parse_long by (unfold is_u8; rewrite ?len_app, ?HT; destruct le; lia).
  replace (len D =? 0) with false by lia. rewrite len_app, HT. cbn [c_data]. destruct le as [n|].
  - replace (len D + 1 =? len D) with false by lia. rewrite Z.eqb_refl.
    assert (((D ++ T) ++ t) !! Z.to_nat (len D) = Some (le_to_wire n)) as ->.
    { unfold len. rewrite Nat2Z.id, <- app_assoc. rewrite lookup_app_r, Nat.sub_diag by lia. done. }
    simpl. by rewrite le_wire_roundtrip.
  - rewrite Z.add_0_r, Z.eqb_refl. done.
Qed.

Lemma apdu_parse_encode cla ins p1 p2 d le o :
  valid_body d le →
  apdu_parse (Ptr (encode_command cla ins p1 p2 d le)) (len (encode_command cla ins p1 p2 d le))
    (Ptr o) = Some (APDU_PARSE_OK, Ptr (parsed_command cla ins p1 p2 d le)).
Proof.
  intros Hv. pose proof (apdu_parse_encode_buffer cla ins p1 p2 d le [] o Hv) as H.
  by rewrite with_tail_nil, app_nil_r in H.
Qed.

Lemma apdu_parse_decode b o c :
  bytes b → len b < 65536 →
  apdu_parse (Ptr b) (len b) (Ptr o) = Some (APDU_PARSE_OK, Ptr c) →
  ∃ cla ins p1 p2 d le,
    valid_body d le ∧ b = encode_command cla ins p1 p2 d le ∧ c = parsed_command cla ins p1 p2 d le.
Proof.
  intros Hb Hlen. unfold valid_body, APDU_SHORT_LC_MAX, APDU_SHORT_LE_MAX.
  destruct b as [|a0 [|a1 [|a2 [|a3 [|a4 r]]]]]; [done..| |].
  { intros [= <-]. exists a0, a1, a2, a3, [], None. done. }
  rewrite !bytes_cons in Hb. destruct Hb as (_&_&_&_&Ha4&Hr).
  destruct r as [|x r].
  { intros [= <-]. exists a0, a1, a2, a3, [], (Some (le_of_wire a4)).
    destruct (le_to_of_wire a4 Ha4) as [Hw ?]. unfold encode_command, parsed_command. simpl.
    by rewrite Hw. }
  set (R := x :: r) in *.
  assert (0 < len R) by (unfold R; rewrite len_cons; pose proof (len_nonneg r); lia).
  replace (len _) with (5 + len R) by (rewrite !len_cons; lia). rewrite !len_cons in Hlen.
  destruct (decide (len R < 65000)) as [Hsmall|Hbig].
  2: { unfold apdu_parse, APDU_HEADER_LEN, u32. unfold is_u8 in *.
       replace (5 + len R <? 4) with false by lia. replace (5 + len R =? 4) with false by lia.
       replace (5 + len R =? 4 + 1) with false by lia. simpl. change (rd _ 4) with (Some a4). simpl.
       destruct (a4 =? 0); [done|].
       replace (_ =? _) with false by lia. replace (_ =? _) with false by lia. done. }
  rewrite apdu_parse_long by done. unfold is_u8 in Ha4.
  destruct (Z.eqb_spec a4 0); [done|].
  destruct (Z.eqb_spec (len R) a4) as [<-|].
  { intros [= <-]. exists a0, a1, a2, a3, R, None. split; [lia|].
    unfold encode_command, parsed_command. rewrite decide_False by done. by rewrite !app_nil_r. }
  destruct (Z.eqb_spec (len R) (a4 + 1)) as [Heq|]; [|done].
  destruct R as [|y D] eqn:ER using rev_ind; [done|clear IHD].
  assert (len D = a4) as HD by (rewrite len_app in Heq; change (len [y]) with 1 in Heq; lia).
  unfold len in HD at 1.
  assert ((D ++ [y]) !! Z.to_nat a4 = Some y) as Hy
    by (rewrite <- HD, Nat2Z.id; by rewrite lookup_app_r, Nat.sub_diag by lia).
  rewrite Hy. simpl. intros [= <-].
  assert (is_u8 y) as Hyb by (by apply (Forall_lookup_1 _ _ _ _ Hr Hy)).
  destruct (le_to_of_wire y Hyb) as [Hw ?].
  exists a0, a1, a2, a3, D, (Some (le_of_wire y)). fold (len D) in HD. split; [split; lia|].
  unfold encode_command, parsed_command. rewrite decide_False by (intros ->; done).
  rewrite Hw, HD. split; [done|]. destruct D; [done|]. done.
Qed.

(** [C33] The parser accepts exactly the four ISO encodings of a short APDU, and
    recovers the header, the data field and the expected length (with Le = 0
    read as 256) from them. *)
Theorem apdu_parse_iso_cases b o c :
  bytes b → len b < 65536 →
  apdu_parse (Ptr b) (len b) (Ptr o) = Some (APDU_PARSE_OK, Ptr c) ↔
  ∃ cla ins p1 p2 d le,
    valid_body d le ∧ b = encode_command cla ins p1 p2 d le ∧ c = parsed_command cla ins p1 p2 d le.
Proof.
  intros Hb Hl. split; [by apply apdu_parse_decode|].
  intros (cla & ins & p1 & p2 & d & le & Hv & -> & ->). by apply apdu_parse_encode.
Qed.

Lemma apdu_parse_iso_cases_witness :
  apdu_parse (Ptr [0; 0xA4; 0; 0; 2; 0x3F; 0; 0]) 8 (Ptr apdu_command_zero) =
  Some (APDU_PARSE_OK, Ptr (parsed_command 0 0xA4 0 0 [0x3F; 0] (Some 256))).
Proof.
  apply (apdu_parse_iso_cases [0; 0xA4; 0; 0; 2; 0x3F; 0; 0] apdu_command_zero
           (parsed_command 0 0xA4 0 0 [0x3F; 0] (Some 256))); [solve_bytes|done|].
  exists 0, 0xA4, 0, 0, [0x3F; 0], (Some 256). split; [|done].
  split; [|vm_compute; intuition discriminate]. vm_compute. discriminate.
Defined.

(** ** What a parsed command promises to its handler *)

Record cmd_wf (c : apdu_command) : Prop := {
  cw_p1 : is_u8 (c_p1 c);
  cw_p2 : is_u8 (c_p2 c);
  cw_lc : 0 ≤ c_lc c ≤ APDU_SHORT_LC_MAX;
  cw_le : c_le_present c = true → 1 ≤ c_le c ≤ APDU_SHORT_LE_MAX;
  cw_data : match c_data c with
            | NULL => c_lc c = 0
            | Ptr d => 0 < c_lc c ≤ len d ∧ bytes d
            end;
}.

(** The parser never leaves [buf[0..len)]: it is defined even when the buffer
    has exactly [len] bytes; a failure zeroes the output. *)
Lemma apdu_parse_safe b n o :
  bytes b → 0 ≤ n ≤ len b → n < 65536 →
  wp (apdu_parse (Ptr b) n (Ptr o)) (λ '(st, out),
    if decide (st = APDU_PARSE_OK) then ∃ c, out = Ptr c ∧ cmd_wf c
    else out = Ptr apdu_command_zero).
Proof.
  intros Hb Hn Hn'. unfold apdu_parse, APDU_HEADER_LEN.
  destruct (Z.ltb_spec n 4); [done|].
  destruct (rd_byte b 0) as (a0 & -> & H0); [done|lia|].
  destruct (rd_byte b 1) as (a1 & -> & H1); [done|lia|].
  destruct (rd_byte b 2) as (a2 & -> & H2); [done|lia|].
  destruct (rd_byte b 3) as (a3 & -> & H3); [done|lia|]. cbn [mbind option_bind].
  destruct (Z.eqb_spec n 4).
  { simpl. eexists. split; [done|]. constructor; unfold APDU_SHORT_LC_MAX; simpl; done || lia. }
  destruct (rd_byte b 4) as (a4 & -> & H4); [done|lia|]. cbn [mbind option_bind].
  destruct (Z.eqb_spec n (4 + 1)).
  { simpl. eexists. split; [done|]. pose proof (le_of_wire_range a4 H4).
    constructor; unfold APDU_SHORT_LC_MAX; simpl; done || lia. }
  destruct (Z.eqb_spec a4 0); [done|].
  assert (1 ≤ a4 < 256) as Ha4 by (unfold is_u8 in H4; lia).
  unfold u32, u16. rewrite !(Z.mod_small a4), !(Z.mod_small n), !(Z.mod_small (4 + 1 + a4)),
    !(Z.mod_small (4 + 1 + a4 + 1)) by lia.
  assert (len (drop (Z.to_nat (4 + 1)) b) = len b - 5) as Hd by (rewrite len_drop; lia).
  destruct (Z.eqb_spec n (4 + 1 + a4)).
  { simpl. eexists. split; [done|].
    constructor; unfold APDU_SHORT_LC_MAX, at_off; simpl; [done|done|lia|done|].
    split; [lia|by apply bytes_drop]. }
  destruct (Z.eqb_spec n (4 + 1 + a4 + 1)); [|done].
  destruct (rd_byte b (4 + 1 + a4 + 1 - 1)) as (y & -> & Hy); [done|lia|]. simpl.
  eexists. split; [done|]. pose proof (le_of_wire_range y Hy).
  constructor; unfold APDU_SHORT_LC_MAX, at_off; simpl; [done|done|lia|done|].
  split; [lia|by apply bytes_drop].
Qed.

(** The class byte is classified by its bit fields, most significant
    first; only class 00 is served. *)
Lemma apdu_check_cla_spec cla :
  is_u8 cla →
  apdu_check_cla cla =
    (if 32 <=? cla then APDU_CLA_INVALID
     else if 16 <=? cla then APDU_CLA_CHAINING_UNSUPPORTED
     else if 4 <=? cla then APDU_CLA_SM_UNSUPPORTED
     else if 1 <=? cla then APDU_CLA_CHANNEL_UNSUPPORTED
     else APDU_CLA_OK).
Proof.
  intros Hc.
  assert (∀ x, x ∈ upto 256 → apdu_check_cla x =
    (if 32 <=? x then APDU_CLA_INVALID else if 16 <=? x then APDU_CLA_CHAINING_UNSUPPORTED
     else if 4 <=? x then APDU_CLA_SM_UNSUPPORTED
     else if 1 <=? x then APDU_CLA_CHANNEL_UNSUPPORTED else APDU_CLA_OK)) as Hall.
  { apply Forall_forall. apply (bool_decide_unpack _). vm_compute. done. }
  apply Hall, elem_of_upto. done.
Qed.

Lemma apdu_check_cla_spec_witness : apdu_check_cla 0x0C = APDU_CLA_SM_UNSUPPORTED.
Proof. rewrite (apdu_check_cla_spec 0x0C) by (unfold is_u8; lia). reflexivity. Defined.

(** ** Response builder lemmas *)

Record rsp_wf (r : apdu_response) (b : list Z) : Prop := {
  rw_buf : r_buf r = Ptr b;
  rw_cap : 2 ≤ r_cap r < 65536;
  rw_room : r_cap r ≤ len b;
  rw_len : 0 ≤ r_len r ≤ r_cap r - 2;
}.

Lemma rsp_put_fits r b s n :
  rsp_wf r b → 0 ≤ n ≤ len s → r_len r + n ≤ r_cap r - 2 →
  apdu_rsp_put (Ptr r) (Ptr s) n =
    Some (true, Ptr (ApduResponse (Ptr (splice b (r_len r) (slice 0 n s))) (r_cap r)
                       (r_len r + n) (r_overflow r))).
Proof.
  intros [Hb Hcap Hroom Hlen] Hn Hfit. unfold apdu_rsp_put. destruct (Z.eqb_spec n 0) as [->|].
  { unfold slice, splice. simpl. rewrite Nat.add_0_r, take_drop, Z.add_0_r, <- Hb.
    by destruct r. }
  simpl. unfold u32, u16. replace (2 <=? r_cap r) with true by lia.
  rewrite !Z.mod_small by lia. replace (_ <? _) with false by lia. rewrite Hb.
  unfold at_off. rewrite os_memcpy_checked_block by (rewrite ?len_drop; lia).
  replace (n <=? r_cap r - r_len r) with true by lia. simpl.
  rewrite splice_tail by (rewrite ?len_slice; lia). done.
Qed.

Lemma rsp_put_overflow r b s n :
  rsp_wf r b → r_cap r - 2 < r_len r + n → n < 65536 →
  apdu_rsp_put (Ptr r) (Ptr s) n = Some (false, Ptr (rsp_set_overflow r)).
Proof.
  intros [Hb Hcap Hroom Hlen] Hover Hn. unfold apdu_rsp_put.
  destruct (Z.eqb_spec n 0) as [->|]; [lia|]. simpl.
  unfold u32. replace (2 <=? r_cap r) with true by lia.
  rewrite !Z.mod_small by lia. by replace (_ <? _) with true by lia.
Qed.

Lemma rsp_finish_wf r b sw :
  rsp_wf r b →
  let l := if r_overflow r then 0 else r_len r in
  let st := if r_overflow r then SW_NO_PRECISE_DIAGNOSIS else sw in
  apdu_rsp_finish (Ptr r) sw =
    Some (l + 2, Ptr (ApduResponse (Ptr (splice b l [sw1 st; sw2 st])) (r_cap r) (l + 2)
                        (r_overflow r))).
Proof.
  intros [Hb Hcap Hroom Hlen] l st. unfold apdu_rsp_finish. rewrite Hb.
  replace (r_cap r <? 2) with false by lia.
  assert (0 ≤ l ≤ r_cap r - 2) as Hl by (unfold l; destruct (r_overflow r); lia).
  fold l st. rewrite wr_some by lia. cbn [mbind option_bind].
  rewrite wr_some by (unfold len in *; rewrite length_insert; lia). cbn [mbind option_bind].
  unfold u16. rewrite Z.mod_small by lia.
  assert (<[Z.to_nat (l + 1):=sw2 st]> (<[Z.to_nat l:=sw1 st]> b) = splice b l [sw1 st; sw2 st])
    as ->; [|done].
  change [sw1 st; sw2 st] with ([sw1 st] ++ [sw2 st]).
  pose proof (splice_snoc b l [] (sw1 st)) as H1. rewrite Z.add_0_r in H1.
  rewrite <- (splice_snoc b l [sw1 st]) by (change (len [_]) with 1; lia).
  rewrite <- (app_nil_l [sw1 st]), <- H1 by (change (len []) with 0; lia).
  unfold splice at 1. simpl. by rewrite Nat.add_0_r, take_drop.
Qed.

(** The bytes on the wire: payload, then the status word. *)
Definition response_bytes (r : apdu_response) : list Z :=
  match r_buf r with Ptr b => take (Z.to_nat (r_len r)) b | NULL => [] end.

(** A response is the payload followed by the status word when the
    payload fits with two bytes to spare, and the bare status 6F00 otherwise:
    it is never truncated. *)
Lemma apdu_response_built b cap s n sw :
  2 ≤ cap < 65536 → cap ≤ len b → 0 ≤ n ≤ len s → n < 65536 →
  ∃ ok r1 l r2,
    apdu_rsp_put (apdu_rsp_init (Ptr (ApduResponse NULL 0 0 false)) (Ptr b) cap) (Ptr s) n
      = Some (ok, Ptr r1) ∧
    apdu_rsp_finish (Ptr r1) sw = Some (l, Ptr r2) ∧
    r_len r2 = l ∧
    response_bytes r2 =
      (if n <=? cap - 2 then slice 0 n s ++ [sw1 sw; sw2 sw] else [0x6F; 0x00]) ∧
    len (response_bytes r2) ≤ cap.
Proof.
  intros Hcap Hroom Hn Hn'. cbn [apdu_rsp_init is_null].
  assert (rsp_wf (ApduResponse (Ptr b) cap 0 false) b) as Hwf by (constructor; simpl; done || lia).
  destruct (Z.leb_spec n (cap - 2)).
  - rewrite (rsp_put_fits _ _ _ _ Hwf) by (simpl; lia). cbn [r_len r_cap r_overflow].
    rewrite Z.add_0_l.
    set (b1 := splice b 0 (slice 0 n s)).
    assert (len b1 = len b) as Hb1 by (unfold b1; rewrite len_splice; rewrite ?len_slice; lia).
    assert (rsp_wf (ApduResponse (Ptr b1) cap n false) b1) as Hwf1
      by (constructor; simpl; done || lia).
    eexists _, _, _, _. split; [done|]. rewrite (rsp_finish_wf _ _ sw Hwf1). simpl.
    split; [done|]. split; [done|]. unfold response_bytes. simpl.
    change (n + 2) with (n + len [sw1 sw; sw2 sw]). rewrite take_splice by lia.
    replace (Z.to_nat n) with (Z.to_nat (0 + len (slice 0 n s))) by (rewrite len_slice; lia).
    unfold b1. rewrite take_splice by lia. simpl. split; [done|].
    rewrite len_app, len_slice by lia. change (len [_; _]) with 2. lia.
  - rewrite (rsp_put_overflow _ _ _ _ Hwf) by (simpl; lia).
    eexists _, _, _, _. split; [done|].
    assert (rsp_wf (rsp_set_overflow (ApduResponse (Ptr b) cap 0 false)) b) as Hwf1
      by (constructor; simpl; done || lia).
    rewrite (rsp_finish_wf _ _ sw Hwf1). cbn [rsp_set_overflow r_overflow r_cap].
    split; [done|]. split; [done|]. unfold response_bytes. cbn [r_buf r_len].
    assert (take (Z.to_nat (0 + 2)) (splice b 0 [sw1 SW_NO_PRECISE_DIAGNOSIS; sw2 SW_NO_PRECISE_DIAGNOSIS]) = [0x6F; 0x00]) as ->.
    { apply (take_splice b 0 [0x6F; 0x00]). lia. }
    split; [done|]. change (len [_; _]) with 2. lia.
Qed.

Lemma apdu_response_built_witness :
  ∃ ok r1 l r2,
    apdu_rsp_put (apdu_rsp_init (Ptr (ApduResponse NULL 0 0 false)) (Ptr [0;0;0;0]) 4) (Ptr [7]) 1
      = Some (ok, Ptr r1) ∧
    apdu_rsp_finish (Ptr r1) 0x9000 = Some (l, Ptr r2) ∧
    r_len r2 = l ∧
    response_bytes r2 = [7; 0x90; 0] ∧ len (response_bytes r2) ≤ 4.
Proof.
  apply (apdu_response_built [0;0;0;0] 4 [7] 1 0x9000); vm_compute; intuition discriminate.
Defined.
