(* ===== verification/Tlv.v ===== *)
(** * BER-TLV parser (src/apdu/tlv.c, include/apdu/tlv.h)

    The reader as the source writes it, over a buffer with positions and with
    every access checked, and a reference decoder on byte lists that it is
    proved equal to. *)

From S2P Require Import Prelude OsMem.

Definition TLV_MAX_TAG_BYTES : Z := 2.
Definition TLV_MAX_LEN_BYTES : Z := 2.

Inductive tlv_status :=
| TLV_OK | TLV_END | TLV_ERR_PARAM | TLV_ERR_TRUNCATED | TLV_ERR_TAG | TLV_ERR_LENGTH.

#[export] Instance tlv_status_eq_dec : EqDecision tlv_status.
Proof. solve_decision. Defined.

Record tlv_reader := TlvReader { t_buf : ptr (list Z); t_len : Z; t_pos : Z }.

Record tlv_object := TlvObject {
  o_tag : Z; o_value : ptr (list Z); o_length : Z; o_constructed : bool }.

Definition tlv_object_zero : tlv_object := TlvObject 0 NULL 0 false.

Definition tlv_reader_init (r : ptr tlv_reader) (buf : ptr (list Z)) (len : Z) : ptr tlv_reader :=
  match r with
  | NULL => NULL
  | Ptr _ => Ptr (TlvReader buf (if is_null buf then 0 else len) 0)
  end.

(** [r->buf[i]] *)
Definition rd_ptr (p : ptr (list Z)) (i : Z) : option Z :=
  match p with NULL => None | Ptr b => rd b i end.

Fixpoint skip_padding_loop (fuel : nat) (r : tlv_reader) (pos : Z) : option Z :=
  match fuel with
  | O => None
  | S fuel =>
      if pos <? t_len r then
        x ← rd_ptr (t_buf r) pos;
        if (x =? 0x00) || (x =? 0xFF) then skip_padding_loop fuel r (u16 (pos + 1))
        else Some pos
      else Some pos
  end.

Definition skip_padding (r : tlv_reader) (pos : Z) : option Z :=
  skip_padding_loop (S (Z.to_nat (t_len r - pos))) r pos.

Definition tlv_reader_done (r : ptr tlv_reader) : option bool :=
  match r with
  | NULL => Some true
  | Ptr r =>
      if is_null (t_buf r) then Some true else
      p ← skip_padding r (t_pos r); Some (t_len r <=? p)
  end.

Definition tlv_at (r : tlv_reader) (pos : Z) : tlv_reader := TlvReader (t_buf r) (t_len r) pos.

Definition exhaust (r : tlv_reader) : tlv_reader := tlv_at r (t_len r).

(** [&r->buf[pos]] *)
Definition ptr_at (p : ptr (list Z)) (off : Z) : ptr (list Z) :=
  match p with NULL => NULL | Ptr b => at_off b off end.

(** What is read from [pos] on once the tag is known. *)
Definition tlv_next_value (r : tlv_reader) (tag : Z) (constructed : bool) (pos length : Z)
    : option (tlv_status * ptr tlv_reader * ptr tlv_object) :=
  if t_len r <? u32 (pos + length) then
    Some (TLV_ERR_TRUNCATED, Ptr (exhaust r), Ptr tlv_object_zero)
  else
    Some (TLV_OK, Ptr (tlv_at r (u16 (u32 (pos + length)))),
          Ptr (TlvObject tag (if 0 <? length then ptr_at (t_buf r) pos else NULL)
                 (u16 length) constructed)).

Definition tlv_next_length (r : tlv_reader) (tag : Z) (constructed : bool) (pos : Z)
    : option (tlv_status * ptr tlv_reader * ptr tlv_object) :=
  let fail st := Some (st, Ptr (exhaust r), Ptr tlv_object_zero) in
  if t_len r <=? pos then fail TLV_ERR_TRUNCATED else
  l0 ← rd_ptr (t_buf r) pos;
  let pos := u16 (pos + 1) in
  if l0 <? 0x80 then tlv_next_value r tag constructed pos (u32 l0)
  else if l0 =? 0x80 then fail TLV_ERR_LENGTH
  else if l0 =? 0xFF then fail TLV_ERR_LENGTH
  else
    let nbytes := u8 (Z.land l0 0x7F) in
    if TLV_MAX_LEN_BYTES <? nbytes then fail TLV_ERR_LENGTH else
    if t_len r <? u32 (pos + nbytes) then fail TLV_ERR_TRUNCATED else
    '(length, pos) ← foreach (upto nbytes)
      (λ _ '(length, pos),
         x ← rd_ptr (t_buf r) pos;
         Some (Z.lor (u32 (Z.shiftl length 8)) (u32 x), u16 (pos + 1))) (0, pos);
    tlv_next_value r tag constructed pos length.

Definition tlv_next (r : ptr tlv_reader) (out : ptr tlv_object)
    : option (tlv_status * ptr tlv_reader * ptr tlv_object) :=
  match r, out with
  | Ptr r, Ptr _ =>
    if is_null (t_buf r) then Some (TLV_ERR_PARAM, Ptr r, out) else
    let fail st := Some (st, Ptr (exhaust r), Ptr tlv_object_zero) in
    pos ← skip_padding r (t_pos r);
    if t_len r <=? pos then Some (TLV_END, Ptr (exhaust r), Ptr tlv_object_zero) else
    t0 ← rd_ptr (t_buf r) pos;
    let constructed := negb (Z.land t0 0x20 =? 0) in
    let pos := u16 (pos + 1) in
    if Z.land t0 0x1F =? 0x1F then
      if t_len r <=? pos then fail TLV_ERR_TRUNCATED else
      t1 ← rd_ptr (t_buf r) pos;
      let pos := u16 (pos + 1) in
      let tag := u16 (Z.lor (Z.shiftl (u16 t0) 8) (u16 t1)) in
      if negb (Z.land t1 0x80 =? 0) then fail TLV_ERR_TAG else
      tlv_next_length r tag constructed pos
    else tlv_next_length r (u16 t0) constructed pos
  | _, _ => Some (TLV_ERR_PARAM, r, out)
  end.

Fixpoint tlv_find_loop (fuel : nat) (r : tlv_reader) (tag : Z) (out : ptr tlv_object)
    : option (tlv_status * ptr tlv_object) :=
  match fuel with
  | O => None
  | S fuel =>
      '(st, r', obj) ← tlv_next (Ptr r) (Ptr tlv_object_zero);
      match st, r', obj with
      | TLV_OK, Ptr r', Ptr obj =>
          if o_tag obj =? tag then Some (TLV_OK, Ptr obj) else tlv_find_loop fuel r' tag out
      | _, _, _ => Some (st, out)
      end
  end.

Definition tlv_find (buf : ptr (list Z)) (len tag : Z) (out : ptr tlv_object)
    : option (tlv_status * ptr tlv_object) :=
  if is_null buf || is_null out then Some (TLV_ERR_PARAM, out) else
  match tlv_reader_init (Ptr (TlvReader NULL 0 0)) buf len with
  | NULL => None
  | Ptr r => tlv_find_loop (S (Z.to_nat len)) r tag out
  end.

Definition tlv_get_uint (obj : ptr tlv_object) (out : ptr Z) : option (tlv_status * ptr Z) :=
  match obj, out with
  | Ptr obj, Ptr _ =>
      if is_null (o_value obj) || (o_length obj =? 0) then Some (TLV_ERR_LENGTH, Ptr 0) else
      if 4 <? o_length obj then Some (TLV_ERR_LENGTH, Ptr 0) else
      v ← foreach (upto (o_length obj))
            (λ i v, x ← rd_ptr (o_value obj) i; Some (Z.lor (u32 (Z.shiftl v 8)) (u32 x))) 0;
      Some (TLV_OK, Ptr v)
  | _, _ => Some (TLV_ERR_PARAM, out)
  end.

Definition tlv_put (buf : ptr (list Z)) (cap : Z) (pos : ptr Z) (tag : Z)
    (value : ptr (list Z)) (length : Z) : option (bool * ptr (list Z) * ptr Z) :=
  match buf, pos with
  | Ptr b, Ptr p0 =>
      if (0 <? length) && is_null value then Some (false, buf, pos) else
      if 127 <? length then Some (false, buf, pos) else
      let tag_bytes := if 0xFF <? tag then 2 else 1 in
      let need := u32 (tag_bytes + 1 + length) in
      if cap <? u32 (p0 + need) then Some (false, buf, pos) else
      let p := p0 in
      '(b, p) ← (if tag_bytes =? 2 then
                   b ← wr b p (u8 (Z.shiftr tag 8)); Some (b, u16 (p + 1))
                 else Some (b, p));
      b ← wr b p (u8 (Z.land tag 0xFF));
      let p := u16 (p + 1) in
      b ← wr b p (u8 length);
      let p := u16 (p + 1) in
      if 0 <? length then
        '(ok, d) ← os_memcpy_checked (at_off b p) (cap - p) value length;
        match d with
        | NULL => None
        | Ptr d =>
            let b := take (Z.to_nat p) b ++ d in
            if negb ok then Some (false, Ptr b, pos) else Some (true, Ptr b, Ptr (u16 (p + length)))
        end
      else Some (true, Ptr b, Ptr p)
  | _, _ => Some (false, buf, pos)
  end.

(** ** Reference decoder and encoder on byte lists *)

Inductive tlv_result :=
| TlvEnd
| TlvErr (st : tlv_status)
| TlvObj (tag : Z) (constructed : bool) (value rest : list Z).

Fixpoint strip_padding (l : list Z) : list Z :=
  match l with
  | [] => []
  | x :: l' => if (x =? 0x00) || (x =? 0xFF) then strip_padding l' else l
  end.

Definition decode_value (tag : Z) (constr : bool) (n : Z) (l : list Z) : tlv_result :=
  if len l <? n then TlvErr TLV_ERR_TRUNCATED
  else TlvObj tag constr (take (Z.to_nat n) l) (drop (Z.to_nat n) l).

Definition decode_length (tag : Z) (constr : bool) (l : list Z) : tlv_result :=
  match l with
  | [] => TlvErr TLV_ERR_TRUNCATED
  | l0 :: l =>
      if l0 <? 0x80 then decode_value tag constr l0 l
      else if l0 =? 0x81 then
        match l with x :: l => decode_value tag constr x l | _ => TlvErr TLV_ERR_TRUNCATED end
      else if l0 =? 0x82 then
        match l with
        | x :: y :: l => decode_value tag constr (x * 256 + y) l
        | _ => TlvErr TLV_ERR_TRUNCATED
        end
      else TlvErr TLV_ERR_LENGTH
  end.

Definition tlv_decode (l : list Z) : tlv_result :=
  match strip_padding l with
  | [] => TlvEnd
  | t0 :: l =>
      let constr := Z.testbit t0 5 in
      if t0 mod 32 =? 31 then
        match l with
        | [] => TlvErr TLV_ERR_TRUNCATED
        | t1 :: l => if 0x80 <=? t1 then TlvErr TLV_ERR_TAG else decode_length (t0 * 256 + t1) constr l
        end
      else decode_length t0 constr l
  end.

Definition tag_bytes (tag : Z) : list Z :=
  if 0xFF <? tag then [u8 (Z.shiftr tag 8); u8 (Z.land tag 0xFF)] else [u8 (Z.land tag 0xFF)].

Definition tlv_encode (tag : Z) (v : list Z) : list Z := tag_bytes tag ++ [len v] ++ v.

(** The tags the reader can give back. *)
Definition tag_encodable (tag : Z) : Prop :=
  (0 < tag < 255 ∧ tag mod 32 ≠ 31) ∨
  (256 ≤ tag < 65280 ∧ (tag / 256) mod 32 = 31 ∧ tag mod 256 < 128).

(** Big-endian value of a byte string. *)
Definition be_value (l : list Z) : Z := fold_left (λ a x, a * 256 + x) l 0.

(** ** The reader against the reference decoder *)

Record reader_wf (r : tlv_reader) (b : list Z) : Prop := {
  rdw_buf : t_buf r = Ptr b;
  rdw_bytes : bytes b;
  rdw_pos : 0 ≤ t_pos r ≤ t_len r;
  rdw_len : t_len r ≤ len b;
  rdw_u16 : t_len r < 65536;
}.

Section reader.
Context (r : tlv_reader) (b : list Z) (Hwf : reader_wf r b).

(** The unread bytes from a position on. *)
Definition unread (pos : Z) : list Z := slice pos (t_len r - pos) b.

Lemma unread_nil pos : t_len r ≤ pos → unread pos = [].
Proof. intros. unfold unread, slice. by replace (Z.to_nat (t_len r - pos)) with 0%nat by lia. Qed.

Lemma len_unread pos : 0 ≤ pos ≤ t_len r → len (unread pos) = t_len r - pos.
Proof. destruct Hwf. intros. unfold unread. rewrite len_slice; lia. Qed.

Lemma unread_cons pos :
  0 ≤ pos < t_len r →
  ∃ x, rd_ptr (t_buf r) pos = Some x ∧ is_u8 x ∧ unread pos = x :: unread (pos + 1).
Proof.
  destruct Hwf as [Hb Hby Hp Hl Hu]. intros Hpos. rewrite Hb.
  destruct (rd_some b pos) as (x & Hx & Hlk); [lia|]. exists x. split; [done|].
  split; [by apply (Forall_lookup_1 _ _ _ _ Hby Hlk)|].
  unfold unread. replace (t_len r - pos) with (Z.succ (t_len r - (pos + 1))) by lia.
  rewrite (slice_app_cons _ _ _ x) by (done || lia). by rewrite <- Z.add_1_r.
Qed.

Lemma unread_drop pos n :
  0 ≤ pos → 0 ≤ n → drop (Z.to_nat n) (unread pos) = unread (pos + n).
Proof.
  intros. unfold unread, slice. rewrite skipn_firstn_comm, drop_drop.
  f_equal; [lia|]. f_equal. lia.
Qed.

Lemma u16_pos pos : 0 ≤ pos ≤ t_len r → u16 pos = pos.
Proof. destruct Hwf. intros. apply u16_id. unfold is_u16. lia. Qed.

Lemma skip_padding_loop_ref fuel pos :
  0 ≤ pos ≤ t_len r → t_len r - pos < Z.of_nat fuel →
  ∃ p, skip_padding_loop fuel r pos = Some p ∧ pos ≤ p ≤ t_len r ∧
       unread p = strip_padding (unread pos).
Proof.
  revert pos. induction fuel as [|fuel IH]; intros pos Hpos Hfuel; [lia|].
  cbn [skip_padding_loop]. destruct (Z.ltb_spec pos (t_len r)).
  - destruct (unread_cons pos) as (x & -> & Hx & Hu); [lia|]. cbn [mbind option_bind].
    rewrite Hu. cbn [strip_padding]. destruct ((x =? 0) || (x =? 255)).
    + rewrite u16_pos by lia. destruct (IH (pos + 1)) as (p & ? & ? & ?); [lia..|].
      exists p. split; [done|]. split; [lia|done].
    + exists pos. split; [done|]. split; [lia|done].
  - exists pos. rewrite unread_nil by lia. split; [done|]. split; [lia|done].
Qed.

Lemma skip_padding_ref pos :
  0 ≤ pos ≤ t_len r →
  ∃ p, skip_padding r pos = Some p ∧ pos ≤ p ≤ t_len r ∧
       unread p = strip_padding (unread pos).
Proof. intros. apply skip_padding_loop_ref; lia. Qed.

(** The outcome the reference decoder prescribes for the reader. *)
Definition next_outcome (res : tlv_result) : tlv_status * ptr tlv_reader * ptr tlv_object :=
  match res with
  | TlvEnd => (TLV_END, Ptr (exhaust r), Ptr tlv_object_zero)
  | TlvErr st => (st, Ptr (exhaust r), Ptr tlv_object_zero)
  | TlvObj tag constr v rest =>
      (TLV_OK, Ptr (tlv_at r (t_len r - len rest)),
       Ptr (TlvObject tag
              (if 0 <? len v then ptr_at (t_buf r) (t_len r - len rest - len v) else NULL)
              (len v) constr))
  end.

Lemma tlv_next_value_ref tag constr pos n :
  0 ≤ pos ≤ t_len r → 0 ≤ n < 65536 →
  tlv_next_value r tag constr pos n = Some (next_outcome (decode_value tag constr n (unread pos))).
Proof.
  intros Hpos Hn. destruct Hwf. unfold tlv_next_value, decode_value, u32.
  rewrite Z.mod_small by lia. rewrite len_unread by lia.
  replace (t_len r - pos <? n) with (t_len r <? pos + n) by lia.
  destruct (Z.ltb_spec (t_len r) (pos + n)); [done|]. cbn [next_outcome].
  rewrite unread_drop by lia.
  assert (len (take (Z.to_nat n) (unread pos)) = n) as Hv.
  { assert (len (unread pos) = t_len r - pos) as Hl by (apply len_unread; lia).
    unfold len in *. rewrite length_take. lia. }
  rewrite Hv, len_unread, u16_pos by lia. rewrite u16_id by done.
  by replace (t_len r - (t_len r - (pos + n))) with (pos + n) by lia;
     replace (pos + n - n) with pos by lia.
Qed.

Lemma lor_be x y : 0 ≤ x < 65536 → is_u8 y → Z.lor (u32 (Z.shiftl x 8)) (u32 y) = x * 256 + y.
Proof.
  unfold is_u8. intros. rewrite (u32_id y) by (unfold is_u32; lia).
  rewrite u32_id by (unfold is_u32; rewrite Z.shiftl_mul_pow2 by done; lia).
  by rewrite lor_shiftl_add by lia.
Qed.

Lemma len_byte_cases l0 : is_u8 l0 → 128 ≤ l0 → u8 (Z.land l0 0x7F) = l0 - 128.
Proof.
  unfold is_u8, u8. intros. change 0x7F with (Z.ones 7). rewrite Z.land_ones by done.
  change (2 ^ 7) with 128. lia.
Qed.

Lemma tlv_next_length_ref tag constr pos :
  0 ≤ pos ≤ t_len r →
  tlv_next_length r tag constr pos = Some (next_outcome (decode_length tag constr (unread pos))).
Proof.
  intros Hpos. pose proof (rdw_u16 _ _ Hwf) as Hu16. unfold tlv_next_length.
  destruct (Z.leb_spec (t_len r) pos); [by rewrite unread_nil by lia|].
  destruct (unread_cons pos) as (l0 & -> & Hl0 & ->); [lia|]. cbn [mbind option_bind].
  cbn [decode_length]. rewrite u16_pos by lia.
  destruct (Z.ltb_spec l0 128).
  { rewrite u32_id by (unfold is_u8, is_u32 in *; lia).
    apply tlv_next_value_ref; unfold is_u8 in *; lia. }
  destruct (Z.eqb_spec l0 128) as [->|]; [done|].
  destruct (Z.eqb_spec l0 255) as [->|]; [done|].
  rewrite len_byte_cases by (done || lia). unfold TLV_MAX_LEN_BYTES.
  destruct (Z.ltb_spec 2 (l0 - 128)).
  { by replace (l0 =? 129) with false by lia; replace (l0 =? 130) with false by lia. }
  assert (l0 = 129 ∨ l0 = 130) as [-> | ->] by lia; cbn [Z.eqb Pos.eqb];
    unfold u32 at 1; rewrite Z.mod_small by lia.
  - change (129 - 128) with 1. destruct (Z.ltb_spec (t_len r) (pos + 1 + 1)).
    { by rewrite unread_nil by lia. }
    destruct (unread_cons (pos + 1)) as (x & Hx & Hxb & ->); [lia|].
    change (upto 1) with [0]. cbn [foreach]. rewrite Hx. cbn [mbind option_bind].
    rewrite u16_pos by lia. change 0 with (0 * 256) at 1.
    rewrite (lor_be 0) by (done || lia). apply tlv_next_value_ref; unfold is_u8 in *; lia.
  - change (130 - 128) with 2. destruct (Z.ltb_spec (t_len r) (pos + 1 + 2)).
    { destruct (decide (t_len r = pos + 1)); [by rewrite unread_nil by lia|].
      destruct (unread_cons (pos + 1)) as (x & _ & _ & ->); [lia|].
      by rewrite unread_nil by lia. }
    destruct (unread_cons (pos + 1)) as (x & Hx & Hxb & ->); [lia|].
    destruct (unread_cons (pos + 1 + 1)) as (y & Hy & Hyb & ->); [lia|].
    change (upto 2) with [0; 1]. cbn [foreach]. rewrite Hx. cbn [mbind option_bind].
    rewrite (u16_pos (pos + 1 + 1)) by lia. rewrite Hy. cbn [mbind option_bind].
    rewrite u16_pos by lia. rewrite (lor_be 0), Z.add_0_l by (done || lia).
    rewrite lor_be by (unfold is_u8 in *; lia).
    apply tlv_next_value_ref; unfold is_u8 in *; lia.
Qed.

Lemma land_0x20 x : negb (Z.land x 0x20 =? 0) = Z.testbit x 5.
Proof.
  destruct (Z.testbit x 5) eqn:E.
  - apply negb_true_iff, Z.eqb_neq. intros H0.
    assert (Z.testbit (Z.land x 0x20) 5 = true) as Hb by (by rewrite Z.land_spec, E).
    by rewrite H0 in Hb.
  - apply negb_false_iff, Z.eqb_eq. apply Z.bits_inj'. intros k Hk.
    rewrite Z.land_spec, Z.bits_0. change 0x20 with (2 ^ 5).
    rewrite Z.pow2_bits_eqb by done. destruct (Z.eqb_spec 5 k) as [<-|]; [by rewrite E|].
    apply andb_false_r.
Qed.

Lemma land_0x80 x : is_u8 x → negb (Z.land x 0x80 =? 0) = (0x80 <=? x).
Proof.
  intros Hx.
  assert (∀ y, y ∈ upto 256 → negb (Z.land y 0x80 =? 0) = (0x80 <=? y)) as H.
  { apply Forall_forall. apply (bool_decide_unpack _). vm_compute. done. }
  by apply H, elem_of_upto.
Qed.

Lemma tlv_next_eq o :
  tlv_next (Ptr r) (Ptr o) = Some (next_outcome (tlv_decode (unread (t_pos r)))).
Proof.
  destruct Hwf as [Hb _ Hpos Hl Hu]. unfold tlv_next. rewrite Hb at 1. cbn [is_null].
  destruct (skip_padding_ref (t_pos r)) as (p & -> & Hp & Hstrip); [done|].
  cbn [mbind option_bind]. unfold tlv_decode. rewrite <- Hstrip.
  destruct (Z.leb_spec (t_len r) p); [by rewrite unread_nil by lia|].
  destruct (unread_cons p) as (t0 & -> & Ht0 & ->); [lia|]. cbn [mbind option_bind].
  rewrite land_0x20. change 0x1F with (Z.ones 5) at 1. rewrite Z.land_ones by done.
  change (2 ^ 5) with 32. rewrite u16_pos by lia.
  destruct (t0 mod 32 =? 31).
  - destruct (Z.leb_spec (t_len r) (p + 1)); [by rewrite unread_nil by lia|].
    destruct (unread_cons (p + 1)) as (t1 & -> & Ht1 & ->); [lia|]. cbn [mbind option_bind].
    rewrite land_0x80 by done. destruct (0x80 <=? t1); [done|].
    rewrite (u16_pos (p + 1 + 1)) by lia. rewrite tlv_next_length_ref by lia.
    assert (u16 (Z.lor (Z.shiftl (u16 t0) 8) (u16 t1)) = t0 * 256 + t1) as ->; [|done].
    unfold is_u8 in *. rewrite !(u16_id t0), !(u16_id t1) by (unfold is_u16; lia).
    rewrite lor_shiftl_add by lia. apply u16_id. unfold is_u16. lia.
  - rewrite tlv_next_length_ref by lia.
    by rewrite (u16_id t0) by (unfold is_u8, is_u16 in *; lia).
Qed.

(** [C34] On every input the reader does what the reference decoder
    prescribes: same status, tag, length and value, the position after the
    object on success, and the end of the buffer on [TLV_END] and on every
    error.  In particular every access is inside [buf[0..len)]. *)
Theorem tlv_next_ref o :
  tlv_next (Ptr r) (Ptr o) = Some (next_outcome (tlv_decode (unread (t_pos r)))).
Proof. apply tlv_next_eq. Qed.
End reader.

Lemma tlv_next_ref_witness :
  tlv_next (Ptr (TlvReader (Ptr [0xFF; 0x82; 1; 0x38; 0x83]) 5 0)) (Ptr tlv_object_zero) =
  Some (next_outcome (TlvReader (Ptr [0xFF; 0x82; 1; 0x38; 0x83]) 5 0)
          (TlvObj 0x82 false [0x38] [0x83])).
Proof.
  rewrite (tlv_next_ref (TlvReader (Ptr [0xFF; 0x82; 1; 0x38; 0x83]) 5 0) [0xFF; 0x82; 1; 0x38; 0x83]);
    [reflexivity|].
  constructor; [done|solve_bytes|vm_compute; intuition discriminate..|done].
Defined.

(** ** Facts about decoded objects *)

Lemma strip_padding_suffix l : ∃ pad, l = pad ++ strip_padding l.
Proof.
  induction l as [|x l [pad IH]]; simpl; [by exists []|].
  destruct ((x =? 0) || (x =? 255)); [|by exists []]. exists (x :: pad). simpl. congruence.
Qed.

Lemma decode_value_obj tag c n l tag' c' v rest :
  decode_value tag c n l = TlvObj tag' c' v rest → 0 ≤ n →
  tag' = tag ∧ c' = c ∧ l = v ++ rest ∧ len v = n.
Proof.
  unfold decode_value. destruct (Z.ltb_spec (len l) n); [done|]. intros [= <- <- <- <-] Hn.
  split_and!; [done|done|by rewrite take_drop|]. unfold len in *. rewrite length_take. lia.
Qed.

Lemma decode_length_obj tag c l tag' c' v rest :
  bytes l → decode_length tag c l = TlvObj tag' c' v rest →
  tag' = tag ∧ c' = c ∧ ∃ hdr, l = hdr ++ v ++ rest ∧ 1 ≤ len hdr.
Proof.
  intros Hb. destruct l as [|l0 l]; [done|]. cbn [decode_length].
  apply bytes_cons in Hb as [Hl0 Hb]. unfold is_u8 in Hl0.
  destruct (Z.ltb_spec l0 128).
  { intros (-> & -> & -> & ?)%decode_value_obj; [|lia]. split_and!; [done..|]. by exists [l0]. }
  destruct (l0 =? 129).
  { destruct l as [|x l]; [done|]. apply bytes_cons in Hb as [Hx _]. unfold is_u8 in Hx.
    intros (-> & -> & -> & ?)%decode_value_obj; [|lia]. split_and!; [done..|]. by exists [l0; x]. }
  destruct (l0 =? 130); [|done].
  destruct l as [|x [|y l]]; [done..|].
  apply bytes_cons in Hb as [Hx [Hy _]%bytes_cons]. unfold is_u8 in *.
  intros (-> & -> & -> & ?)%decode_value_obj; [|lia]. split_and!; [done..|]. by exists [l0; x; y].
Qed.

Lemma tlv_decode_obj l tag c v rest :
  bytes l → tlv_decode l = TlvObj tag c v rest →
  ∃ hdr, l = hdr ++ v ++ rest ∧ 2 ≤ len hdr.
Proof.
  intros Hb. unfold tlv_decode. destruct (strip_padding_suffix l) as [pad Hl].
  rewrite Hl in Hb. apply Forall_app in Hb as [_ Hb].
  destruct (strip_padding l) as [|t0 l']; [done|]. apply bytes_cons in Hb as [_ Hb].
  assert (∀ hdr, len (pad ++ t0 :: hdr) = len pad + 1 + len hdr) as Hlen
    by (intros; rewrite len_app, len_cons; lia). pose proof (len_nonneg pad).
  destruct (t0 mod 32 =? 31).
  - destruct l' as [|t1 l']; [done|]. apply bytes_cons in Hb as [_ Hb].
    destruct (128 <=? t1); [done|]. intros (_ & _ & hdr & -> & ?)%decode_length_obj; [|done].
    exists (pad ++ t0 :: t1 :: hdr). rewrite Hl, Hlen, len_cons. split; [|lia].
    by rewrite <- app_assoc.
  - intros (_ & _ & hdr & -> & ?)%decode_length_obj; [|done].
    exists (pad ++ t0 :: hdr). rewrite Hl, Hlen. split; [by rewrite <- app_assoc|lia].
Qed.

(** An error is an error. *)
Lemma tlv_decode_err l e : tlv_decode l = TlvErr e → e ≠ TLV_OK ∧ e ≠ TLV_END.
Proof.
  assert (∀ t c n l', decode_value t c n l' = TlvErr e → e ≠ TLV_OK ∧ e ≠ TLV_END) as Hv.
  { intros t c n l'. unfold decode_value. case_if; [|done]. by intros [= <-]. }
  assert (∀ t c l', decode_length t c l' = TlvErr e → e ≠ TLV_OK ∧ e ≠ TLV_END) as Hl.
  { intros t c [|x l']; cbn [decode_length]; [by intros [= <-]|]. case_if; [apply Hv|].
    case_if; [destruct l'; [by intros [= <-]|apply Hv]|].
    case_if; [destruct l' as [|? []]; [by intros [= <-]..|apply Hv]|by intros [= <-]]. }
  unfold tlv_decode. destruct (strip_padding l) as [|t0 l']; [done|]. case_if; [|apply Hl].
  destruct l'; [by intros [= <-]|]. case_if; [by intros [= <-]|apply Hl].
Qed.

(** What a caller may rely on after [tlv_next]. *)
Record obj_wf (o : tlv_object) (v : list Z) : Prop := {
  ow_len : o_length o = len v;
  ow_bytes : bytes v;
  ow_u16 : len v < 65536;
  ow_value : match o_value o with
             | NULL => v = []
             | Ptr d => bytes d ∧ len v ≤ len d ∧ slice 0 (len v) d = v ∧ v ≠ []
             end;
}.

Lemma tlv_next_outcome r b tag c v rest :
  reader_wf r b → tlv_decode (unread r b (t_pos r)) = TlvObj tag c v rest →
  let r' := tlv_at r (t_len r - len rest) in
  reader_wf r' b ∧ unread r' b (t_pos r') = rest ∧ t_pos r + 2 ≤ t_pos r' ∧
  obj_wf (TlvObject tag
            (if 0 <? len v then ptr_at (t_buf r) (t_len r - len rest - len v) else NULL)
            (len v) c) v.
Proof.
  intros Hwf Hdec r'. pose proof Hwf as [Hb Hby Hpos Hl Hu].
  assert (bytes (unread r b (t_pos r))) as Hbu by (by apply bytes_slice).
  destruct (tlv_decode_obj _ _ _ _ _ Hbu Hdec) as (hdr & Heq & Hhdr).
  pose proof (len_unread r b Hwf (t_pos r) Hpos) as Hlen.
  rewrite Heq, !len_app in Hlen.
  pose proof (len_nonneg v). pose proof (len_nonneg rest).
  assert (unread r b (t_len r - len rest) = rest) as Hrest.
  { replace (t_len r - len rest) with (t_pos r + (len hdr + len v)) by lia.
    rewrite <- (unread_drop r b Hwf (t_pos r) (len hdr + len v)) by lia. rewrite Heq, app_assoc.
    unfold len. rewrite <- Nat2Z.inj_add, Nat2Z.id, <- length_app. apply drop_app_length. }
  rewrite Heq in Hbu. unfold bytes in Hbu. rewrite !Forall_app in Hbu. destruct Hbu as (_ & Hbv & _).
  split; [|split; [|split]]; [constructor; simpl; done || lia|exact Hrest|simpl; lia|].
  constructor; [done|done|lia|]. cbn [o_value]. destruct (Z.ltb_spec 0 (len v)).
  2: { destruct v; [done|]. rewrite len_cons in *. pose proof (len_nonneg v). lia. }
  rewrite Hb. cbn [ptr_at]. unfold at_off. split_and!.
  - by apply bytes_drop.
  - rewrite len_drop by lia. lia.
  - assert (unread r b (t_len r - len rest - len v) = v ++ rest) as Hv.
    { replace (t_len r - len rest - len v) with (t_pos r + len hdr) by lia.
      rewrite <- (unread_drop r b Hwf (t_pos r) (len hdr)) by lia. rewrite Heq. unfold len. rewrite Nat2Z.id.
      apply drop_app_length. }
    unfold unread, slice in Hv. unfold slice. rewrite drop_0. cbn [o_length] in *.
    apply (f_equal (take (Z.to_nat (len v)))) in Hv. rewrite take_take in Hv.
    rewrite Nat.min_l in Hv by lia. rewrite Hv. unfold len. rewrite Nat2Z.id.
    apply take_app_length.
  - by intros ->.
Qed.

(** ** Writing, and reading back *)

Lemma len_tag_bytes tag : len (tag_bytes tag) = if 0xFF <? tag then 2 else 1.
Proof. unfold tag_bytes. by case_if. Qed.

Lemma len_tlv_encode tag v :
  len (tlv_encode tag v) = (if 0xFF <? tag then 2 else 1) + 1 + len v.
Proof. unfold tlv_encode. rewrite !len_app, len_tag_bytes. change (len [_]) with 1. lia. Qed.

Lemma tlv_decode_encode tag v rest :
  tag_encodable tag → len v ≤ 127 →
  ∃ c, tlv_decode (tlv_encode tag v ++ rest) = TlvObj tag c v rest.
Proof.
  intros Htag Hv. pose proof (len_nonneg v) as Hv0.
  assert (∀ c, decode_length tag c (len v :: v ++ rest) = TlvObj tag c v rest) as Hdl.
  { intros c. cbn [decode_length]. replace (len v <? 128) with true by lia.
    unfold decode_value. rewrite len_app. pose proof (len_nonneg rest).
    replace (_ <? _) with false by lia. unfold len. rewrite Nat2Z.id.
    by rewrite take_app_length, drop_app_length. }
  unfold tlv_encode, tag_bytes, u8. rewrite !land_255. unfold tlv_decode.
  destruct Htag as [[Hr Hm]|(Hr & Hm & Hlow)].
  - replace (255 <? tag) with false by lia. cbn [app strip_padding].
    rewrite !(Z.mod_small tag 256) by lia.
    replace ((tag =? 0) || (tag =? 255)) with false by lia. cbn [app].
    replace (tag mod 32 =? 31) with false by lia. eexists. apply Hdl.
  - replace (255 <? tag) with true by lia. cbn [app strip_padding].
    rewrite Z.shiftr_div_pow2 by done. change (2 ^ 8) with 256.
    rewrite (Z.mod_small (tag / 256)) by lia. rewrite (Z.mod_small (tag mod 256)) by lia.
    replace ((tag / 256 =? 0) || (tag / 256 =? 255)) with false by lia. cbn [app].
    replace ((tag / 256) mod 32 =? 31) with true by lia.
    replace (128 <=? tag mod 256) with false by lia.
    replace (tag / 256 * 256 + tag mod 256) with tag by lia. eexists. apply Hdl.
Qed.

Lemma splice_wr b p src x :
  0 ≤ p → p + len src < len b →
  wr (splice b p src) (p + len src) x = Some (splice b p (src ++ [x])).
Proof.
  intros. rewrite wr_some by (rewrite len_splice by lia; pose proof (len_nonneg src); lia).
  by rewrite splice_snoc by lia.
Qed.

Lemma splice_splice_tail b p src src' :
  0 ≤ p → p + len src + len src' ≤ len b →
  take (Z.to_nat (p + len src)) (splice b p src)
    ++ splice (drop (Z.to_nat (p + len src)) (splice b p src)) 0 src'
  = splice b p (src ++ src').
Proof.
  intros Hp Hle. pose proof (len_nonneg src'). rewrite take_splice by (pose proof (len_nonneg src); lia).
  unfold splice. simpl. rewrite drop_drop. rewrite <- !app_assoc. f_equal. f_equal. f_equal.
  rewrite drop_app_ge by (rewrite length_take; unfold len in *; lia).
  rewrite drop_app_ge by (rewrite length_take; unfold len in *; lia).
  rewrite drop_drop. f_equal. rewrite length_take, length_app. unfold len in *. lia.
Qed.

(** The length byte and the value, after [t] has been written. *)
Lemma put_length_value b cap p t v d :
  0 ≤ p → p + len t + 1 + len v ≤ cap → cap ≤ len b → cap < 65536 → len v ≤ 127 → slice 0 (len v) d = v → len v ≤ len d →
  (b0 ← wr (splice b p t) (p + len t) (u8 (len v));
   if 0 <? len v then
     '(ok, d0) ← os_memcpy_checked (at_off b0 (u16 (p + len t + 1))) (cap - u16 (p + len t + 1)) (Ptr d) (len v);
     match d0 with
     | NULL => None
     | Ptr d1 =>
         if negb ok then Some (false, Ptr (take (Z.to_nat (u16 (p + len t + 1))) b0 ++ d1), Ptr p)
         else Some (true, Ptr (take (Z.to_nat (u16 (p + len t + 1))) b0 ++ d1), Ptr (u16 (u16 (p + len t + 1) + len v)))
     end
   else Some (true, Ptr b0, Ptr (u16 (p + len t + 1)))) =
  Some (true, Ptr (splice b p (t ++ [len v] ++ v)), Ptr (p + len t + 1 + len v)).
Proof.
  intros Hp Ht Hcap Hcap' Hv Hd Hld. pose proof (len_nonneg t). pose proof (len_nonneg v).
  rewrite splice_wr by lia. cbn [mbind option_bind].
  rewrite (u8_id (len v)) by (unfold is_u8; lia).
  rewrite !(u16_id (p + len t + 1)) by (unfold is_u16; lia).
  set (B := splice b p (t ++ [len v])).
  assert (len B = len b) as HB by (unfold B; rewrite len_splice; rewrite ?len_app; change (len [_]) with 1; lia).
  destruct (Z.ltb_spec 0 (len v)).
  - unfold at_off. rewrite os_memcpy_checked_block by (rewrite ?len_drop; lia).
    replace (len v <=? cap - (p + len t + 1)) with true by lia. cbn [mbind option_bind negb].
    rewrite Hd. replace (p + len t + 1) with (p + len (t ++ [len v])) by len_lia.
    unfold B. rewrite splice_splice_tail by len_lia.
    rewrite <- app_assoc. rewrite u16_id; [done|]. rewrite len_app. change (len [_]) with 1.
    unfold is_u16. lia.
  - assert (v = []) as -> by (destruct v; [done|rewrite len_cons in *; pose proof (len_nonneg v); lia]).
    unfold B. change (len []) with 0. by rewrite !Z.add_0_r.
Qed.

Lemma tlv_put_writes b cap p tag v d :
  0 ≤ p → p + len (tlv_encode tag v) ≤ cap → cap ≤ len b → cap < 65536 →
  0 ≤ tag < 65536 → len v ≤ 127 → slice 0 (len v) d = v →
  len v ≤ len d →
  tlv_put (Ptr b) cap (Ptr p) tag (Ptr d) (len v) =
    Some (true, Ptr (splice b p (tlv_encode tag v)), Ptr (p + len (tlv_encode tag v))).
Proof.
  intros Hp Hfit Hcap Hcap' Htag Hv Hd Hld. unfold tlv_put. cbn [is_null].
  rewrite andb_false_r. replace (127 <? len v) with false by lia.
  pose proof (len_nonneg v). pose proof (len_tlv_encode tag v) as Hlen.
  unfold tlv_encode. unfold tlv_encode in Hlen, Hfit.
  pose proof (splice_wr b p []) as Hs0. change (len []) with 0 in Hs0. cbn [app] in Hs0.
  assert (splice b p [] = b) as Hnil by (unfold splice; simpl; by rewrite Nat.add_0_r, take_drop).
  rewrite Hnil, Z.add_0_r in Hs0.
  pose proof (λ t Ht, put_length_value b cap p t v d Hp Ht Hcap Hcap' Hv Hd Hld) as Htail.
  rewrite !len_app, len_tag_bytes in Hfit. change (len [_]) with 1 in Hfit.
  unfold tag_bytes in *. destruct (Z.ltb_spec 255 tag).
  - unfold u32. rewrite !Z.mod_small by lia.
    replace (cap <? p + (2 + 1 + len v)) with false by lia. cbn [Z.eqb Pos.eqb].
    rewrite Hs0 by lia. cbn [mbind option_bind]. rewrite (u16_id (p + 1)) by (unfold is_u16; lia).
    pose proof (splice_wr b p [u8 (Z.shiftr tag 8)] (u8 (Z.land tag 255))) as Hs1.
    change (len [_]) with 1 in Hs1. rewrite Hs1 by lia. cbn [mbind option_bind app].
    rewrite (u16_id (p + 1 + 1)) by (unfold is_u16; lia).
    specialize (Htail [u8 (Z.shiftr tag 8); u8 (Z.land tag 255)]).
    change (len [_; _]) with 2 in Htail. replace (p + 1 + 1) with (p + 2) by lia.
    cbn [app] in Htail |- *. rewrite Htail by lia. f_equal. f_equal. f_equal.
    rewrite !len_cons. lia.
  - unfold u32. rewrite !Z.mod_small by lia.
    replace (cap <? p + (1 + 1 + len v)) with false by lia. cbn [Z.eqb Pos.eqb mbind option_bind].
    rewrite Hs0 by lia. cbn [mbind option_bind]. rewrite (u16_id (p + 1)) by (unfold is_u16; lia).
    specialize (Htail [u8 (Z.land tag 255)]). change (len [_]) with 1 in Htail.
    cbn [app] in Htail |- *. rewrite Htail by lia. f_equal. f_equal. f_equal. rewrite !len_cons. lia.
Qed.

(** An object appended with [tlv_put] is given back by [tlv_next] with the
    same tag and value, for every tag the encoding supports. *)
Theorem tlv_put_next_roundtrip b cap p tag v :
  bytes b → bytes v → 0 ≤ p → p + len (tlv_encode tag v) ≤ cap → cap ≤ len b → cap < 65536 →
  tag_encodable tag → len v ≤ 127 →
  ∃ b' p' r' o c,
    tlv_put (Ptr b) cap (Ptr p) tag (Ptr v) (len v) = Some (true, Ptr b', Ptr p') ∧
    tlv_next (Ptr (TlvReader (Ptr b') p' p)) (Ptr tlv_object_zero) = Some (TLV_OK, Ptr r', Ptr o) ∧
    t_pos r' = p' ∧ o_tag o = tag ∧ o_constructed o = c ∧ obj_wf o v.
Proof.
  intros Hb Hbv Hp Hfit Hcap Hcap' Htag Hv.
  assert (0 ≤ tag < 65536) as Htr by (destruct Htag; lia).
  set (e := tlv_encode tag v) in *.
  assert (bytes e) as Hbe.
  { unfold e, tlv_encode, tag_bytes, bytes. pose proof (len_nonneg v).
    case_if; repeat constructor; try apply u8_range; try (simpl; lia); done. }
  set (b' := splice b p e). pose proof (len_nonneg e) as He0.
  assert (len b' = len b) as Hlb by (apply len_splice; lia).
  set (r := TlvReader (Ptr b') (p + len e) p).
  assert (reader_wf r b') as Hwf.
  { constructor; simpl; [done|by apply bytes_splice|lia|lia|lia]. }
  assert (unread r b' (t_pos r) = e ++ []) as Hun.
  { unfold unread. cbn [r t_pos t_len]. replace (p + len e - p) with (len e) by lia.
    rewrite app_nil_r. apply slice_splice_same; lia. }
  destruct (tlv_decode_encode tag v [] Htag Hv) as [c Hdec]. fold e in Hdec.
  rewrite <- Hun in Hdec.
  destruct (tlv_next_outcome _ _ _ _ _ _ Hwf Hdec) as (_ & _ & _ & Hobj).
  eexists b', (p + len e), _, _, c.
  split; [apply tlv_put_writes; auto; [apply slice_0_all|lia]|].
  split; [rewrite (tlv_next_eq r b' Hwf), Hdec; done|].
  split_and!; [cbn [tlv_at r t_pos t_len]; len_lia|done|done|exact Hobj].
Qed.

Lemma tlv_put_next_roundtrip_witness :
  ∃ b' p' r' o c,
    tlv_put (Ptr [0;0;0;0;0]) 5 (Ptr 0) 0x83 (Ptr [0x6F; 1]) (len [0x6F; 1]) = Some (true, Ptr b', Ptr p') ∧
    tlv_next (Ptr (TlvReader (Ptr b') p' 0)) (Ptr tlv_object_zero) = Some (TLV_OK, Ptr r', Ptr o) ∧
    t_pos r' = p' ∧ o_tag o = 0x83 ∧ o_constructed o = c ∧ obj_wf o [0x6F; 1].
Proof.
  apply (tlv_put_next_roundtrip [0;0;0;0;0] 5 0 0x83 [0x6F; 1]).
  1-2: repeat constructor; unfold is_u8; lia.
  1-4: vm_compute; intuition discriminate.
  - left. vm_compute. intuition discriminate.
  - vm_compute. discriminate.
Defined.

(** ** The integer accessor *)

Lemma be_value_app l x : be_value (l ++ [x]) = be_value l * 256 + x.
Proof. unfold be_value. by rewrite fold_left_app. Qed.

Lemma be_value_range l : bytes l → 0 ≤ be_value l < 2 ^ (8 * len l).
Proof.
  induction l as [|x l IH] using rev_ind; [done|]. intros [Hl Hx]%Forall_app.
  apply bytes_cons in Hx as [Hx _].
  rewrite be_value_app, len_app. change (len [x]) with 1. specialize (IH Hl). unfold is_u8 in Hx.
  pose proof (len_nonneg l). replace (8 * (len l + 1)) with (8 * len l + 8) by lia.
  rewrite Z.pow_add_r by lia. change (2 ^ 8) with 256. lia.
Qed.

Lemma slice_succ d i x : 0 ≤ i → d !! Z.to_nat i = Some x → slice 0 (i + 1) d = slice 0 i d ++ [x].
Proof.
  intros Hi Hx. unfold slice. rewrite drop_0. replace (Z.to_nat (i + 1)) with (S (Z.to_nat i)) by lia.
  by apply take_S_r.
Qed.

Lemma tlv_get_uint_eq o v x :
  obj_wf o v →
  tlv_get_uint (Ptr o) (Ptr x) =
    Some (if (len v =? 0) || (4 <? len v) then (TLV_ERR_LENGTH, Ptr 0) else (TLV_OK, Ptr (be_value v))).
Proof.
  intros [Hl Hb Hu Hv]. unfold tlv_get_uint. rewrite Hl.
  destruct (o_value o) as [|d]; cbn [is_null orb]; [by rewrite Hv|]. destruct Hv as (Hd & Hld & Hs & _).
  destruct (len v =? 0) eqn:E0; [done|]. cbn [orb]. destruct (4 <? len v) eqn:E4; [done|].
  assert (∀ n : nat, Z.of_nat n ≤ len v →
    foreach (upto (Z.of_nat n)) (λ i v, x ← rd_ptr (Ptr d) i; Some (Z.lor (u32 (Z.shiftl v 8)) (u32 x))) 0 =
      Some (be_value (slice 0 (Z.of_nat n) d))) as Hloop.
  { induction n as [|n IH]; intros Hn; [done|]. rewrite Nat2Z.inj_succ, upto_succ, foreach_app, IH by lia.
    bind_simpl. cbn [foreach]. destruct (rd_byte d (Z.of_nat n) Hd) as (y & Hy & Hyb); [lia|].
    cbn [rd_ptr]. rewrite Hy. bind_simpl. unfold rd in Hy. replace (0 <=? Z.of_nat n) with true in Hy by lia.
    replace (Z.succ (Z.of_nat n)) with (Z.of_nat n + 1) by lia.
    rewrite (slice_succ d (Z.of_nat n) y) by (done || lia). rewrite be_value_app. f_equal.
    pose proof (be_value_range (slice 0 (Z.of_nat n) d) (bytes_slice _ _ _ Hd)) as Hr.
    rewrite len_slice in Hr by lia.
    assert (2 ^ (8 * Z.of_nat n) ≤ 2 ^ 24) by (apply Z.pow_le_mono_r; lia). change (2 ^ 24) with 16777216 in *.
    unfold is_u8 in Hyb. rewrite Z.shiftl_mul_pow2 by done. change (2 ^ 8) with 256.
    rewrite !u32_id by (unfold is_u32; lia).
    pose proof (lor_shiftl_add (be_value (slice 0 (Z.of_nat n) d)) y 8) as Hlor.
    rewrite Z.shiftl_mul_pow2 in Hlor by done. change (2 ^ 8) with 256 in Hlor. apply Hlor; lia. }
  specialize (Hloop (length v)). fold (len v) in Hloop. rewrite Hloop by lia. bind_simpl. by rewrite Hs.
Qed.

(** [tlv_get_uint] gives the big-endian value of one to four bytes, and
    refuses the empty object and every longer one. *)
Lemma tlv_get_uint_correct o v x :
  obj_wf o v →
  tlv_get_uint (Ptr o) (Ptr x) =
    Some (if (len v =? 0) || (4 <? len v) then (TLV_ERR_LENGTH, Ptr 0) else (TLV_OK, Ptr (be_value v))).
Proof. apply tlv_get_uint_eq. Qed.

Lemma tlv_get_uint_correct_witness :
  tlv_get_uint (Ptr (TlvObject 0x80 (Ptr [1; 2; 3]) 2 false)) (Ptr 0) = Some (TLV_OK, Ptr 258).
Proof.
  apply (tlv_get_uint_correct (TlvObject 0x80 (Ptr [1; 2; 3]) 2 false) [1; 2] 0).
  constructor; [reflexivity|solve_bytes|reflexivity|].
  split; [solve_bytes|]. split; [vm_compute; discriminate|]. split; [reflexivity|discriminate].
Defined.
