(* ===== verification/Hal.v ===== *)
(** * Hardware abstraction layer (include/hal/hal.h)

    The non-volatile memory interface the card OS is written against, as a type
    class of operations over the state [N] of a device, and the contract a
    device promises ([HalNvmSpec]).  The simulated chip (SimHal.v), the ARM
    target (ArmHal.v) and the placeholder (SamsungHal.v) are instances; the file
    system and the kernel are proved against the contract. *)

From S2P Require Import Prelude.

Inductive hal_status :=
| HAL_OK | HAL_CARD_RESET | HAL_ERR_PARAM | HAL_ERR_RANGE | HAL_ERR_IO
| HAL_ERR_UNSUPPORTED | HAL_ERR_POWER | HAL_ERR_LINK_DOWN.

#[export] Instance hal_status_eq_dec : EqDecision hal_status.
Proof. solve_decision. Defined.

(** [hal_nvm_region]: an enum argument may hold any value in C. *)
Definition HAL_NVM_EEPROM : Z := 0.
Definition HAL_NVM_FLASH : Z := 1.

Definition hal_is_ok (st : hal_status) : bool :=
  match st with HAL_OK => true | _ => false end.

(** The operations.  A read returns the status and the destination buffer, a
    write the status and the device. *)
Class HalNvm (N : Type) := {
  hal_nvm_size : N → Z → Z;
  hal_nvm_page_size : N → Z → Z;
  hal_nvm_read : N → Z → Z → ptr (list Z) → Z → option (hal_status * ptr (list Z));
  hal_nvm_write : N → Z → Z → ptr (list Z) → Z → option (hal_status * N);
  hal_nvm_sync : N → option (hal_status * N);
}.

Definition nvm_region (r : Z) : Prop := r = HAL_NVM_EEPROM ∨ r = HAL_NVM_FLASH.

(** The contract.  [nvm_mem n r] is what region [r] holds; a device that is not
    [nvm_ready] may refuse, but never accesses memory out of bounds and never
    blocks for ever. *)
Class HalNvmSpec (N : Type) `{HalNvm N} := {
  nvm_ready : N → Prop;
  nvm_wf : N → Prop;
  nvm_mem : N → Z → list Z;
  nvm_mem_bytes n r : nvm_wf n → bytes (nvm_mem n r);
  nvm_mem_len n r : nvm_wf n → len (nvm_mem n r) < 4294967296;
  nvm_size_mem n r : nvm_wf n → hal_nvm_size n r = len (nvm_mem n r);
  nvm_read_total n r off d k :
    nvm_wf n → is_u32 off → 0 ≤ k ≤ len d → is_u32 k → bytes d →
    ∃ st d', hal_nvm_read n r off (Ptr d) k = Some (st, Ptr d') ∧ len d' = len d ∧ bytes d';
  nvm_read_ok n r off d k :
    nvm_wf n → nvm_ready n → nvm_region r → is_u32 off → 0 ≤ k ≤ len d → is_u32 k →
    off + k ≤ len (nvm_mem n r) →
    hal_nvm_read n r off (Ptr d) k = Some (HAL_OK, Ptr (splice d 0 (slice off k (nvm_mem n r))));
  nvm_read_range n r off d k :
    nvm_wf n → nvm_ready n → nvm_region r → is_u32 off → 0 < k ≤ len d → is_u32 k →
    len (nvm_mem n r) < off + k →
    hal_nvm_read n r off (Ptr d) k = Some (HAL_ERR_RANGE, Ptr d);
  nvm_write_total n r off s k :
    nvm_wf n → is_u32 off → 0 ≤ k ≤ len s → is_u32 k → bytes s →
    ∃ st n', hal_nvm_write n r off (Ptr s) k = Some (st, n') ∧ nvm_wf n' ∧
      (∀ r', len (nvm_mem n' r') = len (nvm_mem n r'));
  nvm_write_ok n r off s k :
    nvm_wf n → nvm_ready n → nvm_region r → is_u32 off → 0 ≤ k ≤ len s → is_u32 k → bytes s →
    off + k ≤ len (nvm_mem n r) →
    ∃ n', hal_nvm_write n r off (Ptr s) k = Some (HAL_OK, n') ∧ nvm_wf n' ∧ nvm_ready n' ∧
      nvm_mem n' r = splice (nvm_mem n r) off (slice 0 k s) ∧
      (∀ r', r' ≠ r → nvm_mem n' r' = nvm_mem n r');
  nvm_write_range n r off s k :
    nvm_wf n → nvm_ready n → nvm_region r → is_u32 off → 0 < k ≤ len s → is_u32 k →
    len (nvm_mem n r) < off + k →
    hal_nvm_write n r off (Ptr s) k = Some (HAL_ERR_RANGE, n);
  nvm_sync_total n :
    nvm_wf n → ∃ st n', hal_nvm_sync n = Some (st, n') ∧ nvm_wf n' ∧
      (∀ r', len (nvm_mem n' r') = len (nvm_mem n r'));
  nvm_sync_ok n :
    nvm_wf n → nvm_ready n →
    ∃ n', hal_nvm_sync n = Some (HAL_OK, n') ∧ nvm_wf n' ∧ nvm_ready n' ∧
      (∀ r', nvm_mem n' r' = nvm_mem n r');
}.

Section derived.
Context {N : Type} `{HalNvmSpec N}.
Implicit Types n : N.

(** A whole buffer is read, or written. *)
Lemma nvm_read_all n r off k :
  nvm_wf n → nvm_ready n → nvm_region r → is_u32 off → 0 ≤ k → is_u32 k →
  off + k ≤ len (nvm_mem n r) →
  hal_nvm_read n r off (Ptr (replicate (Z.to_nat k) 0)) k
    = Some (HAL_OK, Ptr (slice off k (nvm_mem n r))).
Proof.
  intros Hwf Hr Hreg Hoff Hk Hk32 Hle.
  rewrite nvm_read_ok by (rewrite ?len_replicate; done || lia).
  rewrite splice_all; [done|]. unfold is_u32 in *. rewrite len_slice, len_replicate; lia.
Qed.

Lemma nvm_write_all n r off s :
  nvm_wf n → nvm_ready n → nvm_region r → is_u32 off → is_u32 (len s) → bytes s →
  off + len s ≤ len (nvm_mem n r) →
  ∃ n', hal_nvm_write n r off (Ptr s) (len s) = Some (HAL_OK, n') ∧ nvm_wf n' ∧ nvm_ready n' ∧
    nvm_mem n' r = splice (nvm_mem n r) off s ∧ (∀ r', r' ≠ r → nvm_mem n' r' = nvm_mem n r').
Proof.
  intros Hwf Hr Hreg Hoff Hk Hb Hle. pose proof (len_nonneg s).
  destruct (nvm_write_ok n r off s (len s)) as (n' & Hw & ? & ? & Hm & ?); try done.
  rewrite slice_0_all in Hm. eauto 10.
Qed.
End derived.
