(* ===== verification/SimHal.v ===== *)
(** * Simulated chip (simulator/virtual_card.c, src/hal/simulator/)

    The memory arrays, the power state and the random generator of the virtual
    chip, its persistence in host files, and the proof that it keeps the memory
    contract of Hal.v. *)

From stdpp Require Import strings.
From S2P Require Import Prelude Hal.

Definition VCARD_EEPROM_PAGE : Z := 4.
Definition VCARD_FLASH_PAGE : Z := 256.

(** The build configuration (scos_config.h.in): sizes in KB. *)
Class ScosConfig := { SCOS_EEPROM_KB : Z; SCOS_FLASH_KB : Z }.

Section chip.
Context `{ScosConfig}.

Definition SCOS_EEPROM_BYTES : Z := u32 (SCOS_EEPROM_KB * 1024).
Definition SCOS_FLASH_BYTES : Z := u32 (SCOS_FLASH_KB * 1024).

Inductive vcard_power := VCARD_POWER_OFF | VCARD_POWER_ON.

#[export] Instance vcard_power_eq_dec : EqDecision vcard_power.
Proof. solve_decision. Defined.

Record vcard_config := VcardConfig {
  state_dir : ptr string;
  eeprom_size : Z;
  flash_size : Z;
  rng_seed : Z;
  quiet : bool;
}.

(** The static variables of virtual_card.c. *)
Record vcard := Vcard {
  s_eeprom : list Z;
  s_flash : list Z;
  s_cfg : vcard_config;
  s_configured : bool;
  s_power : vcard_power;
  s_rng_state : Z;
}.

(** Static storage at program start. *)
Definition vcard_zero : vcard :=
  Vcard (replicate (Z.to_nat SCOS_EEPROM_BYTES) 0) (replicate (Z.to_nat SCOS_FLASH_BYTES) 0)
        (VcardConfig NULL 0 0 0 false) false VCARD_POWER_OFF 0.

Definition default_config : vcard_config :=
  VcardConfig NULL SCOS_EEPROM_BYTES SCOS_FLASH_BYTES 1 false.

Definition vcard_config_default (cfg : ptr vcard_config) : ptr vcard_config :=
  match cfg with NULL => NULL | Ptr _ => Ptr default_config end.

Definition vcard_configure (cfg : ptr vcard_config) (v : vcard) : vcard :=
  let c := match cfg with NULL => default_config | Ptr c => c end in
  let e := if (eeprom_size c =? 0) || (SCOS_EEPROM_BYTES <? eeprom_size c)
           then SCOS_EEPROM_BYTES else eeprom_size c in
  let f := if (flash_size c =? 0) || (SCOS_FLASH_BYTES <? flash_size c)
           then SCOS_FLASH_BYTES else flash_size c in
  Vcard (s_eeprom v) (s_flash v) (VcardConfig (state_dir c) e f (rng_seed c) (quiet c))
        true (s_power v) (s_rng_state v).

(** [cfg()]: the configuration in force, and the card that has it. *)
Definition with_cfg (v : vcard) : vcard :=
  if s_configured v then v
  else Vcard (s_eeprom v) (s_flash v) default_config true (s_power v) (s_rng_state v).

Definition cfg (v : vcard) : vcard_config := s_cfg (with_cfg v).

(** *** Backing store

    The host's files by path; [open_ok] says which paths [fopen] accepts for
    writing. *)

Record host := Host { h_files : gmap string (list Z); open_ok : string → bool }.

(** [snprintf] into a buffer of 512 bytes. *)
Definition path_join (dir name : string) : string :=
  String.substring 0 511 (String.append dir (String.append "/" name)).

Definition region_load (h : host) (dir name : string) (buf : list Z) (size : Z) : option (list Z) :=
  match h_files h !! path_join dir name with
  | None => wr_n buf 0 (replicate (Z.to_nat size) 0xFF)
  | Some f =>
      let got := Z.min (len f) size in
      buf ← wr_n buf 0 (slice 0 got f);
      if got <? size then wr_n buf got (replicate (Z.to_nat (size - got)) 0xFF)
      else Some buf
  end.

Definition region_store (h : host) (dir name : string) (buf : list Z) (size : Z) : option host :=
  if open_ok h (path_join dir name) then
    b ← rd_n buf 0 size;
    Some (Host (<[path_join dir name := b]> (h_files h)) (open_ok h))
  else Some h.

Definition EEPROM_IMAGE : string := "card_eeprom.bin".
Definition FLASH_IMAGE : string := "card_flash.bin".

(** *** Power *)

Definition vcard_power_on (h : host) (v : vcard) : option (hal_status * vcard) :=
  let v := with_cfg v in
  let c := s_cfg v in
  '(e, f) ← match state_dir c with
    | Ptr dir =>
        e ← region_load h dir EEPROM_IMAGE (s_eeprom v) (eeprom_size c);
        f ← region_load h dir FLASH_IMAGE (s_flash v) (flash_size c);
        Some (e, f)
    | NULL =>
        e ← wr_n (s_eeprom v) 0 (replicate (Z.to_nat (eeprom_size c)) 0xFF);
        f ← wr_n (s_flash v) 0 (replicate (Z.to_nat (flash_size c)) 0xFF);
        Some (e, f)
    end;
  Some (HAL_OK, Vcard e f c (s_configured v) VCARD_POWER_ON
                  (if negb (rng_seed c =? 0) then rng_seed c else 0x2545F4914F6CDD1D)).

Definition vcard_power_off (h : host) (v : vcard) : option (host * vcard) :=
  let v := with_cfg v in
  let c := s_cfg v in
  h ← match s_power v, state_dir c with
    | VCARD_POWER_ON, Ptr dir =>
        h ← region_store h dir EEPROM_IMAGE (s_eeprom v) (eeprom_size c);
        region_store h dir FLASH_IMAGE (s_flash v) (flash_size c)
    | _, _ => Some h
    end;
  Some (h, Vcard (s_eeprom v) (s_flash v) c (s_configured v) VCARD_POWER_OFF (s_rng_state v)).

Definition vcard_power_get (v : vcard) : vcard_power := s_power v.

Definition hal_init (h : host) (v : vcard) : option (hal_status * vcard) := vcard_power_on h v.
Definition hal_reset (v : vcard) : vcard := v.
Definition hal_shutdown (h : host) (v : vcard) : option (host * vcard) := vcard_power_off h v.

(** *** Memory *)

(** The array of a region and its usable size; [NULL] for a value that is no
    region. *)
Definition vcard_nvm_base (v : vcard) (region : Z) : ptr (list Z) * Z :=
  if region =? HAL_NVM_EEPROM then (Ptr (s_eeprom v), eeprom_size (cfg v))
  else if region =? HAL_NVM_FLASH then (Ptr (s_flash v), flash_size (cfg v))
  else (NULL, 0).

Definition vcard_nvm_page (region : Z) : Z :=
  if region =? HAL_NVM_EEPROM then VCARD_EEPROM_PAGE
  else if region =? HAL_NVM_FLASH then VCARD_FLASH_PAGE
  else 0.

(** The array of a region replaced. *)
Definition vcard_set_base (v : vcard) (region : Z) (b : list Z) : vcard :=
  if region =? HAL_NVM_EEPROM then
    Vcard b (s_flash v) (s_cfg v) (s_configured v) (s_power v) (s_rng_state v)
  else
    Vcard (s_eeprom v) b (s_cfg v) (s_configured v) (s_power v) (s_rng_state v).

Definition sim_nvm_size (v : vcard) (region : Z) : Z := snd (vcard_nvm_base v region).

Definition sim_nvm_page_size (v : vcard) (region : Z) : Z := vcard_nvm_page region.

Definition in_range (size offset len : Z) : bool := u64 (offset + len) <=? size.

Definition sim_nvm_read (v : vcard) (region offset : Z) (dst : ptr (list Z)) (len : Z)
    : option (hal_status * ptr (list Z)) :=
  match dst with
  | NULL => Some (HAL_ERR_PARAM, dst)
  | Ptr d =>
      if len =? 0 then Some (HAL_OK, dst) else
      if negb (bool_decide (vcard_power_get v = VCARD_POWER_ON)) then Some (HAL_ERR_POWER, dst) else
      let '(base, size) := vcard_nvm_base v region in
      match base with
      | NULL => Some (HAL_ERR_PARAM, dst)
      | Ptr b =>
          if negb (in_range size offset len) then Some (HAL_ERR_RANGE, dst) else
          s ← rd_n b offset len;
          d ← wr_n d 0 s;
          Some (HAL_OK, Ptr d)
      end
  end.

Definition sim_nvm_write (v : vcard) (region offset : Z) (src : ptr (list Z)) (len : Z)
    : option (hal_status * vcard) :=
  match src with
  | NULL => Some (HAL_ERR_PARAM, v)
  | Ptr s =>
      if len =? 0 then Some (HAL_OK, v) else
      if negb (bool_decide (vcard_power_get v = VCARD_POWER_ON)) then Some (HAL_ERR_POWER, v) else
      let '(base, size) := vcard_nvm_base v region in
      match base with
      | NULL => Some (HAL_ERR_PARAM, v)
      | Ptr b =>
          if negb (in_range size offset len) then Some (HAL_ERR_RANGE, v) else
          s ← rd_n s 0 len;
          b ← wr_n b offset s;
          Some (HAL_OK, vcard_set_base v region b)
      end
  end.

Definition sim_nvm_sync (v : vcard) : option (hal_status * vcard) :=
  Some (if negb (bool_decide (vcard_power_get v = VCARD_POWER_ON)) then HAL_ERR_POWER else HAL_OK, v).

(** *** Random bytes *)

Definition vcard_random_u64 (v : vcard) : Z * vcard :=
  let x := s_rng_state v in
  let x := Z.lxor x (Z.shiftr x 12) in
  let x := Z.lxor x (u64 (Z.shiftl x 25)) in
  let x := Z.lxor x (Z.shiftr x 27) in
  (u64 (x * 0x2545F4914F6CDD1D),
   Vcard (s_eeprom v) (s_flash v) (s_cfg v) (s_configured v) (s_power v) x).

Fixpoint random_loop (fuel : nat) (v : vcard) (out : list Z) (i len : Z) : option (list Z * vcard) :=
  match fuel with
  | O => None
  | S fuel =>
      if i <? len then
        let '(r, v) := vcard_random_u64 v in
        let n := if len - i <? 8 then len - i else 8 in
        out ← foreach (upto n)
                (λ j out, wr out (i + j) (u8 (Z.land (Z.shiftr r (8 * j)) 0xFF))) out;
        random_loop fuel v out (i + n) len
      else Some (out, v)
  end.

Definition hal_random_bytes (v : vcard) (dst : ptr (list Z)) (len : Z)
    : option (hal_status * ptr (list Z) * vcard) :=
  match dst with
  | NULL => Some (HAL_ERR_PARAM, dst, v)
  | Ptr d =>
      if len =? 0 then Some (HAL_OK, dst, v) else
      if negb (bool_decide (vcard_power_get v = VCARD_POWER_ON)) then Some (HAL_ERR_POWER, dst, v) else
      '(d, v) ← random_loop (S (Z.to_nat len)) v d 0 len;
      Some (HAL_OK, Ptr d, v)
  end.

Definition s_atr : list Z := [0x3B; 0x94; 0x11; 0x00; 0x53; 0x43; 0x4F; 0x53].

Definition vcard_atr : list Z * Z := (s_atr, len s_atr).

#[export] Instance SimHalNvm : HalNvm vcard := {
  hal_nvm_size := sim_nvm_size;
  hal_nvm_page_size := sim_nvm_page_size;
  hal_nvm_read := sim_nvm_read;
  hal_nvm_write := sim_nvm_write;
  hal_nvm_sync := sim_nvm_sync;
}.

(** ** The chip keeps the contract *)

Record vcard_wf (v : vcard) : Prop := {
  vw_configured : s_configured v = true;
  vw_eeprom : bytes (s_eeprom v);
  vw_flash : bytes (s_flash v);
  vw_esize : 0 ≤ eeprom_size (s_cfg v) ≤ len (s_eeprom v);
  vw_fsize : 0 ≤ flash_size (s_cfg v) ≤ len (s_flash v);
  vw_elen : len (s_eeprom v) < 4294967296;
  vw_flen : len (s_flash v) < 4294967296;
}.

(** The usable part of a region. *)
Definition vcard_mem (v : vcard) (r : Z) : list Z :=
  if r =? HAL_NVM_EEPROM then slice 0 (eeprom_size (s_cfg v)) (s_eeprom v)
  else if r =? HAL_NVM_FLASH then slice 0 (flash_size (s_cfg v)) (s_flash v)
  else [].

Definition vcard_ready (v : vcard) : Prop := s_power v = VCARD_POWER_ON.

Lemma cfg_wf v : vcard_wf v → cfg v = s_cfg v.
Proof. intros []. unfold cfg, with_cfg. by destruct (s_configured v). Qed.

(** An access inside the usable part is an access inside the array. *)
Lemma nvm_base_wf v r b size :
  vcard_wf v → vcard_nvm_base v r = (Ptr b, size) →
  bytes b ∧ 0 ≤ size ≤ len b ∧ len b < 4294967296 ∧ vcard_mem v r = slice 0 size b ∧
  (∀ b', bytes b' → len b' = len b →
     vcard_wf (vcard_set_base v r b') ∧ vcard_mem (vcard_set_base v r b') r = slice 0 size b' ∧
     (∀ r', r' ≠ r → vcard_mem (vcard_set_base v r b') r' = vcard_mem v r') ∧
     s_power (vcard_set_base v r b') = s_power v).
Proof.
  intros Hwf. pose proof Hwf as [? ? ? ? ? ? ?].
  unfold vcard_nvm_base, vcard_mem, vcard_set_base. rewrite (cfg_wf v Hwf).
  destruct (Z.eqb_spec r HAL_NVM_EEPROM) as [->|];
    [|destruct (Z.eqb_spec r HAL_NVM_FLASH) as [->|]; [|done]];
    intros [= <- <-]; (split_and!; [done|lia|lia|lia|done|]); intros b' Hb' Hl; split_and!; simpl;
    try done; try (by constructor; simpl; try done; lia).
  all: intros r' Hr'; by repeat case_if; try done; subst.
Qed.

Lemma mem_len v r : vcard_wf v → sim_nvm_size v r = len (vcard_mem v r).
Proof.
  intros Hwf. pose proof Hwf as [? ? ? ? ? ? ?]. unfold sim_nvm_size, vcard_nvm_base, vcard_mem.
  rewrite (cfg_wf v Hwf). repeat case_if; simpl; rewrite ?len_slice by lia; done.
Qed.

Lemma in_range_spec size off k :
  is_u32 off → is_u32 k → in_range size off k = (off + k <=? size).
Proof. unfold is_u32, in_range. intros. by rewrite u64_id by lia. Qed.

(** A region that exists has an array. *)
Lemma nvm_base_region v r :
  nvm_region r → ∃ b size, vcard_nvm_base v r = (Ptr b, size).
Proof. intros [-> | ->]; unfold vcard_nvm_base; simpl; eauto. Qed.

Lemma sim_read_total v r off d k :
  vcard_wf v → is_u32 off → 0 ≤ k ≤ len d → is_u32 k → bytes d →
  ∃ st d', sim_nvm_read v r off (Ptr d) k = Some (st, Ptr d') ∧ len d' = len d ∧ bytes d'.
Proof.
  intros Hwf Hoff Hk Hk32 Hd. unfold sim_nvm_read. case_if; [eauto|]. case_if; [eauto|].
  destruct (vcard_nvm_base v r) as [[|b] size] eqn:E; [eauto|].
  destruct (nvm_base_wf _ _ _ _ Hwf E) as (Hb & Hs & _).
  rewrite in_range_spec by done. case_if; [eauto|]. unfold is_u32 in *.
  rewrite rd_n_some by lia. simpl. rewrite wr_n_some by (rewrite ?len_slice; lia).
  eexists _, _. split; [done|]. rewrite len_splice by (rewrite ?len_slice; lia).
  split; [done|]. apply bytes_splice; [done|]. by apply bytes_slice.
Qed.

Lemma sim_write_total v r off s k :
  vcard_wf v → is_u32 off → 0 ≤ k ≤ len s → is_u32 k → bytes s →
  ∃ st v', sim_nvm_write v r off (Ptr s) k = Some (st, v') ∧ vcard_wf v' ∧
    (∀ r', len (vcard_mem v' r') = len (vcard_mem v r')).
Proof.
  intros Hwf Hoff Hk Hk32 Hd. unfold sim_nvm_write. case_if; [eauto|]. case_if; [eauto|].
  destruct (vcard_nvm_base v r) as [[|b] size] eqn:E; [eauto|].
  destruct (nvm_base_wf _ _ _ _ Hwf E) as (Hb & Hs & Hl & Hm & Hset).
  rewrite in_range_spec by done. case_if; [eauto|]. unfold is_u32 in *.
  rewrite rd_n_some by lia. simpl. rewrite wr_n_some by (rewrite ?len_slice; lia). simpl.
  assert (len (splice b off (slice 0 k s)) = len b) as Hlb by (apply len_splice; rewrite ?len_slice; lia).
  destruct (Hset (splice b off (slice 0 k s))) as (? & Hm' & Ho & _); [|done|].
  { apply bytes_splice; [done|]. by apply bytes_slice. }
  eexists _, _. split; [done|]. split; [done|]. intros r'.
  destruct (decide (r' = r)) as [->|]; [|by rewrite Ho].
  rewrite Hm, Hm', !len_slice by lia. done.
Qed.

(** An access of a powered card to a region that exists, in one equation. *)
Lemma sim_access v r off k :
  vcard_wf v → vcard_ready v → nvm_region r → is_u32 off → is_u32 k → k ≠ 0 →
  ∃ b size, vcard_nvm_base v r = (Ptr b, size) ∧
    (∀ d, sim_nvm_read v r off (Ptr d) k =
       if off + k <=? size then s ← rd_n b off k; d ← wr_n d 0 s; Some (HAL_OK, Ptr d)
       else Some (HAL_ERR_RANGE, Ptr d)) ∧
    (∀ s, sim_nvm_write v r off (Ptr s) k =
       if off + k <=? size then
         s ← rd_n s 0 k; b ← wr_n b off s; Some (HAL_OK, vcard_set_base v r b)
       else Some (HAL_ERR_RANGE, v)).
Proof.
  intros Hwf Hr Hreg Hoff Hk Hk0. destruct (nvm_base_region v r Hreg) as (b & size & E).
  exists b, size. split; [done|]. unfold sim_nvm_read, sim_nvm_write, vcard_power_get.
  rewrite E, Hr. replace (k =? 0) with false by lia. rewrite bool_decide_eq_true_2 by done. simpl.
  rewrite in_range_spec by done. by destruct (off + k <=? size).
Qed.

Lemma sim_zero v r off s k :
  k = 0 → sim_nvm_read v r off (Ptr s) k = Some (HAL_OK, Ptr s) ∧
          sim_nvm_write v r off (Ptr s) k = Some (HAL_OK, v).
Proof. by intros ->. Qed.

#[export] Program Instance SimHalNvmSpec : HalNvmSpec vcard := {
  nvm_ready := vcard_ready; nvm_wf := vcard_wf; nvm_mem := vcard_mem;
}.
Next Obligation.
  intros v r []. unfold vcard_mem. repeat case_if; try by apply bytes_slice. constructor.
Qed.
Next Obligation.
  intros v r []. unfold vcard_mem. repeat case_if; rewrite ?len_slice; done || lia.
Qed.
Next Obligation. intros v r Hwf. by apply mem_len. Qed.
Next Obligation. intros v r off d k. apply sim_read_total. Qed.
Next Obligation.
  cbn [hal_nvm_read hal_nvm_write hal_nvm_sync SimHalNvm]. intros v r off d k Hwf Hr Hreg Hoff Hk Hk32 Hle.
  destruct (decide (k = 0)) as [->|Hk0]; [by rewrite slice_zero, splice_nil|].
  destruct (sim_access v r off k) as (b & size & E & Hrd & _); try done.
  destruct (nvm_base_wf _ _ _ _ Hwf E) as (Hb & Hs & _ & Hm & _).
  rewrite Hm in Hle |- *. unfold is_u32 in *. rewrite len_slice in Hle by lia.
  rewrite Hrd. replace (off + k <=? size) with true by lia.
  rewrite rd_n_some by lia. simpl. rewrite wr_n_some by (rewrite ?len_slice; lia).
  by rewrite slice_slice by lia.
Qed.
Next Obligation.
  cbn [hal_nvm_read hal_nvm_write hal_nvm_sync SimHalNvm]. intros v r off d k Hwf Hr Hreg Hoff Hk Hk32 Hlt.
  destruct (sim_access v r off k) as (b & size & E & Hrd & _); try done; [lia|].
  destruct (nvm_base_wf _ _ _ _ Hwf E) as (Hb & Hs & _ & Hm & _).
  rewrite Hm, len_slice in Hlt by lia. rewrite Hrd. by replace (off + k <=? size) with false by lia.
Qed.
Next Obligation. intros v r off s k. apply sim_write_total. Qed.
Next Obligation.
  cbn [hal_nvm_read hal_nvm_write hal_nvm_sync SimHalNvm]. intros v r off s k Hwf Hr Hreg Hoff Hk Hk32 Hb Hle.
  destruct (decide (k = 0)) as [->|Hk0].
  { exists v. rewrite slice_zero, splice_nil. by split_and!. }
  destruct (sim_access v r off k) as (b & size & E & _ & Hwr); try done.
  destruct (nvm_base_wf _ _ _ _ Hwf E) as (Hbb & Hs & _ & Hm & Hset).
  rewrite Hm in Hle |- *. unfold is_u32 in *. rewrite len_slice in Hle by lia.
  rewrite Hwr. replace (off + k <=? size) with true by lia.
  rewrite rd_n_some by lia. simpl. rewrite wr_n_some by (rewrite ?len_slice; lia). simpl.
  destruct (Hset (splice b off (slice 0 k s))) as (? & Hm' & Ho & Hp).
  { apply bytes_splice; [done|]. by apply bytes_slice. }
  { apply len_splice; rewrite ?len_slice; lia. }
  eexists. split; [done|]. split; [done|]. split; [unfold vcard_ready; by rewrite Hp|].
  split; [|done]. rewrite Hm'. apply slice_splice_prefix; rewrite ?len_slice; lia.
Qed.
Next Obligation.
  cbn [hal_nvm_read hal_nvm_write hal_nvm_sync SimHalNvm]. intros v r off s k Hwf Hr Hreg Hoff Hk Hk32 Hlt.
  destruct (sim_access v r off k) as (b & size & E & _ & Hwr); try done; [lia|].
  destruct (nvm_base_wf _ _ _ _ Hwf E) as (Hb & Hs & _ & Hm & _).
  rewrite Hm, len_slice in Hlt by lia. rewrite Hwr. by replace (off + k <=? size) with false by lia.
Qed.
Next Obligation. intros v Hwf. eexists _, v. by split_and!. Qed.
Next Obligation.
  cbn [hal_nvm_read hal_nvm_write hal_nvm_sync SimHalNvm]. intros v Hwf Hr. exists v. unfold sim_nvm_sync, vcard_power_get. rewrite Hr.
  rewrite bool_decide_eq_true_2 by done. by split_and!.
Qed.

(** ** Power cycles *)

(** Loading a region keeps the array's size; its usable part becomes the image,
    padded with erased bytes. *)
Lemma region_load_spec h dir name buf size :
  bytes buf → 0 ≤ size ≤ len buf →
  (∀ f, h_files h !! path_join dir name = Some f → bytes f) →
  ∃ buf', region_load h dir name buf size = Some buf' ∧ bytes buf' ∧ len buf' = len buf ∧
    (∀ f, h_files h !! path_join dir name = Some f → len f = size → slice 0 size buf' = f).
Proof.
  intros Hb Hs Hf. unfold region_load. destruct (h_files h !! path_join dir name) as [f|] eqn:E.
  - specialize (Hf f eq_refl). pose proof (len_nonneg f).
    rewrite wr_n_some by (rewrite ?len_slice; lia). simpl.
    assert (bytes (splice buf 0 (slice 0 (Z.min (len f) size) f))) as Hb'
      by (apply bytes_splice; [done|by apply bytes_slice]).
    assert (len (splice buf 0 (slice 0 (Z.min (len f) size) f)) = len buf) as Hl
      by (apply len_splice; rewrite ?len_slice; lia).
    case_if.
    + rewrite wr_n_some by (rewrite ?len_replicate, ?Hl; lia). eexists. split; [done|].
      split; [apply bytes_splice; [done|apply bytes_replicate; unfold is_u8; lia]|].
      split; [rewrite len_splice; rewrite ?len_replicate, ?Hl; lia|]. intros f' [= <-] ?. lia.
    + eexists. split; [done|]. split; [done|]. split; [done|]. intros f' [= <-] Hlf.
      replace (Z.min (len f) size) with (len f) by lia. rewrite slice_0_all.
      rewrite <- Hlf. apply slice_splice_same; lia.
  - rewrite wr_n_some by (rewrite ?len_replicate; lia). eexists. split; [done|].
    split; [apply bytes_splice; [done|apply bytes_replicate; unfold is_u8; lia]|].
    split; [rewrite len_splice; rewrite ?len_replicate; lia|]. done.
Qed.

(** Power-on makes the memory available, in every case. *)
Lemma vcard_power_on_ready h v :
  vcard_wf v → (∀ p f, h_files h !! p = Some f → bytes f) →
  ∃ v', vcard_power_on h v = Some (HAL_OK, v') ∧ vcard_wf v' ∧ vcard_ready v'.
Proof.
  intros Hwf Hh. pose proof Hwf as [Hc He Hf Hes Hfs Hel Hfl]. unfold vcard_power_on, with_cfg.
  rewrite Hc. destruct (state_dir (s_cfg v)) as [|dir].
  - rewrite !wr_n_some by (rewrite ?len_replicate; lia). simpl. eexists. split; [done|].
    split; [|done]. constructor; simpl; rewrite ?len_splice by (rewrite ?len_replicate; lia); try done.
    all: apply bytes_splice; [done|apply bytes_replicate; unfold is_u8; lia].
  - destruct (region_load_spec h dir EEPROM_IMAGE (s_eeprom v) (eeprom_size (s_cfg v)))
      as (e & -> & ? & Hle & _); [done|done|by eauto|].
    destruct (region_load_spec h dir FLASH_IMAGE (s_flash v) (flash_size (s_cfg v)))
      as (f & Hlf & ? & Hlf' & _); [done|done|by eauto|].
    simpl. rewrite Hlf. simpl. eexists. split; [done|].
    split; [|done]. constructor; simpl; rewrite ?Hle, ?Hlf'; done.
Qed.

(** What the card held when the power went off is what it holds after the
    next power-on, whatever the arrays hold in between. *)
Theorem vcard_power_cycle_persists h v v2 dir r :
  vcard_wf v → vcard_ready v → vcard_wf v2 → s_cfg v2 = s_cfg v →
  state_dir (s_cfg v) = Ptr dir →
  open_ok h (path_join dir EEPROM_IMAGE) = true → open_ok h (path_join dir FLASH_IMAGE) = true →
  path_join dir EEPROM_IMAGE ≠ path_join dir FLASH_IMAGE →
  ∃ h' v' v'', hal_shutdown h v = Some (h', v') ∧ ¬ vcard_ready v' ∧
    hal_init h' v2 = Some (HAL_OK, v'') ∧ vcard_ready v'' ∧ vcard_mem v'' r = vcard_mem v r.
Proof.
  intros Hwf Hr Hwf2 Hcfg Hdir Hoe Hof Hne. unfold vcard_ready in Hr.
  pose proof Hwf as [Hc He Hf Hes Hfs Hel Hfl]. pose proof Hwf2 as [Hc2 He2 Hf2 Hes2 Hfs2 Hel2 Hfl2].
  rewrite Hcfg in Hes2, Hfs2.
  unfold hal_shutdown, vcard_power_off, with_cfg. rewrite Hc, Hr, Hdir.
  unfold region_store at 2. rewrite Hoe, rd_n_some by lia. simpl.
  unfold region_store. simpl. rewrite Hof, rd_n_some by lia. simpl.
  set (h' := Host _ _). exists h'. eexists.
  unfold hal_init, vcard_power_on, with_cfg. rewrite Hc2, Hcfg, Hdir.
  assert (h_files h' !! path_join dir FLASH_IMAGE = Some (slice 0 (flash_size (s_cfg v)) (s_flash v)))
    as Hlf by apply lookup_insert_eq.
  assert (h_files h' !! path_join dir EEPROM_IMAGE = Some (slice 0 (eeprom_size (s_cfg v)) (s_eeprom v)))
    as Hle by (unfold h'; simpl; rewrite lookup_insert_ne by done; apply lookup_insert_eq).
  destruct (region_load_spec h' dir EEPROM_IMAGE (s_eeprom v2) (eeprom_size (s_cfg v)))
    as (e & -> & _ & _ & Hse); [done|done| |].
  { intros f. rewrite Hle. intros [= <-]. by apply bytes_slice. }
  destruct (region_load_spec h' dir FLASH_IMAGE (s_flash v2) (flash_size (s_cfg v)))
    as (f & Hff & _ & _ & Hsf); [done|done| |].
  { intros f. rewrite Hlf. intros [= <-]. by apply bytes_slice. }
  simpl. rewrite Hff. simpl. eexists. do 4 (split; [done|]). unfold vcard_mem. simpl.
  rewrite (Hse _ Hle), (Hsf _ Hlf) by (rewrite len_slice; lia). done.
Qed.

End chip.

(** A small chip for the examples. *)
Definition small_config : ScosConfig := {| SCOS_EEPROM_KB := 1; SCOS_FLASH_KB := 1 |}.

#[local] Existing Instance small_config.

Definition small_card (dir : ptr string) (p : vcard_power) : vcard :=
  Vcard (replicate 1024 0xFF) (replicate 1024 0xFF) (VcardConfig dir 1024 1024 1 true) true p 1.

Lemma small_card_wf dir p : vcard_wf (small_card dir p).
Proof.
  constructor; simpl; [done|solve_bytes|solve_bytes|split; vm_compute; discriminate..|done|done].
Qed.

Lemma vcard_power_cycle_persists_witness :
  ∃ h' v' v'',
    hal_shutdown (Host ∅ (λ _, true)) (small_card (Ptr "card"%string) VCARD_POWER_ON) = Some (h', v') ∧
    ¬ vcard_ready v' ∧
    hal_init h' (small_card (Ptr "card"%string) VCARD_POWER_OFF) = Some (HAL_OK, v'') ∧
    vcard_ready v'' ∧
    vcard_mem v'' HAL_NVM_FLASH = vcard_mem (small_card (Ptr "card"%string) VCARD_POWER_ON) HAL_NVM_FLASH.
Proof.
  apply (vcard_power_cycle_persists (Host ∅ (λ _, true)) (small_card (Ptr "card"%string) VCARD_POWER_ON)
           (small_card (Ptr "card"%string) VCARD_POWER_OFF) "card"%string HAL_NVM_FLASH);
    try apply small_card_wf; try reflexivity.
  vm_compute. discriminate.
Defined.
