(* ===== verification/SimTimer.v ===== *)
(** * The simulator's clock (src/hal/simulator/hal_sim_platform.c)

    [hal_timer_get_ms], here [sim_timer_get_ms], turns the processor time of the
    host process into milliseconds, in double precision.  The arithmetic is that of
    IEEE 754 binary64 with rounding to nearest, as the Standard Library's executable
    model of it defines; what [clock()] returns and its unit are parameters.  The card OS never
    calls it: it is there for diagnostics. *)

From Stdlib Require Import SpecFloat.
From S2P Require Import Prelude.

Section timer.

(** [CLOCKS_PER_SEC]: one million on POSIX systems, whatever the real resolution. *)
Variable CLOCKS_PER_SEC : Z.

(** Conversion of an integer, division and multiplication in binary64. *)
Definition double_of_Z (n : Z) : spec_float := binary_normalize 53 1024 n 0 false.
Definition double_div : spec_float → spec_float → spec_float := SFdiv 53 1024.
Definition double_mul : spec_float → spec_float → spec_float := SFmul 53 1024.

(** The integer part of a double, if it has one. *)
Definition double_trunc (x : spec_float) : option Z :=
  match x with
  | S754_zero _ => Some 0
  | S754_finite s m e => let v := Z.shiftl (Zpos m) e in Some (if s then - v else v)
  | _ => None
  end.

(** [(uint32_t)x]: not defined in C when the integer part does not fit. *)
Definition uint32_of_double (x : spec_float) : option Z :=
  v ← double_trunc x; if (0 <=? v) && (v <? 4294967296) then Some v else None.

Definition sim_timer_get_ms (clock : Z) : option Z :=
  if clock =? -1 then Some 0 else
  let ms := double_mul (double_div (double_of_Z clock) (double_of_Z CLOCKS_PER_SEC)) (double_of_Z 1000) in
  uint32_of_double ms.

End timer.

Lemma uint32_of_double_range x v : uint32_of_double x = Some v → is_u32 v.
Proof. unfold uint32_of_double, is_u32. intros (w & _ & E)%bind_Some. revert E. case_if; [|done]. intros [= <-]. lia. Qed.

(** What it returns is a [uint32_t], and the clock's failure is time zero. *)
Lemma sim_timer_get_ms_range cps clock v : sim_timer_get_ms cps clock = Some v → is_u32 v.
Proof. unfold sim_timer_get_ms. case_if; [|apply uint32_of_double_range]. by intros [= <-]. Qed.

Example timer_seconds : sim_timer_get_ms 1000000 1500000 = Some 1500 ∧ sim_timer_get_ms 1000000 (-1) = Some 0.
Proof. by vm_compute. Qed.

(** 1.001 is no binary fraction: the product falls short of 1001 and is cut to 1000. *)
Example timer_truncates : sim_timer_get_ms 1000000 1001000 = Some 1000.
Proof. by vm_compute. Qed.

(** After 2^32 ms of processor time, 49 days, the conversion is undefined. *)
Example timer_overflows :
  sim_timer_get_ms 1000000 4294967295000 = Some 4294967295 ∧ sim_timer_get_ms 1000000 4294967296000 = None.
Proof. by vm_compute. Qed.
