(* ===== verification/ArmHal.v ===== *)
(** * The SCV1 chip (src/hal/arm-scv1/hal_arm_nvm.c, hal_arm_platform.c)

    The memory driver of the ARM target, its power-up and power-down with the
    image files a semihosting debugger may hold, its random generator, and the
    proof that it keeps the memory contract of Hal.v. *)

From stdpp Require Import strings.
From S2P Require Import Prelude OsMem Hal.
#[local] Open Scope Z_scope.

(** The memory map (scv1.h). *)
Definition SCV1_CODE_BASE : Z := 0x0.
Definition SCV1_CODE_SIZE : Z := 64 * 1024.
Definition SCV1_BOOTROM_BASE : Z := 0x0.
Definition SCV1_BOOTROM_SIZE : Z := 8 * 1024.
Definition SCV1_OSFLASH_BASE : Z := 0x2000.
Definition SCV1_OSFLASH_SIZE : Z := 55 * 1024.
Definition SCV1_OSHDR_BASE : Z := 0xFC00.
Definition SCV1_OSHDR_SIZE : Z := 1024.
Definition SCV1_CFLASH_PAGE : Z := 1024.
Definition SCV1_EEPROM_BASE : Z := 0x10000.
Definition SCV1_EEPROM_SIZE : Z := 16 * 1024.
Definition SCV1_EEPROM_PAGE : Z := 4.
Definition SCV1_DFLASH_BASE : Z := 0x14000.
Definition SCV1_DFLASH_SIZE : Z := 256 * 1024.
Definition SCV1_DFLASH_PAGE : Z := 256.
Definition SCV1_SRAM_BASE : Z := 0x20000000.
Definition SCV1_SRAM_SIZE : Z := 16 * 1024.

(** [runs_on b regions e]: the regions, each a base and a size, follow each other
    from [b] to [e] without a gap or an overlap. *)
Fixpoint runs_on (b : Z) (regions : list (Z * Z)) (e : Z) : Prop :=
  match regions with
  | [] => b = e
  | (base, size) :: rest => b = base ∧ 0 < size ∧ runs_on (base + size) rest e
  end.

(** The boot ROM, the OS slot and its header are the code memory, and the two
    memories of the file system follow it; every page lies in one of them. *)
Lemma memory_map :
  runs_on SCV1_CODE_BASE
    [(SCV1_BOOTROM_BASE, SCV1_BOOTROM_SIZE); (SCV1_OSFLASH_BASE, SCV1_OSFLASH_SIZE); (SCV1_OSHDR_BASE, SCV1_OSHDR_SIZE)]
    (SCV1_CODE_BASE + SCV1_CODE_SIZE) ∧
  runs_on (SCV1_CODE_BASE + SCV1_CODE_SIZE)
    [(SCV1_EEPROM_BASE, SCV1_EEPROM_SIZE); (SCV1_DFLASH_BASE, SCV1_DFLASH_SIZE)] (SCV1_DFLASH_BASE + SCV1_DFLASH_SIZE) ∧
  SCV1_DFLASH_BASE + SCV1_DFLASH_SIZE ≤ SCV1_SRAM_BASE ∧
  Forall (λ '(base, page), base mod page = 0)
    [(SCV1_OSFLASH_BASE, SCV1_CFLASH_PAGE); (SCV1_OSHDR_BASE, SCV1_CFLASH_PAGE); (SCV1_EEPROM_BASE, SCV1_EEPROM_PAGE);
     (SCV1_DFLASH_BASE, SCV1_DFLASH_PAGE)].
Proof. split_and!; try done. by repeat constructor. Qed.

(** The two regions of the memory map and the static variables of the files. *)
Record scv1 := Scv1 {
  eeprom_region : list Z;
  dflash_region : list Z;
  a_powered : bool;
  a_rng_state : Z;
}.

(** ** The debugger's files

    [semihost_load] and [semihost_store] trap to a debugger: a file that does
    not exist does not open for reading, a read stops at the end of the file. *)

Record semihost := Semihost {
  sh_available : bool;
  sh_files : gmap string (list Z);
  sh_writable : string → bool;
}.

Definition semihost_load (h : semihost) (path : string) (dst : list Z) (n : Z) : option (Z * list Z) :=
  if negb (sh_available h) then Some (-1, dst) else
  match sh_files h !! path with
  | None => Some (-1, dst)
  | Some f =>
      let got := Z.min (len f) n in
      dst ← wr_n dst 0 (slice 0 got f);
      Some (got, dst)
  end.

Definition semihost_store (h : semihost) (path : string) (src : list Z) (n : Z) : option (Z * semihost) :=
  if negb (sh_available h) then Some (-1, h) else
  if negb (sh_writable h path) then Some (-1, h) else
  b ← rd_n src 0 n;
  Some (0, Semihost (sh_available h) (<[path := b]> (sh_files h)) (sh_writable h)).

Definition EEPROM_FILE : string := "card_eeprom.bin".
Definition DFLASH_FILE : string := "card_flash.bin".

(** ** The driver *)

Definition region_base (v : scv1) (region : Z) : ptr (list Z) * Z :=
  if region =? HAL_NVM_EEPROM then (Ptr (eeprom_region v), SCV1_EEPROM_SIZE)
  else if region =? HAL_NVM_FLASH then (Ptr (dflash_region v), SCV1_DFLASH_SIZE)
  else (NULL, 0).

Definition set_region (v : scv1) (region : Z) (b : list Z) : scv1 :=
  if region =? HAL_NVM_EEPROM then Scv1 b (dflash_region v) (a_powered v) (a_rng_state v)
  else Scv1 (eeprom_region v) b (a_powered v) (a_rng_state v).

Definition arm_nvm_size (v : scv1) (region : Z) : Z := (region_base v region).2.

Definition arm_nvm_page_size (v : scv1) (region : Z) : Z :=
  if region =? HAL_NVM_EEPROM then SCV1_EEPROM_PAGE
  else if region =? HAL_NVM_FLASH then SCV1_DFLASH_PAGE
  else 0.

Definition arm_in_range (size offset n : Z) : bool := u64 (offset + n) <=? size.

Definition arm_nvm_read (v : scv1) (region offset : Z) (dst : ptr (list Z)) (n : Z)
    : option (hal_status * ptr (list Z)) :=
  if is_null dst then Some (HAL_ERR_PARAM, dst) else
  if n =? 0 then Some (HAL_OK, dst) else
  if negb (a_powered v) then Some (HAL_ERR_POWER, dst) else
  let '(base, size) := region_base v region in
  match base with
  | NULL => Some (HAL_ERR_PARAM, dst)
  | Ptr b =>
      if negb (arm_in_range size offset n) then Some (HAL_ERR_RANGE, dst) else
      '(ok, dst) ← os_memcpy_checked dst n (at_off b offset) n;
      Some (if negb ok then HAL_ERR_IO else HAL_OK, dst)
  end.

(** [base + offset] is written through a pointer into the region. *)
Definition arm_nvm_write (v : scv1) (region offset : Z) (src : ptr (list Z)) (n : Z)
    : option (hal_status * scv1) :=
  if is_null src then Some (HAL_ERR_PARAM, v) else
  if n =? 0 then Some (HAL_OK, v) else
  if negb (a_powered v) then Some (HAL_ERR_POWER, v) else
  let '(base, size) := region_base v region in
  match base with
  | NULL => Some (HAL_ERR_PARAM, v)
  | Ptr b =>
      if negb (arm_in_range size offset n) then Some (HAL_ERR_RANGE, v) else
      '(ok, d) ← os_memcpy_checked (at_off b offset) n src n;
      d ← deref d;
      let v := set_region v region (take (Z.to_nat offset) b ++ d) in
      Some (if negb ok then HAL_ERR_IO else HAL_OK, v)
  end.

Definition arm_nvm_sync (v : scv1) : option (hal_status * scv1) :=
  Some (if negb (a_powered v) then HAL_ERR_POWER else HAL_OK, v).

(** ** Power-up and power-down *)

(** One region from its file: was it there, and the region, padded with erased
    bytes after a short file. *)
Definition load_region (h : semihost) (path : string) (b : list Z) (size : Z) : option (bool * list Z) :=
  '(e, b) ← semihost_load h path b size;
  if 0 <? e then
    if u32 e <? size then
      t ← os_memset (at_off b e) 0xFF (size - u32 e);
      t ← deref t;
      Some (true, take (Z.to_nat e) b ++ t)
    else Some (true, b)
  else Some (false, b).

Definition erase_region (b : list Z) (size : Z) : option (list Z) :=
  p ← os_memset (Ptr b) 0xFF size; deref p.

(** The four bytes 'S' 'C' 'O' 'S'. *)
Definition has_superblock (b : list Z) : option bool :=
  x0 ← rd b 0; x1 ← rd b 1; x2 ← rd b 2; x3 ← rd b 3;
  Some ((x0 =? 0x53) && (x1 =? 0x43) && (x2 =? 0x4F) && (x3 =? 0x53)).

Definition scv1_nvm_power_on (h : semihost) (v : scv1) : option scv1 :=
  '(eeprom_loaded, e) ←
    (if sh_available h then load_region h EEPROM_FILE (eeprom_region v) SCV1_EEPROM_SIZE
     else Some (false, eeprom_region v));
  '(dflash_loaded, f) ←
    (if sh_available h then load_region h DFLASH_FILE (dflash_region v) SCV1_DFLASH_SIZE
     else Some (false, dflash_region v));
  '(e, f) ←
    (if negb eeprom_loaded then
       has_fs ← has_superblock e;
       if negb has_fs then
         e ← erase_region e SCV1_EEPROM_SIZE;
         f ← (if negb dflash_loaded then erase_region f SCV1_DFLASH_SIZE else Some f);
         Some (e, f)
       else Some (e, f)
     else Some (e, f));
  Some (Scv1 e f true (a_rng_state v)).

Definition scv1_nvm_power_off (h : semihost) (v : scv1) : option (semihost * scv1) :=
  if negb (a_powered v) then Some (h, v) else
  h ← (if sh_available h then
         '(_, h) ← semihost_store h EEPROM_FILE (eeprom_region v) SCV1_EEPROM_SIZE;
         '(_, h) ← semihost_store h DFLASH_FILE (dflash_region v) SCV1_DFLASH_SIZE;
         Some h
       else Some h);
  Some (h, Scv1 (eeprom_region v) (dflash_region v) false (a_rng_state v)).

(** The memory part of [hal_init]; Platform.v has the whole of it. *)
Definition arm_hal_init (h : semihost) (v : scv1) : option (hal_status * scv1) :=
  v ← scv1_nvm_power_on h v; Some (HAL_OK, v).
Definition arm_hal_reset (v : scv1) : scv1 := v.
Definition arm_hal_shutdown (h : semihost) (v : scv1) : option (semihost * scv1) := scv1_nvm_power_off h v.

(** ** Random bytes *)

Definition arm_random_step (v : scv1) : Z * scv1 :=
  let x := a_rng_state v in
  let x := Z.lxor x (Z.shiftr x 12) in
  let x := Z.lxor x (u64 (Z.shiftl x 25)) in
  let x := Z.lxor x (Z.shiftr x 27) in
  (u64 (x * 0x2545F4914F6CDD1D), Scv1 (eeprom_region v) (dflash_region v) (a_powered v) x).

Fixpoint arm_random_loop (fuel : nat) (v : scv1) (out : list Z) (i n : Z) : option (list Z * scv1) :=
  match fuel with
  | O => None
  | S fuel =>
      if i <? n then
        let '(r, v) := arm_random_step v in
        let k := if n - i <? 8 then n - i else 8 in
        out ← foreach (upto k) (λ j out, wr out (i + j) (u8 (Z.land (Z.shiftr r (8 * j)) 0xFF))) out;
        arm_random_loop fuel v out (i + k) n
      else Some (out, v)
  end.

(** At least one byte is made in each round: [n] rounds and the last test. *)
Definition arm_random_bytes (v : scv1) (dst : ptr (list Z)) (n : Z) : option (hal_status * ptr (list Z) * scv1) :=
  match dst with
  | NULL => Some (HAL_ERR_PARAM, dst, v)
  | Ptr d =>
      if n =? 0 then Some (HAL_OK, dst, v) else
      '(d, v) ← arm_random_loop (S (Z.to_nat n)) v d 0 n;
      Some (HAL_OK, Ptr d, v)
  end.

#[export] Instance ArmHalNvm : HalNvm scv1 := {
  hal_nvm_size := arm_nvm_size;
  hal_nvm_page_size := arm_nvm_page_size;
  hal_nvm_read := arm_nvm_read;
  hal_nvm_write := arm_nvm_write;
  hal_nvm_sync := arm_nvm_sync;
}.

(** ** The chip keeps the contract *)

Record scv1_wf (v : scv1) : Prop := {
  aw_eeprom : bytes (eeprom_region v);
  aw_dflash : bytes (dflash_region v);
  aw_esize : len (eeprom_region v) = SCV1_EEPROM_SIZE;
  aw_fsize : len (dflash_region v) = SCV1_DFLASH_SIZE;
}.

Definition scv1_mem (v : scv1) (r : Z) : list Z :=
  if r =? HAL_NVM_EEPROM then eeprom_region v else if r =? HAL_NVM_FLASH then dflash_region v else [].

Definition scv1_ready (v : scv1) : Prop := a_powered v = true.

Lemma region_base_wf v r b size :
  scv1_wf v → region_base v r = (Ptr b, size) →
  bytes b ∧ len b = size ∧ 0 ≤ size < 4294967296 ∧ scv1_mem v r = b ∧
  (∀ b', bytes b' → len b' = len b →
     scv1_wf (set_region v r b') ∧ scv1_mem (set_region v r b') r = b' ∧
     (∀ r', r' ≠ r → scv1_mem (set_region v r b') r' = scv1_mem v r') ∧ a_powered (set_region v r b') = a_powered v).
Proof.
  intros [He Hf Hes Hfs]. unfold region_base, scv1_mem, set_region.
  destruct (Z.eqb_spec r HAL_NVM_EEPROM) as [->|]; [|destruct (Z.eqb_spec r HAL_NVM_FLASH) as [->|]; [|done]];
    intros [= <- <-]; (split; [done|]); (split; [done|]); (split; [by split|]); (split; [done|]);
    intros b' Hb' Hl; (split; [by split; cbn; congruence || done|]); (split; [done|]); (split; [|done]);
    intros r' Hr'; cbn; repeat case_if; done || congruence.
Qed.

Lemma region_mem v r : scv1_wf v → arm_nvm_size v r = len (scv1_mem v r).
Proof.
  intros [_ _ Hes Hfs]. unfold arm_nvm_size, region_base, scv1_mem. repeat case_if; cbn; congruence || done.
Qed.

Lemma region_exists v r : nvm_region r → ∃ b size, region_base v r = (Ptr b, size).
Proof. intros [-> | ->]; unfold region_base; simpl; eauto. Qed.

(** Copying into the middle of a region. *)
Lemma copy_into b off s k :
  0 ≤ off → 0 < k ≤ len s → off + k ≤ len b →
  os_memcpy_checked (at_off b off) k (Ptr s) k = Some (true, Ptr (splice (drop (Z.to_nat off) b) 0 (slice 0 k s))) ∧
  take (Z.to_nat off) b ++ splice (drop (Z.to_nat off) b) 0 (slice 0 k s) = splice b off (slice 0 k s).
Proof.
  intros Hoff Hk Hl. assert (len (drop (Z.to_nat off) b) = len b - off) as Hd by (apply len_drop; lia).
  split.
  - unfold at_off. rewrite os_memcpy_checked_block by lia. by rewrite Z.leb_refl.
  - unfold splice. rewrite drop_drop. by replace (Z.to_nat 0) with 0%nat by lia.
Qed.

(** The driver in one equation, for a powered chip and an existing region. *)
Lemma arm_access v r off k :
  scv1_wf v → scv1_ready v → nvm_region r → is_u32 off → is_u32 k → k ≠ 0 →
  ∃ b size, region_base v r = (Ptr b, size) ∧
    (∀ d, k ≤ len d → arm_nvm_read v r off (Ptr d) k =
       Some (if off + k <=? size then (HAL_OK, Ptr (splice d 0 (slice off k b))) else (HAL_ERR_RANGE, Ptr d))) ∧
    (∀ s, k ≤ len s → arm_nvm_write v r off (Ptr s) k =
       Some (if off + k <=? size then (HAL_OK, set_region v r (splice b off (slice 0 k s))) else (HAL_ERR_RANGE, v))).
Proof.
  intros Hwf Hr Hreg Hoff Hk Hk0. destruct (region_exists v r Hreg) as (b & size & E).
  destruct (region_base_wf _ _ _ _ Hwf E) as (Hb & Hl & Hs & _). unfold is_u32 in *.
  exists b, size. split; [done|]. split; intros d Hd.
  - unfold arm_nvm_read, arm_in_range. cbn [is_null]. rewrite E, Hr, u64_id by lia.
    replace (k =? 0) with false by lia. cbn [negb]. destruct (Z.leb_spec (off + k) size); [|done]. cbn [negb].
    unfold at_off. pose proof (len_drop b off ltac:(lia)).
    rewrite os_memcpy_checked_block by lia. rewrite Z.leb_refl. bind_simpl. cbn [negb].
    unfold slice at 1. by rewrite drop_0.
  - unfold arm_nvm_write, arm_in_range. cbn [is_null]. rewrite E, Hr, u64_id by lia.
    replace (k =? 0) with false by lia. cbn [negb]. destruct (Z.leb_spec (off + k) size); [|done]. cbn [negb].
    destruct (copy_into b off d k) as [-> <-]; [lia|lia|lia|]. done.
Qed.

(** Any access at all: defined, whatever the region and the power state. *)
Lemma arm_access_total v r off d k :
  scv1_wf v → is_u32 off → 0 ≤ k ≤ len d → is_u32 k → bytes d →
  (∃ st d', arm_nvm_read v r off (Ptr d) k = Some (st, Ptr d') ∧ len d' = len d ∧ bytes d') ∧
  (∃ st v', arm_nvm_write v r off (Ptr d) k = Some (st, v') ∧ scv1_wf v' ∧
     ∀ r', len (scv1_mem v' r') = len (scv1_mem v r')).
Proof.
  intros Hwf Hoff Hk Hk32 Hd.
  destruct (decide (k = 0)) as [->|Hk0]; [split; eauto|].
  destruct (a_powered v) eqn:Hp.
  2:{ unfold arm_nvm_read, arm_nvm_write. cbn [is_null]. rewrite Hp. replace (k =? 0) with false by lia. split; eauto. }
  destruct (region_base v r) as [[|b] size] eqn:E.
  { unfold arm_nvm_read, arm_nvm_write. cbn [is_null]. rewrite Hp, E. replace (k =? 0) with false by lia. split; eauto. }
  assert (nvm_region r) as Hreg.
  { unfold region_base in E. unfold nvm_region. destruct (Z.eqb_spec r HAL_NVM_EEPROM); [by left|].
    destruct (Z.eqb_spec r HAL_NVM_FLASH); [by right|done]. }
  destruct (arm_access v r off k Hwf Hp Hreg Hoff Hk32 Hk0) as (b' & size' & E' & Hrd & Hwr).
  rewrite E in E'. injection E' as <- <-. destruct (region_base_wf _ _ _ _ Hwf E) as (Hb & Hl & Hs & Hm & Hset).
  rewrite Hrd, Hwr by lia. unfold is_u32 in *. destruct (Z.leb_spec (off + k) size); [|split; eauto].
  assert (len (slice off k b) = k) by (apply len_slice; lia). assert (len (slice 0 k d) = k) by (apply len_slice; lia).
  split.
  - eexists _, _. split; [done|]. rewrite len_splice by lia. split; [done|]. apply bytes_splice; [done|by apply bytes_slice].
  - destruct (Hset (splice b off (slice 0 k d))) as (Hwf' & Hm' & Ho & _);
      [apply bytes_splice; [done|by apply bytes_slice]|by apply len_splice; lia|].
    eexists _, _. split; [done|]. split; [done|]. intros r'. destruct (decide (r' = r)) as [->|]; [|by rewrite Ho].
    rewrite Hm', Hm. apply len_splice; lia.
Qed.

#[export] Program Instance ArmHalNvmSpec : HalNvmSpec scv1 := {
  nvm_ready := scv1_ready; nvm_wf := scv1_wf; nvm_mem := scv1_mem;
}.
Next Obligation. intros v r []. unfold scv1_mem. repeat case_if; done || constructor. Qed.
Next Obligation. intros v r [_ _ He Hf]. unfold scv1_mem. repeat case_if; rewrite ?He, ?Hf; done. Qed.
Next Obligation. intros v r Hwf. by apply region_mem. Qed.
Next Obligation. intros v r off d k Hwf Hoff Hk Hk32 Hd. by apply arm_access_total. Qed.
Next Obligation.
  cbn [hal_nvm_read hal_nvm_write hal_nvm_sync ArmHalNvm]. intros v r off d k Hwf Hr Hreg Hoff Hk Hk32 Hle.
  destruct (decide (k = 0)) as [->|Hk0]; [by rewrite slice_zero, splice_nil|].
  destruct (arm_access v r off k) as (b & size & E & Hrd & _); try done.
  destruct (region_base_wf _ _ _ _ Hwf E) as (_ & Hl & _ & Hm & _).
  rewrite Hm in Hle |- *. rewrite Hrd by lia. by replace (off + k <=? size) with true by lia.
Qed.
Next Obligation.
  cbn [hal_nvm_read hal_nvm_write hal_nvm_sync ArmHalNvm]. intros v r off d k Hwf Hr Hreg Hoff Hk Hk32 Hlt.
  destruct (arm_access v r off k) as (b & size & E & Hrd & _); try done; [lia|].
  destruct (region_base_wf _ _ _ _ Hwf E) as (_ & Hl & _ & Hm & _).
  rewrite Hm in Hlt. rewrite Hrd by lia. by replace (off + k <=? size) with false by lia.
Qed.
Next Obligation. intros v r off s k Hwf Hoff Hk Hk32 Hb. by apply arm_access_total. Qed.
Next Obligation.
  cbn [hal_nvm_read hal_nvm_write hal_nvm_sync ArmHalNvm]. intros v r off s k Hwf Hr Hreg Hoff Hk Hk32 Hb Hle.
  destruct (decide (k = 0)) as [->|Hk0].
  { exists v. rewrite slice_zero, splice_nil. split; [done|]. split; [done|]. split; [done|]. by split. }
  destruct (arm_access v r off k) as (b & size & E & _ & Hwr); try done.
  destruct (region_base_wf _ _ _ _ Hwf E) as (Hbb & Hl & _ & Hm & Hset). unfold is_u32 in *.
  rewrite Hm in Hle |- *. rewrite Hwr by lia. replace (off + k <=? size) with true by lia.
  destruct (Hset (splice b off (slice 0 k s))) as (? & Hm' & Ho & Hp).
  { apply bytes_splice; [done|by apply bytes_slice]. }
  { apply len_splice; rewrite ?len_slice; lia. }
  eexists. split; [done|]. split; [done|]. split; [unfold scv1_ready; by rewrite Hp|]. done.
Qed.
Next Obligation.
  cbn [hal_nvm_read hal_nvm_write hal_nvm_sync ArmHalNvm]. intros v r off s k Hwf Hr Hreg Hoff Hk Hk32 Hlt.
  destruct (arm_access v r off k) as (b & size & E & _ & Hwr); try done; [lia|].
  destruct (region_base_wf _ _ _ _ Hwf E) as (_ & Hl & _ & Hm & _).
  rewrite Hm in Hlt. rewrite Hwr by lia. by replace (off + k <=? size) with false by lia.
Qed.
Next Obligation. intros v Hwf. eexists _, v. by split. Qed.
Next Obligation.
  cbn [hal_nvm_sync ArmHalNvm]. intros v Hwf Hr. exists v. unfold arm_nvm_sync. rewrite Hr. by split.
Qed.

(** ** Power cycles *)

Lemma erase_region_eq b size : len b = size → 0 ≤ size → erase_region b size = Some (replicate (Z.to_nat size) 0xFF).
Proof.
  intros Hl Hs. unfold erase_region. rewrite os_memset_block by lia. bind_simpl. cbn [deref].
  rewrite splice_all; [done|]. rewrite len_replicate; lia.
Qed.

Lemma semihost_store_total h path b n :
  len b = n → 0 ≤ n → ∃ r h', semihost_store h path b n = Some (r, h') ∧ sh_available h' = sh_available h.
Proof.
  intros Hl Hn. unfold semihost_store. destruct (negb (sh_available h)); [by eexists _, h|].
  destruct (negb (sh_writable h path)); [by eexists _, h|]. rewrite rd_n_some by lia. bind_simpl. by eexists _, _.
Qed.

Lemma semihost_load_total h path b n :
  len b = n → bytes b → (∀ p f, sh_files h !! p = Some f → bytes f) →
  ∃ r b', semihost_load h path b n = Some (r, b') ∧ len b' = n ∧ bytes b' ∧ (sh_files h !! path = None → r = -1) ∧ r ≤ n.
Proof.
  intros Hl Hb Hf. pose proof (len_nonneg b). unfold semihost_load.
  destruct (negb (sh_available h)); [exists (-1), b; split_and!; done || lia|].
  destruct (sh_files h !! path) as [f|] eqn:E; [|exists (-1), b; split_and!; done || lia].
  pose proof (len_nonneg f). rewrite wr_n_some; [|done|rewrite len_slice; lia]. bind_simpl. eexists _, _. split; [done|].
  split; [rewrite len_splice; rewrite ?len_slice; lia|]. split; [|split; [done|lia]].
  apply bytes_splice; [done|]. apply bytes_slice. by eapply Hf.
Qed.

(** Power-up makes the memory available, whatever the chip and the debugger's
    files hold. *)
Lemma load_region_total h path b size :
  len b = size → size < 4294967296 → bytes b → (∀ p f, sh_files h !! p = Some f → bytes f) →
  ∃ ok b', load_region h path b size = Some (ok, b') ∧ len b' = size ∧ bytes b'.
Proof.
  intros Hl H32 Hb Hf. pose proof (len_nonneg b). unfold load_region.
  destruct (semihost_load_total h path b size Hl Hb Hf) as (e & b' & -> & Hl' & Hb' & _ & He). bind_simpl. cbv beta iota.
  destruct (Z.ltb_spec 0 e); [|by eexists _, b']. rewrite u32_id by (unfold is_u32; lia).
  destruct (Z.ltb_spec e size); [|by eexists _, b'].
  assert (len (drop (Z.to_nat e) b') = size - e) as Hd by (rewrite len_drop; lia).
  unfold at_off. rewrite os_memset_block by lia. bind_simpl. cbn [deref]. bind_simpl. eexists _, _. split; [done|].
  rewrite (splice_all (drop _ _)) by (rewrite len_replicate; lia).
  split; [rewrite len_app, len_replicate by lia; unfold len in *; rewrite length_take; lia|].
  apply bytes_app; [by apply Forall_take|]. apply bytes_replicate, u8_range.
Qed.

Lemma power_on_any h v :
  scv1_wf v → (∀ p f, sh_files h !! p = Some f → bytes f) →
  ∃ v', scv1_nvm_power_on h v = Some v' ∧ scv1_wf v' ∧ scv1_ready v'.
Proof.
  intros [He Hf Hes Hfs] Hfiles. unfold scv1_nvm_power_on.
  assert (∃ x e, (if sh_available h then load_region h EEPROM_FILE (eeprom_region v) SCV1_EEPROM_SIZE
     else Some (false, eeprom_region v)) = Some (x, e) ∧ len e = SCV1_EEPROM_SIZE ∧ bytes e) as (x & e & -> & Hel & Heb).
  { destruct (sh_available h); [by apply load_region_total|by eexists _, _]. }
  bind_simpl. cbv beta iota.
  assert (∃ y f, (if sh_available h then load_region h DFLASH_FILE (dflash_region v) SCV1_DFLASH_SIZE
     else Some (false, dflash_region v)) = Some (y, f) ∧ len f = SCV1_DFLASH_SIZE ∧ bytes f) as (y & f & -> & Hfl & Hfb).
  { destruct (sh_available h); [by apply load_region_total|by eexists _, _]. }
  bind_simpl. cbv beta iota.
  assert (∀ n, bytes (replicate n 0xFF)) as Hff by (intros n; apply bytes_replicate; unfold is_u8; lia).
  destruct x; cbn [negb]; bind_simpl; [eexists; split; [done|]; by split|].
  assert (∃ b, has_superblock e = Some b) as (b & ->).
  { unfold has_superblock. destruct (rd_some e 0) as (x0 & -> & _); [rewrite Hel; done|].
    destruct (rd_some e 1) as (x1 & -> & _); [rewrite Hel; done|]. destruct (rd_some e 2) as (x2 & -> & _); [rewrite Hel; done|].
    destruct (rd_some e 3) as (x3 & -> & _); [rewrite Hel; done|]. by eexists. }
  bind_simpl. destruct b; cbn [negb]; bind_simpl; [eexists; split; [done|]; by split|].
  rewrite (erase_region_eq e) by done. bind_simpl. destruct y; cbn [negb]; bind_simpl; cbv beta iota.
  - eexists. split; [done|]. split; [|done]. by split; cbn; rewrite ?len_replicate.
  - rewrite (erase_region_eq f) by done. bind_simpl. cbv beta iota. eexists. split; [done|]. split; [|done].
    by split; cbn; rewrite ?len_replicate.
Qed.

(** A region from its file: the file's bytes, then erased bytes. *)
Lemma load_region_eq h path b size f :
  sh_available h = true → sh_files h !! path = Some f → 0 < len f ≤ size → len b = size → size < 4294967296 →
  load_region h path b size = Some (true, f ++ replicate (Z.to_nat (size - len f)) 0xFF).
Proof.
  intros Ha Hf Hl Hb H32. unfold load_region, semihost_load. rewrite Ha, Hf. cbn [negb].
  rewrite Z.min_l, slice_0_all, wr_n_some by lia. bind_simpl. replace (0 <? len f) with true by lia.
  rewrite u32_id by (unfold is_u32; lia).
  assert (len (splice b 0 f) = size) as Hls by (rewrite len_splice; lia).
  assert (∀ i, (Z.to_nat (len f) = i)%nat → i = length f) as Hn by (intros i; unfold len; lia).
  destruct (Z.ltb_spec (len f) size).
  - assert (len (drop (Z.to_nat (len f)) (splice b 0 f)) = size - len f) as Hd by (rewrite len_drop; lia).
    unfold at_off. rewrite os_memset_block by lia. bind_simpl. cbn [deref]. bind_simpl.
    rewrite (splice_all (drop _ _)) by (rewrite len_replicate; lia). do 3 f_equal.
    rewrite (Hn _ eq_refl). unfold splice. apply (take_app_length f).
  - replace (size - len f) with 0 by lia. rewrite app_nil_r. by rewrite splice_all by lia.
Qed.

(** A region that is not in a file stays as it is. *)
Lemma load_region_absent h path b size :
  sh_available h = true → (sh_files h !! path = None ∨ sh_files h !! path = Some []) → 0 ≤ size →
  load_region h path b size = Some (false, b).
Proof.
  intros Ha Hf Hs. unfold load_region, semihost_load. rewrite Ha. destruct Hf as [-> | ->]; [done|]. cbn [negb].
  replace (Z.min (len []) size) with 0 by (change (len []) with 0; lia).
  pose proof (len_nonneg b). rewrite slice_zero, wr_n_some by (done || (change (len []) with 0; lia)).
  bind_simpl. by rewrite splice_nil.
Qed.

(** What power-up makes of the two regions when no file is loaded: memory that
    carries a superblock is kept, anything else becomes a blank chip. *)
Definition powered_regions (e f : list Z) : list Z * list Z :=
  if bool_decide (slice 0 4 e = [0x53; 0x43; 0x4F; 0x53]) then (e, f)
  else (replicate (Z.to_nat SCV1_EEPROM_SIZE) 0xFF, replicate (Z.to_nat SCV1_DFLASH_SIZE) 0xFF).

Lemma has_superblock_eq b :
  4 ≤ len b → has_superblock b = Some (bool_decide (slice 0 4 b = [0x53; 0x43; 0x4F; 0x53])).
Proof.
  intros Hl. assert (4 ≤ length b)%nat as Hn by (unfold len in Hl; lia).
  destruct b as [|x0 [|x1 [|x2 [|x3 b]]]]; try (cbn in Hn; lia). unfold has_superblock.
  change (slice 0 4 (x0 :: x1 :: x2 :: x3 :: b)) with [x0; x1; x2; x3].
  change (rd (x0 :: x1 :: x2 :: x3 :: b) 0) with (Some x0). change (rd (x0 :: x1 :: x2 :: x3 :: b) 1) with (Some x1).
  change (rd (x0 :: x1 :: x2 :: x3 :: b) 2) with (Some x2). change (rd (x0 :: x1 :: x2 :: x3 :: b) 3) with (Some x3).
  bind_simpl. f_equal. apply Bool.eq_iff_eq_true. rewrite bool_decide_eq_true, !andb_true_iff, !Z.eqb_eq.
  split; [by intros [[[-> ->] ->] ->]|by intros [= -> -> -> ->]].
Qed.

Lemma power_on_no_files h v :
  scv1_wf v →
  (sh_available h = false ∨ ∀ p, sh_files h !! p = None) →
  scv1_nvm_power_on h v =
    Some (Scv1 (powered_regions (eeprom_region v) (dflash_region v)).1
               (powered_regions (eeprom_region v) (dflash_region v)).2 true (a_rng_state v)).
Proof.
  intros [He Hf Hes Hfs] Hh. unfold scv1_nvm_power_on.
  assert ((if sh_available h then load_region h EEPROM_FILE (eeprom_region v) SCV1_EEPROM_SIZE
           else Some (false, eeprom_region v)) = Some (false, eeprom_region v)) as ->.
  { destruct (sh_available h) eqn:Ha; [|done]. destruct Hh as [|Hh]; [done|].
    apply load_region_absent; [done|by left|done]. }
  assert ((if sh_available h then load_region h DFLASH_FILE (dflash_region v) SCV1_DFLASH_SIZE
           else Some (false, dflash_region v)) = Some (false, dflash_region v)) as ->.
  { destruct (sh_available h) eqn:Ha; [|done]. destruct Hh as [|Hh]; [done|].
    apply load_region_absent; [done|by left|done]. }
  bind_simpl. cbn [negb]. rewrite has_superblock_eq by (rewrite Hes; done). bind_simpl. unfold powered_regions.
  destruct (bool_decide _); cbn [negb fst snd]; bind_simpl; [reflexivity|].
  rewrite (erase_region_eq (eeprom_region v)) by (exact Hes || (unfold SCV1_EEPROM_SIZE; lia)). bind_simpl.
  rewrite (erase_region_eq (dflash_region v)) by (exact Hfs || (unfold SCV1_DFLASH_SIZE; lia)). bind_simpl. reflexivity.
Qed.

(** Through the debugger's files the regions come back byte for byte. *)
Lemma power_cycle_files h v v2 :
  scv1_wf v → scv1_wf v2 → a_powered v = true →
  sh_available h = true → sh_writable h EEPROM_FILE = true → sh_writable h DFLASH_FILE = true →
  ∃ h', arm_hal_shutdown h v = Some (h', Scv1 (eeprom_region v) (dflash_region v) false (a_rng_state v)) ∧
    sh_available h' = true ∧
    arm_hal_init h' v2 = Some (HAL_OK, Scv1 (eeprom_region v) (dflash_region v) true (a_rng_state v2)).
Proof.
  intros [He Hf Hes Hfs] [_ _ Hes2 Hfs2] Hp Ha Hwe Hwf. unfold arm_hal_shutdown, scv1_nvm_power_off. rewrite Hp, Ha. cbn [negb].
  unfold semihost_store. rewrite Ha, Hwe. cbn [negb].
  rewrite (rd_n_some (eeprom_region v)) by (rewrite ?Hes; unfold SCV1_EEPROM_SIZE; lia). bind_simpl. cbn [sh_available sh_writable]. rewrite Hwf. cbn [negb].
  rewrite (rd_n_some (dflash_region v)) by (rewrite ?Hfs; unfold SCV1_DFLASH_SIZE; lia). bind_simpl.
  assert (slice 0 SCV1_EEPROM_SIZE (eeprom_region v) = eeprom_region v) as -> by (rewrite <- Hes; apply slice_0_all).
  assert (slice 0 SCV1_DFLASH_SIZE (dflash_region v) = dflash_region v) as -> by (rewrite <- Hfs; apply slice_0_all).
  eexists. split; [done|]. split; [done|]. unfold arm_hal_init, scv1_nvm_power_on. cbn [sh_available].
  rewrite (load_region_eq _ EEPROM_FILE _ SCV1_EEPROM_SIZE (eeprom_region v)); cbn [sh_available sh_files];
    [|done|by rewrite lookup_insert_ne, lookup_insert_eq|rewrite Hes; unfold SCV1_EEPROM_SIZE; lia|exact Hes2|unfold SCV1_EEPROM_SIZE; lia]. bind_simpl.
  rewrite (load_region_eq _ DFLASH_FILE _ SCV1_DFLASH_SIZE (dflash_region v)); cbn [sh_available sh_files];
    [|done|by rewrite lookup_insert_eq|rewrite Hfs; unfold SCV1_DFLASH_SIZE; lia|exact Hfs2|unfold SCV1_DFLASH_SIZE; lia]. bind_simpl. cbn [negb].
  bind_simpl. rewrite Hes, Hfs, !Z.sub_diag. cbn [Z.to_nat replicate]. by rewrite !app_nil_r.
Qed.

(** The chip's memory survives a power cycle: through the debugger's files
    it comes back byte for byte, whatever the memory held in between; without
    a debugger, memory that carries a file system is left as it is. *)
Theorem scv1_power_cycle_persists h v v2 :
  scv1_wf v → scv1_wf v2 → a_powered v = true →
  (sh_available h = true → sh_writable h EEPROM_FILE = true ∧ sh_writable h DFLASH_FILE = true) →
  (sh_available h = false → slice 0 4 (eeprom_region v) = [0x53; 0x43; 0x4F; 0x53] ∧
     eeprom_region v2 = eeprom_region v ∧ dflash_region v2 = dflash_region v) →
  ∃ h' v', arm_hal_shutdown h v = Some (h', v') ∧ a_powered v' = false ∧
    ∃ v'', arm_hal_init h' v2 = Some (HAL_OK, v'') ∧ scv1_ready v'' ∧ ∀ r, scv1_mem v'' r = scv1_mem v r.
Proof.
  intros Hwf Hwf2 Hp Hw Hn. destruct (sh_available h) eqn:Ha.
  - destruct (Hw eq_refl) as [Hwe Hwd].
    destruct (power_cycle_files h v v2 Hwf Hwf2 Hp Ha Hwe Hwd) as (h' & Hoff & _ & Hon).
    eexists h', _. split; [exact Hoff|]. split; [done|]. eexists. split; [exact Hon|]. by split.
  - destruct Hwf as [_ _ Hes Hfs]. unfold arm_hal_shutdown, scv1_nvm_power_off. rewrite Hp, Ha. cbn [negb].
    bind_simpl. eexists _, _. split; [done|]. split; [done|]. destruct (Hn eq_refl) as (Hm & He2 & Hf2).
    unfold arm_hal_init. rewrite power_on_no_files by (done || by left). bind_simpl. eexists. split; [done|]. split; [done|].
    intros r. unfold scv1_mem, powered_regions. rewrite He2, Hf2, bool_decide_true by done. done.
Qed.

(** ** A chip whose EEPROM starts with the magic number *)

Definition demo_chip (tail : list Z) (p : bool) : scv1 :=
  Scv1 (tail ++ replicate (Z.to_nat (SCV1_EEPROM_SIZE - len tail)) 0xFF)
       (replicate (Z.to_nat SCV1_DFLASH_SIZE) 0xFF) p 1.

Lemma demo_chip_wf tail p : bytes tail → len tail ≤ SCV1_EEPROM_SIZE → scv1_wf (demo_chip tail p).
Proof.
  intros Hb Hl. pose proof (len_nonneg tail). split; cbn [demo_chip eeprom_region dflash_region].
  - apply bytes_app; [done|]. by apply Forall_replicate.
  - by apply Forall_replicate.
  - rewrite len_app, len_replicate; lia.
  - rewrite len_replicate; [done|]. unfold SCV1_DFLASH_SIZE. lia.
Qed.

Definition demo_magic : list Z := [0x53; 0x43; 0x4F; 0x53].
Definition no_debugger : semihost := Semihost false ∅ (λ _, false).

Lemma scv1_power_cycle_persists_witness :
  ∃ h' v', arm_hal_shutdown no_debugger (demo_chip demo_magic true) = Some (h', v') ∧ a_powered v' = false ∧
    ∃ v'', arm_hal_init h' (demo_chip demo_magic false) = Some (HAL_OK, v'') ∧ scv1_ready v'' ∧
      ∀ r, scv1_mem v'' r = scv1_mem (demo_chip demo_magic true) r.
Proof.
  assert (len demo_magic ≤ SCV1_EEPROM_SIZE) as Hl by (unfold SCV1_EEPROM_SIZE; change (len demo_magic) with 4; lia).
  apply (scv1_power_cycle_persists no_debugger (demo_chip demo_magic true) (demo_chip demo_magic false)).
  - apply demo_chip_wf; [solve_bytes|exact Hl].
  - apply demo_chip_wf; [solve_bytes|exact Hl].
  - exact eq_refl.
  - cbn [no_debugger sh_available]. discriminate.
  - intros _. cbn [demo_chip eeprom_region dflash_region]. split; [|split; exact eq_refl].
    unfold slice. change (Z.to_nat 4) with (length demo_magic). rewrite drop_0. apply take_app_length.
Defined.
