(* ===== verification/Rng.v ===== *)
(** * The random generators of the two devices (hal_sim_platform.c,
    hal_arm_platform.c)

    Both run the same xorshift step.  A request is filled completely and inside
    its buffer, the two devices give the same bytes from the same state, and the
    state never becomes zero, from where it would not move again. *)

From S2P Require Import Prelude Hal SimHal ArmHal.
#[local] Open Scope Z_scope.

(** ** Filling a buffer *)

(** The low [k] bytes of a word, the lowest first. *)
Definition word_bytes (r k : Z) : list Z := map (λ j, u8 (Z.land (Z.shiftr r (8 * j)) 0xFF)) (upto k).

Lemma len_word_bytes r k : 0 ≤ k → len (word_bytes r k) = k.
Proof. intros. unfold word_bytes, len, upto. rewrite length_map, length_seqZ. lia. Qed.

Lemma bytes_word_bytes r k : bytes (word_bytes r k).
Proof. apply Forall_map, Forall_forall. intros j _. apply u8_range. Qed.

Lemma store_word r out i k :
  0 ≤ i → 0 ≤ k → i + k ≤ len out →
  foreach (upto k) (λ j out, wr out (i + j) (u8 (Z.land (Z.shiftr r (8 * j)) 0xFF))) out = Some (splice out i (word_bytes r k)).
Proof.
  intros Hi Hk Hle.
  pose proof (foreach_wr out (word_bytes r k) i (λ j, Some (u8 (Z.land (Z.shiftr r (8 * j)) 0xFF)))) as H.
  rewrite len_word_bytes in H by done. apply H; [done..|]. intros j x. unfold word_bytes.
  rewrite list_lookup_fmap. intros (y & Hy & ->)%fmap_Some. apply lookup_seqZ in Hy as [-> _]. by rewrite Z.add_0_l.
Qed.

Section generators.
Context `{ScosConfig}.

(** The loop ends, with [n - i] bytes stored from [i] on, and it changes
    nothing of the card but the generator's state. *)
Lemma random_loop_total fuel v out i n :
  0 ≤ i ≤ n → n ≤ len out → (Z.to_nat (n - i) < fuel)%nat →
  ∃ src x, random_loop fuel v out i n =
      Some (splice out i src, Vcard (s_eeprom v) (s_flash v) (s_cfg v) (s_configured v) (s_power v) x) ∧
    bytes src ∧ len src = n - i.
Proof.
  revert v out i. induction fuel as [|fuel IH]; intros v out i Hi Hn Hfuel; [lia|]. cbn [random_loop].
  destruct (Z.ltb_spec i n) as [Hlt|Hge].
  2: { exists [], (s_rng_state v). rewrite splice_nil. split; [by destruct v|]. split; [by apply Forall_nil|]. change (len []) with 0. lia. }
  destruct (vcard_random_u64 v) as [r v1] eqn:Er.
  set (k := if n - i <? 8 then n - i else 8). assert (0 < k ≤ n - i) as Hk by (subst k; case_if; lia). clearbody k.
  rewrite store_word by lia. bind_simpl.
  destruct (IH v1 (splice out i (word_bytes r k)) (i + k)) as (src & x & -> & Hb & Hl);
    [lia|rewrite len_splice; rewrite ?len_word_bytes; lia|lia|].
  exists (word_bytes r k ++ src), x. pose proof (len_word_bytes r k) as Hw.
  rewrite <- splice_splice_adjacent by lia. rewrite Hw by lia. unfold vcard_random_u64 in Er. injection Er as _ <-.
  split; [done|]. split; [by apply bytes_app; [apply bytes_word_bytes|]|]. rewrite len_app. lia.
Qed.

(** A powered card fills the whole request. *)
Lemma hal_random_bytes_fills v d n :
  vcard_ready v → 0 ≤ n ≤ len d →
  ∃ src v', hal_random_bytes v (Ptr d) n = Some (HAL_OK, Ptr (splice d 0 src), v') ∧ bytes src ∧ len src = n ∧
    (∀ r, vcard_mem v' r = vcard_mem v r).
Proof.
  intros Hr Hn. unfold hal_random_bytes, vcard_power_get. destruct (Z.eqb_spec n 0) as [->|Hne].
  { exists [], v. by rewrite splice_nil; split_and!; [|apply Forall_nil| |]. }
  rewrite Hr, bool_decide_true by done. cbn [negb].
  destruct (random_loop_total (S (Z.to_nat n)) v d 0 n) as (src & x & -> & Hb & Hl); [lia..|]. bind_simpl.
  eexists src, _. split; [done|]. split; [done|]. split; [lia|done].
Qed.

(** ** The two devices agree *)

Lemma arm_loop_eq fuel (v : scv1) (w : vcard) out i n :
  a_rng_state v = s_rng_state w →
  arm_random_loop fuel v out i n =
    '(o, w) ← random_loop fuel w out i n; Some (o, Scv1 (eeprom_region v) (dflash_region v) (a_powered v) (s_rng_state w)).
Proof.
  revert v w out i. induction fuel as [|fuel IH]; intros v w out i Hs; cbn [arm_random_loop random_loop]; [done|].
  destruct (i <? n); [|by bind_simpl; rewrite <- Hs; destruct v].
  unfold arm_random_step, vcard_random_u64. rewrite Hs. cbv beta iota zeta.
  destruct (foreach _ _ out) as [out1|]; [|done]. bind_simpl. erewrite IH; [reflexivity|done].
Qed.

(** From the same state the simulator and the chip deliver the same bytes. *)
Lemma generators_agree (v : scv1) (w : vcard) d n :
  vcard_ready w → a_rng_state v = s_rng_state w → 0 ≤ n ≤ len d →
  ∃ src v' w', arm_random_bytes v (Ptr d) n = Some (HAL_OK, Ptr (splice d 0 src), v') ∧
    hal_random_bytes w (Ptr d) n = Some (HAL_OK, Ptr (splice d 0 src), w') ∧ bytes src ∧ len src = n ∧
    a_rng_state v' = s_rng_state w'.
Proof.
  intros Hr Hs Hn. unfold hal_random_bytes, arm_random_bytes, vcard_power_get. destruct (Z.eqb_spec n 0) as [->|Hne].
  { exists [], v, w. by rewrite splice_nil; split_and!; [..|apply Forall_nil| |]. }
  rewrite Hr, bool_decide_true by done. cbn [negb]. rewrite (arm_loop_eq _ v w) by done.
  destruct (random_loop_total (S (Z.to_nat n)) w d 0 n) as (src & x & -> & Hb & Hl); [lia..|]. bind_simpl. cbv beta iota.
  bind_simpl. eexists src, _, _. split; [done|]. split; [done|]. split; [done|]. split; [lia|done].
Qed.
End generators.

(** ** The state never becomes zero *)

Lemma lxor_shiftr_nonzero x k : 0 < x → 0 < k → Z.lxor x (Z.shiftr x k) ≠ 0.
Proof.
  intros Hx Hk He%Z.lxor_eq. assert (Z.shiftr x k < x); [|lia].
  rewrite Z.shiftr_div_pow2 by lia. apply Z.div_lt; [done|]. apply (Z.pow_gt_1 2 k); lia.
Qed.

Lemma lxor_shiftl_nonzero x k : 0 < x → 0 < k → Z.lxor x (u64 (Z.shiftl x k)) ≠ 0.
Proof.
  intros Hx Hk He%Z.lxor_eq.
  assert (∀ n, 0 ≤ n → Z.testbit x n = false) as Hz.
  { intros n Hn. revert n Hn. apply (Zlt_0_ind (λ n, Z.testbit x n = false)). intros n IH Hn.
    rewrite He. unfold u64. change 18446744073709551616 with (2 ^ 64).
    destruct (Z.ltb_spec n 64); [|by apply Z.mod_pow2_bits_high; lia].
    rewrite Z.mod_pow2_bits_low, Z.shiftl_spec by lia.
    destruct (Z.ltb_spec n k); [by apply Z.testbit_neg_r; lia|]. apply IH. lia. }
  assert (x = 0) as ->; [|lia]. apply Z.bits_inj'. intros n Hn. by rewrite Hz, Z.bits_0.
Qed.

Lemma lxor_u64 x y : 0 ≤ x < 2 ^ 64 → 0 ≤ y < 2 ^ 64 → 0 ≤ Z.lxor x y < 2 ^ 64.
Proof.
  intros Hx Hy. assert (0 ≤ Z.lxor x y) by (apply Z.lxor_nonneg; lia). split; [done|].
  destruct (decide (Z.lxor x y = 0)) as [->|]; [lia|]. apply Z.log2_lt_pow2; [lia|].
  assert (∀ z, 0 ≤ z < 2 ^ 64 → Z.log2 z < 64) as Hl.
  { intros z Hz. destruct (decide (z = 0)) as [->|]; [done|]. apply Z.log2_lt_pow2; lia. }
  pose proof (Z.log2_lxor x y). pose proof (Hl x Hx). pose proof (Hl y Hy). lia.
Qed.

Lemma shiftr_u64 x k : 0 ≤ x < 2 ^ 64 → 0 ≤ k → 0 ≤ Z.shiftr x k < 2 ^ 64.
Proof.
  intros Hx Hk. rewrite Z.shiftr_div_pow2 by done. assert (0 < 2 ^ k) by (apply Z.pow_pos_nonneg; lia).
  split; [apply Z.div_pos; lia|]. apply Z.div_lt_upper_bound; nia.
Qed.

(** Every seed that power-on chooses is a non-zero number of 64 bits. *)
Lemma rng_state_nonzero `{ScosConfig} v :
  0 < s_rng_state v < 2 ^ 64 → 0 < s_rng_state (vcard_random_u64 v).2 < 2 ^ 64.
Proof.
  cbn [vcard_random_u64 snd s_rng_state]. set (x := s_rng_state v). clearbody x. intros Hx.
  pose proof (lxor_shiftr_nonzero x 12 ltac:(lia) ltac:(lia)) as N1.
  pose proof (lxor_u64 x (Z.shiftr x 12) ltac:(lia) (shiftr_u64 x 12 ltac:(lia) ltac:(lia))) as R1.
  set (y := Z.lxor x _) in *. clearbody y.
  pose proof (lxor_shiftl_nonzero y 25 ltac:(lia) ltac:(lia)) as N2.
  pose proof (lxor_u64 y (u64 (Z.shiftl y 25)) ltac:(lia) (Z.mod_pos_bound _ (2 ^ 64) ltac:(lia))) as R2.
  set (z := Z.lxor y _) in *. clearbody z.
  pose proof (lxor_shiftr_nonzero z 27 ltac:(lia) ltac:(lia)) as N3.
  pose proof (lxor_u64 z (Z.shiftr z 27) ltac:(lia) (shiftr_u64 z 27 ltac:(lia) ltac:(lia))) as R3. lia.
Qed.
