(* ===== verification/ArmIo.v ===== *)
(** * The card's serial link (src/hal/arm-scv1/hal_arm_io.c)

    The hex line protocol over the UART.  The receiver is run over the bytes the
    UART will deliver; a byte that never comes is the end of that list.  What is
    written to the data register is the output. *)

From stdpp Require Import strings.
From S2P Require Import Prelude Hal.
#[local] Open Scope Z_scope.

Definition chars (s : string) : list Z := map (λ a, Z.of_N (Ascii.N_of_ascii a)) (String.list_ascii_of_string s).

(** Character constants. *)
Definition LF : Z := 10.
Definition CR : Z := 13.

Definition CRLF : list Z := [CR; LF].

(** The decimal digits of a number, most significant first, at most [fuel] of
    them: the two digit printers of the firmware. *)
Fixpoint dec_digits (fuel : nat) (v : Z) (out : list Z) : list Z :=
  match fuel with
  | O => out
  | S fuel => if 0 <? v then dec_digits fuel (v / 10) (48 + v mod 10 :: out) else out
  end.

Definition hex_nibble (ch : Z) : Z :=
  if (48 <=? ch) && (ch <=? 57) then ch - 48
  else if (97 <=? ch) && (ch <=? 102) then ch - 97 + 10
  else if (65 <=? ch) && (ch <=? 70) then ch - 65 + 10
  else -1.

Definition hex_digits : list Z := chars "0123456789ABCDEF".

Definition put_hex_byte (out : list Z) (b : Z) : option (list Z) :=
  x ← rd hex_digits (Z.land (Z.shiftr b 4) 0x0F);
  y ← rd hex_digits (Z.land b 0x0F);
  Some (out ++ [x; y]).

(** [for (i = 0; i < n; i++) put_hex_byte(buf[i]); uart_putc('\n');] *)
Definition put_hex_line (out buf : list Z) (n : Z) : option (list Z) :=
  out ← foreach (upto n) (λ i out, b ← rd buf i; put_hex_byte out b) out;
  Some (out ++ [LF]).

Definition send_atr (atr out : list Z) : option (list Z) := put_hex_line out atr (len atr).

Definition hal_card_send (out : list Z) (buf : ptr (list Z)) (n : Z) : option (hal_status * list Z) :=
  match buf with
  | NULL => if 0 <? n then Some (HAL_ERR_PARAM, out) else Some (HAL_OK, out ++ [LF])
  | Ptr b => out ← put_hex_line out b n; Some (HAL_OK, out)
  end.

(** The variables of one line; [l_ctl] is the filled part of [control]. *)
Record rx_line := RxLine {
  l_n : Z;
  l_hi : Z;
  l_bad : bool;
  l_seen : Z;
  l_control : bool;
  l_ctl : list Z
}.

Definition rx_start : rx_line := RxLine 0 (-1) false 0 false [].

(** One character that does not end the line. *)
Definition rx_char (cap : Z) (l : rx_line) (buf : list Z) (c : Z) : option (rx_line * list Z) :=
  let control := if l_seen l =? 0 then (c =? 46) || (c =? 35) else l_control l in
  let seen := u32 (l_seen l + 1) in
  if control then
    Some (RxLine (l_n l) (l_hi l) (l_bad l) seen control (if len (l_ctl l) <? 15 then l_ctl l ++ [c] else l_ctl l), buf)
  else if (c =? 32) || (c =? 9) || (c =? 58) then
    Some (RxLine (l_n l) (l_hi l) (l_bad l) seen control (l_ctl l), buf)
  else
    let v := hex_nibble c in
    if v <? 0 then Some (RxLine (l_n l) (l_hi l) true seen control (l_ctl l), buf)
    else if l_hi l <? 0 then Some (RxLine (l_n l) v (l_bad l) seen control (l_ctl l), buf)
    else if cap <=? l_n l then Some (RxLine (l_n l) (-1) true seen control (l_ctl l), buf)
    else
      buf ← wr buf (l_n l) (u8 (Z.lor (Z.shiftl (l_hi l) 4) v));
      Some (RxLine (u32 (l_n l + 1)) (-1) (l_bad l) seen control (l_ctl l), buf).

(** How a line ends: the loop goes round with this output, or the function
    returns. *)
Inductive rx_end := RxAgain (out : list Z) | RxDone (st : hal_status) (n : Z) (out : list Z).

Definition rx_newline (atr : list Z) (l : rx_line) (out : list Z) : option rx_end :=
  if l_seen l =? 0 then Some (RxAgain out) else
  if l_control l then
    let control := l_ctl l ++ [0] in
    c0 ← rd control 0;
    if c0 =? 35 then Some (RxAgain out) else
    c1 ← rd control 1;
    if c1 =? 113 then Some (RxDone HAL_ERR_LINK_DOWN 0 out) else
    if c1 =? 97 then out ← send_atr atr out; Some (RxAgain out) else
    if c1 =? 114 then out ← send_atr atr out; Some (RxDone HAL_CARD_RESET 0 out) else
    Some (RxAgain (out ++ chars "transport: unknown control" ++ [LF]))
  else if (l_n l =? 0) && negb (l_bad l) && (l_hi l <? 0) then Some (RxAgain out)
  else if l_bad l || (0 <=? l_hi l) then Some (RxAgain (out ++ chars "transport: not valid hex (or too long)" ++ [LF]))
  else Some (RxDone HAL_OK (l_n l) out).

(** What a call of [hal_card_receive] comes to: it waits for more input, or it
    has returned a status and a length, with the rest of the input unread. *)
Inductive rx_result :=
| RxWaiting (buf out : list Z)
| RxReturn (st : hal_status) (n : Z) (buf out rest : list Z).

Fixpoint rx_loop (atr : list Z) (cap : Z) (input : list Z) (l : rx_line) (buf out : list Z) : option rx_result :=
  match input with
  | [] => Some (RxWaiting buf out)
  | c :: input =>
      if c <? 0 then Some (RxReturn HAL_ERR_LINK_DOWN 0 buf out input)
      else if (c =? LF) || (c =? CR) then
        e ← rx_newline atr l out;
        match e with
        | RxAgain out => rx_loop atr cap input rx_start buf out
        | RxDone st n out => Some (RxReturn st n buf out input)
        end
      else
        '(l, buf) ← rx_char cap l buf c;
        rx_loop atr cap input l buf out
  end.

Definition hal_card_receive (atr : list Z) (input : list Z) (buf : ptr (list Z)) (cap : Z) (out_len : ptr Z)
    (out : list Z) : option rx_result :=
  match buf, out_len with
  | Ptr b, Ptr n =>
      if cap =? 0 then Some (RxReturn HAL_ERR_PARAM n b out input) else rx_loop atr cap input rx_start b out
  | Ptr b, NULL => Some (RxReturn HAL_ERR_PARAM 0 b out input)
  | NULL, _ => Some (RxReturn HAL_ERR_PARAM 0 [] out input)
  end.

(** ** What a line means *)

Inductive frame :=
| FrNothing | FrQuit | FrAtr | FrReset | FrUnknown | FrMalformed | FrCommand (d : list Z).

Definition separator (c : Z) : bool := (c =? 32) || (c =? 9) || (c =? 58).

(** The digits of a line; a character that is no digit counts as -1. *)
Definition nibbles (line : list Z) : list Z := map hex_nibble (List.filter (λ c, negb (separator c)) line).

Fixpoint pairs (ds : list Z) : list Z :=
  match ds with
  | h :: l :: ds => h * 16 + l :: pairs ds
  | _ => []
  end.

Definition line_frame (cap : Z) (line : list Z) : frame :=
  match line with
  | [] => FrNothing
  | c :: more =>
      if c =? 35 then FrNothing
      else if c =? 46 then
        let c1 := match more with c1 :: _ => c1 | [] => 0 end in
        if c1 =? 113 then FrQuit else if c1 =? 97 then FrAtr else if c1 =? 114 then FrReset else FrUnknown
      else if bool_decide (Forall (λ d, 0 ≤ d) (nibbles line)) && Z.even (len (nibbles line)) &&
              (len (nibbles line) / 2 <=? cap) then
        match nibbles line with [] => FrNothing | ds => FrCommand (pairs ds) end
      else FrMalformed
  end.

(** Two upper-case digits a byte. *)
Definition digit (d : Z) : Z := if d <? 10 then 48 + d else 55 + d.
Definition hex_byte (b : Z) : list Z := [digit (b / 16); digit (b mod 16)].
Definition hex_line (d : list Z) : list Z := flat_map hex_byte d ++ [LF].

(** What the receiver does about it. *)
Definition on_frame (atr : list Z) (f : frame) (out : list Z) : rx_end :=
  match f with
  | FrNothing => RxAgain out
  | FrQuit => RxDone HAL_ERR_LINK_DOWN 0 out
  | FrAtr => RxAgain (out ++ hex_line atr)
  | FrReset => RxDone HAL_CARD_RESET 0 (out ++ hex_line atr)
  | FrUnknown => RxAgain (out ++ chars "transport: unknown control" ++ [LF])
  | FrMalformed => RxAgain (out ++ chars "transport: not valid hex (or too long)" ++ [LF])
  | FrCommand d => RxDone HAL_OK (len d) out
  end.

(** ** Sending *)

Lemma put_hex_byte_eq out b : is_u8 b → put_hex_byte out b = Some (out ++ hex_byte b).
Proof.
  intros Hb. assert (put_hex_byte [] b = Some (hex_byte b)) as He.
  { assert (Forall (λ b, put_hex_byte [] b = Some (hex_byte b)) (seqZ 0 256)) as Hall
      by (apply (bool_decide_unpack _); vm_compute; exact I).
    rewrite Forall_forall in Hall. apply Hall, elem_of_seqZ. exact Hb. }
  unfold put_hex_byte in *. destruct (rd hex_digits (Z.land (Z.shiftr b 4) 0x0F)); [|done].
  destruct (rd hex_digits (Z.land b 0x0F)); [|done]. cbn in He |- *. by injection He as -> ->.
Qed.

Lemma put_hex_line_eq out b n :
  bytes b → 0 ≤ n ≤ len b → put_hex_line out b n = Some (out ++ hex_line (slice 0 n b)).
Proof.
  intros Hb Hn. unfold put_hex_line, hex_line.
  assert (foreach (upto n) (λ i out, x ← rd b i; put_hex_byte out x) out = Some (out ++ flat_map hex_byte (slice 0 n b))) as ->;
    [|by bind_simpl; rewrite app_assoc].
  rewrite <- (Z2Nat.id n) by lia. assert (Z.of_nat (Z.to_nat n) ≤ len b) as Hl by lia. revert Hl.
  generalize (Z.to_nat n). clear n Hn. intros m. induction m as [|m IH]; intros Hl.
  { cbn. by rewrite app_nil_r. }
  rewrite Nat2Z.inj_succ, upto_succ, foreach_app, IH by lia. cbn [foreach]. bind_simpl.
  destruct (rd_byte b (Z.of_nat m) Hb) as (x & Hx & Hxb); [lia|]. rewrite Hx. bind_simpl.
  rewrite put_hex_byte_eq by done. bind_simpl. f_equal. rewrite <- app_assoc. f_equal.
  unfold rd in Hx. replace (0 <=? Z.of_nat m) with true in Hx by lia. rewrite Nat2Z.id in Hx.
  unfold slice. rewrite <- Nat2Z.inj_succ, !Nat2Z.id. change (Z.to_nat 0) with 0%nat. rewrite !drop_0.
  rewrite (take_S_r _ _ x) by done. rewrite flat_map_app. cbn. done.
Qed.

Lemma send_line b out : bytes b → hal_card_send out (Ptr b) (len b) = Some (HAL_OK, out ++ hex_line b).
Proof.
  intros Hb. unfold hal_card_send. rewrite put_hex_line_eq by (done || (pose proof (len_nonneg b); lia)).
  by rewrite slice_0_all.
Qed.

(** ** Receiving: characters *)

Definition plain (c : Z) : Prop := is_u8 c ∧ c ≠ LF ∧ c ≠ CR.

#[export] Instance plain_dec c : Decision (plain c).
Proof. unfold plain, is_u8. apply _. Defined.

Fixpoint rx_chars (cap : Z) (line : list Z) (l : rx_line) (buf : list Z) : option (rx_line * list Z) :=
  match line with
  | [] => Some (l, buf)
  | c :: line => '(l, buf) ← rx_char cap l buf c; rx_chars cap line l buf
  end.

Lemma rx_chars_snoc cap line c l buf :
  rx_chars cap (line ++ [c]) l buf = '(l, buf) ← rx_chars cap line l buf; rx_char cap l buf c.
Proof.
  revert l buf. induction line as [|x line IH]; intros l buf; cbn [app rx_chars]; bind_simpl.
  - by destruct (rx_char cap l buf c) as [[]|].
  - destruct (rx_char cap l buf x) as [[l' buf']|]; [|done]. bind_simpl. apply IH.
Qed.

Lemma rx_loop_line atr cap line nl rest l buf out :
  Forall plain line → nl = LF ∨ nl = CR →
  rx_loop atr cap (line ++ nl :: rest) l buf out =
    '(l, buf) ← rx_chars cap line l buf;
    e ← rx_newline atr l out;
    match e with
    | RxAgain out => rx_loop atr cap rest rx_start buf out
    | RxDone st n out => Some (RxReturn st n buf out rest)
    end.
Proof.
  intros Hl Hnl. revert l buf. induction Hl as [|c line (Hc & Hlf & Hcr) Hl IH]; intros l buf.
  - cbn [app rx_loop rx_chars]. by destruct Hnl as [-> | ->].
  - cbn [app rx_loop rx_chars]. unfold is_u8 in Hc. replace (c <? 0) with false by lia.
    replace ((c =? LF) || (c =? CR)) with false by (destruct (Z.eqb_spec c LF), (Z.eqb_spec c CR); done).
    destruct (rx_char cap l buf c) as [[l' buf']|]; [|done]. bind_simpl. apply IH.
Qed.

Lemma hex_nibble_range c : -1 ≤ hex_nibble c < 16.
Proof. unfold hex_nibble. repeat case_if; lia. Qed.

Lemma nibbles_snoc line c :
  nibbles (line ++ [c]) = nibbles line ++ (if separator c then [] else [hex_nibble c]).
Proof. unfold nibbles. rewrite List.filter_app, map_app. cbn. by destruct (separator c). Qed.

Lemma pairs_app a b : Nat.even (length a) = true → pairs (a ++ b) = pairs a ++ pairs b.
Proof.
  revert a. fix IH 1. intros [|x [|y a]] Ha; [done|done|]. cbn [app pairs]. f_equal. by apply IH.
Qed.

Lemma len_pairs a : Nat.even (length a) = true → 2 * len (pairs a) = len a.
Proof.
  revert a. fix IH 1. intros [|x [|y a]] Ha; [done|done|]. cbn [pairs]. rewrite !len_cons. rewrite <- (IH a Ha). lia.
Qed.

Lemma bytes_pairs a : Forall (λ d, 0 ≤ d < 16) a → bytes (pairs a).
Proof.
  revert a. fix IH 1. intros [|x [|y a]] Ha; [constructor|constructor|]. cbn [pairs].
  apply Forall_cons in Ha as [Hx Ha]. apply Forall_cons in Ha as [Hy Ha].
  constructor; [unfold is_u8; lia|by apply IH].
Qed.

(** ** Receiving: lines *)

Definition is_control (line : list Z) : bool :=
  match line with c :: _ => (c =? 46) || (c =? 35) | [] => false end.

(** A control line only fills the control buffer. *)
Lemma rx_control cap line buf :
  is_control line = true → len line < 4294967296 →
  rx_chars cap line rx_start buf = Some (RxLine 0 (-1) false (len line) true (take 15 line), buf).
Proof.
  destruct line as [|c0 line]; [done|]. cbn [is_control]. intros Hc.
  induction line as [|c line IH] using rev_ind; intros Hl.
  { cbn [rx_chars]. unfold rx_char, rx_start. cbn [l_seen l_control l_ctl l_n l_hi l_bad].
    change (0 =? 0) with true. cbv iota. rewrite Hc. done. }
  rewrite app_comm_cons, rx_chars_snoc. rewrite app_comm_cons, len_app in Hl. change (len [c]) with 1 in Hl.
  pose proof (len_nonneg line). rewrite len_cons in Hl.
  rewrite IH by (rewrite len_cons; lia). bind_simpl. cbv beta iota. unfold rx_char. cbn [l_seen l_control l_ctl].
  replace (len (c0 :: line) =? 0) with false by (rewrite len_cons; lia). cbn [l_n l_hi l_bad].
  rewrite u32_id by (rewrite len_cons; unfold is_u32; lia). rewrite len_app. change (len [c]) with 1. do 3 f_equal.
  assert (len (take 15 (c0 :: line)) = Z.min 15 (len (c0 :: line))) as Ht by (unfold len; rewrite length_take; lia).
  rewrite Ht. destruct (Z.ltb_spec (Z.min 15 (len (c0 :: line))) 15) as [Hs|Hs].
  - unfold len in Hs. rewrite (take_ge (c0 :: line)), take_ge; [done|rewrite length_app; cbn [length] in *; lia|cbn [length] in *; lia].
  - unfold len in Hs. rewrite take_app_le; [done|lia].
Qed.

(** The state in a line of data after the digits [ds], in the buffer [buf0]. *)
Definition digits_ok (cap : Z) (ds : list Z) : Prop := Forall (λ d, 0 ≤ d) ds ∧ len ds / 2 ≤ cap.

Definition rx_good (ds : list Z) (l : rx_line) (buf0 buf : list Z) : Prop :=
  ∃ a r, ds = a ++ r ∧ Nat.even (length a) = true ∧ l_bad l = false ∧ l_n l = len (pairs a) ∧
    buf = splice buf0 0 (pairs a) ∧ (r = [] ∧ l_hi l = -1 ∨ r = [l_hi l]).

Record rx_data (cap : Z) (line : list Z) (l : rx_line) (buf0 buf : list Z) : Prop := {
  rd_seen : l_seen l = len line;
  rd_control : l_control l = false;
  rd_hi : -1 ≤ l_hi l < 16;
  rd_count : 0 ≤ l_n l ≤ cap;
  rd_len : len buf = len buf0;
  rd_bytes : bytes buf;
  rd_good : digits_ok cap (nibbles line) → rx_good (nibbles line) l buf0 buf;
  rd_bad : ¬ digits_ok cap (nibbles line) → l_bad l = true
}.

Lemma digits_ok_prefix cap a b : digits_ok cap (a ++ b) → digits_ok cap a.
Proof. intros [Hf Hl]. apply Forall_app in Hf as [Hf _]. split; [done|]. rewrite len_app in Hl. pose proof (len_nonneg b). lia. Qed.

Lemma nibbles_range line : Forall (λ d, -1 ≤ d < 16) (nibbles line).
Proof.
  unfold nibbles. induction (List.filter _ line) as [|c cs IH]; constructor; [apply hex_nibble_range|done].
Qed.

Lemma even_snoc {A} (a : list A) x y : Nat.even (length a) = true → Nat.even (length (a ++ [x; y])) = true.
Proof. intros Ha. rewrite length_app. cbn [length]. by rewrite Nat.even_add, Ha. Qed.

(** One digit more. *)
Lemma rx_digit cap line l buf0 buf c :
  rx_data cap line l buf0 buf → 0 ≤ cap ≤ len buf0 → cap < 4294967296 → bytes buf0 →
  separator c = false → 0 ≤ hex_nibble c →
  let v := hex_nibble c in
  let seen := len (line ++ [c]) in
  ∃ l' buf',
    (if l_hi l <? 0 then Some (RxLine (l_n l) v (l_bad l) seen false (l_ctl l), buf)
     else if cap <=? l_n l then Some (RxLine (l_n l) (-1) true seen false (l_ctl l), buf)
     else
       buf ← wr buf (l_n l) (u8 (Z.lor (Z.shiftl (l_hi l) 4) v));
       Some (RxLine (u32 (l_n l + 1)) (-1) (l_bad l) seen false (l_ctl l), buf)) = Some (l', buf') ∧
    rx_data cap (line ++ [c]) l' buf0 buf'.
Proof.
  intros [Hs Hc Hh Hn Hl Hb Hg Hbad] Hcap H32 Hb0 Hsep Hv v seen. pose proof (hex_nibble_range c) as Hr. fold v in Hv, Hr.
  assert (nibbles (line ++ [c]) = nibbles line ++ [v]) as Hnib by (rewrite nibbles_snoc, Hsep; done).
  pose proof (digits_ok_prefix cap (nibbles line) [v]) as Hpre. rewrite <- Hnib in Hpre.
  destruct (Z.ltb_spec (l_hi l) 0) as [Hneg|Hpos]; [|destruct (Z.leb_spec cap (l_n l)) as [Hfull|Hroom]].
  - eexists _, _. split; [done|]. split; cbn [l_seen l_control l_hi l_n l_bad]; try done.
    + intros Hok. destruct (Hg (Hpre Hok)) as (a & r & Hd & Ha & Hlb & Hln & Hbuf & Hr').
      exists a, [v]. cbn [l_hi l_n l_bad]. destruct Hr' as [[-> _]|Hr'].
      * rewrite Hnib, Hd, app_nil_r. split; [done|]. split; [done|]. split; [done|]. split; [done|]. split; [done|]. by right.
      * destruct Hok as [Hf _]. rewrite Hnib, Hd, Hr' in Hf. rewrite !Forall_app, !Forall_singleton in Hf. lia.
    + intros Hno. apply Hbad. intros Hok. apply Hno. split.
      * rewrite Hnib. apply Forall_app. split; [apply Hok|by constructor].
      * destruct (Hg Hok) as (a & r & Hd & Ha & _ & Hln & _ & Hr'). rewrite Hnib, Hd.
        destruct Hr' as [[-> _]|Hr'].
        -- rewrite app_nil_r, len_app. change (len [v]) with 1. pose proof (len_pairs a Ha). lia.
        -- destruct Hok as [Hf _]. rewrite Hd, Hr' in Hf. rewrite !Forall_app, !Forall_singleton in Hf. lia.
  - eexists _, _. split; [done|]. split; cbn [l_seen l_control l_hi l_n l_bad]; try done.
    intros Hok. destruct (Hg (Hpre Hok)) as (a & r & Hd & Ha & _ & Hln & _ & Hr').
    destruct Hr' as [[-> Hx]|Hr']; [lia|]. destruct Hok as [_ Hok]. rewrite Hnib, Hd, Hr', !len_app in Hok.
    change (len [l_hi l]) with 1 in Hok. change (len [v]) with 1 in Hok. pose proof (len_pairs a Ha). lia.
  - rewrite wr_some by lia. bind_simpl. eexists _, _. split; [done|].
    rewrite (lor_shiftl_add (l_hi l) v 4) by (change (2 ^ 4) with 16; lia). change (2 ^ 4) with 16.
    assert (is_u8 (l_hi l * 16 + v)) as Hb8 by (unfold is_u8; lia). rewrite u8_id by done.
    rewrite u32_id by (unfold is_u32; lia).
    split; cbn [l_seen l_control l_hi l_n l_bad]; try done.
    + lia.
    + unfold len in *. by rewrite length_insert.
    + by apply Forall_insert.
    + intros Hok. destruct (Hg (Hpre Hok)) as (a & r & Hd & Ha & Hlb & Hln & Hbuf & Hr').
      destruct Hr' as [[-> Hx]|Hr']; [lia|].
      assert (pairs (a ++ [l_hi l; v]) = pairs a ++ [l_hi l * 16 + v]) as Hp by (by rewrite pairs_app).
      exists (a ++ [l_hi l; v]), []. cbn [l_hi l_n l_bad]. rewrite Hp. split; [|split; [|split; [|split; [|split; [|by left]]]]].
      * by rewrite Hnib, Hd, Hr', app_nil_r, <- app_assoc.
      * by apply even_snoc.
      * done.
      * rewrite len_app, <- Hln. done.
      * rewrite Hbuf, Hln. pose proof (splice_snoc buf0 0 (pairs a) (l_hi l * 16 + v)) as Hss.
        rewrite Z.add_0_l in Hss. apply Hss; lia.
    + intros Hno. apply Hbad. intros Hok. apply Hno. split.
      * rewrite Hnib. apply Forall_app. split; [apply Hok|by constructor].
      * destruct (Hg Hok) as (a & r & Hd & Ha & _ & Hln & _ & Hr').
        destruct Hr' as [[-> Hx]|Hr']; [lia|]. rewrite Hnib, Hd, Hr', !len_app.
        change (len [l_hi l]) with 1. change (len [v]) with 1. pose proof (len_pairs a Ha). lia.
Qed.

(** A character that adds no digit, or spoils the line. *)
Lemma rx_no_digit cap line l buf0 buf c bad :
  rx_data cap line l buf0 buf →
  (separator c = true ∧ bad = l_bad l) ∨ (separator c = false ∧ hex_nibble c < 0 ∧ bad = true) →
  rx_data cap (line ++ [c]) (RxLine (l_n l) (l_hi l) bad (len (line ++ [c])) false (l_ctl l)) buf0 buf.
Proof.
  intros [Hs Hc Hh Hn Hl Hb Hg Hbad] Hcase. split; cbn [l_seen l_control l_hi l_n l_bad]; try done.
  - intros Hok. destruct Hcase as [[Hsep ->]|(Hsep & Hneg & ->)]; rewrite nibbles_snoc, Hsep in Hok |- *.
    + rewrite app_nil_r in *. by apply Hg.
    + destruct Hok as [Hf _]. rewrite Forall_app, Forall_singleton in Hf. lia.
  - intros Hno. destruct Hcase as [[Hsep ->]|(Hsep & Hneg & ->)]; [|done].
    apply Hbad. by rewrite nibbles_snoc, Hsep, app_nil_r in Hno.
Qed.

Lemma rx_line_data cap line buf0 :
  is_control line = false → len line < 4294967296 → 0 ≤ cap ≤ len buf0 → cap < 4294967296 → bytes buf0 →
  ∃ l buf, rx_chars cap line rx_start buf0 = Some (l, buf) ∧ rx_data cap line l buf0 buf.
Proof.
  intros Hctl Hlen Hcap H32 Hb0. induction line as [|c line IH] using rev_ind.
  { exists rx_start, buf0. split; [done|]. split; cbn [rx_start l_seen l_control l_hi l_n l_bad]; try done; [lia| |].
    - intros _. exists [], []. split; [done|]. split; [done|]. split; [done|]. split; [done|].
      split; [by rewrite splice_nil|by left].
    - intros []. split; [constructor|]. change (len (nibbles []) / 2) with 0. lia. }
  rewrite len_app in Hlen. change (len [c]) with 1 in Hlen. pose proof (len_nonneg line).
  destruct IH as (l & buf & Hchars & Hd); [destruct line; done|lia|].
  rewrite rx_chars_snoc, Hchars. bind_simpl. cbv beta iota. pose proof (rd_seen _ _ _ _ _ Hd) as Hs.
  unfold rx_char. rewrite Hs. rewrite u32_id by (unfold is_u32; lia).
  assert ((if len line =? 0 then (c =? 46) || (c =? 35) else l_control l) = false) as ->.
  { destruct line as [|c0 line]; [exact Hctl|]. replace (len (c0 :: line) =? 0) with false
      by (rewrite len_cons; pose proof (len_nonneg line); lia). apply Hd. }
  cbv iota. replace (len line + 1) with (len (line ++ [c])) by (rewrite len_app; done).
  change ((c =? 32) || (c =? 9) || (c =? 58)) with (separator c). destruct (separator c) eqn:Hsep.
  - eexists _, _. split; [done|]. apply rx_no_digit; [done|by left].
  - cbv zeta. destruct (Z.ltb_spec (hex_nibble c) 0) as [Hneg|Hv].
    + eexists _, _. split; [done|]. apply rx_no_digit; [done|by right].
    + by apply (rx_digit cap line l buf0 buf c).
Qed.

Lemma even_len {A} (a : list A) : Z.even (Z.of_nat (length a)) = Nat.even (length a).
Proof. induction (length a) as [|n IH]; [done|]. rewrite Nat2Z.inj_succ, Z.even_succ, Nat.even_succ, <- Z.negb_even, <- Nat.negb_even, IH. done. Qed.

(** The end of a line that is no control line. *)
Definition rx_newline_data (l : rx_line) (out : list Z) : option rx_end :=
  if (l_n l =? 0) && negb (l_bad l) && (l_hi l <? 0) then Some (RxAgain out)
  else if l_bad l || (0 <=? l_hi l) then Some (RxAgain (out ++ chars "transport: not valid hex (or too long)" ++ [LF]))
  else Some (RxDone HAL_OK (l_n l) out).

Lemma rx_data_newline atr cap line l buf0 buf out :
  rx_data cap line l buf0 buf → is_control line = false → line ≠ [] → len line < 4294967296 →
  rx_newline atr l out = Some (on_frame atr (line_frame cap line) out) ∧
  ∀ d, line_frame cap line = FrCommand d → buf = splice buf0 0 d ∧ 0 < len d ≤ cap ∧ bytes d.
Proof.
  intros Hd Hctl Hne Hlen. pose proof Hd as [Hs Hc Hh Hn Hl Hb Hg Hbad].
  unfold rx_newline. rewrite Hs, Hc. destruct line as [|c0 line0]; [done|]. set (line := c0 :: line0) in *.
  replace (len line =? 0) with false by (unfold line; rewrite len_cons; pose proof (len_nonneg line0); lia).
  assert (line_frame cap line =
    (if bool_decide (Forall (λ d, 0 ≤ d) (nibbles line)) && Z.even (len (nibbles line)) &&
        (len (nibbles line) / 2 <=? cap) then
       match nibbles line with [] => FrNothing | ds => FrCommand (pairs ds) end else FrMalformed)) as ->.
  { unfold line. cbn [line_frame]. cbn [is_control line] in Hctl. apply orb_false_iff in Hctl as [-> ->]. done. }
  pose proof (nibbles_range line) as Hrange.
  assert (¬ digits_ok cap (nibbles line) → rx_newline_data l out = Some (on_frame atr FrMalformed out)) as Hmal.
  { intros Hno. unfold rx_newline_data. rewrite (Hbad Hno). cbn [negb orb]. by rewrite andb_false_r. }
  fold (rx_newline_data l out).
  destruct (bool_decide_reflect (Forall (λ d, 0 ≤ d) (nibbles line))) as [Hf|Hf]; cbn [andb];
    [|split; [apply Hmal; by intros [? _]|done]].
  destruct (Z.leb_spec (len (nibbles line) / 2) cap) as [Hle|Hgt];
    [|rewrite andb_false_r; split; [apply Hmal; intros [_ ?]; lia|done]].
  unfold rx_newline_data.
  rewrite andb_true_r. destruct (Hg (conj Hf Hle)) as (a & r & Hds & Ha & -> & -> & Hbuf & Hr).
  assert (len a = 2 * len (pairs a)) as Hla by (by rewrite len_pairs).
  assert (bytes (pairs a)) as Hbp.
  { apply bytes_pairs. rewrite Hds in Hf, Hrange. apply Forall_app in Hf as [Hf _]. apply Forall_app in Hrange as [Hr' _].
    apply Forall_forall. intros x Hx. rewrite Forall_forall in Hf, Hr'. specialize (Hf x Hx). specialize (Hr' x Hx). cbn in *. lia. }
  destruct Hr as [[-> Hhi]|Hr].
  - rewrite app_nil_r in Hds. rewrite Hds. assert (Z.even (len a) = true) as -> by (unfold len; by rewrite even_len). rewrite Hhi. cbn [negb andb orb].
    change (0 <=? -1) with false. change (-1 <? 0) with true. rewrite andb_true_r.
    rewrite Hds in Hle. pose proof (len_nonneg (pairs a)).
    destruct a as [|x a]; [done|]. set (ds := x :: a) in *. change (match ds with [] => _ | _ :: _ => _ end) with (FrCommand (pairs ds)).
    assert (0 < len ds) by (unfold ds; rewrite len_cons; pose proof (len_nonneg a); lia).
    replace (len (pairs ds) =? 0) with false by lia. cbn [andb]. split; [done|].
    intros d Hd'. assert (pairs ds = d) as <- by congruence. split; [done|]. split; [lia|done].
  - assert (Z.even (len (nibbles line)) = false) as ->.
    { rewrite Hds, Hr, len_app. change (len [l_hi l]) with 1. rewrite Z.even_add, Hla, Z.even_mul. done. }
    rewrite Hds, Hr in Hf. apply Forall_app in Hf as [_ Hf]. rewrite Forall_singleton in Hf.
    replace (l_hi l <? 0) with false by lia. rewrite andb_false_r. replace (0 <=? l_hi l) with true by lia. done.
Qed.

Lemma rx_control_newline atr cap line out :
  is_control line = true → bytes atr →
  rx_newline atr (RxLine 0 (-1) false (len line) true (take 15 line)) out = Some (on_frame atr (line_frame cap line) out).
Proof.
  intros Hctl Ha. destruct line as [|c0 more]; [done|]. unfold rx_newline. cbn [l_seen l_control l_ctl].
  replace (len (c0 :: more) =? 0) with false by (rewrite len_cons; pose proof (len_nonneg more); lia).
  change (rd (take 15 (c0 :: more) ++ [0]) 0) with (Some c0). bind_simpl. cbn [line_frame].
  cbn [is_control] in Hctl. destruct (Z.eqb_spec c0 35); [done|]. rewrite orb_false_r in Hctl. rewrite Hctl.
  assert (rd (take 15 (c0 :: more) ++ [0]) 1 = Some (match more with c1 :: _ => c1 | [] => 0 end)) as ->
    by (by destruct more). bind_simpl.
  assert (send_atr atr out = Some (out ++ hex_line atr)) as Hs.
  { unfold send_atr. rewrite put_hex_line_eq by (done || (pose proof (len_nonneg atr); lia)). by rewrite slice_0_all. }
  cbv zeta. set (c1 := match more with [] => _ | _ :: _ => _ end).
  destruct (c1 =? 113); [done|]. destruct (c1 =? 97); [by rewrite Hs|]. destruct (c1 =? 114); [by rewrite Hs|done].
Qed.

(** ** Lines that carry commands *)

Lemma digit_facts : Forall (λ d, hex_nibble (digit d) = d ∧ plain (digit d) ∧ separator (digit d) = false ∧ digit d ≠ 46 ∧ digit d ≠ 35)
  (seqZ 0 16).
Proof.
  apply (bool_decide_unpack _). vm_compute. exact I.
Qed.

Lemma digit_fact d : 0 ≤ d < 16 →
  hex_nibble (digit d) = d ∧ plain (digit d) ∧ separator (digit d) = false ∧ digit d ≠ 46 ∧ digit d ≠ 35.
Proof. intros Hd. pose proof digit_facts as Hf. rewrite Forall_forall in Hf. apply Hf, elem_of_seqZ. lia. Qed.

(** Every line takes at least a character. *)
Lemma lines_length cmds : (length cmds ≤ length (concat (map hex_line cmds)))%nat.
Proof.
  induction cmds as [|d cmds IH]; [done|]. cbn [map concat length]. rewrite length_app.
  unfold hex_line at 1. rewrite length_app. cbn [length]. lia.
Qed.

Definition hex_bytes (d : list Z) : list Z := flat_map hex_byte d.

Lemma len_hex_bytes d : len (hex_bytes d) = 2 * len d.
Proof.
  induction d as [|b d IH]; [done|]. change (hex_bytes (b :: d)) with (digit (b / 16) :: digit (b mod 16) :: hex_bytes d).
  rewrite !len_cons. lia.
Qed.

Lemma hex_plain d : bytes d → Forall plain (hex_bytes d).
Proof.
  intros Hd. induction Hd as [|b d Hb Hd IH]; [constructor|]. cbn. unfold is_u8 in Hb.
  destruct (digit_fact (b / 16)) as (_ & ? & _); [lia|]. destruct (digit_fact (b mod 16)) as (_ & ? & _); [lia|].
  constructor; [done|]. constructor; [done|exact IH].
Qed.

Lemma hex_nibbles d : bytes d →
  nibbles (hex_bytes d) = flat_map (λ b, [b / 16; b mod 16]) d.
Proof.
  intros Hd. induction Hd as [|b d Hb Hd IH]; [done|]. cbn. unfold is_u8 in Hb.
  destruct (digit_fact (b / 16)) as (H1 & _ & H2 & _); [lia|]. destruct (digit_fact (b mod 16)) as (H3 & _ & H4 & _); [lia|].
  unfold nibbles, hex_bytes in *. cbn. rewrite H2. cbn. rewrite H4. cbn. rewrite H1, H3. by rewrite IH.
Qed.

Lemma hex_pairs d : bytes d →
  let ds := flat_map (λ b, [b / 16; b mod 16]) d in
  pairs ds = d ∧ Forall (λ x, 0 ≤ x) ds ∧ len ds = 2 * len d.
Proof.
  intros Hd. induction Hd as [|b d Hb Hd (IH1 & IH2 & IH3)]; [by split; [|split; [constructor|]]|].
  cbn [flat_map app pairs]. unfold is_u8 in Hb. rewrite IH1. split; [f_equal; lia|].
  split; [constructor; [lia|constructor; [lia|done]]|]. rewrite !len_cons. cbn in IH3. lia.
Qed.

Lemma hex_frame cap d : bytes d → 0 < len d ≤ cap → line_frame cap (hex_bytes d) = FrCommand d.
Proof.
  intros Hd Hl. destruct d as [|b d]; [change (len []) with 0 in Hl; lia|]. pose proof Hd as Hd'. apply bytes_cons in Hd' as [Hb _]. unfold is_u8 in Hb.
  destruct (digit_fact (b / 16)) as (_ & _ & _ & H1 & H2); [lia|].
  destruct (hex_pairs (b :: d) Hd) as (Hp & Hf & Hlen). rewrite <- hex_nibbles in Hp, Hf, Hlen by done.
  change (hex_bytes (b :: d)) with (digit (b / 16) :: digit (b mod 16) :: hex_bytes d) in *.
  unfold line_frame. set (line := digit (b / 16) :: digit (b mod 16) :: hex_bytes d) in *.
  replace (digit (b / 16) =? 35) with false by lia. replace (digit (b / 16) =? 46) with false by lia.
  rewrite bool_decide_true by done. rewrite Hlen, Z.even_mul. cbn [Z.even orb andb].
  replace (2 * len (b :: d) / 2 <=? cap) with true by lia.
  destruct (nibbles line) as [|x ds] eqn:E; [change (len []) with 0 in Hlen; lia|]. by rewrite Hp.
Qed.

Lemma receive_line_eq atr line nl rest buf cap x out :
  bytes atr → Forall plain line → nl = LF ∨ nl = CR → len line < 4294967296 →
  0 < cap ≤ len buf → cap < 4294967296 → bytes buf →
  ∃ buf', len buf' = len buf ∧ bytes buf' ∧
    (∀ d, line_frame cap line = FrCommand d → buf' = splice buf 0 d ∧ 0 < len d ≤ cap ∧ bytes d) ∧
    hal_card_receive atr (line ++ nl :: rest) (Ptr buf) cap (Ptr x) out =
      match on_frame atr (line_frame cap line) out with
      | RxAgain out' => hal_card_receive atr rest (Ptr buf') cap (Ptr x) out'
      | RxDone st n out' => Some (RxReturn st n buf' out' rest)
      end.
Proof.
  intros Ha Hp Hnl Hlen Hcap H32 Hb. unfold hal_card_receive. replace (cap =? 0) with false by lia.
  rewrite rx_loop_line by done. destruct (is_control line) eqn:Hctl.
  - rewrite rx_control by done. bind_simpl. cbv beta iota. rewrite (rx_control_newline atr cap line out) by done.
    bind_simpl. exists buf. split; [done|]. split; [done|]. split; [|by destruct (on_frame _ _ _)].
    intros d Hd. exfalso. destruct line as [|c line]; [done|]. cbn [line_frame is_control] in Hd, Hctl.
    destruct (c =? 35); [done|]. rewrite orb_false_r in Hctl. rewrite Hctl in Hd.
    cbv zeta in Hd. by repeat case_match.
  - destruct (rx_line_data cap line buf Hctl Hlen ltac:(lia) H32 Hb) as (l & buf' & Hchars & Hd).
    rewrite Hchars. bind_simpl. cbv beta iota. exists buf'. split; [apply Hd|]. split; [apply Hd|].
    destruct (decide (line = [])) as [->|Hne].
    { injection Hchars as <- <-. split; [done|]. done. }
    destruct (rx_data_newline atr cap line l buf buf' out Hd Hctl Hne Hlen) as [Hnew Hcmd].
    split; [done|]. rewrite Hnew. bind_simpl. by destruct (on_frame _ _ _).
Qed.

(** ** Any input at all *)

(** The input up to the first end of line. *)
Lemma split_line input :
  bytes input →
  Forall plain input ∨ ∃ line nl rest, input = line ++ nl :: rest ∧ Forall plain line ∧ (nl = LF ∨ nl = CR).
Proof.
  intros Hb. induction Hb as [|c input Hc Hb IH]; [left; constructor|].
  destruct (decide (c = LF)) as [->|Hlf]; [right; exists [], LF, input; split; [done|split; [constructor|by left]]|].
  destruct (decide (c = CR)) as [->|Hcr]; [right; exists [], CR, input; split; [done|split; [constructor|by right]]|].
  destruct IH as [Hp|(line & nl & rest & -> & Hp & Hnl)]; [left; by constructor; [split|]|].
  right. exists (c :: line), nl, rest. split; [done|]. split; [by constructor; [split|]|done].
Qed.

(** A call of the receiver, as far as its callers can tell. *)
Inductive receives (cap : Z) (buf input : list Z) : rx_result → Prop :=
| receives_waiting buf' out' : len buf' = len buf → bytes buf' → receives cap buf input (RxWaiting buf' out')
| receives_return st n buf' out' rest :
    len buf' = len buf → bytes buf' → 0 ≤ n ≤ cap → bytes rest → len rest < len input →
    st = HAL_OK ∨ st = HAL_CARD_RESET ∨ st = HAL_ERR_LINK_DOWN →
    receives cap buf input (RxReturn st n buf' out' rest).

Lemma rx_loop_waiting atr cap line l buf out :
  Forall plain line →
  rx_loop atr cap line l buf out = '(_, buf) ← rx_chars cap line l buf; Some (RxWaiting buf out).
Proof.
  intros Hl. revert l buf. induction Hl as [|c line (Hc & Hlf & Hcr) Hl IH]; intros l buf; [done|].
  cbn [rx_loop rx_chars]. unfold is_u8 in Hc. replace (c <? 0) with false by lia.
  replace ((c =? LF) || (c =? CR)) with false by (destruct (Z.eqb_spec c LF), (Z.eqb_spec c CR); done).
  destruct (rx_char cap l buf c) as [[l' buf']|]; [|done]. bind_simpl. apply IH.
Qed.

(** The receiver is memory safe and terminates on any input. *)
Lemma receive_total atr cap x buf input out :
  bytes atr → bytes input → len input < 4294967296 → 0 < cap ≤ len buf → cap < 4294967296 → bytes buf →
  ∃ r, hal_card_receive atr input (Ptr buf) cap (Ptr x) out = Some r ∧ receives cap buf input r.
Proof.
  intros Ha. remember (length input) as m eqn:Hm. revert input buf out Hm.
  induction m as [m IH] using lt_wf_ind. intros input buf out Hm Hi Hlen Hcap H32 Hb.
  destruct (split_line input Hi) as [Hp|(line & nl & rest & -> & Hp & Hnl)].
  - unfold hal_card_receive. replace (cap =? 0) with false by lia. rewrite rx_loop_waiting by done.
    destruct (is_control input) eqn:Hctl.
    + rewrite rx_control by done. eexists. split; [done|]. by constructor.
    + destruct (rx_line_data cap input buf Hctl Hlen ltac:(lia) H32 Hb) as (l & buf' & -> & Hd).
      eexists. split; [done|]. constructor; apply Hd.
  - apply Forall_app in Hi as [_ Hi]. apply Forall_cons in Hi as [_ Hi].
    rewrite len_app, len_cons in Hlen. pose proof (len_nonneg rest). pose proof (len_nonneg line).
    destruct (receive_line_eq atr line nl rest buf cap x out Ha Hp Hnl) as (buf' & Hbl & Hbb & Hcmd & ->); [lia|done..|].
    destruct (on_frame atr (line_frame cap line) out) as [out'|st n out'] eqn:Hf.
    + destruct (IH (length rest)) with rest buf' out' as (r & Hr & Hrec); try done; [|lia|lia|].
      { subst m. rewrite length_app. cbn. lia. }
      exists r. split; [done|]. destruct Hrec; constructor; rewrite ?len_app, ?len_cons; done || lia.
    + eexists. split; [done|].
      assert (0 ≤ n ≤ cap ∧ (st = HAL_OK ∨ st = HAL_CARD_RESET ∨ st = HAL_ERR_LINK_DOWN)) as [Hn Hst].
      { destruct (line_frame cap line) as [| | | | | |d] eqn:E; cbn in Hf; simplify_eq; (split; [lia|by auto]) || (split; [|by auto]).
        destruct (Hcmd d eq_refl). lia. }
      constructor; rewrite ?len_app, ?len_cons; done || lia.
Qed.

(** [C36] The receiver takes a line for exactly what the line protocol makes it:
    one well-formed line of hex digits, whatever separators it holds, is
    delivered as the bytes it spells; control lines act; comments and blank
    lines are passed over; a malformed or overlong line is reported and never
    delivered.  No write leaves the buffer. *)
Theorem receive_line atr line nl rest buf cap x out :
  bytes atr → Forall plain line → nl = LF ∨ nl = CR → len line < 4294967296 →
  0 < cap ≤ len buf → cap < 4294967296 → bytes buf →
  ∃ buf', len buf' = len buf ∧ bytes buf' ∧
    (∀ d, line_frame cap line = FrCommand d → buf' = splice buf 0 d ∧ 0 < len d ≤ cap ∧ bytes d) ∧
    hal_card_receive atr (line ++ nl :: rest) (Ptr buf) cap (Ptr x) out =
      match on_frame atr (line_frame cap line) out with
      | RxAgain out' => hal_card_receive atr rest (Ptr buf') cap (Ptr x) out'
      | RxDone st n out' => Some (RxReturn st n buf' out' rest)
      end.
Proof. apply receive_line_eq. Qed.

Definition demo_line : list Z := chars "00 a4:00".

Lemma receive_line_witness :
  ∃ buf', len buf' = len (replicate 8 0) ∧ bytes buf' ∧
    (∀ d, line_frame 8 demo_line = FrCommand d → buf' = splice (replicate 8 0) 0 d ∧ 0 < len d ≤ 8 ∧ bytes d) ∧
    hal_card_receive [0x3B] (demo_line ++ LF :: []) (Ptr (replicate 8 0)) 8 (Ptr 0) [] =
      match on_frame [0x3B] (line_frame 8 demo_line) [] with
      | RxAgain out' => hal_card_receive [0x3B] [] (Ptr buf') 8 (Ptr 0) out'
      | RxDone st n out' => Some (RxReturn st n buf' out' [])
      end.
Proof.
  apply (receive_line [0x3B] demo_line LF [] (replicate 8 0) 8 0 []);
    [solve_bytes| |by left|reflexivity|split; [reflexivity|vm_compute; congruence]|reflexivity|solve_bytes].
  apply (bool_decide_unpack _). vm_compute. exact I.
Defined.
