(* ===== verification/Uart.v ===== *)
(** * The UART of the SCV1 chip (the driver of src/hal/arm-scv1/hal_arm_io.c)

    The driver down to the registers of scv1.h.  The peripheral is a type class:
    reads and writes of its registers, and the documented behaviour of an ARM
    CMSDK UART as laws.  On a peripheral that keeps the laws, the driver is the
    stream of characters that ArmIo.v, ArmCard.v and BootMain.v read from and
    append to. *)

From stdpp Require Import strings.
From S2P Require Import Prelude ArmIo.
#[local] Open Scope Z_scope.

Definition SCV1_UART_STATE_TX_FULL : Z := 0x1.
Definition SCV1_UART_STATE_RX_FULL : Z := 0x2.
Definition SCV1_UART_CTRL_TX_EN : Z := 0x1.
Definition SCV1_UART_CTRL_RX_EN : Z := 0x2.

Inductive uart_reg := SCV1_UART_DATA | SCV1_UART_STATE | SCV1_UART_CTRL | SCV1_UART_BAUDDIV.

(** A read may change the peripheral: reading DATA takes a character. *)
Class UartBus (D : Type) := {
  uart_read : D → uart_reg → Z * D;
  uart_write : D → uart_reg → Z → D;
}.

Section driver.
Context {D : Type} `{UartBus D}.

(** The peripheral and [s_initialised]. *)
Record uart := Uart { u_dev : D; s_initialised : bool }.

Definition scv1_uart_init (u : uart) : uart :=
  let d := uart_write (u_dev u) SCV1_UART_BAUDDIV 16 in
  let d := uart_write d SCV1_UART_CTRL (Z.lor SCV1_UART_CTRL_TX_EN SCV1_UART_CTRL_RX_EN) in
  Uart d true.

(** [while ((STATE & mask) == busy) { }]: one unit of fuel a poll. *)
Fixpoint poll (fuel : nat) (mask : Z) (busy : bool) (d : D) : option D :=
  match fuel with
  | O => None
  | S fuel =>
      let '(v, d) := uart_read d SCV1_UART_STATE in
      if Bool.eqb (negb (Z.land v mask =? 0)) busy then poll fuel mask busy d else Some d
  end.

(** [c] is a byte: the cast through [unsigned char] is done by the caller's
    type. *)
Definition uart_putc (fuel : nat) (d : D) (c : Z) : option D :=
  d ← poll fuel SCV1_UART_STATE_TX_FULL true d;
  Some (uart_write d SCV1_UART_DATA (u32 (u8 c))).

Definition uart_getc (fuel : nat) (d : D) : option (Z * D) :=
  d ← poll fuel SCV1_UART_STATE_RX_FULL false d;
  let '(v, d) := uart_read d SCV1_UART_DATA in
  Some (Z.land v 0xFF, d).

(** [s] without its terminator. *)
Fixpoint scv1_uart_puts (fuel : nat) (d : D) (s : list Z) : option D :=
  match s with
  | [] => Some d
  | c :: s => d ← uart_putc fuel d c; scv1_uart_puts fuel d s
  end.
End driver.
#[global] Arguments uart D : clear implicits.

(** ** The peripheral *)

(** What the line carries: characters sent so far, characters to come.  The
    transmitter may be busy for at most [uart_patience] polls, and so long may
    pass before the next character is in.  A character written while the
    transmitter is disabled goes nowhere. *)
Class UartSpec (D : Type) `{UartBus D} := {
  uart_wf : D → Prop;
  uart_enabled : D → Prop;
  uart_sent : D → list Z;
  uart_coming : D → list Z;
  uart_patience : nat;
  uart_tx_wait : D → nat;
  uart_rx_wait : D → nat;
  uart_wait_bound d : uart_enabled d → (uart_tx_wait d ≤ uart_patience ∧ uart_rx_wait d ≤ uart_patience)%nat;
  uart_state_read d v d' :
    uart_read d SCV1_UART_STATE = (v, d') →
    uart_sent d' = uart_sent d ∧ uart_coming d' = uart_coming d ∧ (uart_enabled d → uart_enabled d') ∧
    uart_tx_wait d' = pred (uart_tx_wait d) ∧ uart_rx_wait d' = pred (uart_rx_wait d) ∧
    (Z.land v SCV1_UART_STATE_TX_FULL ≠ 0 ↔ (0 < uart_tx_wait d)%nat) ∧
    (Z.land v SCV1_UART_STATE_RX_FULL ≠ 0 ↔ uart_coming d ≠ [] ∧ uart_rx_wait d = 0%nat);
  uart_data_read d c rest :
    uart_enabled d → uart_coming d = c :: rest → uart_rx_wait d = 0%nat →
    ∃ v d', uart_read d SCV1_UART_DATA = (v, d') ∧ Z.land v 0xFF = c ∧ uart_enabled d' ∧
      uart_sent d' = uart_sent d ∧ uart_coming d' = rest;
  uart_data_write d c :
    uart_enabled d → uart_tx_wait d = 0%nat → is_u8 c →
    uart_enabled (uart_write d SCV1_UART_DATA c) ∧ uart_sent (uart_write d SCV1_UART_DATA c) = uart_sent d ++ [c] ∧
    uart_coming (uart_write d SCV1_UART_DATA c) = uart_coming d;
  uart_setup d :
    uart_wf d →
    let d' := uart_write (uart_write d SCV1_UART_BAUDDIV 16) SCV1_UART_CTRL 3 in
    uart_enabled d' ∧ uart_sent d' = uart_sent d ∧ uart_coming d' = uart_coming d;
}.

Section stream.
Context {D : Type} `{UartSpec D}.

Record line_is (d : D) (out input : list Z) : Prop := {
  li_enabled : uart_enabled d; li_sent : uart_sent d = out; li_coming : uart_coming d = input
}.

Lemma poll_tx fuel d out input :
  line_is d out input → (uart_tx_wait d < fuel)%nat →
  ∃ d', poll fuel SCV1_UART_STATE_TX_FULL true d = Some d' ∧ line_is d' out input ∧ uart_tx_wait d' = 0%nat.
Proof.
  revert d. induction fuel as [|fuel IH]; intros d [He Ho Hi] Hf; [lia|]. cbn [poll].
  destruct (uart_read d SCV1_UART_STATE) as [v d1] eqn:E.
  destruct (uart_state_read d v d1 E) as (Hs & Hc & Hen & Ht & _ & Hfull & _).
  assert (line_is d1 out input) as Hl by (split; [by apply Hen|congruence..]).
  destruct (Z.eqb_spec (Z.land v SCV1_UART_STATE_TX_FULL) 0) as [Hz|Hz]; cbn [negb Bool.eqb].
  - exists d1. split; [done|]. split; [done|]. rewrite Ht. destruct (uart_tx_wait d) as [|n]; [done|].
    exfalso. by apply (proj2 Hfull); [lia|].
  - apply IH; [done|]. apply Hfull in Hz. lia.
Qed.

Lemma poll_rx fuel d out input :
  line_is d out input → input ≠ [] → (uart_rx_wait d < fuel)%nat →
  ∃ d', poll fuel SCV1_UART_STATE_RX_FULL false d = Some d' ∧ line_is d' out input ∧ uart_rx_wait d' = 0%nat.
Proof.
  revert d. induction fuel as [|fuel IH]; intros d [He Ho Hi] Hin Hf; [lia|]. cbn [poll].
  destruct (uart_read d SCV1_UART_STATE) as [v d1] eqn:E.
  destruct (uart_state_read d v d1 E) as (Hs & Hc & Hen & _ & Hr & _ & Hfull).
  assert (line_is d1 out input) as Hl by (split; [by apply Hen|congruence..]).
  destruct (Z.eqb_spec (Z.land v SCV1_UART_STATE_RX_FULL) 0) as [Hz|Hz]; cbn [negb Bool.eqb].
  - apply IH; [done|done|]. destruct (decide (uart_rx_wait d = 0%nat)); [|lia].
    exfalso. apply (proj2 Hfull); [|done]. by rewrite Hi.
  - exists d1. split; [done|]. split; [done|]. apply Hfull in Hz as [_ Hz]. by rewrite Hr, Hz.
Qed.

(** Each call of the driver is one step of the stream. *)
Lemma uart_putc_stream fuel d out input c :
  line_is d out input → is_u8 c → (uart_patience < fuel)%nat →
  ∃ d', uart_putc fuel d c = Some d' ∧ line_is d' (out ++ [c]) input.
Proof.
  intros Hl Hc Hf. destruct (uart_wait_bound d (li_enabled _ _ _ Hl)). unfold uart_putc.
  destruct (poll_tx fuel d out input Hl) as (d1 & -> & [He Ho Hi] & Hw); [lia|]. bind_simpl.
  rewrite (u8_id c), u32_id by (done || (unfold is_u8, is_u32 in *; lia)).
  destruct (uart_data_write d1 c He Hw Hc) as (He' & Hs' & Hc'). eexists. split; [done|]. split; [done|congruence..].
Qed.

Lemma uart_getc_stream fuel d out c input :
  line_is d out (c :: input) → (uart_patience < fuel)%nat →
  ∃ d', uart_getc fuel d = Some (c, d') ∧ line_is d' out input.
Proof.
  intros Hl Hf. destruct (uart_wait_bound d (li_enabled _ _ _ Hl)). unfold uart_getc.
  destruct (poll_rx fuel d out (c :: input) Hl) as (d1 & -> & [He Ho Hi] & Hw); [done|lia|]. bind_simpl.
  destruct (uart_data_read d1 c input He Hi Hw) as (v & d2 & -> & <- & He2 & Hs2 & Hc2).
  eexists. split; [done|]. split; [done|congruence..].
Qed.

Lemma uart_puts_stream fuel d out input s :
  line_is d out input → bytes s → (uart_patience < fuel)%nat →
  ∃ d', scv1_uart_puts fuel d s = Some d' ∧ line_is d' (out ++ s) input.
Proof.
  intros Hl Hs Hf. revert d out Hl. induction Hs as [|c s Hc Hs IH]; intros d out Hl; cbn [scv1_uart_puts].
  { exists d. by rewrite app_nil_r. }
  destruct (uart_putc_stream fuel d out input c Hl Hc Hf) as (d1 & -> & Hl1). bind_simpl.
  destruct (IH d1 _ Hl1) as (d2 & -> & Hl2). exists d2. by rewrite <- app_assoc in Hl2.
Qed.
End stream.

(** ** Properties *)

(** [C40] The register-level driver transmits and receives exactly the stream of
    characters: on any UART that becomes ready within a bounded number of polls,
    [scv1_uart_init] enables the line whatever state the peripheral was in;
    printing then sends the text and nothing else, and receiving afterwards
    takes the next character. *)
Theorem uart_driver_is_a_stream {D} `{UartSpec D} (u : uart D) out input s c fuel :
  uart_wf (u_dev u) → uart_sent (u_dev u) = out → uart_coming (u_dev u) = c :: input → bytes s → (uart_patience < fuel)%nat →
  ∃ d1 d2, scv1_uart_puts fuel (u_dev (scv1_uart_init u)) s = Some d1 ∧ uart_getc fuel d1 = Some (c, d2) ∧
    line_is d1 (out ++ s) (c :: input) ∧ line_is d2 (out ++ s) input.
Proof.
  intros Hw Ho Hi Hs Hf. destruct (uart_setup (u_dev u) Hw) as (He & Ho' & Hi').
  assert (line_is (u_dev (scv1_uart_init u)) out (c :: input)) as Hl by (split; [exact He|etransitivity; [exact Ho'|done]|etransitivity; [exact Hi'|done]]).
  destruct (uart_puts_stream fuel _ out (c :: input) s Hl Hs Hf) as (d1 & Hp & Hl1).
  destruct (uart_getc_stream fuel d1 (out ++ s) c input Hl1 Hf) as (d2 & Hg & Hl2). by exists d1, d2.
Qed.

(** ** A UART

    One that takes three polls to send a character and two to receive one. *)

Record cmsdk := Cmsdk { cm_ctrl : Z; cm_sent : list Z; cm_coming : list Z; cm_tx : nat; cm_rx : nat }.

#[export] Instance CmsdkBus : UartBus cmsdk := {
  uart_read d r :=
    match r with
    | SCV1_UART_STATE =>
        ((if (0 <? cm_tx d)%nat then 1 else 0) + (if bool_decide (cm_coming d ≠ [] ∧ cm_rx d = 0%nat) then 2 else 0),
         Cmsdk (cm_ctrl d) (cm_sent d) (cm_coming d) (pred (cm_tx d)) (pred (cm_rx d)))
    | SCV1_UART_DATA =>
        match cm_coming d with
        | c :: rest => (c, Cmsdk (cm_ctrl d) (cm_sent d) rest (cm_tx d) 2)
        | [] => (0, d)
        end
    | SCV1_UART_CTRL => (cm_ctrl d, d)
    | SCV1_UART_BAUDDIV => (16, d)
    end;
  uart_write d r v :=
    match r with
    | SCV1_UART_DATA =>
        if Z.land (cm_ctrl d) 1 =? 0 then d else Cmsdk (cm_ctrl d) (cm_sent d ++ [v]) (cm_coming d) 3 (cm_rx d)
    | SCV1_UART_CTRL => Cmsdk v (cm_sent d) (cm_coming d) (cm_tx d) (cm_rx d)
    | _ => d
    end;
}.

Record cmsdk_wf (d : cmsdk) : Prop := {
  cw_tx : (cm_tx d ≤ 3)%nat; cw_rx : (cm_rx d ≤ 2)%nat; cw_coming : bytes (cm_coming d)
}.

#[export] Program Instance CmsdkSpec : UartSpec cmsdk := {
  uart_wf := cmsdk_wf;
  uart_enabled d := cmsdk_wf d ∧ Z.land (cm_ctrl d) 1 ≠ 0;
  uart_sent := cm_sent; uart_coming := cm_coming; uart_patience := 3; uart_tx_wait := cm_tx; uart_rx_wait := cm_rx;
}.
Next Obligation. intros d [[] _]. lia. Qed.
Next Obligation.
  cbn [uart_read CmsdkBus]. intros d v d' [= <- <-]. cbn [cm_sent cm_coming cm_tx cm_rx].
  split; [done|]. split; [done|]. split; [intros [[] ?]; split; [split; cbn; done || lia|done]|].
  split; [done|]. split; [done|]. unfold SCV1_UART_STATE_TX_FULL, SCV1_UART_STATE_RX_FULL.
  destruct (Nat.ltb_spec 0 (cm_tx d)); destruct (bool_decide_reflect (cm_coming d ≠ [] ∧ cm_rx d = 0%nat));
    split; split; try done; intros; by (lia || vm_compute).
Qed.
Next Obligation.
  cbn [uart_read CmsdkBus]. intros d c rest [[Ht Hr Hb] Hc] Hi Hw. rewrite Hi in Hb |- *. apply bytes_cons in Hb as [Hu Hb].
  eexists c, _. split; [done|]. split; [|by split; [split; [split|]|]].
  rewrite land_255. unfold is_u8 in Hu. by rewrite Z.mod_small.
Qed.
Next Obligation.
  cbn [uart_write CmsdkBus]. intros d c [[Ht Hr Hb] Hc] Hw Hu. destruct (Z.eqb_spec (Z.land (cm_ctrl d) 1) 0); [done|].
  cbn [cm_sent cm_coming cm_ctrl]. split; [|done]. by split; [split; cbn; [lia|..]|].
Qed.
Next Obligation. cbn [uart_write CmsdkBus]. intros d [Ht Hr Hb]. by split; [split; [split|]|]. Qed.

(** Before [scv1_uart_init] the banner would go nowhere. *)
Example no_output_before_init :
  cm_sent <$> scv1_uart_puts 4 (Cmsdk 0 [] [] 0 0) (chars "Version") = Some [].
Proof. by vm_compute. Qed.

Lemma uart_driver_is_a_stream_witness :
  ∃ d1 d2, scv1_uart_puts 4 (u_dev (scv1_uart_init (Uart (Cmsdk 0 [] [0x30; 0x41] 0 2) false))) (chars "ATR") = Some d1 ∧
    uart_getc 4 d1 = Some (0x30, d2) ∧ line_is d1 (chars "ATR") [0x30; 0x41] ∧ line_is d2 (chars "ATR") [0x41].
Proof.
  apply (uart_driver_is_a_stream (Uart (Cmsdk 0 [] [0x30; 0x41] 0 2) false) [] [0x41] (chars "ATR") 0x30 4);
    [split; [cbn; lia|cbn; lia|solve_bytes]|reflexivity|reflexivity|solve_bytes|cbn; lia].
Defined.
