(* ===== verification/Platform.v ===== *)
(** * The SCV1 platform: timer and power-up (src/hal/arm-scv1/hal_arm_platform.c)

    SysTick down to its registers, again as a type class with the architecture's
    documented behaviour as laws, and [hal_init] with everything it sets up. *)

From S2P Require Import Prelude Hal ArmHal ArmIo Uart.
#[local] Open Scope Z_scope.

Definition SCV1_SYSTICK_ENABLE : Z := 0x1.
Definition SCV1_SYSTICK_TICKINT : Z := 0x2.
Definition SCV1_SYSTICK_CLKSOURCE : Z := 0x4.
Definition SCV1_SYSCLK_HZ : Z := 25000000.

Inductive systick_reg := SCV1_SYSTICK_CSR | SCV1_SYSTICK_RVR | SCV1_SYSTICK_CVR.

(** Reading CSR clears COUNTFLAG. *)
Class SysTickBus (D : Type) := {
  st_read : D → systick_reg → Z * D;
  st_write : D → systick_reg → Z → D;
}.

Section timer.
Context {D : Type} `{SysTickBus D}.

Definition systick_start (d : D) : D :=
  let d := st_write d SCV1_SYSTICK_RVR (u32 (SCV1_SYSCLK_HZ / 1000 - 1)) in
  let d := st_write d SCV1_SYSTICK_CVR 0 in
  st_write d SCV1_SYSTICK_CSR (Z.lor SCV1_SYSTICK_ENABLE SCV1_SYSTICK_CLKSOURCE).

(** [ms] is the static variable; the result is its new value. *)
Definition hal_timer_get_ms (d : D) (ms : Z) : Z * D :=
  let '(csr, d) := st_read d SCV1_SYSTICK_CSR in
  (if negb (Z.land csr (Z.shiftl 1 16) =? 0) then u32 (ms + 1) else ms, d).
End timer.

(** The whole of [hal_init]: the link first, then the timer, then the memory. *)
Definition scv1_hal_init {U T} `{UartBus U} `{SysTickBus T} (u : uart U) (t : T) (h : semihost) (v : scv1)
    : option (hal_status * uart U * T * scv1) :=
  let u := scv1_uart_init u in
  let t := systick_start t in
  v ← scv1_nvm_power_on h v;
  Some (HAL_OK, u, t, v).

(** ** The counter

    [st_cycles] counts processor cycles since the timer was started, [st_seen] is
    their number when COUNTFLAG was last read.  The flag is set each time the
    counter gets to zero, every [RVR + 1] cycles.  Time passes between two
    accesses, as [st_wait]. *)
Class SysTickSpec (D : Type) `{SysTickBus D} := {
  st_running : Z → D → Prop;
  st_cycles : D → Z;
  st_seen : D → Z;
  st_wait : Z → D → D;
  st_wait_spec n period d : 0 ≤ n → st_running period d →
    st_running period (st_wait n d) ∧ st_cycles (st_wait n d) = st_cycles d + n ∧ st_seen (st_wait n d) = st_seen d;
  st_read_csr period d : st_running period d →
    ∃ v d', st_read d SCV1_SYSTICK_CSR = (v, d') ∧ st_running period d' ∧
      st_cycles d' = st_cycles d ∧ st_seen d' = st_cycles d ∧
      (Z.testbit v 16 = true ↔ st_seen d / period < st_cycles d / period);
  st_start d reload : 0 < reload < 16777216 →
    let d' := st_write (st_write (st_write d SCV1_SYSTICK_RVR reload) SCV1_SYSTICK_CVR 0) SCV1_SYSTICK_CSR 5 in
    st_running (reload + 1) d' ∧ st_cycles d' = 0 ∧ st_seen d' = 0;
}.

Section elapsed.
Context {D : Type} `{SysTickSpec D}.

(** The timer read after each of these waits; its last value. *)
Fixpoint timer_polls (d : D) (ms : Z) (waits : list Z) : Z * D :=
  match waits with
  | [] => (ms, d)
  | n :: waits => let '(ms, d) := hal_timer_get_ms (st_wait n d) ms in timer_polls d ms waits
  end.

(** Cycles to a millisecond. *)
Definition per_ms : Z := SCV1_SYSCLK_HZ / 1000.

Lemma countflag_bit v : negb (Z.land v (Z.shiftl 1 16) =? 0) = Z.testbit v 16.
Proof.
  change (Z.shiftl 1 16) with (2 ^ 16). destruct (Z.testbit v 16) eqn:E.
  - apply negb_true_iff, Z.eqb_neq. intros Hz. assert (Z.testbit (Z.land v (2 ^ 16)) 16 = true) as Ht; [|by rewrite Hz in Ht].
    by rewrite Z.land_spec, E, Z.pow2_bits_true by done.
  - apply negb_false_iff, Z.eqb_eq. apply Z.bits_inj'. intros n Hn. rewrite Z.land_spec, Z.bits_0.
    destruct (decide (n = 16)) as [->|Hne]; [by rewrite E|]. by rewrite Z.pow2_bits_false by lia; rewrite andb_false_r.
Qed.

(** One reading: a millisecond, if one has ended since the last. *)
Lemma timer_step d ms :
  st_running per_ms d →
  ∃ d', hal_timer_get_ms d ms = (if decide (st_seen d / per_ms < st_cycles d / per_ms) then u32 (ms + 1) else ms, d') ∧
    st_running per_ms d' ∧ st_cycles d' = st_cycles d ∧ st_seen d' = st_cycles d.
Proof.
  intros Hr. destruct (st_read_csr per_ms d Hr) as (v & d' & Hv & Hr' & Hc & Hs & Hb). exists d'. split; [|done].
  unfold hal_timer_get_ms. rewrite Hv, countflag_bit.
  case_decide as Hd; destruct (Z.testbit v 16); try done; [by apply Hb in Hd|by destruct Hd; apply Hb].
Qed.

(** The readings take no time of their own. *)
Lemma timer_polls_cycles d ms waits :
  st_running per_ms d → Forall (λ n, 0 ≤ n) waits → st_cycles (timer_polls d ms waits).2 = st_cycles d + foldr Z.add 0 waits.
Proof.
  revert d ms. induction waits as [|n waits IH]; intros d ms Hr Hw; [cbn; lia|].
  apply Forall_cons in Hw as [Hn Hw]. cbn [timer_polls foldr].
  destruct (st_wait_spec n per_ms d Hn Hr) as (Hr1 & Hc1 & _).
  destruct (timer_step (st_wait n d) ms Hr1) as (d2 & -> & Hr2 & Hc2 & _). rewrite IH by done. lia.
Qed.

(** From a reading that was on time. *)
Lemma timer_polls_spec d ms waits :
  st_running per_ms d → st_seen d = st_cycles d → 0 ≤ st_cycles d → 0 ≤ ms ≤ st_cycles d / per_ms →
  Forall (λ n, 0 ≤ n) waits → st_cycles (timer_polls d ms waits).2 / per_ms < 4294967296 →
  ms ≤ (timer_polls d ms waits).1 ≤ st_cycles (timer_polls d ms waits).2 / per_ms ∧
  (Forall (λ n, n ≤ per_ms) waits → ms = st_cycles d / per_ms →
   (timer_polls d ms waits).1 = st_cycles (timer_polls d ms waits).2 / per_ms).
Proof.
  revert d ms. induction waits as [|n waits IH]; intros d ms Hr Hs Hge0 Hms Hw H32; [cbn in *; split; [lia|by intros]|].
  apply Forall_cons in Hw as [Hn Hw]. cbn [timer_polls foldr] in *.
  destruct (st_wait_spec n per_ms d Hn Hr) as (Hr1 & Hc1 & Hs1).
  destruct (timer_step (st_wait n d) ms Hr1) as (d2 & Ht & Hr2 & Hc2 & Hs2). rewrite Ht in *. clear Ht.
  rewrite Hs1, Hc1, Hs in *. set (c := st_cycles d) in *.
  assert (0 < per_ms) as Hper by done.
  assert (c / per_ms ≤ (c + n) / per_ms) as Hle by (apply Z.div_le_mono; lia).
  set (ms2 := if decide (c / per_ms < (c + n) / per_ms) then u32 (ms + 1) else ms) in *.
  assert (st_cycles (timer_polls d2 ms2 waits).2 = c + n + foldr Z.add 0 waits) as Hcy.
  { rewrite timer_polls_cycles by done. lia. }
  assert (0 ≤ foldr Z.add 0 waits) as Hsum by (clear -Hw; induction Hw; cbn; lia).
  assert ((c + n) / per_ms ≤ st_cycles (timer_polls d2 ms2 waits).2 / per_ms) as Hle2 by (apply Z.div_le_mono; lia).
  assert (ms2 = if decide (c / per_ms < (c + n) / per_ms) then ms + 1 else ms) as Hms2.
  { unfold ms2. case_decide; [|done]. apply u32_id. unfold is_u32. lia. }
  clearbody ms2.
  destruct (IH d2 ms2) as (Hb & He); try done; try (rewrite ?Hc2; lia).
  { rewrite Hc2, Hms2. case_decide; lia. }
  split; [assert (ms ≤ ms2) by (rewrite Hms2; case_decide; lia); lia|].
  intros Hall Heq. apply Forall_cons in Hall as [Hnp Hall]. apply He; [done|]. rewrite Hms2, Hc2.
  assert ((c + n) / per_ms ≤ c / per_ms + 1).
  { rewrite <- (Z.div_add c 1 per_ms) by lia. apply Z.div_le_mono; lia. }
  case_decide; lia.
Qed.
End elapsed.

(** The clock never runs ahead: [hal_init] succeeds on any chip, and from
    then on, however often the timer is asked, what it answers is at most the
    milliseconds that have passed, and exactly those when it is asked at least
    once a millisecond.  (The bound on the run is that the count fits its 32
    bits, some 49 days.) *)
Theorem timer_never_runs_ahead {U T} `{UartBus U} `{SysTickSpec T} (u : uart U) (t : T) h v waits :
  scv1_wf v → (∀ p f, sh_files h !! p = Some f → bytes f) →
  Forall (λ n, 0 ≤ n) waits → foldr Z.add 0 waits / 25000 < 4294967296 →
  ∃ u' t' v', scv1_hal_init u t h v = Some (HAL_OK, u', t', v') ∧
    0 ≤ (timer_polls t' 0 waits).1 ≤ foldr Z.add 0 waits / 25000 ∧
    (Forall (λ n, n ≤ 25000) waits → (timer_polls t' 0 waits).1 = foldr Z.add 0 waits / 25000).
Proof.
  intros Hv Hf Hw H32. unfold scv1_hal_init. destruct (power_on_any h v Hv Hf) as (v' & -> & _). bind_simpl.
  eexists _, _, _. split; [done|]. destruct (st_start t 24999) as (Hr & Hc & Hs); [lia|].
  change (24999 + 1) with per_ms in Hr. change (st_write _ SCV1_SYSTICK_CSR 5) with (systick_start t) in *.
  pose proof (timer_polls_cycles _ 0 waits Hr Hw) as Hcy. rewrite Hc, Z.add_0_l in Hcy. change 25000 with per_ms in *.
  pose proof (timer_polls_spec (systick_start t) 0 waits) as Hp. rewrite Hc, Hcy in Hp. change (0 / per_ms) with 0 in Hp.
  destruct Hp as [Hb He]; try done; try lia. split; [done|]. intros. by apply He.
Qed.

(** ** A SysTick *)

Record systick := SysTick { sk_reload : Z; sk_cycles : Z; sk_seen : Z; sk_on : bool }.

#[export] Instance SysTickModelBus : SysTickBus systick := {
  st_read d r :=
    match r with
    | SCV1_SYSTICK_CSR =>
        ((if decide (sk_seen d / (sk_reload d + 1) < sk_cycles d / (sk_reload d + 1)) then 65536 else 0) + 5,
         SysTick (sk_reload d) (sk_cycles d) (sk_cycles d) (sk_on d))
    | SCV1_SYSTICK_RVR => (sk_reload d, d)
    | SCV1_SYSTICK_CVR => ((- sk_cycles d) mod (sk_reload d + 1), d)
    end;
  st_write d r v :=
    match r with
    | SCV1_SYSTICK_CSR => SysTick (sk_reload d) (sk_cycles d) (sk_seen d) (Z.testbit v 0)
    | SCV1_SYSTICK_RVR => SysTick v (sk_cycles d) (sk_seen d) (sk_on d)
    | SCV1_SYSTICK_CVR => SysTick (sk_reload d) 0 0 (sk_on d)
    end;
}.

#[export] Program Instance SysTickModelSpec : SysTickSpec systick := {
  st_running period d := period = sk_reload d + 1 ∧ sk_on d = true;
  st_cycles := sk_cycles; st_seen := sk_seen;
  st_wait n d := SysTick (sk_reload d) (sk_cycles d + n) (sk_seen d) (sk_on d);
}.
Next Obligation. done. Qed.
Next Obligation.
  intros period d [-> Hon]. eexists _, _. split; [done|]. cbn [sk_reload sk_cycles sk_seen sk_on].
  split_and!; try done. by case_decide; split.
Qed.
Next Obligation. by intros d reload Hr. Qed.

Example timer_counts :
  (timer_polls (systick_start (SysTick 0 0 0 false)) 0 [10000; 10000; 10000; 25000; 60000]).1 = 3 ∧
  (timer_polls (systick_start (SysTick 0 0 0 false)) 0 (replicate 6 20000)).1 = 4.
Proof. done. Qed.

Lemma timer_never_runs_ahead_witness :
  ∃ u' t' v', scv1_hal_init (Uart (Cmsdk 0 [] [] 0 0) false) (SysTick 0 0 0 false) no_debugger (demo_chip [] false) =
      Some (HAL_OK, u', t', v') ∧
    0 ≤ (timer_polls t' 0 [10000; 20000; 24000]).1 ≤ 2 ∧
    (Forall (λ n, n ≤ 25000) [10000; 20000; 24000] → (timer_polls t' 0 [10000; 20000; 24000]).1 = 2).
Proof.
  apply (timer_never_runs_ahead (Uart (Cmsdk 0 [] [] 0 0) false) (SysTick 0 0 0 false) no_debugger (demo_chip [] false)
    [10000; 20000; 24000]);
    [apply demo_chip_wf; [apply Forall_nil; exact Logic.I|done]|by intros p f Hf|by repeat constructor|done].
Defined.
