(* ===== verification/Fault.v ===== *)
(** * Exceptions of the SCV1 core (the handlers of src/hal/arm-scv1/startup.c)

    The vector table and the handlers behind it.  A handler gets the frame the
    core has stacked and either returns, to what the frame then says, or sends a
    message and stops for good. *)

From stdpp Require Import strings.
From S2P Require Import Prelude ArmIo.
#[local] Open Scope Z_scope.

(** The static variables of semihost.c. *)
Record sh_flags := ShFlags { s_available : bool; s_probed : bool; s_probe_in_flight : Z }.

Definition semihost_probe_in_flight (f : sh_flags) : Z := s_probe_in_flight f.
Definition semihost_probe_faulted (f : sh_flags) : sh_flags := ShFlags false (s_probed f) 0.

Inductive fault_outcome := Resumed (f : sh_flags) (frame : list Z) | Halted (message : list Z).

(** The text goes to the UART; [wfi] forever is the end. *)
Definition fault_halt (what : string) : fault_outcome := Halted ([LF] ++ chars what ++ [LF]).

Definition FRAME_PC_INDEX : Z := 6.

Definition scv1_fault_c (f : sh_flags) (frame : list Z) : option fault_outcome :=
  if negb (semihost_probe_in_flight f =? 0) then
    let f := semihost_probe_faulted f in
    pc ← rd frame FRAME_PC_INDEX;
    frame ← wr frame FRAME_PC_INDEX (u32 (pc + 2));
    Some (Resumed f frame)
  else Some (fault_halt "!! SCV1 FAULT: HardFault").

Inductive handler :=
| scv1_reset_vector | handler_nmi | handler_hardfault | handler_memmanage | handler_busfault | handler_usagefault
| handler_default | handler_debugmon.

(** What a handler does with the frame on the main stack; the reset handler is
    in Startup.v and has no frame. *)
Definition run_handler (h : handler) (f : sh_flags) (frame : list Z) : option fault_outcome :=
  match h with
  | scv1_reset_vector => None
  | handler_nmi => Some (fault_halt "!! SCV1 FAULT: NMI")
  | handler_hardfault => scv1_fault_c f frame
  | handler_memmanage => Some (fault_halt "!! SCV1 FAULT: MemManage")
  | handler_busfault => Some (fault_halt "!! SCV1 FAULT: BusFault")
  | handler_usagefault => Some (fault_halt "!! SCV1 FAULT: UsageFault")
  | handler_default => Some (fault_halt "!! SCV1 FAULT: unexpected interrupt")
  | handler_debugmon => scv1_fault_c f frame
  end.

Inductive scv1_vector := VHandler (h : handler) | VValue (v : Z).

Definition scv1_vectors (estack : Z) : list scv1_vector :=
  [VValue estack; VHandler scv1_reset_vector; VHandler handler_nmi; VHandler handler_hardfault;
   VHandler handler_memmanage; VHandler handler_busfault; VHandler handler_usagefault;
   VValue 0; VValue 0; VValue 0; VValue 0;
   VHandler handler_default; VHandler handler_debugmon; VValue 0; VHandler handler_default; VHandler handler_default].

(** The core takes exception number [n]; [None]: the vector is no handler, and
    the core locks up. *)
Definition take_exception (estack : Z) (n : nat) (f : sh_flags) (frame : list Z) : option fault_outcome :=
  match scv1_vectors estack !! n with
  | Some (VHandler h) => run_handler h f frame
  | _ => None
  end.

(** The exceptions ARMv7-M defines: NMI, the four faults, SVCall, DebugMonitor,
    PendSV and SysTick. *)
Definition system_exception (n : nat) : Prop := n ∈ [2; 3; 4; 5; 6; 11; 12; 14; 15]%nat.

(** [C39] No fault is forgiven but the one the semihosting probe provokes: every
    exception of the architecture has a handler; HardFault and DebugMonitor
    return only while a probe is in flight, then exactly once, two bytes further
    on, with the host marked absent; in every other case the core stops with a
    message. *)
Theorem only_probe_fault_resumes estack n f frame :
  system_exception n → len frame = 8 →
  (∃ f' frame', take_exception estack n f frame = Some (Resumed f' frame') ∧
     (n = 3%nat ∨ n = 12%nat) ∧ s_probe_in_flight f ≠ 0 ∧ f' = ShFlags false (s_probed f) 0 ∧
     (∃ pc, frame !! 6%nat = Some pc ∧ frame' = <[6%nat := u32 (pc + 2)]> frame) ∧
     ∀ m frame2, system_exception m → ∃ text, take_exception estack m f' frame2 = Some (Halted text)) ∨
  (∃ text, take_exception estack n f frame = Some (Halted text) ∧ (n = 3%nat ∨ n = 12%nat → s_probe_in_flight f = 0)).
Proof.
  intros Hn Hl.
  assert (∀ m g fr, system_exception m → (m = 3%nat ∨ m = 12%nat → s_probe_in_flight g = 0) →
    ∃ text, take_exception estack m g fr = Some (Halted text)) as Hstop.
  { intros m g fr Hm Hg. unfold system_exception in Hm. set_unfold in Hm.
    destruct_or! Hm; subst m; try (by eexists); unfold take_exception; cbn [scv1_vectors lookup list_lookup run_handler];
      unfold scv1_fault_c, semihost_probe_in_flight; rewrite Hg by auto; by eexists. }
  destruct (decide ((n = 3%nat ∨ n = 12%nat) ∧ s_probe_in_flight f ≠ 0)) as [[H3 Hp]|Hno].
  - left. destruct (lookup_lt_is_Some_2 frame 6) as [pc Hpc]; [unfold len in Hl; lia|].
    exists (ShFlags false (s_probed f) 0), (<[6%nat := u32 (pc + 2)]> frame).
    assert (scv1_fault_c f frame = Some (Resumed (ShFlags false (s_probed f) 0) (<[6%nat := u32 (pc + 2)]> frame))) as Hf.
    { unfold scv1_fault_c, semihost_probe_in_flight, FRAME_PC_INDEX. apply Z.eqb_neq in Hp. rewrite Hp. cbn [negb].
      change (rd frame 6) with (frame !! 6%nat). rewrite Hpc. bind_simpl. by rewrite wr_some by lia. }
    split; [by destruct H3 as [-> | ->]|]. split; [done|]. split; [done|]. split; [done|]. split; [by exists pc|].
    intros m frame2 Hm. by apply Hstop.
  - right. destruct (Hstop n f frame Hn) as [text Ht]; [intros H3; destruct (decide (s_probe_in_flight f = 0)); tauto|].
    exists text. split; [done|]. intros H3. destruct (decide (s_probe_in_flight f = 0)); tauto.
Qed.

Lemma only_probe_fault_resumes_witness :
  (∃ f' frame', take_exception 0x20004000 3 (ShFlags true true 1) [1; 0; 0; 0; 0; 0; 0x2100; 0] = Some (Resumed f' frame') ∧
     (3%nat = 3%nat ∨ 3%nat = 12%nat) ∧ s_probe_in_flight (ShFlags true true 1) ≠ 0 ∧ f' = ShFlags false true 0 ∧
     (∃ pc, [1; 0; 0; 0; 0; 0; 0x2100; 0] !! 6%nat = Some pc ∧ frame' = <[6%nat := u32 (pc + 2)]> [1; 0; 0; 0; 0; 0; 0x2100; 0]) ∧
     ∀ m frame2, system_exception m → ∃ text, take_exception 0x20004000 m f' frame2 = Some (Halted text)) ∨
  (∃ text, take_exception 0x20004000 3 (ShFlags true true 1) [1; 0; 0; 0; 0; 0; 0x2100; 0] = Some (Halted text) ∧
     (3%nat = 3%nat ∨ 3%nat = 12%nat → s_probe_in_flight (ShFlags true true 1) = 0)).
Proof.
  apply (only_probe_fault_resumes 0x20004000 3 (ShFlags true true 1) [1; 0; 0; 0; 0; 0; 0x2100; 0]);
    [apply (bool_decide_unpack _); vm_compute; exact Logic.I|reflexivity].
Defined.
