(* ===== verification/Semihost.v ===== *)
(** * Semihosting down to the trap (src/hal/arm-scv1/semihost.c)

    A call is a breakpoint instruction.  A debugger, if there is one, services
    it; if there is none, it raises a fault, and Fault.v says what comes of that.
    The debugger is a type class with the documented behaviour of the operations
    as laws; on one that keeps them, the functions of this file do what ArmHal.v
    and BootMain.v take them to do. *)

From stdpp Require Import strings.
From S2P Require Import Prelude Hal ArmHal ArmIo Fault.
#[local] Open Scope Z_scope.

Definition SYS_OPEN : Z := 0x01.
Definition SYS_CLOSE : Z := 0x02.
Definition SYS_WRITE : Z := 0x05.
Definition SYS_READ : Z := 0x06.
Definition SYS_EXIT : Z := 0x18.
Definition MODE_RB : Z := 0.
Definition MODE_WB : Z := 4.

(** An operation with its parameter block; pointers are what they point to. *)
Inductive sh_op :=
| SysOpen (path : string) (mode n : Z)
| SysClose (fd : Z)
| SysWrite (fd : Z) (src : list Z) (n : Z)
| SysRead (fd : Z) (dst : list Z) (n : Z)
| SysExit (reason : Z).

Definition op_number (op : sh_op) : Z :=
  match op with
  | SysOpen _ _ _ => SYS_OPEN | SysClose _ => SYS_CLOSE | SysWrite _ _ _ => SYS_WRITE | SysRead _ _ _ => SYS_READ
  | SysExit _ => SYS_EXIT
  end.

(** The memory an operation may write. *)
Definition op_buffer (op : sh_op) : list Z := match op with SysRead _ dst _ => dst | _ => [] end.

(** r0 and the buffer afterwards; [None]: nobody services the breakpoint. *)
Class Debugger (D : Type) := { dbg_trap : D → sh_op → option (Z * list Z * D) }.

Inductive outcome (A : Type) := Returns (a : A) | Halts (message : list Z).
Arguments Returns {A} a.
Arguments Halts {A} message.

Definition outcome_bind {A B} (m : option (outcome A)) (f : A → option (outcome B)) : option (outcome B) :=
  r ← m; match r with Returns a => f a | Halts t => Some (Halts t) end.
Notation "x ⇐ m ; f" := (outcome_bind m (λ x, f)) (at level 20, m at level 100, f at level 200, right associativity, only parsing).
Notation "' x ⇐ m ; f" := (outcome_bind m (λ x, f)) (at level 20, x pattern, m at level 100, f at level 200, right associativity, only parsing).

Section semihost.
Context {D : Type} `{Debugger D}.

(** The debugger and the static variables. *)
Record machine := Machine { m_host : D; m_flags : sh_flags }.

(** [pc] is the address of the breakpoint.  After a fault that is forgiven the
    core goes on behind it, with the operation's number still in r0. *)
Definition sh_call (pc : Z) (m : machine) (op : sh_op) : option (outcome (Z * list Z * machine)) :=
  match dbg_trap (m_host m) op with
  | Some (r0, b, d) => Some (Returns (r0, b, Machine d (m_flags m)))
  | None =>
      r ← scv1_fault_c (m_flags m) [op_number op; 0; 0; 0; 0; 0; pc; 0];
      match r with
      | Resumed f frame => r0 ← rd frame 0; Some (Returns (r0, op_buffer op, Machine (m_host m) f))
      | Halted t => Some (Halts t)
      end
  end.

Definition sh_open (pc : Z) (m : machine) (path : string) (mode : Z) : option (outcome (Z * machine)) :=
  '(fd, _, m) ⇐ sh_call pc m (SysOpen path mode (Z.of_nat (String.length path)));
  Some (Returns (fd, m)).

Definition sh_close (pc : Z) (m : machine) (fd : Z) : option (outcome (Z * machine)) :=
  '(r, _, m) ⇐ sh_call pc m (SysClose (u32 fd));
  Some (Returns (r, m)).

Definition set_flags (m : machine) (f : sh_flags) : machine := Machine (m_host m) f.

Definition semihost_probe (pc : Z) (m : machine) : option (outcome machine) :=
  if s_probed (m_flags m) then Some (Returns m) else
  '(fd, m) ⇐ sh_open pc (set_flags m (ShFlags true true 1)) ":tt" MODE_RB;
  let f := m_flags m in
  if s_probe_in_flight f =? 0 then Some (Returns (set_flags m (ShFlags false (s_probed f) (s_probe_in_flight f)))) else
  let m := set_flags m (ShFlags (s_available f) (s_probed f) 0) in
  if 0 <? fd then
    '(_, m) ⇐ sh_close pc m fd;
    Some (Returns (set_flags m (ShFlags true (s_probed (m_flags m)) (s_probe_in_flight (m_flags m)))))
  else Some (Returns (set_flags m (ShFlags (fd =? 0) (s_probed f) 0))).

Definition semihost_available (m : machine) : bool := s_available (m_flags m).

Definition sh_load (pc : Z) (m : machine) (path : string) (dst : list Z) (n : Z) : option (outcome (Z * list Z * machine)) :=
  if negb (s_available (m_flags m)) then Some (Returns (-1, dst, m)) else
  '(fd, m) ⇐ sh_open pc m path MODE_RB;
  if fd <=? 0 then Some (Returns (-1, dst, m)) else
  '(not_read, dst, m) ⇐ sh_call pc m (SysRead (u32 fd) dst n);
  '(_, m) ⇐ sh_close pc m fd;
  if not_read <? 0 then Some (Returns (-1, dst, m)) else
  if n <? u32 not_read then Some (Returns (-1, dst, m)) else
  Some (Returns (u32 (n - u32 not_read), dst, m)).

Definition sh_store (pc : Z) (m : machine) (path : string) (src : list Z) (n : Z) : option (outcome (Z * machine)) :=
  if negb (s_available (m_flags m)) then Some (Returns (-1, m)) else
  '(fd, m) ⇐ sh_open pc m path MODE_WB;
  if fd <=? 0 then Some (Returns (-1, m)) else
  '(not_written, _, m) ⇐ sh_call pc m (SysWrite (u32 fd) src n);
  '(_, m) ⇐ sh_close pc m fd;
  Some (Returns ((if not_written =? 0 then 0 else -1), m)).

Definition semihost_exit (pc : Z) (m : machine) (code : Z) : option (outcome machine) :=
  if negb (s_available (m_flags m)) then Some (Returns m) else
  '(_, _, m) ⇐ sh_call pc m (SysExit 0x20026);
  Some (Returns m).
End semihost.
#[global] Arguments machine D : clear implicits.

(** ** The debugger's side

    Files by path; a handle freshly opened is at the start of its file; a handle
    is a positive number of 32 bits, and what is no handle is not positive. *)
Class DebuggerSpec (D : Type) `{Debugger D} := {
  dbg_attached : D → bool;
  dbg_files : D → gmap string (list Z);
  dbg_writable : D → string → bool;
  dbg_handle : D → Z → option string;
  dbg_absent d op : dbg_attached d = false → dbg_trap d op = None;
  dbg_console d n :
    dbg_attached d = true →
    ∃ fd d', dbg_trap d (SysOpen ":tt" MODE_RB n) = Some (fd, [], d') ∧ 0 ≤ fd ∧
      dbg_attached d' = true ∧ dbg_files d' = dbg_files d ∧ dbg_writable d' = dbg_writable d;
  dbg_open_rb d path n :
    dbg_attached d = true → path ≠ ":tt"%string →
    ∃ fd d', dbg_trap d (SysOpen path MODE_RB n) = Some (fd, [], d') ∧
      dbg_attached d' = true ∧ dbg_files d' = dbg_files d ∧ dbg_writable d' = dbg_writable d ∧
      match dbg_files d !! path with Some _ => 0 < fd < 2147483648 ∧ dbg_handle d' fd = Some path | None => fd ≤ 0 end;
  dbg_open_wb d path n :
    dbg_attached d = true → path ≠ ":tt"%string →
    ∃ fd d', dbg_trap d (SysOpen path MODE_WB n) = Some (fd, [], d') ∧
      dbg_attached d' = true ∧ dbg_writable d' = dbg_writable d ∧
      if dbg_writable d path then
        0 < fd < 2147483648 ∧ dbg_handle d' fd = Some path ∧ dbg_files d' = <[path := []]> (dbg_files d)
      else fd ≤ 0 ∧ dbg_files d' = dbg_files d;
  dbg_read d fd path f dst n :
    dbg_attached d = true → dbg_handle d fd = Some path → dbg_files d !! path = Some f → 0 ≤ n ≤ len dst →
    ∃ d', dbg_trap d (SysRead fd dst n) = Some (n - Z.min (len f) n, splice dst 0 (slice 0 (Z.min (len f) n) f), d') ∧
      dbg_attached d' = true ∧ dbg_files d' = dbg_files d ∧ dbg_writable d' = dbg_writable d;
  dbg_write d fd path src n :
    dbg_attached d = true → dbg_handle d fd = Some path → dbg_files d !! path = Some [] → 0 ≤ n ≤ len src →
    ∃ d', dbg_trap d (SysWrite fd src n) = Some (0, [], d') ∧
      dbg_attached d' = true ∧ dbg_files d' = <[path := slice 0 n src]> (dbg_files d) ∧ dbg_writable d' = dbg_writable d;
  dbg_close d fd :
    dbg_attached d = true →
    ∃ r d', dbg_trap d (SysClose fd) = Some (r, [], d') ∧
      dbg_attached d' = true ∧ dbg_files d' = dbg_files d ∧ dbg_writable d' = dbg_writable d;
}.

Section refinement.
Context {D : Type} `{DebuggerSpec D}.
Implicit Types (m : machine D).

(** What the rest of the firmware sees of it. *)
Definition host_of (m : machine D) : semihost :=
  Semihost (s_available (m_flags m)) (dbg_files (m_host m)) (dbg_writable (m_host m)).

(** After the probe the flag tells whether there is a debugger. *)
Definition probed (m : machine D) : Prop :=
  m_flags m = ShFlags (dbg_attached (m_host m)) true 0.

Lemma outcome_returns {A B} (a : A) (f : A → option (outcome B)) : outcome_bind (Some (Returns a)) f = f a.
Proof. done. Qed.

Lemma call_serviced pc m op r0 b d :
  dbg_trap (m_host m) op = Some (r0, b, d) → sh_call pc m op = Some (Returns (r0, b, Machine d (m_flags m))).
Proof. intros E. unfold sh_call. by rewrite E. Qed.

Lemma probe_decides pc (d : D) :
  ∃ m, semihost_probe pc (Machine d (ShFlags false false 0)) = Some (Returns m) ∧ probed m ∧
    dbg_attached (m_host m) = dbg_attached d ∧ dbg_files (m_host m) = dbg_files d ∧ dbg_writable (m_host m) = dbg_writable d.
Proof.
  unfold semihost_probe, sh_open, set_flags. cbn [m_flags m_host s_probed]. destruct (dbg_attached d) eqn:Ha.
  - destruct (dbg_console d (Z.of_nat (String.length ":tt")) Ha) as (fd & d1 & Ht & Hfd & Ha1 & Hf1 & Hw1).
    rewrite (call_serviced pc (Machine d (ShFlags true true 1)) _ _ _ _ Ht), !outcome_returns.
    cbn [m_flags s_probe_in_flight Z.eqb m_host s_probed s_available].
    destruct (Z.ltb_spec 0 fd).
    + destruct (dbg_close d1 (u32 fd) Ha1) as (r & d2 & Hc & Ha2 & Hf2 & Hw2). unfold sh_close.
      rewrite (call_serviced pc (Machine d1 (ShFlags true true 0)) _ _ _ _ Hc), !outcome_returns.
      eexists. split; [done|]. unfold probed. cbn. rewrite Ha2. split; [done|]. split; [done|]. split; congruence.
    + eexists. split; [done|]. unfold probed. cbn. rewrite Ha1. replace (fd =? 0) with true by lia. done.
  - unfold sh_call. cbn [m_host m_flags]. rewrite dbg_absent by done.
    assert (∀ op, scv1_fault_c (ShFlags true true 1) [op_number op; 0; 0; 0; 0; 0; pc; 0] =
      Some (Resumed (ShFlags false true 0) [op_number op; 0; 0; 0; 0; 0; u32 (pc + 2); 0])) as Hf by done.
    rewrite Hf. bind_simpl. change (rd (?x :: _) 0) with (Some x). bind_simpl.
    rewrite !outcome_returns. cbn. eexists. split; [done|]. unfold probed. cbn. by rewrite Ha.
Qed.

(** Loading and storing are what they are on the files. *)
Lemma sh_load_refines pc m path dst n :
  probed m → path ≠ ":tt"%string → 0 ≤ n ≤ len dst → n < 2147483648 →
  ∃ r dst' m', sh_load pc m path dst n = Some (Returns (r, dst', m')) ∧ probed m' ∧ host_of m' = host_of m ∧
    ArmHal.semihost_load (host_of m) path dst n = Some (r, dst').
Proof.
  intros Hp Hpath Hn H32. unfold sh_load, ArmHal.semihost_load, host_of. cbn [sh_available sh_files]. pose proof Hp as Hpf. unfold probed in Hpf.
  rewrite Hpf. cbn [s_available]. destruct (dbg_attached (m_host m)) eqn:Ha; cbn [negb]; [|by exists (-1), dst, m; rewrite Hpf].
  destruct (dbg_open_rb (m_host m) path (Z.of_nat (String.length path)) Ha Hpath) as (fd & d1 & Ho & Ha1 & Hf1 & Hw1 & Hfile).
  unfold sh_open. rewrite (call_serviced pc m _ _ _ _ Ho), !outcome_returns.
  assert (∀ d, dbg_attached d = true → probed (Machine d (m_flags m))) as Hprobed by (intros d Hd; unfold probed; cbn; by rewrite Hd).
  destruct (dbg_files (m_host m) !! path) as [f|] eqn:Ef.
  - destruct Hfile as [Hfd Hh]. replace (fd <=? 0) with false by lia. rewrite !(u32_id fd) by (unfold is_u32; lia).
    destruct (dbg_read d1 fd path f dst n Ha1 Hh) as (d2 & Hr & Ha2 & Hf2 & Hw2); [by rewrite Hf1|done|].
    rewrite (call_serviced pc (Machine d1 (m_flags m)) _ _ _ _ Hr), outcome_returns. unfold sh_close. cbn [m_flags].
    rewrite (u32_id fd) by (unfold is_u32; lia).
    destruct (dbg_close d2 fd Ha2) as (r & d3 & Hc & Ha3 & Hf3 & Hw3).
    rewrite (call_serviced pc (Machine d2 (m_flags m)) _ _ _ _ Hc), !outcome_returns. pose proof (len_nonneg f).
    replace (n - Z.min (len f) n <? 0) with false by lia. rewrite !(u32_id (n - Z.min (len f) n)) by (unfold is_u32; lia).
    replace (n <? n - Z.min (len f) n) with false by lia.
    rewrite u32_id by (unfold is_u32; lia). replace (n - (n - Z.min (len f) n)) with (Z.min (len f) n) by lia.
    eexists _, _, _. split; [done|]. split; [by apply Hprobed|]. cbn [m_host m_flags]. rewrite Hpf. split; [cbn; congruence|].
    rewrite wr_n_some by (rewrite ?len_slice; lia). done.
  - replace (fd <=? 0) with true by lia. eexists _, _, _. split; [done|]. split; [by apply Hprobed|].
    cbn [m_host m_flags]. rewrite Hpf. split; [cbn; congruence|done].
Qed.

Lemma sh_store_refines pc m path src n :
  probed m → path ≠ ":tt"%string → 0 ≤ n ≤ len src → n < 2147483648 →
  ∃ r m', sh_store pc m path src n = Some (Returns (r, m')) ∧ probed m' ∧
    ArmHal.semihost_store (host_of m) path src n = Some (r, host_of m').
Proof.
  intros Hp Hpath Hn H32. unfold sh_store, ArmHal.semihost_store, host_of. cbn [sh_available sh_files sh_writable]. pose proof Hp as Hpf. unfold probed in Hpf.
  rewrite Hpf. cbn [s_available]. destruct (dbg_attached (m_host m)) eqn:Ha; cbn [negb]; [|by exists (-1), m; rewrite Hpf].
  destruct (dbg_open_wb (m_host m) path (Z.of_nat (String.length path)) Ha Hpath) as (fd & d1 & Ho & Ha1 & Hw1 & Hfile).
  unfold sh_open. rewrite (call_serviced pc m _ _ _ _ Ho), !outcome_returns.
  assert (∀ d, dbg_attached d = true → probed (Machine d (m_flags m))) as Hprobed by (intros d Hd; unfold probed; cbn; by rewrite Hd).
  destruct (dbg_writable (m_host m) path) eqn:Ew; cbn [negb].
  - destruct Hfile as (Hfd & Hh & Hf1). replace (fd <=? 0) with false by lia. rewrite !(u32_id fd) by (unfold is_u32; lia).
    destruct (dbg_write d1 fd path src n Ha1 Hh) as (d2 & Hr & Ha2 & Hf2 & Hw2); [by rewrite Hf1, lookup_insert_eq|done|].
    rewrite (call_serviced pc (Machine d1 (m_flags m)) _ _ _ _ Hr), outcome_returns. unfold sh_close. cbn [m_flags].
    rewrite (u32_id fd) by (unfold is_u32; lia).
    destruct (dbg_close d2 fd Ha2) as (r & d3 & Hc & Ha3 & Hf3 & Hw3).
    rewrite (call_serviced pc (Machine d2 (m_flags m)) _ _ _ _ Hc), !outcome_returns.
    eexists _, _. split; [done|]. split; [by apply Hprobed|]. cbn [m_host m_flags Z.eqb]. rewrite Hpf.
    rewrite rd_n_some by lia. bind_simpl. cbn [s_available]. rewrite Hf3, Hf2, Hf1, insert_insert_eq, Hw3, Hw2, Hw1. done.
  - destruct Hfile as [Hfd Hf1]. replace (fd <=? 0) with true by lia. eexists _, _. split; [done|]. split; [by apply Hprobed|].
    cbn [m_host m_flags]. rewrite Hpf. cbn [s_available]. by rewrite Hf1, Hw1.
Qed.
End refinement.

(** ** Properties *)

(** [C38] Starting on a chip with or without a debugger is safe, and the traps
    come to what the rest of the model takes them to: from static storage the
    probe returns, without a debugger through the forgiven fault, and the flag
    then tells whether there is one; from there on loading and storing a file
    never halt the core, and return exactly what [semihost_load] and
    [semihost_store] of ArmHal.v return on the debugger's files. *)
Theorem semihosting_refines_files {D} `{DebuggerSpec D} pc (d : D) :
  ∃ m, semihost_probe pc (Machine d (ShFlags false false 0)) = Some (Returns m) ∧ probed m ∧
    host_of m = Semihost (dbg_attached d) (dbg_files d) (dbg_writable d) ∧
    ∀ (m : machine D) path b n, probed m → path ≠ ":tt"%string → 0 ≤ n ≤ len b → n < 2147483648 →
      (∃ r dst' m', sh_load pc m path b n = Some (Returns (r, dst', m')) ∧ probed m' ∧ host_of m' = host_of m ∧
         ArmHal.semihost_load (host_of m) path b n = Some (r, dst')) ∧
      (∃ r m', sh_store pc m path b n = Some (Returns (r, m')) ∧ probed m' ∧
         ArmHal.semihost_store (host_of m) path b n = Some (r, host_of m')).
Proof.
  destruct (probe_decides pc d) as (m & Hm & Hp & Ha & Hf & Hw). exists m. split; [done|]. split; [done|].
  split; [unfold host_of; rewrite Hp, Ha, Hf, Hw; done|].
  intros m' path b n Hp' Hpath Hn H32. split; [by apply sh_load_refines|by apply sh_store_refines].
Qed.

(** ** A debugger *)

(** Handles are counted upwards; each is at some place in its file. *)
Record file_host := FileHost {
  fh_attached : bool; fh_files : gmap string (list Z); fh_writable : string → bool; fh_handles : gmap Z (string * Z); fh_next : Z
}.

Definition fh_fresh (d : file_host) : Z := Z.abs (fh_next d) mod 2147483646 + 1.

Definition fh_open (d : file_host) (path : string) (files : gmap string (list Z)) : Z * list Z * file_host :=
  (fh_fresh d, [], FileHost (fh_attached d) files (fh_writable d) (<[fh_fresh d := (path, 0)]> (fh_handles d)) (fh_fresh d)).

Definition fh_service (d : file_host) (op : sh_op) : Z * list Z * file_host :=
  match op with
  | SysOpen path mode _ =>
      if bool_decide (path = ":tt"%string) then (1, [], d)
      else if mode =? MODE_RB then
        match fh_files d !! path with Some _ => fh_open d path (fh_files d) | None => (-1, [], d) end
      else if fh_writable d path then fh_open d path (<[path := []]> (fh_files d))
      else (-1, [], d)
  | SysClose fd => (0, [], FileHost (fh_attached d) (fh_files d) (fh_writable d) (delete fd (fh_handles d)) (fh_next d))
  | SysRead fd dst n =>
      match fh_handles d !! fd with
      | Some (path, at_) =>
          let f := default [] (fh_files d !! path) in
          let got := Z.min (len f - at_) n in
          (n - got, splice dst 0 (slice at_ got f),
           FileHost (fh_attached d) (fh_files d) (fh_writable d) (<[fd := (path, at_ + got)]> (fh_handles d)) (fh_next d))
      | None => (n, dst, d)
      end
  | SysWrite fd src n =>
      match fh_handles d !! fd with
      | Some (path, at_) =>
          let f := default [] (fh_files d !! path) in
          (0, [], FileHost (fh_attached d) (<[path := take (Z.to_nat at_) f ++ slice 0 n src]> (fh_files d)) (fh_writable d)
                    (<[fd := (path, at_ + n)]> (fh_handles d)) (fh_next d))
      | None => (n, [], d)
      end
  | SysExit _ => (0, [], d)
  end.

#[export] Instance FileHostDebugger : Debugger file_host := {
  dbg_trap d op := if fh_attached d then Some (fh_service d op) else None;
}.

Lemma fh_fresh_range d : 0 < fh_fresh d < 2147483648.
Proof. unfold fh_fresh. lia. Qed.

Definition fh_handle (d : file_host) (fd : Z) : option string :=
  match fh_handles d !! fd with Some (path, 0) => Some path | _ => None end.

#[export] Program Instance FileHostSpec : DebuggerSpec file_host := {
  dbg_attached := fh_attached; dbg_files := fh_files; dbg_writable := fh_writable;
  dbg_handle := fh_handle;
}.
Next Obligation. by intros d op; cbn; intros ->. Qed.
Next Obligation. cbn [dbg_trap FileHostDebugger]. intros d n Ha. rewrite Ha. by eexists 1, d. Qed.
Next Obligation.
  cbn [dbg_trap FileHostDebugger]. intros d path n Ha Hp. rewrite Ha. cbn [fh_service]. rewrite bool_decide_false by done.
  change (MODE_RB =? MODE_RB) with true. cbv iota. destruct (fh_files d !! path) as [f|].
  - eexists _, _. split; [done|]. split; [done|]. split; [done|]. split; [done|]. split; [apply fh_fresh_range|].
    unfold fh_handle. cbn. by rewrite lookup_insert_eq.
  - by eexists _, d.
Qed.
Next Obligation.
  cbn [dbg_trap FileHostDebugger]. intros d path n Ha Hp. rewrite Ha. cbn [fh_service]. rewrite bool_decide_false by done.
  change (MODE_WB =? MODE_RB) with false. cbv iota. destruct (fh_writable d path).
  - eexists _, _. split; [done|]. split; [done|]. split; [done|]. split; [apply fh_fresh_range|].
    split; [unfold fh_handle; cbn; by rewrite lookup_insert_eq|done].
  - by eexists _, d.
Qed.
Next Obligation.
  cbn [dbg_trap FileHostDebugger]. intros d fd path f dst n Ha Hh Hf Hn. rewrite Ha. cbn [fh_service].
  unfold fh_handle in Hh. destruct (fh_handles d !! fd) as [[q [| |]]|]; try done. injection Hh as ->. rewrite Hf, Z.sub_0_r. by eexists.
Qed.
Next Obligation.
  cbn [dbg_trap FileHostDebugger]. intros d fd path src n Ha Hh Hf Hn. rewrite Ha. cbn [fh_service].
  unfold fh_handle in Hh. destruct (fh_handles d !! fd) as [[q [| |]]|]; try done. injection Hh as ->. rewrite Hf. by eexists.
Qed.
Next Obligation. cbn [dbg_trap FileHostDebugger]. intros d fd Ha. rewrite Ha. by eexists _, _. Qed.

(** A file stored through the traps is loaded through them, piece by piece. *)
Definition store_and_load (m : machine file_host) : option (outcome (Z * list Z * machine file_host)) :=
  outcome_bind (semihost_probe 0x2100 m) (λ m : machine file_host,
  outcome_bind (sh_store 0x2100 m EEPROM_FILE [1; 2; 3] 3) (λ r : Z * machine file_host,
  sh_load 0x2100 r.2 EEPROM_FILE [9; 9; 9; 9] 4)).

Example store_then_load :
  store_and_load (Machine (FileHost true ∅ (λ _, true) ∅ 0) (ShFlags false false 0)) =
    Some (Returns (3, [1; 2; 3; 9], Machine (FileHost true {[EEPROM_FILE := [1; 2; 3]]} (λ _, true) ∅ 2) (ShFlags true true 0))).
Proof. reflexivity. Qed.

Example nobody_there :
  store_and_load (Machine (FileHost false ∅ (λ _, true) ∅ 0) (ShFlags false false 0)) =
    Some (Returns (-1, [9; 9; 9; 9], Machine (FileHost false ∅ (λ _, true) ∅ 0) (ShFlags false true 0))).
Proof. reflexivity. Qed.

Lemma semihosting_refines_files_witness :
  let d := FileHost true {[EEPROM_FILE := [1; 2; 3]]} (λ _, true) ∅ 0 in
  ∃ m r dst' m', semihost_probe 0x2100 (Machine d (ShFlags false false 0)) = Some (Returns m) ∧
    sh_load 0x2100 m EEPROM_FILE [9; 9; 9; 9] 4 = Some (Returns (r, dst', m')) ∧ probed m' ∧
    ArmHal.semihost_load (host_of m) EEPROM_FILE [9; 9; 9; 9] 4 = Some (r, dst').
Proof.
  intros d. destruct (semihosting_refines_files 0x2100 d) as (m & Hm & Hp & _ & H).
  destruct (H m EEPROM_FILE [9; 9; 9; 9] 4 Hp) as [(r & dst' & m' & Hl & Hp' & _ & Ha) _]; [discriminate|by vm_compute|lia|].
  by exists m, r, dst', m'.
Defined.
