(* ===== verification/SimLink.v ===== *)
(** * The simulator's card link (simulator/transport.c)

    The same line protocol as the chip's (ArmIo.v), written over the C library:
    lines of at most 2047 characters read into a buffer, trimmed and decoded in
    place.  The reader's lines are the bytes of standard input; what goes to
    standard output and standard error is kept.  The properties relate the two
    links. *)

From stdpp Require Import strings.
From S2P Require Import Prelude Hal SimHal ArmIo.
#[local] Open Scope Z_scope.

Definition LINE_MAX : Z := 2048.

(** Standard output, standard error, and whether flushing works. *)
Record sim_io := SimIo { io_out : list Z; io_err : list Z; io_flush : bool }.

Definition print (io : sim_io) (s : list Z) : sim_io := SimIo (io_out io ++ s) (io_err io) (io_flush io).
Definition eprint (io : sim_io) (s : list Z) : sim_io := SimIo (io_out io) (io_err io ++ s) (io_flush io).

(** *** C strings: [strlen], the text [strcmp] compares, [fgets] *)

Fixpoint strlen (s : list Z) : option Z :=
  match s with
  | [] => None
  | c :: s => if c =? 0 then Some 0 else n ← strlen s; Some (n + 1)
  end.

Fixpoint until_nul (s : list Z) : list Z :=
  match s with [] => [] | c :: s => if c =? 0 then [] else c :: until_nul s end.

(** At most [room] characters, up to and with a newline; and what is left. *)
Fixpoint fgets (room : nat) (input : list Z) : list Z * list Z :=
  match room, input with
  | S room, c :: input => if c =? LF then ([c], input) else let '(l, rest) := fgets room input in (c :: l, rest)
  | _, _ => ([], input)
  end.

(** *** Lines *)

Definition hex_nibble (ch : Z) : Z :=
  if (48 <=? ch) && (ch <=? 57) then ch - 48
  else if (97 <=? ch) && (ch <=? 102) then ch - 97 + 10
  else if (65 <=? ch) && (ch <=? 70) then ch - 65 + 10
  else -1.

Definition blank (c : Z) : bool := (c =? 32) || (c =? 9) || (c =? CR) || (c =? LF) || (c =? 58).

(** The loop of [hex_decode] from the pointer [p] on: the result and the
    destination. *)
Fixpoint decode_loop (p out : list Z) (cap n hi : Z) : option (Z * list Z) :=
  match p with
  | [] => None
  | ch :: p =>
      if ch =? 0 then Some (if 0 <=? hi then -1 else n, out) else
      if blank ch then decode_loop p out cap n hi else
      let v := hex_nibble ch in
      if v <? 0 then Some (-1, out) else
      if hi <? 0 then decode_loop p out cap n v else
      if cap <=? n then Some (-1, out) else
      out ← wr out n (u8 (Z.lor (Z.shiftl hi 4) v));
      decode_loop p out cap (u32 (n + 1)) (-1)
  end.

Definition hex_decode (s out : list Z) (cap : Z) : option (Z * list Z) := decode_loop s out cap 0 (-1).

Definition trimmed (c : Z) : bool := (c =? LF) || (c =? CR) || (c =? 32) || (c =? 9).

Fixpoint trim_loop (fuel : nat) (s : list Z) (n : Z) : option (list Z) :=
  match fuel with
  | O => None
  | S fuel =>
      if 0 <? n then
        c ← rd s (n - 1);
        if trimmed c then s ← wr s (n - 1) 0; trim_loop fuel s (n - 1) else Some s
      else Some s
  end.

(** A turn for each character, and the last test. *)
Definition trim (s : list Z) : option (list Z) := n ← strlen s; trim_loop (S (Z.to_nat n)) s n.

(** [printf] of each byte with "%02X", and the newline. *)
Definition print_hex (io : sim_io) (b : list Z) (n : Z) : option sim_io :=
  io ← foreach (upto n) (λ i io, x ← rd b i; Some (print io (hex_byte x))) io;
  Some (print io [LF]).

Definition print_atr (io : sim_io) : option sim_io := print_hex io vcard_atr.1 vcard_atr.2.

Definition print_help (io : sim_io) : sim_io :=
  eprint io (chars "Send an APDU as hex, e.g.  00 A4 00 00 02 3F 00" ++ [LF] ++
    chars "Control lines:" ++ [LF] ++
    chars "  .atr     print the Answer To Reset" ++ [LF] ++
    chars "  .reset   warm reset (clears volatile state, keeps NVM)" ++ [LF] ++
    chars "  .quit    power down and exit" ++ [LF] ++
    chars "  .help    this text" ++ [LF] ++
    chars "  #...     comment" ++ [LF]).

Definition streq (s : list Z) (lit : string) : bool := bool_decide (until_nul s = chars lit).

(** [hal_reset()] of this platform has an empty body ([SimHal.hal_reset]). *)
Definition handle_control (line : list Z) (io : sim_io) : option (Z * sim_io) :=
  c ← rd line 0;
  if c =? 35 then Some (1, io) else
  if negb (c =? 46) then Some (0, io) else
  if streq line ".quit" || streq line ".exit" then Some (-1, io) else
  if streq line ".atr" then io ← print_atr io; Some (1, io) else
  if streq line ".reset" then io ← print_atr io; Some (-2, io) else
  if streq line ".help" then Some (1, print_help io) else
  Some (1, eprint io (chars "unknown control '" ++ until_nul line ++ chars "' (try .help)" ++ [LF])).

(** What a call of [hal_card_receive] comes to: status, length, buffer, the
    input left and the streams. *)
Record sim_rx := SimRx { sr_st : hal_status; sr_n : Z; sr_buf : list Z; sr_rest : list Z; sr_io : sim_io }.

Fixpoint receive_loop (fuel : nat) (input buf : list Z) (cap : Z) (io : sim_io) : option sim_rx :=
  match fuel with
  | O => None
  | S fuel =>
      match input with
      | [] => Some (SimRx HAL_ERR_LINK_DOWN 0 buf input io)
      | _ =>
          let '(got, rest) := fgets (Z.to_nat (LINE_MAX - 1)) input in
          line ← trim (got ++ [0]);
          c ← rd line 0;
          if c =? 0 then receive_loop fuel rest buf cap io else
          '(ctl, io) ← handle_control line io;
          if ctl =? -1 then Some (SimRx HAL_ERR_LINK_DOWN 0 buf rest io) else
          if ctl =? -2 then Some (SimRx HAL_CARD_RESET 0 buf rest io) else
          if 0 <? ctl then receive_loop fuel rest buf cap io else
          '(n, buf) ← hex_decode line buf cap;
          if n <? 0 then
            receive_loop fuel rest buf cap (eprint io (chars "transport: not valid hex (or too long)" ++ [LF]))
          else Some (SimRx HAL_OK (u32 n) buf rest io)
      end
  end.

(** Each turn takes at least a character: the length of the input and one turn
    more. *)
Definition sim_card_receive (input : list Z) (buf : ptr (list Z)) (cap : Z) (out_len : ptr Z) (io : sim_io)
    : option sim_rx :=
  match buf, out_len with
  | Ptr b, Ptr n => if cap =? 0 then Some (SimRx HAL_ERR_PARAM n b input io) else receive_loop (S (length input)) input b cap io
  | Ptr b, NULL => Some (SimRx HAL_ERR_PARAM 0 b input io)
  | NULL, _ => Some (SimRx HAL_ERR_PARAM 0 [] input io)
  end.

Definition sim_card_send (io : sim_io) (buf : ptr (list Z)) (n : Z) : option (hal_status * sim_io) :=
  match buf with
  | NULL => if 0 <? n then Some (HAL_ERR_PARAM, io) else Some (if io_flush io then HAL_OK else HAL_ERR_IO, print io [LF])
  | Ptr b => io' ← print_hex io b n; Some (if io_flush io then HAL_OK else HAL_ERR_IO, io')
  end.

Definition sim_card_atr : list Z * Z := vcard_atr.

(** ** Strings *)

Definition nul_free (s : list Z) : Prop := Forall (λ c, c ≠ 0) s.

Lemma strlen_app t junk : nul_free t → strlen (t ++ 0 :: junk) = Some (len t).
Proof.
  intros Ht. induction Ht as [|c t Hc Ht IH]; [done|]. cbn [app strlen]. replace (c =? 0) with false by lia.
  rewrite IH. bind_simpl. by rewrite len_cons, Z.add_comm.
Qed.

Lemma until_nul_app t junk : nul_free t → until_nul (t ++ 0 :: junk) = t.
Proof.
  intros Ht. induction Ht as [|c t Hc Ht IH]; [done|]. cbn [app until_nul]. replace (c =? 0) with false by lia. by rewrite IH.
Qed.

Lemma until_nul_free s : nul_free (until_nul s).
Proof.
  induction s as [|c s IH]; [constructor|]. cbn [until_nul]. destruct (Z.eqb_spec c 0); [constructor|by constructor].
Qed.

(** A terminated buffer is its text, the terminator and what follows. *)
Lemma c_split s : ∃ junk, s ++ [0] = until_nul s ++ 0 :: junk.
Proof.
  induction s as [|c s (junk & IH)]; [by exists []|]. cbn [app until_nul]. destruct (Z.eqb_spec c 0) as [->|]; [by eexists|].
  exists junk. cbn [app]. by rewrite IH.
Qed.

Fixpoint rtrim (s : list Z) : list Z :=
  match s with
  | [] => []
  | c :: s => match rtrim s with [] => if trimmed c then [] else [c] | r => c :: r end
  end.

Lemma rtrim_snoc s c : rtrim (s ++ [c]) = if trimmed c then rtrim s else s ++ [c].
Proof.
  induction s as [|x s IH]; [cbn; by destruct (trimmed c)|]. cbn [app rtrim]. rewrite IH. destruct (trimmed c); [done|].
  by destruct s.
Qed.

Lemma rtrim_free s : nul_free s → nul_free (rtrim s).
Proof.
  intros Hs. induction Hs as [|c s Hc Hs IH]; [constructor|]. cbn [rtrim]. destruct (rtrim s) as [|x r].
  - destruct (trimmed c); [constructor|]. by constructor.
  - by constructor.
Qed.

Lemma trim_loop_eq t junk fuel :
  (length t < fuel)%nat → ∃ junk', trim_loop fuel (t ++ 0 :: junk) (len t) = Some (rtrim t ++ 0 :: junk').
Proof.
  revert junk fuel. induction t as [|c t IH] using rev_ind; intros junk fuel Hf; (destruct fuel as [|fuel]; [lia|]).
  { by exists junk. }
  rewrite length_app in Hf. cbn [length] in Hf. rewrite len_app. change (len [c]) with 1. pose proof (len_nonneg t).
  cbn [trim_loop]. replace (0 <? len t + 1) with true by lia. replace (len t + 1 - 1) with (len t) by lia.
  rewrite <- app_assoc. cbn [app].
  assert (Z.to_nat (len t) = length t) as Hl by (unfold len; lia).
  assert (rd (t ++ c :: 0 :: junk) (len t) = Some c) as ->.
  { unfold rd. replace (0 <=? len t) with true by lia. rewrite Hl, lookup_app_r, Nat.sub_diag by lia. done. }
  bind_simpl. rewrite rtrim_snoc. destruct (trimmed c).
  - rewrite wr_some by (rewrite len_app, !len_cons; pose proof (len_nonneg junk); lia). bind_simpl.
    rewrite Hl, insert_app_r_alt, Nat.sub_diag by lia. cbn [insert list_insert]. apply (IH (0 :: junk)). lia.
  - exists junk. by rewrite <- app_assoc.
Qed.

(** Whatever [fgets] read, [trim] leaves its text without trailing blanks. *)
Lemma trim_eq got : ∃ junk, trim (got ++ [0]) = Some (rtrim (until_nul got) ++ 0 :: junk).
Proof.
  destruct (c_split got) as (junk & ->). unfold trim. pose proof (until_nul_free got) as Hf.
  rewrite strlen_app by done. bind_simpl. apply trim_loop_eq. unfold len. lia.
Qed.

Lemma rd_head t junk : rd (t ++ 0 :: junk) 0 = Some (match t with [] => 0 | c :: _ => c end).
Proof. by destruct t. Qed.

(** ** The digits of a line *)

Definition nibs (s : list Z) : list Z := map hex_nibble (List.filter (λ c, negb (blank c)) s).

Definition good (room : Z) (ds : list Z) : bool :=
  bool_decide (Forall (λ d, 0 ≤ d) ds) && Z.even (len ds) && (len ds / 2 <=? room).

Lemma good_cons2 room x y ds : 0 ≤ x → 0 ≤ y → good (room + 1) (x :: y :: ds) = good room ds.
Proof.
  intros Hx Hy. unfold good. rewrite !len_cons.
  replace (1 + (1 + len ds)) with (len ds + 2) by lia. rewrite Z.even_add. change (Z.even 2) with true.
  replace (eqb (Z.even (len ds)) true) with (Z.even (len ds)) by (by destruct (Z.even (len ds))).
  replace ((len ds + 2) / 2 <=? room + 1) with (len ds / 2 <=? room) by lia. f_equal. f_equal.
  apply bool_decide_ext. rewrite !Forall_cons. tauto.
Qed.

Lemma nibble_range c : -1 ≤ hex_nibble c < 16.
Proof. apply hex_nibble_range. Qed.

(** [hex_decode] in the middle of a line: [hi] is a digit that waits for its
    partner. *)
Lemma decode_spec t junk out cap n hi :
  let ds := (if hi <? 0 then [] else [hi]) ++ nibs t in
  nul_free t → bytes out → 0 ≤ n ≤ cap → cap ≤ len out → cap < 4294967296 → -1 ≤ hi < 16 →
  ∃ out', len out' = len out ∧ bytes out' ∧
    decode_loop (t ++ 0 :: junk) out cap n hi = Some (if good (cap - n) ds then n + len (pairs ds) else -1, out') ∧
    (good (cap - n) ds = true → out' = splice out n (pairs ds) ∧ n + len (pairs ds) ≤ cap).
Proof.
  intros ds Ht. unfold ds. clear ds. revert out n hi.
  induction Ht as [|c t Hc Ht IH]; intros out n hi Hb Hn Hcap H32 Hhi.
  { cbn [app decode_loop nibs List.filter map]. exists out. split; [done|]. split; [done|]. destruct (Z.ltb_spec hi 0) as [Hneg|Hpos].
    - replace (0 <=? hi) with false by lia. unfold good. cbn [app]. rewrite bool_decide_true by constructor.
      change (Z.even (len [])) with true. change (len [] / 2) with 0. replace (0 <=? cap - n) with true by lia.
      cbn [andb pairs]. rewrite splice_nil. change (len []) with 0. rewrite Z.add_0_r. split; [done|]. intros _. split; [done|lia].
    - replace (0 <=? hi) with true by lia. cbn [app]. unfold good. change (Z.even (len [hi])) with false. rewrite andb_false_r. done. }
  cbn [app decode_loop]. replace (c =? 0) with false by lia. unfold nibs. cbn [List.filter].
  destruct (blank c) eqn:Hbl; cbn [negb]; [by apply IH|]. cbn [map]. fold (nibs t).
  pose proof (nibble_range c) as Hv. set (v := hex_nibble c) in *. cbv zeta.
  destruct (Z.ltb_spec v 0) as [Hneg|Hpos].
  { exists out. split; [done|]. split; [done|]. assert (∀ r pre, good r (pre ++ v :: nibs t) = false) as ->; [|done].
    intros r pre. unfold good. rewrite bool_decide_false; [done|]. rewrite Forall_app, Forall_cons. lia. }
  destruct (Z.ltb_spec hi 0) as [Hno|Hhave].
  { destruct (IH out n v) as (out' & Hl & Hb' & Hdec & Hgood); try done. replace (v <? 0) with false in * by lia.
    exists out'. by split. }
  destruct (Z.leb_spec cap n) as [Hfull|Hroom]; cbn [app].
  { exists out. split; [done|]. split; [done|]. assert (good (cap - n) (hi :: v :: nibs t) = false) as ->; [|done].
    unfold good. rewrite !len_cons. pose proof (len_nonneg (nibs t)).
    replace ((1 + (1 + len (nibs t))) / 2 <=? cap - n) with false by lia. apply andb_false_r. }
  rewrite wr_some by lia. bind_simpl. rewrite (lor_shiftl_add hi v 4) by (change (2 ^ 4) with 16; lia). change (2 ^ 4) with 16.
  assert (is_u8 (hi * 16 + v)) as Hb8 by (unfold is_u8; lia). rewrite u8_id by done. rewrite u32_id by (unfold is_u32; lia).
  assert (<[Z.to_nat n:=hi * 16 + v]> out = splice out n [hi * 16 + v]) as ->.
  { pose proof (splice_snoc out n [] (hi * 16 + v)) as Hs. change (len []) with 0 in Hs.
    rewrite splice_nil, Z.add_0_r in Hs. apply Hs; lia. }
  assert (len (splice out n [hi * 16 + v]) = len out) as Hls by (apply len_splice; [lia|change (len [_]) with 1; lia]).
  destruct (IH (splice out n [hi * 16 + v]) (n + 1) (-1)) as (out' & Hl & Hb' & Hdec & Hgood);
    [apply bytes_splice; [done|by constructor]|lia|lia|done|lia|]. change (-1 <? 0) with true in *. cbn [app] in *.
  replace (cap - n) with (cap - (n + 1) + 1) by lia. rewrite good_cons2 by lia. cbn [pairs]. rewrite len_cons.
  replace (n + (1 + len (pairs (nibs t)))) with (n + 1 + len (pairs (nibs t))) by lia.
  exists out'. split; [congruence|]. split; [done|]. split; [done|]. intros Hg. destruct (Hgood Hg) as [-> Hle]. split; [|lia].
  pose proof (splice_splice_adjacent out n [hi * 16 + v] (pairs (nibs t))) as Ha.
  change (len [hi * 16 + v]) with 1 in Ha. rewrite Ha by lia. done.
Qed.

(** ** One line *)

Lemma fgets_line line rest room :
  Forall (λ c, c ≠ LF) line → (length line < room)%nat → fgets room (line ++ LF :: rest) = (line ++ [LF], rest).
Proof.
  intros Hl. revert room. induction Hl as [|c line Hc Hl IH]; intros [|room] Hroom; cbn [length] in Hroom; try lia; [done|].
  cbn [app fgets]. replace (c =? LF) with false by lia. by rewrite IH by lia.
Qed.

(** [fgets] takes at least one character. *)
Lemma fgets_rest room c input got rest :
  fgets (S room) (c :: input) = (got, rest) → (length rest ≤ length input)%nat.
Proof.
  assert (∀ room input got rest, fgets room input = (got, rest) → (length rest ≤ length input)%nat) as Hle.
  { clear. intros room. induction room as [|room IH]; intros [|c input] got rest; cbn [fgets]; try (by intros [= <- <-]).
    destruct (c =? LF); [intros [= <- <-]; cbn; lia|]. destruct (fgets room input) as [l r] eqn:E. intros [= <- <-].
    apply IH in E. cbn. lia. }
  cbn [fgets]. destruct (c =? LF); [by intros [= <- <-]|]. destruct (fgets room input) as [l r] eqn:E. intros [= <- <-].
  by apply Hle in E.
Qed.

(** Fuel beyond the length of the input changes nothing. *)
Lemma receive_fuel f1 f2 input buf cap io :
  (length input < f1)%nat → (length input < f2)%nat → receive_loop f1 input buf cap io = receive_loop f2 input buf cap io.
Proof.
  revert f2 input buf io. induction f1 as [|f1 IH]; intros f2 input buf io H1 H2; [lia|]. destruct f2 as [|f2]; [lia|].
  destruct input as [|c0 input]; [done|]. cbn [receive_loop length] in *.
  destruct (fgets (Z.to_nat (LINE_MAX - 1)) (c0 :: input)) as [got rest] eqn:E.
  change (Z.to_nat (LINE_MAX - 1)) with (S (Z.to_nat (LINE_MAX - 2))) in E. apply fgets_rest in E.
  assert (∀ buf io, receive_loop f1 rest buf cap io = receive_loop f2 rest buf cap io) as Hn by (intros; apply IH; lia).
  destruct (trim (got ++ [0])) as [line|]; [|done]. bind_simpl. destruct (rd line 0) as [c|]; [|done]. bind_simpl.
  destruct (c =? 0); [apply Hn|]. destruct (handle_control line io) as [[ctl io']|]; [|done]. bind_simpl. cbv beta iota.
  destruct (ctl =? -1); [done|]. destruct (ctl =? -2); [done|]. destruct (0 <? ctl); [apply Hn|].
  destruct (hex_decode line buf cap) as [[n buf']|]; [|done]. bind_simpl. cbv beta iota. destruct (n <? 0); [apply Hn|done].
Qed.

Lemma trimmed_blank c : trimmed c = true → blank c = true.
Proof. unfold trimmed, blank. lia. Qed.

Lemma nibs_rtrim s : nibs (rtrim s) = nibs s.
Proof.
  unfold nibs. induction s as [|c s IH]; [done|]. cbn [rtrim List.filter].
  destruct (rtrim s) as [|x r]; cbn [List.filter map] in *.
  - destruct (trimmed c) eqn:E; cbn [List.filter map].
    + rewrite (trimmed_blank _ E). exact IH.
    + destruct (blank c); cbn [negb map]; [exact IH|by f_equal].
  - destruct (blank c); cbn [negb map]; [exact IH|by f_equal].
Qed.

(** A blank of a line on this link is a separator on the other. *)
Lemma nibs_nibbles line : Forall plain line → nibs line = nibbles line.
Proof.
  unfold nibs, nibbles. intros Hl. induction Hl as [|c line (_ & Hlf & Hcr) Hl IH]; [done|]. cbn [List.filter].
  assert (blank c = separator c) as -> by (unfold blank, separator; lia).
  destruct (separator c); cbn [negb map]; [exact IH|by rewrite IH].
Qed.

Lemma rtrim_head c s : rtrim (c :: s) = [] ∨ ∃ r, rtrim (c :: s) = c :: r.
Proof. cbn [rtrim]. destruct (rtrim s); [destruct (trimmed c); [by left|]|]; right; by eexists. Qed.

Definition not_hex : list Z := chars "transport: not valid hex (or too long)" ++ [LF].

(** A line that is no control line. *)
Lemma receive_data_line fuel line rest buf cap io :
  Forall plain line → nul_free line → len line < LINE_MAX - 1 → is_control line = false →
  0 < cap ≤ len buf → cap < 4294967296 → bytes buf →
  ∃ buf', len buf' = len buf ∧ bytes buf' ∧
    receive_loop (S fuel) (line ++ LF :: rest) buf cap io =
      match rtrim line with
      | [] => receive_loop fuel rest buf cap io
      | _ =>
          if good cap (nibs line) then
            Some (SimRx HAL_OK (len (pairs (nibs line))) (splice buf 0 (pairs (nibs line))) rest io)
          else receive_loop fuel rest buf' cap (eprint io not_hex)
      end.
Proof.
  intros Hp Hnul Hlen Hctl Hcap H32 Hb. unfold LINE_MAX in Hlen.
  assert (rtrim (until_nul (line ++ [LF])) = rtrim line) as Htext.
  { assert (nul_free (line ++ [LF])) as Hf by (apply Forall_app; split; [done|by constructor]).
    assert (until_nul (line ++ [LF]) = line ++ [LF]) as ->; [|by rewrite rtrim_snoc].
    clear -Hf. induction Hf as [|c s Hc Hs IH]; [done|]. cbn [until_nul]. replace (c =? 0) with false by lia. by rewrite IH. }
  cbn [receive_loop]. destruct (line ++ LF :: rest) as [|c0 input0] eqn:E; [by destruct line|]. rewrite <- E.
  rewrite fgets_line; [|eapply Forall_impl; [exact Hp|]; intros x Hx; apply Hx|unfold len, LINE_MAX in *; lia].
  destruct (trim_eq (line ++ [LF])) as (junk & ->). bind_simpl. rewrite Htext, rd_head. bind_simpl.
  pose proof (rtrim_free line Hnul) as Hrf.
  destruct (decode_spec (rtrim line) junk buf cap 0 (-1)) as (buf' & Hl & Hb' & Hdec & Hgood); try done; [lia|lia|].
  change (-1 <? 0) with true in *. cbn [app] in *. rewrite nibs_rtrim in *. rewrite Z.sub_0_r in *.
  exists buf'. split; [done|]. split; [done|]. unfold hex_decode, handle_control. rewrite rd_head. bind_simpl.
  destruct line as [|c line]; [done|]. destruct (rtrim_head c line) as [-> |(r & Hr)]; [done|]. rewrite Hr in *.
  replace (c =? 0) with false by (apply Forall_cons in Hrf as [? _]; lia).
  cbn [is_control] in Hctl. apply orb_false_iff in Hctl as [-> ->]. cbn [negb]. bind_simpl. cbv beta iota.
  change (0 =? -1) with false. change (0 =? -2) with false. change (0 <? 0) with false. cbv iota.
  rewrite Hdec. bind_simpl. cbv beta iota. rewrite Z.add_0_l in *. destruct (good cap (nibs (c :: line))).
  - destruct Hgood as [-> Hle]; [done|]. pose proof (len_nonneg (pairs (nibs (c :: line)))).
    replace (len (pairs (nibs (c :: line))) <? 0) with false by lia. by rewrite u32_id by (unfold is_u32; lia).
  - done.
Qed.

Lemma rtrim_nil line : rtrim line = [] ↔ forallb trimmed line = true.
Proof.
  induction line as [|c line IH]; [done|]. cbn [rtrim forallb]. rewrite andb_true_iff, <- IH.
  destruct (rtrim line); [destruct (trimmed c)|]; intuition congruence.
Qed.

Lemma line_frame_good cap line :
  is_control line = false → 0 ≤ cap →
  line_frame cap line =
    if good cap (nibbles line) then match nibbles line with [] => FrNothing | ds => FrCommand (pairs ds) end else FrMalformed.
Proof.
  intros Hctl Hcap. destruct line as [|c line].
  - unfold good. rewrite bool_decide_true by constructor. change (Z.even (len (nibbles []))) with true.
    change (len (nibbles []) / 2) with 0. by replace (0 <=? cap) with true by lia.
  - cbn [line_frame]. cbn [is_control] in Hctl. by apply orb_false_iff in Hctl as [-> ->].
Qed.

Lemma receive_next line rest buf cap x io :
  0 < cap →
  receive_loop (length (line ++ LF :: rest)) rest buf cap io = sim_card_receive rest (Ptr buf) cap (Ptr x) io.
Proof.
  intros Hcap. unfold sim_card_receive. replace (cap =? 0) with false by lia.
  apply receive_fuel; [rewrite length_app; cbn [length]; lia|lia].
Qed.

(** ** Any input at all *)

Lemma print_hex_eq io b n :
  0 ≤ n ≤ len b → ∃ io', print_hex io b n = Some io'.
Proof.
  intros Hn. unfold print_hex. rewrite foreach_rd by done. bind_simpl. by eexists.
Qed.

Lemma handle_control_total t junk io :
  ∃ ctl io', handle_control (t ++ 0 :: junk) io = Some (ctl, io').
Proof.
  unfold handle_control. rewrite rd_head. bind_simpl. case_if; [by eexists _, _|]. case_if; [by eexists _, _|].
  case_if; [by eexists _, _|]. unfold print_atr.
  destruct (print_hex_eq io vcard_atr.1 vcard_atr.2) as (io' & ->); [by vm_compute|]. bind_simpl.
  repeat (case_if; [by eexists _, _|]). by eexists _, _.
Qed.

(** What a call of the receiver may come to: a command of at most [cap] bytes, a
    reset, or the end of the link; all but the end take input. *)
Record sim_delivers (input buf : list Z) (cap : Z) (r : sim_rx) : Prop := {
  sd_len : len (sr_buf r) = len buf;
  sd_bytes : bytes (sr_buf r);
  sd_n : 0 ≤ sr_n r ≤ cap;
  sd_rest : (length (sr_rest r) < length input)%nat ∨ sr_st r = HAL_ERR_LINK_DOWN;
  sd_st : sr_st r = HAL_OK ∨ sr_st r = HAL_CARD_RESET ∨ sr_st r = HAL_ERR_LINK_DOWN
}.

(** On any input the receiver stays inside its buffers and stops. *)
Lemma sim_receive_total input buf cap x io :
  0 < cap ≤ len buf → cap < 4294967296 → bytes buf →
  ∃ r, sim_card_receive input (Ptr buf) cap (Ptr x) io = Some r ∧ sim_delivers input buf cap r.
Proof.
  intros Hcap H32. unfold sim_card_receive. replace (cap =? 0) with false by lia.
  assert (length input < S (length input))%nat as Hfuel by lia. revert Hfuel. generalize (S (length input)) as fuel.
  intros fuel. revert input buf io Hcap. induction fuel as [|fuel IH]; intros input buf io Hcap Hfuel Hb; [lia|].
  destruct input as [|c0 input]; cbn [receive_loop length] in *.
  { eexists. split; [done|]. by split; cbn; auto; lia. }
  destruct (fgets (Z.to_nat (LINE_MAX - 1)) (c0 :: input)) as [got rest] eqn:E.
  change (Z.to_nat (LINE_MAX - 1)) with (S (Z.to_nat (LINE_MAX - 2))) in E. apply fgets_rest in E.
  destruct (trim_eq got) as (junk & ->). bind_simpl. rewrite rd_head. bind_simpl.
  pose proof (rtrim_free _ (until_nul_free got)) as Hfree. set (t := rtrim (until_nul got)) in *.
  assert (∀ buf' io2, len buf' = len buf → bytes buf' →
    ∃ r, receive_loop fuel rest buf' cap io2 = Some r ∧ sim_delivers (c0 :: input) buf cap r) as Hnext.
  { intros buf' io2 Hl' Hb'. destruct (IH rest buf' io2) as (r & -> & [? ? ? Hr ?]); [lia|lia|done|].
    exists r. split; [done|]. split; try done; [congruence|]. destruct Hr; [left; cbn; lia|by right]. }
  assert (∀ st buf' n io2, len buf' = len buf → bytes buf' → 0 ≤ n ≤ cap → st = HAL_OK ∨ st = HAL_CARD_RESET ∨ st = HAL_ERR_LINK_DOWN →
    ∃ r, Some (SimRx st n buf' rest io2) = Some r ∧ sim_delivers (c0 :: input) buf cap r) as Hret.
  { intros st buf' n io2 Hl' Hb' Hn Hst. eexists. split; [done|]. split; cbn; try done. left. lia. }
  case_if; [by apply Hnext|].
  destruct (handle_control_total t junk io) as (ctl & io' & ->). bind_simpl. cbv beta iota.
  case_if; [apply Hret; done || lia || by auto|]. case_if; [apply Hret; done || lia || by auto|]. case_if; [by apply Hnext|].
  destruct (decode_spec t junk buf cap 0 (-1)) as (buf' & Hl & Hb' & Hdec & Hgood); try done; [lia|lia|].
  unfold hex_decode. rewrite Hdec. bind_simpl. cbv beta iota. destruct (good _ _).
  - destruct Hgood as [_ Hle]; [done|]. pose proof (len_nonneg (pairs ((if -1 <? 0 then [] else [-1]) ++ nibs t))).
    case_if; [by apply Hnext|]. rewrite u32_id by (unfold is_u32; lia). apply Hret; done || lia || by auto.
  - change (-1 <? 0) with true. cbv iota. by apply Hnext.
Qed.

(** [C37] The two links carry the same commands: a line that is no control line,
    holds no NUL and fits the simulator's line buffer is delivered by both
    links as the same bytes, or reported and dropped by both as malformed,
    within their buffers.  They differ in one case only: a line of separators
    is passed over by the chip, while the simulator delivers an empty command
    for it unless it holds nothing but white space. *)
Theorem links_agree atr line rest buf cap x io out :
  let arm := hal_card_receive atr (line ++ LF :: rest) (Ptr buf) cap (Ptr x) out in
  let sim := sim_card_receive (line ++ LF :: rest) (Ptr buf) cap (Ptr x) io in
  bytes atr → Forall plain line → nul_free line → len line < LINE_MAX - 1 → is_control line = false →
  0 < cap ≤ len buf → cap < 4294967296 → bytes buf →
  match line_frame cap line with
  | FrCommand d =>
      arm = Some (RxReturn HAL_OK (len d) (splice buf 0 d) out rest) ∧
      sim = Some (SimRx HAL_OK (len d) (splice buf 0 d) rest io)
  | FrMalformed =>
      ∃ bufa bufs, len bufa = len buf ∧ bytes bufa ∧ len bufs = len buf ∧ bytes bufs ∧
        arm = hal_card_receive atr rest (Ptr bufa) cap (Ptr x) (out ++ not_hex) ∧
        sim = sim_card_receive rest (Ptr bufs) cap (Ptr x) (eprint io not_hex)
  | FrNothing =>
      ∃ bufa, len bufa = len buf ∧ bytes bufa ∧ arm = hal_card_receive atr rest (Ptr bufa) cap (Ptr x) out ∧
        sim = if forallb trimmed line then sim_card_receive rest (Ptr buf) cap (Ptr x) io
              else Some (SimRx HAL_OK 0 buf rest io)
  | _ => False
  end.
Proof.
  intros arm sim Ha Hp Hnul Hlen Hctl Hcap H32 Hb. unfold arm, sim. clear arm sim.
  assert (len line < 4294967296) as Hlen32 by (unfold LINE_MAX in Hlen; lia).
  destruct (receive_line_eq atr line LF rest buf cap x out Ha Hp ltac:(by left) Hlen32 Hcap H32 Hb) as (bufa & Hla & Hba & Hcmd & ->).
  destruct (receive_data_line (length (line ++ LF :: rest)) line rest buf cap io Hp Hnul Hlen Hctl Hcap H32 Hb)
    as (bufs & Hls & Hbs & Hsim).
  rewrite !(receive_next line rest _ cap x), nibs_nibbles in Hsim by (done || lia).
  assert (sim_card_receive (line ++ LF :: rest) (Ptr buf) cap (Ptr x) io =
    receive_loop (S (length (line ++ LF :: rest))) (line ++ LF :: rest) buf cap io) as ->.
  { unfold sim_card_receive. by replace (cap =? 0) with false by lia. }
  rewrite Hsim. clear Hsim.
  rewrite (line_frame_good cap line) in * by (done || lia). pose proof (rtrim_nil line) as Hnil.
  destruct (good cap (nibbles line)) eqn:Hgood.
  - destruct (nibbles line) as [|d0 ds] eqn:Hnib.
    + exists bufa. split; [done|]. split; [done|]. split; [done|]. change (len (pairs [])) with 0. rewrite splice_nil.
      destruct (rtrim line) eqn:Hr; [by rewrite (proj1 Hnil eq_refl)|].
      destruct (forallb trimmed line); [by specialize (proj2 Hnil eq_refl)|done].
    + set (d := pairs (d0 :: ds)) in *. destruct (Hcmd d) as (Hbuf & Hd & _); [done|]. cbn [on_frame]. rewrite Hbuf. split; [done|].
      destruct (rtrim line) as [|y r] eqn:Hr; [|done]. exfalso.
      pose proof (nibs_rtrim line) as Hn. rewrite Hr, (nibs_nibbles line Hp), Hnib in Hn. done.
  - exists bufa, bufs. split; [done|]. split; [done|]. split; [done|]. split; [done|]. split; [done|].
    destruct (rtrim line) as [|y r] eqn:Hr; [|done]. exfalso.
    pose proof (nibs_rtrim line) as Hn. rewrite Hr, (nibs_nibbles line Hp) in Hn. rewrite <- Hn in Hgood.
    unfold good in Hgood. rewrite bool_decide_true in Hgood by constructor. cbn [andb] in Hgood.
    change (len (nibs []) / 2) with 0 in Hgood. change (Z.even (len (nibs []))) with true in Hgood. cbn [andb] in Hgood. lia.
Qed.

Definition demo_select : list Z := chars "00 a4:00 00 " ++ [9].
Definition demo_io : sim_io := SimIo [] [] true.

Lemma links_agree_witness :
  line_frame 261 demo_select = FrCommand [0x00; 0xA4; 0x00; 0x00] ∧
  hal_card_receive [0x3B] (demo_select ++ LF :: [46]) (Ptr (replicate 261 0)) 261 (Ptr 0) [] =
    Some (RxReturn HAL_OK 4 (splice (replicate 261 0) 0 [0x00; 0xA4; 0x00; 0x00]) [] [46]) ∧
  sim_card_receive (demo_select ++ LF :: [46]) (Ptr (replicate 261 0)) 261 (Ptr 0) demo_io =
    Some (SimRx HAL_OK 4 (splice (replicate 261 0) 0 [0x00; 0xA4; 0x00; 0x00]) [46] demo_io).
Proof.
  split; [vm_compute; reflexivity|].
  assert (line_frame 261 demo_select = FrCommand [0x00; 0xA4; 0x00; 0x00]) as E by (vm_compute; reflexivity).
  pose proof (links_agree [0x3B] demo_select [46] (replicate 261 0) 261 0 demo_io []) as Hl. cbv zeta in Hl. rewrite E in Hl.
  apply Hl.
  - solve_bytes.
  - apply (bool_decide_unpack _). vm_compute. exact I.
  - apply (bool_decide_unpack _). vm_compute. exact I.
  - vm_compute. reflexivity.
  - reflexivity.
  - split; [lia|vm_compute; congruence].
  - lia.
  - apply bytes_replicate. unfold is_u8. lia.
Defined.
