(* ===== verification/FsTypes.v ===== *)
(** * File system data types (include/filesystem/fs_types.h)

    Limits, file types, life cycle states, descriptors and status codes.  A
    type or life cycle byte read from memory is cast to its enum unchecked, so
    both are kept as the stored number. *)

From S2P Require Import Prelude.

Definition FS_MAX_FILES : Z := 32.
Definition FS_DESC_SIZE : Z := 20.
Definition FS_SUPERBLOCK_SIZE : Z := 16.
Definition FS_MAX_EF_SIZE : Z := 32767.
Definition FS_MAX_DEPTH : Z := 8.

Definition FS_FID_MF : Z := 0x3F00.
Definition FS_INVALID_INDEX : Z := 0xFFFF.
Definition FS_NO_PARENT : Z := 0xFFFF.
Definition FS_NO_SFI : Z := 0x00.

Definition FS_TYPE_MF : Z := 0x01.
Definition FS_TYPE_DF : Z := 0x02.
Definition FS_TYPE_EF_TRANSPARENT : Z := 0x03.
Definition FS_TYPE_FREE : Z := 0xFF.

Definition FS_LC_CREATION : Z := 0x01.
Definition FS_LC_INITIALISED : Z := 0x03.
Definition FS_LC_ACTIVATED : Z := 0x05.
Definition FS_LC_DEACTIVATED : Z := 0x04.
Definition FS_LC_TERMINATED : Z := 0x0C.

Record fs_descriptor := FsDescriptor {
  d_file_id : Z;
  d_type : Z;
  d_lifecycle : Z;
  d_parent : Z;
  d_size : Z;
  d_data_offset : Z;
  d_ac_read : Z;
  d_ac_update : Z;
  d_sfi : Z;
  d_flags : Z;
}.

#[export] Instance fs_descriptor_eq_dec : EqDecision fs_descriptor.
Proof. solve_decision. Defined.

(** [os_memset(d, 0, sizeof( *d))] *)
Definition fs_descriptor_zero : fs_descriptor := FsDescriptor 0 0 0 0 0 0 0 0 0 0.

Definition fs_is_df (d : fs_descriptor) : bool :=
  (d_type d =? FS_TYPE_DF) || (d_type d =? FS_TYPE_MF).

Definition fs_is_ef (d : fs_descriptor) : bool := d_type d =? FS_TYPE_EF_TRANSPARENT.

Definition fs_is_usable (d : fs_descriptor) : bool := d_lifecycle d =? FS_LC_ACTIVATED.

Inductive fs_status :=
| FS_OK | FS_ERR_PARAM | FS_ERR_NOT_FOUND | FS_ERR_CORRUPT | FS_ERR_NO_SPACE | FS_ERR_EXISTS
| FS_ERR_NOT_USABLE | FS_ERR_WRONG_TYPE | FS_ERR_RANGE | FS_ERR_NVM | FS_ERR_NOT_FORMATTED
| FS_ERR_VERSION.

#[export] Instance fs_status_eq_dec : EqDecision fs_status.
Proof. solve_decision. Defined.

(** [st == FS_OK] *)
Definition fs_ok (st : fs_status) : bool := match st with FS_OK => true | _ => false end.

Lemma fs_ok_true st : fs_ok st = true ↔ st = FS_OK.
Proof. by destruct st. Qed.

(** The fields of a descriptor are of their C types. *)
Record desc_typed (d : fs_descriptor) : Prop := {
  dt_file_id : is_u16 (d_file_id d);
  dt_type : is_u8 (d_type d);
  dt_lifecycle : is_u8 (d_lifecycle d);
  dt_parent : is_u16 (d_parent d);
  dt_size : is_u16 (d_size d);
  dt_data_offset : is_u32 (d_data_offset d);
  dt_ac_read : is_u8 (d_ac_read d);
  dt_ac_update : is_u8 (d_ac_update d);
  dt_sfi : is_u8 (d_sfi d);
  dt_flags : is_u8 (d_flags d);
}.

Lemma desc_zero_typed : desc_typed fs_descriptor_zero.
Proof. constructor; simpl; unfold is_u8, is_u16, is_u32; lia. Qed.
#[export] Hint Resolve desc_zero_typed : card.
