(* ===== verification/FsStore.v ===== *)
(** * File system, physical layer (src/filesystem/fs_store.c)

    The superblock and the descriptor table in EEPROM, file contents in FLASH.
    The first part translates the source against the memory interface of
    Hal.v; the second gives every operation a specification on an abstract view
    of the card: the list of its descriptor slots, the allocation mark and the
    contents of FLASH. *)

From S2P Require Import Prelude OsMem Crc16 Hal SimHal FsTypes.

Definition FS_MAGIC_0 : Z := 0x53.
Definition FS_MAGIC_1 : Z := 0x43.
Definition FS_MAGIC_2 : Z := 0x4F.
Definition FS_MAGIC_3 : Z := 0x53.

Definition FS_LAYOUT_VERSION : Z := 1.

Definition FS_SB_OFFSET : Z := 0.
Definition FS_DESC_BASE : Z := FS_SB_OFFSET + FS_SUPERBLOCK_SIZE.

(** [s_sb]: the mirror of the superblock. *)
Record superblock := Superblock {
  sb_mounted : bool;
  sb_version : Z;
  sb_max_files : Z;
  sb_data_top : Z;
}.

(** *** Serialisation: the object [p] of the C code is the buffer from an
    offset on. *)

Definition put_u16 (b : list Z) (p v : Z) : option (list Z) :=
  b ← wr b p (u8 (Z.shiftr v 8));
  wr b (p + 1) (u8 (Z.land v 0xFF)).

Definition get_u16 (b : list Z) (p : Z) : option Z :=
  x ← rd b p; y ← rd b (p + 1);
  Some (u16 (Z.lor (Z.shiftl (u16 x) 8) (u16 y))).

Definition put_u32 (b : list Z) (p v : Z) : option (list Z) :=
  b ← wr b p (u8 (Z.shiftr v 24));
  b ← wr b (p + 1) (u8 (Z.shiftr v 16));
  b ← wr b (p + 2) (u8 (Z.shiftr v 8));
  wr b (p + 3) (u8 (Z.land v 0xFF)).

Definition get_u32 (b : list Z) (p : Z) : option Z :=
  a ← rd b p; b1 ← rd b (p + 1); c ← rd b (p + 2); d ← rd b (p + 3);
  Some (Z.lor (Z.lor (Z.lor (u32 (Z.shiftl (u32 a) 24)) (u32 (Z.shiftl (u32 b1) 16)))
                     (u32 (Z.shiftl (u32 c) 8))) (u32 d)).

(** A local array before it is written. *)
Definition local_array (n : Z) : list Z := replicate (Z.to_nat n) 0.

(** The content [os_memset(raw, value, n)] gives to the whole array. *)
Definition memset_array (n value : Z) : option (list Z) :=
  d ← os_memset (Ptr (local_array n)) value n;
  match d with Ptr b => Some b | NULL => None end.

(** A C call that fills a buffer it was given the address of. *)
Definition filled {A} (r : A * ptr (list Z)) : option (A * list Z) :=
  match r with (a, Ptr b) => Some (a, b) | (_, NULL) => None end.

Section store.
Context {N : Type} `{HalNvm N}.

(** The state of the layer: the static mirror and the memory device. *)
Record store := Store { s_sb : superblock; s_nvm : N }.

Definition set_nvm (s : store) (n : N) : store := Store (s_sb s) n.

Definition set_mounted (s : store) (m : bool) : store :=
  let b := s_sb s in Store (Superblock m (sb_version b) (sb_max_files b) (sb_data_top b)) (s_nvm s).

Definition set_data_top (s : store) (top : Z) : store :=
  let b := s_sb s in Store (Superblock (sb_mounted b) (sb_version b) (sb_max_files b) top) (s_nvm s).

(** Write and then sync, the pattern of every metadata update. *)
Definition write_sync (s : store) (off : Z) (raw : list Z) (n : Z) : option (fs_status * store) :=
  '(st, nv) ← hal_nvm_write (s_nvm s) HAL_NVM_EEPROM off (Ptr raw) n;
  let s := set_nvm s nv in
  if negb (hal_is_ok st) then Some (FS_ERR_NVM, s) else
  '(st, nv) ← hal_nvm_sync (s_nvm s);
  let s := set_nvm s nv in
  if negb (hal_is_ok st) then Some (FS_ERR_NVM, s) else
  Some (FS_OK, s).

Definition sb_write (s : store) : option (fs_status * store) :=
  raw ← memset_array FS_SUPERBLOCK_SIZE 0;
  raw ← wr raw 0 FS_MAGIC_0;
  raw ← wr raw 1 FS_MAGIC_1;
  raw ← wr raw 2 FS_MAGIC_2;
  raw ← wr raw 3 FS_MAGIC_3;
  raw ← put_u16 raw 4 FS_LAYOUT_VERSION;
  raw ← put_u16 raw 6 (u16 FS_MAX_FILES);
  raw ← put_u32 raw 8 (sb_data_top (s_sb s));
  raw ← put_u16 raw 12 0;
  crc ← crc16 (Ptr raw) 14;
  raw ← put_u16 raw 14 crc;
  write_sync s FS_SB_OFFSET raw FS_SUPERBLOCK_SIZE.

Definition fs_store_mount (s : store) : option (fs_status * store) :=
  let s := set_mounted s false in
  r ← hal_nvm_read (s_nvm s) HAL_NVM_EEPROM FS_SB_OFFSET (Ptr (local_array FS_SUPERBLOCK_SIZE))
        FS_SUPERBLOCK_SIZE;
  '(st, raw) ← filled r;
  if negb (hal_is_ok st) then Some (FS_ERR_NVM, s) else
  m0 ← rd raw 0; m1 ← rd raw 1; m2 ← rd raw 2; m3 ← rd raw 3;
  if negb (m0 =? FS_MAGIC_0) || negb (m1 =? FS_MAGIC_1) || negb (m2 =? FS_MAGIC_2)
     || negb (m3 =? FS_MAGIC_3)
  then Some (FS_ERR_NOT_FORMATTED, s) else
  stored ← get_u16 raw 14;
  crc ← crc16 (Ptr raw) 14;
  if negb (stored =? crc) then Some (FS_ERR_CORRUPT, s) else
  version ← get_u16 raw 4;
  if negb (version =? FS_LAYOUT_VERSION) then Some (FS_ERR_VERSION, s) else
  max_files ← get_u16 raw 6;
  if (max_files =? 0) || (FS_MAX_FILES <? max_files) then Some (FS_ERR_CORRUPT, s) else
  data_top ← get_u32 raw 8;
  if hal_nvm_size (s_nvm s) HAL_NVM_FLASH <? data_top then Some (FS_ERR_CORRUPT, s) else
  let table_end := u32 (FS_DESC_BASE + u32 (max_files * FS_DESC_SIZE)) in
  if hal_nvm_size (s_nvm s) HAL_NVM_EEPROM <? table_end then Some (FS_ERR_CORRUPT, s) else
  Some (FS_OK, Store (Superblock true version max_files data_top) (s_nvm s)).

(** The offset of a descriptor slot. *)
Definition desc_off (index : Z) : Z := u32 (FS_DESC_BASE + u32 (index * FS_DESC_SIZE)).

(** [for (i = 0; i < FS_MAX_FILES; i++)]: a failed write ends the loop. *)
Fixpoint format_loop (idx : list Z) (free_desc : list Z) (s : store) : option (fs_status * store) :=
  match idx with
  | [] => Some (FS_OK, s)
  | i :: idx =>
      '(st, nv) ← hal_nvm_write (s_nvm s) HAL_NVM_EEPROM (desc_off i) (Ptr free_desc) FS_DESC_SIZE;
      let s := set_nvm s nv in
      if negb (hal_is_ok st) then Some (FS_ERR_NVM, s) else format_loop idx free_desc s
  end.

Definition fs_store_format (s : store) : option (fs_status * store) :=
  let table_end := u32 (FS_DESC_BASE + u32 (FS_MAX_FILES * FS_DESC_SIZE)) in
  if hal_nvm_size (s_nvm s) HAL_NVM_EEPROM <? table_end then Some (FS_ERR_NO_SPACE, s) else
  free_desc ← memset_array FS_DESC_SIZE 0xFF;
  '(st, s) ← format_loop (upto FS_MAX_FILES) free_desc s;
  if negb (fs_ok st) then Some (st, s) else
  let s := Store (Superblock (sb_mounted (s_sb s)) FS_LAYOUT_VERSION (u16 FS_MAX_FILES) 0) (s_nvm s) in
  '(st, s) ← sb_write s;
  if negb (fs_ok st) then Some (st, s) else
  Some (FS_OK, set_mounted s true).

Definition fs_store_is_mounted (s : store) : bool := sb_mounted (s_sb s).

Definition fs_store_max_files (s : store) : Z :=
  if sb_mounted (s_sb s) then sb_max_files (s_sb s) else 0.

(** *** Descriptors *)

Definition desc_raw_read (s : store) (index : Z) (raw : list Z) : option (fs_status * list Z) :=
  if negb (sb_mounted (s_sb s)) then Some (FS_ERR_NOT_FORMATTED, raw) else
  if sb_max_files (s_sb s) <=? index then Some (FS_ERR_PARAM, raw) else
  r ← hal_nvm_read (s_nvm s) HAL_NVM_EEPROM (desc_off index) (Ptr raw) FS_DESC_SIZE;
  '(st, raw) ← filled r;
  if negb (hal_is_ok st) then Some (FS_ERR_NVM, raw) else Some (FS_OK, raw).

Definition fs_store_slot_is_free (s : store) (index : Z) : option bool :=
  '(st, raw) ← desc_raw_read s index (local_array FS_DESC_SIZE);
  if negb (fs_ok st) then Some false else
  t ← rd raw 2;
  Some (t =? u8 FS_TYPE_FREE).

(** The fields of a raw descriptor. *)
Definition desc_fields (raw : list Z) : option fs_descriptor :=
  file_id ← get_u16 raw 0;
  type ← rd raw 2;
  lifecycle ← rd raw 3;
  parent ← get_u16 raw 4;
  size ← get_u16 raw 6;
  data_offset ← get_u32 raw 8;
  ac_read ← rd raw 12;
  ac_update ← rd raw 13;
  sfi ← rd raw 14;
  flags ← rd raw 15;
  Some (FsDescriptor file_id type lifecycle parent size data_offset ac_read ac_update sfi flags).

Definition fs_store_read_desc (s : store) (index : Z) (out : ptr fs_descriptor)
    : option (fs_status * ptr fs_descriptor) :=
  match out with
  | NULL => Some (FS_ERR_PARAM, out)
  | Ptr _ =>
    let out := Ptr fs_descriptor_zero in
    '(st, raw) ← desc_raw_read s index (local_array FS_DESC_SIZE);
    if negb (fs_ok st) then Some (st, out) else
    t ← rd raw 2;
    if t =? u8 FS_TYPE_FREE then Some (FS_ERR_NOT_FOUND, out) else
    stored ← get_u16 raw 18;
    crc ← crc16 (Ptr raw) 18;
    if negb (stored =? crc) then Some (FS_ERR_CORRUPT, out) else
    if negb (t =? u8 FS_TYPE_MF) && negb (t =? u8 FS_TYPE_DF) && negb (t =? u8 FS_TYPE_EF_TRANSPARENT)
    then Some (FS_ERR_CORRUPT, out) else
    d ← desc_fields raw;
    if d_type d =? FS_TYPE_EF_TRANSPARENT then
      let fin := u64 (d_data_offset d + d_size d) in
      if hal_nvm_size (s_nvm s) HAL_NVM_FLASH <? fin then Some (FS_ERR_CORRUPT, Ptr d)
      else Some (FS_OK, Ptr d)
    else Some (FS_OK, Ptr d)
  end.

(** The bytes [fs_store_write_desc] stores. *)
Definition desc_raw (d : fs_descriptor) : option (list Z) :=
  raw ← memset_array FS_DESC_SIZE 0;
  raw ← put_u16 raw 0 (d_file_id d);
  raw ← wr raw 2 (u8 (d_type d));
  raw ← wr raw 3 (u8 (d_lifecycle d));
  raw ← put_u16 raw 4 (d_parent d);
  raw ← put_u16 raw 6 (d_size d);
  raw ← put_u32 raw 8 (d_data_offset d);
  raw ← wr raw 12 (d_ac_read d);
  raw ← wr raw 13 (d_ac_update d);
  raw ← wr raw 14 (d_sfi d);
  raw ← wr raw 15 (d_flags d);
  raw ← put_u16 raw 16 0;
  crc ← crc16 (Ptr raw) 18;
  put_u16 raw 18 crc.

Definition fs_store_write_desc (s : store) (index : Z) (desc : ptr fs_descriptor)
    : option (fs_status * store) :=
  match desc with
  | NULL => Some (FS_ERR_PARAM, s)
  | Ptr d =>
    if negb (sb_mounted (s_sb s)) then Some (FS_ERR_NOT_FORMATTED, s) else
    if sb_max_files (s_sb s) <=? index then Some (FS_ERR_PARAM, s) else
    if d_type d =? FS_TYPE_FREE then Some (FS_ERR_PARAM, s) else
    raw ← desc_raw d;
    write_sync s (desc_off index) raw FS_DESC_SIZE
  end.

Definition fs_store_free_desc (s : store) (index : Z) : option (fs_status * store) :=
  if negb (sb_mounted (s_sb s)) then Some (FS_ERR_NOT_FORMATTED, s) else
  if sb_max_files (s_sb s) <=? index then Some (FS_ERR_PARAM, s) else
  raw ← memset_array FS_DESC_SIZE 0xFF;
  write_sync s (desc_off index) raw FS_DESC_SIZE.

(** The first index of a list that a test accepts. *)
Fixpoint find_first (test : Z → option bool) (idx : list Z) : option (option Z) :=
  match idx with
  | [] => Some None
  | i :: idx => b ← test i; if (b : bool) then Some (Some i) else find_first test idx
  end.

Definition fs_store_find_free_slot (s : store) : option Z :=
  if negb (sb_mounted (s_sb s)) then Some FS_INVALID_INDEX else
  r ← find_first (fs_store_slot_is_free s) (upto (sb_max_files (s_sb s)));
  Some (default FS_INVALID_INDEX r).

(** *** File data *)

Definition fs_store_alloc_data (s : store) (size : Z) (out_offset : ptr Z)
    : option (fs_status * ptr Z * store) :=
  match out_offset with
  | NULL => Some (FS_ERR_PARAM, out_offset, s)
  | Ptr _ =>
    if negb (sb_mounted (s_sb s)) then Some (FS_ERR_NOT_FORMATTED, Ptr 0, s) else
    let flash := hal_nvm_size (s_nvm s) HAL_NVM_FLASH in
    let fin := u64 (sb_data_top (s_sb s) + size) in
    if flash <? fin then Some (FS_ERR_NO_SPACE, Ptr 0, s) else
    let off := sb_data_top (s_sb s) in
    '(st, s) ← sb_write (set_data_top s (u32 fin));
    Some (st, Ptr off, s)
  end.

Definition fs_store_read_data (s : store) (offset len : Z) (dst : ptr (list Z))
    : option (fs_status * ptr (list Z)) :=
  match dst with
  | NULL => Some (FS_ERR_PARAM, dst)
  | Ptr _ =>
    if len =? 0 then Some (FS_OK, dst) else
    if negb (sb_mounted (s_sb s)) then Some (FS_ERR_NOT_FORMATTED, dst) else
    '(st, dst) ← hal_nvm_read (s_nvm s) HAL_NVM_FLASH offset dst len;
    if negb (hal_is_ok st) then Some (FS_ERR_RANGE, dst) else Some (FS_OK, dst)
  end.

Definition fs_store_write_data (s : store) (offset len : Z) (src : ptr (list Z))
    : option (fs_status * store) :=
  match src with
  | NULL => Some (FS_ERR_PARAM, s)
  | Ptr _ =>
    if len =? 0 then Some (FS_OK, s) else
    if negb (sb_mounted (s_sb s)) then Some (FS_ERR_NOT_FORMATTED, s) else
    '(st, nv) ← hal_nvm_write (s_nvm s) HAL_NVM_FLASH offset src len;
    let s := set_nvm s nv in
    if negb (hal_is_ok st) then Some (FS_ERR_RANGE, s) else
    '(st, nv) ← hal_nvm_sync (s_nvm s);
    let s := set_nvm s nv in
    if negb (hal_is_ok st) then Some (FS_ERR_NVM, s) else
    Some (FS_OK, s)
  end.

Definition fs_store_data_free (s : store) : Z :=
  if negb (sb_mounted (s_sb s)) then 0 else
  let flash := hal_nvm_size (s_nvm s) HAL_NVM_FLASH in
  if sb_data_top (s_sb s) <? flash then u32 (flash - sb_data_top (s_sb s)) else 0.

End store.
#[global] Arguments store N : clear implicits.

(** ** Serialisation *)

Definition sb_body (top : Z) : list Z :=
  [FS_MAGIC_0; FS_MAGIC_1; FS_MAGIC_2; FS_MAGIC_3] ++ be16 FS_LAYOUT_VERSION ++ be16 FS_MAX_FILES
  ++ be32 top ++ be16 0.

Definition desc_body (d : fs_descriptor) : list Z :=
  be16 (d_file_id d) ++ [u8 (d_type d); u8 (d_lifecycle d)] ++ be16 (d_parent d)
  ++ be16 (d_size d) ++ be32 (d_data_offset d)
  ++ [d_ac_read d; d_ac_update d; d_sfi d; d_flags d] ++ be16 0.

Lemma desc_raw_seal d : desc_raw d = Some (seal (desc_body d)).
Proof.
  unfold desc_raw. cbv -[u8 Z.shiftr Z.land crc16 crc_bytes seal desc_body].
  rewrite crc16_bytes by (unfold len; simpl; lia). cbv -[u8 Z.shiftr Z.land crc_bytes]. reflexivity.
Qed.

Lemma bytes_sb_body top : bytes (sb_body top).
Proof.
  unfold sb_body. repeat apply bytes_app; try apply bytes_be16; try apply bytes_be32. solve_bytes.
Qed.

Lemma bytes_desc_body d : desc_typed d → bytes (desc_body d).
Proof.
  intros []. unfold desc_body.
  repeat (apply bytes_app; [first [apply bytes_be16 | apply bytes_be32 | idtac]|]);
    try apply bytes_be16; repeat (apply bytes_cons; split; [done || apply u8_range|]); constructor.
Qed.

#[export] Hint Resolve bytes_seal bytes_sb_body bytes_desc_body : card.

(** Bytes one by one. *)
Ltac bytes_list := unfold bytes; repeat (apply Forall_cons; split; [assumption|]); apply Forall_nil; exact I.

(** A list of known length, element by element. *)
Lemma list_20 (l : list Z) :
  len l = 20 →
  ∃ a b c d e f g h i j k m n o p q r s t u, l = [a;b;c;d;e;f;g;h;i;j;k;m;n;o;p;q;r;s;t;u].
Proof.
  unfold len. intros H. do 20 (destruct l as [|? l]; [simpl in H; lia|]).
  destruct l; [|simpl in H; lia]. by eexists _, _, _, _, _, _, _, _, _, _, _, _, _, _, _, _, _, _, _, _.
Qed.

Lemma list_16 (l : list Z) :
  len l = 16 → ∃ a b c d e f g h i j k m n o p q, l = [a;b;c;d;e;f;g;h;i;j;k;m;n;o;p;q].
Proof.
  unfold len. intros H. do 16 (destruct l as [|? l]; [simpl in H; lia|]).
  destruct l; [|simpl in H; lia]. by eexists _, _, _, _, _, _, _, _, _, _, _, _, _, _, _, _.
Qed.

(** ** The abstract view *)

Inductive slot := SlotFree | SlotBad | SlotFile (d : fs_descriptor).

#[export] Instance slot_eq_dec : EqDecision slot.
Proof. solve_decision. Defined.

(** A type the file system stores, and a file whose data lies inside FLASH. *)
Definition type_ok (t : Z) : bool :=
  (t =? FS_TYPE_MF) || (t =? FS_TYPE_DF) || (t =? FS_TYPE_EF_TRANSPARENT).

Definition data_ok (flash : Z) (d : fs_descriptor) : bool :=
  negb (fs_is_ef d) || (d_data_offset d + d_size d <=? flash).

(** What the 20 bytes of a descriptor slot mean. *)
Definition slot_of_raw (flash : Z) (raw : list Z) : slot :=
  match raw with
  | [f1; f0; ty; lc; p1; p0; z1; z0; o3; o2; o1; o0; ar; au; sf; fl; r1; r0; c1; c0] =>
      let d := FsDescriptor (f1 * 256 + f0) ty lc (p1 * 256 + p0) (z1 * 256 + z0)
                 (((o3 * 256 + o2) * 256 + o1) * 256 + o0) ar au sf fl in
      if ty =? FS_TYPE_FREE then SlotFree
      else if (c1 * 256 + c0 =? crc_bytes (take 18 raw)) && type_ok ty && data_ok flash d
      then SlotFile d else SlotBad
  | _ => SlotBad
  end.

(** A descriptor the store accepts and gives back. *)
Record desc_ok (flash : Z) (d : fs_descriptor) : Prop := {
  do_typed : desc_typed d;
  do_type : type_ok (d_type d) = true;
  do_data : data_ok flash d = true;
}.

Lemma slot_of_raw_free flash : slot_of_raw flash (replicate 20 0xFF) = SlotFree.
Proof. reflexivity. Qed.

Lemma slot_of_raw_seal flash d :
  desc_ok flash d → slot_of_raw flash (seal (desc_body d)) = SlotFile d.
Proof.
  intros [Ht Hty Hd]. pose proof Ht as [].
  assert ((d_type d =? FS_TYPE_FREE) = false) as Hnf.
  { unfold type_ok, FS_TYPE_MF, FS_TYPE_DF, FS_TYPE_EF_TRANSPARENT, FS_TYPE_FREE in *. lia. }
  unfold seal. destruct (be16_bytes (crc_bytes (desc_body d)) (crc_bytes_u16 _)) as (c1 & c0 & -> & _ & _ & Hc).
  assert (desc_body d = desc_body d) as Hb by done. unfold desc_body in Hb at 2.
  destruct (be16_bytes (d_file_id d)) as (f1 & f0 & Ef & _ & _ & Hf); [done|].
  destruct (be16_bytes (d_parent d)) as (p1 & p0 & Ep & _ & _ & Hp); [done|].
  destruct (be16_bytes (d_size d)) as (z1 & z0 & Ez & _ & _ & Hz); [done|].
  destruct (be32_bytes (d_data_offset d)) as (o3 & o2 & o1 & o0 & Eo & _ & _ & _ & _ & Ho); [done|].
  rewrite Ef, Ep, Ez, Eo, !(u8_id (d_type d)), !(u8_id (d_lifecycle d)) in Hb by done.
  unfold be16 in Hb. cbn [app] in Hb. rewrite Hb at 1.
  cbn [app slot_of_raw firstn]. rewrite <- Hb, Hf, Hp, Hz, Ho, Hc, Hnf, Z.eqb_refl, Hty.
  replace (FsDescriptor _ _ _ _ _ _ _ _ _ _) with d by (by destruct d). by rewrite Hd.
Qed.

Record fs_view := FsView { v_slots : list slot; v_top : Z; v_flash : list Z }.

(** The meaning of the [n] slots of the table in an EEPROM image. *)
Definition slots_of (flash : Z) (n : nat) (ee : list Z) : list slot :=
  (λ i : nat, slot_of_raw flash (slice (FS_DESC_BASE + FS_DESC_SIZE * Z.of_nat i) FS_DESC_SIZE ee))
    <$> seq 0 n.

Definition set_slot (v : fs_view) (i : Z) (sl : slot) : fs_view :=
  FsView (<[Z.to_nat i := sl]> (v_slots v)) (v_top v) (v_flash v).

Definition set_flash (v : fs_view) (off : Z) (src : list Z) : fs_view :=
  FsView (v_slots v) (v_top v) (splice (v_flash v) off src).

(** The descriptor in slot [i], when there is a sound one. *)
Definition file_at (v : fs_view) (i : Z) : option fs_descriptor :=
  if 0 <=? i then
    match v_slots v !! Z.to_nat i with Some (SlotFile d) => Some d | _ => None end
  else None.

Lemma length_slots_of flash n ee : length (slots_of flash n ee) = n.
Proof. unfold slots_of. by rewrite length_fmap, length_seq. Qed.

Lemma lookup_slots_of flash n ee (i : nat) :
  (i < n)%nat →
  slots_of flash n ee !! i =
    Some (slot_of_raw flash (slice (FS_DESC_BASE + FS_DESC_SIZE * Z.of_nat i) FS_DESC_SIZE ee)).
Proof. intros. unfold slots_of. rewrite list_lookup_fmap, lookup_seq_lt by done. done. Qed.

(** Writing one slot changes the meaning of that slot only. *)
Lemma slots_of_splice flash n ee i raw :
  0 ≤ i < Z.of_nat n → FS_DESC_BASE + FS_DESC_SIZE * Z.of_nat n ≤ len ee → len raw = FS_DESC_SIZE →
  slots_of flash n (splice ee (FS_DESC_BASE + FS_DESC_SIZE * i) raw) =
    <[Z.to_nat i := slot_of_raw flash raw]> (slots_of flash n ee).
Proof.
  unfold FS_DESC_BASE, FS_SB_OFFSET, FS_SUPERBLOCK_SIZE, FS_DESC_SIZE. intros Hi Hfit Hraw.
  apply list_eq. intros k. destruct (decide (k < n)%nat) as [Hk|Hk].
  2: { rewrite !lookup_ge_None_2; [done|..]; rewrite ?length_insert, length_slots_of; lia. }
  rewrite lookup_slots_of by done. unfold FS_DESC_BASE, FS_SB_OFFSET, FS_SUPERBLOCK_SIZE, FS_DESC_SIZE.
  destruct (decide (k = Z.to_nat i)) as [->|Hne].
  - rewrite list_lookup_insert_eq by (rewrite length_slots_of; lia). f_equal. f_equal.
    rewrite Z2Nat.id by lia. pose proof (slice_splice_same ee (0 + 16 + 20 * i) raw) as Hss.
    rewrite Hraw in Hss. apply Hss; lia.
  - rewrite list_lookup_insert_ne by done. rewrite lookup_slots_of by done. f_equal. f_equal.
    unfold FS_DESC_BASE, FS_SB_OFFSET, FS_SUPERBLOCK_SIZE, FS_DESC_SIZE.
    apply slice_splice_other; lia.
Qed.

(** Bytes before the table do not matter to it. *)
Lemma slots_of_low flash n ee src :
  len src ≤ FS_DESC_BASE → FS_DESC_BASE + FS_DESC_SIZE * Z.of_nat n ≤ len ee →
  slots_of flash n (splice ee 0 src) = slots_of flash n ee.
Proof.
  unfold FS_DESC_BASE, FS_SB_OFFSET, FS_SUPERBLOCK_SIZE, FS_DESC_SIZE. intros Hs Hfit.
  apply list_eq. intros k. destruct (decide (k < n)%nat) as [Hk|Hk].
  2: { rewrite !lookup_ge_None_2; [done|..]; rewrite length_slots_of; lia. }
  rewrite !lookup_slots_of by done. unfold FS_DESC_BASE, FS_SB_OFFSET, FS_SUPERBLOCK_SIZE, FS_DESC_SIZE.
  f_equal. f_equal. apply slice_splice_other; lia.
Qed.

(** ** Searching *)

(** The search ends, and answers the first index the test accepts. *)
Lemma find_first_spec (test : Z → option bool) n :
  (∀ i, 0 ≤ i < n → ∃ b, test i = Some b) →
  ∃ r, find_first test (upto n) = Some r ∧
    match r with
    | Some i => 0 ≤ i < n ∧ test i = Some true ∧ ∀ j, 0 ≤ j < i → test j = Some false
    | None => ∀ j, 0 ≤ j < n → test j = Some false
    end.
Proof.
  intros Htest. unfold upto.
  assert (∀ (m : nat) k, 0 ≤ k → k + Z.of_nat m = Z.max 0 n →
    (∀ j, 0 ≤ j < k → test j = Some false) →
    ∃ r, find_first test (seqZ k (Z.of_nat m)) = Some r ∧
      match r with
      | Some i => 0 ≤ i < n ∧ test i = Some true ∧ ∀ j, 0 ≤ j < i → test j = Some false
      | None => ∀ j, 0 ≤ j < n → test j = Some false
      end) as Hgen.
  { induction m as [|m IH]; intros k Hk Hkm Hpre.
    { exists None. split; [done|]. intros j Hj. apply Hpre. lia. }
    rewrite seqZ_cons by lia. cbn [find_first]. destruct (Htest k) as [b Hb]; [lia|].
    rewrite Hb. bind_simpl. destruct b.
    { exists (Some k). split; [done|]. split; [lia|]. done. }
    replace (Z.pred (Z.of_nat (S m))) with (Z.of_nat m) by lia. apply IH; [lia..|].
    intros j Hj. destruct (decide (j = k)) as [->|]; [done|]. apply Hpre. lia. }
  destruct (decide (0 ≤ n)).
  - specialize (Hgen (Z.to_nat n) 0). rewrite Z2Nat.id in Hgen by lia. apply Hgen; lia.
  - exists None. rewrite seqZ_nil by lia. split; [done|]. lia.
Qed.

(** ** Specifications *)

Section specs.
Context {N : Type} `{HalNvmSpec N}.
Implicit Types s : store N.

Definition eeprom (s : store N) : list Z := nvm_mem (s_nvm s) HAL_NVM_EEPROM.
Definition flash (s : store N) : list Z := nvm_mem (s_nvm s) HAL_NVM_FLASH.

(** What always holds, whatever the device answers. *)
Record store_safe (s : store N) : Prop := {
  ss_wf : nvm_wf (s_nvm s);
  ss_max : is_u16 (sb_max_files (s_sb s));
  ss_top : is_u32 (sb_data_top (s_sb s));
}.

(** A mounted card. *)
Record store_ok (s : store N) : Prop := {
  so_wf : nvm_wf (s_nvm s);
  so_ready : nvm_ready (s_nvm s);
  so_mounted : sb_mounted (s_sb s) = true;
  so_max : 0 < sb_max_files (s_sb s) ≤ FS_MAX_FILES;
  so_table : FS_DESC_BASE + FS_DESC_SIZE * sb_max_files (s_sb s) ≤ len (eeprom s);
  so_top : 0 ≤ sb_data_top (s_sb s) ≤ len (flash s);
}.

(** The superblock in EEPROM is the one the mirror says. *)
Definition sb_synced (s : store N) : Prop :=
  slice 0 FS_SUPERBLOCK_SIZE (eeprom s) = seal (sb_body (sb_data_top (s_sb s))) ∧
  sb_max_files (s_sb s) = FS_MAX_FILES ∧ sb_version (s_sb s) = FS_LAYOUT_VERSION.

Definition max_files (s : store N) : Z := sb_max_files (s_sb s).

Definition view (s : store N) : fs_view :=
  FsView (slots_of (len (flash s)) (Z.to_nat (max_files s)) (eeprom s))
         (sb_data_top (s_sb s)) (flash s).

Lemma store_ok_safe s : store_ok s → store_safe s.
Proof.
  intros [Hwf ? ? Hm ? Ht]. pose proof (nvm_mem_len _ HAL_NVM_FLASH Hwf).
  unfold FS_MAX_FILES, flash in *. constructor; unfold is_u16, is_u32; [done|lia|lia].
Qed.

Lemma length_view_slots s : length (v_slots (view s)) = Z.to_nat (max_files s).
Proof. apply length_slots_of. Qed.

Lemma len_eeprom s : store_safe s → len (eeprom s) < 4294967296.
Proof. intros []. by apply nvm_mem_len. Qed.

Lemma len_flash s : store_safe s → len (flash s) < 4294967296.
Proof. intros []. by apply nvm_mem_len. Qed.

Lemma desc_off_small i : 0 ≤ i < 65536 → desc_off i = FS_DESC_BASE + FS_DESC_SIZE * i ∧ is_u32 (desc_off i).
Proof.
  intros. unfold desc_off, is_u32. split; [|apply u32_range].
  unfold FS_DESC_BASE, FS_SB_OFFSET, FS_SUPERBLOCK_SIZE, FS_DESC_SIZE, u32. lia.
Qed.

(** *** Safety: every operation is defined, whatever the device answers *)

Lemma write_sync_total s off raw n :
  store_safe s → is_u32 off → bytes raw → len raw = n → is_u32 n →
  wp (write_sync s off raw n) (λ '(_, s'), store_safe s' ∧ s_sb s' = s_sb s).
Proof.
  intros [Hwf Hm Ht] Hoff Hb Hn Hn32. unfold write_sync. pose proof (len_nonneg raw).
  destruct (nvm_write_total (s_nvm s) HAL_NVM_EEPROM off raw n) as (st & nv & -> & Hwf1 & _);
    try done; [lia|]. simpl.
  destruct (hal_is_ok st); simpl; [|split; [by constructor|done]].
  destruct (nvm_sync_total nv Hwf1) as (st' & nv' & -> & Hwf2 & _). simpl.
  destruct (hal_is_ok st'); simpl; (split; [by constructor|done]).
Qed.

(** The superblock that is written. *)
Lemma sb_write_eq s :
  sb_write s = write_sync s FS_SB_OFFSET (seal (sb_body (sb_data_top (s_sb s)))) FS_SUPERBLOCK_SIZE.
Proof.
  unfold sb_write. cbv -[u8 u16 Z.shiftr Z.land crc16 crc_bytes seal sb_body write_sync sb_data_top s_sb].
  rewrite crc16_bytes by (unfold len; simpl; lia).
  cbv -[u8 u16 Z.shiftr Z.land crc_bytes write_sync sb_data_top s_sb]. reflexivity.
Qed.

Lemma len_seal_sb top : len (seal (sb_body top)) = FS_SUPERBLOCK_SIZE.
Proof. reflexivity. Qed.

Lemma len_seal_desc d : len (seal (desc_body d)) = FS_DESC_SIZE.
Proof. reflexivity. Qed.

Lemma sb_write_total s :
  store_safe s → wp (sb_write s) (λ '(_, s'), store_safe s' ∧ s_sb s' = s_sb s).
Proof.
  intros Hs. rewrite sb_write_eq.
  apply write_sync_total; [done|unfold is_u32, FS_SB_OFFSET; lia|auto with card|done|done].
Qed.

Lemma desc_raw_read_total s i raw :
  store_safe s → is_u16 i → len raw = FS_DESC_SIZE → bytes raw →
  wp (desc_raw_read s i raw) (λ '(_, raw'), len raw' = FS_DESC_SIZE ∧ bytes raw').
Proof.
  intros [Hwf Hm Ht] Hi Hl Hb. unfold desc_raw_read. case_if; [done|]. case_if; [done|].
  destruct (desc_off_small i Hi) as [_ ?]. unfold FS_DESC_SIZE in *.
  destruct (nvm_read_total (s_nvm s) HAL_NVM_EEPROM (desc_off i) raw 20) as (st & raw' & -> & ? & ?);
    try done; [lia|]. simpl. by destruct (hal_is_ok st); simpl; rewrite <- Hl.
Qed.

Lemma local_array_ok n : 0 ≤ n → len (local_array n) = n ∧ bytes (local_array n).
Proof.
  intros. unfold local_array. rewrite len_replicate by done. split; [done|].
  apply Forall_replicate. unfold is_u8. lia.
Qed.

Lemma slot_is_free_total s i : store_safe s → is_u16 i → ∃ b, fs_store_slot_is_free s i = Some b.
Proof.
  intros Hs Hi. unfold fs_store_slot_is_free.
  destruct (local_array_ok FS_DESC_SIZE) as [Hl Hb]; [done|].
  destruct (wp_elim _ _ (desc_raw_read_total s i _ Hs Hi Hl Hb)) as ([st raw] & -> & Hlr & _). simpl.
  destruct (fs_ok st); simpl; [|eauto].
  destruct (rd_some raw 2) as (x & -> & _); [rewrite Hlr; done|]. simpl. eauto.
Qed.

(** The fields of twenty bytes. *)
Lemma desc_fields_val f1 f0 ty lc p1 p0 z1 z0 o3 o2 o1 o0 ar au sf fl r1 r0 c1 c0 :
  bytes [f1;f0;ty;lc;p1;p0;z1;z0;o3;o2;o1;o0;ar;au;sf;fl;r1;r0;c1;c0] →
  desc_fields [f1;f0;ty;lc;p1;p0;z1;z0;o3;o2;o1;o0;ar;au;sf;fl;r1;r0;c1;c0] =
    Some (FsDescriptor (f1 * 256 + f0) ty lc (p1 * 256 + p0) (z1 * 256 + z0)
            (((o3 * 256 + o2) * 256 + o1) * 256 + o0) ar au sf fl) ∧
  desc_typed (FsDescriptor (f1 * 256 + f0) ty lc (p1 * 256 + p0) (z1 * 256 + z0)
            (((o3 * 256 + o2) * 256 + o1) * 256 + o0) ar au sf fl).
Proof.
  intros Hb. unfold bytes in Hb. rewrite !Forall_cons in Hb. destruct_and? Hb.
  split.
  - etransitivity; [cbv -[u16 u32 Z.shiftl Z.lor]; reflexivity|].
    rewrite be32_val by done. by rewrite !be16_val by done.
  - unfold is_u8 in *. constructor; simpl; unfold is_u8, is_u16, is_u32; lia.
Qed.

(** A descriptor read from the card: well typed, and sound when the status
    says so. *)
Lemma read_desc_total s i d0 :
  store_safe s → is_u16 i →
  ∃ st o, fs_store_read_desc s i (Ptr d0) = Some (st, Ptr o) ∧ desc_typed o ∧
    (st = FS_OK → desc_ok (len (flash s)) o).
Proof.
  intros Hs Hi. unfold fs_store_read_desc.
  destruct (local_array_ok FS_DESC_SIZE) as [Hl Hb]; [done|].
  destruct (wp_elim _ _ (desc_raw_read_total s i _ Hs Hi Hl Hb)) as ([st raw] & -> & Hlr & Hbr). simpl.
  destruct st; simpl; try (eexists _, _; split; [done|]; split; [apply desc_zero_typed|done]).
  destruct (list_20 raw Hlr)
    as (f1&f0&ty&lc&p1&p0&z1&z0&o3&o2&o1&o0&ar&au&sf&fl&r1&r0&c1&c0&->).
  destruct (desc_fields_val _ _ _ _ _ _ _ _ _ _ _ _ _ _ _ _ _ _ _ _ Hbr) as [Hd Hty].
  unfold get_u16 at 1. rd_simpl.
  case_if; [eexists _, _; split; [done|]; split; [apply desc_zero_typed|done]|].
  rewrite crc16_bytes by (rewrite Hlr; done). bind_simpl.
  case_if; [eexists _, _; split; [done|]; split; [apply desc_zero_typed|done]|].
  case_if; [eexists _, _; split; [done|]; split; [apply desc_zero_typed|done]|].
  rewrite Hd. cbn [mbind option_bind d_type d_data_offset d_size].
  assert (type_ok ty = true) as Hok.
  { unfold type_ok. change (u8 FS_TYPE_MF) with FS_TYPE_MF in *.
    change (u8 FS_TYPE_DF) with FS_TYPE_DF in *.
    change (u8 FS_TYPE_EF_TRANSPARENT) with FS_TYPE_EF_TRANSPARENT in *. lia. }
  rewrite nvm_size_mem by apply Hs. pose proof Hty as []. simpl in *. unfold is_u32, is_u16 in *.
  rewrite u64_id by lia. fold (flash s).
  repeat case_if; (eexists _, _; split; [done|]; split; [exact Hty|]); try done;
    intros _; (constructor; [exact Hty|exact Hok|]); unfold data_ok, fs_is_ef; simpl; lia.
Qed.

Lemma mount_total s :
  store_safe s →
  wp (fs_store_mount s) (λ '(st, s'), store_safe s' ∧ s_nvm s' = s_nvm s ∧
    (st = FS_OK → nvm_ready (s_nvm s) → store_ok s')).
Proof.
  intros Hs. pose proof Hs as [Hwf Hm Ht]. unfold fs_store_mount.
  destruct (local_array_ok FS_SUPERBLOCK_SIZE) as [Hl Hb]; [done|].
  destruct (nvm_read_total (s_nvm s) HAL_NVM_EEPROM FS_SB_OFFSET (local_array FS_SUPERBLOCK_SIZE)
              FS_SUPERBLOCK_SIZE) as (st & raw & Hr & Hlr & Hbr); try done.
  cbn [set_mounted s_nvm]. rewrite Hr. cbn [mbind option_bind filled].
  assert (store_safe (set_mounted s false)) as Hsf by (by constructor).
  destruct (hal_is_ok st); cbn [negb]; [|by split_and!]. rewrite Hl in Hlr.
  destruct (list_16 raw Hlr) as (m0&m1&m2&m3&v1&v0&x1&x0&t3&t2&t1&t0&r1&r0&c1&c0&->).
  unfold bytes in Hbr. rewrite !Forall_cons in Hbr. destruct_and? Hbr.
  unfold get_u16, get_u32. rd_simpl.
  case_if; [by split_and!|].
  rewrite crc16_bytes by (rewrite Hlr; done). bind_simpl.
  rewrite !be16_val, be32_val by done.
  case_if; [by split_and!|]. case_if; [by split_and!|]. case_if; [by split_and!|].
  unfold FS_MAX_FILES in *. unfold is_u8 in *.
  rewrite !nvm_size_mem by done. case_if; [by split_and!|]. case_if; [by split_and!|].
  set (mf := x1 * 256 + x0) in *. set (top := ((t3 * 256 + t2) * 256 + t1) * 256 + t0) in *.
  assert (0 <= top) as Htop by lia. assert (0 < mf <= 32) as Hmf by lia. fold (flash s) in *. fold (eeprom s) in *.
  pose proof (len_flash s Hs). unfold u32 in *.
  split; [constructor; simpl; unfold is_u16, is_u32; [done|lia|lia]|].
  split; [done|]. intros _ Hready. unfold FS_DESC_BASE, FS_SB_OFFSET, FS_SUPERBLOCK_SIZE, FS_DESC_SIZE in *.
  constructor; simpl; unfold FS_DESC_BASE, FS_SB_OFFSET, FS_SUPERBLOCK_SIZE, FS_DESC_SIZE, FS_MAX_FILES;
    try done; unfold eeprom, flash in *; simpl; lia.
Qed.

Lemma format_loop_total idx fd s :
  store_safe s → Forall is_u16 idx → len fd = FS_DESC_SIZE → bytes fd →
  wp (format_loop idx fd s) (λ '(_, s'), store_safe s' ∧ s_sb s' = s_sb s).
Proof.
  intros Hs Hidx Hl Hb. revert s Hs. induction Hidx as [|i idx Hi _ IH]; intros s Hs; [done|].
  cbn [format_loop]. pose proof Hs as [Hwf Hm Ht]. destruct (desc_off_small i Hi) as [_ ?].
  destruct (nvm_write_total (s_nvm s) HAL_NVM_EEPROM (desc_off i) fd FS_DESC_SIZE)
    as (st & nv & -> & Hwf1 & _); try done; [rewrite Hl; done|]. bind_simpl.
  assert (store_safe (set_nvm s nv)) as Hs1 by (by constructor).
  destruct (hal_is_ok st); cbn [negb]; [|done]. exact (IH (set_nvm s nv) Hs1).
Qed.

Lemma upto_u16 n : n ≤ 65536 → Forall is_u16 (upto n).
Proof. intros. apply Forall_forall. intros i Hi%elem_of_upto. unfold is_u16. lia. Qed.

Lemma memset_array_eq n v : 0 ≤ n → is_u8 v → memset_array n v = Some (replicate (Z.to_nat n) v).
Proof.
  intros Hn Hv. unfold memset_array. rewrite os_memset_block by (unfold local_array; rewrite len_replicate; lia).
  bind_simpl. rewrite u8_id by done. f_equal. apply splice_all. unfold local_array.
  by rewrite !len_replicate by done.
Qed.

Lemma format_total s :
  store_safe s → wp (fs_store_format s) (λ '(_, s'), store_safe s').
Proof.
  intros Hs. unfold fs_store_format. case_if; [done|].
  rewrite memset_array_eq by (done || unfold is_u8; lia). bind_simpl.
  wp_step (format_loop_total (upto FS_MAX_FILES) (replicate (Z.to_nat FS_DESC_SIZE) 0xFF) s);
    [done|by apply upto_u16|done|solve_bytes|].
  intros [st s1] [Hs1 _]. destruct (fs_ok st); cbn [negb]; [|done].
  wp_step sb_write_total; [by constructor; [apply Hs1|..]|].
  intros [st2 s2] [Hs2 _]. destruct (fs_ok st2); cbn [negb]; [|done]. destruct Hs2. by constructor.
Qed.

Lemma write_desc_total s i d :
  store_safe s → is_u16 i → desc_typed d →
  wp (fs_store_write_desc s i (Ptr d)) (λ '(_, s'), store_safe s' ∧ s_sb s' = s_sb s).
Proof.
  intros Hs Hi Hd. unfold fs_store_write_desc. case_if; [done|]. case_if; [done|]. case_if; [done|].
  rewrite desc_raw_seal. bind_simpl. destruct (desc_off_small i Hi).
  apply write_sync_total; auto with card. done.
Qed.

Lemma free_desc_total s i :
  store_safe s → is_u16 i →
  wp (fs_store_free_desc s i) (λ '(_, s'), store_safe s' ∧ s_sb s' = s_sb s).
Proof.
  intros Hs Hi. unfold fs_store_free_desc. case_if; [done|]. case_if; [done|].
  rewrite memset_array_eq by (done || unfold is_u8; lia). bind_simpl. destruct (desc_off_small i Hi).
  apply write_sync_total; [done|done|solve_bytes|done|done].
Qed.

Lemma find_free_slot_total s :
  store_safe s → ∃ i, fs_store_find_free_slot s = Some i ∧ is_u16 i.
Proof.
  intros Hs. unfold fs_store_find_free_slot. case_if; [by exists FS_INVALID_INDEX|].
  pose proof (ss_max _ Hs) as Hm. unfold is_u16 in Hm.
  destruct (find_first_spec (fs_store_slot_is_free s) (sb_max_files (s_sb s))) as (r & -> & Hr).
  { intros i Hi. apply slot_is_free_total; [done|]. unfold is_u16. lia. }
  bind_simpl. eexists. split; [done|]. destruct r; simpl; unfold FS_INVALID_INDEX, is_u16; lia.
Qed.

Lemma alloc_data_total s size o :
  store_safe s → is_u16 size →
  wp (fs_store_alloc_data s size (Ptr o))
     (λ '(st, o', s'), store_safe s' ∧ ∃ off, o' = Ptr off ∧ is_u32 off).
Proof.
  intros Hs Hsz. unfold fs_store_alloc_data. case_if; [split; [done|]; by exists 0|].
  case_if; [split; [done|]; by exists 0|].
  wp_step sb_write_total.
  - destruct Hs. constructor; [done..|]. simpl. apply u32_range.
  - intros [st s'] [Hs' _]. split; [done|]. eexists. split; [done|]. apply Hs.
Qed.

Lemma read_data_total s off n d :
  store_safe s → is_u32 off → 0 ≤ n ≤ len d → is_u16 n → bytes d →
  ∃ st d', fs_store_read_data s off n (Ptr d) = Some (st, Ptr d') ∧ len d' = len d ∧ bytes d'.
Proof.
  intros Hs Hoff Hn Hn16 Hd. unfold fs_store_read_data. case_if; [eauto|]. case_if; [eauto|].
  unfold is_u16, is_u32 in *.
  destruct (nvm_read_total (s_nvm s) HAL_NVM_FLASH off d n) as (st & d' & -> & ? & ?);
    try done; [apply Hs|unfold is_u32; lia|]. bind_simpl. destruct (hal_is_ok st); simpl; eauto.
Qed.

Lemma write_data_total s off n b :
  store_safe s → is_u32 off → 0 ≤ n ≤ len b → is_u16 n → bytes b →
  wp (fs_store_write_data s off n (Ptr b)) (λ '(_, s'), store_safe s' ∧ s_sb s' = s_sb s).
Proof.
  intros Hs Hoff Hn Hn16 Hb. pose proof Hs as [Hwf Hm Ht]. unfold fs_store_write_data.
  case_if; [done|]. case_if; [done|]. unfold is_u16, is_u32 in *.
  destruct (nvm_write_total (s_nvm s) HAL_NVM_FLASH off b n) as (st & nv & -> & Hwf1 & _);
    try done; [unfold is_u32; lia|]. bind_simpl.
  destruct (hal_is_ok st); cbn [negb]; [|split; [by constructor|done]].
  destruct (nvm_sync_total nv Hwf1) as (st' & nv' & Hsy & Hwf2 & _). cbn [set_nvm s_nvm].
  rewrite Hsy. bind_simpl.
  destruct (hal_is_ok st'); cbn [negb]; (split; [by constructor|done]).
Qed.

(** *** Function: what the operations do to a mounted card *)

Definition slot_status (sl : slot) : fs_status :=
  match sl with SlotFree => FS_ERR_NOT_FOUND | SlotBad => FS_ERR_CORRUPT | SlotFile _ => FS_OK end.

Lemma write_sync_ok s off raw :
  nvm_wf (s_nvm s) → nvm_ready (s_nvm s) → is_u32 off → bytes raw → off + len raw ≤ len (eeprom s) →
  ∃ s', write_sync s off raw (len raw) = Some (FS_OK, s') ∧ s_sb s' = s_sb s ∧
    nvm_wf (s_nvm s') ∧ nvm_ready (s_nvm s') ∧
    eeprom s' = splice (eeprom s) off raw ∧ flash s' = flash s.
Proof.
  intros Hwf Hr Hoff Hb Hle. unfold write_sync, eeprom, flash in *. pose proof (len_nonneg raw).
  pose proof (nvm_mem_len (s_nvm s) HAL_NVM_EEPROM Hwf). unfold is_u32 in *.
  destruct (nvm_write_all (s_nvm s) HAL_NVM_EEPROM off raw) as (nv & -> & Hwf1 & Hr1 & He & Ho);
    try done; [by left|unfold is_u32; lia|]. bind_simpl. cbn [hal_is_ok negb].
  destruct (nvm_sync_ok nv Hwf1 Hr1) as (nv' & Hsy & Hwf2 & Hr2 & Hm). cbn [set_nvm s_nvm].
  rewrite Hsy. bind_simpl. cbn [hal_is_ok negb]. eexists. split; [done|].
  cbn [set_nvm s_nvm s_sb]. rewrite !Hm, He. by rewrite Ho.
Qed.

(** The bytes of a slot that exists. *)
Lemma raw_read_ok s i :
  store_ok s → 0 ≤ i < max_files s →
  ∃ raw, desc_raw_read s i (local_array FS_DESC_SIZE) = Some (FS_OK, raw) ∧
    len raw = FS_DESC_SIZE ∧ bytes raw ∧
    v_slots (view s) !! Z.to_nat i = Some (slot_of_raw (len (flash s)) raw).
Proof.
  intros [Hwf Hr Hm Hmax Htab _] Hi. unfold max_files, FS_MAX_FILES in *. unfold desc_raw_read.
  rewrite Hm. cbn [negb]. replace (sb_max_files (s_sb s) <=? i) with false by lia.
  destruct (desc_off_small i) as [Hoff Hoff32]; [lia|].
  unfold FS_DESC_BASE, FS_SB_OFFSET, FS_SUPERBLOCK_SIZE in *. unfold local_array.
  rewrite nvm_read_all; try done; [|by left|rewrite Hoff; unfold FS_DESC_SIZE, eeprom in *; lia].
  bind_simpl. cbn [filled hal_is_ok negb]. bind_simpl. cbn [hal_is_ok negb]. eexists. split; [done|].
  assert (FS_DESC_SIZE = 20) as Hds by done.
  split; [rewrite len_slice; unfold is_u32, eeprom in *; lia|].
  split; [apply bytes_slice, nvm_mem_bytes; done|].
  cbn [view v_slots]. unfold max_files. rewrite lookup_slots_of by lia.
  rewrite Hoff, Z2Nat.id by lia. done.
Qed.

Lemma slot_is_free_ok s i :
  store_ok s → 0 ≤ i < max_files s →
  ∃ sl, v_slots (view s) !! Z.to_nat i = Some sl ∧
    fs_store_slot_is_free s i = Some (bool_decide (sl = SlotFree)).
Proof.
  intros Hs Hi. destruct (raw_read_ok s i Hs Hi) as (raw & Hraw & Hl & Hb & Hv).
  eexists. split; [exact Hv|]. unfold fs_store_slot_is_free. rewrite Hraw. bind_simpl. cbn [fs_ok negb].
  destruct (list_20 raw Hl) as (f1&f0&ty&lc&p1&p0&z1&z0&o3&o2&o1&o0&ar&au&sf&fl&r1&r0&c1&c0&->).
  rd_simpl. f_equal. cbn [slot_of_raw]. change (u8 FS_TYPE_FREE) with FS_TYPE_FREE.
  destruct (ty =? FS_TYPE_FREE); [done|]. by case_if.
Qed.

(** Reading a descriptor answers by what is in the slot. *)
Lemma read_desc_ok s i d0 :
  store_ok s → 0 ≤ i < max_files s →
  ∃ sl o, v_slots (view s) !! Z.to_nat i = Some sl ∧
    fs_store_read_desc s i (Ptr d0) = Some (slot_status sl, Ptr o) ∧
    (∀ d, sl = SlotFile d → o = d ∧ desc_ok (len (flash s)) d).
Proof.
  intros Hs Hi. pose proof (store_ok_safe s Hs) as Hsafe.
  assert (is_u16 i) as Hi16.
  { unfold is_u16. destruct Hs. unfold max_files, FS_MAX_FILES in *. lia. }
  destruct (read_desc_total s i d0 Hsafe Hi16) as (st & o & Ho & Hty & Hdok).
  destruct (raw_read_ok s i Hs Hi) as (raw & Hraw & Hl & Hb & Hv).
  eexists _, o. split; [exact Hv|].
  assert (st = slot_status (slot_of_raw (len (flash s)) raw) ∧
          ∀ d, slot_of_raw (len (flash s)) raw = SlotFile d → o = d) as [Hst Hd].
  { revert Ho. unfold fs_store_read_desc. rewrite Hraw. bind_simpl. cbn [fs_ok negb].
    destruct (list_20 raw Hl) as (f1&f0&ty&lc&p1&p0&z1&z0&o3&o2&o1&o0&ar&au&sf&fl&r1&r0&c1&c0&->).
    destruct (desc_fields_val _ _ _ _ _ _ _ _ _ _ _ _ _ _ _ _ _ _ _ _ Hb) as [Hdf Hdt].
    unfold get_u16 at 1. rd_simpl. cbn [slot_of_raw]. change (u8 FS_TYPE_FREE) with FS_TYPE_FREE.
    destruct (ty =? FS_TYPE_FREE); [by intros [= <- <-]|].
    rewrite crc16_bytes by (rewrite Hl; done). bind_simpl.
    unfold bytes in Hb. rewrite !Forall_cons in Hb. destruct_and? Hb.
    rewrite be16_val by done. unfold slice. rewrite drop_0. change (Z.to_nat 18) with 18%nat.
    destruct (_ =? crc_bytes _); cbn [negb andb]; [|by intros [= <- <-]].
    change (u8 FS_TYPE_MF) with FS_TYPE_MF. change (u8 FS_TYPE_DF) with FS_TYPE_DF.
    change (u8 FS_TYPE_EF_TRANSPARENT) with FS_TYPE_EF_TRANSPARENT.
    unfold type_ok. destruct (ty =? FS_TYPE_MF) eqn:E1, (ty =? FS_TYPE_DF) eqn:E2,
      (ty =? FS_TYPE_EF_TRANSPARENT) eqn:E3; cbn [negb andb orb]; try (by intros [= <- <-]);
      rewrite Hdf; bind_simpl; unfold data_ok, fs_is_ef; cbn [d_type d_data_offset d_size]; rewrite E3;
      cbn [negb orb]; try (intros [= <- <-]; split; [done|]; intros d [= <-]; done).
    all: rewrite nvm_size_mem by apply Hs; fold (flash s); destruct Hdt; simpl in *;
      unfold is_u32, is_u16 in *; rewrite u64_id by lia; rewrite Z.leb_antisym;
      destruct (_ <? _); cbn [negb]; intros [= <- <-]; (split; [done|]); intros d; by try intros [= <-]. }
  rewrite Ho, Hst. split; [done|]. intros d Hsl. specialize (Hd d Hsl). subst o. split; [done|].
  apply Hdok. by rewrite Hst, Hsl.
Qed.

Lemma read_desc_beyond s i d0 :
  store_ok s → max_files s ≤ i → fs_store_read_desc s i (Ptr d0) = Some (FS_ERR_PARAM, Ptr fs_descriptor_zero).
Proof.
  intros [_ _ Hm _ _ _] Hi. unfold fs_store_read_desc, desc_raw_read, max_files in *.
  rewrite Hm. cbn [negb]. by replace (sb_max_files (s_sb s) <=? i) with true by lia.
Qed.

(** A metadata write that stays inside the descriptor table. *)
Lemma slot_write_ok s i raw :
  store_ok s → 0 ≤ i < max_files s → bytes raw → len raw = FS_DESC_SIZE →
  ∃ s', write_sync s (desc_off i) raw FS_DESC_SIZE = Some (FS_OK, s') ∧ store_ok s' ∧
    s_sb s' = s_sb s ∧ view s' = set_slot (view s) i (slot_of_raw (len (flash s)) raw) ∧
    (sb_synced s → sb_synced s').
Proof.
  intros [Hwf Hr Hm Hmax Htab Htop] Hi Hb Hl. unfold max_files, FS_MAX_FILES in *.
  destruct (desc_off_small i) as [Hoff Hoff32]; [lia|].
  assert (FS_DESC_BASE = 16 ∧ FS_DESC_SIZE = 20) as [Hbase Hsize] by done.
  destruct (write_sync_ok s (desc_off i) raw) as (s' & Hw & Hsb & Hwf' & Hr' & He & Hf); try done; [lia|].
  rewrite Hl in Hw. exists s'. split; [done|].
  assert (len (eeprom s') = len (eeprom s)) as Hle by (rewrite He; apply len_splice; lia).
  split; [constructor; rewrite ?Hsb, ?Hf, ?Hle; done|]. split; [done|]. split.
  - unfold view, max_files, set_slot. cbn [v_slots v_top v_flash]. rewrite Hsb, Hf, He, Hoff.
    f_equal. apply slots_of_splice; rewrite ?Z2Nat.id by lia; try done; lia.
  - unfold sb_synced. rewrite Hsb, He. intros (Hs & ? & ?). split; [|done]. rewrite <- Hs.
    unfold FS_SUPERBLOCK_SIZE. apply slice_splice_other; lia.
Qed.

Lemma index_u16 s i : store_ok s → 0 ≤ i < max_files s → is_u16 i.
Proof. intros [] ?. unfold max_files, FS_MAX_FILES, is_u16 in *. lia. Qed.

Lemma write_desc_ok s i d :
  store_ok s → 0 ≤ i < max_files s → desc_ok (len (flash s)) d →
  ∃ s', fs_store_write_desc s i (Ptr d) = Some (FS_OK, s') ∧ store_ok s' ∧ s_sb s' = s_sb s ∧
    view s' = set_slot (view s) i (SlotFile d) ∧ (sb_synced s → sb_synced s').
Proof.
  intros Hs Hi Hd. pose proof Hd as [Hty Htok _].
  unfold fs_store_write_desc. rewrite (so_mounted _ Hs). cbn [negb]. unfold max_files in Hi.
  replace (sb_max_files (s_sb s) <=? i) with false by lia.
  replace (d_type d =? FS_TYPE_FREE) with false.
  2: { unfold type_ok, FS_TYPE_MF, FS_TYPE_DF, FS_TYPE_EF_TRANSPARENT, FS_TYPE_FREE in *. lia. }
  rewrite desc_raw_seal. bind_simpl. rewrite <- (slot_of_raw_seal _ _ Hd).
  apply slot_write_ok; [done|done|auto with card|done].
Qed.

Lemma free_desc_ok s i :
  store_ok s → 0 ≤ i < max_files s →
  ∃ s', fs_store_free_desc s i = Some (FS_OK, s') ∧ store_ok s' ∧ s_sb s' = s_sb s ∧
    view s' = set_slot (view s) i SlotFree ∧ (sb_synced s → sb_synced s').
Proof.
  intros Hs Hi. unfold fs_store_free_desc. rewrite (so_mounted _ Hs). cbn [negb]. unfold max_files in Hi.
  replace (sb_max_files (s_sb s) <=? i) with false by lia.
  rewrite memset_array_eq by (done || unfold is_u8; lia). bind_simpl.
  rewrite <- (slot_of_raw_free (len (flash s))). apply slot_write_ok; [done|done|solve_bytes|done].
Qed.

(** The first free slot, if there is one. *)
Lemma find_free_slot_ok s :
  store_ok s →
  ∃ i, fs_store_find_free_slot s = Some i ∧
    ((0 ≤ i < max_files s ∧ v_slots (view s) !! Z.to_nat i = Some SlotFree ∧
      (∀ j, 0 ≤ j < i → v_slots (view s) !! Z.to_nat j ≠ Some SlotFree)) ∨
     (i = FS_INVALID_INDEX ∧ SlotFree ∉ v_slots (view s))).
Proof.
  intros Hs. unfold fs_store_find_free_slot. rewrite (so_mounted _ Hs). cbn [negb]. fold (max_files s).
  destruct (find_first_spec (fs_store_slot_is_free s) (max_files s)) as (r & -> & Hr).
  { intros i Hi. destruct (slot_is_free_ok s i Hs Hi) as (? & _ & ->). eauto. }
  bind_simpl. eexists. split; [done|]. destruct r as [i|]; cbn [default from_option id].
  - left. destruct Hr as (Hi & Ht & Hlt). split; [done|].
    destruct (slot_is_free_ok s i Hs Hi) as (sl & Hsl & Hf). rewrite Ht in Hf. injection Hf as Hf.
    symmetry in Hf. apply bool_decide_eq_true in Hf as ->. split; [done|]. intros j Hj.
    destruct (slot_is_free_ok s j Hs) as (sl & Hslj & Hfj); [lia|]. rewrite Hlt in Hfj by lia.
    injection Hfj as Hfj. symmetry in Hfj. apply bool_decide_eq_false in Hfj. congruence.
  - right. split; [done|]. intros (k & Hk)%list_elem_of_lookup.
    pose proof (lookup_lt_Some _ _ _ Hk) as Hlt. rewrite length_view_slots in Hlt.
    destruct (slot_is_free_ok s (Z.of_nat k) Hs) as (sl & Hsl & Hf); [lia|].
    rewrite Hr in Hf by lia. rewrite Nat2Z.id, Hk in Hsl. injection Hsl as <-. done.
Qed.

Lemma sb_write_ok s :
  nvm_wf (s_nvm s) → nvm_ready (s_nvm s) → FS_DESC_BASE ≤ len (eeprom s) →
  ∃ s', sb_write s = Some (FS_OK, s') ∧ s_sb s' = s_sb s ∧ nvm_wf (s_nvm s') ∧ nvm_ready (s_nvm s') ∧
    eeprom s' = splice (eeprom s) 0 (seal (sb_body (sb_data_top (s_sb s)))) ∧ flash s' = flash s.
Proof.
  intros Hwf Hr Hle. rewrite sb_write_eq. apply write_sync_ok; try done; auto with card.
Qed.

(** Allocation hands out the bytes from the mark on and records the new mark. *)
Lemma alloc_data_ok s size o :
  store_ok s → is_u16 size → sb_data_top (s_sb s) + size ≤ len (flash s) →
  ∃ s', fs_store_alloc_data s size (Ptr o) = Some (FS_OK, Ptr (sb_data_top (s_sb s)), s') ∧
    store_ok s' ∧ max_files s' = max_files s ∧
    view s' = FsView (v_slots (view s)) (v_top (view s) + size) (v_flash (view s)) ∧
    (sb_synced s → sb_synced s').
Proof.
  intros Hs Hsz Hle. pose proof Hs as [Hwf Hr Hm Hmax Htab Htop].
  pose proof (len_flash s (store_ok_safe s Hs)). unfold is_u16 in *. unfold FS_MAX_FILES in *.
  assert (FS_DESC_BASE = 16 ∧ FS_DESC_SIZE = 20) as [Hbase Hsize] by done.
  unfold fs_store_alloc_data. rewrite Hm. cbn [negb]. rewrite nvm_size_mem by done. fold (flash s).
  rewrite u64_id by lia. replace (len (flash s) <? sb_data_top (s_sb s) + size) with false by lia.
  rewrite u32_id by (unfold is_u32; lia).
  destruct (sb_write_ok (set_data_top s (sb_data_top (s_sb s) + size)))
    as (s' & -> & Hsb & Hwf' & Hr' & He & Hf); [done|done|unfold eeprom in *; cbn; lia|].
  bind_simpl. exists s'. split; [done|]. unfold set_data_top in He, Hf.
  change (eeprom (Store _ (s_nvm s))) with (eeprom s) in He.
  change (flash (Store _ (s_nvm s))) with (flash s) in Hf. cbn [s_sb sb_data_top] in He.
  assert (len (eeprom s') = len (eeprom s)) as Hle' by (rewrite He; apply len_splice; [done|]; rewrite len_seal_sb; unfold FS_SUPERBLOCK_SIZE; lia).
  split; [constructor; rewrite ?Hsb, ?Hf, ?Hle'; cbn; try done; unfold FS_MAX_FILES; lia|].
  split; [unfold max_files; by rewrite Hsb|]. split.
  - unfold view, max_files. rewrite Hsb, Hf, He.
    cbn [set_data_top s_sb sb_max_files sb_data_top v_slots v_top v_flash]. f_equal.
    apply slots_of_low; [rewrite len_seal_sb; done|]. rewrite Z2Nat.id by lia. done.
  - unfold sb_synced. rewrite Hsb, He. cbn [set_data_top s_sb sb_max_files sb_data_top sb_version].
    intros (_ & ? & ?). split; [|done].
    apply (slice_splice_same (eeprom s) 0 (seal (sb_body _))); [done|]. rewrite len_seal_sb.
    unfold FS_SUPERBLOCK_SIZE. lia.
Qed.

Lemma alloc_data_full s size o :
  store_ok s → is_u16 size → len (flash s) < sb_data_top (s_sb s) + size →
  fs_store_alloc_data s size (Ptr o) = Some (FS_ERR_NO_SPACE, Ptr 0, s).
Proof.
  intros Hs Hsz Hlt. pose proof Hs as [Hwf Hr Hm Hmax Htab Htop].
  pose proof (len_flash s (store_ok_safe s Hs)). unfold is_u16 in *.
  unfold fs_store_alloc_data. rewrite Hm. cbn [negb]. rewrite nvm_size_mem by done. fold (flash s).
  rewrite u64_id by lia. by replace (len (flash s) <? sb_data_top (s_sb s) + size) with true by lia.
Qed.

Lemma read_data_ok s off n d :
  store_ok s → 0 ≤ off → 0 ≤ n ≤ len d → is_u16 n → off + n ≤ len (flash s) →
  fs_store_read_data s off n (Ptr d) = Some (FS_OK, Ptr (splice d 0 (slice off n (flash s)))).
Proof.
  intros Hs Hoff Hn Hn16 Hle. pose proof Hs as [Hwf Hr Hm Hmax Htab Htop].
  pose proof (len_flash s (store_ok_safe s Hs)). unfold fs_store_read_data, is_u16 in *.
  destruct (Z.eqb_spec n 0) as [->|]; [by rewrite slice_zero, splice_nil|]. rewrite Hm. cbn [negb].
  rewrite nvm_read_ok; try done; try (by right); try (unfold is_u32; lia).
Qed.

Lemma write_data_ok s off n b :
  store_ok s → 0 ≤ off → 0 ≤ n ≤ len b → is_u16 n → bytes b → off + n ≤ len (flash s) →
  ∃ s', fs_store_write_data s off n (Ptr b) = Some (FS_OK, s') ∧ store_ok s' ∧ s_sb s' = s_sb s ∧
    view s' = set_flash (view s) off (slice 0 n b) ∧ (sb_synced s → sb_synced s').
Proof.
  intros Hs Hoff Hn Hn16 Hb Hle. pose proof Hs as [Hwf Hr Hm Hmax Htab Htop].
  pose proof (len_flash s (store_ok_safe s Hs)). unfold fs_store_write_data, is_u16 in *.
  destruct (Z.eqb_spec n 0) as [->|].
  { exists s. split; [done|]. split; [done|]. split; [done|]. split; [|done]. unfold set_flash.
    rewrite slice_zero, splice_nil. done. }
  rewrite Hm. cbn [negb].
  destruct (nvm_write_ok (s_nvm s) HAL_NVM_FLASH off b n) as (nv & -> & Hwf1 & Hr1 & Hf & Ho);
    try done; try (by right); try (unfold is_u32; lia). bind_simpl. cbn [hal_is_ok negb set_nvm s_nvm].
  destruct (nvm_sync_ok nv Hwf1 Hr1) as (nv' & Hsy & Hwf2 & Hr2 & Hmem).
  rewrite Hsy. bind_simpl. cbn [hal_is_ok negb]. eexists. split; [done|].
  set (s' := Store (s_sb s) nv'). change (set_nvm (set_nvm s nv) nv') with s'.
  assert (flash s' = splice (flash s) off (slice 0 n b)) as Hfl by (unfold flash; cbn; rewrite Hmem; exact Hf).
  assert (eeprom s' = eeprom s) as Hee by (unfold eeprom; cbn; rewrite Hmem; by apply Ho).
  assert (len (flash s') = len (flash s)) as Hll by (rewrite Hfl; apply len_splice; rewrite ?len_slice; lia).
  split; [constructor; rewrite ?Hee, ?Hll; done|]. split; [done|]. split.
  - unfold view, set_flash. cbn [v_slots v_top v_flash]. rewrite Hee, Hll, Hfl. done.
  - unfold sb_synced. by rewrite Hee.
Qed.

(** *** Formatting and mounting *)

Lemma format_loop_ok (m : nat) k s :
  nvm_wf (s_nvm s) → nvm_ready (s_nvm s) → 0 ≤ k → k + Z.of_nat m ≤ 65536 →
  FS_DESC_BASE + FS_DESC_SIZE * (k + Z.of_nat m) ≤ len (eeprom s) →
  ∃ s', format_loop (seqZ k (Z.of_nat m)) (replicate 20 0xFF) s = Some (FS_OK, s') ∧
    s_sb s' = s_sb s ∧ nvm_wf (s_nvm s') ∧ nvm_ready (s_nvm s') ∧ flash s' = flash s ∧
    eeprom s' = splice (eeprom s) (FS_DESC_BASE + FS_DESC_SIZE * k) (replicate (20 * m) 0xFF).
Proof.
  revert k s. induction m as [|m IH]; intros k s Hwf Hr Hk Hkm Hle.
  { exists s. rewrite seqZ_nil by lia. rewrite Nat.mul_0_r. cbn [replicate]. by rewrite splice_nil. }
  rewrite seqZ_cons by lia. cbn [format_loop]. destruct (desc_off_small k) as [Hoff Hoff32]; [lia|].
  replace (Z.pred (Z.of_nat (S m))) with (Z.of_nat m) by lia. rewrite Hoff in *.
  assert (FS_DESC_BASE = 16 ∧ FS_DESC_SIZE = 20) as [Hbase Hsize] by done.
  destruct (nvm_write_all (s_nvm s) HAL_NVM_EEPROM (FS_DESC_BASE + FS_DESC_SIZE * k) (replicate 20 0xFF))
    as (nv & Hw & Hwf1 & Hr1 & He & Ho); try done; [by left|solve_bytes|
    change (len (replicate 20 255)) with 20; unfold eeprom in *; lia|].
  change (len (replicate 20 0xFF)) with FS_DESC_SIZE in Hw. rewrite Hw. bind_simpl. cbn [hal_is_ok negb].
  fold (eeprom s) in He. change (nvm_mem nv HAL_NVM_EEPROM) with (eeprom (set_nvm s nv)) in He.
  assert (flash (set_nvm s nv) = flash s) as Hf by (unfold flash; cbn; by apply Ho).
  destruct (IH (k + 1) (set_nvm s nv)) as (s' & Hl & Hsb & Hwf' & Hr' & Hf' & He'); try done; try lia.
  { rewrite He, len_splice; change (len (replicate 20 255)) with 20; lia. }
  rewrite <- Z.add_1_r. exists s'. rewrite Hl, Hf', Hf. do 5 (split; [done|]). rewrite He', He.
  replace (FS_DESC_BASE + FS_DESC_SIZE * (k + 1))
    with (FS_DESC_BASE + FS_DESC_SIZE * k + len (replicate 20 255))
    by (change (len (replicate 20 255)) with 20; lia).
  rewrite splice_splice_adjacent, <- replicate_add; [f_equal; f_equal; lia|lia|].
  unfold len at 2. rewrite length_replicate. change (len (replicate 20 255)) with 20. lia.
Qed.

Lemma slots_of_erased fl n ee :
  FS_DESC_BASE + FS_DESC_SIZE * Z.of_nat n ≤ len ee →
  slots_of fl n (splice ee FS_DESC_BASE (replicate (20 * n) 0xFF)) = replicate n SlotFree.
Proof.
  assert (FS_DESC_BASE = 16 ∧ FS_DESC_SIZE = 20) as [Hbase Hsize] by done. intros Hle.
  assert (len (replicate (20 * n) 0xFF) = 20 * Z.of_nat n) as Hlr
    by (unfold len; rewrite length_replicate; lia).
  apply list_eq. intros k. destruct (decide (k < n)%nat) as [Hk|Hk].
  2: { rewrite !lookup_ge_None_2; [done|..]; rewrite ?length_slots_of, ?length_replicate; lia. }
  rewrite lookup_slots_of, lookup_replicate_2 by done. f_equal.
  rewrite <- (slot_of_raw_free fl). f_equal.
  rewrite slice_splice_inner by lia. apply list_eq. intros j. rewrite lookup_slice by lia. case_decide.
  - rewrite !lookup_replicate_2 by lia. done.
  - rewrite lookup_ge_None_2; [done|]. rewrite length_replicate. lia.
Qed.

(** A formatted card is mounted, empty, and its superblock is in memory. *)
Lemma format_ok s :
  nvm_wf (s_nvm s) → nvm_ready (s_nvm s) →
  FS_DESC_BASE + FS_DESC_SIZE * FS_MAX_FILES ≤ len (eeprom s) →
  ∃ s', fs_store_format s = Some (FS_OK, s') ∧ store_ok s' ∧ sb_synced s' ∧
    view s' = FsView (replicate 32 SlotFree) 0 (flash s).
Proof.
  intros Hwf Hr Hle. unfold fs_store_format. rewrite nvm_size_mem by done. fold (eeprom s).
  change (u32 (FS_DESC_BASE + u32 (FS_MAX_FILES * FS_DESC_SIZE))) with 656.
  change (FS_DESC_BASE + FS_DESC_SIZE * FS_MAX_FILES) with 656 in Hle.
  replace (len (eeprom s) <? 656) with false by lia.
  rewrite memset_array_eq by (done || unfold is_u8; lia). bind_simpl.
  change (Z.to_nat FS_DESC_SIZE) with 20%nat. change (upto FS_MAX_FILES) with (seqZ 0 (Z.of_nat 32)).
  destruct (format_loop_ok 32 0 s) as (s1 & -> & Hsb1 & Hwf1 & Hr1 & Hf1 & He1); try done; [].
  bind_simpl. cbn [fs_ok negb].
  assert (FS_DESC_BASE = 16 ∧ FS_DESC_SIZE = 20) as [Hbase Hsize] by done.
  assert (len (replicate (20 * 32) 0xFF) = 640) as Hlr by done.
  rewrite Z.mul_0_r, Z.add_0_r in He1.
  assert (len (eeprom s1) = len (eeprom s)) as Hl1 by (rewrite He1; apply len_splice; lia).
  set (s2 := Store (Superblock (sb_mounted (s_sb s1)) FS_LAYOUT_VERSION (u16 FS_MAX_FILES) 0) (s_nvm s1)).
  destruct (sb_write_ok s2) as (s3 & -> & Hsb3 & Hwf3 & Hr3 & He3 & Hf3); try done.
  { change (eeprom s2) with (eeprom s1). lia. }
  bind_simpl. cbn [fs_ok negb]. eexists. split; [done|].
  change (eeprom s2) with (eeprom s1) in He3. change (flash s2) with (flash s1) in Hf3.
  change (sb_data_top (s_sb s2)) with 0 in He3.
  assert (len (eeprom s3) = len (eeprom s)) as Hl3.
  { rewrite He3, len_splice, Hl1; [done|done|]. rewrite len_seal_sb. unfold FS_SUPERBLOCK_SIZE. lia. }
  set (s4 := set_mounted s3 true).
  assert (s_sb s4 = Superblock true FS_LAYOUT_VERSION 32 0) as Hsb4.
  { unfold s4, set_mounted. cbn [s_sb]. rewrite Hsb3. done. }
  change (eeprom s3) with (eeprom s4) in He3, Hl3. change (flash s3) with (flash s4) in Hf3.
  pose proof (len_nonneg (flash s4)). split; [|split].
  - constructor; try done; rewrite ?Hsb4; cbn [sb_max_files sb_data_top]; unfold FS_MAX_FILES; try done; lia.
  - unfold sb_synced. rewrite Hsb4, He3. cbn [sb_data_top sb_max_files sb_version]. split; [|done].
    apply (slice_splice_same (eeprom s1) 0 (seal (sb_body 0))); [done|]. rewrite len_seal_sb.
    unfold FS_SUPERBLOCK_SIZE. lia.
  - unfold view, max_files. rewrite Hsb4, He3, Hf3, Hf1. cbn [sb_max_files sb_data_top]. f_equal.
    change (Z.to_nat 32) with 32%nat. rewrite slots_of_low; [|rewrite len_seal_sb; done|lia].
    rewrite He1. apply slots_of_erased. lia.
Qed.

(** What mounting makes of the 16 bytes of the superblock. *)
Definition mount_raw (esize fsize : Z) (raw : list Z) : fs_status * option superblock :=
  match raw with
  | [m0; m1; m2; m3; v1; v0; x1; x0; t3; t2; t1; t0; r1; r0; c1; c0] =>
      let version := v1 * 256 + v0 in
      let mf := x1 * 256 + x0 in
      let top := ((t3 * 256 + t2) * 256 + t1) * 256 + t0 in
      if negb (bool_decide ([m0; m1; m2; m3] = [FS_MAGIC_0; FS_MAGIC_1; FS_MAGIC_2; FS_MAGIC_3]))
      then (FS_ERR_NOT_FORMATTED, None)
      else if negb (c1 * 256 + c0 =? crc_bytes (take 14 raw)) then (FS_ERR_CORRUPT, None)
      else if negb (version =? FS_LAYOUT_VERSION) then (FS_ERR_VERSION, None)
      else if (mf =? 0) || (FS_MAX_FILES <? mf) || (fsize <? top)
              || (esize <? FS_DESC_BASE + mf * FS_DESC_SIZE)
      then (FS_ERR_CORRUPT, None)
      else (FS_OK, Some (Superblock true version mf top))
  | _ => (FS_ERR_NVM, None)
  end.

Lemma mount_eq s :
  nvm_wf (s_nvm s) → nvm_ready (s_nvm s) → FS_SUPERBLOCK_SIZE ≤ len (eeprom s) →
  fs_store_mount s =
    let '(st, m) := mount_raw (len (eeprom s)) (len (flash s)) (slice 0 FS_SUPERBLOCK_SIZE (eeprom s)) in
    Some (st, match m with Some b => Store b (s_nvm s) | None => set_mounted s false end).
Proof.
  intros Hwf Hr Hle. unfold fs_store_mount, local_array. cbn [set_mounted s_nvm].
  assert (is_u32 FS_SB_OFFSET ∧ is_u32 FS_SUPERBLOCK_SIZE) as [? ?] by (unfold is_u32; done).
  rewrite nvm_read_all; try done; [|by left]. bind_simpl. cbn [filled hal_is_ok negb]. bind_simpl.
  fold (eeprom s). change FS_SB_OFFSET with 0 in *. cbn [hal_is_ok negb].
  set (raw := slice 0 FS_SUPERBLOCK_SIZE (eeprom s)).
  assert (len raw = FS_SUPERBLOCK_SIZE) as Hlr by (apply len_slice; done).
  assert (bytes raw) as Hbr by (apply bytes_slice, nvm_mem_bytes; done).
  clearbody raw. rewrite !nvm_size_mem by done. fold (eeprom s) (flash s).
  destruct (list_16 raw Hlr) as (m0&m1&m2&m3&v1&v0&x1&x0&t3&t2&t1&t0&r1&r0&c1&c0&->).
  unfold bytes in Hbr. rewrite !Forall_cons in Hbr. destruct_and? Hbr.
  unfold get_u16, get_u32. rd_simpl. cbn [mount_raw].
  rewrite crc16_bytes by (rewrite Hlr; done). bind_simpl. rewrite !be16_val, be32_val by done.
  unfold slice. rewrite drop_0. change (Z.to_nat 14) with 14%nat.
  replace (bool_decide ([m0; m1; m2; m3] = [FS_MAGIC_0; FS_MAGIC_1; FS_MAGIC_2; FS_MAGIC_3]))
    with (negb (negb (m0 =? FS_MAGIC_0) || negb (m1 =? FS_MAGIC_1) || negb (m2 =? FS_MAGIC_2)
     || negb (m3 =? FS_MAGIC_3))).
  2: { destruct (decide ([m0; m1; m2; m3] = [FS_MAGIC_0; FS_MAGIC_1; FS_MAGIC_2; FS_MAGIC_3])) as [E|E].
       - injection E as -> -> -> ->. by rewrite bool_decide_eq_true_2.
       - rewrite bool_decide_eq_false_2 by done. destruct (_ || _) eqn:E'; [done|].
         destruct E. bool_prop. congruence. }
  rewrite negb_involutive. destruct (_ || _); [done|].
  destruct (negb (c1 * 256 + c0 =? _)); [done|].
  destruct (negb (v1 * 256 + v0 =? _)); [done|].
  destruct ((x1 * 256 + x0 =? 0) || (FS_MAX_FILES <? x1 * 256 + x0)) eqn:E; [done|]. cbn [orb].
  destruct (len (flash s) <? _); [done|]. cbn [orb]. unfold is_u8 in *.
  unfold u32. unfold FS_DESC_BASE, FS_SB_OFFSET, FS_SUPERBLOCK_SIZE, FS_DESC_SIZE, FS_MAX_FILES in *.
  rewrite !Z.mod_small by lia. by destruct (len (eeprom s) <? _).
Qed.

(** ** Properties *)

Lemma mount_raw_none esize fsize raw st m :
  mount_raw esize fsize raw = (st, m) → st ≠ FS_OK → m = None.
Proof.
  unfold mount_raw. intros Hm Hst.
  repeat (case_match; try (injection Hm as <- <-; done)).
Qed.

(** A superblock that is accepted describes a card that fits the device. *)
Lemma mount_raw_ok s m :
  nvm_wf (s_nvm s) → nvm_ready (s_nvm s) → FS_SUPERBLOCK_SIZE ≤ len (eeprom s) →
  mount_raw (len (eeprom s)) (len (flash s)) (slice 0 FS_SUPERBLOCK_SIZE (eeprom s)) = (FS_OK, m) →
  store_ok (match m with Some b => Store b (s_nvm s) | None => set_mounted s false end).
Proof.
  intros Hwf Hr Hle. set (raw := slice 0 FS_SUPERBLOCK_SIZE (eeprom s)).
  assert (len raw = 16) as Hl by (by apply len_slice).
  assert (bytes raw) as Hb by (by apply bytes_slice, nvm_mem_bytes). clearbody raw.
  destruct (list_16 raw Hl) as (m0&m1&m2&m3&v1&v0&x1&x0&t3&t2&t1&t0&r1&r0&c1&c0&->).
  unfold bytes in Hb. rewrite !Forall_cons in Hb. destruct_and? Hb. unfold is_u8 in *.
  cbn [mount_raw]. repeat (case_if; [done|]). intros [= <-].
  change FS_DESC_SIZE with 20 in *. unfold FS_MAX_FILES in *.
  constructor; try done; cbn [s_sb sb_max_files sb_data_top]; unfold FS_MAX_FILES; try lia.
  - change (eeprom (Store _ (s_nvm s))) with (eeprom s). change FS_DESC_SIZE with 20. lia.
  - change (flash (Store _ (s_nvm s))) with (flash s). lia.
Qed.

(** The superblock in memory mounts as the mirror it was written from. *)
Lemma mount_raw_synced s :
  store_ok s → sb_synced s →
  mount_raw (len (eeprom s)) (len (flash s)) (slice 0 FS_SUPERBLOCK_SIZE (eeprom s)) = (FS_OK, Some (s_sb s)).
Proof.
  intros [Hwf Hr Hm Hmax Htab Htop] (Hsb & Hmf & Hv).
  assert (FS_DESC_BASE = 16 ∧ FS_DESC_SIZE = 20 ∧ FS_SUPERBLOCK_SIZE = 16 ∧ FS_MAX_FILES = 32)
    as (Hbase & Hsize & Hsbs & Hmfs) by done.
  rewrite Hsb. assert (is_u32 (sb_data_top (s_sb s))) as Ht32.
  { pose proof (nvm_mem_len (s_nvm s) HAL_NVM_FLASH Hwf). unfold is_u32, flash in *. lia. }
  destruct s as [[mt v mf top] nv]. cbn [s_sb sb_data_top sb_max_files sb_version sb_mounted] in *. subst.
  destruct (be32_bytes top Ht32) as (t3 & t2 & t1 & t0 & Et & _ & _ & _ & _ & Htv).
  destruct (be16_bytes _ (crc_bytes_u16 (sb_body top))) as (c1 & c0 & Ec & _ & _ & Hc).
  unfold seal. rewrite Ec. unfold sb_body in *. rewrite Et in *.
  cbn [app be16 mount_raw firstn] in Hc |- *. rewrite Hc, Htv, Z.eqb_refl.
  rewrite bool_decide_eq_true_2 by done. cbn [negb].
  replace (u8 (Z.shiftr FS_LAYOUT_VERSION 8) * 256 + u8 (Z.land FS_LAYOUT_VERSION 0xFF))
    with FS_LAYOUT_VERSION by reflexivity.
  replace (u8 (Z.shiftr FS_MAX_FILES 8) * 256 + u8 (Z.land FS_MAX_FILES 0xFF))
    with FS_MAX_FILES by reflexivity.
  rewrite Z.eqb_refl. cbn [negb].
  replace ((FS_MAX_FILES =? 0) || (FS_MAX_FILES <? FS_MAX_FILES) || _ || _) with false; [done|].
  cbn [s_nvm] in *. lia.
Qed.

Lemma mount_synced s m :
  store_ok s → sb_synced s → fs_store_mount (Store m (s_nvm s)) = Some (FS_OK, s).
Proof.
  intros Hs Hsync. pose proof Hs as [Hwf Hr _ _ Htab _]. set (s0 := Store m (s_nvm s)).
  rewrite (mount_eq s0); [|done|done|].
  2: { change (eeprom s0) with (eeprom s). destruct Hs. unfold FS_DESC_SIZE in *.
       change FS_DESC_BASE with FS_SUPERBLOCK_SIZE in *. lia. }
  change (eeprom s0) with (eeprom s). change (flash s0) with (flash s).
  rewrite (mount_raw_synced s Hs Hsync). by destruct s.
Qed.

(** A power cycle loses nothing of the file system: whatever the mirror
    holds, mounting finds the very state the superblock was last written for. *)
Lemma fs_store_mount_restores s m :
  store_ok s → sb_synced s → fs_store_mount (Store m (s_nvm s)) = Some (FS_OK, s).
Proof. apply mount_synced. Qed.

(** A record whose check sum matches, checked as one byte string. *)
Lemma sealed_crc body c1 c0 :
  bytes body → is_u8 c1 → is_u8 c0 →
  (c1 * 256 + c0 =? crc_bytes body) = (crc_bytes (body ++ [c1; c0]) =? 0).
Proof.
  intros. pose proof (crc_residue body c1 c0) as Hr.
  destruct (Z.eqb_spec (c1 * 256 + c0) (crc_bytes body)), (Z.eqb_spec (crc_bytes (body ++ [c1; c0])) 0);
    tauto.
Qed.

Lemma mount_raw_crc esize fsize raw b :
  len raw = 16 → bytes raw → mount_raw esize fsize raw = (FS_OK, b) → crc_bytes raw = 0.
Proof.
  intros Hl Hb. destruct (list_16 raw Hl) as (m0&m1&m2&m3&v1&v0&x1&x0&t3&t2&t1&t0&r1&r0&c1&c0&->).
  cbn [mount_raw]. case_if; [done|]. case_if; [done|]. intros _.
  pose proof Hb as Hb'. unfold bytes in Hb'. rewrite !Forall_cons in Hb'. destruct_and? Hb'.
  apply (crc_residue [m0;m1;m2;m3;v1;v0;x1;x0;t3;t2;t1;t0;r1;r0] c1 c0);
    [bytes_list|done..].
Qed.

Lemma slot_file_crc fl raw d :
  len raw = 20 → bytes raw → slot_of_raw fl raw = SlotFile d → crc_bytes raw = 0.
Proof.
  intros Hl Hb. destruct (list_20 raw Hl) as (f1&f0&ty&lc&p1&p0&z1&z0&o3&o2&o1&o0&ar&au&sf&fl'&r1&r0&c1&c0&->).
  cbn [slot_of_raw]. case_if; [done|]. case_if; [|done]. intros _.
  pose proof Hb as Hb'. unfold bytes in Hb'. rewrite !Forall_cons in Hb'. destruct_and? Hb'.
  apply (crc_residue [f1;f0;ty;lc;p1;p0;z1;z0;o3;o2;o1;o0;ar;au;sf;fl';r1;r0] c1 c0);
    [bytes_list|done..].
Qed.

(** Two byte strings that differ inside one pair of adjacent bytes. *)
Definition burst (l l' : list Z) : Prop :=
  ∃ pre a b a' b' post, l = pre ++ [a; b] ++ post ∧ l' = pre ++ [a'; b'] ++ post ∧ (a, b) ≠ (a', b').

Lemma burst_crc l l' : bytes l → bytes l' → burst l l' → crc_bytes l ≠ crc_bytes l'.
Proof.
  intros Hb Hb' (pre & a & b & a' & b' & post & -> & -> & Hne).
  unfold bytes in *. rewrite !Forall_app, !Forall_cons in Hb, Hb'. destruct_and? Hb. destruct_and? Hb'.
  by apply crc_burst_differs.
Qed.

(** The bytes of the superblock and of a descriptor slot. *)
Definition sb_bytes (s : store N) : list Z := slice 0 FS_SUPERBLOCK_SIZE (eeprom s).
Definition slot_bytes (s : store N) (i : Z) : list Z :=
  slice (FS_DESC_BASE + FS_DESC_SIZE * i) FS_DESC_SIZE (eeprom s).

(** A superblock damaged in two adjacent bytes is never mounted. *)
Theorem superblock_damage_detected s s' :
  store_ok s → sb_synced s → nvm_wf (s_nvm s') → nvm_ready (s_nvm s') →
  FS_SUPERBLOCK_SIZE ≤ len (eeprom s') → burst (sb_bytes s) (sb_bytes s') →
  ∃ st s'', fs_store_mount s' = Some (st, s'') ∧ st ≠ FS_OK ∧ fs_store_is_mounted s'' = false.
Proof.
  intros Hs Hsync Hwf' Hr' Hl' Hburst. pose proof Hs as [Hwf Hr _ _ _ _].
  assert (FS_SUPERBLOCK_SIZE = 16 ∧ FS_DESC_BASE = 16) as [Hsbs Hbase] by done.
  assert (∀ t : store N, nvm_wf (s_nvm t) → FS_SUPERBLOCK_SIZE ≤ len (eeprom t) →
    len (sb_bytes t) = 16 ∧ bytes (sb_bytes t)) as Hraw.
  { intros t Ht Hlt. split; [apply len_slice; lia|]. by apply bytes_slice, nvm_mem_bytes. }
  assert (FS_SUPERBLOCK_SIZE ≤ len (eeprom s)) as Hl.
  { destruct Hs. unfold FS_DESC_SIZE in *. lia. }
  destruct (Hraw s Hwf Hl) as [Hl16 Hb]. destruct (Hraw s' Hwf' Hl') as [Hl16' Hb'].
  pose proof (mount_raw_synced s Hs Hsync) as Hok. fold (sb_bytes s) in Hok.
  apply mount_raw_crc in Hok; [|done|done].
  rewrite (mount_eq s' Hwf' Hr' Hl'). fold (sb_bytes s').
  destruct (mount_raw _ _ (sb_bytes s')) as [st m] eqn:E.
  assert (st ≠ FS_OK) as Hst.
  { intros ->. apply mount_raw_crc in E; [|done|done].
    apply (burst_crc _ _ Hb Hb' Hburst). by rewrite Hok, E. }
  eexists _, _. split; [done|]. split; [done|].
  apply mount_raw_none in E; [|done]. by subst m.
Qed.

(** A descriptor damaged in two adjacent bytes is never taken for a file. *)
Lemma descriptor_damage_detected s s' i d d0 :
  store_ok s → store_ok s' → 0 ≤ i < max_files s → 0 ≤ i < max_files s' →
  file_at (view s) i = Some d → burst (slot_bytes s i) (slot_bytes s' i) →
  ∃ st o, fs_store_read_desc s' i (Ptr d0) = Some (st, o) ∧ (st = FS_ERR_CORRUPT ∨ st = FS_ERR_NOT_FOUND).
Proof.
  intros Hs Hs' Hi Hi' Hd Hburst.
  assert (∀ t, store_ok t → 0 ≤ i < max_files t →
    len (slot_bytes t i) = 20 ∧ bytes (slot_bytes t i) ∧
    v_slots (view t) !! Z.to_nat i = Some (slot_of_raw (len (flash t)) (slot_bytes t i))) as Hraw.
  { intros t Ht Hti. pose proof (so_table _ Ht). unfold max_files in Hti.
    assert (FS_DESC_BASE = 16 ∧ FS_DESC_SIZE = 20) as [Hbase Hsize] by done.
    split; [apply len_slice; lia|]. split; [apply bytes_slice, nvm_mem_bytes, Ht|].
    cbn [view v_slots]. unfold max_files. rewrite lookup_slots_of by lia. by rewrite Z2Nat.id by lia. }
  destruct (Hraw s Hs Hi) as (Hl & Hb & Hv). destruct (Hraw s' Hs' Hi') as (Hl' & Hb' & Hv').
  unfold file_at in Hd. rewrite Hv in Hd. destruct (0 <=? i); [|done].
  destruct (slot_of_raw _ (slot_bytes s i)) as [| |d1] eqn:E; try done.
  apply slot_file_crc in E; [|done|done].
  destruct (read_desc_ok s' i d0 Hs' Hi') as (sl & o & Hsl & Hrd & _).
  exists (slot_status sl), (Ptr o). split; [done|]. rewrite Hv' in Hsl. injection Hsl as Hsl.
  destruct sl as [| |d2]; [by right|by left|]. exfalso.
  apply slot_file_crc in Hsl; [|done|done]. apply (burst_crc _ _ Hb Hb' Hburst). by rewrite E, Hsl.
Qed.

(** A descriptor that is written is read back as it was, and every other
    slot still reads as before. *)
Theorem write_then_read_desc s i d j d0 :
  store_ok s → 0 ≤ i < max_files s → 0 ≤ j < max_files s → desc_ok (len (flash s)) d →
  ∃ s', fs_store_write_desc s i (Ptr d) = Some (FS_OK, s') ∧ store_ok s' ∧ flash s' = flash s ∧
    (if decide (j = i) then fs_store_read_desc s' j (Ptr d0) = Some (FS_OK, Ptr d)
     else v_slots (view s') !! Z.to_nat j = v_slots (view s) !! Z.to_nat j).
Proof.
  intros Hs Hi Hj Hd. destruct (write_desc_ok s i d Hs Hi Hd) as (s' & Hw & Hs' & Hsb & Hv & _).
  exists s'. split; [done|]. split; [done|]. split; [by apply (f_equal v_flash) in Hv|].
  case_decide as E.
  - subst j. assert (max_files s' = max_files s) as Hmf by (unfold max_files; by rewrite Hsb).
    destruct (read_desc_ok s' i d0 Hs') as (sl & o & Hsl & Hr & Ho); [by rewrite Hmf|].
    rewrite Hv in Hsl. cbn [set_slot v_slots] in Hsl.
    rewrite list_lookup_insert_eq in Hsl by (rewrite length_view_slots; unfold max_files in *; lia).
    injection Hsl as <-. destruct (Ho d eq_refl) as [-> _]. done.
  - rewrite Hv. cbn [set_slot v_slots]. rewrite list_lookup_insert_ne by lia. done.
Qed.

(** [C32] Space handed out twice never overlaps, stays inside FLASH, and is
    recorded in memory before the caller can use it. *)
Theorem alloc_data_disjoint s n1 n2 o1 o2 s1 s2 :
  store_ok s → sb_synced s → is_u16 n1 → is_u16 n2 →
  fs_store_alloc_data s n1 (Ptr 0) = Some (FS_OK, Ptr o1, s1) →
  fs_store_alloc_data s1 n2 (Ptr 0) = Some (FS_OK, Ptr o2, s2) →
  sb_data_top (s_sb s) ≤ o1 ∧ o1 + n1 ≤ o2 ∧ o2 + n2 ≤ len (flash s2) ∧ flash s2 = flash s ∧
  v_slots (view s2) = v_slots (view s) ∧
  ∀ m, fs_store_mount (Store m (s_nvm s2)) = Some (FS_OK, s2).
Proof.
  intros Hs Hsync Hn1 Hn2 H1 H2.
  assert (∀ t n o t', store_ok t → sb_synced t → is_u16 n →
    fs_store_alloc_data t n (Ptr 0) = Some (FS_OK, Ptr o, t') →
    store_ok t' ∧ sb_synced t' ∧ o = sb_data_top (s_sb t) ∧ sb_data_top (s_sb t') = o + n ∧
    flash t' = flash t ∧ v_slots (view t') = v_slots (view t)) as Hstep.
  { intros t n o t' Ht Hty Hn Ha. destruct (decide (sb_data_top (s_sb t) + n ≤ len (flash t))) as [Hle|Hgt].
    - destruct (alloc_data_ok t n 0 Ht Hn Hle) as (t'' & Ha' & Ht' & _ & Hv & Hsy).
      rewrite Ha in Ha'. injection Ha' as -> ->. split; [done|]. split; [by apply Hsy|]. split; [done|].
      pose proof (f_equal v_top Hv) as Htop. pose proof (f_equal v_flash Hv) as Hfl.
      pose proof (f_equal v_slots Hv) as Hsl. done.
    - rewrite alloc_data_full in Ha by (done || lia). done. }
  destruct (Hstep s n1 o1 s1 Hs Hsync Hn1 H1) as (Hs1 & Hsy1 & -> & Ht1 & Hf1 & Hv1).
  destruct (Hstep s1 n2 o2 s2 Hs1 Hsy1 Hn2 H2) as (Hs2 & Hsy2 & -> & Ht2 & Hf2 & Hv2).
  pose proof (so_top _ Hs2). unfold is_u16 in *.
  split; [lia|]. split; [lia|]. split; [lia|]. split; [congruence|]. split; [congruence|].
  intros m. by apply mount_synced.
Qed.

End specs.

(** ** A small formatted card *)

#[local] Existing Instance small_config.

Definition blank_store : store vcard := Store (Superblock false 0 0 0) (small_card NULL VCARD_POWER_ON).

Definition formatted_store : store vcard :=
  match fs_store_format blank_store with Some (_, s) => s | None => blank_store end.

Lemma formatted_max : max_files formatted_store = 32.
Proof. vm_compute. reflexivity. Qed.

Lemma formatted_ok :
  store_ok formatted_store ∧ sb_synced formatted_store ∧
  view formatted_store = FsView (replicate 32 SlotFree) 0 (flash blank_store).
Proof.
  destruct (format_ok blank_store) as (s & Hf & Hok & Hsy & Hv).
  { apply small_card_wf. }
  { done. }
  { vm_compute. discriminate. }
  unfold formatted_store. rewrite Hf. exact (conj Hok (conj Hsy Hv)).
Qed.

#[global] Opaque formatted_store.

Definition sample_file : fs_descriptor := FsDescriptor 0x2FE2 3 5 0 10 0 0 0 2 0.

(** The card with one file, and with byte [k] of its EEPROM overwritten. *)
Definition one_file_store : store vcard :=
  match fs_store_write_desc formatted_store 1 (Ptr sample_file) with
  | Some (_, s) => s | None => formatted_store
  end.

Definition damaged (s : store vcard) (k : nat) (x : Z) : store vcard :=
  Store (s_sb s) (vcard_set_base (s_nvm s) HAL_NVM_EEPROM (<[k := x]> (s_eeprom (s_nvm s)))).

Lemma sample_file_ok : desc_ok (len (flash formatted_store)) sample_file.
Proof. constructor; [|done|done]. constructor; cbn; unfold is_u8, is_u16, is_u32; lia. Qed.

Lemma one_file_ok :
  store_ok one_file_store ∧ file_at (view one_file_store) 1 = Some sample_file.
Proof.
  destruct formatted_ok as (Hs & _ & Hv). assert (0 ≤ 1 < max_files formatted_store) as H1 by (rewrite formatted_max; lia).
  destruct (write_desc_ok formatted_store 1 sample_file Hs H1 sample_file_ok)
    as (s' & Hw & Hs' & Hsb & Hv' & _).
  unfold one_file_store. rewrite Hw. split; [exact Hs'|]. rewrite Hv', Hv. reflexivity.
Qed.

#[global] Opaque one_file_store.

Lemma damaged_ok s k x :
  store_ok s → is_u8 x → store_ok (damaged s k x).
Proof.
  intros [Hwf Hr Hm Hmax Htab Htop] Hx. pose proof Hwf as [].
  assert (vcard_wf (s_nvm (damaged s k x))) as Hwf'.
  { constructor; cbn; try done; [by apply Forall_insert|unfold len; rewrite length_insert; done..]. }
  assert (len (eeprom (damaged s k x)) = len (eeprom s)) as Hl.
  { unfold eeprom. cbn. unfold vcard_mem. cbn. unfold len, slice in *.
    rewrite !length_take, !length_drop, length_insert. done. }
  constructor; rewrite ?Hl; done.
Qed.

Lemma fs_store_mount_restores_witness :
  fs_store_mount (Store (Superblock false 7 7 7) (s_nvm formatted_store)) = Some (FS_OK, formatted_store).
Proof.
  apply (fs_store_mount_restores formatted_store (Superblock false 7 7 7));
    [exact (proj1 formatted_ok)|exact (proj1 (proj2 formatted_ok))].
Defined.

Lemma superblock_damage_detected_witness :
  ∃ st s'', fs_store_mount (damaged formatted_store 11 1) = Some (st, s'') ∧ st ≠ FS_OK ∧
    fs_store_is_mounted s'' = false.
Proof.
  pose proof (damaged_ok formatted_store 11 1 (proj1 formatted_ok)) as Hd.
  destruct Hd as [Hwf Hr _ _ _ _]; [unfold is_u8; lia|].
  apply (superblock_damage_detected formatted_store (damaged formatted_store 11 1)).
  - exact (proj1 formatted_ok).
  - exact (proj1 (proj2 formatted_ok)).
  - exact Hwf.
  - exact Hr.
  - vm_compute. discriminate.
  - exists (take 10 (sb_bytes formatted_store)), 0, 0, 0, 1, (drop 12 (sb_bytes formatted_store)).
    split; [vm_compute; reflexivity|]. split; [vm_compute; reflexivity|]. intros [=].
Defined.

Lemma descriptor_damage_detected_witness :
  ∃ st o, fs_store_read_desc (damaged one_file_store 44 1) 1 (Ptr fs_descriptor_zero) = Some (st, o) ∧
    (st = FS_ERR_CORRUPT ∨ st = FS_ERR_NOT_FOUND).
Proof.
  apply (descriptor_damage_detected one_file_store (damaged one_file_store 44 1) 1 sample_file).
  - exact (proj1 one_file_ok).
  - apply damaged_ok; [exact (proj1 one_file_ok)|unfold is_u8; lia].
  - split; vm_compute; [discriminate|reflexivity].
  - split; vm_compute; [discriminate|reflexivity].
  - exact (proj2 one_file_ok).
  - exists (take 8 (slot_bytes one_file_store 1)), 0, 0, 1, 0, (drop 10 (slot_bytes one_file_store 1)).
    split; [vm_compute; reflexivity|]. split; [vm_compute; reflexivity|]. intros [=].
Defined.

Lemma write_then_read_desc_witness :
  ∃ s', fs_store_write_desc formatted_store 1 (Ptr sample_file) = Some (FS_OK, s') ∧ store_ok s' ∧
    flash s' = flash formatted_store ∧
    (if decide (1 = 1) then fs_store_read_desc s' 1 (Ptr fs_descriptor_zero) = Some (FS_OK, Ptr sample_file)
     else v_slots (view s') !! Z.to_nat 1 = v_slots (view formatted_store) !! Z.to_nat 1).
Proof.
  apply (write_then_read_desc formatted_store 1 sample_file 1 fs_descriptor_zero).
  - exact (proj1 formatted_ok).
  - split; vm_compute; [discriminate|reflexivity].
  - split; vm_compute; [discriminate|reflexivity].
  - exact sample_file_ok.
Defined.

(** The card after allocations of 10 and of 20 bytes. *)
Definition alloc_store (n : Z) (s : store vcard) : store vcard :=
  match fs_store_alloc_data s n (Ptr 0) with Some (_, _, s') => s' | None => s end.

Lemma alloc_store_ok n s :
  store_ok s → is_u16 n → sb_data_top (s_sb s) + n ≤ len (flash s) →
  fs_store_alloc_data s n (Ptr 0) = Some (FS_OK, Ptr (sb_data_top (s_sb s)), alloc_store n s) ∧
  store_ok (alloc_store n s).
Proof.
  intros Hs Hn Hle. destruct (alloc_data_ok s n 0 Hs Hn Hle) as (s' & Ha & Hs' & _).
  unfold alloc_store. rewrite Ha. exact (conj eq_refl Hs').
Qed.

Lemma alloc_data_disjoint_witness :
  sb_data_top (s_sb formatted_store) ≤ 0 ∧ 0 + 10 ≤ 10 ∧ 10 + 20 ≤ len (flash (alloc_store 20 (alloc_store 10 formatted_store))) ∧
  flash (alloc_store 20 (alloc_store 10 formatted_store)) = flash formatted_store ∧
  v_slots (view (alloc_store 20 (alloc_store 10 formatted_store))) = v_slots (view formatted_store) ∧
  ∀ m, fs_store_mount (Store m (s_nvm (alloc_store 20 (alloc_store 10 formatted_store)))) =
    Some (FS_OK, alloc_store 20 (alloc_store 10 formatted_store)).
Proof.
  destruct formatted_ok as (Hs & Hsy & _).
  destruct (alloc_store_ok 10 formatted_store Hs) as [H1 Hs1];
    [unfold is_u16; lia|vm_compute; discriminate|].
  destruct (alloc_store_ok 20 (alloc_store 10 formatted_store) Hs1) as [H2 _];
    [unfold is_u16; lia|vm_compute; discriminate|].
  assert (sb_data_top (s_sb formatted_store) = 0) as Ht by (vm_compute; reflexivity).
  assert (sb_data_top (s_sb (alloc_store 10 formatted_store)) = 10) as Ht1 by (vm_compute; reflexivity).
  rewrite Ht in H1. rewrite Ht1 in H2.
  apply (alloc_data_disjoint formatted_store 10 20 0 10 (alloc_store 10 formatted_store)
           (alloc_store 20 (alloc_store 10 formatted_store)));
    [exact Hs|exact Hsy|unfold is_u16; lia|unfold is_u16; lia|exact H1|exact H2].
Defined.
