(* ===== verification/Fs.v ===== *)
(** * File system, logical layer (src/filesystem/fs.c, include/filesystem/fs.h)

    Navigation and selection in the file tree, file contents, the FCP template,
    personalisation, creation and deletion: the source, operation by operation,
    over the physical layer of FsStore.v.  The invariants are in FsTree.v. *)

From S2P Require Import Prelude OsMem Hal FsTypes FsStore.

Definition FS_ROOT_INDEX : Z := 0.

Definition fs_root_index : Z := FS_ROOT_INDEX.

Record fs_selection := FsSelection { cur_df : Z; cur_ef : Z }.

#[export] Instance fs_selection_eq_dec : EqDecision fs_selection.
Proof. solve_decision. Defined.

Definition fs_selection_reset (sel : ptr fs_selection) : ptr fs_selection :=
  match sel with NULL => NULL | Ptr _ => Ptr (FsSelection FS_ROOT_INDEX FS_INVALID_INDEX) end.

Definition fs_selected_index (sel : ptr fs_selection) : Z :=
  match sel with
  | NULL => FS_INVALID_INDEX
  | Ptr sel => if negb (cur_ef sel =? FS_INVALID_INDEX) then cur_ef sel else cur_df sel
  end.

Definition commit (sel : fs_selection) (index : Z) (d : fs_descriptor) : fs_selection :=
  if fs_is_df d then FsSelection index FS_INVALID_INDEX else FsSelection (d_parent d) index.

Definition fs_iso_descriptor_byte (desc : ptr fs_descriptor) : Z :=
  match desc with
  | NULL => 0x00
  | Ptr d =>
      if (d_type d =? FS_TYPE_MF) || (d_type d =? FS_TYPE_DF) then 0x38
      else if d_type d =? FS_TYPE_EF_TRANSPARENT then 0x01
      else 0x00
  end.

(** [buf[n++] = x] for the bytes of a list, one after the other. *)
Fixpoint push_bytes (l : list Z) (st : list Z * Z) : option (list Z * Z) :=
  match l with
  | [] => Some st
  | x :: l => let '(buf, n) := st in buf ← wr buf n x; push_bytes l (buf, u16 (n + 1))
  end.

Definition fs_build_fcp (desc : ptr fs_descriptor) (out : ptr (list Z)) (cap : Z)
    : option (Z * ptr (list Z)) :=
  match desc, out with
  | Ptr d, Ptr _ =>
      st ← push_bytes [0x82; 0x01; fs_iso_descriptor_byte desc] (local_array 24, 0);
      st ← push_bytes [0x83; 0x02; u8 (Z.shiftr (d_file_id d) 8); u8 (Z.land (d_file_id d) 0xFF)] st;
      st ← (if fs_is_ef d then
              push_bytes [0x80; 0x02; u8 (Z.shiftr (d_size d) 8); u8 (Z.land (d_size d) 0xFF)] st
            else Some st);
      st ← push_bytes [0x8A; 0x01; u8 (d_lifecycle d)] st;
      '(buf, n) ← (if fs_is_ef d && negb (d_sfi d =? FS_NO_SFI) then
                     push_bytes [0x88; 0x01; u8 (Z.shiftl (d_sfi d) 3)] st
                   else Some st);
      if cap <? n then Some (0, out) else
      '(ok, out) ← os_memcpy_checked out cap (Ptr buf) n;
      if negb ok then Some (0, out) else Some (n, out)
  | _, _ => Some (0, out)
  end.

Definition fid_is_reserved (fid : Z) : bool := (fid =? FS_FID_MF) || (fid =? 0xFFFF).

Section fs.
Context {N : Type} `{HalNvm N}.
Implicit Types s : store N.

(** [fs_descriptor d; st = fs_store_read_desc(index, &d);] *)
Definition get_desc (s : store N) (index : Z) : option (fs_status * fs_descriptor) :=
  r ← fs_store_read_desc s index (Ptr fs_descriptor_zero);
  match r with (st, Ptr d) => Some (st, d) | (_, NULL) => None end.

Definition fs_get (s : store N) (index : Z) (out : ptr fs_descriptor)
    : option (fs_status * ptr fs_descriptor) := fs_store_read_desc s index out.

Fixpoint find_child_loop (s : store N) (parent file_id : Z) (idx : list Z) : option (fs_status * Z) :=
  match idx with
  | [] => Some (FS_ERR_NOT_FOUND, FS_INVALID_INDEX)
  | i :: idx =>
      '(st, d) ← get_desc s i;
      match st with
      | FS_ERR_NOT_FOUND | FS_ERR_CORRUPT => find_child_loop s parent file_id idx
      | FS_OK =>
          if (d_parent d =? parent) && (d_file_id d =? file_id) then Some (FS_OK, i)
          else find_child_loop s parent file_id idx
      | _ => Some (st, FS_INVALID_INDEX)
      end
  end.

Definition fs_find_child (s : store N) (parent file_id : Z) (out_index : ptr Z)
    : option (fs_status * ptr Z) :=
  match out_index with
  | NULL => Some (FS_ERR_PARAM, NULL)
  | Ptr _ =>
      '(st, i) ← find_child_loop s parent file_id (upto (fs_store_max_files s));
      Some (st, Ptr i)
  end.

Definition is_child_ef (df sfi : Z) (d : fs_descriptor) : bool :=
  (d_parent d =? df) && fs_is_ef d && (d_sfi d =? sfi).

Definition fs_find_by_sfi (s : store N) (df sfi : Z) (out_index : ptr Z)
    : option (fs_status * ptr Z) :=
  match out_index with
  | NULL => Some (FS_ERR_PARAM, NULL)
  | Ptr _ =>
      if (sfi =? FS_NO_SFI) || (30 <? sfi) then Some (FS_ERR_PARAM, Ptr FS_INVALID_INDEX) else
      r ← find_first (λ i, '(st, d) ← get_desc s i; Some (fs_ok st && is_child_ef df sfi d))
            (upto (fs_store_max_files s));
      match r with
      | Some i => Some (FS_OK, Ptr i)
      | None => Some (FS_ERR_NOT_FOUND, Ptr FS_INVALID_INDEX)
      end
  end.

Definition fs_child_count (s : store N) (parent : Z) : option Z :=
  foreach (upto (fs_store_max_files s))
    (λ i count,
       '(st, d) ← get_desc s i;
       if negb (fs_ok st) then Some count else
       if d_parent d =? parent then Some (u16 (count + 1)) else Some count) 0.

(** *** Selection *)

Definition resolve (s : store N) (index : Z) : option (fs_status * fs_descriptor) :=
  '(st, d) ← get_desc s index;
  if negb (fs_ok st) then Some (st, d) else
  if negb (fs_is_usable d) then Some (FS_ERR_NOT_USABLE, d) else Some (FS_OK, d).

Definition fs_select_by_fid (s : store N) (sel : ptr fs_selection) (file_id : Z)
    : option (fs_status * ptr fs_selection) :=
  match sel with
  | NULL => Some (FS_ERR_PARAM, sel)
  | Ptr se =>
    let index := if file_id =? FS_FID_MF then FS_ROOT_INDEX else FS_INVALID_INDEX in
    index ← (if index =? FS_INVALID_INDEX then
               '(st, found) ← fs_find_child s (cur_df se) file_id (Ptr FS_INVALID_INDEX);
               match st, found with FS_OK, Ptr found => Some found | _, _ => Some index end
             else Some index);
    index ← (if index =? FS_INVALID_INDEX then
               '(st, d) ← get_desc s (cur_df se);
               if fs_ok st && (d_file_id d =? file_id) then Some (cur_df se) else Some index
             else Some index);
    index ← (if index =? FS_INVALID_INDEX then
               '(st, d) ← get_desc s (cur_df se);
               if fs_ok st && negb (d_parent d =? FS_NO_PARENT) then
                 '(pst, p) ← get_desc s (d_parent d);
                 if fs_ok pst && (d_file_id p =? file_id) then Some (d_parent d) else Some index
               else Some index
             else Some index);
    if index =? FS_INVALID_INDEX then Some (FS_ERR_NOT_FOUND, sel) else
    '(st, d) ← resolve s index;
    if negb (fs_ok st) then Some (st, sel) else
    Some (FS_OK, Ptr (commit se index d))
  end.

Definition select_child_typed (s : store N) (sel : ptr fs_selection) (file_id : Z) (want_df : bool)
    : option (fs_status * ptr fs_selection) :=
  match sel with
  | NULL => Some (FS_ERR_PARAM, sel)
  | Ptr se =>
    '(find, index) ← fs_find_child s (cur_df se) file_id (Ptr FS_INVALID_INDEX);
    match find, index with
    | FS_OK, Ptr index =>
        '(st, d) ← resolve s index;
        if negb (fs_ok st) then Some (st, sel) else
        if negb (eqb want_df (fs_is_df d)) then Some (FS_ERR_WRONG_TYPE, sel) else
        Some (FS_OK, Ptr (commit se index d))
    | _, _ => Some (find, sel)
    end
  end.

Definition fs_select_child_df (s : store N) (sel : ptr fs_selection) (file_id : Z) :=
  select_child_typed s sel file_id true.

Definition fs_select_child_ef (s : store N) (sel : ptr fs_selection) (file_id : Z) :=
  select_child_typed s sel file_id false.

Definition fs_select_parent (s : store N) (sel : ptr fs_selection)
    : option (fs_status * ptr fs_selection) :=
  match sel with
  | NULL => Some (FS_ERR_PARAM, sel)
  | Ptr se =>
    '(st, cur) ← get_desc s (cur_df se);
    if negb (fs_ok st) then Some (st, sel) else
    if d_parent cur =? FS_NO_PARENT then Some (FS_ERR_NOT_FOUND, sel) else
    '(pst, parent) ← resolve s (d_parent cur);
    if negb (fs_ok pst) then Some (pst, sel) else
    Some (FS_OK, Ptr (commit se (d_parent cur) parent))
  end.

(** The walk: the remaining component numbers, and how many there are in all. *)
Fixpoint path_loop (s : store N) (path : list Z) (steps : Z) (idx : list Z) (scratch : fs_selection)
    : option (fs_status * fs_selection) :=
  match idx with
  | [] => Some (FS_OK, scratch)
  | n :: idx =>
      hi ← rd path (n * 2);
      lo ← rd path (n * 2 + 1);
      let fid := u16 (Z.lor (Z.shiftl (u16 hi) 8) lo) in
      here ← (if n =? 0 then
                '(st, d) ← get_desc s (cur_df scratch);
                Some (fs_ok st && (d_file_id d =? fid))
              else Some false);
      if (here : bool) then path_loop s path steps idx scratch else
      '(find, index) ← fs_find_child s (cur_df scratch) fid (Ptr FS_INVALID_INDEX);
      match find, index with
      | FS_OK, Ptr index =>
          '(st, d) ← resolve s index;
          if negb (fs_ok st) then Some (st, scratch) else
          let last := n + 1 =? steps in
          if negb last && negb (fs_is_df d) then Some (FS_ERR_WRONG_TYPE, scratch) else
          path_loop s path steps idx (commit scratch index d)
      | _, _ => Some (FS_ERR_NOT_FOUND, scratch)
      end
  end.

Definition fs_select_by_path (s : store N) (sel : ptr fs_selection) (path : ptr (list Z))
    (path_len : Z) (from_mf : bool) : option (fs_status * ptr fs_selection) :=
  match sel, path with
  | Ptr se, Ptr path =>
    if (path_len =? 0) || negb (path_len mod 2 =? 0) then Some (FS_ERR_PARAM, sel) else
    let steps := u16 (path_len / 2) in
    if FS_MAX_DEPTH <? steps then Some (FS_ERR_PARAM, sel) else
    let scratch := if from_mf then FsSelection FS_ROOT_INDEX FS_INVALID_INDEX else se in
    '(st, scratch) ← path_loop s path steps (upto steps) scratch;
    if negb (fs_ok st) then Some (st, sel) else Some (FS_OK, Ptr scratch)
  | _, _ => Some (FS_ERR_PARAM, sel)
  end.

(** *** File contents *)

Definition fs_ef_read (s : store N) (index offset len : Z) (dst : ptr (list Z)) (out_read : ptr Z)
    : option (fs_status * ptr (list Z) * ptr Z) :=
  match dst, out_read with
  | Ptr _, Ptr _ =>
    '(st, d) ← resolve s index;
    if negb (fs_ok st) then Some (st, dst, Ptr 0) else
    if negb (fs_is_ef d) then Some (FS_ERR_WRONG_TYPE, dst, Ptr 0) else
    if d_size d <? offset then Some (FS_ERR_RANGE, dst, Ptr 0) else
    let available := u16 (d_size d - offset) in
    let to_read := if len <? available then len else available in
    if to_read =? 0 then Some (FS_OK, dst, Ptr 0) else
    '(rst, dst) ← fs_store_read_data s (u32 (d_data_offset d + offset)) to_read dst;
    if negb (fs_ok rst) then Some (rst, dst, Ptr 0) else
    Some (FS_OK, dst, Ptr to_read)
  | _, _ => Some (FS_ERR_PARAM, dst, out_read)
  end.

Definition fs_ef_write (s : store N) (index offset len : Z) (src : ptr (list Z))
    : option (fs_status * store N) :=
  if is_null src then Some (FS_ERR_PARAM, s) else
  if len =? 0 then Some (FS_OK, s) else
  '(st, d) ← resolve s index;
  if negb (fs_ok st) then Some (st, s) else
  if negb (fs_is_ef d) then Some (FS_ERR_WRONG_TYPE, s) else
  if d_size d <? u32 (offset + len) then Some (FS_ERR_RANGE, s) else
  fs_store_write_data s (u32 (d_data_offset d + offset)) len src.

(** *** Personalisation *)

Record layout_entry := LayoutEntry {
  l_index : Z; l_file_id : Z; l_type : Z; l_parent : Z; l_size : Z; l_sfi : Z }.

Definition factory_layout : list layout_entry :=
  [ LayoutEntry 1 0x2F00 FS_TYPE_EF_TRANSPARENT 0 32 1;
    LayoutEntry 2 0x7F10 FS_TYPE_DF 0 0 0;
    LayoutEntry 3 0x6F01 FS_TYPE_EF_TRANSPARENT 2 64 1;
    LayoutEntry 4 0x6F02 FS_TYPE_EF_TRANSPARENT 2 16 2 ].

Fixpoint personalise_loop (layout : list layout_entry) (s : store N) : option (fs_status * store N) :=
  match layout with
  | [] => Some (FS_OK, s)
  | e :: layout =>
      '(st, offset, s) ← (if l_type e =? FS_TYPE_EF_TRANSPARENT then
                            fs_store_alloc_data s (l_size e) (Ptr 0)
                          else Some (FS_OK, Ptr 0, s));
      if negb (fs_ok st) then Some (st, s) else
      match offset with
      | NULL => None
      | Ptr offset =>
          let d := FsDescriptor (l_file_id e) (l_type e) FS_LC_ACTIVATED (l_parent e) (l_size e)
                     offset 0 0 (l_sfi e) 0 in
          '(st, s) ← fs_store_write_desc s (l_index e) (Ptr d);
          if negb (fs_ok st) then Some (st, s) else personalise_loop layout s
      end
  end.

Definition factory_mf : fs_descriptor :=
  FsDescriptor FS_FID_MF FS_TYPE_MF FS_LC_ACTIVATED FS_NO_PARENT 0 0 0 0 FS_NO_SFI 0.

Definition fs_personalise (s : store N) : option (fs_status * store N) :=
  '(st, s) ← fs_store_format s;
  if negb (fs_ok st) then Some (st, s) else
  '(st, s) ← fs_store_write_desc s 0 (Ptr factory_mf);
  if negb (fs_ok st) then Some (st, s) else
  personalise_loop factory_layout s.

Definition fs_init (s : store N) : option (fs_status * store N) :=
  '(st, s) ← fs_store_mount s;
  match st with
  | FS_OK =>
      '(rst, mf) ← get_desc s FS_ROOT_INDEX;
      if negb (fs_ok rst) then
        Some (match rst with FS_ERR_NOT_FOUND => FS_ERR_CORRUPT | _ => rst end, s)
      else if negb (d_type mf =? FS_TYPE_MF) || negb (d_file_id mf =? FS_FID_MF) then
        Some (FS_ERR_CORRUPT, s)
      else Some (FS_OK, s)
  | FS_ERR_NOT_FORMATTED => fs_personalise s
  | _ => Some (st, s)
  end.

(** *** Creation and deletion *)

(** The type-specific checks of a request; [None]: nothing to object to. *)
Definition create_type_check (req : fs_descriptor) : option fs_status :=
  if d_type req =? FS_TYPE_DF then
    if negb (d_size req =? 0) || negb (d_sfi req =? FS_NO_SFI) then Some FS_ERR_PARAM else None
  else if d_type req =? FS_TYPE_EF_TRANSPARENT then
    if (d_size req =? 0) || (FS_MAX_EF_SIZE <? d_size req) then Some FS_ERR_PARAM
    else if negb (d_sfi req =? FS_NO_SFI) && ((d_sfi req <? 1) || (30 <? d_sfi req))
    then Some FS_ERR_PARAM else None
  else if d_type req =? FS_TYPE_MF then Some FS_ERR_EXISTS
  else Some FS_ERR_PARAM.

Definition create_lifecycle_ok (lc : Z) : bool :=
  (lc =? FS_LC_CREATION) || (lc =? FS_LC_INITIALISED) || (lc =? FS_LC_ACTIVATED)
  || (lc =? FS_LC_DEACTIVATED).

Definition fs_create_file (s : store N) (sel : ptr fs_selection) (req : ptr fs_descriptor)
    (out_index : ptr Z) : option (fs_status * ptr Z * store N) :=
  match sel, req with
  | Ptr se, Ptr req =>
    '(st, parent) ← get_desc s (cur_df se);
    if negb (fs_ok st) then Some (st, out_index, s) else
    if negb (fs_is_df parent) then Some (FS_ERR_WRONG_TYPE, out_index, s) else
    if negb (fs_is_usable parent) then Some (FS_ERR_NOT_USABLE, out_index, s) else
    if fid_is_reserved (d_file_id req) then Some (FS_ERR_EXISTS, out_index, s) else
    match create_type_check req with
    | Some e => Some (e, out_index, s)
    | None =>
      if negb (create_lifecycle_ok (d_lifecycle req)) then Some (FS_ERR_PARAM, out_index, s) else
      '(fst1, existing) ← fs_find_child s (cur_df se) (d_file_id req) (Ptr FS_INVALID_INDEX);
      if fs_ok fst1 then Some (FS_ERR_EXISTS, out_index, s) else
      sfi_taken ← (if negb (d_sfi req =? FS_NO_SFI) then
                     '(st, _) ← fs_find_by_sfi s (cur_df se) (d_sfi req) existing; Some (fs_ok st)
                   else Some false);
      if (sfi_taken : bool) then Some (FS_ERR_EXISTS, out_index, s) else
      slot ← fs_store_find_free_slot s;
      if slot =? FS_INVALID_INDEX then Some (FS_ERR_NO_SPACE, out_index, s) else
      '(st, offset, s) ← (if d_type req =? FS_TYPE_EF_TRANSPARENT then
                            fs_store_alloc_data s (d_size req) (Ptr 0)
                          else Some (FS_OK, Ptr 0, s));
      if negb (fs_ok st) then Some (st, out_index, s) else
      match offset with
      | NULL => None
      | Ptr offset =>
          let d := FsDescriptor (d_file_id req) (d_type req) (d_lifecycle req) (cur_df se)
                     (d_size req) offset (d_ac_read req) (d_ac_update req) (d_sfi req) 0 in
          '(st, s) ← fs_store_write_desc s slot (Ptr d);
          if negb (fs_ok st) then Some (st, out_index, s) else
          Some (FS_OK, match out_index with NULL => NULL | Ptr _ => Ptr slot end, s)
      end
    end
  | _, _ => Some (FS_ERR_PARAM, out_index, s)
  end.

Definition fs_delete_file (s : store N) (sel : ptr fs_selection) (file_id : Z)
    : option (fs_status * ptr fs_selection * store N) :=
  match sel with
  | NULL => Some (FS_ERR_PARAM, sel, s)
  | Ptr se =>
    if file_id =? FS_FID_MF then Some (FS_ERR_NOT_USABLE, sel, s) else
    '(st, index) ← fs_find_child s (cur_df se) file_id (Ptr FS_INVALID_INDEX);
    match st, index with
    | FS_OK, Ptr index =>
        '(st, d) ← get_desc s index;
        if negb (fs_ok st) then Some (st, sel, s) else
        if d_type d =? FS_TYPE_MF then Some (FS_ERR_NOT_USABLE, sel, s) else
        nonempty ← (if fs_is_df d then n ← fs_child_count s index; Some (0 <? n) else Some false);
        if (nonempty : bool) then Some (FS_ERR_NOT_USABLE, sel, s) else
        '(st, s) ← fs_store_free_desc s index;
        if negb (fs_ok st) then Some (st, sel, s) else
        let se := if cur_ef se =? index then FsSelection (cur_df se) FS_INVALID_INDEX else se in
        let se := if cur_df se =? index then FsSelection fs_root_index FS_INVALID_INDEX else se in
        Some (FS_OK, Ptr se, s)
    | _, _ => Some (st, sel, s)
    end
  end.

End fs.

(** ** Safety: every operation is defined, whatever the device answers *)

Record sel_typed (se : fs_selection) : Prop := {
  st_df : is_u16 (cur_df se);
  st_ef : is_u16 (cur_ef se);
}.

Lemma sel_reset_typed : sel_typed (FsSelection FS_ROOT_INDEX FS_INVALID_INDEX).
Proof. by constructor. Qed.

Lemma commit_typed se i d : sel_typed se → is_u16 i → desc_typed d → sel_typed (commit se i d).
Proof. intros [] Hi []. unfold commit. case_if; constructor; done. Qed.

#[export] Hint Resolve sel_reset_typed commit_typed st_df st_ef : card.

Section fs_safe.
Context {N : Type} `{HalNvmSpec N}.
Implicit Types s : store N.

Lemma get_desc_total s i :
  store_safe s → is_u16 i →
  ∃ st d, get_desc s i = Some (st, d) ∧ desc_typed d ∧ (st = FS_OK → desc_ok (len (flash s)) d).
Proof.
  intros Hs Hi. unfold get_desc.
  destruct (read_desc_total s i fs_descriptor_zero Hs Hi) as (st & d & -> & ? & ?). eauto.
Qed.

Lemma max_files_u16 s : store_safe s → is_u16 (fs_store_max_files s).
Proof. intros []. unfold fs_store_max_files. case_if; [done|]. unfold is_u16. lia. Qed.

Lemma upto_files_u16 s : store_safe s → Forall is_u16 (upto (fs_store_max_files s)).
Proof. intros Hs%max_files_u16. apply upto_u16. unfold is_u16 in *. lia. Qed.

Lemma find_child_total s p fid x :
  store_safe s → ∃ st i, fs_find_child s p fid (Ptr x) = Some (st, Ptr i) ∧ is_u16 i.
Proof.
  intros Hs. unfold fs_find_child. pose proof (upto_files_u16 s Hs) as Hidx.
  assert (∃ st i, find_child_loop s p fid (upto (fs_store_max_files s)) = Some (st, i) ∧ is_u16 i)
    as (st & i & -> & ?); [|by exists st, i].
  induction Hidx as [|j idx Hj _ IH]; [by eexists _, _|]. cbn [find_child_loop].
  destruct (get_desc_total s j Hs Hj) as (st & d & -> & _). bind_simpl.
  destruct st; try (by eexists _, _); try done. case_if; [by eexists _, _|done].
Qed.

Lemma find_by_sfi_total s p sfi x :
  store_safe s → ∃ st i, fs_find_by_sfi s p sfi (Ptr x) = Some (st, Ptr i) ∧ is_u16 i.
Proof.
  intros Hs. unfold fs_find_by_sfi. case_if; [by eexists _, _|].
  pose proof (max_files_u16 s Hs) as Hmax. unfold is_u16 in Hmax.
  match goal with |- context [find_first ?t _] =>
    destruct (find_first_spec t (fs_store_max_files s)) as (r & -> & Hr) end.
  { intros i Hi. destruct (get_desc_total s i Hs) as (st & d & -> & _); [unfold is_u16; lia|]. eauto. }
  bind_simpl. destruct r as [i|]; eexists _, _; (split; [done|]); [unfold is_u16; lia|done].
Qed.

Lemma child_count_total s p : store_safe s → ∃ n, fs_child_count s p = Some n.
Proof.
  intros Hs. unfold fs_child_count. pose proof (upto_files_u16 s Hs) as Hidx. generalize 0.
  induction Hidx as [|j idx Hj _ IH]; intros c; [eauto|]. cbn [foreach].
  destruct (get_desc_total s j Hs Hj) as (st & d & -> & _). bind_simpl.
  repeat case_if; bind_simpl; apply IH.
Qed.

Lemma resolve_total s i :
  store_safe s → is_u16 i →
  ∃ st d, resolve s i = Some (st, d) ∧ desc_typed d ∧ (st = FS_OK → desc_ok (len (flash s)) d).
Proof.
  intros Hs Hi. unfold resolve. destruct (get_desc_total s i Hs Hi) as (st & d & -> & ? & ?). bind_simpl.
  repeat case_if; eexists _, _; (split; [done|]); (split; [done|]); try done.
  apply fs_ok_true in Heqb. auto.
Qed.

(** A selection either succeeds or leaves the selection as it was. *)
Definition sel_outcome (se : fs_selection) (r : option (fs_status * ptr fs_selection)) : Prop :=
  ∃ st se', r = Some (st, Ptr se') ∧ sel_typed se' ∧ (st ≠ FS_OK → se' = se).

Lemma sel_keep se st : sel_typed se → st ≠ FS_OK → sel_outcome se (Some (st, Ptr se)).
Proof. intros. by exists st, se. Qed.

Lemma sel_move se se' : sel_typed se' → sel_outcome se (Some (FS_OK, Ptr se')).
Proof. intros. by exists FS_OK, se'. Qed.

(** The common end of the selections: resolve the index and commit. *)
Lemma resolve_commit_total s se i (k : fs_descriptor → option fs_status) :
  store_safe s → sel_typed se → is_u16 i → (∀ d e, k d = Some e → e ≠ FS_OK) →
  sel_outcome se ('(st, d) ← resolve s i;
                  if negb (fs_ok st) then Some (st, Ptr se) else
                  match k d with Some e => Some (e, Ptr se) | None => Some (FS_OK, Ptr (commit se i d)) end).
Proof.
  intros Hs Hse Hi Hk. destruct (resolve_total s i Hs Hi) as (st & d & -> & Hd & _). bind_simpl.
  case_if; [apply sel_keep; [done|by intros ->]|].
  destruct (k d) eqn:E; [apply sel_keep; eauto|]. apply sel_move. auto with card.
Qed.

Lemma select_by_fid_total s se fid :
  store_safe s → sel_typed se → sel_outcome se (fs_select_by_fid s (Ptr se) fid).
Proof.
  intros Hs Hse. pose proof Hse as [Hdf Hef]. unfold fs_select_by_fid.
  destruct (find_child_total s (cur_df se) fid FS_INVALID_INDEX Hs) as (fst1 & fi & -> & Hfi).
  destruct (get_desc_total s (cur_df se) Hs Hdf) as (dst & d & -> & Hd & _). bind_simpl.
  set (i0 := if fid =? FS_FID_MF then FS_ROOT_INDEX else FS_INVALID_INDEX).
  assert (is_u16 i0) as Hi0 by (unfold i0; by case_if).
  match goal with |- sel_outcome _ (?m ≫= _) => assert (∃ i1, m = Some i1 ∧ is_u16 i1) as (i1 & -> & Hi1) end.
  { case_if; [destruct fst1|]; eauto. }
  bind_simpl.
  match goal with |- sel_outcome _ (?m ≫= _) => assert (∃ i2, m = Some i2 ∧ is_u16 i2) as (i2 & -> & Hi2) end.
  { repeat case_if; eauto. }
  bind_simpl.
  match goal with |- sel_outcome _ (?m ≫= _) => assert (∃ i3, m = Some i3 ∧ is_u16 i3) as (i3 & -> & Hi3) end.
  { case_if; [|eauto]. case_if; [|eauto]. pose proof Hd as [].
    destruct (get_desc_total s (d_parent d) Hs) as (pst & p & -> & _); [done|]. bind_simpl.
    case_if; eauto. }
  bind_simpl. case_if; [by apply sel_keep|].
  apply (resolve_commit_total s se i3 (λ _, None)); done.
Qed.

Lemma select_child_total s se fid w :
  store_safe s → sel_typed se → sel_outcome se (select_child_typed s (Ptr se) fid w).
Proof.
  intros Hs Hse. unfold select_child_typed.
  destruct (find_child_total s (cur_df se) fid FS_INVALID_INDEX Hs) as (fst1 & fi & -> & Hfi). bind_simpl.
  destruct fst1; try by apply sel_keep.
  destruct (resolve_total s fi Hs Hfi) as (st & d & -> & Hd & _). bind_simpl.
  case_if; [apply sel_keep; [done|by intros ->]|]. case_if; [by apply sel_keep|].
  apply sel_move. auto with card.
Qed.

Lemma select_parent_total s se :
  store_safe s → sel_typed se → sel_outcome se (fs_select_parent s (Ptr se)).
Proof.
  intros Hs Hse. unfold fs_select_parent.
  destruct (get_desc_total s (cur_df se) Hs) as (dst & d & -> & Hd & _); [apply Hse|]. bind_simpl.
  case_if; [apply sel_keep; [done|by intros ->]|]. case_if; [by apply sel_keep|].
  pose proof Hd as []. apply (resolve_commit_total s se (d_parent d) (λ _, None)); done.
Qed.

Lemma path_loop_total s path steps idx sc :
  store_safe s → sel_typed sc → bytes path → Forall (λ n, 0 ≤ n ∧ n * 2 + 1 < len path) idx →
  ∃ st sc', path_loop s path steps idx sc = Some (st, sc') ∧ sel_typed sc'.
Proof.
  intros Hs Hsc Hb Hidx. revert sc Hsc. induction Hidx as [|n idx [Hn Hn2] _ IH]; intros sc Hsc; [by eexists _, _|].
  cbn [path_loop].
  destruct (rd_byte path (n * 2) Hb) as (hi & -> & Hhi); [lia|].
  destruct (rd_byte path (n * 2 + 1) Hb) as (lo & -> & Hlo); [lia|]. bind_simpl.
  set (fid := u16 _).
  destruct (get_desc_total s (cur_df sc) Hs) as (dst & d & -> & Hd & _); [apply Hsc|]. bind_simpl.
  match goal with |- context [?m ≫= _] => assert (∃ b : bool, m = Some b) as (b & ->) end.
  { case_if; eauto. }
  bind_simpl. destruct b; [by apply IH|].
  destruct (find_child_total s (cur_df sc) fid FS_INVALID_INDEX Hs) as (fst1 & fi & -> & Hfi). bind_simpl.
  destruct fst1; try (by eexists _, _).
  destruct (resolve_total s fi Hs Hfi) as (st & d' & -> & Hd' & _). bind_simpl.
  case_if; [by eexists _, _|]. case_if; [by eexists _, _|]. apply IH. auto with card.
Qed.

Lemma select_by_path_total s se path n m :
  store_safe s → sel_typed se → bytes path → 0 ≤ n ≤ len path → n < 65536 →
  sel_outcome se (fs_select_by_path s (Ptr se) (Ptr path) n m).
Proof.
  intros Hs Hse Hb Hn Hn16. unfold fs_select_by_path.
  case_if; [by apply sel_keep|]. case_if; [by apply sel_keep|].
  unfold u16 in *.
  destruct (path_loop_total s path (n / 2 mod 65536) (upto (n / 2 mod 65536))
    (if m then FsSelection FS_ROOT_INDEX FS_INVALID_INDEX else se)) as (st & sc & -> & Hsc); try done.
  - destruct m; auto with card.
  - apply Forall_forall. intros i Hi%elem_of_upto. lia.
  - bind_simpl. case_if; [apply sel_keep; [done|by intros ->]|by apply sel_move].
Qed.

Lemma ef_read_total s i off n d x :
  store_safe s → is_u16 i → is_u16 off → 0 ≤ n ≤ len d → is_u16 n → bytes d →
  ∃ st d' k, fs_ef_read s i off n (Ptr d) (Ptr x) = Some (st, Ptr d', Ptr k) ∧
    len d' = len d ∧ bytes d' ∧ 0 ≤ k ≤ n.
Proof.
  intros Hs Hi Hoff Hn Hn16 Hd. unfold fs_ef_read.
  destruct (resolve_total s i Hs Hi) as (st & fd & -> & Hfd & _). bind_simpl. pose proof Hfd as [].
  case_if; [eexists _, d, 0; split_and!; done || lia|].
  case_if; [eexists _, d, 0; split_and!; done || lia|].
  case_if; [eexists _, d, 0; split_and!; done || lia|].
  set (k := if n <? u16 (d_size fd - off) then n else u16 (d_size fd - off)).
  assert (0 ≤ k ≤ n) as Hk.
  { unfold k, is_u16 in *. pose proof (u16_range (d_size fd - off)). unfold is_u16 in *. case_if; lia. }
  case_if; [eexists _, d, 0; split_and!; done || lia|].
  destruct (read_data_total s (u32 (d_data_offset fd + off)) k d) as (rst & d' & -> & Hl & Hb);
    try done; [auto with card|lia|unfold is_u16 in *; lia|]. bind_simpl.
  case_if; [eexists _, d', 0; split_and!; done || lia|]. eexists _, d', k. split_and!; done || lia.
Qed.

Lemma ef_write_total s i off n b :
  store_safe s → is_u16 i → 0 ≤ n ≤ len b → is_u16 n → bytes b →
  wp (fs_ef_write s i off n (Ptr b)) (λ '(_, s'), store_safe s').
Proof.
  intros Hs Hi Hn Hn16 Hb. unfold fs_ef_write. cbn [is_null]. case_if; [done|].
  destruct (resolve_total s i Hs Hi) as (st & fd & -> & Hfd & _). bind_simpl.
  case_if; [done|]. case_if; [done|]. case_if; [done|].
  eapply wp_mono; [apply write_data_total; auto with card; lia|]. by intros [? ?] [? _].
Qed.

Lemma personalise_loop_total layout s :
  store_safe s →
  Forall (λ e, is_u16 (l_index e) ∧ is_u16 (l_file_id e) ∧ is_u8 (l_type e) ∧ is_u16 (l_parent e) ∧
               is_u16 (l_size e) ∧ is_u8 (l_sfi e)) layout →
  wp (personalise_loop layout s) (λ '(_, s'), store_safe s').
Proof.
  intros Hs Hl. revert s Hs. induction Hl as [|e layout (Hi & Hf & Ht & Hp & Hz & Hsf) _ IH]; intros s Hs; [done|].
  cbn [personalise_loop].
  eapply wp_bind, (wp_mono _ (λ '(_, o, s'), store_safe s' ∧ ∃ off, o = Ptr off ∧ is_u32 off)).
  { case_if; [by apply alloc_data_total|]. split; [done|]. by exists 0. }
  intros [[st o] s1] (Hs1 & off & -> & Hoff). case_if; [done|].
  wp_step write_desc_total; [done|done|by constructor|].
  intros [st2 s2] [Hs2 _]. case_if; [done|]. by apply IH.
Qed.

Lemma personalise_total s : store_safe s → wp (fs_personalise s) (λ '(_, s'), store_safe s').
Proof.
  intros Hs. unfold fs_personalise. wp_step format_total; [done|]. intros [st s1] Hs1. case_if; [done|].
  wp_step write_desc_total; [done|done|by constructor|]. intros [st2 s2] [Hs2 _]. case_if; [done|].
  apply personalise_loop_total; [done|]. by repeat constructor.
Qed.

Lemma fs_init_total s : store_safe s → wp (fs_init s) (λ '(_, s'), store_safe s').
Proof.
  intros Hs. unfold fs_init. wp_step mount_total; [done|]. intros [st s1] (Hs1 & _ & _).
  destruct st; try done; [|by apply personalise_total].
  destruct (get_desc_total s1 FS_ROOT_INDEX Hs1) as (rst & d & -> & _); [done|]. bind_simpl.
  case_if; [done|]. by case_if.
Qed.

Lemma create_total s se req x :
  store_safe s → sel_typed se → desc_typed req →
  ∃ st o s', fs_create_file s (Ptr se) (Ptr req) x = Some (st, o, s') ∧ store_safe s'.
Proof.
  intros Hs Hse Hreq. unfold fs_create_file.
  destruct (get_desc_total s (cur_df se) Hs) as (pst & p & -> & Hp & _); [apply Hse|]. bind_simpl.
  case_if; [eauto|]. case_if; [eauto|]. case_if; [eauto|]. case_if; [eauto|].
  destruct (create_type_check req); [eauto|]. case_if; [eauto|].
  destruct (find_child_total s (cur_df se) (d_file_id req) FS_INVALID_INDEX Hs) as (fst1 & fi & -> & Hfi).
  bind_simpl. case_if; [eauto|].
  match goal with |- context [?m ≫= _] => assert (∃ b : bool, m = Some b) as (b & ->) end.
  { case_if; [|eauto].
    destruct (find_by_sfi_total s (cur_df se) (d_sfi req) fi Hs) as (st & i & -> & _). eauto. }
  bind_simpl. destruct b; [eauto|].
  destruct (find_free_slot_total s Hs) as (slot & -> & Hslot). bind_simpl. case_if; [eauto|].
  match goal with |- context [?m ≫= _] =>
    assert (wp m (λ '(_, o, s'), store_safe s' ∧ ∃ off, o = Ptr off ∧ is_u32 off)) as Ha end.
  { pose proof Hreq as []. case_if; [by apply alloc_data_total|]. split; [done|]. by exists 0. }
  apply wp_elim in Ha as ([[st o] s1] & -> & Hs1 & off & -> & Hoff). bind_simpl. case_if; [eauto|].
  pose proof Hreq as []. pose proof Hse as [].
  pose proof (write_desc_total s1 slot (FsDescriptor (d_file_id req) (d_type req) (d_lifecycle req)
    (cur_df se) (d_size req) off (d_ac_read req) (d_ac_update req) (d_sfi req) 0) Hs1 Hslot
    ltac:(by constructor)) as Hw.
  apply wp_elim in Hw as ([st2 s2] & -> & Hs2 & _). bind_simpl. case_if; eauto.
Qed.

Lemma delete_total s se fid :
  store_safe s → sel_typed se →
  ∃ st se' s', fs_delete_file s (Ptr se) fid = Some (st, Ptr se', s') ∧ store_safe s' ∧ sel_typed se' ∧
    (st ≠ FS_OK → se' = se).
Proof.
  intros Hs Hse. unfold fs_delete_file. case_if; [by eexists _, _, _|].
  destruct (find_child_total s (cur_df se) fid FS_INVALID_INDEX Hs) as (fst1 & i & -> & Hi). bind_simpl.
  destruct fst1; try by eexists _, _, _.
  destruct (get_desc_total s i Hs Hi) as (st & d & -> & Hd & _). bind_simpl.
  case_if; [by eexists _, _, _|]. case_if; [by eexists _, _, _|].
  match goal with |- context [?m ≫= _] => assert (∃ b : bool, m = Some b) as (b & ->) end.
  { case_if; [|eauto]. destruct (child_count_total s i Hs) as (n & ->). eauto. }
  bind_simpl. destruct b; [by eexists _, _, _|].
  pose proof (free_desc_total s i Hs Hi) as Hw. apply wp_elim in Hw as ([st2 s2] & -> & Hs2 & _). bind_simpl.
  case_if; [by eexists _, _, _|]. eexists _, _, _. split; [done|]. split; [done|]. split; [|done].
  pose proof Hse as []. repeat case_if; by constructor.
Qed.

End fs_safe.

(** ** The FCP template *)

Definition fcp_bytes (d : fs_descriptor) : list Z :=
  [0x82; 0x01; fs_iso_descriptor_byte (Ptr d)] ++ [0x83; 0x02] ++ be16 (d_file_id d)
  ++ (if fs_is_ef d then [0x80; 0x02] ++ be16 (d_size d) else [])
  ++ [0x8A; 0x01; u8 (d_lifecycle d)]
  ++ (if fs_is_ef d && negb (d_sfi d =? FS_NO_SFI) then [0x88; 0x01; u8 (Z.shiftl (d_sfi d) 3)] else []).

Lemma len_fcp_bytes d : 10 ≤ len (fcp_bytes d) ≤ 17.
Proof. unfold fcp_bytes. destruct (fs_is_ef d), (negb _); vm_compute; intuition discriminate. Qed.

Lemma push_bytes_splice l buf n pre :
  n = len pre → len pre + len l ≤ len buf → len buf < 65536 →
  push_bytes l (splice buf 0 pre, n) = Some (splice buf 0 (pre ++ l), len (pre ++ l)).
Proof.
  revert n pre. induction l as [|x l IH]; intros n pre -> Hle Hlt; [by rewrite app_nil_r|].
  cbn [push_bytes]. pose proof (splice_snoc buf 0 pre x) as Hs. pose proof (len_nonneg pre).
  pose proof (len_nonneg l). rewrite len_cons in Hle.
  rewrite wr_some by (rewrite len_splice; lia). bind_simpl. rewrite Z.add_0_l in Hs. rewrite Hs by lia.
  rewrite u16_id by (unfold is_u16; lia).
  rewrite (IH (len pre + 1) (pre ++ [x])); rewrite ?len_app; change (len [x]) with 1; try lia.
  rewrite <- app_assoc, len_cons. cbn [app]. do 2 f_equal. lia.
Qed.

(** The template is built completely or not at all. *)
Lemma build_fcp_eq d out cap :
  0 ≤ cap ≤ len out → cap < 65536 →
  fs_build_fcp (Ptr d) (Ptr out) cap =
    Some (if cap <? len (fcp_bytes d) then (0, Ptr out)
          else (len (fcp_bytes d), Ptr (splice out 0 (fcp_bytes d)))).
Proof.
  intros Hcap Hc16. unfold fs_build_fcp. pose proof (len_fcp_bytes d) as Hlen.
  change (local_array 24) with (splice (local_array 24) 0 []).
  rewrite push_bytes_splice by (vm_compute; congruence). bind_simpl. cbn [app].
  rewrite push_bytes_splice by (vm_compute; congruence). bind_simpl. cbn [app].
  assert (∀ t, len t ≤ 17 →
    (if cap <? len t then Some (0, Ptr out) else
     '(ok, out) ← os_memcpy_checked (Ptr out) cap (Ptr (splice (local_array 24) 0 t)) (len t);
     if negb ok then Some (0, out) else Some (len t, out)) =
    Some (if cap <? len t then (0, Ptr out) else (len t, Ptr (splice out 0 t)))) as Hend.
  { intros t Ht. case_if; [done|]. pose proof (len_nonneg t).
    assert (len (splice (local_array 24) 0 t) = 24) as Hl
      by (rewrite len_splice; unfold local_array; rewrite ?len_replicate; lia).
    rewrite os_memcpy_checked_block by lia. replace (len t <=? cap) with true by lia. bind_simpl.
    cbn [negb]. rewrite slice_splice_same; [done|lia|]. unfold local_array. rewrite len_replicate; lia. }
  clear Hlen. unfold fcp_bytes, be16. cbn [app].
  destruct (fs_is_ef d), (negb (d_sfi d =? FS_NO_SFI)); cbn [andb app];
    repeat first [ rewrite push_bytes_splice by (vm_compute; congruence)
                 | rewrite bind_some; cbv beta iota
                 | progress cbn [andb app] ];
    (apply Hend; vm_compute; congruence).
Qed.
