(* ===== verification/FsTree.v ===== *)
(** * The file tree: what the logical layer means and keeps

    The operations of Fs.v specified on the abstract view of FsStore.v, and the
    invariants of the tree and of the selection: established by
    personalisation, kept by every operation. *)

From S2P Require Import Prelude OsMem Hal SimHal FsTypes FsStore Fs.

(** ** The invariants *)

(** File [i] is a child of [p]. *)
Definition child_of (v : fs_view) (p i : Z) : Prop :=
  ∃ d, file_at v i = Some d ∧ d_parent d = p.

Definition child_named (v : fs_view) (p fid i : Z) : Prop :=
  ∃ d, file_at v i = Some d ∧ d_parent d = p ∧ d_file_id d = fid.

(** The path from a file up to the root ends. *)
Inductive under_root (v : fs_view) : Z → Prop :=
| under_root_mf : under_root v FS_ROOT_INDEX
| under_root_child i d :
    file_at v i = Some d → under_root v (d_parent d) → under_root v i.

Record tree_inv (v : fs_view) : Prop := {
  ti_root : ∃ d, file_at v FS_ROOT_INDEX = Some d ∧ d_type d = FS_TYPE_MF ∧ d_file_id d = FS_FID_MF ∧
                 d_parent d = FS_NO_PARENT ∧ fs_is_usable d = true;
  ti_one_mf : ∀ i d, file_at v i = Some d → d_type d = FS_TYPE_MF → i = FS_ROOT_INDEX;
  ti_parent : ∀ i d, file_at v i = Some d → i ≠ FS_ROOT_INDEX →
                ∃ p, file_at v (d_parent d) = Some p ∧ fs_is_df p = true;
  ti_fid : ∀ i j d e, file_at v i = Some d → file_at v j = Some e →
             d_parent d = d_parent e → d_file_id d = d_file_id e → i = j;
  ti_sfi : ∀ i j d e, file_at v i = Some d → file_at v j = Some e →
             fs_is_ef d = true → fs_is_ef e = true → d_parent d = d_parent e →
             d_sfi d = d_sfi e → d_sfi d ≠ FS_NO_SFI → i = j;
  ti_data : ∀ i d, file_at v i = Some d → fs_is_ef d = true →
              0 ≤ d_data_offset d ∧ 0 ≤ d_size d ∧ d_data_offset d + d_size d ≤ v_top v;
  ti_disjoint : ∀ i j d e, file_at v i = Some d → file_at v j = Some e → i ≠ j →
                  fs_is_ef d = true → fs_is_ef e = true →
                  d_data_offset d + d_size d ≤ d_data_offset e ∨
                  d_data_offset e + d_size e ≤ d_data_offset d;
  ti_under : ∀ i d, file_at v i = Some d → under_root v i;
}.

(** The selection: a directory, and possibly a file of that directory. *)
Record sel_inv (v : fs_view) (se : fs_selection) : Prop := {
  si_df : ∃ d, file_at v (cur_df se) = Some d ∧ fs_is_df d = true ∧ is_u16 (cur_df se);
  si_ef : cur_ef se = FS_INVALID_INDEX ∨
          ∃ d, file_at v (cur_ef se) = Some d ∧ fs_is_ef d = true ∧ d_parent d = cur_df se ∧
               is_u16 (cur_ef se);
}.

(** ** Changing one slot *)

Section view.
Implicit Types v : fs_view.

Lemma file_at_nonneg v i d : file_at v i = Some d → 0 ≤ i < Z.of_nat (length (v_slots v)).
Proof.
  unfold file_at. case_if; [|done]. destruct (v_slots v !! _) as [sl|] eqn:E; [|done].
  apply lookup_lt_Some in E. lia.
Qed.

Lemma file_at_set_eq v i sl :
  0 ≤ i < Z.of_nat (length (v_slots v)) →
  file_at (set_slot v i sl) i = match sl with SlotFile d => Some d | _ => None end.
Proof.
  intros Hi. unfold file_at, set_slot. cbn. replace (0 <=? i) with true by lia.
  by rewrite list_lookup_insert_eq by lia.
Qed.

Lemma file_at_set_ne v i j sl : 0 ≤ i → j ≠ i → file_at (set_slot v i sl) j = file_at v j.
Proof.
  intros Hi Hj. unfold file_at, set_slot. cbn. case_if; [|done].
  by rewrite list_lookup_insert_ne by lia.
Qed.

Lemma under_root_mono v v' i :
  (∀ j d, file_at v j = Some d → file_at v' j = Some d) → under_root v i → under_root v' i.
Proof. intros Hf. induction 1; [constructor|]. eapply under_root_child; eauto. Qed.

(** The root is not its own ancestor, so no file is its own parent. *)
Lemma no_self_parent v i d : tree_inv v → file_at v i = Some d → d_parent d ≠ i.
Proof.
  intros Ht Hd. pose proof (ti_under v Ht i d Hd) as Hu. revert d Hd.
  induction Hu as [|k d' Hd' _ IH]; intros d Hd Hp.
  - destruct (ti_root v Ht) as (r & Hr & _ & _ & Hpar & _). rewrite Hr in Hd. injection Hd as <-.
    rewrite Hpar in Hp. discriminate.
  - rewrite Hd in Hd'. injection Hd' as <-. rewrite Hp in IH. by eapply IH.
Qed.

(** A new file in a free slot keeps the tree. *)
Lemma tree_insert v top i d p :
  tree_inv v → 0 ≤ i < Z.of_nat (length (v_slots v)) → file_at v i = None →
  file_at v (d_parent d) = Some p → fs_is_df p = true →
  d_type d ≠ FS_TYPE_MF →
  (∀ j, ¬ child_named v (d_parent d) (d_file_id d) j) →
  (fs_is_ef d = true → d_sfi d ≠ FS_NO_SFI →
     ∀ j e, file_at v j = Some e → fs_is_ef e = true → d_parent e = d_parent d → d_sfi e ≠ d_sfi d) →
  (fs_is_ef d = true → v_top v ≤ d_data_offset d ∧ 0 ≤ d_data_offset d ∧ 0 ≤ d_size d ∧ d_data_offset d + d_size d ≤ top) →
  v_top v ≤ top →
  tree_inv (set_slot (FsView (v_slots v) top (v_flash v)) i (SlotFile d)).
Proof.
  intros Ht Hi Hfree Hp Hdf Hmf Hfid Hsfi Hdata Htop.
  set (v' := set_slot _ _ _).
  assert (file_at v' i = Some d) as Hnew by (by apply file_at_set_eq).
  assert (∀ j, j ≠ i → file_at v' j = file_at v j) as Hold.
  { intros j Hj. apply (file_at_set_ne (FsView (v_slots v) top (v_flash v)) i j); [lia|done]. }
  assert (∀ j e, file_at v j = Some e → file_at v' j = Some e) as Hkeep.
  { intros j e He. rewrite Hold; [done|]. intros ->. congruence. }
  assert (∀ j e, file_at v' j = Some e → (j = i ∧ e = d) ∨ (j ≠ i ∧ file_at v j = Some e)) as Hinv.
  { intros j e He. destruct (decide (j = i)) as [->|Hj]; [left|right]; [by simplify_eq|].
    by rewrite Hold in He. }
  destruct Ht as [Hroot Hone Hpar Hf Hs Hda Hdis Hu].
  constructor.
  - destruct Hroot as (r & Hr & ?). exists r. split; [by apply Hkeep|done].
  - intros j e [[-> ->]|[? He]]%Hinv ?; [done|eauto].
  - intros j e [[-> ->]|[? He]]%Hinv Hj; [by eauto|]. destruct (Hpar j e He Hj) as (q & ? & ?). eauto.
  - intros j k e e' [[-> ->]|[? He]]%Hinv [[-> ->]|[? He']]%Hinv Hpp Hff; [done| | |by eauto].
    + exfalso. apply (Hfid k). by exists e'.
    + exfalso. apply (Hfid j). by exists e.
  - intros j k e e' [[-> ->]|[? He]]%Hinv [[-> ->]|[? He']]%Hinv Hef Hef' Hpp Hss Hn; [done| | |by eauto].
    + exfalso. by eapply (Hsfi Hef Hn k e').
    + exfalso. rewrite Hss in Hn. by eapply (Hsfi Hef' Hn j e).
  - intros j e [[-> ->]|[? He]]%Hinv Hef; cbn.
    + destruct (Hdata Hef) as (? & ? & ? & ?). done.
    + destruct (Hda j e He Hef) as (? & ? & ?). lia.
  - intros j k e e' [[-> ->]|[? He]]%Hinv [[-> ->]|[? He']]%Hinv Hne Hef Hef'; [done| | |by eauto].
    + destruct (Hdata Hef) as (? & _). destruct (Hda k e' He' Hef') as (? & ? & ?). right. lia.
    + destruct (Hdata Hef') as (? & _). destruct (Hda j e He Hef) as (? & ? & ?). left. lia.
  - intros j e [[-> ->]|[? He]]%Hinv.
    + eapply under_root_child; [done|]. eapply (under_root_mono v); eauto.
    + eapply (under_root_mono v); eauto.
Qed.

(** Removing a file without children keeps the tree. *)
Lemma tree_remove v i d :
  tree_inv v → file_at v i = Some d → i ≠ FS_ROOT_INDEX → (∀ j, ¬ child_of v i j) →
  tree_inv (set_slot v i SlotFree).
Proof.
  intros Ht Hd Hi Hchild. pose proof (file_at_nonneg _ _ _ Hd) as Hlt. set (v' := set_slot _ _ _).
  assert (file_at v' i = None) as Hgone by (by apply file_at_set_eq).
  assert (∀ j, j ≠ i → file_at v' j = file_at v j) as Hold by (intros; apply file_at_set_ne; [lia|done]).
  assert (∀ j e, file_at v' j = Some e → j ≠ i ∧ file_at v j = Some e) as Hinv.
  { intros j e He. destruct (decide (j = i)) as [->|Hj]; [congruence|]. split; [done|]. by rewrite Hold in He. }
  assert (∀ j, j ≠ i → under_root v j → under_root v' j) as Hup.
  { intros j Hj Hu. induction Hu as [|j e He _ IH]; [constructor|].
    eapply under_root_child; [by rewrite Hold|]. apply IH. intros <-. apply (Hchild j). by exists e. }
  destruct Ht as [Hroot Hone Hpar Hf Hs Hda Hdis Hu].
  constructor.
  - destruct Hroot as (r & Hr & ?). exists r. by rewrite Hold.
  - intros j e [? He]%Hinv ?; eauto.
  - intros j e [? He]%Hinv Hj. destruct (Hpar j e He Hj) as (q & Hq & ?). exists q.
    rewrite Hold; [done|]. intros Heq. apply (Hchild j). by exists e.
  - intros j k e e' [? He]%Hinv [? He']%Hinv; eauto.
  - intros j k e e' [? He]%Hinv [? He']%Hinv; eauto.
  - intros j e [? He]%Hinv Hef; cbn. eauto.
  - intros j k e e' [? He]%Hinv [? He']%Hinv; eauto.
  - intros j e [? He]%Hinv. eauto.
Qed.

(** File contents are not part of the tree, and neither is unused space behind it. *)
Lemma tree_grow v v' :
  (∀ i, file_at v' i = file_at v i) → v_top v ≤ v_top v' → tree_inv v → tree_inv v'.
Proof.
  intros Hf Htop [Hroot Hone Hpar Hfi Hs Hda Hdis Hu].
  assert (∀ i, under_root v i → under_root v' i) as Hup.
  { intros i Hi. eapply under_root_mono; [|done]. intros. by rewrite Hf. }
  constructor.
  - destruct Hroot as (d & ? & ?). exists d. by rewrite Hf.
  - intros i d. rewrite Hf. apply Hone.
  - intros i d. rewrite Hf. intros Hd Hi. destruct (Hpar i d Hd Hi) as (p & ? & ?). exists p. by rewrite Hf.
  - intros i j d e. rewrite !Hf. apply Hfi.
  - intros i j d e. rewrite !Hf. apply Hs.
  - intros i d. rewrite Hf. intros Hd Hef. specialize (Hda i d Hd Hef). lia.
  - intros i j d e. rewrite !Hf. apply Hdis.
  - intros i d. rewrite Hf. intros Hd. by eapply Hup, Hu.
Qed.

Lemma tree_ext v v' :
  (∀ i, file_at v' i = file_at v i) → v_top v' = v_top v → tree_inv v → tree_inv v'.
Proof. intros Hf Htop. apply tree_grow; [done|lia]. Qed.

Lemma sel_ext v v' se : (∀ i, file_at v' i = file_at v i) → sel_inv v se → sel_inv v' se.
Proof. intros Hf [Hdf Hef]. constructor; rewrite !Hf; done. Qed.

Lemma sel_reset_inv v : tree_inv v → sel_inv v (FsSelection FS_ROOT_INDEX FS_INVALID_INDEX).
Proof.
  intros Ht. destruct (ti_root v Ht) as (d & Hd & Hty & _). constructor; cbn; [|by left].
  exists d. split; [done|]. split; [|done]. unfold fs_is_df. by rewrite Hty.
Qed.
End view.

(** ** The operations on a mounted card *)

Section ops.
Context {N : Type} `{HalNvmSpec N}.
Implicit Types s : store N.

Lemma file_at_u16 s i d : store_ok s → file_at (view s) i = Some d → 0 ≤ i < max_files s ∧ is_u16 i.
Proof.
  intros Hs Hd. apply file_at_nonneg in Hd. rewrite length_view_slots in Hd.
  split; [destruct Hs; unfold max_files in *; lia|]. eapply index_u16; [done|].
  destruct Hs; unfold max_files in *; lia.
Qed.

(** A descriptor of the view is what reading it gives. *)
Lemma get_desc_file s i d :
  store_ok s → file_at (view s) i = Some d →
  get_desc s i = Some (FS_OK, d) ∧ desc_ok (len (flash s)) d.
Proof.
  intros Hs Hd. destruct (file_at_u16 s i d Hs Hd) as [Hi _].
  destruct (read_desc_ok s i fs_descriptor_zero Hs Hi) as (sl & o & Hsl & Hr & Ho).
  unfold file_at in Hd. rewrite Hsl in Hd. destruct (0 <=? i); [|done]. destruct sl as [| |d']; try done.
  injection Hd as ->. destruct (Ho d eq_refl) as [-> Hok]. unfold get_desc. by rewrite Hr.
Qed.

Lemma get_desc_none s i :
  store_ok s → is_u16 i → file_at (view s) i = None →
  ∃ st d, get_desc s i = Some (st, d) ∧ st ≠ FS_OK ∧
    (0 ≤ i < max_files s → st = FS_ERR_NOT_FOUND ∨ st = FS_ERR_CORRUPT).
Proof.
  intros Hs Hi16 Hd. unfold get_desc. destruct (decide (0 ≤ i < max_files s)) as [Hi|Hi].
  - destruct (read_desc_ok s i fs_descriptor_zero Hs Hi) as (sl & o & Hsl & Hr & Ho).
    unfold file_at in Hd. rewrite Hsl in Hd. replace (0 <=? i) with true in Hd by lia.
    rewrite Hr. bind_simpl. destruct sl; [..|done]; eexists _, _; (split; [done|]); auto.
  - unfold is_u16 in Hi16. rewrite read_desc_beyond by (done || lia). bind_simpl.
    eexists _, _. split; [done|]. split; [done|]. lia.
Qed.

(** A descriptor read with success is the file of the view. *)
Lemma get_desc_inv s i d :
  store_ok s → is_u16 i → get_desc s i = Some (FS_OK, d) → file_at (view s) i = Some d.
Proof.
  intros Hs Hi Hg. destruct (file_at (view s) i) as [d'|] eqn:E.
  - destruct (get_desc_file s i d' Hs E) as [Hg' _]. congruence.
  - destruct (get_desc_none s i Hs Hi E) as (st & d' & Hg' & Hst & _). congruence.
Qed.

Lemma mounted_max_files s : store_ok s → fs_store_max_files s = max_files s.
Proof. intros Hs. unfold fs_store_max_files. by rewrite (so_mounted _ Hs). Qed.

(** The search by identifier answers the first child that carries it. *)
Lemma find_child_view s p fid x :
  store_ok s →
  ∃ r, fs_find_child s p fid (Ptr x) =
         Some (match r with Some i => (FS_OK, Ptr i) | None => (FS_ERR_NOT_FOUND, Ptr FS_INVALID_INDEX) end) ∧
    match r with
    | Some i => 0 ≤ i < max_files s ∧ child_named (view s) p fid i ∧
                ∀ j, j < i → ¬ child_named (view s) p fid j
    | None => ∀ j, ¬ child_named (view s) p fid j
    end.
Proof.
  intros Hs. unfold fs_find_child. rewrite mounted_max_files by done. unfold upto.
  assert (0 ≤ max_files s) as Hmax by (destruct Hs; unfold max_files; lia).
  assert (∀ (m : nat) k, 0 ≤ k → k + Z.of_nat m = max_files s →
    (∀ j, j < k → ¬ child_named (view s) p fid j) →
    ∃ r, find_child_loop s p fid (seqZ k (Z.of_nat m)) =
         Some (match r with Some i => (FS_OK, i) | None => (FS_ERR_NOT_FOUND, FS_INVALID_INDEX) end) ∧
      match r with
      | Some i => 0 ≤ i < max_files s ∧ child_named (view s) p fid i ∧
                  ∀ j, j < i → ¬ child_named (view s) p fid j
      | None => ∀ j, ¬ child_named (view s) p fid j
      end) as Hgen.
  { induction m as [|m IH]; intros k Hk Hkm Hpre.
    { exists None. split; [done|]. intros j Hj. pose proof Hj as (d & Hd & _).
      apply file_at_u16 in Hd as [? _]; [|done]. apply (Hpre j); [lia|done]. }
    rewrite seqZ_cons by lia. cbn [find_child_loop].
    replace (Z.pred (Z.of_nat (S m))) with (Z.of_nat m) by lia.
    assert (¬ child_named (view s) p fid k →
            ∀ j, j < Z.succ k → ¬ child_named (view s) p fid j) as Hstep.
    { intros Hn j Hj. destruct (decide (j = k)) as [->|]; [done|]. apply Hpre. lia. }
    destruct (file_at (view s) k) as [d|] eqn:E.
    - destruct (get_desc_file s k d Hs E) as [-> _]. bind_simpl.
      destruct ((d_parent d =? p) && (d_file_id d =? fid)) eqn:Et.
      + exists (Some k). split; [done|]. split; [lia|]. split; [|done]. exists d. bool_prop. done.
      + apply IH; [lia..|]. apply Hstep. intros (d' & Hd' & <- & <-). rewrite E in Hd'. injection Hd' as <-.
        rewrite !Z.eqb_refl in Et. done.
    - destruct (get_desc_none s k Hs) as (st & d & -> & Hst & Hcase);
        [eapply index_u16; [done|lia]|done|]. bind_simpl.
      assert (¬ child_named (view s) p fid k) as Hn by (intros (d' & Hd' & _); congruence).
      destruct Hcase as [-> | ->]; [lia|apply IH; [lia..|by apply Hstep]|apply IH; [lia..|by apply Hstep]]. }
  specialize (Hgen (Z.to_nat (max_files s)) 0). rewrite Z2Nat.id in Hgen by done.
  destruct Hgen as (r & -> & Hr); [lia|lia| |].
  { intros j Hj (d & Hd & _). apply file_at_nonneg in Hd. lia. }
  bind_simpl. exists r. by destruct r.
Qed.

(** The search by short identifier answers the first such file of the directory. *)
Lemma find_by_sfi_view s df sfi x :
  store_ok s → 1 ≤ sfi ≤ 30 →
  ∃ r, fs_find_by_sfi s df sfi (Ptr x) =
         Some (match r with Some i => (FS_OK, Ptr i) | None => (FS_ERR_NOT_FOUND, Ptr FS_INVALID_INDEX) end) ∧
    match r with
    | Some i => ∃ d, file_at (view s) i = Some d ∧ is_child_ef df sfi d = true
    | None => ∀ j d, file_at (view s) j = Some d → is_child_ef df sfi d = false
    end.
Proof.
  intros Hs Hsfi. unfold fs_find_by_sfi, FS_NO_SFI.
  replace ((sfi =? 0) || (30 <? sfi)) with false by lia. rewrite mounted_max_files by done.
  match goal with |- context [find_first ?t _] =>
    destruct (find_first_spec t (max_files s)) as (r & -> & Hr) end.
  { intros i Hi. destruct (get_desc_total s i) as (st & d & -> & _);
      [by apply store_ok_safe|by eapply index_u16|]. eauto. }
  bind_simpl. exists r. split; [by destruct r|]. destruct r as [i|].
  - destruct Hr as (Hi & Ht & _).
    destruct (get_desc_total s i) as (st & d & Hg & _); [by apply store_ok_safe|by eapply index_u16|].
    rewrite Hg in Ht. revert Ht. bind_simpl. intros [= Ht]. bool_prop.
    match goal with H : fs_ok st = true |- _ => apply fs_ok_true in H; subst end.
    exists d. split; [apply get_desc_inv; [done|by eapply index_u16|done]|done].
  - intros j d Hd. destruct (file_at_u16 s j d Hs Hd) as [Hj _]. specialize (Hr j Hj).
    destruct (get_desc_file s j d Hs Hd) as [Hg _]. rewrite Hg in Hr. revert Hr. bind_simpl. by intros [= ->].
Qed.

(** The number of children is positive exactly when there is one. *)
Lemma child_count_view s p :
  store_ok s →
  ∃ n, fs_child_count s p = Some n ∧ ((0 <? n) = true ↔ ∃ j, child_of (view s) p j).
Proof.
  intros Hs. unfold fs_child_count. rewrite mounted_max_files by done. unfold upto.
  assert (0 ≤ max_files s ≤ 32) as Hmax by (destruct Hs; unfold max_files, FS_MAX_FILES in *; lia).
  match goal with |- context [foreach _ ?b _] => set (body := b) end.
  assert (∀ (m : nat) k c, 0 ≤ k → k + Z.of_nat m = max_files s → 0 ≤ c ≤ k →
    ∃ n, foreach (seqZ k (Z.of_nat m)) body c = Some n ∧ 0 ≤ n ∧
      (0 < n ↔ 0 < c ∨ ∃ j, k ≤ j ∧ child_of (view s) p j)) as Hgen.
  { induction m as [|m IH]; intros k c Hk Hkm Hc.
    { exists c. split; [done|]. split; [lia|]. split; [auto|]. intros [?|(j & Hj & d & Hd & _)]; [done|].
      apply file_at_u16 in Hd as [? _]; [lia|done]. }
    rewrite seqZ_cons by lia. cbn [foreach].
    replace (Z.pred (Z.of_nat (S m))) with (Z.of_nat m) by lia.
    assert (∀ c', 0 ≤ c' ≤ Z.succ k → (0 < c' ↔ 0 < c ∨ child_of (view s) p k) →
      ∃ n, foreach (seqZ (Z.succ k) (Z.of_nat m)) body c' = Some n ∧ 0 ≤ n ∧
      (0 < n ↔ 0 < c ∨ ∃ j, k ≤ j ∧ child_of (view s) p j)) as Hstep.
    { intros c' Hc' Hiff. destruct (IH (Z.succ k) c') as (n & -> & Hn & Hniff); [lia..|].
      exists n. split; [done|]. split; [done|]. rewrite Hniff, Hiff. split.
      - intros [[?|?]|(j & ? & ?)]; [by left|right; exists k; split; [lia|done]|].
        right. exists j. split; [lia|done].
      - intros [?|(j & Hj & Hcj)]; [by left; left|].
        destruct (decide (j = k)) as [->|]; [by left; right|]. right. exists j. split; [lia|done]. }
    destruct (file_at (view s) k) as [d|] eqn:E.
    - destruct (get_desc_file s k d Hs E) as [Hg _].
      assert (body k c = Some (if d_parent d =? p then u16 (c + 1) else c)) as ->.
      { unfold body. rewrite Hg. bind_simpl. cbn [fs_ok negb]. by destruct (d_parent d =? p). }
      bind_simpl. destruct (Z.eqb_spec (d_parent d) p).
      + rewrite u16_id by (unfold is_u16; lia). apply Hstep; [lia|].
        split; [|lia]. intros _. right. by exists d.
      + apply Hstep; [lia|]. split; [auto|]. intros [?|(d' & ? & ?)]; [done|congruence].
    - destruct (get_desc_none s k Hs) as (st & d & Hg & Hst & _);
        [eapply index_u16; [done|lia]|done|].
      assert (body k c = Some c) as -> by (unfold body; rewrite Hg; by destruct st).
      bind_simpl. apply Hstep; [lia|]. split; [auto|]. intros [?|(d' & ? & ?)]; [done|congruence]. }
  specialize (Hgen (Z.to_nat (max_files s)) 0 0). rewrite Z2Nat.id in Hgen by lia.
  destruct Hgen as (n & -> & Hn & Hiff); [lia..|]. exists n. split; [done|].
  rewrite Z.ltb_lt, Hiff. split.
  - intros [?|(j & _ & ?)]; [lia|eauto].
  - intros (j & Hj). right. exists j. split; [|done]. destruct Hj as (d & Hd & _).
    apply file_at_nonneg in Hd. lia.
Qed.

Lemma resolve_view s i :
  store_ok s → is_u16 i →
  ∃ st d, resolve s i = Some (st, d) ∧ desc_typed d ∧
    (st = FS_OK → file_at (view s) i = Some d ∧ fs_is_usable d = true ∧ desc_ok (len (flash s)) d).
Proof.
  intros Hs Hi. destruct (resolve_total s i (store_ok_safe s Hs) Hi) as (st & d & Hr & Hd & Hok).
  exists st, d. split; [done|]. split; [done|]. intros ->. specialize (Hok eq_refl).
  revert Hr. unfold resolve. destruct (get_desc_total s i (store_ok_safe s Hs) Hi) as (st & d' & Hg & _).
  rewrite Hg. bind_simpl. destruct st; cbn [fs_ok negb]; try done.
  case_if; [done|]. intros [= ->]. split; [|done]. by apply get_desc_inv.
Qed.

(** *** Selection *)

Lemma type_cases d : type_ok (d_type d) = true → fs_is_df d = negb (fs_is_ef d).
Proof.
  unfold type_ok, fs_is_df, fs_is_ef, FS_TYPE_MF, FS_TYPE_DF, FS_TYPE_EF_TRANSPARENT. lia.
Qed.

Lemma commit_inv s se i d :
  store_ok s → tree_inv (view s) → file_at (view s) i = Some d → sel_inv (view s) (commit se i d).
Proof.
  intros Hs Ht Hd. destruct (file_at_u16 s i d Hs Hd) as [_ Hi].
  destruct (get_desc_file s i d Hs Hd) as [_ [_ Hty _]]. apply type_cases in Hty. unfold commit.
  destruct (fs_is_df d) eqn:Edf.
  - constructor; cbn; [by exists d|by left].
  - assert (i ≠ FS_ROOT_INDEX) as Hne.
    { intros ->. destruct (ti_root _ Ht) as (r & Hr & Htr & _). rewrite Hd in Hr. injection Hr as <-.
      unfold fs_is_df in Edf. rewrite Htr in Edf. done. }
    destruct (ti_parent _ Ht i d Hd Hne) as (p & Hp & Hpd).
    destruct (file_at_u16 s _ p Hs Hp) as [_ Hpi].
    constructor; cbn; [by exists p|]. right. exists d. by rewrite <- (negb_involutive (fs_is_ef d)), <- Hty.
Qed.

(** What SELECT by identifier designates, in the documented order. *)
Definition fid_target (v : fs_view) (cur fid i : Z) : Prop :=
  (fid = FS_FID_MF ∧ i = FS_ROOT_INDEX) ∨
  (fid ≠ FS_FID_MF ∧
   (child_named v cur fid i ∨
    ((∀ j, ¬ child_named v cur fid j) ∧
     ((i = cur ∧ ∃ d, file_at v cur = Some d ∧ d_file_id d = fid) ∨
      (∃ d p, file_at v cur = Some d ∧ d_file_id d ≠ fid ∧ d_parent d = i ∧ i ≠ FS_NO_PARENT ∧
              file_at v i = Some p ∧ d_file_id p = fid))))).

Lemma child_named_unique s p fid i j :
  tree_inv (view s) → child_named (view s) p fid i → child_named (view s) p fid j → i = j.
Proof.
  intros Ht (d & Hd & Hp & Hf) (e & He & Hp' & Hf'). eapply (ti_fid _ Ht); eauto; congruence.
Qed.

Lemma fid_target_unique s cur fid i j :
  tree_inv (view s) → fid_target (view s) cur fid i → fid_target (view s) cur fid j → i = j.
Proof.
  intros Ht. unfold fid_target.
  intros [[? ?]|(? & [Hi|(Hni & Hi)])] [[? ?]|(? & [Hj|(Hnj & Hj)])]; try congruence;
    [by eapply child_named_unique| | |].
  - by apply Hnj in Hi.
  - by apply Hni in Hj.
  - destruct Hi as [(-> & d & Hd & Hf)|(d & p & Hd & Hf & Hp & _)],
      Hj as [(-> & e & He & Hf')|(e & p' & He & Hf' & Hp' & _)]; congruence.
Qed.

Lemma select_by_fid_view s se fid :
  store_ok s → tree_inv (view s) → sel_inv (view s) se →
  (∃ i d, fid_target (view s) (cur_df se) fid i ∧ file_at (view s) i = Some d ∧
     fs_select_by_fid s (Ptr se) fid =
       Some (if fs_is_usable d then (FS_OK, Ptr (commit se i d)) else (FS_ERR_NOT_USABLE, Ptr se))) ∨
  ((∀ i, ¬ fid_target (view s) (cur_df se) fid i) ∧
     fs_select_by_fid s (Ptr se) fid = Some (FS_ERR_NOT_FOUND, Ptr se)).
Proof.
  intros Hs Ht [(cd & Hcd & Hcdf & Hc16) _].
  assert (∀ i d, file_at (view s) i = Some d →
    ('(st, d) ← resolve s i; if negb (fs_ok st) then Some (st, Ptr se) else Some (FS_OK, Ptr (commit se i d))) =
    Some (if fs_is_usable d then (FS_OK, Ptr (commit se i d)) else (FS_ERR_NOT_USABLE, Ptr se))) as Hend.
  { intros i d Hd. destruct (get_desc_file s i d Hs Hd) as [Hg _]. unfold resolve. rewrite Hg.
    bind_simpl. cbn [fs_ok negb]. by destruct (fs_is_usable d). }
  assert (∀ i, 0 ≤ i < max_files s → (i =? FS_INVALID_INDEX) = false) as Hinv.
  { intros i Hi. destruct Hs. unfold max_files, FS_MAX_FILES, FS_INVALID_INDEX in *. lia. }
  unfold fs_select_by_fid, fid_target. destruct (Z.eqb_spec fid FS_FID_MF) as [->|Hne].
  { left. destruct (ti_root _ Ht) as (r & Hr & _). exists FS_ROOT_INDEX, r.
    split; [by left|]. split; [done|]. cbn [Z.eqb]. bind_simpl. by apply Hend. }
  change (FS_INVALID_INDEX =? FS_INVALID_INDEX) with true. cbv iota.
  destruct (find_child_view s (cur_df se) fid FS_INVALID_INDEX Hs) as ([i|] & -> & Hr); bind_simpl.
  { destruct Hr as (Hi & Hch & _). left. pose proof Hch as (d & Hd & _). exists i, d.
    split; [right; split; [done|by left]|]. split; [done|]. repeat (rewrite (Hinv i Hi); bind_simpl). by apply Hend. }
  change (FS_INVALID_INDEX =? FS_INVALID_INDEX) with true. cbv iota.
  destruct (get_desc_file s (cur_df se) cd Hs Hcd) as [Hgc _]. rewrite Hgc. bind_simpl. cbn [fs_ok andb].
  destruct (Z.eqb_spec (d_file_id cd) fid) as [Hfe|Hfne]; bind_simpl.
  { left. exists (cur_df se), cd. destruct (file_at_u16 s _ _ Hs Hcd) as [Hi _].
    split; [right; split; [done|]; right; split; [done|]; left; eauto|]. split; [done|]. repeat (rewrite (Hinv _ Hi); bind_simpl).
    by apply Hend. }
  change (FS_INVALID_INDEX =? FS_INVALID_INDEX) with true. cbv iota.
  destruct (Z.eqb_spec (d_parent cd) FS_NO_PARENT) as [Hpn|Hpn]; cbn [negb].
  { right. split; [|done]. intros i [[? _]|(_ & [Hi|(_ & [(-> & d & Hd & ?)|(d & p & Hd & ? & Hp & ? & _)])])];
      [done|by apply Hr in Hi|congruence|congruence]. }
  destruct (file_at (view s) (d_parent cd)) as [p|] eqn:Ep.
  2: { exfalso. destruct (decide (cur_df se = FS_ROOT_INDEX)) as [E|E].
       - destruct (ti_root _ Ht) as (r & Hr' & _ & _ & Hpar & _). congruence.
       - destruct (ti_parent _ Ht _ _ Hcd E) as (p & Hp & _). congruence. }
  destruct (get_desc_file s _ p Hs Ep) as [-> _]. bind_simpl. cbn [fs_ok andb].
  destruct (Z.eqb_spec (d_file_id p) fid) as [Hpf|Hpf]; bind_simpl.
  - left. exists (d_parent cd), p. destruct (file_at_u16 s _ _ Hs Ep) as [Hi _].
    split; [right; split; [done|]; right; split; [done|]; right; exists cd, p; done|]. split; [done|].
    rewrite (Hinv _ Hi). by apply Hend.
  - right. split; [|done]. intros i [[? _]|(_ & [Hi|(_ & [(-> & d & Hd & ?)|(d & p' & Hd & ? & Hp & ? & Hp' & ?)])])];
      [done|by apply Hr in Hi|congruence|]. rewrite Hcd in Hd. injection Hd as <-. congruence.
Qed.

Definition sel_step (s : store N) (se : fs_selection) (r : option (fs_status * ptr fs_selection)) : Prop :=
  ∃ st se', r = Some (st, Ptr se') ∧ sel_inv (view s) se' ∧ (st ≠ FS_OK → se' = se).

Lemma sel_step_keep s se st : st ≠ FS_OK → sel_inv (view s) se → sel_step s se (Some (st, Ptr se)).
Proof. intros. by exists st, se. Qed.

Lemma sel_step_move s se se' : sel_inv (view s) se' → sel_step s se (Some (FS_OK, Ptr se')).
Proof. intros. by exists FS_OK, se'. Qed.

Lemma select_by_fid_inv s se fid :
  store_ok s → tree_inv (view s) → sel_inv (view s) se → sel_step s se (fs_select_by_fid s (Ptr se) fid).
Proof.
  intros Hs Ht Hse. destruct (select_by_fid_view s se fid Hs Ht Hse) as [(i & d & _ & Hd & ->)|(_ & ->)].
  - case_if; [apply sel_step_move; by apply commit_inv|by apply sel_step_keep].
  - by apply sel_step_keep.
Qed.

Lemma select_child_inv s se fid w :
  store_ok s → tree_inv (view s) → sel_inv (view s) se → sel_step s se (select_child_typed s (Ptr se) fid w).
Proof.
  intros Hs Ht Hse. unfold select_child_typed.
  destruct (find_child_view s (cur_df se) fid FS_INVALID_INDEX Hs) as ([i|] & -> & Hr); bind_simpl;
    [|by apply sel_step_keep]. destruct Hr as (Hi & _).
  destruct (resolve_view s i Hs) as (st & d & -> & _ & Hd); [by eapply index_u16|]. bind_simpl.
  case_if; [apply sel_step_keep; [by intros ->|done]|]. case_if; [by apply sel_step_keep|].
  apply sel_step_move. apply commit_inv; [done|done|]. apply Hd. by apply fs_ok_true.
Qed.

Lemma select_parent_inv s se :
  store_ok s → tree_inv (view s) → sel_inv (view s) se → sel_step s se (fs_select_parent s (Ptr se)).
Proof.
  intros Hs Ht Hse. pose proof Hse as [(cd & Hcd & _ & _) _]. unfold fs_select_parent.
  destruct (get_desc_file s _ _ Hs Hcd) as [-> [[] _ _]]. bind_simpl. cbn [fs_ok negb].
  case_if; [by apply sel_step_keep|].
  destruct (resolve_view s (d_parent cd) Hs) as (st & d & -> & _ & Hd); [done|]. bind_simpl.
  case_if; [apply sel_step_keep; [by intros ->|done]|].
  apply sel_step_move. apply commit_inv; [done|done|]. apply Hd. by apply fs_ok_true.
Qed.

(** A path walked component by component, each one a child of the directory
    reached so far, activated, and a directory unless it is the last. *)
Inductive descends (v : fs_view) : fs_selection → list Z → fs_selection → Prop :=
| descends_nil se : descends v se [] se
| descends_step se fid rest i d se' :
    file_at v i = Some d → d_parent d = cur_df se → d_file_id d = fid → fs_is_usable d = true →
    (rest = [] ∨ fs_is_df d = true) → descends v (commit se i d) rest se' →
    descends v se (fid :: rest) se'.

(** The components of a path. *)
Definition path_fid (path : list Z) (n : Z) : Z :=
  default 0 (rd path (n * 2)) * 256 + default 0 (rd path (n * 2 + 1)).

Lemma path_fid_rd path n :
  bytes path → 0 ≤ n → n * 2 + 1 < len path →
  ∃ hi lo, rd path (n * 2) = Some hi ∧ rd path (n * 2 + 1) = Some lo ∧
    u16 (Z.lor (Z.shiftl (u16 hi) 8) lo) = path_fid path n.
Proof.
  intros Hb Hn Hlt. destruct (rd_byte path (n * 2) Hb) as (hi & Hhi & Hh); [lia|].
  destruct (rd_byte path (n * 2 + 1) Hb) as (lo & Hlo & Hl); [lia|].
  exists hi, lo. split; [done|]. split; [done|]. unfold path_fid. rewrite Hhi, Hlo. cbn [default from_option id].
  unfold is_u8 in *. rewrite (u16_id hi) by (unfold is_u16; lia). rewrite lor_shiftl_add by lia.
  apply u16_id. unfold is_u16. lia.
Qed.

(** One component that is not the directory itself. *)
Lemma path_loop_descends s path steps (m : nat) k sc :
  store_ok s → tree_inv (view s) → sel_inv (view s) sc → bytes path →
  1 ≤ k → k + Z.of_nat m = steps → steps * 2 ≤ len path →
  ∃ st sc', path_loop s path steps (seqZ k (Z.of_nat m)) sc = Some (st, sc') ∧ sel_inv (view s) sc' ∧
    (st = FS_OK → descends (view s) sc (path_fid path <$> seqZ k (Z.of_nat m)) sc').
Proof.
  intros Hs Ht Hsc Hb. revert k sc Hsc. induction m as [|m IH]; intros k sc Hsc Hk Hkm Hle.
  { rewrite seqZ_nil by lia. exists FS_OK, sc. split; [done|]. split; [done|]. intros _. constructor. }
  rewrite seqZ_cons by lia. cbn [path_loop fmap list_fmap].
  replace (Z.pred (Z.of_nat (S m))) with (Z.of_nat m) by lia.
  destruct (path_fid_rd path k Hb) as (hi & lo & -> & -> & Hfid); [lia..|]. bind_simpl.
  rewrite Hfid. replace (k =? 0) with false by lia. bind_simpl.
  destruct (find_child_view s (cur_df sc) (path_fid path k) FS_INVALID_INDEX Hs) as ([i|] & -> & Hr); bind_simpl;
    [|by exists FS_ERR_NOT_FOUND, sc]. destruct Hr as (Hi & (d & Hd & Hp & Hf) & _).
  destruct (resolve_view s i Hs) as (st & d' & -> & _ & Hd'); [by eapply index_u16|]. bind_simpl.
  destruct (fs_ok st) eqn:Est; cbn [negb]; [|exists st, sc; split; [done|]; split; [done|]; by intros ->].
  apply fs_ok_true in Est as ->. destruct (Hd' eq_refl) as (Hd2 & Hus & _).
  rewrite Hd in Hd2. injection Hd2 as <-.
  destruct (negb (k + 1 =? steps) && negb (fs_is_df d)) eqn:El; [by exists FS_ERR_WRONG_TYPE, sc|].
  destruct (IH (Z.succ k) (commit sc i d)) as (st' & sc' & -> & Hinv & Hdesc);
    [by apply commit_inv|lia..|].
  exists st', sc'. split; [done|]. split; [done|]. intros Hst. eapply descends_step; eauto.
  destruct (Z.eqb_spec (k + 1) steps) as [E|E]; cbn [negb andb] in El.
  - left. replace (Z.of_nat m) with 0 by lia. done.
  - right. by apply negb_false_iff.
Qed.

(** The directory carries an identifier itself. *)
Definition dir_named (v : fs_view) (p fid : Z) : Prop :=
  ∃ d, file_at v p = Some d ∧ d_file_id d = fid.

(** SELECT by path: all or nothing, and only along the tree. *)
Lemma select_by_path_view s se path n (from_mf : bool) :
  store_ok s → tree_inv (view s) → sel_inv (view s) se → bytes path → 0 ≤ n ≤ len path → n < 65536 →
  let start := if from_mf then FsSelection FS_ROOT_INDEX FS_INVALID_INDEX else se in
  ∃ st se', fs_select_by_path s (Ptr se) (Ptr path) n from_mf = Some (st, Ptr se') ∧
    sel_inv (view s) se' ∧ (st ≠ FS_OK → se' = se) ∧
    (st = FS_OK → ∃ fid rest, path_fid path <$> upto (n / 2) = fid :: rest ∧ n mod 2 = 0 ∧
       n / 2 ≤ FS_MAX_DEPTH ∧
       ((dir_named (view s) (cur_df start) fid ∧ descends (view s) start rest se') ∨
        (¬ dir_named (view s) (cur_df start) fid ∧ descends (view s) start (fid :: rest) se'))).
Proof.
  intros Hs Ht Hse Hb Hn Hn16 start.
  assert (sel_inv (view s) start) as Hstart by (unfold start; destruct from_mf; [by apply sel_reset_inv|done]).
  pose proof Hstart as [(cd & Hcd & _ & _) _]. unfold fs_select_by_path.
  case_if; [by exists FS_ERR_PARAM, se|]. case_if; [by exists FS_ERR_PARAM, se|]. fold start.
  unfold FS_MAX_DEPTH, u16 in *. rewrite (Z.mod_small (n / 2)) in * by lia.
  set (steps := n / 2) in *. unfold upto. replace (seqZ 0 steps) with (0 :: seqZ 1 (Z.of_nat (Z.to_nat (steps - 1)))).
  2: { rewrite (seqZ_cons 0 steps) by lia. f_equal. f_equal; lia. }
  cbn [path_loop fmap list_fmap].
  destruct (path_fid_rd path 0 Hb) as (hi & lo & Hhi & Hlo & Hfid); [lia..|].
  cbn [Z.mul Z.add] in Hhi, Hlo |- *. rewrite Hhi, Hlo. bind_simpl. rewrite Hfid. cbn [Z.eqb].
  destruct (get_desc_file s _ cd Hs Hcd) as [-> _]. bind_simpl. cbn [fs_ok andb].
  set (rest := path_fid path <$> seqZ 1 (Z.of_nat (Z.to_nat (steps - 1)))).
  destruct (Z.eqb_spec (d_file_id cd) (path_fid path 0)) as [E|E].
  - destruct (path_loop_descends s path steps (Z.to_nat (steps - 1)) 1 start)
      as (st & sc & -> & Hinv & Hdesc); try done; [lia..|]. bind_simpl.
    destruct (fs_ok st) eqn:Est; cbn [negb].
    + apply fs_ok_true in Est as ->. exists FS_OK, sc. split; [done|]. split; [done|]. split; [done|].
      intros _. exists (path_fid path 0), rest. split; [done|]. split; [lia|]. split; [lia|].
      left. split; [by exists cd|auto].
    + exists st, se. split; [done|]. split; [done|]. split; [done|]. intros ->. done.
  - destruct (find_child_view s (cur_df start) (path_fid path 0) FS_INVALID_INDEX Hs) as ([i|] & -> & Hr);
      bind_simpl; [|by exists FS_ERR_NOT_FOUND, se].
    destruct Hr as (Hi & (d & Hd & Hp & Hf) & _).
    destruct (resolve_view s i Hs) as (st & d' & -> & _ & Hd'); [by eapply index_u16|]. bind_simpl.
    destruct (fs_ok st) eqn:Est; cbn [negb]; [|bind_simpl; rewrite Est; exists st, se;
      split; [done|]; split; [done|]; split; [done|]; by intros ->].
    apply fs_ok_true in Est as ->. destruct (Hd' eq_refl) as (Hd2 & Hus & _).
    rewrite Hd in Hd2. injection Hd2 as <-.
    destruct (negb (0 + 1 =? steps) && negb (fs_is_df d)) eqn:El; [by exists FS_ERR_WRONG_TYPE, se|].
    destruct (path_loop_descends s path steps (Z.to_nat (steps - 1)) 1 (commit start i d))
      as (st & sc & -> & Hinv & Hdesc); try done; [by apply commit_inv|lia..|]. bind_simpl.
    destruct (fs_ok st) eqn:Est; cbn [negb].
    + apply fs_ok_true in Est as ->. exists FS_OK, sc. split; [done|]. split; [done|]. split; [done|].
      intros _. exists (path_fid path 0), rest. split; [done|]. split; [lia|]. split; [lia|].
      right. split; [intros (d0 & Hd0 & ?); congruence|].
      eapply descends_step; eauto.
      destruct (Z.eqb_spec (0 + 1) steps) as [E'|E']; cbn [negb andb] in El.
      * left. unfold rest. replace (Z.to_nat (steps - 1)) with 0%nat by lia. done.
      * right. by apply negb_false_iff.
    + exists st, se. split; [done|]. split; [done|]. split; [done|]. intros ->. done.
Qed.

(** *** File contents *)

Definition ef_bytes (v : fs_view) (d : fs_descriptor) : list Z :=
  slice (d_data_offset d) (d_size d) (v_flash v).

Lemma ef_in_flash s i d :
  store_ok s → file_at (view s) i = Some d → fs_is_ef d = true →
  desc_typed d ∧ d_data_offset d + d_size d ≤ len (flash s) ∧ len (flash s) < 4294967296.
Proof.
  intros Hs Hd Hef. destruct (get_desc_file s i d Hs Hd) as [_ [Hty _ Hda]]. split; [done|].
  split; [unfold data_ok in Hda; rewrite Hef in Hda; cbn in Hda; lia|]. by apply len_flash, store_ok_safe.
Qed.

Lemma resolve_usable s i d :
  store_ok s → file_at (view s) i = Some d → fs_is_usable d = true → resolve s i = Some (FS_OK, d).
Proof.
  intros Hs Hd Hu. destruct (get_desc_file s i d Hs Hd) as [Hg _]. unfold resolve. rewrite Hg.
  bind_simpl. cbn [fs_ok negb]. by rewrite Hu.
Qed.

(** Reading gives the bytes of the file, as many as there are. *)
Lemma ef_read_view s i d off n b x :
  store_ok s → file_at (view s) i = Some d → fs_is_ef d = true → fs_is_usable d = true →
  0 ≤ off ≤ d_size d → 0 ≤ n ≤ len b → n < 65536 → bytes b →
  fs_ef_read s i off n (Ptr b) (Ptr x) =
    Some (FS_OK, Ptr (splice b 0 (slice off (Z.min n (d_size d - off)) (ef_bytes (view s) d))),
          Ptr (Z.min n (d_size d - off))).
Proof.
  intros Hs Hd Hef Hus Hoff Hn Hn16 Hb. destruct (ef_in_flash s i d Hs Hd Hef) as ([] & Hfit & Hf32).
  unfold fs_ef_read. rewrite (resolve_usable s i d Hs Hd Hus). bind_simpl. cbn [fs_ok negb].
  rewrite Hef. cbn [negb]. replace (d_size d <? off) with false by lia.
  unfold is_u16, is_u32 in *. rewrite u16_id by (unfold is_u16; lia).
  replace (if n <? d_size d - off then n else d_size d - off) with (Z.min n (d_size d - off))
    by (case_if; lia).
  set (k := Z.min n (d_size d - off)).
  destruct (Z.eqb_spec k 0) as [->|Hk]; [by rewrite slice_zero, splice_nil|].
  rewrite u32_id by (unfold is_u32; lia).
  rewrite read_data_ok; [|done|lia|lia|unfold is_u16; lia|lia]. bind_simpl. cbn [fs_ok negb].
  unfold ef_bytes. cbn [view v_flash]. rewrite slice_slice by lia. done.
Qed.

Lemma ef_read_beyond s i d off n b x :
  store_ok s → file_at (view s) i = Some d → fs_is_ef d = true → fs_is_usable d = true →
  d_size d < off → fs_ef_read s i off n (Ptr b) (Ptr x) = Some (FS_ERR_RANGE, Ptr b, Ptr 0).
Proof.
  intros Hs Hd Hef Hus Hoff. unfold fs_ef_read. rewrite (resolve_usable s i d Hs Hd Hus). bind_simpl.
  cbn [fs_ok negb]. rewrite Hef. cbn [negb]. by replace (d_size d <? off) with true by lia.
Qed.

(** Writing replaces exactly the addressed bytes of the file. *)
Lemma ef_write_view s i d off n b :
  store_ok s → tree_inv (view s) → file_at (view s) i = Some d → fs_is_ef d = true → fs_is_usable d = true →
  0 ≤ off → off + n ≤ d_size d → 0 < n ≤ len b → bytes b →
  ∃ s', fs_ef_write s i off n (Ptr b) = Some (FS_OK, s') ∧ store_ok s' ∧ s_sb s' = s_sb s ∧
    (sb_synced s → sb_synced s') ∧ v_slots (view s') = v_slots (view s) ∧
    ef_bytes (view s') d = splice (ef_bytes (view s) d) off (slice 0 n b) ∧
    ∀ j e, j ≠ i → file_at (view s) j = Some e → fs_is_ef e = true →
      ef_bytes (view s') e = ef_bytes (view s) e.
Proof.
  intros Hs Ht Hd Hef Hus Hoff Hfit Hn Hb. destruct (ef_in_flash s i d Hs Hd Hef) as ([] & Hfl & Hf32).
  unfold fs_ef_write. cbn [is_null]. replace (n =? 0) with false by lia.
  rewrite (resolve_usable s i d Hs Hd Hus). bind_simpl. cbn [fs_ok negb]. rewrite Hef. cbn [negb].
  unfold is_u16, is_u32 in *. rewrite !u32_id by (unfold is_u32; lia).
  replace (d_size d <? off + n) with false by lia.
  destruct (write_data_ok s (d_data_offset d + off) n b) as (s' & -> & Hs' & Hsb & Hv & Hsy);
    [done|lia|lia|unfold is_u16; lia|done|lia|].
  exists s'. do 4 (split; [done|]). split; [by rewrite Hv|].
  assert (len (slice 0 n b) = n) as Hl by (apply len_slice; lia).
  split.
  - unfold ef_bytes. rewrite Hv. cbn [set_flash view v_flash v_slots].
    revert Hl. generalize (slice 0 n b). intros src Hl.
    apply list_eq. intros k. rewrite lookup_slice by lia. rewrite lookup_splice by lia.
    rewrite lookup_splice by (rewrite ?len_slice; lia). rewrite lookup_slice by lia.
    repeat case_decide; try lia; try done. f_equal. lia.
  - intros j e Hj He Hefe. destruct (ef_in_flash s j e Hs He Hefe) as ([] & Hfle & _).
    unfold is_u16, is_u32 in *.
    unfold ef_bytes. rewrite Hv. cbn [set_flash view v_flash v_slots].
    apply slice_splice_other; try lia.
    destruct (ti_disjoint _ Ht j i e d He Hd Hj Hefe Hef); lia.
Qed.

(** *** Creation and deletion *)

Lemma slot_free_file_at v i : v_slots v !! Z.to_nat i = Some SlotFree → file_at v i = None.
Proof. intros Hi. unfold file_at. rewrite Hi. by case_if. Qed.

Lemma find_free_slot_pos s i :
  tree_inv (view s) → file_at (view s) i = None → i ≠ FS_ROOT_INDEX.
Proof. intros Ht Hi ->. destruct (ti_root _ Ht) as (r & ? & _). congruence. Qed.

Lemma sel_inv_insert v v' i se :
  file_at v i = None → (∀ j, j ≠ i → file_at v' j = file_at v j) → sel_inv v se → sel_inv v' se.
Proof.
  intros Hi Hf [(d & Hd & Hdf) Hef]. constructor.
  - exists d. rewrite Hf; [done|]. intros E. congruence.
  - destruct Hef as [?|(e & He & ?)]; [by left|]. right. exists e. rewrite Hf; [done|]. congruence.
Qed.

Lemma sfi_taken_view s df req x :
  store_ok s → create_type_check req = None → is_u8 (d_sfi req) →
  ∃ b, (if negb (d_sfi req =? FS_NO_SFI) then
          '(st, _) ← fs_find_by_sfi s df (d_sfi req) (Ptr x); Some (fs_ok st)
        else Some false) = Some b ∧
    (b = false → d_sfi req ≠ FS_NO_SFI → ∀ j e, file_at (view s) j = Some e → fs_is_ef e = true →
       d_parent e = df → d_sfi e ≠ d_sfi req).
Proof.
  intros Hs Hchk Hu8. unfold FS_NO_SFI in *. destruct (Z.eqb_spec (d_sfi req) 0) as [E|E]; cbn [negb];
    [by exists false|].
  assert (1 ≤ d_sfi req ≤ 30) as Hr.
  { unfold create_type_check, FS_NO_SFI in Hchk. unfold is_u8 in Hu8.
    destruct (d_type req =? FS_TYPE_DF).
    { replace (negb (d_sfi req =? 0)) with true in Hchk by lia. rewrite orb_true_r in Hchk. done. }
    destruct (d_type req =? FS_TYPE_EF_TRANSPARENT); [|by destruct (d_type req =? FS_TYPE_MF)].
    destruct (_ || _); [done|]. destruct (_ && _) eqn:E2 in Hchk; [done|]. lia. }
  destruct (find_by_sfi_view s df (d_sfi req) x Hs Hr) as ([i|] & -> & Hi); bind_simpl.
  - by exists true.
  - exists false. split; [done|]. intros _ _ j e He Hef Hp Hsf. specialize (Hi j e He).
    unfold is_child_ef in Hi. rewrite Hp, Hef, Hsf, !Z.eqb_refl in Hi. done.
Qed.

Lemma create_type_ok req :
  create_type_check req = None → type_ok (d_type req) = true ∧ d_type req ≠ FS_TYPE_MF ∧
    (fs_is_ef req = true ∨ d_type req = FS_TYPE_DF).
Proof.
  unfold create_type_check, type_ok, fs_is_ef.
  destruct (Z.eqb_spec (d_type req) FS_TYPE_DF) as [->|]; [intros _; split; [done|]; split; [done|by right]|].
  destruct (Z.eqb_spec (d_type req) FS_TYPE_EF_TRANSPARENT) as [->|];
    [intros _; split; [done|]; split; [done|by left]|].
  by destruct (d_type req =? FS_TYPE_MF).
Qed.

(** What a successful creation leaves behind. *)
Record created (s s' : store N) (se : fs_selection) (req : fs_descriptor) (i : Z) : Prop := {
  cr_free : file_at (view s) i = None;
  cr_file : ∃ d, file_at (view s') i = Some d ∧ d_file_id d = d_file_id req ∧ d_type d = d_type req ∧
              d_lifecycle d = d_lifecycle req ∧ d_parent d = cur_df se ∧ d_size d = d_size req ∧
              d_sfi d = d_sfi req;
  cr_frame : ∀ j, j ≠ i → file_at (view s') j = file_at (view s) j;
  cr_flash : flash s' = flash s;
}.

(** The data area of a new file: nothing for a DF, the top of the area for an
    EF. *)
Lemma create_alloc_view s req :
  store_ok s → is_u16 (d_size req) →
  ∃ st off s1, (if d_type req =? FS_TYPE_EF_TRANSPARENT
            then fs_store_alloc_data s (d_size req) (Ptr 0) else Some (FS_OK, Ptr 0, s)) = Some (st, Ptr off, s1) ∧
    (st ≠ FS_OK → s1 = s) ∧
    (st = FS_OK → store_ok s1 ∧ max_files s1 = max_files s ∧ (sb_synced s → sb_synced s1) ∧ is_u32 off ∧
       view s1 = FsView (v_slots (view s)) (v_top (view s1)) (v_flash (view s)) ∧
       v_top (view s) ≤ v_top (view s1) ∧
       (fs_is_ef req = true → off = v_top (view s) ∧ off + d_size req = v_top (view s1))).
Proof.
  intros Hs Hsize. fold (fs_is_ef req). destruct (fs_is_ef req) eqn:Eef.
  - pose proof (len_flash s (store_ok_safe s Hs)). pose proof (so_top _ Hs). unfold is_u16 in *.
    destruct (decide (sb_data_top (s_sb s) + d_size req ≤ len (flash s))) as [Hle|Hgt].
    + destruct (alloc_data_ok s (d_size req) 0 Hs) as (s1 & -> & Hs1 & Hm & Hv & Hsy); [done|done|].
      eexists _, _, s1. split; [done|]. split; [done|]. intros _. rewrite Hv. cbn [view v_top v_slots v_flash].
      split_and!; try done; unfold is_u32; lia.
    + rewrite alloc_data_full by (unfold is_u16; done || lia). eexists _, _, s. split; [done|]. done.
  - eexists _, _, s. split; [done|]. split; [done|]. intros _. split_and!; try done; unfold is_u32; lia.
Qed.

(** CREATE FILE: an error leaves the card exactly as it was; success adds one
    file to a tree that stays well formed. *)
Lemma create_view s se req x :
  store_ok s → tree_inv (view s) → sel_inv (view s) se → desc_typed req →
  ∃ st o s', fs_create_file s (Ptr se) (Ptr req) (Ptr x) = Some (st, Ptr o, s') ∧
    store_ok s' ∧ tree_inv (view s') ∧ sel_inv (view s') se ∧ (sb_synced s → sb_synced s') ∧
    max_files s' = max_files s ∧
    (st ≠ FS_OK → s' = s) ∧ (st = FS_OK → created s s' se req o).
Proof.
  intros Hs Ht Hse Hreq. pose proof Hse as [(p & Hp & Hpdf & Hc16) _].
  assert (∀ st, st ≠ FS_OK → ∃ st0 o s', Some (st, Ptr x, s) = Some (st0, Ptr o, s') ∧
    store_ok s' ∧ tree_inv (view s') ∧ sel_inv (view s') se ∧ (sb_synced s → sb_synced s') ∧
    max_files s' = max_files s ∧
    (st0 ≠ FS_OK → s' = s) ∧ (st0 = FS_OK → created s s' se req o)) as Hfail.
  { intros st Hst. exists st, x, s. split; [done|]. do 6 (split; [done|]). done. }
  unfold fs_create_file.
  destruct (get_desc_file s _ p Hs Hp) as [-> _]. bind_simpl. cbn [fs_ok negb]. rewrite Hpdf. cbn [negb].
  case_if; [by apply Hfail|]. case_if; [by apply Hfail|].
  destruct (create_type_check req) as [e|] eqn:Hchk.
  { apply Hfail. intros ->. revert Hchk. unfold create_type_check. by repeat case_if. }
  case_if; [by apply Hfail|].
  destruct (find_child_view s (cur_df se) (d_file_id req) FS_INVALID_INDEX Hs) as ([i|] & -> & Hr); bind_simpl;
    cbn [fs_ok]; [by apply Hfail|].
  destruct (sfi_taken_view s (cur_df se) req FS_INVALID_INDEX Hs Hchk) as (b & -> & Hb); [apply Hreq|].
  bind_simpl. destruct b; [by apply Hfail|]. specialize (Hb eq_refl).
  destruct (find_free_slot_ok s Hs) as (slot & -> & Hslot). bind_simpl.
  destruct (Z.eqb_spec slot FS_INVALID_INDEX) as [E|Hslot']; [by apply Hfail|].
  destruct Hslot as [(Hsi & Hsl & _)|[? _]]; [|done].
  pose proof (slot_free_file_at _ _ Hsl) as Hfree. pose proof Hreq as [].
  destruct (create_type_ok req Hchk) as (Htok & Hnmf & Hkind).
  destruct (create_alloc_view s req Hs) as (st & off & s1 & Ha & Hbad & Hgood); [done|].
  rewrite Ha. bind_simpl. destruct (fs_ok st) eqn:Est; cbn [negb].
  2: { assert (st ≠ FS_OK) as Hst by (by intros ->). rewrite (Hbad Hst). by apply Hfail. }
  apply fs_ok_true in Est as ->. destruct (Hgood eq_refl) as (Hs1 & Hm1 & Hsy1 & Hoff & Hv1 & Htop & Hdata).
  set (d := FsDescriptor (d_file_id req) (d_type req) (d_lifecycle req) (cur_df se) (d_size req) off
              (d_ac_read req) (d_ac_update req) (d_sfi req) 0).
  assert (flash s1 = flash s) as Hf1 by (by apply (f_equal v_flash) in Hv1).
  pose proof (so_top _ Hs1) as Htop1. unfold is_u16, is_u32 in *.
  assert (desc_ok (len (flash s1)) d) as Hdok.
  { constructor; [by constructor|done|]. unfold data_ok. change (fs_is_ef d) with (fs_is_ef req).
    destruct (fs_is_ef req); [|done]. destruct (Hdata eq_refl) as [-> Hd2]. cbn [negb orb d d_data_offset d_size].
    change (v_top (view s1)) with (sb_data_top (s_sb s1)) in *. lia. }
  destruct (write_desc_ok s1 slot d Hs1) as (s2 & -> & Hs2 & Hsb2 & Hv2 & Hsy2); [by rewrite Hm1|done|].
  bind_simpl. cbn [fs_ok negb]. exists FS_OK, slot, s2.
  assert (0 ≤ slot < Z.of_nat (length (v_slots (view s)))) as Hrange
    by (rewrite length_view_slots; lia).
  rewrite Hv1 in Hv2.
  assert (∀ j, j ≠ slot → file_at (view s2) j = file_at (view s) j) as Hframe.
  { intros j Hj. rewrite Hv2. rewrite file_at_set_ne by lia. done. }
  assert (file_at (view s2) slot = Some d) as Hnew by (rewrite Hv2; by rewrite file_at_set_eq).
  split; [done|]. split; [done|]. split.
  { rewrite Hv2. apply (tree_insert (view s) (v_top (view s1)) slot d p); try done.
    intros Hef. destruct (Hdata Hef) as [-> Hd2]. cbn [d d_data_offset d_size].
    cbn [view v_top] in *. pose proof (so_top _ Hs). lia. }
  split; [by eapply sel_inv_insert|]. split; [auto|].
  split; [unfold max_files in *; by rewrite Hsb2|]. split; [done|]. intros _. constructor; try done.
  - by exists d.
  - apply (f_equal v_flash) in Hv2. exact Hv2.
Qed.

(** The check of DELETE FILE: what passes it has no child. *)
Lemma childless_view s i d :
  store_ok s → tree_inv (view s) → file_at (view s) i = Some d →
  ∃ b, (if fs_is_df d then n ← fs_child_count s i; Some (0 <? n) else Some false) = Some b ∧
    (b = false → ∀ j, ¬ child_of (view s) i j).
Proof.
  intros Hs Ht Hd. destruct (fs_is_df d) eqn:Edf.
  - destruct (child_count_view s i Hs) as (n & -> & Hn). bind_simpl. eexists. split; [done|].
    intros E j Hj. assert ((0 <? n) = true) by (apply Hn; eauto). congruence.
  - exists false. split; [done|]. intros _ j (e & He & Hpe).
    destruct (decide (j = FS_ROOT_INDEX)) as [->|Hj].
    + destruct (ti_root _ Ht) as (r & Hr & _ & _ & Hrp & _). unfold FS_NO_PARENT in *.
      destruct (file_at_u16 s i d Hs Hd) as [Hir _]. pose proof (so_max _ Hs). unfold FS_MAX_FILES, max_files in *.
      assert (d_parent r = i) by congruence. lia.
    + destruct (ti_parent _ Ht j e He Hj) as (q & Hq & Hqd). rewrite Hpe, Hd in Hq. congruence.
Qed.

(** What a successful deletion leaves behind. *)
Record deleted (s s' : store N) (se se' : fs_selection) (fid i : Z) : Prop := {
  de_named : child_named (view s) (cur_df se) fid i;
  de_childless : ∀ j, ¬ child_of (view s) i j;
  de_gone : file_at (view s') i = None;
  de_frame : ∀ j, j ≠ i → file_at (view s') j = file_at (view s) j;
  de_flash : flash s' = flash s;
  de_sel : cur_df se' = cur_df se ∧ cur_ef se' ≠ i;
}.

Lemma delete_view s se fid :
  store_ok s → tree_inv (view s) → sel_inv (view s) se →
  ∃ st se' s', fs_delete_file s (Ptr se) fid = Some (st, Ptr se', s') ∧
    store_ok s' ∧ tree_inv (view s') ∧ sel_inv (view s') se' ∧ (sb_synced s → sb_synced s') ∧
    max_files s' = max_files s ∧
    (st ≠ FS_OK → s' = s ∧ se' = se) ∧ (st = FS_OK → ∃ i, deleted s s' se se' fid i).
Proof.
  intros Hs Ht Hse.
  assert (∀ st, st ≠ FS_OK → ∃ st0 se' s', Some (st, Ptr se, s) = Some (st0, Ptr se', s') ∧
    store_ok s' ∧ tree_inv (view s') ∧ sel_inv (view s') se' ∧ (sb_synced s → sb_synced s') ∧
    max_files s' = max_files s ∧
    (st0 ≠ FS_OK → s' = s ∧ se' = se) ∧ (st0 = FS_OK → ∃ i, deleted s s' se se' fid i)) as Hfail.
  { intros st Hst. exists st, se, s. split; [done|]. do 6 (split; [done|]). done. }
  unfold fs_delete_file. case_if; [by apply Hfail|].
  destruct (find_child_view s (cur_df se) fid FS_INVALID_INDEX Hs) as ([i|] & -> & Hr); bind_simpl;
    [|by apply Hfail]. destruct Hr as (Hi & Hch & _). pose proof Hch as (d & Hd & Hp & Hf).
  destruct (get_desc_file s i d Hs Hd) as [-> Hdok]. bind_simpl. cbn [fs_ok negb].
  case_if; [by apply Hfail|].
  assert (i ≠ FS_ROOT_INDEX) as Hroot.
  { intros ->. destruct (ti_root _ Ht) as (r & Hr & Htr & _). congruence. }
  destruct (childless_view s i d Hs Ht Hd) as (b & -> & Hb).
  bind_simpl. destruct b; [by apply Hfail|]. specialize (Hb eq_refl).
  destruct (free_desc_ok s i Hs Hi) as (s' & -> & Hs' & Hsb & Hv & Hsy). bind_simpl. cbn [fs_ok negb].
  assert (cur_df se ≠ i) as Hdf.
  { intros E. apply (no_self_parent _ i d Ht Hd). congruence. }
  set (se1 := if cur_ef se =? i then FsSelection (cur_df se) FS_INVALID_INDEX else se).
  assert (cur_df se1 = cur_df se) as Hdf1 by (unfold se1; by case_if).
  rewrite Hdf1. replace (cur_df se =? i) with false by lia.
  exists FS_OK, se1, s'. split; [done|]. split; [done|].
  assert (file_at (view s') i = None) as Hgone.
  { rewrite Hv. apply file_at_set_eq. rewrite length_view_slots. lia. }
  assert (∀ j, j ≠ i → file_at (view s') j = file_at (view s) j) as Hframe.
  { intros j Hj. rewrite Hv. by apply file_at_set_ne; [lia|]. }
  split; [rewrite Hv; by eapply tree_remove|].
  assert (cur_ef se1 ≠ i) as Hef1.
  { unfold se1. destruct (Z.eqb_spec (cur_ef se) i); [|done]. cbn. pose proof (so_max _ Hs).
    unfold FS_MAX_FILES, max_files, FS_INVALID_INDEX in *. lia. }
  split.
  { destruct Hse as [(q & Hq & ?) Hef]. constructor; rewrite Hdf1.
    - exists q. by rewrite Hframe.
    - unfold se1 in *. destruct (Z.eqb_spec (cur_ef se) i); [by left|].
      destruct Hef as [?|(e & ? & ?)]; [by left|]. right. exists e. by rewrite Hframe. }
  split; [done|]. split; [unfold max_files; by rewrite Hsb|]. split; [done|].
  intros _. exists i. constructor; try done. apply (f_equal v_flash) in Hv. exact Hv.
Qed.

(** *** Personalisation *)

(** The descriptor of a layout entry whose data starts at [off]. *)
Definition layout_desc (e : layout_entry) (off : Z) : fs_descriptor :=
  FsDescriptor (l_file_id e) (l_type e) FS_LC_ACTIVATED (l_parent e) (l_size e) off 0 0 (l_sfi e) 0.

Definition entry_ef (e : layout_entry) : bool := l_type e =? FS_TYPE_EF_TRANSPARENT.

Definition layout_view (v : fs_view) (e : layout_entry) : fs_view :=
  set_slot (FsView (v_slots v) (if entry_ef e then v_top v + l_size e else v_top v) (v_flash v))
    (l_index e) (SlotFile (layout_desc e (if entry_ef e then v_top v else 0))).

Lemma personalise_step e layout s :
  store_ok s → sb_synced s → 0 ≤ l_index e < max_files s →
  desc_typed (layout_desc e 0) → type_ok (l_type e) = true →
  (if entry_ef e then sb_data_top (s_sb s) + l_size e else 0) ≤ len (flash s) →
  ∃ s', personalise_loop (e :: layout) s = personalise_loop layout s' ∧ store_ok s' ∧ sb_synced s' ∧
    max_files s' = max_files s ∧ view s' = layout_view (view s) e.
Proof.
  intros Hs Hsy Hi Hty Htok Hfit. cbn [personalise_loop]. fold (entry_ef e).
  pose proof (len_flash s (store_ok_safe s Hs)) as Hf32. pose proof (so_top _ Hs) as Htop.
  pose proof Hty as []. cbn [layout_desc d_file_id d_type d_lifecycle d_parent d_size d_data_offset
    d_ac_read d_ac_update d_sfi d_flags] in *.
  assert (∃ off s1, (if entry_ef e then fs_store_alloc_data s (l_size e) (Ptr 0) else Some (FS_OK, Ptr 0, s)) =
      Some (FS_OK, Ptr off, s1) ∧ store_ok s1 ∧ sb_synced s1 ∧ max_files s1 = max_files s ∧
      flash s1 = flash s ∧ is_u32 off ∧ off = (if entry_ef e then v_top (view s) else 0) ∧
      (entry_ef e = true → off + l_size e ≤ len (flash s)) ∧
      view s1 = FsView (v_slots (view s)) (if entry_ef e then v_top (view s) + l_size e else v_top (view s))
                  (v_flash (view s))) as (off & s1 & -> & Hs1 & Hsy1 & Hm1 & Hf1 & Hoff & Hoffe & Hend & Hv1).
  { destruct (entry_ef e) eqn:Ee.
    - destruct (alloc_data_ok s (l_size e) 0 Hs) as (s1 & -> & Hs1 & Hm & Hv & Hsy1); [done|done|].
      eexists _, s1. split; [done|]. split; [done|]. split; [auto|]. split; [done|].
      split; [by apply (f_equal v_flash) in Hv|]. cbn [view v_top]. unfold is_u32. split; [lia|]. done.
    - eexists _, s. do 5 (split; [done|]). split; [unfold is_u32; lia|]. done. }
  bind_simpl. cbn [fs_ok negb]. change (FsDescriptor _ _ _ _ _ off _ _ _ _) with (layout_desc e off).
  destruct (write_desc_ok s1 (l_index e) (layout_desc e off) Hs1) as (s2 & -> & Hs2 & Hsb2 & Hv2 & Hsy2);
    [by rewrite Hm1| |].
  { constructor; [by constructor|done|]. unfold data_ok, fs_is_ef. cbn [layout_desc d_type d_data_offset d_size].
    fold (entry_ef e). destruct (entry_ef e); [|done]. rewrite Hf1. cbn [negb orb].
    specialize (Hend eq_refl). lia. }
  bind_simpl. cbn [fs_ok negb]. exists s2. split; [done|]. split; [done|]. split; [auto|].
  split; [unfold max_files in *; by rewrite Hsb2|]. rewrite Hv2, Hv1, Hoffe. done.
Qed.

(** The view of a freshly personalised card. *)
Definition factory_view (fl : list Z) : fs_view :=
  fold_left layout_view factory_layout
    (set_slot (FsView (replicate 32 SlotFree) 0 fl) 0 (SlotFile factory_mf)).

Definition factory_data : Z := 112.

Lemma personalise_view s :
  nvm_wf (s_nvm s) → nvm_ready (s_nvm s) →
  FS_DESC_BASE + FS_DESC_SIZE * FS_MAX_FILES ≤ len (eeprom s) → factory_data ≤ len (flash s) →
  ∃ s', fs_personalise s = Some (FS_OK, s') ∧ store_ok s' ∧ sb_synced s' ∧
    max_files s' = FS_MAX_FILES ∧ view s' = factory_view (flash s).
Proof.
  intros Hwf Hr Hee Hfl. unfold factory_data in *. unfold fs_personalise.
  destruct (format_ok s Hwf Hr Hee) as (s1 & -> & Hs1 & Hsy1 & Hv1). bind_simpl. cbn [fs_ok negb].
  assert (max_files s1 = 32) as Hm1.
  { pose proof (length_view_slots s1) as Hl. rewrite Hv1 in Hl. cbn in Hl. pose proof (so_max _ Hs1).
    unfold max_files in *. lia. }
  assert (flash s1 = flash s) as Hf1 by (by apply (f_equal v_flash) in Hv1).
  destruct (write_desc_ok s1 0 factory_mf Hs1) as (s2 & -> & Hs2 & Hsb2 & Hv2 & Hsy2); [lia| |].
  { by constructor; [constructor|..]. }
  bind_simpl. cbn [fs_ok negb]. specialize (Hsy2 Hsy1).
  assert (max_files s2 = 32) as Hm2 by (unfold max_files in *; by rewrite Hsb2).
  rewrite Hv1 in Hv2.
  assert (∀ t, sb_data_top (s_sb t) = v_top (view t) ∧ flash t = v_flash (view t)) as Ht by done.
  unfold factory_layout.
  edestruct (personalise_step (LayoutEntry 1 0x2F00 FS_TYPE_EF_TRANSPARENT 0 32 1))
    as (s3 & -> & Hs3 & Hsy3 & Hm3 & Hv3);
    [exact Hs2|exact Hsy2|rewrite Hm2; done|by constructor|done|
     rewrite (proj1 (Ht _)), (proj2 (Ht _)), Hv2; cbn; lia|]. rewrite Hv2 in Hv3.
  edestruct (personalise_step (LayoutEntry 2 0x7F10 FS_TYPE_DF 0 0 0))
    as (s4 & -> & Hs4 & Hsy4 & Hm4 & Hv4);
    [exact Hs3|exact Hsy3|rewrite Hm3, Hm2; done|by constructor|done|
     rewrite (proj2 (Ht _)), Hv3; cbn; lia|]. rewrite Hv3 in Hv4.
  edestruct (personalise_step (LayoutEntry 3 0x6F01 FS_TYPE_EF_TRANSPARENT 2 64 1))
    as (s5 & -> & Hs5 & Hsy5 & Hm5 & Hv5);
    [exact Hs4|exact Hsy4|rewrite Hm4, Hm3, Hm2; done|by constructor|done|
     rewrite (proj1 (Ht _)), (proj2 (Ht _)), Hv4; cbn; lia|]. rewrite Hv4 in Hv5.
  edestruct (personalise_step (LayoutEntry 4 0x6F02 FS_TYPE_EF_TRANSPARENT 2 16 2))
    as (s6 & -> & Hs6 & Hsy6 & Hm6 & Hv6);
    [exact Hs5|exact Hsy5|rewrite Hm5, Hm4, Hm3, Hm2; done|by constructor|done|
     rewrite (proj1 (Ht _)), (proj2 (Ht _)), Hv5; cbn; lia|]. rewrite Hv5 in Hv6.
  exists s6. split; [done|]. split; [done|]. split; [done|].
  split; [rewrite Hm6, Hm5, Hm4, Hm3; exact Hm2|]. exact Hv6.
Qed.

(** The factory files, by slot. *)
Lemma factory_file_at fl i d :
  file_at (factory_view fl) i = Some d →
  (i = 0 ∧ d = factory_mf) ∨
  (i = 1 ∧ d = layout_desc (LayoutEntry 1 0x2F00 FS_TYPE_EF_TRANSPARENT 0 32 1) 0) ∨
  (i = 2 ∧ d = layout_desc (LayoutEntry 2 0x7F10 FS_TYPE_DF 0 0 0) 0) ∨
  (i = 3 ∧ d = layout_desc (LayoutEntry 3 0x6F01 FS_TYPE_EF_TRANSPARENT 2 64 1) 32) ∨
  (i = 4 ∧ d = layout_desc (LayoutEntry 4 0x6F02 FS_TYPE_EF_TRANSPARENT 2 16 2) 96).
Proof.
  intros Hd. pose proof (file_at_nonneg _ _ _ Hd) as Hi. change (length _) with 32%nat in Hi.
  unfold file_at in Hd. replace (0 <=? i) with true in Hd by lia.
  assert (i = Z.of_nat (Z.to_nat i)) as Hz by lia. revert Hd Hz. generalize (Z.to_nat i). intros k Hd ->.
  assert (k < 32)%nat by lia. clear Hi.
  do 5 (destruct k as [|k]; [cbn in Hd; injection Hd as <-; tauto|]).
  exfalso. do 27 (destruct k as [|k]; [cbn in Hd; discriminate|]). lia.
Qed.

Lemma factory_tree fl : tree_inv (factory_view fl).
Proof.
  assert (∀ i, under_root (factory_view fl) i → ∀ j d, file_at (factory_view fl) j = Some d →
    d_parent d = i → under_root (factory_view fl) j) as Hup.
  { intros i Hi j d Hd <-. by eapply under_root_child. }
  constructor.
  - exists factory_mf. by split_and!.
  - intros i d Hd%factory_file_at Hty. destruct_or! Hd; destruct Hd as [-> ->]; done.
  - intros i d Hd%factory_file_at Hi. destruct_or! Hd; destruct Hd as [-> ->];
      first [done | by eexists; split].
  - intros i j d e Hd%factory_file_at He%factory_file_at Hp Hf.
    destruct_or! Hd; destruct Hd as [-> ->]; destruct_or! He; destruct He as [-> ->]; done.
  - intros i j d e Hd%factory_file_at He%factory_file_at Hed Hee Hp Hf.
    destruct_or! Hd; destruct Hd as [-> ->]; destruct_or! He; destruct He as [-> ->]; done.
  - intros i d Hd%factory_file_at Hef.
    destruct_or! Hd; destruct Hd as [-> ->]; done.
  - intros i j d e Hd%factory_file_at He%factory_file_at Hij Hed Hee.
    destruct_or! Hd; destruct Hd as [-> ->]; destruct_or! He; destruct He as [-> ->];
      first [done | by left | by right].
  - assert (under_root (factory_view fl) 2) as H2 by (eapply Hup; [apply under_root_mf|reflexivity..]).
    intros i d Hd. pose proof Hd as Hd'. apply factory_file_at in Hd'.
    destruct_or! Hd'; destruct Hd' as [-> ->]; [apply under_root_mf|..];
      first [exact H2 | eapply Hup; [apply under_root_mf|exact Hd|reflexivity]
            | eapply Hup; [exact H2|exact Hd|reflexivity]].
Qed.

(** *** Start-up *)

Lemma init_mounted s s1 :
  fs_store_mount s = Some (FS_OK, s1) → store_ok s1 → tree_inv (view s1) → fs_init s = Some (FS_OK, s1).
Proof.
  intros Hm Hs1 Ht. unfold fs_init. rewrite Hm. bind_simpl.
  destruct (ti_root _ Ht) as (d & Hd & Hty & Hf & _).
  destruct (get_desc_file s1 _ d Hs1 Hd) as [-> _]. bind_simpl. cbn [fs_ok negb]. by rewrite Hty, Hf.
Qed.

(** A card whose superblock does not carry the magic number is blank. *)
Definition blank_card (s : store N) : Prop :=
  take 4 (eeprom s) ≠ [FS_MAGIC_0; FS_MAGIC_1; FS_MAGIC_2; FS_MAGIC_3].

Lemma mount_magic s :
  nvm_wf (s_nvm s) → nvm_ready (s_nvm s) → FS_SUPERBLOCK_SIZE ≤ len (eeprom s) →
  ∃ st s', fs_store_mount s = Some (st, s') ∧ s_nvm s' = s_nvm s ∧
    (st = FS_ERR_NOT_FORMATTED ↔ blank_card s).
Proof.
  intros Hwf Hr Hle. rewrite (mount_eq s Hwf Hr Hle). unfold blank_card.
  set (raw := slice 0 FS_SUPERBLOCK_SIZE (eeprom s)).
  assert (len raw = 16) as Hl by (by apply len_slice).
  assert (take 4 (eeprom s) = take 4 raw) as ->.
  { unfold raw, slice. rewrite take_take. done. }
  destruct (list_16 raw Hl) as (m0&m1&m2&m3&v1&v0&x1&x0&t3&t2&t1&t0&r1&r0&c1&c0&->).
  cbn [mount_raw firstn]. case_bool_decide as E; cbn [negb].
  - repeat (case_match; simplify_eq/=); eexists _, _; (split; [done|]); (split; [done|]);
      split; (done || intros Hn; by destruct Hn).
  - eexists _, _. split; [done|]. split; [done|]. done.
Qed.

Lemma init_blank s :
  nvm_wf (s_nvm s) → nvm_ready (s_nvm s) → blank_card s →
  FS_DESC_BASE + FS_DESC_SIZE * FS_MAX_FILES ≤ len (eeprom s) → factory_data ≤ len (flash s) →
  ∃ s', fs_init s = Some (FS_OK, s') ∧ store_ok s' ∧ sb_synced s' ∧ max_files s' = FS_MAX_FILES ∧
    view s' = factory_view (flash s).
Proof.
  intros Hwf Hr Hb Hee Hfl.
  destruct (mount_magic s Hwf Hr) as (st & s1 & Hm & Hn & Hst);
    [change (FS_DESC_BASE + FS_DESC_SIZE * FS_MAX_FILES) with 656 in Hee; unfold FS_SUPERBLOCK_SIZE; lia|].
  unfold fs_init. rewrite Hm. bind_simpl. apply Hst in Hb as ->.
  assert (flash s1 = flash s ∧ eeprom s1 = eeprom s) as [Hf He] by (unfold flash, eeprom; by rewrite Hn).
  rewrite <- Hf. apply personalise_view; rewrite ?Hn, ?Hf, ?He; done.
Qed.

(** ** Properties *)

(** Start-up makes a usable card of a blank one: it is mounted, holds the
    factory files, is well formed, and a later start-up finds it again. *)
Theorem fs_init_blank_card s m :
  nvm_wf (s_nvm s) → nvm_ready (s_nvm s) → blank_card s →
  FS_DESC_BASE + FS_DESC_SIZE * FS_MAX_FILES ≤ len (eeprom s) → factory_data ≤ len (flash s) →
  ∃ s', fs_init s = Some (FS_OK, s') ∧ store_ok s' ∧ tree_inv (view s') ∧
    view s' = factory_view (flash s) ∧ fs_init (Store m (s_nvm s')) = Some (FS_OK, s').
Proof.
  intros Hwf Hr Hb Hee Hfl. destruct (init_blank s Hwf Hr Hb Hee Hfl) as (s' & -> & Hs' & Hsy & _ & Hv).
  exists s'. pose proof (factory_tree (flash s)) as Ht. rewrite <- Hv in Ht.
  do 4 (split; [done|]). apply init_mounted; [by apply mount_synced|done|done].
Qed.

(** [C31] Start-up never writes to a card that carries the magic number: an
    image that is damaged, or of another layout, is reported and left alone. *)
Theorem fs_init_keeps_damaged_card s :
  nvm_wf (s_nvm s) → nvm_ready (s_nvm s) → FS_SUPERBLOCK_SIZE ≤ len (eeprom s) → ¬ blank_card s →
  ∃ st s', fs_init s = Some (st, s') ∧ s_nvm s' = s_nvm s ∧ (st = FS_OK → store_ok s').
Proof.
  intros Hwf Hr Hle Hb. destruct (mount_magic s Hwf Hr Hle) as (st & s1 & Hm & Hn & Hst).
  unfold fs_init. rewrite Hm. bind_simpl.
  destruct st; try (by eexists _, _); [|by destruct Hb; apply Hst].
  assert (store_ok s1) as Hs1.
  { rewrite (mount_eq s Hwf Hr Hle) in Hm. pose proof (nvm_mem_len _ HAL_NVM_FLASH Hwf).
    destruct (mount_raw _ _ _) as [st m] eqn:E. injection Hm as -> <-.
    by apply (mount_raw_ok s m). }
  assert (∃ rst d, get_desc s1 FS_ROOT_INDEX = Some (rst, d)) as (rst & d & ->).
  { destruct (get_desc_total s1 FS_ROOT_INDEX (store_ok_safe _ Hs1)) as (? & ? & ? & _); eauto. done. }
  bind_simpl. case_if; [by eexists _, _|]. case_if; by eexists _, _.
Qed.

(** CREATE FILE keeps every promise of the tree: a refused request leaves
    the card exactly as it was; an accepted one adds one file, with the
    requested attributes, to a free slot, touches no other file and no file
    contents, and the result is again a well-formed tree (unique identifiers,
    disjoint data, every path leading to the root). *)
Theorem fs_create_file_spec s se req x :
  store_ok s → tree_inv (view s) → sel_inv (view s) se → desc_typed req →
  ∃ st o s', fs_create_file s (Ptr se) (Ptr req) (Ptr x) = Some (st, Ptr o, s') ∧
    store_ok s' ∧ tree_inv (view s') ∧ sel_inv (view s') se ∧ (sb_synced s → sb_synced s') ∧
    (st ≠ FS_OK → s' = s) ∧ (st = FS_OK → created s s' se req o).
Proof.
  intros Hs Ht Hse Hr. destruct (create_view s se req x Hs Ht Hse Hr) as (st & o & s' & ? & ? & ? & ? & ? & _ & ?).
  by exists st, o, s'.
Qed.

(** [C9] DELETE FILE removes one file that has no children, or nothing; the
    tree stays well formed and the selection never points at the freed slot. *)
Theorem fs_delete_file_spec s se fid :
  store_ok s → tree_inv (view s) → sel_inv (view s) se →
  ∃ st se' s', fs_delete_file s (Ptr se) fid = Some (st, Ptr se', s') ∧
    store_ok s' ∧ tree_inv (view s') ∧ sel_inv (view s') se' ∧ (sb_synced s → sb_synced s') ∧
    (st ≠ FS_OK → s' = s ∧ se' = se) ∧ (st = FS_OK → ∃ i, deleted s s' se se' fid i).
Proof.
  intros Hs Ht Hse. destruct (delete_view s se fid Hs Ht Hse) as (st & se' & s' & ? & ? & ? & ? & ? & _ & ?).
  by exists st, se', s'.
Qed.

(** SELECT by identifier follows the documented search order (the MF, a
    child of the current DF, the current DF itself, its parent), reaches nothing
    else, demands an activated file, and leaves the selection alone when it
    fails. *)
Theorem fs_select_by_fid_order s se fid :
  store_ok s → tree_inv (view s) → sel_inv (view s) se →
  (∃ i d, fid_target (view s) (cur_df se) fid i ∧
     (∀ j, fid_target (view s) (cur_df se) fid j → j = i) ∧ file_at (view s) i = Some d ∧
     fs_select_by_fid s (Ptr se) fid =
       Some (if fs_is_usable d then (FS_OK, Ptr (commit se i d)) else (FS_ERR_NOT_USABLE, Ptr se))) ∨
  ((∀ i, ¬ fid_target (view s) (cur_df se) fid i) ∧
     fs_select_by_fid s (Ptr se) fid = Some (FS_ERR_NOT_FOUND, Ptr se)).
Proof.
  intros Hs Ht Hse. destruct (select_by_fid_view s se fid Hs Ht Hse) as [(i & d & Hi & Hd & Heq)|?]; [|by right].
  left. exists i, d. split; [done|]. split; [|done]. intros j Hj. by eapply fid_target_unique.
Qed.


(** What UPDATE BINARY stores is what READ BINARY gives back, and the
    contents of no other file change. *)
Lemma fs_ef_write_read s i d off b :
  store_ok s → tree_inv (view s) → file_at (view s) i = Some d → fs_is_ef d = true → fs_is_usable d = true →
  0 ≤ off → 0 < len b → off + len b ≤ d_size d → bytes b →
  ∃ s', fs_ef_write s i off (len b) (Ptr b) = Some (FS_OK, s') ∧ store_ok s' ∧ tree_inv (view s') ∧
    fs_ef_read s' i off (len b) (Ptr (replicate (length b) 0)) (Ptr 0) = Some (FS_OK, Ptr b, Ptr (len b)) ∧
    (∀ o k, 0 ≤ o → 0 ≤ k → o + k ≤ off ∨ off + len b ≤ o →
       slice o k (ef_bytes (view s') d) = slice o k (ef_bytes (view s) d)) ∧
    ∀ j e, j ≠ i → file_at (view s) j = Some e → fs_is_ef e = true →
      file_at (view s') j = Some e ∧ ef_bytes (view s') e = ef_bytes (view s) e.
Proof.
  intros Hs Ht Hd Hef Hus Hoff Hb0 Hfit Hb. destruct (ef_in_flash s i d Hs Hd Hef) as ([] & Hfl & _).
  destruct (ef_write_view s i d off (len b) b Hs Ht Hd Hef Hus) as (s' & Hw & Hs' & Hsb & _ & Hsl & Hby & Hot);
    [done|done|lia|done|].
  rewrite slice_0_all in Hby. unfold is_u16, is_u32 in *.
  assert (len (ef_bytes (view s) d) = d_size d) as Hle by (apply len_slice; cbn; lia).
  assert (∀ j, file_at (view s') j = file_at (view s) j) as Hfa by (intros j; unfold file_at; by rewrite Hsl).
  exists s'. split; [done|]. split; [done|].
  split; [eapply tree_ext; [exact Hfa|cbn; by rewrite Hsb|done]|].
  assert (len (replicate (length b) 0) = len b) as Hlr by (unfold len; by rewrite length_replicate).
  split.
  { rewrite (ef_read_view s' i d) by (rewrite ?Hfa, ?Hlr; first [done|lia|idtac];
      apply Forall_replicate; unfold is_u8; lia).
    replace (Z.min (len b) (d_size d - off)) with (len b) by lia.
    rewrite Hby, slice_splice_same by lia. by rewrite splice_all. }
  split; [|intros j e Hj He Hefe; rewrite Hfa; split; [done|by apply (Hot j)]].
  intros o k Ho Hk Hout. rewrite Hby. apply slice_splice_other; lia.
Qed.

End ops.

(** ** The factory card *)

#[local] Existing Instance small_config.

Definition factory_store : store vcard :=
  match fs_init blank_store with Some (_, s) => s | None => blank_store end.

Lemma blank_store_facts :
  nvm_wf (s_nvm blank_store) ∧ nvm_ready (s_nvm blank_store) ∧ blank_card blank_store ∧
  FS_DESC_BASE + FS_DESC_SIZE * FS_MAX_FILES ≤ len (eeprom blank_store) ∧ factory_data ≤ len (flash blank_store).
Proof.
  split; [apply small_card_wf|]. split; [reflexivity|]. split; [vm_compute; discriminate|].
  split; vm_compute; discriminate.
Qed.

Lemma factory_ok :
  fs_init blank_store = Some (FS_OK, factory_store) ∧ store_ok factory_store ∧ sb_synced factory_store ∧
  tree_inv (view factory_store) ∧ view factory_store = factory_view (flash blank_store) ∧
  max_files factory_store = 32.
Proof.
  destruct blank_store_facts as (Hwf & Hr & Hb & He & Hf).
  destruct (init_blank blank_store Hwf Hr Hb He Hf) as (s & Hi & Hs & Hsy & Hm & Hv).
  unfold factory_store. rewrite Hi. pose proof (factory_tree (flash blank_store)) as Ht. rewrite <- Hv in Ht.
  exact (conj eq_refl (conj Hs (conj Hsy (conj Ht (conj Hv Hm))))).
Qed.

#[global] Opaque factory_store.

Definition root_sel : fs_selection := FsSelection FS_ROOT_INDEX FS_INVALID_INDEX.

Lemma root_sel_ok : sel_inv (view factory_store) root_sel.
Proof. apply sel_reset_inv. apply factory_ok. Qed.

Lemma factory_has i d : file_at (factory_view (flash blank_store)) i = Some d → file_at (view factory_store) i = Some d.
Proof. intros Hd. destruct factory_ok as (_ & _ & _ & _ & -> & _). exact Hd. Qed.

(** The file 2F00 of the factory layout. *)
Definition factory_ef : fs_descriptor := layout_desc (LayoutEntry 1 0x2F00 FS_TYPE_EF_TRANSPARENT 0 32 1) 0.

Lemma fs_init_blank_card_witness :
  ∃ s', fs_init blank_store = Some (FS_OK, s') ∧ store_ok s' ∧ tree_inv (view s') ∧
    view s' = factory_view (flash blank_store) ∧
    fs_init (Store (Superblock false 0 0 0) (s_nvm s')) = Some (FS_OK, s').
Proof.
  destruct blank_store_facts as (Hwf & Hr & Hb & He & Hf).
  apply (fs_init_blank_card blank_store (Superblock false 0 0 0) Hwf Hr Hb He Hf).
Defined.

Lemma fs_init_keeps_damaged_card_witness :
  ∃ st s', fs_init (damaged factory_store 11 1) = Some (st, s') ∧
    s_nvm s' = s_nvm (damaged factory_store 11 1) ∧ (st = FS_OK → store_ok s').
Proof.
  destruct (damaged_ok factory_store 11 1 (proj1 (proj2 factory_ok))) as [Hwf Hr _ _ _ _]; [unfold is_u8; lia|].
  apply (fs_init_keeps_damaged_card (damaged factory_store 11 1) Hwf Hr).
  - vm_compute. discriminate.
  - intros Hb. apply Hb. vm_compute. reflexivity.
Defined.

Definition sample_req : fs_descriptor := FsDescriptor 0x6F30 FS_TYPE_EF_TRANSPARENT FS_LC_ACTIVATED 0 8 0 0 0 5 0.

Lemma fs_create_file_spec_witness :
  ∃ st o s', fs_create_file factory_store (Ptr root_sel) (Ptr sample_req) (Ptr 0) = Some (st, Ptr o, s') ∧
    store_ok s' ∧ tree_inv (view s') ∧ sel_inv (view s') root_sel ∧ (sb_synced factory_store → sb_synced s') ∧
    (st ≠ FS_OK → s' = factory_store) ∧ (st = FS_OK → created factory_store s' root_sel sample_req o).
Proof.
  apply (fs_create_file_spec factory_store root_sel sample_req 0).
  - apply factory_ok.
  - apply factory_ok.
  - apply root_sel_ok.
  - constructor; vm_compute; split; congruence.
Defined.

Lemma fs_delete_file_spec_witness :
  ∃ st se' s', fs_delete_file factory_store (Ptr root_sel) 0x2F00 = Some (st, Ptr se', s') ∧
    store_ok s' ∧ tree_inv (view s') ∧ sel_inv (view s') se' ∧ (sb_synced factory_store → sb_synced s') ∧
    (st ≠ FS_OK → s' = factory_store ∧ se' = root_sel) ∧
    (st = FS_OK → ∃ i, deleted factory_store s' root_sel se' 0x2F00 i).
Proof.
  apply (fs_delete_file_spec factory_store root_sel 0x2F00); [apply factory_ok..|apply root_sel_ok].
Defined.

Lemma fs_select_by_fid_order_witness :
  (∃ i d, fid_target (view factory_store) 0 0x7F10 i ∧
     (∀ j, fid_target (view factory_store) 0 0x7F10 j → j = i) ∧ file_at (view factory_store) i = Some d ∧
     fs_select_by_fid factory_store (Ptr root_sel) 0x7F10 =
       Some (if fs_is_usable d then (FS_OK, Ptr (commit root_sel i d)) else (FS_ERR_NOT_USABLE, Ptr root_sel))) ∨
  ((∀ i, ¬ fid_target (view factory_store) 0 0x7F10 i) ∧
     fs_select_by_fid factory_store (Ptr root_sel) 0x7F10 = Some (FS_ERR_NOT_FOUND, Ptr root_sel)).
Proof.
  apply (fs_select_by_fid_order factory_store root_sel 0x7F10); [apply factory_ok..|apply root_sel_ok].
Defined.


Lemma fs_ef_write_read_witness :
  ∃ s', fs_ef_write factory_store 1 3 2 (Ptr [7; 9]) = Some (FS_OK, s') ∧ store_ok s' ∧ tree_inv (view s') ∧
    fs_ef_read s' 1 3 2 (Ptr [0; 0]) (Ptr 0) = Some (FS_OK, Ptr [7; 9], Ptr 2) ∧
    (∀ o k, 0 ≤ o → 0 ≤ k → o + k ≤ 3 ∨ 3 + 2 ≤ o →
       slice o k (ef_bytes (view s') factory_ef) = slice o k (ef_bytes (view factory_store) factory_ef)) ∧
    ∀ j e, j ≠ 1 → file_at (view factory_store) j = Some e → fs_is_ef e = true →
      file_at (view s') j = Some e ∧ ef_bytes (view s') e = ef_bytes (view factory_store) e.
Proof.
  apply (fs_ef_write_read factory_store 1 factory_ef 3 [7; 9]);
    [apply factory_ok|apply factory_ok|apply factory_has; reflexivity|reflexivity|reflexivity|lia|
     reflexivity|vm_compute; discriminate|solve_bytes].
Defined.
