(* ===== verification/KernelTypes.v ===== *)
(** * The kernel's state and its command handlers (include/os/kernel.h,
    include/apdu/dispatch.h)

    The volatile working set of the card, the type of a command handler, and
    the interfaces between the layers: what the file system promises to the
    handlers ([FsSpec]), and what a handler promises to the dispatcher
    ([HandlerSpec]).  Both are stated for an invariant of the card's state, so
    that the clients are proved once and instantiated with plain memory safety
    ([safe_inv]) and with the well-formed file tree ([card_inv]). *)

From S2P Require Import Prelude OsMem Sw Apdu Hal SimHal FsTypes FsStore Fs FsTree.

Inductive scos_status := SCOS_OK | SCOS_ERR_PARAM | SCOS_ERR_STATE | SCOS_ERR_HAL.

Inductive scos_lifecycle :=
| SCOS_LC_NO_POWER | SCOS_LC_INITIALISING | SCOS_LC_OPERATIONAL | SCOS_LC_FS_ERROR | SCOS_LC_TERMINATED.

#[export] Instance scos_status_eq_dec : EqDecision scos_status.
Proof. solve_decision. Defined.
#[export] Instance scos_lifecycle_eq_dec : EqDecision scos_lifecycle.
Proof. solve_decision. Defined.

Definition SCOS_APDU_CMD_MAX : Z := 261.
Definition SCOS_APDU_RSP_MAX : Z := 258.

Record scos_kernel := ScosKernel {
  k_lifecycle : scos_lifecycle;
  k_reset_count : Z;
  k_sel : fs_selection;
  k_cmd : list Z;
  k_cmd_len : Z;
  k_rsp : list Z;
  k_rsp_len : Z;
}.

(** [memset(k, 0, sizeof *k)]. *)
Definition scos_kernel_zero : scos_kernel :=
  ScosKernel SCOS_LC_NO_POWER 0 (FsSelection 0 0)
    (local_array SCOS_APDU_CMD_MAX) 0 (local_array SCOS_APDU_RSP_MAX) 0.

Definition set_lifecycle (k : scos_kernel) (lc : scos_lifecycle) : scos_kernel :=
  ScosKernel lc (k_reset_count k) (k_sel k) (k_cmd k) (k_cmd_len k) (k_rsp k) (k_rsp_len k).

Definition set_reset_count (k : scos_kernel) (n : Z) : scos_kernel :=
  ScosKernel (k_lifecycle k) n (k_sel k) (k_cmd k) (k_cmd_len k) (k_rsp k) (k_rsp_len k).

Definition set_sel (k : scos_kernel) (se : fs_selection) : scos_kernel :=
  ScosKernel (k_lifecycle k) (k_reset_count k) se (k_cmd k) (k_cmd_len k) (k_rsp k) (k_rsp_len k).

Lemma set_sel_same k : set_sel k (k_sel k) = k.
Proof. by destruct k. Qed.

(** A handler reads the command and may change the kernel, the response under
    construction and the file system; it returns the status word. *)
Definition scos_cmd_handler (N : Type) : Type :=
  ptr scos_kernel → ptr apdu_command → ptr apdu_response → store N →
  option (Z * ptr scos_kernel * ptr apdu_response * store N).

(** ** Interfaces *)

Section interfaces.
Context {N : Type} `{HalNvmSpec N}.
Implicit Types (s : store N) (I : store N → fs_selection → Prop).

(** A selection operation: it fails and leaves the selection, or succeeds and
    keeps the invariant. *)
Definition selects I (s : store N) (se : fs_selection) (r : option (fs_status * ptr fs_selection)) : Prop :=
  ∃ st se', r = Some (st, Ptr se') ∧ I s se' ∧ (st ≠ FS_OK → se' = se).

Class FsSpec I : Prop := {
  fs_inv_safe s se : I s se → store_safe s ∧ sel_typed se;
  fs_inv_select_fid s se fid : I s se → selects I s se (fs_select_by_fid s (Ptr se) fid);
  fs_inv_select_child s se fid w : I s se → selects I s se (select_child_typed s (Ptr se) fid w);
  fs_inv_select_parent s se : I s se → selects I s se (fs_select_parent s (Ptr se));
  fs_inv_select_path s se path n m : I s se → bytes path → 0 ≤ n ≤ len path → n < 65536 →
    selects I s se (fs_select_by_path s (Ptr se) (Ptr path) n m);
  fs_inv_write s se i off n b : I s se → is_u16 i → is_u16 off → 0 ≤ n ≤ len b → is_u16 n → bytes b →
    wp (fs_ef_write s i off n (Ptr b)) (λ '(_, s'), I s' se);
  fs_inv_create s se req x : I s se → desc_typed req →
    wp (fs_create_file s (Ptr se) (Ptr req) (Ptr x)) (λ '(_, _, s'), I s' se);
  fs_inv_delete s se fid : I s se →
    ∃ st se' s', fs_delete_file s (Ptr se) fid = Some (st, Ptr se', s') ∧ I s' se' ∧ (st ≠ FS_OK → se' = se);
}.

(** What every handler promises: it answers, keeps the invariant, appends to
    the response within its capacity, and of the kernel changes the selection
    only. *)
Definition handled I (k : scos_kernel) (r : apdu_response) (b : list Z)
    (res : option (Z * ptr scos_kernel * ptr apdu_response * store N)) : Prop :=
  ∃ sw se' r' b' s', res = Some (sw, Ptr (set_sel k se'), Ptr r', s') ∧
    is_u16 sw ∧ I s' se' ∧ rsp_wf r' b' ∧ len b' = len b ∧ bytes b' ∧ r_cap r' = r_cap r.

Class HandlerSpec I (h : scos_cmd_handler N) : Prop :=
  handler_spec k c r b s : I s (k_sel k) → cmd_wf c → rsp_wf r b → bytes b →
    handled I k r b (h (Ptr k) (Ptr c) (Ptr r) s).

(** The common way out: a status word, nothing changed. *)
Lemma handled_refuse I k r b sw s :
  I s (k_sel k) → rsp_wf r b → bytes b → is_u16 sw → handled I k r b (Some (sw, Ptr k, Ptr r, s)).
Proof. intros. exists sw, (k_sel k), r, b, s. rewrite set_sel_same. done. Qed.

(** ** The two invariants *)

Definition safe_inv (s : store N) (se : fs_selection) : Prop := store_safe s ∧ sel_typed se.

Definition card_inv (s : store N) (se : fs_selection) : Prop :=
  store_ok s ∧ tree_inv (view s) ∧ sel_inv (view s) se ∧ sb_synced s.

#[export] Instance safe_inv_spec : FsSpec safe_inv.
Proof.
  split.
  - done.
  - intros s se fid [Hs Hse]. destruct (select_by_fid_total s se fid Hs Hse) as (st & se' & ? & ? & ?).
    by exists st, se'.
  - intros s se fid w [Hs Hse]. destruct (select_child_total s se fid w Hs Hse) as (st & se' & ? & ? & ?).
    by exists st, se'.
  - intros s se [Hs Hse]. destruct (select_parent_total s se Hs Hse) as (st & se' & ? & ? & ?). by exists st, se'.
  - intros s se p n m [Hs Hse] Hb Hn Hn16.
    destruct (select_by_path_total s se p n m Hs Hse Hb Hn Hn16) as (st & se' & ? & ? & ?). by exists st, se'.
  - intros s se i off n b [Hs Hse] Hi _ Hn Hn16 Hb.
    eapply wp_mono; [by apply ef_write_total|]. by intros [st s'] ?.
  - intros s se req x [Hs Hse] Hr. destruct (create_total s se req (Ptr x) Hs Hse Hr) as (st & o & s' & -> & ?).
    done.
  - intros s se fid [Hs Hse]. destruct (delete_total s se fid Hs Hse) as (st & se' & s' & ? & ? & ? & ?).
    by exists st, se', s'.
Qed.

(** UPDATE BINARY on any file, at any offset. *)
Lemma ef_write_inv s se i off n b :
  card_inv s se → is_u16 i → is_u16 off → 0 ≤ n ≤ len b → is_u16 n → bytes b →
  wp (fs_ef_write s i off n (Ptr b)) (λ '(_, s'), card_inv s' se).
Proof.
  intros (Hs & Ht & Hse & Hsy) Hi Hoff Hn Hn16 Hb.
  assert (card_inv s se) as Hinv by done.
  destruct (resolve_view s i Hs Hi) as (st & d & Hr & Hd & Hok).
  destruct (decide (st = FS_OK ∧ fs_is_ef d = true ∧ off + n ≤ d_size d ∧ n ≠ 0)) as [(-> & Hef & Hfit & Hn0)|Hno].
  - destruct (Hok eq_refl) as (Hf & Hus & _). unfold is_u16 in *.
    destruct (ef_write_view s i d off n b Hs Ht Hf Hef Hus) as (s' & -> & Hs' & Hsb & Hsy' & Hsl & _);
      [lia|lia|lia|done|].
    assert (∀ j, file_at (view s') j = file_at (view s) j) as Hfa by (intros j; unfold file_at; by rewrite Hsl).
    split; [done|]. split; [eapply tree_ext; [exact Hfa|cbn; by rewrite Hsb|done]|].
    split; [by apply (sel_ext _ _ _ Hfa)|by apply Hsy'].
  - unfold fs_ef_write. cbn [is_null]. case_if; [done|]. rewrite Hr. bind_simpl.
    case_if; [done|]. case_if; [done|]. case_if; [done|]. exfalso. apply Hno. unfold is_u16 in *.
    rewrite u32_id in * by (unfold is_u32; lia). split; [by apply fs_ok_true|]. split; [done|lia].
Qed.

#[export] Instance card_inv_spec : FsSpec card_inv.
Proof.
  split.
  - intros s se (Hs & Ht & [(d & _ & _ & Hdf) Hef] & _). split; [by apply store_ok_safe|]. split; [done|].
    destruct Hef as [->|(e & _ & _ & _ & ?)]; done.
  - intros s se fid (Hs & Ht & Hse & Hsy). destruct (select_by_fid_inv s se fid Hs Ht Hse) as (st & se' & ? & ? & ?).
    by exists st, se'.
  - intros s se fid w (Hs & Ht & Hse & Hsy).
    destruct (select_child_inv s se fid w Hs Ht Hse) as (st & se' & ? & ? & ?). by exists st, se'.
  - intros s se (Hs & Ht & Hse & Hsy). destruct (select_parent_inv s se Hs Ht Hse) as (st & se' & ? & ? & ?).
    by exists st, se'.
  - intros s se p n m (Hs & Ht & Hse & Hsy) Hb Hn Hn16.
    destruct (select_by_path_view s se p n m Hs Ht Hse Hb Hn Hn16) as (st & se' & ? & ? & ? & _). by exists st, se'.
  - apply ef_write_inv.
  - intros s se req x (Hs & Ht & Hse & Hsy) Hr.
    destruct (create_view s se req x Hs Ht Hse Hr) as (st & o & s' & -> & ? & ? & ? & ? & _). cbn. 
    split_and!; auto.
  - intros s se fid (Hs & Ht & Hse & Hsy).
    destruct (delete_view s se fid Hs Ht Hse) as (st & se' & s' & ? & ? & ? & ? & ? & _ & Hf & _).
    exists st, se', s'. split; [done|]. split; [split_and!; auto|]. intros Hst. by apply Hf.
Qed.

End interfaces.

(** ** A sample: a card fresh from personalisation *)

Definition factory_kernel : scos_kernel := set_sel (set_lifecycle scos_kernel_zero SCOS_LC_OPERATIONAL) root_sel.

#[local] Existing Instance small_config.

Lemma factory_card : card_inv factory_store root_sel.
Proof.
  destruct factory_ok as (_ & Hs & Hsy & Ht & _). split; [exact Hs|]. split; [exact Ht|].
  split; [apply root_sel_ok|exact Hsy].
Qed.

(** A response over a cleared buffer. *)
Definition sample_rsp : apdu_response := ApduResponse (Ptr (local_array SCOS_APDU_RSP_MAX)) SCOS_APDU_RSP_MAX 0 false.

Lemma sample_rsp_wf : rsp_wf sample_rsp (local_array SCOS_APDU_RSP_MAX) ∧ bytes (local_array SCOS_APDU_RSP_MAX).
Proof. split; [constructor; vm_compute; intuition congruence|solve_bytes]. Qed.
