(* ===== verification/CmdSelect.v ===== *)
(** * SELECT (src/filesystem/cmd_select.c) *)

From S2P Require Import Prelude OsMem Sw Apdu Hal SimHal FsTypes FsStore Fs FsTree KernelTypes.

Definition SEL_BY_FID : Z := 0x00.
Definition SEL_CHILD_DF : Z := 0x01.
Definition SEL_CHILD_EF : Z := 0x02.
Definition SEL_PARENT_DF : Z := 0x03.
Definition SEL_BY_DF_NAME : Z := 0x04.
Definition SEL_BY_PATH_FROM_MF : Z := 0x08.
Definition SEL_BY_PATH_FROM_DF : Z := 0x09.

Definition SEL_OCC_MASK : Z := 0x03.
Definition SEL_OCC_FIRST : Z := 0x00.
Definition SEL_RET_MASK : Z := 0x0C.
Definition SEL_RET_FCI : Z := 0x00.
Definition SEL_RET_FCP : Z := 0x04.
Definition SEL_RET_FMD : Z := 0x08.
Definition SEL_RET_NONE : Z := 0x0C.

Definition fs_error_to_sw (st : fs_status) : Z :=
  match st with
  | FS_OK => SW_OK
  | FS_ERR_NOT_FOUND => SW_FILE_NOT_FOUND
  | FS_ERR_NOT_USABLE => SW_CONDITIONS_NOT_SATISFIED
  | FS_ERR_WRONG_TYPE => SW_CMD_INCOMPATIBLE_FILE
  | FS_ERR_RANGE => SW_WRONG_P1P2
  | FS_ERR_PARAM => SW_INCORRECT_P1P2
  | FS_ERR_NO_SPACE => SW_NOT_ENOUGH_SPACE
  | FS_ERR_EXISTS => SW_FILE_ALREADY_EXISTS
  | FS_ERR_CORRUPT | FS_ERR_VERSION | FS_ERR_NOT_FORMATTED => SW_MEMORY_FAILURE
  | FS_ERR_NVM => SW_MEMORY_FAILURE
  end.

Definition scos_fs_error_to_sw (st : fs_status) : Z := fs_error_to_sw st.

(** [(uint16_t)((uint16_t)data[0] << 8 | data[1])]. *)
Definition data_fid (data : list Z) : option Z :=
  hi ← rd data 0; lo ← rd data 1; Some (u16 (Z.lor (Z.shiftl (u16 hi) 8) lo)).

Section select.
Context {N : Type} `{HalNvm N}.

Definition emit_fci (s : store N) (cmd : apdu_command) (rsp : ptr apdu_response) (index ret_opt : Z)
    : option (Z * ptr apdu_response) :=
  if ret_opt =? SEL_RET_NONE then Some (SW_OK, rsp) else
  if ret_opt =? SEL_RET_FMD then Some (SW_FUNC_NOT_SUPPORTED, rsp) else
  '(st, d) ← fs_get s index (Ptr fs_descriptor_zero);
  if negb (fs_ok st) then Some (fs_error_to_sw st, rsp) else
  '(body_len, body) ← fs_build_fcp d (Ptr (local_array 32)) 32;
  if body_len =? 0 then Some (SW_NO_PRECISE_DIAGNOSIS, rsp) else
  let template_tag := if ret_opt =? SEL_RET_FCP then 0x62 else 0x6F in
  if negb (c_le_present cmd) then Some (SW_OK, rsp) else
  let total := u16 (body_len + 2) in
  if c_le cmd <? total then Some (SW_WRONG_LE total, rsp) else
  '(ok, rsp) ← apdu_rsp_put_u8 rsp template_tag;
  if negb ok then Some (SW_NO_PRECISE_DIAGNOSIS, rsp) else
  '(ok, rsp) ← apdu_rsp_put_u8 rsp (u8 body_len);
  if negb ok then Some (SW_NO_PRECISE_DIAGNOSIS, rsp) else
  '(ok, rsp) ← apdu_rsp_put rsp body body_len;
  if negb ok then Some (SW_NO_PRECISE_DIAGNOSIS, rsp) else
  Some (SW_OK, rsp).

(** The [switch] on P1: a status word to answer at once, or the outcome of a
    selection on the copy of the current one. *)
Definition select_by_p1 (s : store N) (sel : fs_selection) (cmd : apdu_command)
    : option (Z + fs_status * ptr fs_selection) :=
  let p1 := c_p1 cmd in
  if p1 =? SEL_BY_FID then
    if c_lc cmd =? 0 then r ← fs_select_by_fid s (Ptr sel) FS_FID_MF; Some (inr r)
    else if c_lc cmd =? 2 then
      match c_data cmd with
      | NULL => Some (inl SW_NO_PRECISE_DIAGNOSIS)
      | Ptr data => fid ← data_fid data; r ← fs_select_by_fid s (Ptr sel) fid; Some (inr r)
      end
    else Some (inl SW_LC_INCONSISTENT_P1P2)
  else if (p1 =? SEL_CHILD_DF) || (p1 =? SEL_CHILD_EF) then
    match c_data cmd with
    | Ptr data =>
        if negb (c_lc cmd =? 2) then Some (inl SW_LC_INCONSISTENT_P1P2) else
        fid ← data_fid data;
        r ← (if p1 =? SEL_CHILD_DF then fs_select_child_df s (Ptr sel) fid
             else fs_select_child_ef s (Ptr sel) fid);
        Some (inr r)
    | NULL => Some (inl SW_LC_INCONSISTENT_P1P2)
    end
  else if p1 =? SEL_PARENT_DF then
    if negb (c_lc cmd =? 0) then Some (inl SW_LC_INCONSISTENT_P1P2) else
    r ← fs_select_parent s (Ptr sel); Some (inr r)
  else if (p1 =? SEL_BY_PATH_FROM_MF) || (p1 =? SEL_BY_PATH_FROM_DF) then
    match c_data cmd with
    | Ptr data =>
        if c_lc cmd =? 0 then Some (inl SW_LC_INCONSISTENT_P1P2) else
        if negb (c_lc cmd mod 2 =? 0) then Some (inl SW_WRONG_DATA) else
        r ← fs_select_by_path s (Ptr sel) (Ptr data) (c_lc cmd) (p1 =? SEL_BY_PATH_FROM_MF);
        Some (inr r)
    | NULL => Some (inl SW_LC_INCONSISTENT_P1P2)
    end
  else if p1 =? SEL_BY_DF_NAME then Some (inl SW_FUNC_NOT_SUPPORTED)
  else Some (inl SW_INCORRECT_P1P2).

Definition scos_cmd_select : scos_cmd_handler N := λ k cmd rsp s,
  match k, cmd, rsp with
  | Ptr k', Ptr c, Ptr _ =>
      if negb (Z.land (c_p2 c) 0xF0 =? 0x00) then Some (SW_INCORRECT_P1P2, k, rsp, s) else
      if negb (Z.land (c_p2 c) SEL_OCC_MASK =? SEL_OCC_FIRST) then Some (SW_FUNC_NOT_SUPPORTED, k, rsp, s) else
      let ret_opt := Z.land (c_p2 c) SEL_RET_MASK in
      r ← select_by_p1 s (k_sel k') c;
      match r with
      | inl sw => Some (sw, k, rsp, s)
      | inr (st, sel) =>
          if negb (fs_ok st) then Some (fs_error_to_sw st, k, rsp, s) else
          let index := fs_selected_index sel in
          '(sw, rsp) ← emit_fci s c rsp index ret_opt;
          if negb (sw =? SW_OK) then Some (sw, k, rsp, s) else
          match sel with
          | Ptr sel => Some (SW_OK, Ptr (set_sel k' sel), rsp, s)
          | NULL => None
          end
      end
  | _, _, _ => Some (SW_NO_PRECISE_DIAGNOSIS, k, rsp, s)
  end.

End select.

(** ** Lemmas *)

Lemma fs_error_to_sw_u16 st : is_u16 (fs_error_to_sw st).
Proof. by destruct st. Qed.

Lemma fs_error_to_sw_ok st : fs_error_to_sw st = SW_OK ↔ st = FS_OK.
Proof. by destruct st. Qed.

#[export] Hint Resolve fs_error_to_sw_u16 : card.

Lemma data_fid_some data :
  bytes data → 2 ≤ len data → ∃ fid, data_fid data = Some fid ∧ is_u16 fid.
Proof.
  intros Hb Hl. unfold data_fid.
  destruct (rd_byte data 0 Hb) as (hi & -> & Hhi); [lia|].
  destruct (rd_byte data 1 Hb) as (lo & -> & Hlo); [lia|]. rd_simpl. eexists. split; [done|apply u16_range].
Qed.

(** Appending a block that fits. *)
Lemma rsp_put_wf r b src n :
  rsp_wf r b → bytes b → bytes src → 0 ≤ n ≤ len src → n < 65536 →
  ∃ ok r' b', apdu_rsp_put (Ptr r) (Ptr src) n = Some (ok, Ptr r') ∧ rsp_wf r' b' ∧ bytes b' ∧
    len b' = len b ∧ r_cap r' = r_cap r.
Proof.
  intros Hr Hb Hsrc Hn Hn16. pose proof Hr as [Hbuf Hcap Hroom Hlen].
  destruct (decide (r_len r + n ≤ r_cap r - 2)) as [Hf|Hf].
  - rewrite (rsp_put_fits r b src n Hr Hn Hf). eexists _, _, _. split; [done|].
    split; [constructor; cbn; [done|done| |lia]; rewrite len_splice; rewrite ?len_slice; lia|].
    split; [auto with card|]. split; [|done]. rewrite len_splice; rewrite ?len_slice; lia.
  - rewrite (rsp_put_overflow r b src n Hr) by lia. exists false, (rsp_set_overflow r), b.
    split; [done|]. split; [by constructor|done].
Qed.

Section select_ok.
Context {N : Type} `{HalNvmSpec N}.
Implicit Types s : store N.

Lemma u8_one x : is_u8 x → bytes [x].
Proof. intros. by apply Forall_singleton. Qed.

Lemma bytes_fcp d : bytes (fcp_bytes d).
Proof.
  assert (∀ x, is_u8 (u8 x)) as Hu by apply u8_range.
  assert (is_u8 (fs_iso_descriptor_byte (Ptr d))).
  { unfold fs_iso_descriptor_byte. case_if; [done|]. by case_if. }
  unfold fcp_bytes, be16. destruct (fs_is_ef d), (negb _); cbn; by repeat (constructor; [done || apply Hu|]).
Qed.

Lemma emit_fci_total s c r b i opt :
  store_safe s → is_u16 i → rsp_wf r b → bytes b →
  ∃ sw r' b', emit_fci s c (Ptr r) i opt = Some (sw, Ptr r') ∧ is_u16 sw ∧ rsp_wf r' b' ∧ len b' = len b ∧
    bytes b' ∧ r_cap r' = r_cap r.
Proof.
  intros Hs Hi Hr Hb. assert (∀ sw, is_u16 sw → ∃ sw0 r' b', Some (sw, Ptr r) = Some (sw0, Ptr r') ∧
    is_u16 sw0 ∧ rsp_wf r' b' ∧ len b' = len b ∧ bytes b' ∧ r_cap r' = r_cap r) as Hout.
  { intros sw ?. by exists sw, r, b. }
  unfold emit_fci. case_if; [by apply Hout|]. case_if; [by apply Hout|]. unfold fs_get.
  destruct (read_desc_total s i fs_descriptor_zero Hs Hi) as (st & d & -> & Hd & _). bind_simpl.
  case_if; [apply Hout; auto with card|]. rewrite build_fcp_eq by (vm_compute; intuition congruence).
  pose proof (len_fcp_bytes d) as Hl. replace (32 <? len (fcp_bytes d)) with false by lia. bind_simpl.
  case_if; [by apply Hout|]. case_if; [by apply Hout|]. case_if; [apply Hout; apply u16_range|].
  unfold apdu_rsp_put_u8.
  assert (is_u8 (if opt =? SEL_RET_FCP then 0x62 else 0x6F)) as Ht by (by case_if).
  destruct (rsp_put_wf r b _ 1 Hr Hb (u8_one _ Ht)) as (ok1 & r1 & b1 & -> & Hr1 & Hb1 & Hl1 & Hc1); [by cbn|done|].
  bind_simpl. case_if; [exists SW_NO_PRECISE_DIAGNOSIS, r1, b1; by rewrite Hl1|].
  destruct (rsp_put_wf r1 b1 _ 1 Hr1 Hb1 (u8_one (u8 (len (fcp_bytes d))) (u8_range _)))
    as (ok2 & r2 & b2 & -> & Hr2 & Hb2 & Hl2 & Hc2); [by cbn|done|].
  bind_simpl. case_if; [exists SW_NO_PRECISE_DIAGNOSIS, r2, b2; split_and!; done || lia|].
  destruct (rsp_put_wf r2 b2 (splice (local_array 32) 0 (fcp_bytes d)) (len (fcp_bytes d)) Hr2 Hb2)
    as (ok3 & r3 & b3 & -> & Hr3 & Hb3 & Hl3 & Hc3);
    [apply bytes_splice; [by apply (bool_decide_unpack _)|apply bytes_fcp]| |lia|].
  { rewrite len_splice; [|lia|unfold local_array; rewrite len_replicate; lia].
    unfold local_array; rewrite len_replicate; lia. }
  bind_simpl. case_if; [exists SW_NO_PRECISE_DIAGNOSIS, r3, b3|exists SW_OK, r3, b3]; split_and!; done || lia.
Qed.

(** The two ways out of the switch. *)
Definition p1_outcome (I : store N → fs_selection → Prop) s (se : fs_selection)
    (r : option (Z + fs_status * ptr fs_selection)) : Prop :=
  (∃ sw, r = Some (inl sw) ∧ is_u16 sw ∧ sw ≠ SW_OK) ∨
  (∃ st se', r = Some (inr (st, Ptr se')) ∧ I s se' ∧ (st ≠ FS_OK → se' = se)).

Lemma select_by_p1_ok I `{!FsSpec I} s se c :
  I s se → cmd_wf c → p1_outcome I s se (select_by_p1 s se c).
Proof.
  intros HI [Hp1 Hp2 Hlc _ Hdata]. unfold APDU_SHORT_LC_MAX in *.
  assert (∀ sw, is_u16 sw → sw ≠ SW_OK → p1_outcome I s se (Some (inl sw))) as Hl by (left; eauto).
  assert (∀ r, selects I s se r → p1_outcome I s se (r' ← r; Some (inr r'))) as Hr.
  { intros r (st & se' & -> & ? & ?). right. by exists st, se'. }
  unfold select_by_p1. case_if.
  { case_if; [apply Hr; by apply fs_inv_select_fid|]. case_if; [|by apply Hl].
    destruct (c_data c) as [|data]; [by apply Hl|]. destruct Hdata as [? Hb].
    destruct (data_fid_some data Hb) as (fid & -> & _); [lia|]. bind_simpl. apply Hr. by apply fs_inv_select_fid. }
  case_if.
  { destruct (c_data c) as [|data]; [by apply Hl|]. case_if; [by apply Hl|]. destruct Hdata as [? Hb].
    destruct (data_fid_some data Hb) as (fid & -> & _); [lia|]. bind_simpl.
    apply Hr. case_if; by apply fs_inv_select_child. }
  case_if; [case_if; [by apply Hl|apply Hr; by apply fs_inv_select_parent]|].
  case_if; [|case_if; by apply Hl].
  destruct (c_data c) as [|data]; [by apply Hl|]. case_if; [by apply Hl|]. case_if; [by apply Hl|].
  destruct Hdata as [? Hb]. apply Hr. apply fs_inv_select_path; [done|done|lia|lia].
Qed.

#[export] Instance select_handler I `{!FsSpec I} : HandlerSpec I scos_cmd_select.
Proof.
  intros k c r b s HI Hc Hr Hb. unfold scos_cmd_select.
  case_if; [by apply handled_refuse|]. case_if; [by apply handled_refuse|].
  destruct (select_by_p1_ok I s (k_sel k) c HI Hc) as [(sw & -> & ? & _)|(st & se' & -> & HI' & _)]; bind_simpl;
    [by apply handled_refuse|].
  case_if; [apply handled_refuse; auto with card|].
  destruct (fs_inv_safe s se' HI') as [Hs [Hdf Hef]].
  destruct (emit_fci_total s c r b (fs_selected_index (Ptr se')) (Z.land (c_p2 c) SEL_RET_MASK) Hs)
    as (sw & r' & b' & -> & Hsw & Hr' & Hl & Hb' & Hcap); [by cbn; case_if|done|done|].
  bind_simpl. case_if.
  - exists sw, (k_sel k), r', b', s. by rewrite set_sel_same.
  - by exists SW_OK, se', r', b', s.
Qed.

End select_ok.

(** ** What SELECT answers *)

(** Appending a block that fits, byte for byte. *)
Lemma rsp_put_bytes r b src n :
  rsp_wf r b → 0 ≤ n ≤ len src → r_len r + n ≤ r_cap r - 2 →
  ∃ r' b', apdu_rsp_put (Ptr r) (Ptr src) n = Some (true, Ptr r') ∧ rsp_wf r' b' ∧ len b' = len b ∧
    response_bytes r' = response_bytes r ++ slice 0 n src ∧ r_len r' = r_len r + n ∧
    r_cap r' = r_cap r ∧ r_overflow r' = r_overflow r.
Proof.
  intros Hr Hn Hf. pose proof Hr as [Hbuf Hcap Hroom Hlen]. rewrite (rsp_put_fits r b src n Hr Hn Hf).
  assert (len (splice b (r_len r) (slice 0 n src)) = len b) as Hl by (rewrite len_splice; rewrite ?len_slice; lia).
  eexists _, _. split; [done|]. split; [by constructor; cbn; rewrite ?Hl; (done || lia)|].
  split; [done|]. split; [|done]. unfold response_bytes. cbn [r_buf r_len]. rewrite Hbuf.
  replace (r_len r + n) with (r_len r + len (slice 0 n src)) at 1 by (rewrite len_slice; lia).
  apply take_splice. rewrite ?len_slice; lia.
Qed.

(** The answer to a successful selection of a file, by response option. *)
Definition fci_sw (c : apdu_command) (opt : Z) (d : fs_descriptor) : Z :=
  if opt =? SEL_RET_NONE then SW_OK else
  if opt =? SEL_RET_FMD then SW_FUNC_NOT_SUPPORTED else
  if negb (c_le_present c) then SW_OK else
  if c_le c <? len (fcp_bytes d) + 2 then SW_WRONG_LE (len (fcp_bytes d) + 2) else SW_OK.

Definition fci_bytes (c : apdu_command) (opt : Z) (d : fs_descriptor) : list Z :=
  if (fci_sw c opt d =? SW_OK) && negb (opt =? SEL_RET_NONE) && c_le_present c
  then [if opt =? SEL_RET_FCP then 0x62 else 0x6F; len (fcp_bytes d)] ++ fcp_bytes d
  else [].

(** ** The file a SELECT names *)

(** A selection that points at file [i]: the file is there and activated; a
    directory becomes the current DF and leaves no current EF, an elementary file
    becomes the current EF of its own directory. *)
Inductive points_at (v : fs_view) (i : Z) : fs_selection → Prop :=
| points_at_df d :
    file_at v i = Some d → d_lifecycle d = FS_LC_ACTIVATED → d_type d = FS_TYPE_MF ∨ d_type d = FS_TYPE_DF →
    points_at v i (FsSelection i FS_INVALID_INDEX)
| points_at_ef d :
    file_at v i = Some d → d_lifecycle d = FS_LC_ACTIVATED → d_type d = FS_TYPE_EF_TRANSPARENT →
    points_at v i (FsSelection (d_parent d) i).

(** The identifiers of a path, two bytes each. *)
Fixpoint components (path : list Z) : option (list Z) :=
  match path with
  | [] => Some []
  | [_] => None
  | hi :: lo :: path => rest ← components path; Some (hi * 256 + lo :: rest)
  end.

(** Down the tree, child by child, through directories. *)
Inductive walks (v : fs_view) : fs_selection → list Z → fs_selection → Prop :=
| walks_end se : walks v se [] se
| walks_step se fid rest i mid se' :
    child_named v (cur_df se) fid i → points_at v i mid → rest = [] ∨ cur_ef mid = FS_INVALID_INDEX →
    walks v mid rest se' → walks v se (fid :: rest) se'.

(** A path from [start]: at most eight components, of which the first may be the
    name of the starting directory itself. *)
Definition follows (v : fs_view) (start : fs_selection) (path : list Z) (se' : fs_selection) : Prop :=
  ∃ fid rest, components path = Some (fid :: rest) ∧ len path ≤ 16 ∧
    ((dir_named v (cur_df start) fid ∧ walks v start rest se') ∨
     (¬ dir_named v (cur_df start) fid ∧ walks v start (fid :: rest) se')).

(** ISO/IEC 7816-4, table 39: from a current selection, P1 and the data field to
    the new selection. *)
Inductive selects (v : fs_view) (se : fs_selection) : Z → list Z → fs_selection → Prop :=
| selects_mf se' : points_at v FS_ROOT_INDEX se' → selects v se 0x00 [] se'
| selects_fid hi lo i se' :
    fid_target v (cur_df se) (hi * 256 + lo) i → points_at v i se' → selects v se 0x00 [hi; lo] se'
| selects_child_df hi lo i :
    child_named v (cur_df se) (hi * 256 + lo) i → points_at v i (FsSelection i FS_INVALID_INDEX) →
    selects v se 0x01 [hi; lo] (FsSelection i FS_INVALID_INDEX)
| selects_child_ef hi lo i :
    child_named v (cur_df se) (hi * 256 + lo) i → points_at v i (FsSelection (cur_df se) i) →
    selects v se 0x02 [hi; lo] (FsSelection (cur_df se) i)
| selects_parent d se' :
    file_at v (cur_df se) = Some d → d_parent d ≠ FS_NO_PARENT → points_at v (d_parent d) se' →
    selects v se 0x03 [] se'
| selects_path_mf path se' :
    follows v (FsSelection FS_ROOT_INDEX FS_INVALID_INDEX) path se' → selects v se 0x08 path se'
| selects_path_df path se' : follows v se path se' → selects v se 0x09 path se'.

Section named.
Context {N : Type} `{HalNvmSpec N}.
Implicit Types s : store N.

Lemma points_at_commit s se i d mid :
  store_ok s → file_at (view s) i = Some d →
  points_at (view s) i mid ↔ fs_is_usable d = true ∧ mid = commit se i d.
Proof.
  intros Hs Hd. destruct (get_desc_file s i d Hs Hd) as [_ [_ Hty _]].
  unfold fs_is_usable, commit. rewrite Z.eqb_eq. unfold fs_is_df, type_ok in *. split.
  - intros [e He Hl [Ht|Ht]|e He Hl Ht]; rewrite Hd in He; injection He as <-; by rewrite Hl, Ht.
  - intros [Hl ->]. destruct (Z.eqb_spec (d_type d) FS_TYPE_DF); [apply (points_at_df _ _ d); auto|].
    destruct (Z.eqb_spec (d_type d) FS_TYPE_MF); [apply (points_at_df _ _ d); auto|].
    destruct (Z.eqb_spec (d_type d) FS_TYPE_EF_TRANSPARENT); [by apply points_at_ef|done].
Qed.

Lemma resolve_file s i d :
  store_ok s → file_at (view s) i = Some d →
  resolve s i = Some (if fs_is_usable d then FS_OK else FS_ERR_NOT_USABLE, d).
Proof.
  intros Hs Hd. destruct (get_desc_file s i d Hs Hd) as [Hg _]. unfold resolve. rewrite Hg. bind_simpl.
  cbn [fs_ok negb]. by destruct (fs_is_usable d).
Qed.

(** *** Each way of selecting, against the file it names *)

Lemma fid_names s se fid se' :
  store_ok s → tree_inv (view s) → sel_inv (view s) se →
  fs_select_by_fid s (Ptr se) fid = Some (FS_OK, Ptr se') ↔
  ∃ i, fid_target (view s) (cur_df se) fid i ∧ points_at (view s) i se'.
Proof.
  intros Hs Ht Hse. destruct (select_by_fid_view s se fid Hs Ht Hse) as [(i & d & Hi & Hd & ->)|(Hno & ->)].
  - split.
    + intros E. exists i. split; [done|]. apply (points_at_commit s se i d); [done|done|].
      destruct (fs_is_usable d); [|done]. split; [done|congruence].
    + intros (j & Hj & Hp). rewrite <- (fid_target_unique s _ _ i j Ht Hi Hj) in Hp.
      apply (points_at_commit s se i d) in Hp as [-> ->]; done.
  - split; [done|]. intros (i & Hi & _). by apply Hno in Hi.
Qed.

Lemma child_names s se fid want_df se' :
  store_ok s → tree_inv (view s) →
  select_child_typed s (Ptr se) fid want_df = Some (FS_OK, Ptr se') ↔
  ∃ i, child_named (view s) (cur_df se) fid i ∧ points_at (view s) i se' ∧
    se' = if want_df then FsSelection i FS_INVALID_INDEX else FsSelection (cur_df se) i.
Proof.
  intros Hs Ht. unfold select_child_typed.
  destruct (find_child_view s (cur_df se) fid FS_INVALID_INDEX Hs) as ([i|] & -> & Hr); bind_simpl.
  2: { split; [done|]. intros (i & Hi & _). by apply Hr in Hi. }
  destruct Hr as (Hi & Hch & _). pose proof Hch as (d & Hd & Hpar & _). rewrite (resolve_file s i d Hs Hd). bind_simpl.
  assert (∀ se', points_at (view s) i se' ↔ fs_is_usable d = true ∧ se' = commit se i d) as Hpa
    by (intros; by apply points_at_commit).
  assert (i ≠ FS_INVALID_INDEX) as Hni by (destruct Hs; unfold max_files, FS_MAX_FILES, FS_INVALID_INDEX in *; lia).
  split.
  - intros E. exists i. split; [done|]. rewrite Hpa. revert E. unfold commit.
    destruct (fs_is_usable d); [|done]. cbn [fs_ok negb]. rewrite Hpar.
    destruct want_df, (fs_is_df d); cbn [eqb negb]; try done; by intros [= <-].
  - intros (j & Hj & Hp & Hse'). rewrite <- (child_named_unique s _ _ i j Ht Hch Hj) in Hp, Hse'.
    apply Hpa in Hp as [-> Hc]. cbn [fs_ok negb]. revert Hc Hse'. unfold commit. rewrite Hpar.
    destruct want_df, (fs_is_df d); cbn [eqb negb]; intros -> [=]; congruence.
Qed.

Lemma parent_names s se se' :
  store_ok s → tree_inv (view s) → sel_inv (view s) se →
  fs_select_parent s (Ptr se) = Some (FS_OK, Ptr se') ↔
  ∃ d, file_at (view s) (cur_df se) = Some d ∧ d_parent d ≠ FS_NO_PARENT ∧ points_at (view s) (d_parent d) se'.
Proof.
  intros Hs Ht [(cd & Hcd & _ & _) _]. unfold fs_select_parent.
  destruct (get_desc_file s _ cd Hs Hcd) as [-> _]. bind_simpl. cbn [fs_ok negb].
  destruct (Z.eqb_spec (d_parent cd) FS_NO_PARENT) as [E|E].
  { split; [done|]. intros (d & Hd & Hn & _). congruence. }
  destruct (ti_parent _ Ht _ _ Hcd) as (p & Hp & _).
  { intros Hr. destruct (ti_root _ Ht) as (r & Hr' & _ & _ & Hpar & _). congruence. }
  rewrite (resolve_file s _ p Hs Hp). bind_simpl.
  assert (points_at (view s) (d_parent cd) se' ↔ fs_is_usable p = true ∧ se' = commit se (d_parent cd) p) as Hpa
    by (by apply points_at_commit).
  split.
  - intros Eq. exists cd. split; [done|]. split; [done|]. rewrite Hpa. destruct (fs_is_usable p); [|done].
    split; [done|]. cbn [fs_ok negb] in Eq. congruence.
  - intros (d & Hd & _ & Hpt). rewrite Hcd in Hd. injection Hd as <-. apply Hpa in Hpt as [-> ->]. done.
Qed.

(** *** Paths *)

Lemma path_fid_skip hi lo path n : 0 ≤ n → path_fid (hi :: lo :: path) (n + 1) = path_fid path n.
Proof.
  intros Hn. unfold path_fid, rd. repeat case_match; try lia.
  replace (Z.to_nat ((n + 1) * 2)) with (S (S (Z.to_nat (n * 2)))) by lia.
  by replace (Z.to_nat ((n + 1) * 2 + 1)) with (S (S (Z.to_nat (n * 2 + 1)))) by lia.
Qed.

Lemma components_take m path :
  (2 * m ≤ length path)%nat → components (take (2 * m) path) = Some (path_fid path <$> seqZ 0 (Z.of_nat m)).
Proof.
  revert path. induction m as [|m IH]; intros path Hl; [done|].
  destruct path as [|hi [|lo path]]; cbn [length] in Hl; [lia..|].
  replace (2 * S m)%nat with (S (S (2 * m))) by lia. cbn [take components]. rewrite IH by lia. bind_simpl.
  rewrite (seqZ_cons 0 (Z.of_nat (S m))) by lia. cbn [fmap list_fmap]. do 2 f_equal.
  replace (Z.pred (Z.of_nat (S m))) with (Z.of_nat m) by lia. rewrite <- (fmap_add_seqZ 1 0), <- list_fmap_compose.
  apply list_fmap_ext. intros i x Hx. apply list_elem_of_lookup_2, elem_of_seqZ in Hx. cbn.
  rewrite Z.add_comm. symmetry. apply path_fid_skip. lia.
Qed.

Lemma components_len path fids : components path = Some fids → len path = 2 * len fids.
Proof.
  remember (length path) as n eqn:Hn. revert path fids Hn. induction n as [n IH] using lt_wf_ind.
  intros [|hi [|lo path]] fids Hn; cbn [components]; [by intros [= <-]|done|].
  intros (rest & Hr & [= <-])%bind_Some. cbn [length] in Hn. rewrite !len_cons, (IH (length path) ltac:(lia) path rest eq_refl Hr). lia.
Qed.

Lemma child_found s p fid i :
  store_ok s → tree_inv (view s) → child_named (view s) p fid i →
  fs_find_child s p fid (Ptr FS_INVALID_INDEX) = Some (FS_OK, Ptr i).
Proof.
  intros Hs Ht Hi. destruct (find_child_view s p fid FS_INVALID_INDEX Hs) as ([j|] & -> & Hr).
  - destruct Hr as (_ & Hj & _). by rewrite (child_named_unique s _ _ _ _ Ht Hi Hj).
  - by apply Hr in Hi.
Qed.

(** One component below the directory reached so far. *)
Lemma step_walks s sc fid rest (last : bool) (K : fs_selection → option (fs_status * fs_selection)) sc' :
  store_ok s → tree_inv (view s) → (last = true ↔ rest = []) →
  (∀ mid, K mid = Some (FS_OK, sc') ↔ walks (view s) mid rest sc') →
  ('(find, index) ← fs_find_child s (cur_df sc) fid (Ptr FS_INVALID_INDEX);
   match find, index with
   | FS_OK, Ptr index =>
       '(st, d) ← resolve s index;
       if negb (fs_ok st) then Some (st, sc) else
       if negb last && negb (fs_is_df d) then Some (FS_ERR_WRONG_TYPE, sc) else K (commit sc index d)
   | _, _ => Some (FS_ERR_NOT_FOUND, sc)
   end) = Some (FS_OK, sc') ↔ walks (view s) sc (fid :: rest) sc'.
Proof.
  intros Hs Ht Hlast HK. destruct (find_child_view s (cur_df sc) fid FS_INVALID_INDEX Hs) as ([i|] & -> & Hr); bind_simpl.
  2: { split; [done|]. inversion 1 as [|? ? ? i mid ? Hi]; subst. by apply Hr in Hi. }
  destruct Hr as (Hi & Hch & _). pose proof Hch as (d & Hd & _). rewrite (resolve_file s i d Hs Hd). bind_simpl.
  assert (∀ mid, points_at (view s) i mid ↔ fs_is_usable d = true ∧ mid = commit sc i d) as Hpa
    by (intros; by apply points_at_commit).
  assert (i ≠ FS_INVALID_INDEX) as Hni by (destruct Hs; unfold max_files, FS_MAX_FILES, FS_INVALID_INDEX in *; lia).
  assert (negb last && negb (fs_is_df d) = false ↔ rest = [] ∨ cur_ef (commit sc i d) = FS_INVALID_INDEX) as Hint.
  { rewrite <- Hlast. unfold commit. destruct last, (fs_is_df d); cbn; intuition congruence. }
  split.
  - destruct (fs_is_usable d) eqn:Hu; [|done]. cbn [fs_ok negb].
    destruct (negb last && negb (fs_is_df d)) eqn:El; [done|]. intros Hp%HK.
    eapply walks_step; [exact Hch|by apply Hpa|by apply Hint|exact Hp].
  - inversion 1 as [|? ? ? j mid ? Hj Hm Hl Hw]; subst. rewrite <- (child_named_unique s _ _ i j Ht Hch Hj) in Hm.
    apply Hpa in Hm as [-> ->]. apply Hint in Hl. cbn [fs_ok negb]. rewrite Hl. by apply HK.
Qed.

(** The components after the first. *)
Lemma path_loop_walks s path steps (m : nat) k sc sc' :
  store_ok s → tree_inv (view s) → bytes path → 1 ≤ k → k + Z.of_nat m = steps → steps * 2 ≤ len path →
  path_loop s path steps (seqZ k (Z.of_nat m)) sc = Some (FS_OK, sc') ↔
  walks (view s) sc (path_fid path <$> seqZ k (Z.of_nat m)) sc'.
Proof.
  intros Hs Ht Hb. revert k sc. induction m as [|m IH]; intros k sc Hk Hkm Hle.
  { rewrite seqZ_nil by lia. cbn. split; [intros [= <-]; constructor|]. by inversion 1. }
  rewrite seqZ_cons by lia. cbn [path_loop fmap list_fmap].
  replace (Z.pred (Z.of_nat (S m))) with (Z.of_nat m) by lia.
  destruct (path_fid_rd path k Hb) as (hi & lo & -> & -> & Hfid); [lia..|]. bind_simpl.
  rewrite Hfid. replace (k =? 0) with false by lia. bind_simpl.
  apply (step_walks s sc _ _ (k + 1 =? steps)); [done|done| |intros mid; apply IH; lia].
  destruct m as [|m]; [rewrite seqZ_nil by lia; cbn; split; [done|lia]|].
  rewrite seqZ_cons by lia. cbn. split; [lia|done].
Qed.

Lemma path_names s se path n (from_mf : bool) se' :
  store_ok s → tree_inv (view s) → sel_inv (view s) se → bytes path → 0 ≤ n ≤ len path → n < 65536 →
  fs_select_by_path s (Ptr se) (Ptr path) n from_mf = Some (FS_OK, Ptr se') ↔
  follows (view s) (if from_mf then FsSelection FS_ROOT_INDEX FS_INVALID_INDEX else se) (slice 0 n path) se'.
Proof.
  intros Hs Ht Hse Hb Hn Hn16. set (start := if from_mf then _ else _).
  assert (sel_inv (view s) start) as [(cd & Hcd & _ & _) _] by (unfold start; destruct from_mf; [by apply sel_reset_inv|done]).
  assert (len (slice 0 n path) = n) as Hls by (apply len_slice; lia). unfold fs_select_by_path, follows. fold start.
  destruct ((n =? 0) || negb (n mod 2 =? 0)) eqn:Ebad.
  { split; [done|]. intros (fid & rest & Hc%components_len & _). rewrite Hls, len_cons in Hc. pose proof (len_nonneg rest). lia. }
  unfold u16, FS_MAX_DEPTH. rewrite (Z.mod_small (n / 2)) by lia. rewrite Hls.
  destruct (Z.ltb_spec 8 (n / 2)); [split; [done|]; intros (fid & rest & _ & Hd & _); lia|].
  assert (2 ≤ n ∧ n mod 2 = 0) as [Hn2 Hneven] by lia.
  set (m := Z.to_nat (n / 2 - 1)). unfold upto.
  assert (seqZ 0 (n / 2) = 0 :: seqZ 1 (Z.of_nat m)) as Hsq by (rewrite (seqZ_cons 0 (n / 2)) by lia; f_equal; f_equal; lia).
  set (first := path_fid path 0). set (others := path_fid path <$> seqZ 1 (Z.of_nat m)).
  assert (components (slice 0 n path) = Some (first :: others)) as Hcomp.
  { unfold slice. change (drop (Z.to_nat 0) path) with path. replace (Z.to_nat n) with (2 * Z.to_nat (n / 2))%nat by lia.
    rewrite components_take by (unfold len in Hn; lia). rewrite Z2Nat.id by lia. by rewrite Hsq. }
  assert (∀ sc, path_loop s path (n / 2) (seqZ 1 (Z.of_nat m)) sc = Some (FS_OK, se') ↔ walks (view s) sc others se') as Hloop
    by (intros sc; apply path_loop_walks; done || lia).
  transitivity ((dir_named (view s) (cur_df start) first ∧ walks (view s) start others se') ∨
    (¬ dir_named (view s) (cur_df start) first ∧ walks (view s) start (first :: others) se')).
  2: { split; [intros ?; exists first, others; split; [done|]; by split; [lia|]|].
       intros (fid & rest & E & _ & ?). rewrite Hcomp in E. by injection E as <- <-. }
  rewrite Hsq. cbn [path_loop]. destruct (path_fid_rd path 0 Hb) as (hi & lo & Hhi & Hlo & Hfid); [lia..|].
  cbn [Z.mul Z.add] in Hhi, Hlo |- *. rewrite Hhi, Hlo. bind_simpl. rewrite Hfid. fold first. cbn [Z.eqb].
  destruct (get_desc_file s _ cd Hs Hcd) as [-> _]. bind_simpl. cbn [fs_ok andb].
  assert (∀ r : option (fs_status * fs_selection),
    ('(st, sc) ← r; if negb (fs_ok st) then Some (st, Ptr se) else Some (FS_OK, Ptr sc)) = Some (FS_OK, Ptr se') ↔
    r = Some (FS_OK, se')) as Hend.
  { intros [[st sc]|]; bind_simpl; [|done]. destruct st; cbn; intuition congruence. }
  rewrite Hend. destruct (Z.eqb_spec (d_file_id cd) first) as [E|E]; bind_simpl.
  - rewrite Hloop. split; [left; split; [by exists cd|done]|]. intros [[_ ?]|[Hno _]]; [done|]. destruct Hno. by exists cd.
  - rewrite (step_walks s start first others (1 =? n / 2)); [|done|done| |exact Hloop].
    + split; [right; split; [|done]; intros (d & Hd & ?); congruence|].
      intros [[(d & Hd & ?) _]|[_ ?]]; [congruence|done].
    + destruct (decide (n / 2 = 1)) as [E1|E1].
      * unfold others, m. by rewrite E1.
      * unfold others. rewrite (seqZ_cons 1) by (unfold m; lia). cbn [fmap list_fmap]. split; [lia|done].
Qed.

(** *** The command *)

(** The data field of a command. *)
Definition data_field (c : apdu_command) : list Z :=
  match c_data c with NULL => [] | Ptr d => slice 0 (c_lc c) d end.

Lemma data_field_len c : cmd_wf c → len (data_field c) = c_lc c.
Proof. intros [_ _ _ _ Hd]. unfold data_field. destruct (c_data c) as [|d]; [by rewrite Hd|]. apply len_slice; lia. Qed.

Lemma data_field_nil c : cmd_wf c → c_lc c = 0 → data_field c = [].
Proof. intros Hc Hl. pose proof (data_field_len c Hc) as E. rewrite Hl in E.
  destruct (data_field c) as [|x l]; [done|]. rewrite len_cons in E. pose proof (len_nonneg l). lia.
Qed.

(** Two bytes of data are an identifier. *)
Lemma data_field_fid c :
  cmd_wf c → c_lc c = 2 →
  ∃ d hi lo, c_data c = Ptr d ∧ data_field c = [hi; lo] ∧ data_fid d = Some (hi * 256 + lo).
Proof.
  intros [_ _ _ _ Hd] Hl. unfold data_field. rewrite Hl in *. destruct (c_data c) as [|d]; [done|].
  destruct Hd as [Hle Hb]. destruct d as [|hi [|lo d]]; [unfold len in Hle; cbn in Hle; lia..|]. exists (hi :: lo :: d), hi, lo.
  split; [done|]. split; [done|]. apply bytes_cons in Hb as [Hhi [Hlo _]%bytes_cons]. unfold data_fid.
  change (rd (hi :: lo :: d) 0) with (Some hi). change (rd (hi :: lo :: d) 1) with (Some lo). bind_simpl. unfold is_u8 in *. rewrite (u16_id hi) by (unfold is_u16; lia). rewrite lor_shiftl_add by (change (2 ^ 8) with 256; lia).
  change (2 ^ 8) with 256. by rewrite u16_id by (unfold is_u16; lia).
Qed.

(** The outcomes of the switch that are a selection. *)
Lemma selection_made (r : option (fs_status * ptr fs_selection)) se' :
  (r' ← r; Some (inr r' : Z + fs_status * ptr fs_selection)) = Some (inr (FS_OK, Ptr se')) ↔ r = Some (FS_OK, Ptr se').
Proof. destruct r as [[st p]|]; bind_simpl; [|done]. split; congruence. Qed.

(** For a given P1, the switch and the relation agree. *)
Definition p1_agrees s se c : Prop :=
  ∀ se', select_by_p1 s se c = Some (inr (FS_OK, Ptr se')) ↔ selects (view s) se (c_p1 c) (data_field c) se'.

#[local] Ltac wrong_length Hlen := split; [done|]; inversion 1; subst; unfold len in Hlen; cbn in Hlen; lia.

Lemma p1_fid_agrees s se c :
  store_ok s → tree_inv (view s) → sel_inv (view s) se → cmd_wf c → c_p1 c = SEL_BY_FID → p1_agrees s se c.
Proof.
  intros Hs Ht Hse Hc E se'. pose proof (data_field_len c Hc) as Hlen. pose proof (data_field_fid c Hc) as Hfid.
  pose proof (data_field_nil c Hc) as Hnil. unfold select_by_p1. rewrite E. cbn [Z.eqb SEL_BY_FID].
  generalize dependent (data_field c). intros D Hlen Hfid Hnil.
  destruct (Z.eqb_spec (c_lc c) 0) as [E0|E0].
  - rewrite selection_made, (fid_names s se _ se' Hs Ht Hse), (Hnil E0). split.
    + intros (i & [[_ ->]|[? _]] & Hp); [by apply selects_mf|done].
    + inversion 1; subst. exists FS_ROOT_INDEX. split; [by left|done].
  - destruct (Z.eqb_spec (c_lc c) 2) as [E2|E2]; [|wrong_length Hlen].
    destruct (Hfid E2) as (d & hi & lo & -> & -> & ->). bind_simpl.
    rewrite selection_made, (fid_names s se _ se' Hs Ht Hse). split.
    + intros (i & Hi & Hp). by eapply selects_fid.
    + inversion 1; subst. eauto.
Qed.

Lemma p1_child_agrees s se c :
  store_ok s → tree_inv (view s) → cmd_wf c → c_p1 c = SEL_CHILD_DF ∨ c_p1 c = SEL_CHILD_EF → p1_agrees s se c.
Proof.
  intros Hs Ht Hc E se'. pose proof (data_field_len c Hc) as Hlen. pose proof (data_field_fid c Hc) as Hfid.
  unfold select_by_p1, fs_select_child_df, fs_select_child_ef. generalize dependent (data_field c). intros D Hlen Hfid.
  destruct (Z.eqb_spec (c_lc c) 2) as [E2|E2]; cbn [negb].
  - destruct (Hfid E2) as (d & hi & lo & -> & -> & ->). bind_simpl.
    destruct E as [-> | ->]; cbn [Z.eqb Pos.eqb SEL_BY_FID SEL_CHILD_DF SEL_CHILD_EF orb];
      rewrite selection_made, (child_names s se _ _ se' Hs Ht); split.
    + intros (i & Hi & Hp & ->). by apply selects_child_df.
    + inversion 1; subst. eauto.
    + intros (i & Hi & Hp & ->). by apply selects_child_ef.
    + inversion 1; subst. eauto.
  - destruct E as [-> | ->]; cbn [Z.eqb Pos.eqb SEL_BY_FID SEL_CHILD_DF SEL_CHILD_EF orb]; destruct (c_data c); wrong_length Hlen.
Qed.

Lemma p1_parent_agrees s se c :
  store_ok s → tree_inv (view s) → sel_inv (view s) se → cmd_wf c → c_p1 c = SEL_PARENT_DF → p1_agrees s se c.
Proof.
  intros Hs Ht Hse Hc E se'. pose proof (data_field_len c Hc) as Hlen. pose proof (data_field_nil c Hc) as Hnil.
  unfold select_by_p1. rewrite E. cbn [Z.eqb Pos.eqb SEL_BY_FID SEL_CHILD_DF SEL_CHILD_EF SEL_PARENT_DF orb].
  generalize dependent (data_field c). intros D Hlen Hnil.
  destruct (Z.eqb_spec (c_lc c) 0) as [E0|E0]; cbn [negb]; [|wrong_length Hlen].
  rewrite selection_made, (parent_names s se se' Hs Ht Hse), (Hnil E0). split.
  - intros (d & Hd & Hn & Hp). by eapply selects_parent.
  - inversion 1; subst. eauto.
Qed.

Lemma p1_path_agrees s se c :
  store_ok s → tree_inv (view s) → sel_inv (view s) se → cmd_wf c →
  c_p1 c = SEL_BY_PATH_FROM_MF ∨ c_p1 c = SEL_BY_PATH_FROM_DF → p1_agrees s se c.
Proof.
  intros Hs Ht Hse Hc E se'. pose proof (data_field_len c Hc) as Hlen.
  set (start := if c_p1 c =? SEL_BY_PATH_FROM_MF then FsSelection FS_ROOT_INDEX FS_INVALID_INDEX else se).
  transitivity (follows (view s) start (data_field c) se').
  2: { unfold start. destruct E as [-> | ->]; (split; [|by inversion 1]); [apply selects_path_mf|apply selects_path_df]. }
  assert (follows (view s) start (data_field c) se' → c_lc c ≠ 0 ∧ c_lc c mod 2 = 0) as Heven.
  { intros (fid & rest & Hcomp%components_len & _). rewrite Hlen, len_cons in Hcomp. pose proof (len_nonneg rest). lia. }
  destruct Hc as [_ _ Hlc _ Hd]. unfold data_field in *. unfold APDU_SHORT_LC_MAX in Hlc. unfold select_by_p1, start in *.
  destruct E as [E|E]; rewrite E in *;
    cbn [Z.eqb Pos.eqb SEL_BY_FID SEL_CHILD_DF SEL_CHILD_EF SEL_PARENT_DF SEL_BY_PATH_FROM_MF SEL_BY_PATH_FROM_DF orb] in *.
  all: destruct (c_data c) as [|d]; [split; [done|]; intros [? _]%Heven; lia|].
  all: destruct (Z.eqb_spec (c_lc c) 0) as [E0|E0]; [lia|].
  all: destruct (Z.eqb_spec (c_lc c mod 2) 0) as [E2|E2]; cbn [negb]; [|split; [done|]; by intros [_ ?]%Heven].
  all: rewrite selection_made; destruct Hd.
  - apply (path_names s se d (c_lc c) true); done || lia.
  - apply (path_names s se d (c_lc c) false); done || lia.
Qed.

Lemma select_by_p1_names s se c se' :
  store_ok s → tree_inv (view s) → sel_inv (view s) se → cmd_wf c →
  select_by_p1 s se c = Some (inr (FS_OK, Ptr se')) ↔ selects (view s) se (c_p1 c) (data_field c) se'.
Proof.
  intros Hs Ht Hse Hc. revert se'. change (p1_agrees s se c).
  destruct (decide (c_p1 c = SEL_BY_FID)); [by apply p1_fid_agrees|].
  destruct (decide (c_p1 c = SEL_CHILD_DF)); [apply p1_child_agrees; auto|].
  destruct (decide (c_p1 c = SEL_CHILD_EF)); [apply p1_child_agrees; auto|].
  destruct (decide (c_p1 c = SEL_PARENT_DF)); [by apply p1_parent_agrees|].
  destruct (decide (c_p1 c = SEL_BY_PATH_FROM_MF)); [apply p1_path_agrees; auto|].
  destruct (decide (c_p1 c = SEL_BY_PATH_FROM_DF)); [apply p1_path_agrees; auto|].
  intros se'. unfold select_by_p1. repeat (rewrite (proj2 (Z.eqb_neq (c_p1 c) _)) by done).
  cbn [orb]. split; [by case_if|].
  unfold SEL_BY_FID, SEL_CHILD_DF, SEL_CHILD_EF, SEL_PARENT_DF, SEL_BY_PATH_FROM_MF, SEL_BY_PATH_FROM_DF in *.
  inversion 1; lia.
Qed.

(** P2 in eight bits: the first occurrence, and one of the four answers. *)
Definition p2_served (p2 : Z) : Prop := p2 ∈ [0x00; 0x04; 0x08; 0x0C].

Lemma p2_cases p2 :
  is_u8 p2 →
  if (Z.land p2 0xF0 =? 0x00) && (Z.land p2 SEL_OCC_MASK =? SEL_OCC_FIRST)
  then p2_served p2 ∧ Z.land p2 SEL_RET_MASK = p2 else ¬ p2_served p2.
Proof.
  intros Hp.
  assert (forallb (λ p2, if (Z.land p2 0xF0 =? 0x00) && (Z.land p2 SEL_OCC_MASK =? SEL_OCC_FIRST)
    then bool_decide (p2 ∈ [0x00; 0x04; 0x08; 0x0C]) && (Z.land p2 SEL_RET_MASK =? p2)
    else bool_decide (p2 ∉ [0x00; 0x04; 0x08; 0x0C])) (seqZ 0 256) = true) as Hall by (vm_compute; reflexivity).
  rewrite forallb_forall in Hall. specialize (Hall p2 ltac:(apply list_elem_of_In, elem_of_seqZ; unfold is_u8 in Hp; lia)).
  cbn beta in Hall. destruct (_ && (_ =? SEL_OCC_FIRST)).
  - apply andb_true_iff in Hall as [?%bool_decide_eq_true ?]. by split; [|apply Z.eqb_eq].
  - by apply bool_decide_eq_true in Hall.
Qed.

End named.

Section select_view.
Context {N : Type} `{HalNvmSpec N}.
Implicit Types s : store N.

Lemma emit_fci_view s c r b i opt d :
  store_ok s → file_at (view s) i = Some d → rsp_wf r b → bytes b → r_len r = 0 → 21 ≤ r_cap r →
  r_overflow r = false →
  ∃ r' b', emit_fci s c (Ptr r) i opt = Some (fci_sw c opt d, Ptr r') ∧ rsp_wf r' b' ∧ r_cap r' = r_cap r ∧
    r_overflow r' = false ∧ response_bytes r' = fci_bytes c opt d.
Proof.
  intros Hs Hd Hr Hb Hl0 Hcap Hov.
  assert (response_bytes r = []) as Hnil by (unfold response_bytes; by destruct (r_buf r); rewrite ?Hl0).
  assert (fs_get s i (Ptr fs_descriptor_zero) = Some (FS_OK, Ptr d)) as Hget.
  { destruct (get_desc_file s i d Hs Hd) as [Hg _]. revert Hg. unfold get_desc, fs_get.
    destruct (fs_store_read_desc _ _ _) as [[? [|?]]|]; bind_simpl; [done| |done]. by intros [= -> ->]. }
  pose proof (len_fcp_bytes d) as Hlen. unfold emit_fci, fci_bytes, fci_sw.
  destruct (opt =? SEL_RET_NONE) eqn:E1; [by exists r, b|].
  destruct (opt =? SEL_RET_FMD) eqn:E2; [by exists r, b|].
  rewrite Hget. bind_simpl. cbn [fs_ok negb]. rewrite build_fcp_eq by (vm_compute; intuition congruence).
  replace (32 <? len (fcp_bytes d)) with false by lia. bind_simpl.
  replace (len (fcp_bytes d) =? 0) with false by lia.
  destruct (c_le_present c) eqn:E3; cbn [negb andb]; [|by exists r, b].
  rewrite u16_id by (unfold is_u16; lia).
  destruct (c_le c <? len (fcp_bytes d) + 2) eqn:E4.
  { exists r, b. replace (SW_WRONG_LE (len (fcp_bytes d) + 2) =? SW_OK) with false; [done|].
    assert (∀ x, x ∈ seqZ 12 8 → (SW_WRONG_LE x =? SW_OK) = false) as Hall
      by (apply Forall_forall, (bool_decide_unpack _); vm_compute; exact I).
    symmetry. apply Hall, elem_of_seqZ. lia. }
  unfold apdu_rsp_put_u8. rewrite u8_id by (unfold is_u8; lia).
  destruct (rsp_put_bytes r b [if opt =? SEL_RET_FCP then 0x62 else 0x6F] 1 Hr)
    as (r1 & b1 & -> & Hr1 & Hl1 & Hp1 & Hn1 & Hc1 & Ho1); [by cbn|lia|]. bind_simpl. cbn [negb].
  destruct (rsp_put_bytes r1 b1 [len (fcp_bytes d)] 1 Hr1)
    as (r2 & b2 & -> & Hr2 & Hl2 & Hp2 & Hn2 & Hc2 & Ho2); [by cbn|lia|]. bind_simpl. cbn [negb].
  assert (len (local_array 32) = 32) as H32 by done.
  destruct (rsp_put_bytes r2 b2 (splice (local_array 32) 0 (fcp_bytes d)) (len (fcp_bytes d)) Hr2)
    as (r3 & b3 & -> & Hr3 & Hl3 & Hp3 & Hn3 & Hc3 & Ho3); [rewrite len_splice; lia|lia|]. bind_simpl. cbn [negb].
  exists r3, b3. split; [done|]. split; [done|]. split; [congruence|]. split; [congruence|].
  rewrite Hp3, Hp2, Hp1, Hnil, slice_splice_same by lia. done.
Qed.

Lemma selected_file v se :
  sel_inv v se → ∃ d, file_at v (fs_selected_index (Ptr se)) = Some d.
Proof.
  intros [(d & Hd & _) Hef]. cbn [fs_selected_index]. case_if; [|eauto].
  destruct Hef as [He|(e & He & _)]; [by rewrite He in *|eauto].
Qed.

(** The file a selection ends at: the current EF, or else the current DF. *)
Definition selected (se : fs_selection) : Z := if decide (cur_ef se = FS_INVALID_INDEX) then cur_df se else cur_ef se.

(** What the reader sees of a SELECT. *)
Definition select_answered s (k : scos_kernel) (c : apdu_command)
    (res : option (Z * ptr scos_kernel * ptr apdu_response * store N)) : Prop :=
  ∃ sw se' r' b', res = Some (sw, Ptr (set_sel k se'), Ptr r', s) ∧
    card_inv s se' ∧ rsp_wf r' b' ∧ r_overflow r' = false ∧
    (sw ≠ SW_OK → se' = k_sel k ∧ response_bytes r' = []) ∧
    (sw = SW_OK → p2_served (c_p2 c) ∧ selects (view s) (k_sel k) (c_p1 c) (data_field c) se') ∧
    (∀ named, p2_served (c_p2 c) → selects (view s) (k_sel k) (c_p1 c) (data_field c) named →
       ∃ d, file_at (view s) (selected named) = Some d ∧ sw = fci_sw c (c_p2 c) d ∧
         (sw = SW_OK → se' = named ∧ response_bytes r' = fci_bytes c (c_p2 c) d)).

Lemma select_view s k c r b :
  card_inv s (k_sel k) → cmd_wf c → rsp_wf r b → bytes b → r_len r = 0 → 21 ≤ r_cap r → r_overflow r = false →
  select_answered s k c (scos_cmd_select (Ptr k) (Ptr c) (Ptr r) s).
Proof.
  intros HI Hc Hr Hb Hl0 Hcap Hov. pose proof HI as (Hs & Ht & Hse & _).
  assert (response_bytes r = []) as Hnil by (unfold response_bytes; by destruct (r_buf r); rewrite ?Hl0).
  assert (∀ sw, sw ≠ SW_OK → (p2_served (c_p2 c) → ∀ se', ¬ selects (view s) (k_sel k) (c_p1 c) (data_field c) se') →
    select_answered s k c (Some (sw, Ptr k, Ptr r, s))) as Hout.
  { intros sw Hsw Hno. exists sw, (k_sel k), r, b. rewrite set_sel_same. split_and!; try done.
    intros se' Hp2 Hsel. by destruct (Hno Hp2 se'). }
  pose proof (p2_cases (c_p2 c) (cw_p2 _ Hc)) as Hp2. unfold scos_cmd_select.
  destruct (Z.land (c_p2 c) 0xF0 =? 0x00); cbn [negb andb] in Hp2 |- *; [|by apply Hout].
  destruct (Z.land (c_p2 c) SEL_OCC_MASK =? SEL_OCC_FIRST); cbn [negb] in Hp2 |- *; [|by apply Hout].
  destruct Hp2 as [Hp2 ->].
  pose proof (λ se', select_by_p1_names s (k_sel k) c se' Hs Ht Hse Hc) as Hnames.
  destruct (select_by_p1_ok card_inv s (k_sel k) c HI Hc) as [(sw & Hp & _ & ?)|(st & se' & Hp & HI' & _)];
    rewrite Hp in Hnames |- *; bind_simpl.
  { apply Hout; [done|]. intros _ se' Hsel. by apply Hnames in Hsel. }
  destruct (fs_ok st) eqn:Est; cbn [negb].
  2: { apply Hout; [rewrite fs_error_to_sw_ok; by intros ->|]. intros _ se2 Hsel. apply Hnames in Hsel. by simplify_eq. }
  apply fs_ok_true in Est as ->. destruct (selected_file (view s) se') as (d & Hd); [apply HI'|].
  destruct (emit_fci_view s c r b _ (c_p2 c) d Hs Hd Hr Hb Hl0 Hcap Hov) as (r' & b' & -> & Hr' & _ & Hov' & Hby). bind_simpl.
  assert (selects (view s) (k_sel k) (c_p1 c) (data_field c) se') as Hsel by (by apply Hnames).
  assert (∀ named, selects (view s) (k_sel k) (c_p1 c) (data_field c) named → named = se') as Hu
    by (intros named Hn%Hnames; by simplify_eq).
  assert (file_at (view s) (selected se') = Some d) as Hd'.
  { rewrite <- Hd. unfold selected, fs_selected_index. case_decide as E; [by rewrite E|]. by rewrite (proj2 (Z.eqb_neq _ _) E). }
  case_if.
  - exists (fci_sw c (c_p2 c) d), (k_sel k), r', b'. rewrite set_sel_same.
    assert (response_bytes r' = []) as Hempty
      by (rewrite Hby; unfold fci_bytes; by replace (fci_sw _ _ _ =? SW_OK) with false by lia).
    split_and!; try done. intros named _ Hn. apply Hu in Hn as ->. by exists d.
  - exists SW_OK, se', r', b'. split_and!; try done. intros named _ Hn. apply Hu in Hn as ->. by exists d.
Qed.

End select_view.


#[local] Existing Instance small_config.

(** SELECT 7F10 by identifier, FCP requested, Le = 256. *)
Definition sample_select : apdu_command := parsed_command 0 0xA4 0x00 0x04 [0x7F; 0x10] (Some 256).

Lemma sample_select_wf : cmd_wf sample_select.
Proof. constructor; vm_compute; intuition (try congruence). all: apply (bool_decide_unpack _); vm_compute; exact I. Qed.


Definition select_sample (p1 : Z) (data : list Z) : apdu_command := parsed_command 0 0xA4 p1 0x04 data None.

Lemma factory_select p1 data se :
  cmd_wf (select_sample p1 data) →
  select_by_p1 factory_store root_sel (select_sample p1 data) = Some (inr (FS_OK, Ptr se)) ↔
  selects (view factory_store) root_sel p1 (data_field (select_sample p1 data)) se.
Proof. apply (select_by_p1_names factory_store root_sel (select_sample p1 data)); [apply factory_ok..|apply root_sel_ok]. Qed.

#[local] Ltac select_wf := constructor; vm_compute; intuition (try congruence); apply (bool_decide_unpack _); vm_compute; exact I.
#[local] Ltac named p1 data := apply (factory_select p1 data); [select_wf|vm_compute; reflexivity].
#[local] Ltac not_named p1 data :=
  let H := fresh in intros se H; apply (factory_select p1 data) in H; [vm_compute in H; discriminate|select_wf].

(** On the factory card, from the MF: 7F10 by identifier and as a child DF, 2F00 as
    a child EF, and the EF 6F01 of the application at the end of a path; 2F00 is no
    DF, and the bytes of an identifier do not commute. *)
Example factory_names :
  selects (view factory_store) root_sel 0x00 [0x7F; 0x10] (FsSelection 2 FS_INVALID_INDEX) ∧
  selects (view factory_store) root_sel 0x01 [0x7F; 0x10] (FsSelection 2 FS_INVALID_INDEX) ∧
  selects (view factory_store) root_sel 0x02 [0x2F; 0x00] (FsSelection 0 1) ∧
  selects (view factory_store) root_sel 0x08 [0x3F; 0x00; 0x7F; 0x10; 0x6F; 0x01] (FsSelection 2 3) ∧
  (∀ se, ¬ selects (view factory_store) root_sel 0x01 [0x2F; 0x00] se) ∧
  (∀ se, ¬ selects (view factory_store) root_sel 0x02 [0x00; 0x2F] se).
Proof.
  split_and!.
  - named 0x00 [0x7F; 0x10].
  - named 0x01 [0x7F; 0x10].
  - named 0x02 [0x2F; 0x00].
  - named 0x08 [0x3F; 0x00; 0x7F; 0x10; 0x6F; 0x01].
  - not_named 0x01 [0x2F; 0x00].
  - not_named 0x02 [0x00; 0x2F].
Qed.
