(* ===== verification/CmdBinary.v ===== *)
(** * READ BINARY and UPDATE BINARY (src/filesystem/cmd_binary.c) *)

From S2P Require Import Prelude OsMem Sw Apdu Hal SimHal FsTypes FsStore Fs FsTree KernelTypes CmdSelect.

Definition P1_SFI_FLAG : Z := 0x80.
Definition P1_SFI_MASK : Z := 0x1F.
Definition P1_SFI_RFU : Z := 0x60.

Section binary.
Context {N : Type} `{HalNvm N}.

(** The status word, the file index and the offset. *)
Definition resolve_target (s : store N) (k : scos_kernel) (p1 p2 : Z) : option (Z * Z * Z) :=
  if negb (Z.land p1 P1_SFI_FLAG =? 0) then
    if negb (Z.land p1 P1_SFI_RFU =? 0) then Some (SW_INCORRECT_P1P2, FS_INVALID_INDEX, 0) else
    let sfi := u8 (Z.land p1 P1_SFI_MASK) in
    if sfi =? 0 then Some (SW_INCORRECT_P1P2, FS_INVALID_INDEX, 0) else
    '(st, index) ← fs_find_by_sfi s (cur_df (k_sel k)) sfi (Ptr FS_INVALID_INDEX);
    match index with
    | NULL => None
    | Ptr index =>
        if negb (fs_ok st) then Some (scos_fs_error_to_sw st, FS_INVALID_INDEX, 0) else
        Some (SW_OK, index, u16 p2)
    end
  else
    if cur_ef (k_sel k) =? FS_INVALID_INDEX then Some (SW_COMMAND_NOT_ALLOWED_NO_EF, FS_INVALID_INDEX, 0) else
    Some (SW_OK, cur_ef (k_sel k), u16 (Z.lor (Z.shiftl (u16 p1) 8) (u16 p2))).

Definition scos_cmd_read_binary : scos_cmd_handler N := λ k cmd rsp s,
  match k, cmd, rsp with
  | Ptr k', Ptr c, Ptr _ =>
      if negb (c_lc c =? 0) then Some (SW_LC_INCONSISTENT_P1P2, k, rsp, s) else
      if negb (c_le_present c) then Some (SW_WRONG_LENGTH, k, rsp, s) else
      '(rsw, index, offset) ← resolve_target s k' (c_p1 c) (c_p2 c);
      if negb (rsw =? SW_OK) then Some (rsw, k, rsp, s) else
      if APDU_SHORT_LE_MAX <? c_le c then Some (SW_NO_PRECISE_DIAGNOSIS, k, rsp, s) else
      '(st, buf, got) ← fs_ef_read s index offset (c_le c) (Ptr (local_array APDU_SHORT_LE_MAX)) (Ptr 0);
      if negb (fs_ok st) then Some (scos_fs_error_to_sw st, k, rsp, s) else
      match got with
      | NULL => None
      | Ptr got =>
          '(ok, rsp) ← apdu_rsp_put rsp buf got;
          if negb ok then Some (SW_NO_PRECISE_DIAGNOSIS, k, rsp, s) else
          if got <? c_le c then Some (SW_NVM_UNCHANGED_EOF, k, rsp, s) else
          Some (SW_OK, k, rsp, s)
      end
  | _, _, _ => Some (SW_NO_PRECISE_DIAGNOSIS, k, rsp, s)
  end.

Definition scos_cmd_update_binary : scos_cmd_handler N := λ k cmd rsp s,
  match k, cmd, rsp with
  | Ptr k', Ptr c, Ptr _ =>
      if (c_lc c =? 0) || is_null (c_data c) then Some (SW_WRONG_LENGTH, k, rsp, s) else
      if c_le_present c then Some (SW_WRONG_LENGTH, k, rsp, s) else
      '(rsw, index, offset) ← resolve_target s k' (c_p1 c) (c_p2 c);
      if negb (rsw =? SW_OK) then Some (rsw, k, rsp, s) else
      '(st, s) ← fs_ef_write s index offset (c_lc c) (c_data c);
      if negb (fs_ok st) then Some (scos_fs_error_to_sw st, k, rsp, s) else
      Some (SW_OK, k, rsp, s)
  | _, _, _ => Some (SW_NO_PRECISE_DIAGNOSIS, k, rsp, s)
  end.

End binary.

(** ** The handlers keep their promise *)

Section binary_ok.
Context {N : Type} `{HalNvmSpec N}.
Implicit Types s : store N.

Lemma resolve_target_total s k p1 p2 :
  store_safe s → sel_typed (k_sel k) →
  ∃ sw i off, resolve_target s k p1 p2 = Some (sw, i, off) ∧ is_u16 sw ∧ is_u16 i ∧ is_u16 off.
Proof.
  intros Hs [Hdf Hef]. unfold resolve_target. case_if.
  - case_if; [by eexists _, _, _|]. case_if; [by eexists _, _, _|].
    destruct (find_by_sfi_total s (cur_df (k_sel k)) (u8 (Z.land p1 P1_SFI_MASK)) FS_INVALID_INDEX Hs)
      as (st & i & -> & Hi). bind_simpl.
    case_if; eexists _, _, _; (split; [done|]); split_and!; unfold scos_fs_error_to_sw; auto with card; done.
  - case_if; eexists _, _, _; (split; [done|]); split_and!; auto with card; done.
Qed.

#[export] Instance read_binary_handler I `{!FsSpec I} : HandlerSpec I scos_cmd_read_binary.
Proof.
  intros k c r b s HI [_ _ Hlc Hle _] Hr Hb. destruct (fs_inv_safe s _ HI) as [Hs Hse].
  unfold scos_cmd_read_binary. case_if; [by apply handled_refuse|]. case_if; [by apply handled_refuse|].
  destruct (resolve_target_total s k (c_p1 c) (c_p2 c) Hs Hse) as (sw & i & off & -> & Hsw & Hi & Hoff).
  bind_simpl. case_if; [by apply handled_refuse|]. case_if; [by apply handled_refuse|].
  unfold APDU_SHORT_LE_MAX in *.
  destruct (ef_read_total s i off (c_le c) (local_array 256) 0 Hs Hi Hoff)
    as (st & d & got & -> & Hl & Hbd & Hgot).
  { change (len (local_array 256)) with 256. specialize (Hle ltac:(done)). lia. }
  { specialize (Hle ltac:(done)). unfold is_u16. lia. }
  { apply (bool_decide_unpack _); vm_compute; exact Logic.I. }
  bind_simpl. case_if; [apply handled_refuse; unfold scos_fs_error_to_sw; auto with card|].
  destruct (rsp_put_wf r b d got Hr Hb Hbd) as (ok & r' & b' & -> & Hr' & Hb' & Hl' & Hcap).
  { rewrite Hl. change (len (local_array 256)) with 256. lia. }
  { lia. }
  bind_simpl.
  assert (∀ sw, is_u16 sw → handled I k r b (Some (sw, Ptr k, Ptr r', s))) as Hout.
  { intros sw' ?. exists sw', (k_sel k), r', b', s. by rewrite set_sel_same. }
  case_if; [by apply Hout|]. case_if; by apply Hout.
Qed.

#[export] Instance update_binary_handler I `{!FsSpec I} : HandlerSpec I scos_cmd_update_binary.
Proof.
  intros k c r b s HI [_ _ Hlc Hle Hd] Hr Hb. destruct (fs_inv_safe s _ HI) as [Hs Hse].
  unfold scos_cmd_update_binary. case_if; [by apply handled_refuse|]. case_if; [by apply handled_refuse|].
  destruct (resolve_target_total s k (c_p1 c) (c_p2 c) Hs Hse) as (sw & i & off & -> & Hsw & Hi & Hoff).
  bind_simpl. case_if; [by apply handled_refuse|].
  destruct (c_data c) as [|d]; [done|]. destruct Hd as [Hd Hbd]. unfold APDU_SHORT_LC_MAX in *.
  pose proof (fs_inv_write s (k_sel k) i off (c_lc c) d HI Hi Hoff) as Hw.
  apply wp_elim in Hw as ([st s'] & -> & HI'); [|lia|unfold is_u16; lia|done]. bind_simpl.
  assert (∀ sw, is_u16 sw → handled I k r b (Some (sw, Ptr k, Ptr r, s'))) as Hout.
  { intros sw' ?. exists sw', (k_sel k), r, b, s'. by rewrite set_sel_same. }
  case_if; apply Hout; unfold scos_fs_error_to_sw; auto with card; done.
Qed.

End binary_ok.

(** ** What the P1-P2 parameters address *)

(** File [i] at offset [off]: the current EF at a 15-bit offset, or the EF of
    the current DF with the given short identifier at an 8-bit offset. *)
Definition binary_target (v : fs_view) (se : fs_selection) (p1 p2 i off : Z) : Prop :=
  ∃ d, file_at v i = Some d ∧ fs_is_ef d = true ∧ d_parent d = cur_df se ∧
    ((p1 < 128 ∧ i = cur_ef se ∧ off = p1 * 256 + p2) ∨
     (128 < p1 ≤ 128 + 30 ∧ d_sfi d = p1 - 128 ∧ off = p2)).

Lemma p1_fields p1 :
  is_u8 p1 →
  Z.land p1 P1_SFI_FLAG = (if p1 <? 128 then 0 else 128) ∧
  (128 ≤ p1 → (Z.land p1 P1_SFI_RFU =? 0) = (p1 <? 160) ∧ (p1 < 160 → u8 (Z.land p1 P1_SFI_MASK) = p1 - 128)).
Proof.
  intros Hp. assert (∀ x, x ∈ upto 256 →
    Z.land x P1_SFI_FLAG = (if x <? 128 then 0 else 128) ∧
    (128 ≤ x → (Z.land x P1_SFI_RFU =? 0) = (x <? 160) ∧ (x < 160 → u8 (Z.land x P1_SFI_MASK) = x - 128))) as Hall.
  { apply Forall_forall, (bool_decide_unpack _). vm_compute. exact I. }
  apply Hall, elem_of_upto. done.
Qed.

Lemma p1p2_offset p1 p2 : is_u8 p1 → is_u8 p2 → u16 (Z.lor (Z.shiftl (u16 p1) 8) (u16 p2)) = p1 * 256 + p2.
Proof.
  intros H1 H2. unfold is_u8 in *. rewrite !(u16_id p1), !(u16_id p2) by (unfold is_u16; lia).
  rewrite (lor_shiftl_add p1 p2 8) by (change (2 ^ 8) with 256; lia). change (2 ^ 8) with 256.
  apply u16_id. unfold is_u16. lia.
Qed.

Section binary_view.
Context {N : Type} `{HalNvmSpec N}.
Implicit Types s : store N.

Lemma binary_target_unique s se p1 p2 i off j off' :
  tree_inv (view s) → binary_target (view s) se p1 p2 i off → binary_target (view s) se p1 p2 j off' → i = j ∧ off = off'.
Proof.
  intros Ht (d & Hd & Hef & Hpar & Hi) (e & He & Hef' & Hpar' & Hj).
  destruct Hi as [(? & -> & ->)|(? & Hs & ->)], Hj as [(? & -> & ->)|(? & Hs' & ->)]; try lia.
  split; [|done]. apply (ti_sfi _ Ht i j d e); try done; [congruence|congruence|].
  unfold FS_NO_SFI. lia.
Qed.

(** The handlers find the addressed file, or there is none. *)
Lemma resolve_target_view s k p1 p2 :
  card_inv s (k_sel k) → is_u8 p1 → is_u8 p2 →
  (∃ i off, resolve_target s k p1 p2 = Some (SW_OK, i, off) ∧ binary_target (view s) (k_sel k) p1 p2 i off ∧
     is_u16 i ∧ is_u16 off) ∨
  (∃ sw i off, resolve_target s k p1 p2 = Some (sw, i, off) ∧ is_u16 sw ∧ sw ≠ SW_OK ∧
     ∀ i' off', ¬ binary_target (view s) (k_sel k) p1 p2 i' off').
Proof.
  intros (Hs & Ht & [_ Hef] & _) H1 H2. unfold resolve_target.
  destruct (p1_fields p1 H1) as [-> Hhi]. unfold is_u8 in H1, H2.
  destruct (Z.ltb_spec p1 128) as [Hlo|Hge]; cbn [Z.eqb negb].
  { destruct (Z.eqb_spec (cur_ef (k_sel k)) FS_INVALID_INDEX) as [Hinv|Hval].
    - right. eexists _, _, _. split; [done|]. split; [done|]. split; [done|].
      intros i' off' (d & Hd & _ & _ & [(_ & -> & _)|(? & _)]); [|lia].
      destruct (file_at_u16 s _ _ Hs Hd) as [Hi _]. rewrite Hinv in Hi. unfold FS_INVALID_INDEX in Hi.
      destruct Hs. unfold max_files, FS_MAX_FILES in *. lia.
    - left. eexists _, _. split; [done|]. rewrite p1p2_offset by done.
      destruct Hef as [?|(d & Hd & Hed & Hpar & ?)]; [done|].
      split; [exists d; split_and!; try done; left; done|]. split; [done|]. unfold is_u16. lia. }
  destruct (Hhi Hge) as [-> Hsfi]. destruct (Z.ltb_spec p1 160) as [Hlt|Hbig]; cbn [negb].
  2:{ right. eexists _, _, _. split; [done|]. split; [done|]. split; [done|].
      intros i' off' (d & _ & _ & _ & [(? & _)|(? & _)]); lia. }
  rewrite Hsfi by done. destruct (Z.eqb_spec (p1 - 128) 0) as [?|Hnz].
  { right. eexists _, _, _. split; [done|]. split; [done|]. split; [done|].
    intros i' off' (d & _ & _ & _ & [(? & _)|(? & _)]); lia. }
  destruct (decide (p1 - 128 = 31)) as [H31|Hn31].
  { right. unfold fs_find_by_sfi. rewrite H31.
    change ((31 =? FS_NO_SFI) || (30 <? 31)) with true. cbv iota. bind_simpl. cbn [fs_ok negb].
    eexists _, _, _. split; [done|]. split; [done|]. split; [done|].
    intros i' off' (d & _ & _ & _ & [(? & _)|(? & _)]); lia. }
  destruct (find_by_sfi_view s (cur_df (k_sel k)) (p1 - 128) FS_INVALID_INDEX Hs) as ([i|] & -> & Hr); [lia| |];
    bind_simpl; cbn [fs_ok negb].
  - left. destruct Hr as (d & Hd & Hc). unfold is_child_ef in Hc. bool_prop.
    eexists _, _. split; [done|]. rewrite u16_id by (unfold is_u16; lia).
    split; [exists d; split_and!; try done; right; split_and!; done || lia|].
    split; [by apply (file_at_u16 s i d)|unfold is_u16; lia].
  - right. eexists _, _, _. split; [done|]. split; [done|]. split; [done|].
    intros i' off' (d & Hd & Hed & Hpar & [(? & _)|(_ & Hs' & _)]); [lia|].
    specialize (Hr i' d Hd). unfold is_child_ef in Hr. rewrite Hed, Hs', Hpar, !Z.eqb_refl in Hr. done.
Qed.

(** READ BINARY: the status and the bytes the reader gets. *)
Definition read_sw (d : fs_descriptor) (off le : Z) : Z :=
  if negb (fs_is_usable d) then SW_CONDITIONS_NOT_SATISFIED else
  if d_size d <? off then SW_WRONG_P1P2 else
  if d_size d - off <? le then SW_NVM_UNCHANGED_EOF else SW_OK.

Definition read_bytes (v : fs_view) (d : fs_descriptor) (off le : Z) : list Z :=
  if fs_is_usable d && (off <=? d_size d) then slice off (Z.min le (d_size d - off)) (ef_bytes v d) else [].

Lemma read_binary_view s k c r b i off d :
  card_inv s (k_sel k) → cmd_wf c → rsp_wf r b → r_len r = 0 → r_cap r = SCOS_APDU_RSP_MAX →
  c_lc c = 0 → c_le_present c = true →
  binary_target (view s) (k_sel k) (c_p1 c) (c_p2 c) i off → file_at (view s) i = Some d →
  ∃ r' b', scos_cmd_read_binary (Ptr k) (Ptr c) (Ptr r) s = Some (read_sw d off (c_le c), Ptr k, Ptr r', s) ∧
    rsp_wf r' b' ∧ r_overflow r' = r_overflow r ∧ response_bytes r' = read_bytes (view s) d off (c_le c).
Proof.
  intros HI [Hp1 Hp2 _ Hle _] Hr Hl0 Hcap Hlc Hlp Htgt Hd. specialize (Hle Hlp). unfold APDU_SHORT_LE_MAX in Hle.
  unfold SCOS_APDU_RSP_MAX in Hcap.
  assert (response_bytes r = []) as Hnil by (unfold response_bytes; by destruct (r_buf r); rewrite ?Hl0).
  unfold scos_cmd_read_binary. rewrite Hlc, Hlp. cbn [Z.eqb negb].
  destruct (resolve_target_view s k (c_p1 c) (c_p2 c) HI Hp1 Hp2) as [(i' & off' & -> & Htgt' & Hi & Hoff)|(? & ? & ? & _ & _ & _ & Hno)];
    [|by destruct (Hno _ _ Htgt)].
  destruct HI as (Hs & Ht & _).
  destruct (binary_target_unique s _ _ _ _ _ _ _ Ht Htgt Htgt') as [<- <-]. bind_simpl. cbn [Z.eqb Pos.eqb negb SW_OK].
  destruct Htgt as (d' & Hd' & Hef & _). rewrite Hd in Hd'. injection Hd' as <-.
  unfold APDU_SHORT_LE_MAX. replace (256 <? c_le c) with false by lia.
  unfold read_sw, read_bytes. destruct (fs_is_usable d) eqn:Hus; cbn [negb andb].
  2:{ exists r, b. rewrite Hnil. split_and!; try done. unfold fs_ef_read, resolve.
      destruct (get_desc_file s i d Hs Hd) as [-> _]. bind_simpl. cbn [fs_ok negb]. by rewrite Hus. }
  destruct (Z.ltb_spec (d_size d) off) as [Hbig|Hin].
  { replace (off <=? d_size d) with false by lia.
    rewrite (ef_read_beyond s i d off _ _ _ Hs Hd Hef Hus Hbig). bind_simpl. by exists r, b. }
  replace (off <=? d_size d) with true by lia. unfold is_u16 in Hoff.
  destruct (ef_in_flash s i d Hs Hd Hef) as ([] & Hfl & _). unfold is_u16, is_u32 in *.
  rewrite (ef_read_view s i d off (c_le c) _ _ Hs Hd Hef Hus);
    [|lia|change (len (local_array 256)) with 256; lia|lia|apply (bool_decide_unpack _); vm_compute; exact I].
  bind_simpl. cbn [fs_ok negb]. set (n := Z.min (c_le c) (d_size d - off)).
  assert (len (ef_bytes (view s) d) = d_size d) as Hle2 by (apply len_slice; cbn; lia).
  assert (len (slice off n (ef_bytes (view s) d)) = n) as Hn by (apply len_slice; lia).
  destruct (rsp_put_bytes r b (splice (local_array 256) 0 (slice off n (ef_bytes (view s) d))) n Hr)
    as (r' & b' & -> & Hr' & _ & Hby & _ & _ & Hov).
  { rewrite len_splice; change (len (local_array 256)) with 256; lia. }
  { lia. }
  bind_simpl. cbn [negb]. exists r', b'. rewrite Hby, Hnil.
  assert (slice 0 n (splice (local_array 256) 0 (slice off n (ef_bytes (view s) d))) =
          slice off n (ef_bytes (view s) d)) as ->.
  { rewrite <- Hn at 1. apply slice_splice_same; change (len (local_array 256)) with 256; lia. }
  split; [|done]. unfold n. repeat case_if; done || lia.
Qed.

(** UPDATE BINARY: the status, and the contents afterwards. *)
Definition update_sw (d : fs_descriptor) (off n : Z) : Z :=
  if negb (fs_is_usable d) then SW_CONDITIONS_NOT_SATISFIED else
  if d_size d <? off + n then SW_WRONG_P1P2 else SW_OK.

Definition update_bytes (v : fs_view) (d : fs_descriptor) (off : Z) (data : list Z) : list Z :=
  if update_sw d off (len data) =? SW_OK then splice (ef_bytes v d) off data else ef_bytes v d.

Record updated (s s' : store N) (i : Z) (d : fs_descriptor) (off : Z) (data : list Z) : Prop := {
  up_slots : v_slots (view s') = v_slots (view s);
  up_bytes : ef_bytes (view s') d = update_bytes (view s) d off data;
  up_other : ∀ j e, j ≠ i → file_at (view s) j = Some e → fs_is_ef e = true →
               ef_bytes (view s') e = ef_bytes (view s) e;
}.

(** A write to an existing EF: done, or refused and nothing changed. *)
Lemma ef_write_status s se i d off n b :
  card_inv s se → file_at (view s) i = Some d → fs_is_ef d = true → is_u16 i → is_u16 off →
  0 < n ≤ len b → n < 65536 → bytes b →
  ∃ st s', fs_ef_write s i off n (Ptr b) = Some (st, s') ∧ card_inv s' se ∧
    update_sw d off n = fs_error_to_sw st ∧ updated s s' i d off (slice 0 n b) ∧ (st ≠ FS_OK → s' = s).
Proof.
  intros HI Hd Hef Hi Hoff Hn Hn16 Hb. pose proof HI as (Hs & Ht & _). unfold is_u16 in Hoff.
  pose proof (ef_write_inv s se i off n b HI Hi Hoff ltac:(lia) ltac:(unfold is_u16; lia) Hb) as Hinv.
  destruct (ef_in_flash s i d Hs Hd Hef) as ([] & Hfl & _). unfold is_u16, is_u32 in *.
  assert (len (slice 0 n b) = n) as Hsl by (apply len_slice; lia).
  assert (∀ st, update_sw d off n = fs_error_to_sw st → st ≠ FS_OK →
    ∃ st0 s', Some (st, s) = Some (st0, s') ∧ card_inv s' se ∧
      update_sw d off n = fs_error_to_sw st0 ∧ updated s s' i d off (slice 0 n b) ∧ (st0 ≠ FS_OK → s' = s)) as Hno.
  { intros st Heq Hst. exists st, s. split_and!; try done. constructor; [done| |done].
    unfold update_bytes. rewrite Hsl, Heq. replace (fs_error_to_sw st =? SW_OK) with false; [done|].
    symmetry. apply Z.eqb_neq. by rewrite fs_error_to_sw_ok. }
  destruct (fs_is_usable d) eqn:Hus.
  2:{ unfold fs_ef_write, resolve. cbn [is_null]. replace (n =? 0) with false by lia.
      destruct (get_desc_file s i d Hs Hd) as [-> _]. bind_simpl. cbn [fs_ok negb]. rewrite Hus. cbn [negb].
      bind_simpl. apply Hno; [|done]. unfold update_sw. by rewrite Hus. }
  destruct (Z.ltb_spec (d_size d) (off + n)) as [Hbig|Hfit].
  { unfold fs_ef_write. cbn [is_null]. replace (n =? 0) with false by lia.
    rewrite (resolve_usable s i d Hs Hd Hus). bind_simpl. cbn [fs_ok negb]. rewrite Hef. cbn [negb].
    rewrite (u32_id (off + n)) by (unfold is_u32; lia). replace (d_size d <? off + n) with true by lia.
    apply Hno; [|done]. unfold update_sw. rewrite Hus. by replace (d_size d <? off + n) with true by lia. }
  destruct (ef_write_view s i d off n b Hs Ht Hd Hef Hus) as (s' & Hw & _ & _ & _ & Hsl' & Hby & Hot);
    [lia|lia|lia|done|]. rewrite Hw in Hinv |- *.
  assert (update_sw d off n = SW_OK) as Hsw
    by (unfold update_sw; rewrite Hus; by replace (d_size d <? off + n) with false by lia).
  exists FS_OK, s'. split_and!; try done. constructor; [done| |done].
  unfold update_bytes. by rewrite Hsl, Hsw.
Qed.

Lemma update_binary_view s k c r i off d data :
  card_inv s (k_sel k) → cmd_wf c → c_data c = Ptr data → c_le_present c = false →
  binary_target (view s) (k_sel k) (c_p1 c) (c_p2 c) i off → file_at (view s) i = Some d →
  ∃ s', scos_cmd_update_binary (Ptr k) (Ptr c) (Ptr r) s = Some (update_sw d off (c_lc c), Ptr k, Ptr r, s') ∧
    card_inv s' (k_sel k) ∧ updated s s' i d off (slice 0 (c_lc c) data) ∧ (update_sw d off (c_lc c) ≠ SW_OK → s' = s).
Proof.
  intros HI [Hp1 Hp2 Hlc _ Hdat] Hdata Hlp Htgt Hd. rewrite Hdata in Hdat. destruct Hdat as [Hlen Hb].
  unfold APDU_SHORT_LC_MAX in Hlc. unfold scos_cmd_update_binary. rewrite Hdata, Hlp. cbn [is_null].
  replace (c_lc c =? 0) with false by lia. cbn [orb].
  destruct (resolve_target_view s k (c_p1 c) (c_p2 c) HI Hp1 Hp2) as [(i' & off' & -> & Htgt' & Hi & Hoff)|(? & ? & ? & _ & _ & _ & Hno)];
    [|by destruct (Hno _ _ Htgt)].
  destruct (binary_target_unique s _ _ _ _ _ _ _ (proj1 (proj2 HI)) Htgt Htgt') as [<- <-].
  bind_simpl. cbn [Z.eqb Pos.eqb negb SW_OK]. destruct Htgt as (d' & Hd' & Hef & _).
  rewrite Hd in Hd'. injection Hd' as <-.
  destruct (ef_write_status s (k_sel k) i d off (c_lc c) data HI Hd Hef Hi Hoff)
    as (st & s' & -> & HI' & -> & Hup & Hsame); [lia|lia|done|]. bind_simpl.
  exists s'. split; [|split; [done|split; [done|by rewrite fs_error_to_sw_ok]]].
  case_if; [done|]. assert (st = FS_OK) as -> by (by apply fs_ok_true). done.
Qed.

(** Without a target both commands refuse and change nothing. *)
Lemma binary_no_target s k c r :
  card_inv s (k_sel k) → cmd_wf c →
  (∀ i off, ¬ binary_target (view s) (k_sel k) (c_p1 c) (c_p2 c) i off) →
  (∃ sw, scos_cmd_read_binary (Ptr k) (Ptr c) (Ptr r) s = Some (sw, Ptr k, Ptr r, s) ∧ sw ≠ SW_OK) ∧
  (∃ sw, scos_cmd_update_binary (Ptr k) (Ptr c) (Ptr r) s = Some (sw, Ptr k, Ptr r, s) ∧ sw ≠ SW_OK).
Proof.
  intros HI [Hp1 Hp2 _ _ _] Hno.
  destruct (resolve_target_view s k (c_p1 c) (c_p2 c) HI Hp1 Hp2) as [(i & off & _ & Ht & _)|(sw & i & off & Hr & _ & Hsw & _)];
    [by destruct (Hno _ _ Ht)|].
  unfold scos_cmd_read_binary, scos_cmd_update_binary. split.
  - case_if; [by eexists|]. case_if; [by eexists|]. rewrite Hr. bind_simpl. replace (sw =? SW_OK) with false by lia.
    by eexists.
  - case_if; [by eexists|]. case_if; [by eexists|]. rewrite Hr. bind_simpl. replace (sw =? SW_OK) with false by lia.
    by eexists.
Qed.

(** Both commands leave everything alone unless they answer 9000, and what
    they put into the response fits. *)
Definition atomic s (k : scos_kernel) (res : option (Z * ptr scos_kernel * ptr apdu_response * store N)) : Prop :=
  ∃ sw se' r' b' s', res = Some (sw, Ptr (set_sel k se'), Ptr r', s') ∧ rsp_wf r' b' ∧ r_overflow r' = false ∧
    (sw ≠ SW_OK → se' = k_sel k ∧ s' = s).

Lemma atomic_same s k r b sw :
  rsp_wf r b → r_overflow r = false → atomic s k (Some (sw, Ptr k, Ptr r, s)).
Proof. intros. exists sw, (k_sel k), r, b, s. by rewrite set_sel_same. Qed.

Lemma read_binary_atomic s k c r b :
  card_inv s (k_sel k) → cmd_wf c → rsp_wf r b → bytes b → r_len r = 0 → r_cap r = SCOS_APDU_RSP_MAX →
  r_overflow r = false → atomic s k (scos_cmd_read_binary (Ptr k) (Ptr c) (Ptr r) s).
Proof.
  intros HI Hc Hr Hb Hl0 Hcap Hov. pose proof Hc as [Hp1 Hp2 _ Hle _].
  destruct (resolve_target_view s k (c_p1 c) (c_p2 c) HI Hp1 Hp2) as [(i & off & _ & Htgt & _)|(_ & _ & _ & _ & _ & _ & Hno)].
  - destruct Htgt as (d & Hd & Htgt'). assert (binary_target (view s) (k_sel k) (c_p1 c) (c_p2 c) i off) as Htgt by (by exists d).
    destruct (decide (c_lc c = 0)) as [Hlc|Hlc].
    2:{ unfold scos_cmd_read_binary. replace (c_lc c =? 0) with false by lia. by eapply atomic_same. }
    destruct (c_le_present c) eqn:Hlp.
    2:{ unfold scos_cmd_read_binary. rewrite Hlc, Hlp. cbn [Z.eqb negb]. by eapply atomic_same. }
    destruct (read_binary_view s k c r b i off d HI Hc Hr Hl0 Hcap Hlc Hlp Htgt Hd) as (r' & b' & -> & Hr' & Hov' & _).
    eapply atomic_same; [done|congruence].
  - destruct (binary_no_target s k c r HI Hc Hno) as [(sw & -> & _) _]. by eapply atomic_same.
Qed.

Lemma update_binary_atomic s k c r b :
  card_inv s (k_sel k) → cmd_wf c → rsp_wf r b → r_overflow r = false →
  atomic s k (scos_cmd_update_binary (Ptr k) (Ptr c) (Ptr r) s).
Proof.
  intros HI Hc Hr Hov. pose proof Hc as [Hp1 Hp2 _ _ _].
  destruct (resolve_target_view s k (c_p1 c) (c_p2 c) HI Hp1 Hp2) as [(i & off & _ & Htgt & _)|(_ & _ & _ & _ & _ & _ & Hno)].
  - destruct Htgt as (d & Hd & Htgt'). assert (binary_target (view s) (k_sel k) (c_p1 c) (c_p2 c) i off) as Htgt by (by exists d).
    destruct (c_data c) as [|data] eqn:Hdata.
    { unfold scos_cmd_update_binary. rewrite Hdata. cbn [is_null]. rewrite orb_true_r. by eapply atomic_same. }
    destruct (c_le_present c) eqn:Hlp.
    { unfold scos_cmd_update_binary. rewrite Hdata, Hlp. case_if; by eapply atomic_same. }
    destruct (update_binary_view s k c r i off d data HI Hc Hdata Hlp Htgt Hd) as (s' & -> & _ & _ & Hsame).
    exists (update_sw d off (c_lc c)), (k_sel k), r, b, s'. rewrite set_sel_same. split_and!; try done.
    intros Hsw. split; [done|by apply Hsame].
  - destruct (binary_no_target s k c r HI Hc Hno) as [_ (sw & -> & _)]. by eapply atomic_same.
Qed.

(** The file holds [data] from [off] on. *)
Definition ef_holds (v : fs_view) (d : fs_descriptor) (off : Z) (data : list Z) : Prop :=
  slice off (len data) (ef_bytes v d) = data.

(** An UPDATE BINARY that fits is carried out. *)
Lemma update_stores s k c r i off d buf data :
  card_inv s (k_sel k) → cmd_wf c → c_data c = Ptr buf → slice 0 (c_lc c) buf = data → c_lc c = len data →
  c_le_present c = false →
  binary_target (view s) (k_sel k) (c_p1 c) (c_p2 c) i off → file_at (view s) i = Some d → fs_is_usable d = true →
  0 ≤ off → off + len data ≤ d_size d →
  ∃ s', scos_cmd_update_binary (Ptr k) (Ptr c) (Ptr r) s = Some (SW_OK, Ptr k, Ptr r, s') ∧ card_inv s' (k_sel k) ∧
    updated s s' i d off data ∧ ef_holds (view s') d off data.
Proof.
  intros Hinv Hw Hcd Hsl Hlc Hlp Htgt Hd Hus Hoff Hfit. pose proof Hinv as (Hs & _).
  assert (fs_is_ef d = true) as Hef by (destruct Htgt as (d' & Hd' & ? & _); congruence).
  destruct (update_binary_view s k c r i off d buf Hinv Hw Hcd Hlp Htgt Hd) as (s' & Hup & Hinv' & Hupd & _).
  rewrite Hsl in Hupd. rewrite Hlc in Hup.
  assert (update_sw d off (len data) = SW_OK) as Hsw
    by (unfold update_sw; rewrite Hus; by replace (d_size d <? off + len data) with false by lia).
  rewrite Hsw in Hup. exists s'. split; [done|]. split; [done|]. split; [done|].
  unfold ef_holds. rewrite (up_bytes _ _ _ _ _ _ Hupd). unfold update_bytes. rewrite Hsw. cbn [Z.eqb Pos.eqb SW_OK].
  destruct (ef_in_flash s i d Hs Hd Hef) as ([] & Hfl & _). unfold is_u16, is_u32 in *.
  assert (len (ef_bytes (view s) d) = d_size d) as Hle by (apply len_slice; cbn; lia). pose proof (len_nonneg data).
  by apply slice_splice_same; lia.
Qed.

(** READ BINARY gives back what the file holds. *)
Lemma read_returns s k c r b i off d data :
  card_inv s (k_sel k) → cmd_wf c → rsp_wf r b → r_len r = 0 → r_cap r = SCOS_APDU_RSP_MAX →
  c_lc c = 0 → c_le_present c = true → c_le c = len data →
  binary_target (view s) (k_sel k) (c_p1 c) (c_p2 c) i off → file_at (view s) i = Some d → fs_is_usable d = true →
  0 ≤ off → off + len data ≤ d_size d → ef_holds (view s) d off data →
  ∃ r' b', scos_cmd_read_binary (Ptr k) (Ptr c) (Ptr r) s = Some (SW_OK, Ptr k, Ptr r', s) ∧
    rsp_wf r' b' ∧ r_overflow r' = r_overflow r ∧ response_bytes r' = data.
Proof.
  intros Hinv Hw Hr Hl0 Hcap Hlc Hlp Hle Htgt Hd Hus Hoff Hfit Hh. pose proof (len_nonneg data).
  destruct (read_binary_view s k c r b i off d Hinv Hw Hr Hl0 Hcap Hlc Hlp Htgt Hd) as (r' & b' & Hrd & Hr' & Hov' & Hres).
  rewrite Hle in Hrd, Hres. exists r', b'. split; [|split; [done|split; [done|]]].
  - rewrite Hrd. unfold read_sw. rewrite Hus. cbn [negb]. replace (d_size d <? off) with false by lia.
    by replace (d_size d - off <? len data) with false by lia.
  - rewrite Hres. unfold read_bytes. rewrite Hus. replace (off <=? d_size d) with true by lia. cbn [andb].
    by replace (Z.min (len data) (d_size d - off)) with (len data) by lia.
Qed.

End binary_view.

(** ** Theorems *)

(** [C25] READ BINARY serves exactly the elementary file its parameters address
    in the current DF: the bytes from the offset on, as many as requested and
    available (9000, or 6282 when the file ends first), or the reason for the
    refusal; neither the kernel nor the non-volatile memory changes. *)
Theorem read_binary_reads {N} `{HalNvmSpec N} (s : store N) k c r b i off d :
  card_inv s (k_sel k) → cmd_wf c → rsp_wf r b → r_len r = 0 → r_cap r = SCOS_APDU_RSP_MAX →
  c_lc c = 0 → c_le_present c = true →
  binary_target (view s) (k_sel k) (c_p1 c) (c_p2 c) i off → file_at (view s) i = Some d →
  ∃ r' b', scos_cmd_read_binary (Ptr k) (Ptr c) (Ptr r) s = Some (read_sw d off (c_le c), Ptr k, Ptr r', s) ∧
    rsp_wf r' b' ∧ r_overflow r' = r_overflow r ∧ response_bytes r' = read_bytes (view s) d off (c_le c).
Proof. apply read_binary_view. Qed.

(** [C26] UPDATE BINARY replaces exactly the addressed bytes of one elementary
    file of the current DF, or refuses and changes nothing: no descriptor and
    no byte of another file is touched. *)
Theorem update_binary_isolated {N} `{HalNvmSpec N} (s : store N) k c r i off d data :
  card_inv s (k_sel k) → cmd_wf c → c_data c = Ptr data → c_le_present c = false →
  binary_target (view s) (k_sel k) (c_p1 c) (c_p2 c) i off → file_at (view s) i = Some d →
  ∃ s', scos_cmd_update_binary (Ptr k) (Ptr c) (Ptr r) s = Some (update_sw d off (c_lc c), Ptr k, Ptr r, s') ∧
    card_inv s' (k_sel k) ∧ updated s s' i d off (slice 0 (c_lc c) data) ∧ (update_sw d off (c_lc c) ≠ SW_OK → s' = s).
Proof. apply update_binary_view. Qed.

(** Files outside the current DF are out of reach: when no elementary file
    of the current DF answers to P1-P2, both commands refuse and change
    nothing. *)
Theorem binary_confined_to_df {N} `{HalNvmSpec N} (s : store N) k c r :
  card_inv s (k_sel k) → cmd_wf c →
  (∀ i off, ¬ binary_target (view s) (k_sel k) (c_p1 c) (c_p2 c) i off) →
  (∃ sw, scos_cmd_read_binary (Ptr k) (Ptr c) (Ptr r) s = Some (sw, Ptr k, Ptr r, s) ∧ sw ≠ SW_OK) ∧
  (∃ sw, scos_cmd_update_binary (Ptr k) (Ptr c) (Ptr r) s = Some (sw, Ptr k, Ptr r, s) ∧ sw ≠ SW_OK).
Proof. apply binary_no_target. Qed.

#[local] Existing Instance small_config.

(** READ BINARY of 2F00 by short identifier 1, offset 3, Le = 256. *)
Definition sample_read : apdu_command := parsed_command 0 0xB0 0x81 0x03 [] (Some 256).
(** UPDATE BINARY of the same bytes. *)
Definition sample_update : apdu_command := parsed_command 0 0xD6 0x81 0x03 [7; 9] None.
(** Short identifier 5: there is no such file. *)
Definition sample_miss : apdu_command := parsed_command 0 0xB0 0x85 0x00 [] (Some 1).

Lemma sample_read_wf : cmd_wf sample_read.
Proof. constructor; vm_compute; intuition congruence. Qed.
Lemma sample_update_wf : cmd_wf sample_update.
Proof. constructor; vm_compute; intuition (try congruence). all: apply (bool_decide_unpack _); vm_compute; exact I. Qed.
Lemma sample_miss_wf : cmd_wf sample_miss.
Proof. constructor; vm_compute; intuition congruence. Qed.

Lemma factory_target : binary_target (view factory_store) root_sel 0x81 0x03 1 3.
Proof.
  exists factory_ef. split; [apply factory_has; reflexivity|]. split; [reflexivity|]. split; [reflexivity|].
  right. split; [lia|]. split; reflexivity.
Qed.

Lemma factory_no_target i off : ¬ binary_target (view factory_store) root_sel 0x85 0x00 i off.
Proof.
  intros (d & Hd & _ & _ & [(? & _)|(_ & Hs & _)]); [lia|].
  destruct factory_ok as (_ & _ & _ & _ & Hv & _). rewrite Hv in Hd. apply factory_file_at in Hd. clear Hv.
  destruct Hd as [Hd|[Hd|[Hd|[Hd|Hd]]]]; destruct Hd as [_ Hd]; rewrite Hd in Hs; clear -Hs; vm_compute in Hs; discriminate Hs.
Qed.

Lemma read_binary_reads_witness :
  ∃ r' b', scos_cmd_read_binary (Ptr factory_kernel) (Ptr sample_read) (Ptr sample_rsp) factory_store =
      Some (read_sw factory_ef 3 256, Ptr factory_kernel, Ptr r', factory_store) ∧
    rsp_wf r' b' ∧ r_overflow r' = false ∧
    response_bytes r' = read_bytes (view factory_store) factory_ef 3 256.
Proof.
  apply (read_binary_reads factory_store factory_kernel sample_read sample_rsp (local_array SCOS_APDU_RSP_MAX) 1 3 factory_ef);
    [apply factory_card|apply sample_read_wf|apply sample_rsp_wf|reflexivity|reflexivity|reflexivity|reflexivity
    |apply factory_target|apply factory_has; reflexivity].
Defined.

Lemma update_binary_isolated_witness :
  ∃ s', scos_cmd_update_binary (Ptr factory_kernel) (Ptr sample_update) (Ptr sample_rsp) factory_store =
      Some (update_sw factory_ef 3 2, Ptr factory_kernel, Ptr sample_rsp, s') ∧
    card_inv s' root_sel ∧ updated factory_store s' 1 factory_ef 3 [7; 9] ∧
    (update_sw factory_ef 3 2 ≠ SW_OK → s' = factory_store).
Proof.
  apply (update_binary_isolated factory_store factory_kernel sample_update sample_rsp 1 3 factory_ef [7; 9]);
    [apply factory_card|apply sample_update_wf|reflexivity|reflexivity|apply factory_target|apply factory_has; reflexivity].
Defined.

Lemma binary_confined_to_df_witness :
  (∃ sw, scos_cmd_read_binary (Ptr factory_kernel) (Ptr sample_miss) (Ptr sample_rsp) factory_store =
     Some (sw, Ptr factory_kernel, Ptr sample_rsp, factory_store) ∧ sw ≠ SW_OK) ∧
  (∃ sw, scos_cmd_update_binary (Ptr factory_kernel) (Ptr sample_miss) (Ptr sample_rsp) factory_store =
     Some (sw, Ptr factory_kernel, Ptr sample_rsp, factory_store) ∧ sw ≠ SW_OK).
Proof.
  apply (binary_confined_to_df factory_store factory_kernel sample_miss sample_rsp);
    [apply factory_card|apply sample_miss_wf|exact factory_no_target].
Defined.
