(* ===== verification/CmdCreate.v ===== *)
(** * CREATE FILE and DELETE FILE (src/filesystem/cmd_create.c)

    The FCP parser, tag by tag, and the two handlers. *)

From S2P Require Import Prelude OsMem Sw Apdu Tlv Hal SimHal FsTypes FsStore Fs FsTree KernelTypes CmdSelect.

Definition TAG_FCP_TEMPLATE : Z := 0x62.
Definition TAG_FILE_DESC : Z := 0x82.
Definition TAG_FILE_ID : Z := 0x83.
Definition TAG_DATA_BYTES : Z := 0x80.
Definition TAG_LIFE_CYCLE : Z := 0x8A.
Definition TAG_SFI : Z := 0x88.

Definition FDB_RFU_BIT : Z := 0x80.
Definition FDB_SHAREABLE : Z := 0x40.
Definition FDB_TYPE_MASK : Z := 0x38.
Definition FDB_TYPE_WORKING : Z := 0x00.
Definition FDB_TYPE_DF : Z := 0x38.
Definition FDB_STRUCT_MASK : Z := 0x07.
Definition FDB_STRUCT_NONE : Z := 0x00.
Definition FDB_STRUCT_TRANS : Z := 0x01.

Inductive fdb_result := FDB_ACCEPTED | FDB_MALFORMED | FDB_UNSUPPORTED.

#[export] Instance fdb_result_eq_dec : EqDecision fdb_result.
Proof. solve_decision. Defined.

Definition decode_fdb (fdb out_type : Z) : fdb_result * Z :=
  if negb (Z.land fdb FDB_RFU_BIT =? 0) then (FDB_MALFORMED, out_type) else
  let type := Z.land fdb FDB_TYPE_MASK in
  let stru := Z.land fdb FDB_STRUCT_MASK in
  if type =? FDB_TYPE_DF then
    if negb (stru =? FDB_STRUCT_NONE) then (FDB_MALFORMED, out_type) else (FDB_ACCEPTED, FS_TYPE_DF)
  else if (type =? FDB_TYPE_WORKING) && (stru =? FDB_STRUCT_TRANS) then
    (FDB_ACCEPTED, FS_TYPE_EF_TRANSPARENT)
  else (FDB_UNSUPPORTED, out_type).

(** The request under construction and the locals of the parser's loop. *)
Record fcp_state := FcpState {
  f_req : fs_descriptor; have_fdb : bool; have_fid : bool; have_size : bool; f_type : Z }.

Definition req_set_file_id (d : fs_descriptor) (x : Z) : fs_descriptor :=
  FsDescriptor x (d_type d) (d_lifecycle d) (d_parent d) (d_size d) (d_data_offset d)
    (d_ac_read d) (d_ac_update d) (d_sfi d) (d_flags d).
Definition req_set_type (d : fs_descriptor) (x : Z) : fs_descriptor :=
  FsDescriptor (d_file_id d) x (d_lifecycle d) (d_parent d) (d_size d) (d_data_offset d)
    (d_ac_read d) (d_ac_update d) (d_sfi d) (d_flags d).
Definition req_set_lifecycle (d : fs_descriptor) (x : Z) : fs_descriptor :=
  FsDescriptor (d_file_id d) (d_type d) x (d_parent d) (d_size d) (d_data_offset d)
    (d_ac_read d) (d_ac_update d) (d_sfi d) (d_flags d).
Definition req_set_size (d : fs_descriptor) (x : Z) : fs_descriptor :=
  FsDescriptor (d_file_id d) (d_type d) (d_lifecycle d) (d_parent d) x (d_data_offset d)
    (d_ac_read d) (d_ac_update d) (d_sfi d) (d_flags d).
Definition req_set_sfi (d : fs_descriptor) (x : Z) : fs_descriptor :=
  FsDescriptor (d_file_id d) (d_type d) (d_lifecycle d) (d_parent d) (d_size d) (d_data_offset d)
    (d_ac_read d) (d_ac_update d) x (d_flags d).

Definition with_req (st : fcp_state) (d : fs_descriptor) : fcp_state :=
  FcpState d (have_fdb st) (have_fid st) (have_size st) (f_type st).

(** One object of the template: [SW_OK] stands for [break], any other status
    for [return]. *)
Definition fcp_object (obj : tlv_object) (st : fcp_state) : option (Z * fcp_state) :=
  let tag := o_tag obj in
  if tag =? TAG_FILE_DESC then
    if have_fdb st || negb (o_length obj =? 1) then Some (SW_WRONG_DATA, st) else
    fdb ← rd_ptr (o_value obj) 0;
    let '(fr, type) := decode_fdb fdb (f_type st) in
    let st := FcpState (f_req st) (have_fdb st) (have_fid st) (have_size st) type in
    match fr with
    | FDB_MALFORMED => Some (SW_WRONG_DATA, st)
    | FDB_UNSUPPORTED => Some (SW_FUNC_NOT_SUPPORTED, st)
    | FDB_ACCEPTED => Some (SW_OK, FcpState (f_req st) true (have_fid st) (have_size st) type)
    end
  else if tag =? TAG_FILE_ID then
    if have_fid st || negb (o_length obj =? 2) then Some (SW_WRONG_DATA, st) else
    hi ← rd_ptr (o_value obj) 0;
    lo ← rd_ptr (o_value obj) 1;
    let req := req_set_file_id (f_req st) (u16 (Z.lor (Z.shiftl (u16 hi) 8) lo)) in
    Some (SW_OK, FcpState req (have_fdb st) true (have_size st) (f_type st))
  else if tag =? TAG_DATA_BYTES then
    if have_size st then Some (SW_WRONG_DATA, st) else
    '(ts, v) ← tlv_get_uint (Ptr obj) (Ptr 0);
    match ts, v with
    | TLV_OK, Ptr v =>
        if FS_MAX_EF_SIZE <? v then Some (SW_NOT_ENOUGH_SPACE, st) else
        if v =? 0 then Some (SW_WRONG_DATA, st) else
        Some (SW_OK, FcpState (req_set_size (f_req st) (u16 v)) (have_fdb st) (have_fid st) true (f_type st))
    | _, _ => Some (SW_WRONG_DATA, st)
    end
  else if tag =? TAG_LIFE_CYCLE then
    if negb (o_length obj =? 1) then Some (SW_WRONG_DATA, st) else
    lc ← rd_ptr (o_value obj) 0;
    if (lc =? FS_LC_CREATION) || (lc =? FS_LC_INITIALISED) || (lc =? FS_LC_ACTIVATED) || (lc =? FS_LC_DEACTIVATED)
    then Some (SW_OK, with_req st (req_set_lifecycle (f_req st) lc))
    else if lc =? FS_LC_TERMINATED then Some (SW_WRONG_DATA, st)
    else Some (SW_WRONG_DATA, st)
  else if tag =? TAG_SFI then
    if negb (o_length obj =? 1) then Some (SW_WRONG_DATA, st) else
    x ← rd_ptr (o_value obj) 0;
    if negb (Z.land x 0x07 =? 0) then Some (SW_WRONG_DATA, st) else
    let sfi := u8 (Z.shiftr x 3) in
    let st := with_req st (req_set_sfi (f_req st) sfi) in
    if 30 <? sfi then Some (SW_WRONG_DATA, st) else Some (SW_OK, st)
  else Some (SW_WRONG_DATA, st).

Fixpoint parse_fcp_loop (fuel : nat) (r : ptr tlv_reader) (obj : ptr tlv_object) (st : fcp_state)
    : option (Z * fcp_state) :=
  match fuel with
  | O => None
  | S fuel =>
      '(ts, r, obj) ← tlv_next r obj;
      match ts with
      | TLV_END => Some (SW_OK, st)
      | TLV_OK =>
          match obj with
          | NULL => None
          | Ptr o =>
              '(sw, st) ← fcp_object o st;
              if negb (sw =? SW_OK) then Some (sw, st) else parse_fcp_loop fuel r obj st
          end
      | _ => Some (SW_WRONG_DATA, st)
      end
  end.

(** The bytes to parse: the contents of the template, or all of them. *)
Definition fcp_inner (body : ptr (list Z)) (body_len : Z) : option (Z + ptr (list Z) * Z) :=
  let outer := tlv_reader_init (Ptr (TlvReader NULL 0 0)) body body_len in
  '(ts, outer, obj) ← tlv_next outer (Ptr tlv_object_zero);
  match ts, obj with
  | TLV_OK, Ptr obj =>
      if o_tag obj =? TAG_FCP_TEMPLATE then
        done ← tlv_reader_done outer;
        if negb done then Some (inl SW_WRONG_DATA) else Some (inr (o_value obj, o_length obj))
      else Some (inr (body, body_len))
  | _, _ => Some (inr (body, body_len))
  end.

(** A request that says nothing yet. *)
Definition fcp_empty : fs_descriptor :=
  FsDescriptor 0 0 FS_LC_ACTIVATED FS_NO_PARENT 0 0 0 0 FS_NO_SFI 0.

Definition fcp_start : fcp_state := FcpState fcp_empty false false false FS_TYPE_FREE.

(** The checks after the loop. *)
Definition fcp_finish (st : fcp_state) : Z * fs_descriptor :=
  if negb (have_fdb st) || negb (have_fid st) then (SW_WRONG_DATA, f_req st) else
  let type := f_type st in
  let req := req_set_type (f_req st) type in
  if (type =? FS_TYPE_EF_TRANSPARENT) && negb (have_size st) then (SW_WRONG_DATA, req) else
  if (type =? FS_TYPE_DF) && have_size st then (SW_WRONG_DATA, req) else
  if (type =? FS_TYPE_DF) && negb (d_sfi req =? FS_NO_SFI) then (SW_WRONG_DATA, req) else
  (SW_OK, req).

(** From [bool have_fdb = false] on. *)
Definition parse_fcp_inner (inner : ptr (list Z)) (inner_len : Z) : option (Z * fs_descriptor) :=
  if inner_len =? 0 then Some (SW_WRONG_DATA, fcp_empty) else
  let r := tlv_reader_init (Ptr (TlvReader NULL 0 0)) inner inner_len in
  '(sw, st) ← parse_fcp_loop (S (Z.to_nat inner_len)) r (Ptr tlv_object_zero) fcp_start;
  if negb (sw =? SW_OK) then Some (sw, f_req st) else Some (fcp_finish st).

Definition parse_fcp (body : ptr (list Z)) (body_len : Z) : option (Z * fs_descriptor) :=
  inner ← fcp_inner body body_len;
  match inner with
  | inl sw => Some (sw, fcp_empty)
  | inr (inner, inner_len) => parse_fcp_inner inner inner_len
  end.

Section create.
Context {N : Type} `{HalNvm N}.

Definition scos_cmd_create_file : scos_cmd_handler N := λ k cmd rsp s,
  match k, cmd with
  | Ptr k', Ptr c =>
      match k_lifecycle k' with
      | SCOS_LC_FS_ERROR => Some (SW_MEMORY_FAILURE, k, rsp, s)
      | _ =>
        if negb (c_p1 c =? 0x00) || negb (c_p2 c =? 0x00) then Some (SW_INCORRECT_P1P2, k, rsp, s) else
        if (c_lc c =? 0) || is_null (c_data c) then Some (SW_WRONG_LENGTH, k, rsp, s) else
        '(sw, req) ← parse_fcp (c_data c) (c_lc c);
        if negb (sw =? SW_OK) then Some (sw, k, rsp, s) else
        '(st, _, s) ← fs_create_file s (Ptr (k_sel k')) (Ptr req) (Ptr FS_INVALID_INDEX);
        if negb (fs_ok st) then Some (scos_fs_error_to_sw st, k, rsp, s) else
        Some (SW_OK, k, rsp, s)
      end
  | _, _ => Some (SW_NO_PRECISE_DIAGNOSIS, k, rsp, s)
  end.

Definition scos_cmd_delete_file : scos_cmd_handler N := λ k cmd rsp s,
  match k, cmd with
  | Ptr k', Ptr c =>
      match k_lifecycle k' with
      | SCOS_LC_FS_ERROR => Some (SW_MEMORY_FAILURE, k, rsp, s)
      | _ =>
        if negb (c_p1 c =? 0x00) || negb (c_p2 c =? 0x00) then Some (SW_INCORRECT_P1P2, k, rsp, s) else
        match c_data c with
        | NULL => Some (SW_WRONG_LENGTH, k, rsp, s)
        | Ptr data =>
            if negb (c_lc c =? 2) then Some (SW_WRONG_LENGTH, k, rsp, s) else
            fid ← data_fid data;
            '(st, sel, s) ← fs_delete_file s (Ptr (k_sel k')) fid;
            match sel with
            | NULL => None
            | Ptr sel =>
                let k := Ptr (set_sel k' sel) in
                if negb (fs_ok st) then Some (scos_fs_error_to_sw st, k, rsp, s) else Some (SW_OK, k, rsp, s)
            end
        end
      end
  | _, _ => Some (SW_NO_PRECISE_DIAGNOSIS, k, rsp, s)
  end.

End create.

(** ** The parser against a reference on decoded objects *)

(** What one object does to the request, on its value. *)
Definition fcp_field (tag : Z) (v : list Z) (st : fcp_state) : Z * fcp_state :=
  if tag =? TAG_FILE_DESC then
    match v with
    | [fdb] =>
        if have_fdb st then (SW_WRONG_DATA, st) else
        let '(fr, type) := decode_fdb fdb (f_type st) in
        match fr with
        | FDB_MALFORMED => (SW_WRONG_DATA, FcpState (f_req st) false (have_fid st) (have_size st) type)
        | FDB_UNSUPPORTED => (SW_FUNC_NOT_SUPPORTED, FcpState (f_req st) false (have_fid st) (have_size st) type)
        | FDB_ACCEPTED => (SW_OK, FcpState (f_req st) true (have_fid st) (have_size st) type)
        end
    | _ => (SW_WRONG_DATA, st)
    end
  else if tag =? TAG_FILE_ID then
    match v with
    | [hi; lo] =>
        if have_fid st then (SW_WRONG_DATA, st) else
        (SW_OK, FcpState (req_set_file_id (f_req st) (hi * 256 + lo)) (have_fdb st) true (have_size st) (f_type st))
    | _ => (SW_WRONG_DATA, st)
    end
  else if tag =? TAG_DATA_BYTES then
    if have_size st then (SW_WRONG_DATA, st) else
    if (len v =? 0) || (4 <? len v) then (SW_WRONG_DATA, st) else
    if FS_MAX_EF_SIZE <? be_value v then (SW_NOT_ENOUGH_SPACE, st) else
    if be_value v =? 0 then (SW_WRONG_DATA, st) else
    (SW_OK, FcpState (req_set_size (f_req st) (be_value v)) (have_fdb st) (have_fid st) true (f_type st))
  else if tag =? TAG_LIFE_CYCLE then
    match v with
    | [lc] => if create_lifecycle_ok lc then (SW_OK, with_req st (req_set_lifecycle (f_req st) lc))
              else (SW_WRONG_DATA, st)
    | _ => (SW_WRONG_DATA, st)
    end
  else if tag =? TAG_SFI then
    match v with
    | [x] => if negb (x mod 8 =? 0) then (SW_WRONG_DATA, st) else
             let st := with_req st (req_set_sfi (f_req st) (x / 8)) in
             if 30 <? x / 8 then (SW_WRONG_DATA, st) else (SW_OK, st)
    | _ => (SW_WRONG_DATA, st)
    end
  else (SW_WRONG_DATA, st).

(** The objects of a byte string, one after the other, up to its end. *)
Fixpoint fcp_parse (fuel : nat) (l : list Z) (st : fcp_state) : Z * fcp_state :=
  match fuel with
  | O => (SW_WRONG_DATA, st)
  | S fuel =>
      match tlv_decode l with
      | TlvEnd => (SW_OK, st)
      | TlvErr _ => (SW_WRONG_DATA, st)
      | TlvObj tag _ v rest =>
          let '(sw, st) := fcp_field tag v st in
          if negb (sw =? SW_OK) then (sw, st) else fcp_parse fuel rest st
      end
  end.

Lemma len_one_cases o v :
  obj_wf o v → (o_length o =? 1) = match v with [_] => true | _ => false end ∧
  (o_length o =? 2) = match v with [_; _] => true | _ => false end.
Proof.
  intros [-> _ _ _]. destruct v as [|x [|y [|z v]]]; rewrite ?len_cons; try done.
  pose proof (len_nonneg v). split; lia.
Qed.

Lemma obj_wf_rd o v i x :
  obj_wf o v → 0 ≤ i → v !! Z.to_nat i = Some x → rd_ptr (o_value o) i = Some x ∧ is_u8 x.
Proof.
  intros [Hl Hb Hu Hv] Hi Hx. split; [|by apply (Forall_lookup_1 _ _ _ _ Hb Hx)].
  destruct (o_value o) as [|d]; [by subst|]. destruct Hv as (Hd & Hle & Hs & _).
  pose proof (lookup_lt_Some _ _ _ Hx). unfold rd_ptr, rd. replace (0 <=? i) with true by lia.
  rewrite <- Hs in Hx. rewrite lookup_slice in Hx by lia. case_decide; [|done]. exact Hx.
Qed.

Lemma sfi_fields x : is_u8 x → (Z.land x 0x07 =? 0) = (x mod 8 =? 0) ∧ u8 (Z.shiftr x 3) = x / 8.
Proof.
  intros Hx. unfold is_u8 in Hx. split.
  - change 0x07 with (Z.ones 3). rewrite Z.land_ones by done. done.
  - rewrite Z.shiftr_div_pow2 by done. change (2 ^ 3) with 8. apply u8_id. unfold is_u8. lia.
Qed.

Lemma fid_of_bytes hi lo : is_u8 hi → is_u8 lo → u16 (Z.lor (Z.shiftl (u16 hi) 8) lo) = hi * 256 + lo.
Proof.
  intros H1 H2. unfold is_u8 in *. rewrite (u16_id hi) by (unfold is_u16; lia).
  rewrite (lor_shiftl_add hi lo 8) by (change (2 ^ 8) with 256; lia). change (2 ^ 8) with 256.
  apply u16_id. unfold is_u16. lia.
Qed.

Lemma fcp_object_eq o v st : obj_wf o v → fcp_object o st = Some (fcp_field (o_tag o) v st).
Proof.
  intros Hw. destruct (len_one_cases o v Hw) as [H1 H2]. unfold fcp_object, fcp_field.
  rewrite H1, H2, (tlv_get_uint_eq o v 0 Hw).
  destruct (o_tag o =? TAG_FILE_DESC).
  { destruct v as [|x [|]]; rewrite ?orb_true_r; try done. rewrite orb_false_r.
    destruct (obj_wf_rd o _ 0 x Hw ltac:(done) eq_refl) as [-> _]. bind_simpl.
    destruct (have_fdb st) eqn:E; [done|]. by destruct (decode_fdb x (f_type st)) as [[] ?]; rewrite ?E. }
  destruct (o_tag o =? TAG_FILE_ID).
  { destruct v as [|x [|y [|]]]; rewrite ?orb_true_r; try done. rewrite orb_false_r.
    destruct (obj_wf_rd o _ 0 x Hw ltac:(done) eq_refl) as [Hx Hxb]. destruct (obj_wf_rd o _ 1 y Hw ltac:(done) eq_refl) as [Hy Hyb].
    destruct (have_fid st); [done|]. rewrite Hx, Hy. bind_simpl. by rewrite fid_of_bytes. }
  destruct (o_tag o =? TAG_DATA_BYTES).
  { destruct (have_size st); [done|]. bind_simpl.
    destruct ((len v =? 0) || (4 <? len v)); [done|]. destruct (Z.ltb_spec FS_MAX_EF_SIZE (be_value v)); [done|].
    destruct (be_value v =? 0); [done|]. unfold FS_MAX_EF_SIZE in *. rewrite u16_id; [done|].
    pose proof (be_value_range v (ow_bytes _ _ Hw)). unfold is_u16. lia. }
  destruct (o_tag o =? TAG_LIFE_CYCLE).
  { destruct v as [|x [|]]; try done. cbn [negb]. destruct (obj_wf_rd o _ 0 x Hw ltac:(done) eq_refl) as [Hx _].
    rewrite Hx. bind_simpl. unfold create_lifecycle_ok. case_if; [done|by case_if]. }
  destruct (o_tag o =? TAG_SFI); [|done].
  destruct v as [|x [|]]; try done. cbn [negb]. destruct (obj_wf_rd o _ 0 x Hw ltac:(done) eq_refl) as [Hx Hxb].
  rewrite Hx. bind_simpl.
  destruct (sfi_fields x Hxb) as [-> ->]. case_if; [done|]. by case_if.
Qed.

Lemma parse_fcp_loop_eq fuel r b o st :
  reader_wf r b → t_len r - t_pos r < Z.of_nat fuel →
  parse_fcp_loop fuel (Ptr r) (Ptr o) st = Some (fcp_parse fuel (unread r b (t_pos r)) st).
Proof.
  revert r o st. induction fuel as [|fuel IH]; intros r o st Hwf Hfuel; [destruct Hwf; lia|].
  cbn [parse_fcp_loop fcp_parse]. rewrite (tlv_next_eq r b Hwf). bind_simpl.
  destruct (tlv_decode (unread r b (t_pos r))) as [|e|tag c v rest] eqn:Hdec; cbn [next_outcome].
  - done.
  - apply tlv_decode_err in Hdec as [? ?]. by destruct e.
  - destruct (tlv_next_outcome r b tag c v rest Hwf Hdec) as (Hwf' & Hun & Hpos & Hobj).
    rewrite (fcp_object_eq _ v st Hobj). bind_simpl. cbn [o_tag].
    destruct (fcp_field tag v st) as [sw st']. case_if; [done|].
    rewrite IH by (done || (cbn [tlv_at t_len] in *; lia)). by rewrite Hun.
Qed.

(** The contents of the template: unwrapped when tag 62 encloses everything. *)
Definition template_contents (l : list Z) : option (list Z) :=
  match tlv_decode l with
  | TlvObj tag _ v rest =>
      if tag =? TAG_FCP_TEMPLATE then match strip_padding rest with [] => Some v | _ => None end else Some l
  | _ => Some l
  end.

Definition fcp_contents (v : list Z) : Z * fs_descriptor :=
  match v with
  | [] => (SW_WRONG_DATA, fcp_empty)
  | _ => let '(sw, st) := fcp_parse (S (length v)) v fcp_start in
         if negb (sw =? SW_OK) then (sw, f_req st) else fcp_finish st
  end.

Definition fcp_reference (l : list Z) : Z * fs_descriptor :=
  match template_contents l with None => (SW_WRONG_DATA, fcp_empty) | Some v => fcp_contents v end.

Lemma reader_done_eq r b :
  reader_wf r b → tlv_reader_done (Ptr r) = Some (match strip_padding (unread r b (t_pos r)) with [] => true | _ => false end).
Proof.
  intros Hwf. pose proof Hwf as [Hb _ Hpos Hl Hu]. unfold tlv_reader_done. rewrite Hb at 1. cbn [is_null].
  destruct (skip_padding_ref r b Hwf (t_pos r)) as (p & -> & Hp & Hs); [done|]. bind_simpl. f_equal.
  rewrite <- Hs. destruct (Z.leb_spec (t_len r) p); [by rewrite (unread_nil r b Hwf) by lia|].
  destruct (unread_cons r b Hwf p) as (x & _ & _ & ->); [lia|done].
Qed.

Lemma reader_start b n :
  bytes b → 0 ≤ n ≤ len b → n < 65536 →
  reader_wf (TlvReader (Ptr b) n 0) b ∧ unread (TlvReader (Ptr b) n 0) b 0 = slice 0 n b.
Proof.
  intros Hb Hn Hn16. split; [constructor; cbn; done || lia|]. unfold unread. cbn. by rewrite Z.sub_0_r.
Qed.

Lemma parse_fcp_inner_eq p v :
  len v < 65536 →
  match p with NULL => v = [] | Ptr d => bytes d ∧ len v ≤ len d ∧ slice 0 (len v) d = v end →
  parse_fcp_inner p (len v) = Some (fcp_contents v).
Proof.
  intros H16 Hp. unfold parse_fcp_inner, fcp_contents.
  destruct v as [|x v']; [done|]. set (v := x :: v') in *.
  assert (0 < len v) by (unfold v; rewrite len_cons; pose proof (len_nonneg v'); lia).
  replace (len v =? 0) with false by lia. destruct p as [|d]; [done|]. destruct Hp as (Hd & Hl & Hs).
  destruct (reader_start d (len v) Hd) as [Hwf Hun]; [lia|done|]. cbn [tlv_reader_init is_null].
  rewrite (parse_fcp_loop_eq _ _ d) by (done || (cbn; lia)). cbn [t_pos]. rewrite Hun, Hs. bind_simpl.
  unfold len at 1. rewrite Nat2Z.id. destruct (fcp_parse _ _ _). by case_if.
Qed.

(** The parser computes the reference. *)
Lemma parse_fcp_eq b n :
  bytes b → 0 ≤ n ≤ len b → n < 65536 → parse_fcp (Ptr b) n = Some (fcp_reference (slice 0 n b)).
Proof.
  intros Hb Hn Hn16. assert (len (slice 0 n b) = n) as Hlen by (apply len_slice; lia).
  assert (parse_fcp_inner (Ptr b) n = Some (fcp_contents (slice 0 n b))) as Hbare.
  { pose proof (parse_fcp_inner_eq (Ptr b) (slice 0 n b)) as Hp. rewrite Hlen in Hp. apply Hp; [lia|]. split_and!; done || lia. }
  destruct (reader_start b n Hb) as [Hwf Hun]; [lia|done|].
  unfold parse_fcp, fcp_inner, fcp_reference, template_contents. cbn [tlv_reader_init is_null].
  rewrite (tlv_next_eq _ b Hwf). cbn [t_pos]. rewrite Hun. bind_simpl.
  destruct (tlv_decode (slice 0 n b)) as [|e|tag c v rest] eqn:Hdec; cbn [next_outcome].
  - exact Hbare.
  - apply tlv_decode_err in Hdec as [? ?]. by destruct e.
  - cbn [o_tag o_value o_length]. destruct (tag =? TAG_FCP_TEMPLATE); [|exact Hbare].
    rewrite <- Hun in Hdec. destruct (tlv_next_outcome _ b tag c v rest Hwf Hdec) as (Hwf' & Hr & _ & [_ _ H16 Hval]).
    rewrite (reader_done_eq _ b Hwf'), Hr. bind_simpl. destruct (strip_padding rest); [|done]. cbn [negb]. bind_simpl.
    apply parse_fcp_inner_eq; [done|]. cbn [o_value] in Hval. destruct (if 0 <? len v then _ else _); [done|].
    by destruct Hval as (? & ? & ? & _).
Qed.

(** ** What an accepted template says *)

(** The objects of a byte string up to its end. *)
Inductive tlv_seq : list Z → list (Z * list Z) → Prop :=
| tlv_seq_end l : tlv_decode l = TlvEnd → tlv_seq l []
| tlv_seq_obj l tag c v rest objs :
    tlv_decode l = TlvObj tag c v rest → tlv_seq rest objs → tlv_seq l ((tag, v) :: objs).

Definition fcp_tags : list Z := [TAG_FILE_DESC; TAG_FILE_ID; TAG_DATA_BYTES; TAG_LIFE_CYCLE; TAG_SFI].

(** The values given for a tag, in order. *)
Definition values_of (tag : Z) (objs : list (Z * list Z)) : list (list Z) :=
  omap (λ o, if o.1 =? tag then Some o.2 else None) objs.

Definition last_byte (vs : list (list Z)) (dflt : Z) : Z :=
  match last vs with Some [x] => x | _ => dflt end.

(** ISO/IEC 7816-4, table 14: the descriptor bytes the card serves, a DF and a
    working EF of transparent structure, each shareable or not. *)
Definition fdb_names (fdb type : Z) : Prop :=
  (type = FS_TYPE_DF ∧ fdb ∈ [0x38; 0x78]) ∨ (type = FS_TYPE_EF_TRANSPARENT ∧ fdb ∈ [0x01; 0x41]).

(** One byte with a life cycle a file can be created in, and one with a short
    identifier in its upper five bits. *)
Definition lifecycle_value (v : list Z) : Prop := ∃ x, v = [x] ∧ x ∈ [0x01; 0x03; 0x04; 0x05].
Definition sfi_value (v : list Z) : Prop := ∃ x, v = [x] ∧ x mod 8 = 0 ∧ x / 8 ≤ 30.
Definition size_value (v : list Z) : Prop := 1 ≤ len v ≤ 4 ∧ 1 ≤ be_value v ≤ 32767.

(** A template read as the description of one file: known tags only; the
    descriptor byte and the identifier once; a size once for an EF and never for a
    DF; life cycles and short identifiers that are valid, the last of which
    counts; no short identifier for a DF.  Nothing else is asked for. *)
Record fcp_describes (objs : list (Z * list Z)) (req : fs_descriptor) : Prop := {
  fd_known : Forall (λ o, o.1 ∈ fcp_tags) objs;
  fd_type : ∃ fdb, values_of TAG_FILE_DESC objs = [[fdb]] ∧ fdb_names fdb (d_type req);
  fd_fid : ∃ hi lo, values_of TAG_FILE_ID objs = [[hi; lo]] ∧ d_file_id req = hi * 256 + lo;
  fd_size : (d_type req = FS_TYPE_EF_TRANSPARENT ∧
               ∃ v, values_of TAG_DATA_BYTES objs = [v] ∧ size_value v ∧ d_size req = be_value v) ∨
            (d_type req = FS_TYPE_DF ∧ values_of TAG_DATA_BYTES objs = [] ∧ d_size req = 0);
  fd_lc : Forall lifecycle_value (values_of TAG_LIFE_CYCLE objs) ∧
          d_lifecycle req = last_byte (values_of TAG_LIFE_CYCLE objs) FS_LC_ACTIVATED;
  fd_sfi : Forall sfi_value (values_of TAG_SFI objs) ∧ d_sfi req = last_byte (values_of TAG_SFI objs) 0 / 8;
  fd_df : d_type req = FS_TYPE_DF → d_sfi req = 0;
  fd_rest : d_parent req = FS_NO_PARENT ∧ d_data_offset req = 0 ∧ d_ac_read req = 0 ∧ d_ac_update req = 0 ∧ d_flags req = 0;
}.

Definition fcp_request (l : list Z) (req : fs_descriptor) : Prop :=
  ∃ v objs, template_contents l = Some v ∧ tlv_seq v objs ∧ fcp_describes objs req.

Lemma decode_fdb_names fdb t ty : is_u8 fdb → decode_fdb fdb t = (FDB_ACCEPTED, ty) ↔ fdb_names fdb ty.
Proof.
  intros Hb.
  assert (forallb (λ x, bool_decide (decode_fdb x FS_TYPE_FREE =
      if bool_decide (x ∈ [0x38; 0x78]) then (FDB_ACCEPTED, FS_TYPE_DF)
      else if bool_decide (x ∈ [0x01; 0x41]) then (FDB_ACCEPTED, FS_TYPE_EF_TRANSPARENT)
      else ((decode_fdb x FS_TYPE_FREE).1, FS_TYPE_FREE)) &&
    (bool_decide (x ∈ [0x38; 0x78; 0x01; 0x41]) || negb (bool_decide ((decode_fdb x FS_TYPE_FREE).1 = FDB_ACCEPTED))))
    (seqZ 0 256) = true) as Hall by (vm_compute; reflexivity).
  rewrite forallb_forall in Hall. specialize (Hall fdb ltac:(apply list_elem_of_In, elem_of_seqZ; unfold is_u8 in Hb; lia)).
  apply andb_true_iff in Hall as [Hd%bool_decide_eq_true Ha].
  assert (decode_fdb fdb t = (FDB_ACCEPTED, ty) ↔ decode_fdb fdb FS_TYPE_FREE = (FDB_ACCEPTED, ty)) as ->
    by (unfold decode_fdb; by repeat case_match).
  rewrite Hd. unfold fdb_names. destruct (bool_decide_reflect (fdb ∈ [0x38; 0x78])) as [H1|H1].
  { split; [intros [= <-]; by left|]. intros [[-> _]|[_ H2]]; [done|].
    rewrite !elem_of_cons, elem_of_nil in H1, H2. lia. }
  destruct (bool_decide_reflect (fdb ∈ [0x01; 0x41])) as [H2|H2].
  { split; [intros [= <-]; by right|]. by intros [[_ ?]|[-> _]]. }
  split; [|by intros [[_ ?]|[_ ?]]]. intros [= Hacc _].
  rewrite Hacc, (bool_decide_true (FDB_ACCEPTED = _)), orb_false_r in Ha by done. apply bool_decide_eq_true in Ha.
  rewrite !elem_of_cons, elem_of_nil in *. tauto.
Qed.

Lemma lifecycle_values x : create_lifecycle_ok x = true ↔ x ∈ [0x01; 0x03; 0x04; 0x05].
Proof.
  unfold create_lifecycle_ok, FS_LC_CREATION, FS_LC_INITIALISED, FS_LC_ACTIVATED, FS_LC_DEACTIVATED.
  rewrite !elem_of_cons, elem_of_nil. lia.
Qed.

(** The state of the parser after some objects. *)
Record fcp_tracks (objs : list (Z * list Z)) (st : fcp_state) : Prop := {
  ft_known : Forall (λ o, o.1 ∈ fcp_tags) objs;
  ft_bytes : Forall (λ o, bytes o.2) objs;
  ft_fdb : if have_fdb st then ∃ fdb, values_of TAG_FILE_DESC objs = [[fdb]] ∧ fdb_names fdb (f_type st)
           else values_of TAG_FILE_DESC objs = [] ∧ f_type st = FS_TYPE_FREE;
  ft_fid : if have_fid st
           then ∃ hi lo, values_of TAG_FILE_ID objs = [[hi; lo]] ∧ d_file_id (f_req st) = hi * 256 + lo ∧ is_u8 hi ∧ is_u8 lo
           else values_of TAG_FILE_ID objs = [] ∧ d_file_id (f_req st) = 0;
  ft_size : if have_size st
            then ∃ v, values_of TAG_DATA_BYTES objs = [v] ∧ size_value v ∧ d_size (f_req st) = be_value v
            else values_of TAG_DATA_BYTES objs = [] ∧ d_size (f_req st) = 0;
  ft_lc : Forall lifecycle_value (values_of TAG_LIFE_CYCLE objs) ∧
          d_lifecycle (f_req st) = last_byte (values_of TAG_LIFE_CYCLE objs) FS_LC_ACTIVATED ∧
          create_lifecycle_ok (d_lifecycle (f_req st)) = true;
  ft_sfi : Forall sfi_value (values_of TAG_SFI objs) ∧
           d_sfi (f_req st) = last_byte (values_of TAG_SFI objs) 0 / 8 ∧ 0 ≤ d_sfi (f_req st) ≤ 30;
  ft_rest : f_req st = FsDescriptor (d_file_id (f_req st)) 0 (d_lifecycle (f_req st)) FS_NO_PARENT
              (d_size (f_req st)) 0 0 0 (d_sfi (f_req st)) 0;
}.

Lemma values_of_app tag objs objs' : values_of tag (objs ++ objs') = values_of tag objs ++ values_of tag objs'.
Proof. apply omap_app. Qed.

Lemma values_of_snoc tag objs t v :
  values_of tag (objs ++ [(t, v)]) = values_of tag objs ++ (if t =? tag then [v] else []).
Proof. unfold values_of. rewrite omap_app. cbn. by destruct (t =? tag). Qed.

Lemma last_byte_snoc vs x dflt : last_byte (vs ++ [[x]]) dflt = x.
Proof. unfold last_byte. by rewrite last_snoc. Qed.

Lemma fcp_start_tracks : fcp_tracks [] fcp_start.
Proof. by constructor. Qed.

#[local] Ltac known := apply (bool_decide_unpack _); vm_compute; exact I.

Lemma fcp_field_tracks objs st tag v st' :
  fcp_tracks objs st → bytes v → fcp_field tag v st = (SW_OK, st') → fcp_tracks (objs ++ [(tag, v)]) st'.
Proof.
  intros [Hk Hb Hfdb Hfid Hsz Hlc Hsfi Hrest] Hv. unfold fcp_field.
  assert (tag ∈ fcp_tags → Forall (λ o, o.1 ∈ fcp_tags) (objs ++ [(tag, v)])) as Hk'
    by (intros; apply Forall_app; split; [done|by apply Forall_singleton]).
  assert (Forall (λ o, bytes o.2) (objs ++ [(tag, v)])) as Hb'
    by (apply Forall_app; split; [done|by apply Forall_singleton]).
  destruct (Z.eqb_spec tag TAG_FILE_DESC) as [->|].
  { destruct v as [|fdb [|]]; [done| |done]. destruct (have_fdb st) eqn:E; [done|]. destruct Hfdb as [Hfdb _].
    apply bytes_cons in Hv as [Hv _]. destruct (decode_fdb fdb (f_type st)) as [[] ty] eqn:Ed; try done. intros [= <-].
    apply decode_fdb_names in Ed; [|done].
    constructor; cbn; rewrite ?values_of_snoc, ?app_nil_r; try done; [apply Hk'; known|].
    rewrite Hfdb. by exists fdb. }
  destruct (Z.eqb_spec tag TAG_FILE_ID) as [->|].
  { destruct v as [|hi [|lo [|]]]; [done|done| |done]. destruct (have_fid st) eqn:E; [done|]. destruct Hfid as [Hfid _].
    intros [= <-]. apply bytes_cons in Hv as [? [? _]%bytes_cons].
    constructor; cbn; rewrite ?values_of_snoc, ?app_nil_r; try done; [apply Hk'; known| |].
    - rewrite Hfid. by exists hi, lo.
    - by rewrite Hrest. }
  destruct (Z.eqb_spec tag TAG_DATA_BYTES) as [->|].
  { destruct (have_size st) eqn:E; [done|]. destruct Hsz as [Hsz _].
    destruct ((len v =? 0) || (4 <? len v)) eqn:El; [done|].
    destruct (Z.ltb_spec FS_MAX_EF_SIZE (be_value v)); [done|]. destruct (Z.eqb_spec (be_value v) 0); [done|].
    intros [= <-]. pose proof (be_value_range v Hv). unfold FS_MAX_EF_SIZE in *. pose proof (len_nonneg v).
    constructor; cbn; rewrite ?values_of_snoc, ?app_nil_r; try done; [apply Hk'; known| |].
    - rewrite Hsz. exists v. split; [done|]. split; [split; lia|done].
    - by rewrite Hrest. }
  destruct (Z.eqb_spec tag TAG_LIFE_CYCLE) as [->|].
  { destruct v as [|lc [|]]; [done| |done]. destruct (create_lifecycle_ok lc) eqn:E; [|done]. intros [= <-].
    constructor; cbn; rewrite ?values_of_snoc, ?app_nil_r; try done; [apply Hk'; known| |].
    - rewrite Z.eqb_refl, last_byte_snoc. split; [|done]. apply Forall_app. split; [apply Hlc|].
      apply Forall_singleton. exists lc. split; [done|]. by apply lifecycle_values.
    - by rewrite Hrest. }
  destruct (Z.eqb_spec tag TAG_SFI) as [->|]; [|done].
  destruct v as [|x [|]]; [done| |done]. destruct (Z.eqb_spec (x mod 8) 0); [|done]. cbn [negb].
  destruct (Z.ltb_spec 30 (x / 8)); [done|]. intros [= <-]. apply bytes_cons in Hv as [Hx _]. unfold is_u8 in Hx.
  constructor; cbn; rewrite ?values_of_snoc, ?app_nil_r; try done; [apply Hk'; known| |].
  - rewrite Z.eqb_refl, last_byte_snoc. split; [|split; [done|lia]]. apply Forall_app. split; [apply Hsfi|].
    apply Forall_singleton. by exists x.
  - by rewrite Hrest.
Qed.

(** An object that fits the description is accepted. *)
Lemma fcp_field_accepts objs st tag v rest req :
  fcp_tracks objs st → bytes v → fcp_describes (objs ++ (tag, v) :: rest) req → ∃ st', fcp_field tag v st = (SW_OK, st').
Proof.
  intros [_ _ Hfdb Hfid Hsz _ _ _] Hv [Hk Hty Hf Hs [Hl _] [Hi _] _ _]. unfold fcp_field.
  assert (∀ t, values_of t (objs ++ (tag, v) :: rest) =
    values_of t objs ++ (if tag =? t then [v] else []) ++ values_of t rest) as Hval
    by (intros t; rewrite values_of_app; cbn; by destruct (tag =? t)).
  rewrite Hval in Hty, Hf, Hl, Hi. rewrite !Hval in Hs.
  assert (∀ (a b : list (list Z)) x y, a ++ [x] ++ b = [y] → a = [] ∧ x = y) as Hone
    by (intros [|? [|]] b x y; cbn; intros [=]; done).
  destruct (Z.eqb_spec tag TAG_FILE_DESC) as [->|].
  { destruct Hty as (fdb & [Hnil ->]%Hone & Hn). apply bytes_cons in Hv as [Hv _].
    destruct (have_fdb st); [destruct Hfdb as (? & E & _); congruence|].
    rewrite (proj2 (decode_fdb_names fdb (f_type st) _ Hv) Hn). eauto. }
  destruct (Z.eqb_spec tag TAG_FILE_ID) as [->|].
  { destruct Hf as (hi & lo & [Hnil ->]%Hone & _). destruct (have_fid st); [destruct Hfid as (? & ? & E & _); congruence|]. eauto. }
  destruct (Z.eqb_spec tag TAG_DATA_BYTES) as [->|].
  { destruct Hs as [(_ & v' & [Hnil ->]%Hone & [Hl4 Hr] & _)|(_ & E & _)]; [|by apply app_nil in E as [_ E]].
    destruct (have_size st); [destruct Hsz as (? & E & _); congruence|].
    replace ((len v' =? 0) || (4 <? len v')) with false by lia. unfold FS_MAX_EF_SIZE.
    replace (32767 <? be_value v') with false by lia. replace (be_value v' =? 0) with false by lia. eauto. }
  destruct (Z.eqb_spec tag TAG_LIFE_CYCLE) as [->|].
  { apply Forall_app in Hl as [_ [(x & -> & Hx%lifecycle_values) _]%Forall_cons]. rewrite Hx. eauto. }
  destruct (Z.eqb_spec tag TAG_SFI) as [->|].
  { apply Forall_app in Hi as [_ [(x & -> & Hx & Hm) _]%Forall_cons]. rewrite Hx. cbn [Z.eqb negb].
    replace (30 <? x / 8) with false by lia. eauto. }
  exfalso. apply Forall_app in Hk as [_ [Hk _]%Forall_cons]. cbn in Hk. unfold fcp_tags in Hk.
  rewrite !elem_of_cons, elem_of_nil in Hk. tauto.
Qed.

Lemma fcp_parse_tracks fuel l objs st st' :
  bytes l → fcp_tracks objs st → fcp_parse fuel l st = (SW_OK, st') →
  ∃ objs', tlv_seq l objs' ∧ fcp_tracks (objs ++ objs') st'.
Proof.
  revert l objs st. induction fuel as [|fuel IH]; intros l objs st Hb Ht; [done|]. cbn [fcp_parse].
  destruct (tlv_decode l) as [|e|tag c v rest] eqn:Hdec; [|done|].
  - intros [= <-]. exists []. rewrite app_nil_r. split; [by constructor|done].
  - destruct (tlv_decode_obj l tag c v rest Hb Hdec) as (hdr & -> & _).
    apply Forall_app in Hb as [_ [Hbv Hbr]%Forall_app].
    destruct (fcp_field tag v st) as [sw st1] eqn:Ef. case_if; [intros [= -> _]; done|]. subst sw. intros Hp.
    destruct (IH rest _ st1 Hbr (fcp_field_tracks _ _ _ _ _ Ht Hbv Ef) Hp) as (objs' & Hs & Ht').
    exists ((tag, v) :: objs'). split; [by econstructor|]. by rewrite <- app_assoc in Ht'.
Qed.

Lemma fcp_parse_accepts fuel l objs objs' st req :
  tlv_seq l objs' → bytes l → (length l < fuel)%nat → fcp_tracks objs st → fcp_describes (objs ++ objs') req →
  ∃ st', fcp_parse fuel l st = (SW_OK, st') ∧ fcp_tracks (objs ++ objs') st'.
Proof.
  intros Hs. revert fuel objs st. induction Hs as [l Hdec|l tag c v rest objs' Hdec _ IH]; intros [|fuel] objs st Hb Hf Ht Hd;
    try (exfalso; lia); cbn [fcp_parse]; rewrite Hdec.
  - exists st. by rewrite app_nil_r.
  - destruct (tlv_decode_obj l tag c v rest Hb Hdec) as (hdr & -> & Hh). apply Forall_app in Hb as [_ [Hbv Hbr]%Forall_app].
    destruct (fcp_field_accepts objs st tag v objs' req Ht Hbv Hd) as [st1 Ef]. rewrite Ef. cbv beta iota.
    change (negb (SW_OK =? SW_OK)) with false. cbv iota.
    replace (objs ++ (tag, v) :: objs') with ((objs ++ [(tag, v)]) ++ objs') in * by (by rewrite <- app_assoc).
    rewrite !length_app in Hf. unfold len in Hh. apply IH; [done|lia| |done]. by eapply fcp_field_tracks.
Qed.

Lemma template_contents_bytes l v : bytes l → template_contents l = Some v → bytes v.
Proof.
  intros Hb. unfold template_contents. destruct (tlv_decode l) as [|e|tag c v' rest] eqn:Hdec; [by intros [= <-]..|].
  case_if; [|by intros [= <-]]. destruct (strip_padding rest); [|done]. intros [= <-].
  destruct (tlv_decode_obj l tag c v' rest Hb Hdec) as (hdr & -> & _). by apply Forall_app in Hb as [_ [? _]%Forall_app].
Qed.

Lemma fcp_finish_ok objs st req :
  fcp_tracks objs st → fcp_finish st = (SW_OK, req) →
  fcp_describes objs req ∧ desc_typed req ∧ create_type_check req = None ∧
  create_lifecycle_ok (d_lifecycle req) = true.
Proof.
  intros [Hk _ Hfdb Hfid Hsz (Hlcv & Hlc & Hlco) (Hsfiv & Hsfi & Hsfir) Hrest]. unfold fcp_finish.
  destruct (have_fdb st), (have_fid st); try done. cbn [negb orb].
  destruct Hfdb as (fdb & Hv & Hnames). destruct Hfid as (hi & lo & Hvf & Hf & Hhi & Hlo).
  rewrite Hrest. cbn [req_set_type d_sfi]. unfold is_u8 in Hhi, Hlo.
  assert (is_u8 (d_lifecycle (f_req st))) as Hlc8.
  { unfold create_lifecycle_ok, FS_LC_CREATION, FS_LC_INITIALISED, FS_LC_ACTIVATED, FS_LC_DEACTIVATED in Hlco.
    unfold is_u8. lia. }
  pose proof Hnames as [[Hty _]|[Hty _]]; rewrite Hty in *; cbn [Z.eqb Pos.eqb FS_TYPE_DF FS_TYPE_EF_TRANSPARENT andb];
    destruct (have_size st); try done; cbn [negb].
  - destruct (Z.eqb_spec (d_sfi (f_req st)) FS_NO_SFI) as [Hs0|]; [|done]. cbn [negb]. intros [= <-].
    destruct Hsz as [Hvs Hs]. split.
    { constructor; cbn; eauto 6; by right. }
    split; [constructor; cbn; unfold is_u8, is_u16, is_u32, FS_NO_PARENT, FS_TYPE_DF, FS_TYPE_EF_TRANSPARENT in *; lia|].
    split; [|done]. unfold create_type_check. cbn. by rewrite Hs, Hs0.
  - intros [= <-]. destruct Hsz as (v & Hvs & Hsv & Hs). pose proof Hsv as [_ Hr]. split.
    { constructor; cbn; eauto 8; done. }
    split; [constructor; cbn; unfold is_u8, is_u16, is_u32, FS_NO_PARENT, FS_TYPE_DF, FS_TYPE_EF_TRANSPARENT in *; lia|].
    split; [|done]. unfold create_type_check, FS_NO_SFI, FS_MAX_EF_SIZE. cbn.
    replace (d_size (f_req st) =? 0) with false by lia. replace (32767 <? d_size (f_req st)) with false by lia.
    cbn [orb]. replace (negb (d_sfi (f_req st) =? 0) && ((d_sfi (f_req st) <? 1) || (30 <? d_sfi (f_req st)))) with false by lia.
    done.
Qed.

(** The checks after the loop let a description through, unchanged. *)
Lemma fcp_finish_accepts objs st req :
  fcp_tracks objs st → fcp_describes objs req → fcp_finish st = (SW_OK, req).
Proof.
  intros [_ _ Hfdb Hfid Hsz (_ & Hlc & _) (_ & Hsfi & _) Hrest]
    [_ (fdb & Hv & Hn) (hi & lo & Hvf & Hf) Hs [_ Hl] [_ Hi] Hdf (Hp & Ho & Hr & Hu & Hfl)]. unfold fcp_finish.
  destruct (have_fdb st); [|destruct Hfdb; congruence]. destruct Hfdb as (fdb' & Hv' & Hn').
  destruct (have_fid st); [|destruct Hfid; congruence]. destruct Hfid as (hi' & lo' & Hvf' & Hf' & _).
  assert (fdb' = fdb) as -> by congruence. assert (hi' = hi ∧ lo' = lo) as [-> ->] by (split; congruence).
  assert (f_type st = d_type req) as Hty.
  { unfold fdb_names in Hn, Hn'. rewrite !elem_of_cons, elem_of_nil in Hn, Hn'. lia. }
  assert (d_size (f_req st) = d_size req ∧ have_size st = (d_type req =? FS_TYPE_EF_TRANSPARENT)) as [Hsz' ->].
  { destruct Hs as [(-> & v & E & _ & ->)|(-> & E & ->)], (have_size st); cbn.
    - destruct Hsz as (v' & E' & _ & ->). split; congruence.
    - destruct Hsz; congruence.
    - destruct Hsz as (? & E' & _). congruence.
    - by destruct Hsz. }
  assert (req_set_type (f_req st) (f_type st) = req) as ->.
  { rewrite Hrest. clear -Hty Hf Hf' Hl Hlc Hi Hsfi Hsz' Hp Ho Hr Hu Hfl. destruct req. cbn in *. unfold req_set_type. cbn. congruence. }
  cbn [negb orb]. rewrite Hty. destruct Hs as [[-> _]|[E _]]; [done|]. rewrite E. cbn. by rewrite (Hdf E).
Qed.

(** The parser on any input: defined; and what acceptance means. *)
Lemma fcp_reference_ok l req :
  bytes l → fcp_reference l = (SW_OK, req) →
  ∃ v objs, template_contents l = Some v ∧ tlv_seq v objs ∧ fcp_describes objs req ∧ desc_typed req ∧
    create_type_check req = None ∧ create_lifecycle_ok (d_lifecycle req) = true.
Proof.
  intros Hb. unfold fcp_reference. destruct (template_contents l) as [v|] eqn:Ht; [|done].
  pose proof (template_contents_bytes l v Hb Ht) as Hbv. unfold fcp_contents. destruct v as [|x v']; [done|].
  set (v := x :: v') in *. destruct (fcp_parse (S (length v)) v fcp_start) as [sw st] eqn:Hp.
  case_if; [intros [= -> _]; done|]. subst sw. intros Hf.
  destruct (fcp_parse_tracks _ v [] _ st Hbv fcp_start_tracks Hp) as (objs & Hs & Htr).
  destruct (fcp_finish_ok objs st req Htr Hf) as (? & ? & ? & ?). exists v, objs. done.
Qed.

Lemma fcp_reference_accepts l req : bytes l → fcp_request l req → fcp_reference l = (SW_OK, req).
Proof.
  intros Hb (v & objs & Ht & Hs & Hd). unfold fcp_reference. rewrite Ht.
  pose proof (template_contents_bytes l v Hb Ht) as Hbv.
  destruct (fcp_parse_accepts (S (length v)) v [] objs fcp_start req Hs Hbv ltac:(lia) fcp_start_tracks Hd) as (st & Hp & Htr).
  unfold fcp_contents. rewrite Hp. change (negb (SW_OK =? SW_OK)) with false. cbv iota.
  destruct v as [|x v]; [|by apply (fcp_finish_accepts objs)].
  destruct (fd_type _ _ Hd) as (fdb & E & _). by inversion Hs; subst.
Qed.

Lemma fcp_field_sw tag v st : is_u16 (fcp_field tag v st).1.
Proof.
  unfold fcp_field. repeat case_if; try done; destruct v as [|x [|y [|]]]; try done; repeat case_if; try done.
  by destruct (decode_fdb x (f_type st)) as [[] ?].
Qed.

Lemma fcp_reference_sw l : is_u16 (fcp_reference l).1.
Proof.
  assert (∀ fuel l st, is_u16 (fcp_parse fuel l st).1) as Hp.
  { induction fuel as [|fuel IH]; intros l' st; [done|]. cbn [fcp_parse].
    destruct (tlv_decode l') as [| |tag c v rest]; [done|done|].
    pose proof (fcp_field_sw tag v st). destruct (fcp_field tag v st) as [sw st']. case_if; [done|apply IH]. }
  unfold fcp_reference, fcp_contents. destruct (template_contents l) as [[|x v]|]; [done| |done].
  specialize (Hp (S (length (x :: v))) (x :: v) fcp_start). destruct (fcp_parse _ _ _) as [sw st]. case_if; [done|].
  unfold fcp_finish. by repeat case_if.
Qed.

Section create_ok.
Context {N : Type} `{HalNvmSpec N}.
Implicit Types s : store N.

#[export] Instance create_handler I `{!FsSpec I} : HandlerSpec I scos_cmd_create_file.
Proof.
  intros k c r b s HI [_ _ Hlc Hle Hd] Hr Hb. unfold scos_cmd_create_file.
  assert (handled I k r b (Some (SW_MEMORY_FAILURE, Ptr k, Ptr r, s))) by (by apply handled_refuse).
  destruct (k_lifecycle k); try done.
  all: case_if; [by apply handled_refuse|]; case_if; [by apply handled_refuse|].
  all: destruct (c_data c) as [|data]; [done|]; destruct Hd as [Hd Hbd]; unfold APDU_SHORT_LC_MAX in *.
  all: rewrite parse_fcp_eq by (done || lia); bind_simpl.
  all: pose proof (fcp_reference_sw (slice 0 (c_lc c) data)).
  all: destruct (fcp_reference (slice 0 (c_lc c) data)) as [sw req] eqn:Href.
  all: case_if; [by apply handled_refuse|]; subst sw.
  all: destruct (fcp_reference_ok _ _ (bytes_slice _ _ _ Hbd) Href) as (_ & _ & _ & _ & _ & Hty & _).
  all: pose proof (fs_inv_create s (k_sel k) req FS_INVALID_INDEX HI Hty) as Hw.
  all: apply wp_elim in Hw as ([[st o] s'] & -> & HI'); bind_simpl.
  all: case_if; [exists (fs_error_to_sw st)|exists SW_OK]; exists (k_sel k), r, b, s'; rewrite set_sel_same;
    split_and!; auto with card; done.
Qed.

#[export] Instance delete_handler I `{!FsSpec I} : HandlerSpec I scos_cmd_delete_file.
Proof.
  intros k c r b s HI [_ _ Hlc Hle Hd] Hr Hb. unfold scos_cmd_delete_file.
  assert (handled I k r b (Some (SW_MEMORY_FAILURE, Ptr k, Ptr r, s))) by (by apply handled_refuse).
  destruct (k_lifecycle k); try done.
  all: case_if; [by apply handled_refuse|].
  all: destruct (c_data c) as [|data]; [by apply handled_refuse|]; destruct Hd as [Hd Hbd].
  all: case_if; [by apply handled_refuse|].
  all: destruct (data_fid_some data Hbd) as (fid & -> & _); [lia|]; bind_simpl.
  all: destruct (fs_inv_delete s (k_sel k) fid HI) as (st & se' & s' & -> & HI' & _); bind_simpl.
  all: case_if; [exists (fs_error_to_sw st)|exists SW_OK]; exists se', r, b, s'; split_and!; auto with card; done.
Qed.

End create_ok.

(** ** Round trip with the template SELECT emits *)

Lemma fcp_parse_step f tag v rest st :
  tag_encodable tag → len v ≤ 127 →
  fcp_parse (S f) (tlv_encode tag v ++ rest) st =
    let '(sw, st') := fcp_field tag v st in if negb (sw =? SW_OK) then (sw, st') else fcp_parse f rest st'.
Proof. intros Ht Hv. cbn [fcp_parse]. by destruct (tlv_decode_encode tag v rest Ht Hv) as [c ->]. Qed.

Lemma fcp_tag_encodable tag : tag ∈ fcp_tags ∨ tag = TAG_FCP_TEMPLATE → tag_encodable tag.
Proof.
  intros Ht. left. unfold fcp_tags in Ht.
  destruct Ht as [Ht| ->]; [|done]. repeat (apply elem_of_cons in Ht as [->|Ht]; [done|]). by apply elem_of_nil in Ht.
Qed.

Lemma be_value_be16 x : is_u16 x → be_value (be16 x) = x.
Proof.
  intros Hx. unfold is_u16 in Hx. unfold be16, be_value. cbn [fold_left]. rewrite land_255, Z.shiftr_div_pow2 by done.
  change (2 ^ 8) with 256. unfold u8. lia.
Qed.

(** The template of [d] as a sequence of objects. *)
Definition fcp_objects (d : fs_descriptor) : list Z :=
  tlv_encode TAG_FILE_DESC [fs_iso_descriptor_byte (Ptr d)] ++ tlv_encode TAG_FILE_ID (be16 (d_file_id d)) ++
  (if fs_is_ef d then tlv_encode TAG_DATA_BYTES (be16 (d_size d)) else []) ++
  tlv_encode TAG_LIFE_CYCLE [u8 (d_lifecycle d)] ++
  (if fs_is_ef d && negb (d_sfi d =? FS_NO_SFI) then tlv_encode TAG_SFI [u8 (Z.shiftl (d_sfi d) 3)] else []).

Lemma fcp_bytes_objects d : fcp_bytes d = fcp_objects d.
Proof. unfold fcp_bytes, fcp_objects. by destruct (fs_is_ef d), (negb (d_sfi d =? FS_NO_SFI)). Qed.

Definition request_of (d : fs_descriptor) : fs_descriptor :=
  FsDescriptor (d_file_id d) (d_type d) (d_lifecycle d) FS_NO_PARENT (d_size d) 0 0 0 (d_sfi d) 0.

(** Each object of the template, read back. *)
Lemma field_fdb d st :
  have_fdb st = false → d_type d = FS_TYPE_DF ∨ fs_is_ef d = true →
  fcp_field TAG_FILE_DESC [fs_iso_descriptor_byte (Ptr d)] st =
    (SW_OK, FcpState (f_req st) true (have_fid st) (have_size st) (d_type d)).
Proof.
  intros Hf Hty. unfold fcp_field, fs_iso_descriptor_byte. cbn [Z.eqb TAG_FILE_DESC Pos.eqb]. rewrite Hf.
  destruct Hty as [->|Hty]; [done|]. unfold fs_is_ef in Hty. apply Z.eqb_eq in Hty as ->. done.
Qed.

Lemma field_fid x st :
  have_fid st = false → is_u16 x →
  fcp_field TAG_FILE_ID (be16 x) st =
    (SW_OK, FcpState (req_set_file_id (f_req st) x) (have_fdb st) true (have_size st) (f_type st)).
Proof.
  intros Hf Hx. pose proof (be_value_be16 x Hx) as Hb. revert Hb. unfold be16, be_value. cbn [fold_left].
  intros Hb. unfold fcp_field. cbn [Z.eqb TAG_FILE_DESC TAG_FILE_ID Pos.eqb]. rewrite Hf.
  by replace (u8 (Z.shiftr x 8) * 256 + u8 (Z.land x 255)) with x by lia.
Qed.

Lemma field_size x st :
  have_size st = false → 1 ≤ x ≤ FS_MAX_EF_SIZE →
  fcp_field TAG_DATA_BYTES (be16 x) st =
    (SW_OK, FcpState (req_set_size (f_req st) x) (have_fdb st) (have_fid st) true (f_type st)).
Proof.
  intros Hf Hx. unfold FS_MAX_EF_SIZE in Hx. unfold fcp_field. rewrite be_value_be16 by (unfold is_u16; lia). rewrite Hf.
  change (len (be16 x)) with 2. cbn [Z.eqb TAG_FILE_DESC TAG_FILE_ID TAG_DATA_BYTES Pos.eqb Z.ltb Z.compare orb].
  unfold FS_MAX_EF_SIZE. replace (32767 <? x) with false by lia. by replace (x =? 0) with false by lia.
Qed.

Lemma field_lc x st :
  create_lifecycle_ok x = true → is_u8 x →
  fcp_field TAG_LIFE_CYCLE [u8 x] st = (SW_OK, with_req st (req_set_lifecycle (f_req st) x)).
Proof. intros Hx Hb. rewrite u8_id by done. unfold fcp_field. cbn. by rewrite Hx. Qed.

Lemma field_sfi x st :
  0 ≤ x ≤ 30 → fcp_field TAG_SFI [u8 (Z.shiftl x 3)] st = (SW_OK, with_req st (req_set_sfi (f_req st) x)).
Proof.
  intros Hx. rewrite Z.shiftl_mul_pow2 by done. change (2 ^ 3) with 8. rewrite u8_id by (unfold is_u8; lia).
  unfold fcp_field. cbn [Z.eqb TAG_FILE_DESC TAG_FILE_ID TAG_DATA_BYTES TAG_LIFE_CYCLE TAG_SFI Pos.eqb].
  replace (x * 8 / 8) with x by lia. replace (x * 8 mod 8 =? 0) with true by lia. cbn [negb].
  by replace (30 <? x) with false by lia.
Qed.

Lemma fcp_parse_fcp_bytes d :
  desc_typed d → create_type_check d = None → create_lifecycle_ok (d_lifecycle d) = true →
  fcp_parse (S (length (fcp_bytes d))) (fcp_bytes d) fcp_start =
    (SW_OK, FcpState (req_set_type (request_of d) 0) true true (fs_is_ef d) (d_type d)).
Proof.
  intros [Hfid Hty Hlc _ Hsz _ _ _ Hsfi _] Hchk Hlco. pose proof (len_fcp_bytes d) as Hlen.
  assert (∃ m, S (length (fcp_bytes d)) = S (S (S (S (S (S m)))))) as [m ->].
  { exists (length (fcp_bytes d) - 5)%nat. unfold len in Hlen. lia. }
  rewrite fcp_bytes_objects. unfold fcp_objects.
  assert (∀ f tag v rest st, tag ∈ fcp_tags → len v ≤ 127 →
    fcp_parse (S f) (tlv_encode tag v ++ rest) st =
      let '(sw, st') := fcp_field tag v st in if negb (sw =? SW_OK) then (sw, st') else fcp_parse f rest st') as Hstep
    by (intros; apply fcp_parse_step; [apply fcp_tag_encodable; by left|done]).
  destruct (create_type_ok d Hchk) as (_ & _ & Hkind).
  rewrite Hstep, field_fdb by (done || tauto || (apply (bool_decide_unpack _); vm_compute; exact I)). cbv beta iota.
  cbn [Z.eqb Pos.eqb SW_OK negb].
  rewrite Hstep, field_fid by (done || (apply (bool_decide_unpack _); vm_compute; exact I)). cbv beta iota.
  cbn [Z.eqb Pos.eqb SW_OK negb f_req have_fdb have_size f_type have_fid].
  unfold create_type_check, FS_NO_SFI, FS_MAX_EF_SIZE in Hchk.
  destruct (fs_is_ef d) eqn:Hef; cbn [andb app].
  - unfold fs_is_ef in Hef. apply Z.eqb_eq in Hef. rewrite Hef in Hchk. cbn in Hchk.
    destruct (Z.eqb_spec (d_size d) 0); [done|]. destruct (Z.ltb_spec 32767 (d_size d)); [done|]. unfold is_u16 in Hsz.
    rewrite Hstep, field_size by (done || (unfold FS_MAX_EF_SIZE; lia) || (apply (bool_decide_unpack _); vm_compute; exact I)).
    cbv beta iota. cbn [Z.eqb Pos.eqb SW_OK negb f_req have_fdb have_size f_type have_fid].
    rewrite Hstep, field_lc by (done || (apply (bool_decide_unpack _); vm_compute; exact I)). cbv beta iota.
    cbn [Z.eqb Pos.eqb SW_OK negb f_req have_fdb have_size f_type have_fid with_req].
    unfold FS_NO_SFI. destruct (Z.eqb_spec (d_sfi d) 0) as [Hs|Hs]; cbn [negb].
    + cbn [fcp_parse tlv_decode strip_padding]. unfold request_of. by rewrite Hs.
    + cbn [negb orb andb] in Hchk. destruct (Z.ltb_spec (d_sfi d) 1); [done|]. destruct (Z.ltb_spec 30 (d_sfi d)); [done|].
      rewrite <- (app_nil_r (tlv_encode TAG_SFI _)).
      rewrite Hstep, field_sfi by (done || lia || (apply (bool_decide_unpack _); vm_compute; exact I)). cbv beta iota.
      cbn [Z.eqb Pos.eqb SW_OK negb fcp_parse tlv_decode strip_padding]. done.
  - destruct Hkind as [?|Hdf]; [done|]. rewrite Hdf in Hchk. cbn in Hchk.
    destruct (Z.eqb_spec (d_size d) 0) as [Hs|]; [|done]. destruct (Z.eqb_spec (d_sfi d) 0) as [Hs'|]; [|done].
    rewrite Hstep, field_lc by (done || (apply (bool_decide_unpack _); vm_compute; exact I)). cbv beta iota.
    cbn [Z.eqb Pos.eqb SW_OK negb fcp_parse tlv_decode strip_padding]. unfold request_of. by rewrite Hs, Hs'.
Qed.

(** ** Theorems *)

Lemma fcp_reference_bytes d :
  desc_typed d → create_type_check d = None → create_lifecycle_ok (d_lifecycle d) = true →
  fcp_reference (fcp_bytes d) = (SW_OK, request_of d) ∧
  fcp_reference (tlv_encode TAG_FCP_TEMPLATE (fcp_bytes d)) = (SW_OK, request_of d).
Proof.
  intros Hd Hchk Hlc. pose proof (len_fcp_bytes d) as Hlen.
  assert (fcp_contents (fcp_bytes d) = (SW_OK, request_of d)) as Hc.
  { unfold fcp_contents. rewrite (fcp_parse_fcp_bytes d Hd Hchk Hlc).
    destruct (fcp_bytes d); [change (len []) with 0 in Hlen; lia|].
    destruct (create_type_ok d Hchk) as (_ & _ & Hkind). unfold create_type_check, FS_NO_SFI, fs_is_ef in *.
    unfold fcp_finish. cbn [Z.eqb SW_OK Pos.eqb negb have_fdb have_fid orb f_type have_size f_req req_set_type d_sfi request_of].
    destruct (d_type d =? FS_TYPE_EF_TRANSPARENT) eqn:Hef; cbn [negb andb].
    - apply Z.eqb_eq in Hef. unfold request_of. by rewrite Hef.
    - destruct Hkind as [?|Hdf]; [done|]. rewrite Hdf in *. cbn in Hchk |- *. unfold FS_NO_SFI.
      destruct (d_size d =? 0); [|done]. destruct (d_sfi d =? 0); [|done]. cbn. unfold request_of. by rewrite Hdf. }
  split; unfold fcp_reference, template_contents.
  - rewrite fcp_bytes_objects. unfold fcp_objects at 1.
    destruct (tlv_decode_encode TAG_FILE_DESC [fs_iso_descriptor_byte (Ptr d)]
      (tlv_encode TAG_FILE_ID (be16 (d_file_id d)) ++
       (if fs_is_ef d then tlv_encode TAG_DATA_BYTES (be16 (d_size d)) else []) ++
       tlv_encode TAG_LIFE_CYCLE [u8 (d_lifecycle d)] ++
       (if fs_is_ef d && negb (d_sfi d =? FS_NO_SFI) then tlv_encode TAG_SFI [u8 (Z.shiftl (d_sfi d) 3)] else [])))
      as [c ->]; [apply fcp_tag_encodable; left; apply (bool_decide_unpack _); vm_compute; exact I|done|].
    cbn [Z.eqb Pos.eqb TAG_FILE_DESC TAG_FCP_TEMPLATE]. by rewrite <- fcp_bytes_objects.
  - rewrite <- (app_nil_r (tlv_encode TAG_FCP_TEMPLATE _)).
    destruct (tlv_decode_encode TAG_FCP_TEMPLATE (fcp_bytes d) []) as [c ->];
      [apply fcp_tag_encodable; by right|lia|]. done.
Qed.

(** [C29] The template SELECT returns for a file is one CREATE FILE accepts,
    bare or wrapped in tag 62, and it asks for a file with the same identifier,
    type, size, life cycle and short identifier. *)
Theorem fcp_build_parse_roundtrip d :
  desc_typed d → create_type_check d = None → create_lifecycle_ok (d_lifecycle d) = true →
  ∃ n b, fs_build_fcp (Ptr d) (Ptr (local_array 32)) 32 = Some (n, Ptr b) ∧
    parse_fcp (Ptr b) n = Some (SW_OK, request_of d) ∧
    parse_fcp (Ptr ([0x62; n] ++ slice 0 n b)) (n + 2) = Some (SW_OK, request_of d).
Proof.
  intros Hd Hchk Hlc. pose proof (len_fcp_bytes d) as Hlen. pose proof (bytes_fcp d) as Hb.
  destruct (fcp_reference_bytes d Hd Hchk Hlc) as [Hbare Hwrap].
  assert (len (local_array 32) = 32) as H32 by done.
  assert (slice 0 (len (fcp_bytes d)) (splice (local_array 32) 0 (fcp_bytes d)) = fcp_bytes d) as Hsl
    by (apply slice_splice_same; lia).
  eexists _, _. rewrite build_fcp_eq by (vm_compute; intuition congruence).
  replace (32 <? len (fcp_bytes d)) with false by lia. split; [reflexivity|]. split.
  - rewrite parse_fcp_eq; [by rewrite Hsl, Hbare| | |lia].
    + apply bytes_splice; [apply (bool_decide_unpack _); vm_compute; exact I|done].
    + rewrite len_splice; lia.
  - rewrite Hsl. change ([98; len (fcp_bytes d)] ++ fcp_bytes d) with (tlv_encode TAG_FCP_TEMPLATE (fcp_bytes d)).
    assert (len (tlv_encode TAG_FCP_TEMPLATE (fcp_bytes d)) = len (fcp_bytes d) + 2) as Hlt
      by (rewrite len_tlv_encode; cbn; lia).
    assert (bytes (tlv_encode TAG_FCP_TEMPLATE (fcp_bytes d))) as Hbt.
    { change (bytes (0x62 :: len (fcp_bytes d) :: fcp_bytes d)). rewrite !bytes_cons. unfold is_u8. split; [lia|]. by split; [lia|]. }
    rewrite parse_fcp_eq by (done || lia).
    rewrite <- Hlt, slice_0_all, Hwrap. done.
Qed.

Lemma fcp_build_parse_roundtrip_witness :
  ∃ n b, fs_build_fcp (Ptr sample_req) (Ptr (local_array 32)) 32 = Some (n, Ptr b) ∧
    parse_fcp (Ptr b) n = Some (SW_OK, request_of sample_req) ∧
    parse_fcp (Ptr ([0x62; n] ++ slice 0 n b)) (n + 2) = Some (SW_OK, request_of sample_req).
Proof.
  apply (fcp_build_parse_roundtrip sample_req); [constructor; vm_compute; split; congruence|reflexivity|reflexivity].
Defined.


(** An FCP for the EF 6F30 of eight bytes. *)
Definition sample_fcp : list Z := [0x62; 11; 0x82; 1; 1; 0x83; 2; 0x6F; 0x30; 0x80; 2; 0; 8].


(** What it asks for. *)
Example sample_fcp_described : fcp_request sample_fcp (req_set_sfi (request_of sample_req) 0).
Proof.
  destruct (fcp_reference_ok sample_fcp (req_set_sfi (request_of sample_req) 0)) as (v & objs & ? & ? & ? & _);
    [solve_bytes|vm_compute; reflexivity|by exists v, objs].
Qed.

Section commands_view.
Context {N : Type} `{HalNvmSpec N}.
Implicit Types s : store N.

Lemma create_command_view s k c r :
  card_inv s (k_sel k) → cmd_wf c →
  ∃ sw s', scos_cmd_create_file (Ptr k) (Ptr c) (Ptr r) s = Some (sw, Ptr k, Ptr r, s') ∧ card_inv s' (k_sel k) ∧
    (sw ≠ SW_OK → s' = s) ∧
    (sw = SW_OK → ∃ data req i, c_data c = Ptr data ∧ parse_fcp (Ptr data) (c_lc c) = Some (SW_OK, req) ∧
       created s s' (k_sel k) req i).
Proof.
  intros HI [_ _ Hlc _ Hd].
  assert (∀ sw, sw ≠ SW_OK → ∃ sw0 s', Some (sw, Ptr k, Ptr r, s) = Some (sw0, Ptr k, Ptr r, s') ∧
    card_inv s' (k_sel k) ∧ (sw0 ≠ SW_OK → s' = s) ∧
    (sw0 = SW_OK → ∃ data req i, c_data c = Ptr data ∧ parse_fcp (Ptr data) (c_lc c) = Some (SW_OK, req) ∧
       created s s' (k_sel k) req i)) as Hout by (intros sw ?; by exists sw, s).
  unfold scos_cmd_create_file. destruct (k_lifecycle k); try (by apply Hout).
  all: case_if; [by apply Hout|]; case_if; [by apply Hout|].
  all: destruct (c_data c) as [|data]; [done|]; destruct Hd as [Hd Hbd]; unfold APDU_SHORT_LC_MAX in *.
  all: destruct (parse_fcp (Ptr data) (c_lc c)) as [[sw req]|] eqn:Hp;
    [|rewrite parse_fcp_eq in Hp by (done || lia); done]; bind_simpl.
  all: case_if; [by apply Hout|]; subst sw.
  all: destruct (fcp_reference_ok (slice 0 (c_lc c) data) req) as (_ & _ & _ & _ & _ & Hty & _);
    [by apply bytes_slice|rewrite parse_fcp_eq in Hp by (done || lia); congruence|].
  all: pose proof HI as (Hs & Ht & Hse & Hsy).
  all: destruct (create_view s (k_sel k) req FS_INVALID_INDEX Hs Ht Hse Hty)
    as (st & o & s' & -> & Hs' & Ht' & Hse' & Hsy' & _ & Hf & Hok); bind_simpl.
  all: assert (card_inv s' (k_sel k)) by (split_and!; auto).
  all: case_if; [rewrite Hf by (by intros ->); apply Hout; unfold scos_fs_error_to_sw; rewrite fs_error_to_sw_ok; by intros ->|].
  all: eexists _, s'; split; [done|]; split; [done|]; split; [done|]; intros _; exists data, req, o.
  all: split; [done|]; split; [done|]; apply Hok; by apply fs_ok_true.
Qed.

Lemma delete_command_view s k c r :
  card_inv s (k_sel k) → cmd_wf c →
  ∃ sw se' s', scos_cmd_delete_file (Ptr k) (Ptr c) (Ptr r) s = Some (sw, Ptr (set_sel k se'), Ptr r, s') ∧
    card_inv s' se' ∧ (sw ≠ SW_OK → s' = s ∧ se' = k_sel k) ∧
    (sw = SW_OK → ∃ data fid i, c_data c = Ptr data ∧ data_fid data = Some fid ∧ deleted s s' (k_sel k) se' fid i).
Proof.
  intros HI [_ _ Hlc _ Hd].
  assert (∀ sw, sw ≠ SW_OK → ∃ sw0 se' s', Some (sw, Ptr k, Ptr r, s) = Some (sw0, Ptr (set_sel k se'), Ptr r, s') ∧
    card_inv s' se' ∧ (sw0 ≠ SW_OK → s' = s ∧ se' = k_sel k) ∧
    (sw0 = SW_OK → ∃ data fid i, c_data c = Ptr data ∧ data_fid data = Some fid ∧
      deleted s s' (k_sel k) se' fid i)) as Hout.
  { intros sw ?. exists sw, (k_sel k), s. by rewrite set_sel_same. }
  unfold scos_cmd_delete_file. destruct (k_lifecycle k); try (by apply Hout).
  all: case_if; [by apply Hout|]; destruct (c_data c) as [|data]; [by apply Hout|]; destruct Hd as [Hd Hbd].
  all: case_if; [by apply Hout|]; destruct (data_fid_some data Hbd) as (fid & Hfid & _); [lia|]; rewrite Hfid; bind_simpl.
  all: pose proof HI as (Hs & Ht & Hse & Hsy).
  all: destruct (delete_view s (k_sel k) fid Hs Ht Hse)
    as (st & se' & s' & -> & Hs' & Ht' & Hse' & Hsy' & _ & Hf & Hok); bind_simpl.
  all: assert (card_inv s' se') by (split_and!; auto).
  all: case_if.
  all: try (destruct Hf as [-> ->]; [by intros ->|]; rewrite set_sel_same; apply Hout;
            unfold scos_fs_error_to_sw; rewrite fs_error_to_sw_ok; by intros ->).
  all: eexists _, se', s'; split; [done|]; split; [done|]; split; [done|]; intros _;
    destruct Hok as [i Hi]; [by apply fs_ok_true|]; by exists data, fid, i.
Qed.

End commands_view.

(** [C27] CREATE FILE either refuses and changes nothing at all, or it has added
    exactly the file its template describes below the current DF; the
    selection never moves. *)
Theorem create_command_spec {N} `{HalNvmSpec N} (s : store N) k c r :
  card_inv s (k_sel k) → cmd_wf c →
  ∃ sw s', scos_cmd_create_file (Ptr k) (Ptr c) (Ptr r) s = Some (sw, Ptr k, Ptr r, s') ∧ card_inv s' (k_sel k) ∧
    (sw ≠ SW_OK → s' = s) ∧
    (sw = SW_OK → ∃ data req i, c_data c = Ptr data ∧ parse_fcp (Ptr data) (c_lc c) = Some (SW_OK, req) ∧
       created s s' (k_sel k) req i).
Proof. apply create_command_view. Qed.

(** DELETE FILE either refuses and changes nothing at all, or it has
    removed exactly one childless file, named by its data field, from the
    current DF. *)
Theorem delete_command_spec {N} `{HalNvmSpec N} (s : store N) k c r :
  card_inv s (k_sel k) → cmd_wf c →
  ∃ sw se' s', scos_cmd_delete_file (Ptr k) (Ptr c) (Ptr r) s = Some (sw, Ptr (set_sel k se'), Ptr r, s') ∧
    card_inv s' se' ∧ (sw ≠ SW_OK → s' = s ∧ se' = k_sel k) ∧
    (sw = SW_OK → ∃ data fid i, c_data c = Ptr data ∧ data_fid data = Some fid ∧ deleted s s' (k_sel k) se' fid i).
Proof. apply delete_command_view. Qed.

#[local] Existing Instance small_config.

Definition sample_create : apdu_command := parsed_command 0 0xE0 0 0 sample_fcp None.
Definition sample_delete : apdu_command := parsed_command 0 0xE4 0 0 [0x2F; 0x00] None.

Lemma sample_create_wf : cmd_wf sample_create ∧ cmd_wf sample_delete.
Proof.
  split; constructor; vm_compute; intuition (try congruence).
  all: apply (bool_decide_unpack _); vm_compute; exact I.
Qed.

Lemma create_command_spec_witness :
  ∃ sw s', scos_cmd_create_file (Ptr factory_kernel) (Ptr sample_create) (Ptr sample_rsp) factory_store =
      Some (sw, Ptr factory_kernel, Ptr sample_rsp, s') ∧ card_inv s' root_sel ∧
    (sw ≠ SW_OK → s' = factory_store) ∧
    (sw = SW_OK → ∃ data req i, Ptr sample_fcp = Ptr data ∧ parse_fcp (Ptr data) 13 = Some (SW_OK, req) ∧
       created factory_store s' root_sel req i).
Proof.
  apply (create_command_spec factory_store factory_kernel sample_create sample_rsp);
    [apply factory_card|apply sample_create_wf].
Defined.

Lemma delete_command_spec_witness :
  ∃ sw se' s', scos_cmd_delete_file (Ptr factory_kernel) (Ptr sample_delete) (Ptr sample_rsp) factory_store =
      Some (sw, Ptr (set_sel factory_kernel se'), Ptr sample_rsp, s') ∧
    card_inv s' se' ∧ (sw ≠ SW_OK → s' = factory_store ∧ se' = root_sel) ∧
    (sw = SW_OK → ∃ data fid i, Ptr [0x2F; 0x00] = Ptr data ∧ data_fid data = Some fid ∧
       deleted factory_store s' root_sel se' fid i).
Proof.
  apply (delete_command_spec factory_store factory_kernel sample_delete sample_rsp);
    [apply factory_card|apply sample_create_wf].
Defined.
