(* ===== verification/Dispatch.v ===== *)
(** * Command dispatch (src/apdu/apdu_dispatch.c, include/apdu/dispatch.h) *)

From stdpp Require Import strings.
From S2P Require Import Prelude OsMem Sw Apdu Hal SimHal FsTypes FsStore Fs FsTree KernelTypes CmdSelect CmdBinary CmdCreate.
#[local] Open Scope Z_scope.

Definition INS_SELECT : Z := 0xA4.
Definition INS_GET_RESPONSE : Z := 0xC0.
Definition INS_VERIFY : Z := 0x20.
Definition INS_READ_BINARY : Z := 0xB0.
Definition INS_UPDATE_BINARY : Z := 0xD6.
Definition INS_GET_DATA : Z := 0xCA.
Definition INS_CREATE_FILE : Z := 0xE0.
Definition INS_DELETE_FILE : Z := 0xE4.

Record scos_cmd_entry (N : Type) := CmdEntry { e_ins : Z; e_name : string; e_handler : scos_cmd_handler N }.
Arguments CmdEntry {N}.
Arguments e_ins {N}.
Arguments e_name {N}.
Arguments e_handler {N}.

Section dispatch.
Context {N : Type} `{HalNvm N}.

Definition k_commands : list (scos_cmd_entry N) :=
  [ CmdEntry INS_SELECT "SELECT" scos_cmd_select;
    CmdEntry INS_READ_BINARY "READ BINARY" scos_cmd_read_binary;
    CmdEntry INS_UPDATE_BINARY "UPDATE BINARY" scos_cmd_update_binary;
    CmdEntry INS_CREATE_FILE "CREATE FILE" scos_cmd_create_file;
    CmdEntry INS_DELETE_FILE "DELETE FILE" scos_cmd_delete_file ].

Fixpoint dispatch_loop (table : list (scos_cmd_entry N)) (k : ptr scos_kernel) (c : apdu_command)
    (rsp : ptr apdu_response) (s : store N) : option (Z * ptr scos_kernel * ptr apdu_response * store N) :=
  match table with
  | [] => Some (SW_INS_NOT_SUPPORTED, k, rsp, s)
  | e :: table => if e_ins e =? c_ins c then e_handler e k (Ptr c) rsp s else dispatch_loop table k c rsp s
  end.

Definition scos_dispatch : scos_cmd_handler N := λ k cmd rsp s,
  match k, cmd, rsp with
  | Ptr _, Ptr c, Ptr _ => dispatch_loop k_commands k c rsp s
  | _, _, _ => Some (SW_NO_PRECISE_DIAGNOSIS, k, rsp, s)
  end.

End dispatch.

Definition scos_ins_name (ins : Z) : string :=
  if ins =? INS_SELECT then "SELECT" else
  if ins =? INS_GET_RESPONSE then "GET RESPONSE" else
  if ins =? INS_VERIFY then "VERIFY" else
  if ins =? INS_READ_BINARY then "READ BINARY" else
  if ins =? INS_UPDATE_BINARY then "UPDATE BINARY" else
  if ins =? INS_GET_DATA then "GET DATA" else
  if ins =? INS_CREATE_FILE then "CREATE FILE" else
  if ins =? INS_DELETE_FILE then "DELETE FILE" else "UNKNOWN".

Section dispatch_ok.
Context {N : Type} `{HalNvmSpec N}.

(** The table only holds handlers that keep their promise, so the dispatcher
    keeps it too. *)
#[export] Instance dispatch_handler I `{!FsSpec I} : HandlerSpec I scos_dispatch.
Proof.
  assert (Forall (λ e, HandlerSpec I (e_handler e)) k_commands) as Ht.
  { unfold k_commands. repeat (apply Forall_cons; split; [cbn; apply _|]). by apply Forall_nil. }
  intros k c r b s HI Hc Hr Hb. unfold scos_dispatch. induction Ht as [|e table He _ IH]; [by apply handled_refuse|].
  cbn [dispatch_loop]. case_if; [by apply He|done].
Qed.

(** The table routes: each instruction to its own handler, and nothing else. *)
Lemma scos_dispatch_cases k c r (s : store N) :
  scos_dispatch (Ptr k) (Ptr c) (Ptr r) s =
    if c_ins c =? INS_SELECT then scos_cmd_select (Ptr k) (Ptr c) (Ptr r) s else
    if c_ins c =? INS_READ_BINARY then scos_cmd_read_binary (Ptr k) (Ptr c) (Ptr r) s else
    if c_ins c =? INS_UPDATE_BINARY then scos_cmd_update_binary (Ptr k) (Ptr c) (Ptr r) s else
    if c_ins c =? INS_CREATE_FILE then scos_cmd_create_file (Ptr k) (Ptr c) (Ptr r) s else
    if c_ins c =? INS_DELETE_FILE then scos_cmd_delete_file (Ptr k) (Ptr c) (Ptr r) s else
    Some (SW_INS_NOT_SUPPORTED, Ptr k, Ptr r, s).
Proof.
  unfold scos_dispatch, k_commands. cbn [dispatch_loop e_ins e_handler].
  rewrite !(Z.eqb_sym (c_ins c)). done.
Qed.

(** Distinct instructions, and each entry's name is its trace name. *)
Lemma k_commands_names :
  NoDup (e_ins <$> k_commands (N := N)) ∧
  Forall (λ e, scos_ins_name (e_ins e) = e_name e) (k_commands (N := N)).
Proof.
  split; [apply (bool_decide_unpack _); vm_compute; exact I|]. unfold k_commands.
  repeat (apply Forall_cons; split; [reflexivity|]). by apply Forall_nil.
Qed.

End dispatch_ok.

Section dispatch_view.
Context {N : Type} `{HalNvmSpec N}.

(** No command half-executes. *)
Lemma dispatch_atomic (s : store N) k c r b :
  card_inv s (k_sel k) → cmd_wf c → rsp_wf r b → bytes b → r_len r = 0 → r_cap r = SCOS_APDU_RSP_MAX →
  r_overflow r = false → atomic s k (scos_dispatch (Ptr k) (Ptr c) (Ptr r) s).
Proof.
  intros HI Hc Hr Hb Hl0 Hcap Hov. rewrite scos_dispatch_cases.
  case_if; [|case_if; [|case_if; [|case_if; [|case_if]]]].
  - destruct (select_view s k c r b HI Hc Hr Hb Hl0) as (sw & se' & r' & b' & -> & _ & Hr' & Hov' & Hsw & _);
      [rewrite Hcap; unfold SCOS_APDU_RSP_MAX; lia|done|].
    exists sw, se', r', b', s. split_and!; try done. intros Hne. by destruct (Hsw Hne).
  - by eapply read_binary_atomic.
  - by eapply update_binary_atomic.
  - destruct (create_command_view s k c r HI Hc) as (sw & s' & -> & _ & Hsw & _).
    exists sw, (k_sel k), r, b, s'. rewrite set_sel_same. split_and!; try done. intros Hne. split; [done|by apply Hsw].
  - destruct (delete_command_view s k c r HI Hc) as (sw & se' & s' & -> & _ & Hsw & _).
    exists sw, se', r, b, s'. split_and!; try done. intros Hne. by destruct (Hsw Hne).
  - by eapply atomic_same.
Qed.

End dispatch_view.

(** Each implemented instruction byte reaches its own handler, every
    other one is answered 6D00 without touching anything, and the trace names
    agree with the table. *)
Theorem scos_dispatch_routes {N} `{HalNvmSpec N} k c r (s : store N) :
  scos_dispatch (Ptr k) (Ptr c) (Ptr r) s =
    (if c_ins c =? INS_SELECT then scos_cmd_select (Ptr k) (Ptr c) (Ptr r) s else
     if c_ins c =? INS_READ_BINARY then scos_cmd_read_binary (Ptr k) (Ptr c) (Ptr r) s else
     if c_ins c =? INS_UPDATE_BINARY then scos_cmd_update_binary (Ptr k) (Ptr c) (Ptr r) s else
     if c_ins c =? INS_CREATE_FILE then scos_cmd_create_file (Ptr k) (Ptr c) (Ptr r) s else
     if c_ins c =? INS_DELETE_FILE then scos_cmd_delete_file (Ptr k) (Ptr c) (Ptr r) s else
     Some (SW_INS_NOT_SUPPORTED, Ptr k, Ptr r, s)) ∧
  NoDup (e_ins <$> k_commands (N := N)) ∧
  Forall (λ e, scos_ins_name (e_ins e) = e_name e) (k_commands (N := N)).
Proof. split; [apply scos_dispatch_cases|apply k_commands_names]. Qed.
