(* ===== verification/Kernel.v ===== *)
(** * The kernel (src/kernel/kernel.c, include/os/kernel.h)

    Cold boot, warm reset and the execution of one command APDU. *)

From S2P Require Import Prelude OsMem Sw Apdu Hal SimHal FsTypes FsStore Fs FsTree KernelTypes CmdSelect CmdBinary CmdCreate Dispatch.

Section kernel.
Context {N : Type} `{HalNvm N}.

Definition scos_init (k : ptr scos_kernel) (s : store N) : option (scos_status * ptr scos_kernel * store N) :=
  match k with
  | NULL => Some (SCOS_ERR_PARAM, NULL, s)
  | Ptr _ =>
      let k := set_lifecycle scos_kernel_zero SCOS_LC_INITIALISING in
      '(fst, s) ← fs_init s;
      if negb (fs_ok fst) then Some (SCOS_ERR_STATE, Ptr (set_lifecycle k SCOS_LC_FS_ERROR), s) else
      match fs_selection_reset (Ptr (k_sel k)) with
      | NULL => None
      | Ptr sel => Some (SCOS_OK, Ptr (set_lifecycle (set_sel k sel) SCOS_LC_OPERATIONAL), s)
      end
  end.

Definition scos_reset (k : ptr scos_kernel) : ptr scos_kernel :=
  match k with
  | NULL => NULL
  | Ptr k =>
      let resets := k_reset_count k in
      let k := set_reset_count scos_kernel_zero (u32 (resets + 1)) in
      match fs_selection_reset (Ptr (k_sel k)) with
      | NULL => NULL
      | Ptr sel => Ptr (set_lifecycle (set_sel k sel) SCOS_LC_OPERATIONAL)
      end
  end.

(** [*rsp_len = apdu_rsp_finish(&r, sw); return SCOS_OK;] *)
Definition answer (k : ptr scos_kernel) (r : ptr apdu_response) (sw : Z) (s : store N)
    : option (scos_status * ptr scos_kernel * ptr (list Z) * ptr Z * store N) :=
  '(n, r) ← apdu_rsp_finish r sw;
  match r with NULL => None | Ptr r => Some (SCOS_OK, k, r_buf r, Ptr n, s) end.

(** The response buffer is a region of its own here; in the card loop it is
    the kernel's [rsp] member, which no command reads. *)
Definition scos_process (k : ptr scos_kernel) (cmd : ptr (list Z)) (cmd_len : Z)
    (rsp : ptr (list Z)) (rsp_cap : Z) (rsp_len : ptr Z) (s : store N)
    : option (scos_status * ptr scos_kernel * ptr (list Z) * ptr Z * store N) :=
  match k, rsp, rsp_len with
  | Ptr k', Ptr _, Ptr _ =>
    if rsp_cap <? 2 then Some (SCOS_ERR_PARAM, k, rsp, rsp_len, s) else
    let r := apdu_rsp_init (Ptr (ApduResponse NULL 0 0 false)) rsp rsp_cap in
    match k_lifecycle k' with
    | SCOS_LC_TERMINATED => answer k r SW_CONDITIONS_NOT_SATISFIED s
    | SCOS_LC_FS_ERROR => answer k r SW_MEMORY_FAILURE s
    | SCOS_LC_OPERATIONAL =>
        '(pst, c) ← apdu_parse cmd cmd_len (Ptr apdu_command_zero);
        match pst, c with
        | APDU_PARSE_OK, Ptr c' =>
            match apdu_check_cla (c_cla c') with
            | APDU_CLA_OK =>
                '(sw, k, r, s) ← scos_dispatch k c r s;
                answer k r sw s
            | cst => answer k r (apdu_cla_status_sw cst) s
            end
        | _, _ => answer k r (apdu_parse_status_sw pst) s
        end
    | _ => answer k r SW_CONDITIONS_NOT_SATISFIED s
    end
  | _, _, _ => Some (SCOS_ERR_PARAM, k, rsp, rsp_len, s)
  end.

End kernel.

(** ** One command *)

Section process.
Context {N : Type} `{HalNvmSpec N}.
Implicit Types (s : store N) (I : store N → fs_selection → Prop).

(** The kernel answered: at least the two status bytes, at most the capacity,
    everything but the selection as it was. *)
Definition answered I (k : scos_kernel) (rsp : list Z) (cap : Z)
    (res : option (scos_status * ptr scos_kernel * ptr (list Z) * ptr Z * store N)) : Prop :=
  ∃ se' rsp' n s', res = Some (SCOS_OK, Ptr (set_sel k se'), Ptr rsp', Ptr n, s') ∧
    2 ≤ n ≤ cap ∧ len rsp' = len rsp ∧ bytes rsp' ∧ I s' se'.

Lemma fresh_rsp_wf rsp cap :
  2 ≤ cap < 65536 → cap ≤ len rsp → rsp_wf (ApduResponse (Ptr rsp) cap 0 false) rsp.
Proof. intros. constructor; cbn; done || lia. Qed.

Lemma answer_ok I k se r b sw s rsp cap :
  rsp_wf r b → bytes b → len b = len rsp → r_cap r = cap → I s se →
  answered I k rsp cap (answer (Ptr (set_sel k se)) (Ptr r) sw s).
Proof.
  intros Hr Hb Hl Hcap HI. unfold answer. rewrite (rsp_finish_wf r b sw Hr). bind_simpl.
  cbn [r_buf]. pose proof Hr as [_ Hc Hroom Hlen].
  eexists se, _, _, s. split; [reflexivity|]. split; [case_if; lia|].
  split; [rewrite len_splice; [lia|case_if; lia|]; change (len [_; _]) with 2; case_if; lia|]. split; [|done].
  apply bytes_splice; [done|]. repeat constructor; apply u8_range.
Qed.

(** Every command is answered, in every state, and the invariant is kept. *)
Lemma process_answers I `{!FsSpec I} k s cmd n rsp cap x :
  I s (k_sel k) → bytes cmd → 0 ≤ n ≤ len cmd → n < 65536 →
  bytes rsp → 2 ≤ cap < 65536 → cap ≤ len rsp →
  answered I k rsp cap (scos_process (Ptr k) (Ptr cmd) n (Ptr rsp) cap (Ptr x) s).
Proof.
  intros HI Hcmd Hn Hn16 Hb Hcap Hroom. unfold scos_process. replace (cap <? 2) with false by lia.
  cbn [apdu_rsp_init is_null]. set (r := ApduResponse (Ptr rsp) cap 0 false).
  pose proof (fresh_rsp_wf rsp cap Hcap Hroom) as Hr. fold r in Hr.
  assert (∀ sw, answered I k rsp cap (answer (Ptr k) (Ptr r) sw s)) as Hans.
  { intros sw. rewrite <- (set_sel_same k) at 2. by apply (answer_ok I k _ r rsp). }
  destruct (k_lifecycle k); try apply Hans.
  pose proof (apdu_parse_safe cmd n apdu_command_zero Hcmd Hn Hn16) as Hp.
  apply wp_elim in Hp as ([pst c] & -> & Hc). bind_simpl.
  destruct pst; try apply Hans. destruct Hc as (c' & -> & Hcw).
  destruct (apdu_check_cla (c_cla c')); try apply Hans.
  destruct (dispatch_handler I k c' r rsp s HI Hcw Hr Hb) as (sw & se' & r' & b' & s' & -> & _ & HI' & Hr' & Hl & Hb' & Hcap').
  bind_simpl. by apply (answer_ok I k se' r' b').
Qed.

(** A card in FS_ERROR or TERMINATED answers its status word and does nothing. *)
Definition dead_answer (lc : scos_lifecycle) : Z :=
  match lc with SCOS_LC_FS_ERROR => SW_MEMORY_FAILURE | _ => SW_CONDITIONS_NOT_SATISFIED end.

Lemma process_dead k s cmd n rsp cap x :
  k_lifecycle k ≠ SCOS_LC_OPERATIONAL → 2 ≤ cap < 65536 → cap ≤ len rsp →
  ∃ rsp', scos_process (Ptr k) cmd n (Ptr rsp) cap (Ptr x) s = Some (SCOS_OK, Ptr k, Ptr rsp', Ptr 2, s) ∧
    take 2 rsp' = [sw1 (dead_answer (k_lifecycle k)); sw2 (dead_answer (k_lifecycle k))].
Proof.
  intros Hlc Hcap Hroom. unfold scos_process. replace (cap <? 2) with false by lia. cbn [apdu_rsp_init is_null].
  pose proof (fresh_rsp_wf rsp cap Hcap Hroom) as Hr.
  assert (∀ sw, ∃ rsp', answer (Ptr k) (Ptr (ApduResponse (Ptr rsp) cap 0 false)) sw s =
    Some (SCOS_OK, Ptr k, Ptr rsp', Ptr 2, s) ∧ take 2 rsp' = [sw1 sw; sw2 sw]) as Hans.
  { intros sw. unfold answer. rewrite (rsp_finish_wf _ rsp sw Hr). bind_simpl. cbn [r_buf r_overflow r_len].
    eexists. split; [reflexivity|]. apply (take_splice rsp 0 [sw1 sw; sw2 sw]). lia. }
  destruct (k_lifecycle k); try done; apply Hans.
Qed.

(** An operational kernel hands a well-formed interindustry command to the
    dispatcher, over an empty response; the buffer may go on behind the command. *)
Lemma process_command k s cla ins p1 p2 d le t rsp cap x :
  k_lifecycle k = SCOS_LC_OPERATIONAL → valid_body d le → cla = 0 → 2 ≤ cap →
  scos_process (Ptr k) (Ptr (encode_command cla ins p1 p2 d le ++ t)) (len (encode_command cla ins p1 p2 d le))
    (Ptr rsp) cap (Ptr x) s =
  ('(sw, k, r, s) ← scos_dispatch (Ptr k) (Ptr (with_tail (parsed_command cla ins p1 p2 d le) t))
     (Ptr (ApduResponse (Ptr rsp) cap 0 false)) s;
   answer k r sw s).
Proof.
  intros Hlc Hv -> Hcap. unfold scos_process. replace (cap <? 2) with false by lia. cbn [apdu_rsp_init is_null].
  rewrite Hlc, apdu_parse_encode_buffer by done. bind_simpl. done.
Qed.

Lemma answer_bytes k r b sw s :
  rsp_wf r b → r_overflow r = false →
  ∃ rsp' n, answer k (Ptr r) sw s = Some (SCOS_OK, k, Ptr rsp', Ptr n, s) ∧
    take (Z.to_nat n) rsp' = response_bytes r ++ [sw1 sw; sw2 sw].
Proof.
  intros Hr Hov. unfold answer. rewrite (rsp_finish_wf r b sw Hr), Hov. bind_simpl. cbn [r_buf].
  eexists _, _. split; [reflexivity|]. pose proof Hr as [Hbuf _ ? ?]. unfold response_bytes. rewrite Hbuf.
  apply (take_splice b (r_len r) [sw1 sw; sw2 sw]). lia.
Qed.

End process.

(** ** The life of a card *)

Lemma parsed_command_wf cla ins p1 p2 d le t :
  is_u8 p1 → is_u8 p2 → bytes d → bytes t → valid_body d le → cmd_wf (with_tail (parsed_command cla ins p1 p2 d le) t).
Proof.
  intros H1 H2 Hd Ht [Hl Hle]. unfold APDU_SHORT_LC_MAX, APDU_SHORT_LE_MAX in *. unfold parsed_command, with_tail.
  constructor; cbn [c_p1 c_p2 c_lc c_le c_le_present c_data]; unfold APDU_SHORT_LC_MAX, APDU_SHORT_LE_MAX;
    [done|done|pose proof (len_nonneg d); lia|by destruct le|].
  case_decide as Hnil; [by subst|]. assert (0 < len d) by (destruct d; [done|rewrite len_cons; pose proof (len_nonneg d); lia]).
  rewrite !len_app. pose proof (len_nonneg (match le with Some n => [le_to_wire n] | None => [] end)). pose proof (len_nonneg t).
  split; [lia|]. apply bytes_app; [|done]. apply bytes_app; [done|]. destruct le as [m|]; [|by apply Forall_nil].
  apply Forall_singleton. unfold is_u8, le_to_wire. case_if; lia.
Qed.

Section life.
Context {N : Type} `{HalNvmSpec N}.
Implicit Types (s : store N).

(** What can happen to a powered card between two commands; [Some] is the
    response on the link.  Losing power keeps the non-volatile memory only. *)
Inductive card_step : scos_kernel * store N → option (list Z) → scos_kernel * store N → Prop :=
| step_command k s cmd n rsp x k' rsp' m s' :
    bytes cmd → 0 ≤ n ≤ len cmd → n ≤ SCOS_APDU_CMD_MAX → bytes rsp → len rsp = SCOS_APDU_RSP_MAX →
    scos_process (Ptr k) (Ptr cmd) n (Ptr rsp) SCOS_APDU_RSP_MAX (Ptr x) s =
      Some (SCOS_OK, Ptr k', Ptr rsp', Ptr m, s') →
    card_step (k, s) (Some (take (Z.to_nat m) rsp')) (k', s')
| step_reset k s k' : scos_reset (Ptr k) = Ptr k' → card_step (k, s) None (k', s)
| step_power k s k0 m st k' s' :
    scos_init (Ptr k0) (Store m (s_nvm s)) = Some (st, Ptr k', s') → card_step (k, s) None (k', s').

(** Everything that can follow the first boot of a blank chip. *)
Inductive reachable : scos_kernel * store N → Prop :=
| reachable_boot k0 s st k s' :
    nvm_wf (s_nvm s) → nvm_ready (s_nvm s) → blank_card s →
    FS_DESC_BASE + FS_DESC_SIZE * FS_MAX_FILES ≤ len (eeprom s) → factory_data ≤ len (flash s) →
    scos_init (Ptr k0) s = Some (st, Ptr k, s') → reachable (k, s')
| reachable_step c out c' : reachable c → card_step c out c' → reachable c'.

Record operational (c : scos_kernel * store N) : Prop := {
  op_lifecycle : k_lifecycle c.1 = SCOS_LC_OPERATIONAL;
  op_inv : card_inv c.2 (k_sel c.1);
}.

Lemma init_operational k0 s s' :
  fs_init s = Some (FS_OK, s') → store_ok s' → sb_synced s' → tree_inv (view s') →
  ∃ k, scos_init (Ptr k0) s = Some (SCOS_OK, Ptr k, s') ∧ operational (k, s').
Proof.
  intros Hi Hs Hsy Ht. unfold scos_init. rewrite Hi. bind_simpl. cbn [fs_ok negb fs_selection_reset].
  eexists. split; [reflexivity|]. constructor; [done|]. split; [done|]. split; [done|]. split; [by apply sel_reset_inv|done].
Qed.

Lemma boot_operational k0 s :
  nvm_wf (s_nvm s) → nvm_ready (s_nvm s) → blank_card s →
  FS_DESC_BASE + FS_DESC_SIZE * FS_MAX_FILES ≤ len (eeprom s) → factory_data ≤ len (flash s) →
  ∃ k s', scos_init (Ptr k0) s = Some (SCOS_OK, Ptr k, s') ∧ operational (k, s').
Proof.
  intros Hwf Hr Hb He Hf. destruct (init_blank s Hwf Hr Hb He Hf) as (s' & Hi & Hs & Hsy & _ & Hv).
  destruct (init_operational k0 s s' Hi Hs Hsy) as (k & ? & ?); [rewrite Hv; apply factory_tree|by exists k, s'].
Qed.

Lemma operational_command k s cmd n rsp x :
  operational (k, s) → bytes cmd → 0 ≤ n ≤ len cmd → n ≤ SCOS_APDU_CMD_MAX → bytes rsp → len rsp = SCOS_APDU_RSP_MAX →
  answered card_inv k rsp SCOS_APDU_RSP_MAX (scos_process (Ptr k) (Ptr cmd) n (Ptr rsp) SCOS_APDU_RSP_MAX (Ptr x) s).
Proof.
  intros [_ Hinv] Hcmd Hn Hlc Hb Hl. unfold SCOS_APDU_CMD_MAX, SCOS_APDU_RSP_MAX in *.
  apply (process_answers card_inv); done || lia.
Qed.

Lemma step_operational c out c' : operational c → card_step c out c' → operational c'.
Proof.
  intros Hop Hstep. destruct Hstep as [k s cmd n rsp x k' rsp' m s' Hcmd Hn Hlc Hb Hl Hp|k s k' Hr|k s k0 m st k' s' Hi].
  - destruct (operational_command k s cmd n rsp x Hop Hcmd Hn Hlc Hb Hl) as (se' & rsp1 & n1 & s1 & Hp1 & _ & _ & _ & Hinv).
    rewrite Hp in Hp1. injection Hp1 as -> _ _ ->. destruct Hop. by constructor.
  - destruct Hop as [Hlc (Hs & Ht & _ & Hsy)]. cbn in *. injection Hr as <-. constructor; [done|].
    split; [done|]. split; [done|]. split; [by apply sel_reset_inv|done].
  - destruct Hop as [_ (Hs & Ht & _ & Hsy)]. cbn in Hs, Ht, Hsy.
    assert (fs_init (Store m (s_nvm s)) = Some (FS_OK, s)) as Hfi by (apply init_mounted; [by apply mount_synced|done|done]).
    destruct (init_operational k0 _ s Hfi Hs Hsy Ht) as (k1 & Hi1 & Hop1). rewrite Hi in Hi1. by injection Hi1 as _ -> ->.
Qed.

Lemma reachable_operational c : reachable c → operational c.
Proof.
  induction 1 as [k0 s st k s' Hwf Hr Hb He Hf Hi|c out c' _ IH Hstep]; [|by eapply step_operational].
  destruct (boot_operational k0 s Hwf Hr Hb He Hf) as (k1 & s1 & Hi1 & Hop). rewrite Hi in Hi1.
  by injection Hi1 as _ -> ->.
Qed.

(** Power loss between commands loses the volatile state and nothing else. *)
Lemma power_cycle_operational k s k0 m :
  operational (k, s) →
  ∃ k', scos_init (Ptr k0) (Store m (s_nvm s)) = Some (SCOS_OK, Ptr k', s) ∧ operational (k', s).
Proof.
  intros [_ (Hs & Ht & _ & Hsy)]. cbn in Hs, Ht, Hsy. apply init_operational; [|done..].
  apply init_mounted; [by apply mount_synced|done|done].
Qed.

(** ** Writing and reading back, APDU to APDU *)

(** A stretch [off .. off+len data) of a usable elementary file that the
    parameters address. *)
Record addressed (v : fs_view) (se : fs_selection) (p1 p2 i off : Z) (d : fs_descriptor) (data : list Z) : Prop := {
  ad_p1 : is_u8 p1; ad_p2 : is_u8 p2;
  ad_data : bytes data; ad_len : 0 < len data ≤ 255;
  ad_target : binary_target v se p1 p2 i off;
  ad_file : file_at v i = Some d; ad_usable : fs_is_usable d = true;
  ad_fits : off + len data ≤ d_size d
}.

Lemma addressed_offset v se p1 p2 i off d data : addressed v se p1 p2 i off d data → 0 ≤ off.
Proof. intros [? ? _ _ (? & _ & _ & _ & [(_ & _ & ->)|(_ & _ & ->)]) _ _ _]; unfold is_u8 in *; lia. Qed.

Lemma update_apdu k s p1 p2 data i off d t rsp x :
  operational (k, s) → addressed (view s) (k_sel k) p1 p2 i off d data → bytes t → bytes rsp → len rsp = SCOS_APDU_RSP_MAX →
  ∃ rsp1 n1 s', scos_process (Ptr k) (Ptr (encode_command 0 INS_UPDATE_BINARY p1 p2 data None ++ t))
      (len (encode_command 0 INS_UPDATE_BINARY p1 p2 data None)) (Ptr rsp) SCOS_APDU_RSP_MAX (Ptr x) s =
      Some (SCOS_OK, Ptr k, Ptr rsp1, Ptr n1, s') ∧ take (Z.to_nat n1) rsp1 = [0x90; 0x00] ∧ operational (k, s') ∧
    updated s s' i d off data ∧ ef_holds (view s') d off data.
Proof.
  intros [Hlc Hinv] Had Ht Hrsp Hlr. pose proof (addressed_offset _ _ _ _ _ _ _ _ Had) as Hoff.
  destruct Had as [H1 H2 Hb Hl Htgt Hd Hus Hfit]. cbn in Hlc, Hinv. unfold SCOS_APDU_RSP_MAX in *.
  assert (valid_body data None) as Hv by (split; unfold APDU_SHORT_LC_MAX; done || lia).
  pose proof (parsed_command_wf 0 INS_UPDATE_BINARY p1 p2 data None t H1 H2 Hb Ht Hv) as Hw.
  set (c := with_tail _ t) in Hw. set (r := ApduResponse (Ptr rsp) 258 0 false).
  assert (rsp_wf r rsp) as Hr by (apply fresh_rsp_wf; lia).
  assert (data ≠ []) as Hne by (intros ->; change (len []) with 0 in Hl; lia).
  assert (c_data c = Ptr (data ++ t)) as Hcd
    by (unfold c, with_tail, parsed_command; cbn [c_data]; by rewrite decide_False, app_nil_r).
  destruct (update_stores s k c r i off d (data ++ t) data Hinv Hw Hcd) as (s' & Hup & Hinv' & Hupd & Hh); try done.
  { change (c_lc c) with (len data). rewrite slice_app_l, slice_0_all by lia. done. }
  destruct (answer_bytes (Ptr k) r rsp SW_OK s' Hr eq_refl) as (rsp1 & n1 & Ha & Hres).
  exists rsp1, n1, s'. rewrite process_command by (done || lia). rewrite scos_dispatch_cases. fold c r.
  change (c_ins c) with INS_UPDATE_BINARY. cbn [Z.eqb Pos.eqb INS_UPDATE_BINARY INS_READ_BINARY INS_SELECT]. rewrite Hup. bind_simpl.
  split; [done|]. split; [exact Hres|]. by split; [constructor|].
Qed.

Lemma read_apdu k s p1 p2 data i off d t rsp x :
  operational (k, s) → addressed (view s) (k_sel k) p1 p2 i off d data → ef_holds (view s) d off data → bytes t →
  bytes rsp → len rsp = SCOS_APDU_RSP_MAX →
  ∃ rsp2 n2, scos_process (Ptr k) (Ptr (encode_command 0 INS_READ_BINARY p1 p2 [] (Some (len data)) ++ t))
      (len (encode_command 0 INS_READ_BINARY p1 p2 [] (Some (len data)))) (Ptr rsp) SCOS_APDU_RSP_MAX (Ptr x) s =
      Some (SCOS_OK, Ptr k, Ptr rsp2, Ptr n2, s) ∧ take (Z.to_nat n2) rsp2 = data ++ [0x90; 0x00].
Proof.
  intros [Hlc Hinv] Had Hh Ht Hrsp Hlr. pose proof (addressed_offset _ _ _ _ _ _ _ _ Had) as Hoff.
  destruct Had as [H1 H2 Hb Hl Htgt Hd Hus Hfit]. cbn in Hlc, Hinv. unfold SCOS_APDU_RSP_MAX in *.
  assert (valid_body [] (Some (len data))) as Hv by (split; unfold APDU_SHORT_LC_MAX, APDU_SHORT_LE_MAX; [done|lia]).
  pose proof (parsed_command_wf 0 INS_READ_BINARY p1 p2 [] (Some (len data)) t H1 H2 ltac:(by apply Forall_nil) Ht Hv) as Hw.
  set (c := with_tail _ t) in Hw. set (r := ApduResponse (Ptr rsp) 258 0 false).
  assert (rsp_wf r rsp) as Hr by (apply fresh_rsp_wf; lia).
  destruct (read_returns s k c r rsp i off d data) as (r' & b' & Hrd & Hr' & Hov' & Hres); try done.
  destruct (answer_bytes (Ptr k) r' b' SW_OK s Hr' Hov') as (rsp2 & n2 & Ha & Hb2).
  exists rsp2, n2. rewrite process_command by (done || lia). rewrite scos_dispatch_cases. fold c r.
  change (c_ins c) with INS_READ_BINARY. cbn [Z.eqb Pos.eqb INS_UPDATE_BINARY INS_READ_BINARY INS_SELECT]. rewrite Hrd. bind_simpl.
  split; [done|]. by rewrite Hb2, Hres.
Qed.

(** An update leaves every file where it was. *)
Lemma updated_addressed s s' i d off data se p1 p2 j off2 e data2 :
  updated s s' i d off data → addressed (view s) se p1 p2 j off2 e data2 → addressed (view s') se p1 p2 j off2 e data2.
Proof.
  intros [Hsl _ _] [H1 H2 Hb Hl Htgt Hd Hus Hfit].
  assert (∀ j, file_at (view s') j = file_at (view s) j) as Hfa by (intros m; unfold file_at; by rewrite Hsl).
  split; try done; [|by rewrite Hfa]. destruct Htgt as (f & Hf & ?). exists f. by rewrite Hfa.
Qed.

End life.

Section atomicity.
Context {N : Type} `{HalNvmSpec N}.
Implicit Types (s : store N).

(** The status word at the end of every response, and what it promises. *)
Lemma process_atomic k s cmd n rsp x :
  operational (k, s) → bytes cmd → 0 ≤ n ≤ len cmd → n < 65536 → bytes rsp → len rsp = SCOS_APDU_RSP_MAX →
  ∃ k' rsp' m s' sw payload,
    scos_process (Ptr k) (Ptr cmd) n (Ptr rsp) SCOS_APDU_RSP_MAX (Ptr x) s = Some (SCOS_OK, Ptr k', Ptr rsp', Ptr m, s') ∧
    take (Z.to_nat m) rsp' = payload ++ [sw1 sw; sw2 sw] ∧ (sw ≠ SW_OK → k' = k ∧ s' = s).
Proof.
  intros [Hlc HI] Hcmd Hn Hn16 Hb Hl. cbn in Hlc, HI. unfold scos_process, SCOS_APDU_RSP_MAX in *.
  cbn [Z.ltb Z.compare Pos.compare Pos.compare_cont apdu_rsp_init is_null]. rewrite Hlc.
  set (r := ApduResponse (Ptr rsp) 258 0 false).
  assert (rsp_wf r rsp) as Hr by (apply fresh_rsp_wf; lia).
  assert (∀ sw, ∃ k' rsp' m s' sw' payload, answer (Ptr k) (Ptr r) sw s = Some (SCOS_OK, Ptr k', Ptr rsp', Ptr m, s') ∧
    take (Z.to_nat m) rsp' = payload ++ [sw1 sw'; sw2 sw'] ∧ (sw' ≠ SW_OK → k' = k ∧ s' = s)) as Hans.
  { intros sw. destruct (answer_bytes (Ptr k) r rsp sw s Hr eq_refl) as (rsp' & m & ? & ?).
    by exists k, rsp', m, s, sw, (response_bytes r). }
  pose proof (apdu_parse_safe cmd n apdu_command_zero Hcmd Hn Hn16) as Hp.
  apply wp_elim in Hp as ([pst c] & -> & Hc). bind_simpl.
  destruct pst; try apply Hans. destruct Hc as (c' & -> & Hcw). destruct (apdu_check_cla (c_cla c')); try apply Hans.
  destruct (dispatch_atomic s k c' r rsp HI Hcw Hr Hb eq_refl eq_refl eq_refl)
    as (sw & se' & r' & b' & s' & -> & Hr' & Hov' & Hsw). bind_simpl.
  destruct (answer_bytes (Ptr (set_sel k se')) r' b' sw s' Hr' Hov') as (rsp' & m & ? & ?).
  exists (set_sel k se'), rsp', m, s', sw, (response_bytes r'). split_and!; try done.
  intros Hne. destruct (Hsw Hne) as [-> ->]. by rewrite set_sel_same.
Qed.

End atomicity.

(** ** Theorems *)

(** [C1] The central entry point answers every input whatsoever, in every
    lifecycle and on every device content the store can stand: SCOS_OK, at
    least the two status bytes, at most the capacity; no access leaves a
    buffer, and the kernel changes in its selection only. *)
Theorem scos_process_always_answers {N} `{HalNvmSpec N} k (s : store N) cmd n rsp cap x :
  safe_inv s (k_sel k) → bytes cmd → 0 ≤ n ≤ len cmd → n < 65536 → bytes rsp → 2 ≤ cap < 65536 → cap ≤ len rsp →
  ∃ se' rsp' m s', scos_process (Ptr k) (Ptr cmd) n (Ptr rsp) cap (Ptr x) s =
      Some (SCOS_OK, Ptr (set_sel k se'), Ptr rsp', Ptr m, s') ∧
    2 ≤ m ≤ cap ∧ len rsp' = len rsp ∧ bytes rsp' ∧ safe_inv s' se'.
Proof. intros. by apply (process_answers safe_inv). Qed.

(** [C2] A card that booted from a blank chip stays operational on a
    well-formed file tree, and answers every command, after any sequence of
    commands, warm resets and power cycles. *)
Theorem reachable_card_serves {N} `{HalNvmSpec N} k (s : store N) :
  reachable (k, s) →
  operational (k, s) ∧
  ∀ cmd, bytes cmd → len cmd ≤ SCOS_APDU_CMD_MAX → ∃ out c', card_step (k, s) (Some out) c' ∧ 2 ≤ len out.
Proof.
  intros Hop%reachable_operational. split; [done|]. intros cmd Hcmd Hlc.
  assert (bytes (local_array SCOS_APDU_RSP_MAX)) as Hb by (apply (bool_decide_unpack _); vm_compute; exact I).
  destruct (operational_command k s cmd (len cmd) (local_array SCOS_APDU_RSP_MAX) 0 Hop Hcmd ltac:(pose proof (len_nonneg cmd); lia) Hlc Hb eq_refl)
    as (se' & rsp' & n & s' & Hp & Hn & Hl & _ & _).
  exists (take (Z.to_nat n) rsp'), (set_sel k se', s'). pose proof (len_nonneg cmd).
  split; [by eapply (step_command k s cmd (len cmd) (local_array SCOS_APDU_RSP_MAX) 0); try done; lia|].
  change (len (local_array SCOS_APDU_RSP_MAX)) with 258 in Hl. unfold SCOS_APDU_RSP_MAX in Hn.
  unfold len in *. rewrite length_take. lia.
Qed.

(** [C3] Every response ends in a status word, and a command that is not
    answered 9000 has changed nothing: neither the selection, nor a file, nor
    any byte of the non-volatile memory. *)
Theorem refused_command_changes_nothing {N} `{HalNvmSpec N} k (s : store N) cmd n rsp x :
  operational (k, s) → bytes cmd → 0 ≤ n ≤ len cmd → n < 65536 → bytes rsp → len rsp = SCOS_APDU_RSP_MAX →
  ∃ k' rsp' m s' sw payload,
    scos_process (Ptr k) (Ptr cmd) n (Ptr rsp) SCOS_APDU_RSP_MAX (Ptr x) s = Some (SCOS_OK, Ptr k', Ptr rsp', Ptr m, s') ∧
    take (Z.to_nat m) rsp' = payload ++ [sw1 sw; sw2 sw] ∧ (sw ≠ SW_OK → k' = k ∧ s' = s).
Proof. apply process_atomic. Qed.

(** [C5] UPDATE BINARY then READ BINARY, as command APDUs: the card answers
    9000, and gives back the very bytes with 9000. *)
Theorem update_then_read_apdus {N} `{HalNvmSpec N} k (s : store N) p1 p2 data i off d rsp x :
  operational (k, s) → is_u8 p1 → is_u8 p2 → bytes data → 0 < len data ≤ 255 →
  bytes rsp → len rsp = SCOS_APDU_RSP_MAX →
  binary_target (view s) (k_sel k) p1 p2 i off → file_at (view s) i = Some d → fs_is_usable d = true →
  off + len data ≤ d_size d →
  ∃ rsp1 n1 s' rsp2 n2,
    scos_process (Ptr k) (Ptr (encode_command 0 INS_UPDATE_BINARY p1 p2 data None))
      (len (encode_command 0 INS_UPDATE_BINARY p1 p2 data None)) (Ptr rsp) SCOS_APDU_RSP_MAX (Ptr x) s =
      Some (SCOS_OK, Ptr k, Ptr rsp1, Ptr n1, s') ∧ take (Z.to_nat n1) rsp1 = [0x90; 0x00] ∧ operational (k, s') ∧
    scos_process (Ptr k) (Ptr (encode_command 0 INS_READ_BINARY p1 p2 [] (Some (len data))))
      (len (encode_command 0 INS_READ_BINARY p1 p2 [] (Some (len data)))) (Ptr rsp) SCOS_APDU_RSP_MAX (Ptr x) s' =
      Some (SCOS_OK, Ptr k, Ptr rsp2, Ptr n2, s') ∧ take (Z.to_nat n2) rsp2 = data ++ [0x90; 0x00].
Proof.
  intros Hop H1 H2 Hb Hl Hrsp Hlr Htgt Hd Hus Hfit.
  assert (addressed (view s) (k_sel k) p1 p2 i off d data) as Had by (by split).
  assert (bytes []) as Hnil by apply Forall_nil, Logic.I.
  destruct (update_apdu k s p1 p2 data i off d [] rsp x Hop Had Hnil Hrsp Hlr) as (rsp1 & n1 & s' & Hup & Hr1 & Hop' & Hupd & Hh).
  destruct (read_apdu k s' p1 p2 data i off d [] rsp x Hop') as (rsp2 & n2 & Hrd & Hr2); try done.
  { by eapply updated_addressed. }
  rewrite !app_nil_r in *. by exists rsp1, n1, s', rsp2, n2.
Qed.

(** Outside the operational state the card executes nothing: 6581 in
    FS_ERROR, 6985 otherwise, whatever is sent. *)
Theorem dead_card_only_answers {N} `{HalNvmSpec N} k (s : store N) cmd n rsp cap x :
  k_lifecycle k ≠ SCOS_LC_OPERATIONAL → 2 ≤ cap < 65536 → cap ≤ len rsp →
  ∃ rsp', scos_process (Ptr k) cmd n (Ptr rsp) cap (Ptr x) s = Some (SCOS_OK, Ptr k, Ptr rsp', Ptr 2, s) ∧
    take 2 rsp' = [sw1 (dead_answer (k_lifecycle k)); sw2 (dead_answer (k_lifecycle k))].
Proof. apply process_dead. Qed.

(** A power cycle between two commands restores the very file system that
    was there, with the MF selected. *)
Theorem power_cycle_restores {N} `{HalNvmSpec N} k (s : store N) k0 m :
  operational (k, s) →
  ∃ k', scos_init (Ptr k0) (Store m (s_nvm s)) = Some (SCOS_OK, Ptr k', s) ∧ operational (k', s).
Proof. apply power_cycle_operational. Qed.

(** A warm reset leaves nothing of the volatile state but the reset count:
    the MF is selected, the buffers are cleared, and the card is operational
    whatever its lifecycle was, FS_ERROR and TERMINATED included. *)
Lemma scos_reset_clears k :
  scos_reset (Ptr k) =
    Ptr (ScosKernel SCOS_LC_OPERATIONAL (u32 (k_reset_count k + 1)) (FsSelection FS_ROOT_INDEX FS_INVALID_INDEX)
           (local_array SCOS_APDU_CMD_MAX) 0 (local_array SCOS_APDU_RSP_MAX) 0).
Proof. done. Qed.

(** ** Witnesses *)

#[local] Existing Instance small_config.

Lemma factory_operational : operational (factory_kernel, factory_store).
Proof. constructor; [reflexivity|apply factory_card]. Qed.

Lemma factory_safe : safe_inv factory_store root_sel.
Proof. apply (fs_inv_safe (I := card_inv) factory_store root_sel factory_card). Qed.

Lemma sample_buffer : bytes (local_array SCOS_APDU_RSP_MAX).
Proof. apply sample_rsp_wf. Qed.

Lemma factory_reachable : ∃ k, reachable (k, factory_store).
Proof.
  destruct blank_store_facts as (Hwf & Hr & Hb & He & Hf).
  destruct (init_operational scos_kernel_zero blank_store factory_store) as (k & Hi & _); [apply factory_ok..|].
  exists k. exact (reachable_boot scos_kernel_zero blank_store SCOS_OK k factory_store Hwf Hr Hb He Hf Hi).
Qed.

Lemma scos_process_always_answers_witness :
  ∃ se' rsp' m s', scos_process (Ptr factory_kernel) (Ptr [0x80; 0x13]) 2 (Ptr (local_array SCOS_APDU_RSP_MAX)) 258 (Ptr 0)
      factory_store = Some (SCOS_OK, Ptr (set_sel factory_kernel se'), Ptr rsp', Ptr m, s') ∧
    2 ≤ m ≤ 258 ∧ len rsp' = 258 ∧ bytes rsp' ∧ safe_inv s' se'.
Proof.
  apply (scos_process_always_answers factory_kernel factory_store [0x80; 0x13] 2 (local_array SCOS_APDU_RSP_MAX) 258 0);
    [apply factory_safe|solve_bytes|split; vm_compute; discriminate|reflexivity|apply sample_buffer
    |split; [vm_compute; discriminate|reflexivity]|vm_compute; discriminate].
Defined.

Lemma reachable_card_serves_witness :
  ∃ k, operational (k, factory_store) ∧
    ∀ cmd, bytes cmd → len cmd ≤ SCOS_APDU_CMD_MAX → ∃ out c', card_step (k, factory_store) (Some out) c' ∧ 2 ≤ len out.
Proof. destruct factory_reachable as [k Hk]. exists k. apply (reachable_card_serves k factory_store Hk). Defined.

Lemma refused_command_changes_nothing_witness :
  ∃ k' rsp' m s' sw payload,
    scos_process (Ptr factory_kernel) (Ptr [0; 0xA4; 0; 0; 2; 0x12; 0x34]) 7 (Ptr (local_array SCOS_APDU_RSP_MAX))
      SCOS_APDU_RSP_MAX (Ptr 0) factory_store = Some (SCOS_OK, Ptr k', Ptr rsp', Ptr m, s') ∧
    take (Z.to_nat m) rsp' = payload ++ [sw1 sw; sw2 sw] ∧ (sw ≠ SW_OK → k' = factory_kernel ∧ s' = factory_store).
Proof.
  apply (refused_command_changes_nothing factory_kernel factory_store [0; 0xA4; 0; 0; 2; 0x12; 0x34] 7);
    [apply factory_operational|solve_bytes|split; vm_compute; discriminate|reflexivity|apply sample_buffer|reflexivity].
Defined.

Lemma update_then_read_apdus_witness :
  ∃ rsp1 n1 s' rsp2 n2,
    scos_process (Ptr factory_kernel) (Ptr [0; 0xD6; 0x81; 0x03; 2; 7; 9]) 7 (Ptr (local_array SCOS_APDU_RSP_MAX))
      SCOS_APDU_RSP_MAX (Ptr 0) factory_store = Some (SCOS_OK, Ptr factory_kernel, Ptr rsp1, Ptr n1, s') ∧
    take (Z.to_nat n1) rsp1 = [0x90; 0x00] ∧ operational (factory_kernel, s') ∧
    scos_process (Ptr factory_kernel) (Ptr [0; 0xB0; 0x81; 0x03; 2]) 5 (Ptr (local_array SCOS_APDU_RSP_MAX))
      SCOS_APDU_RSP_MAX (Ptr 0) s' = Some (SCOS_OK, Ptr factory_kernel, Ptr rsp2, Ptr n2, s') ∧
    take (Z.to_nat n2) rsp2 = [7; 9] ++ [0x90; 0x00].
Proof.
  apply (update_then_read_apdus factory_kernel factory_store 0x81 0x03 [7; 9] 1 3 factory_ef (local_array SCOS_APDU_RSP_MAX) 0);
    [apply factory_operational|unfold is_u8; lia|unfold is_u8; lia|solve_bytes|split; [reflexivity|vm_compute; discriminate]
    |apply sample_buffer|reflexivity|apply factory_target|apply factory_has; reflexivity|reflexivity|vm_compute; discriminate].
Defined.

Lemma dead_card_only_answers_witness :
  ∃ rsp', scos_process (Ptr (set_lifecycle factory_kernel SCOS_LC_FS_ERROR)) (Ptr [0; 0xA4; 0; 0]) 4
      (Ptr (local_array SCOS_APDU_RSP_MAX)) 258 (Ptr 0) factory_store =
      Some (SCOS_OK, Ptr (set_lifecycle factory_kernel SCOS_LC_FS_ERROR), Ptr rsp', Ptr 2, factory_store) ∧
    take 2 rsp' = [0x65; 0x81].
Proof.
  apply (dead_card_only_answers (set_lifecycle factory_kernel SCOS_LC_FS_ERROR) factory_store (Ptr [0; 0xA4; 0; 0]) 4
           (local_array SCOS_APDU_RSP_MAX) 258 0);
    [discriminate|split; [vm_compute; discriminate|reflexivity]|vm_compute; discriminate].
Defined.

Lemma power_cycle_restores_witness :
  ∃ k', scos_init (Ptr scos_kernel_zero) (Store (Superblock false 0 0 0) (s_nvm factory_store)) =
      Some (SCOS_OK, Ptr k', factory_store) ∧ operational (k', factory_store).
Proof.
  apply (power_cycle_restores factory_kernel factory_store scos_kernel_zero (Superblock false 0 0 0)).
  apply factory_operational.
Defined.
