(* ===== verification/SameCard.v ===== *)
(** * One card on every memory

    The card OS is written against hal.h; this file proves that nothing of the
    memory device shows through it.  Two devices of any kinds that keep the
    contract of Hal.v and hold the same bytes are the same card: every function
    of fs_store.c, fs.c, the command handlers and kernel.c gives the same
    results on both and leaves them holding the same bytes, so that whole runs of
    commands, warm resets and power cycles are the same, response by response. *)

From S2P Require Import Prelude OsMem Crc16 Sw Apdu Tlv Hal SimHal ArmHal FsTypes FsStore Fs FsTree KernelTypes CmdSelect CmdBinary CmdCreate Dispatch Kernel.

(** ** Runs of a card *)

(** What a terminal does to a card: it sends a command, signals a warm reset,
    or removes and restores power, whatever the RAM holds afterwards. *)
Inductive card_event := Command (cmd : list Z) | WarmReset | PowerCycle (k : scos_kernel) (m : superblock).

Definition event_ok (e : card_event) : Prop :=
  match e with
  | Command cmd => bytes cmd ∧ len cmd < 65536
  | WarmReset => True
  | PowerCycle _ m => is_u16 (sb_max_files m) ∧ is_u32 (sb_data_top m)
  end.

Section run.
Context {N : Type} `{HalNvm N}.

(** One event on the kernel and the file system: the response, if any, and what
    is there afterwards. *)
Definition card_do (e : card_event) (k : scos_kernel) (s : store N) : option (list Z * scos_kernel * store N) :=
  match e with
  | Command cmd =>
      '(_, k, rsp, n, s) ← scos_process (Ptr k) (Ptr cmd) (len cmd) (Ptr (local_array SCOS_APDU_RSP_MAX))
                             SCOS_APDU_RSP_MAX (Ptr 0) s;
      match k, rsp, n with Ptr k, Ptr rsp, Ptr n => Some (take (Z.to_nat n) rsp, k, s) | _, _, _ => None end
  | WarmReset => match scos_reset (Ptr k) with Ptr k => Some ([], k, s) | NULL => None end
  | PowerCycle k0 m =>
      '(_, k, s) ← scos_init (Ptr k0) (Store m (s_nvm s));
      match k with Ptr k => Some ([], k, s) | NULL => None end
  end.

Fixpoint card_run (es : list card_event) (k : scos_kernel) (s : store N)
    : option (list (list Z) * scos_kernel * store N) :=
  match es with
  | [] => Some ([], k, s)
  | e :: es =>
      '(out, k, s) ← card_do e k s;
      '(outs, k, s) ← card_run es k s;
      Some (out :: outs, k, s)
  end.

End run.

Section run_ok.
Context {N : Type} `{HalNvmSpec N}.
Implicit Types s : store N.

(** Every event is survived, with the memory-safety invariant of KernelTypes.v. *)
Lemma card_do_total e k s :
  event_ok e → safe_inv s (k_sel k) → wp (card_do e k s) (λ '(_, k', s'), safe_inv s' (k_sel k')).
Proof.
  intros He Hs. destruct e as [cmd| |k0 m]; cbn [card_do].
  - destruct He as [Hb Hl]. pose proof (len_nonneg cmd).
    destruct (process_answers safe_inv k s cmd (len cmd) (local_array SCOS_APDU_RSP_MAX) SCOS_APDU_RSP_MAX 0)
      as (se' & rsp' & n & s' & -> & _ & _ & _ & Hs'); done || lia || apply sample_rsp_wf.
  - split; [apply Hs|]. by constructor.
  - assert (store_safe (Store m (s_nvm s))) as Hm by (destruct Hs as [[] _], He; by constructor).
    unfold scos_init. destruct (wp_elim _ _ (fs_init_total _ Hm)) as ([st s'] & -> & Hs'). bind_simpl.
    cbv beta iota. by destruct (fs_ok st).
Qed.

Lemma card_run_total es k s :
  Forall event_ok es → safe_inv s (k_sel k) → wp (card_run es k s) (λ '(_, k', s'), safe_inv s' (k_sel k')).
Proof.
  intros Hes. revert k s. induction Hes as [|e es He _ IH]; intros k s Hs; [done|]. cbn [card_run].
  wp_step card_do_total; [done|done|]. intros [[out k1] s1] Hs1.
  eapply wp_bind, wp_mono; [by apply IH|]. by intros [[outs k2] s2] ?.
Qed.

End run_ok.

(** ** Two devices *)

Section same.
Context {N1 N2 : Type} `{HalNvmSpec N1} `{HalNvmSpec N2}.

(** Two powered devices with the same contents under the same superblock mirror. *)
Record same_store (s1 : store N1) (s2 : store N2) : Prop := {
  sm_wf1 : nvm_wf (s_nvm s1); sm_wf2 : nvm_wf (s_nvm s2);
  sm_ready1 : nvm_ready (s_nvm s1); sm_ready2 : nvm_ready (s_nvm s2);
  sm_sb : s_sb s1 = s_sb s2;
  sm_mem r : nvm_region r → nvm_mem (s_nvm s1) r = nvm_mem (s_nvm s2) r;
}.

(** Two computations that give the same result and leave the same card, or are
    both undefined. *)
Definition agree {A} : option (A * store N1) → option (A * store N2) → Prop :=
  option_Forall2 (λ x y, x.1 = y.1 ∧ same_store x.2 y.2).

Lemma agree_ret {A} (a : A) s1 s2 : same_store s1 s2 → agree (Some (a, s1)) (Some (a, s2)).
Proof. by constructor. Qed.

Lemma agree_none {A} : @agree A None None.
Proof. constructor. Qed.

(** A step that changes the card, and one that only reads it. *)
Lemma agree_bind {A B} (x : option (A * store N1)) y (f : A * store N1 → option (B * store N1)) g :
  agree x y → (∀ a s1 s2, same_store s1 s2 → agree (f (a, s1)) (g (a, s2))) → agree (x ≫= f) (y ≫= g).
Proof. intros [[a s1] [b s2] [E Hs]|] Hf; [|constructor]. cbn in E. subst b. by apply Hf. Qed.

Lemma agree_read {A B} (x y : option A) (f : A → option (B * store N1)) g :
  x = y → (∀ a, y = Some a → agree (f a) (g a)) → agree (x ≫= f) (y ≫= g).
Proof. intros -> Hf. destruct y; [by apply Hf|constructor]. Qed.

Lemma same_with_sb s1 s2 b : same_store s1 s2 → same_store (Store b (s_nvm s1)) (Store b (s_nvm s2)).
Proof. intros []. by constructor. Qed.

Lemma same_size s1 s2 r : same_store s1 s2 → nvm_region r → hal_nvm_size (s_nvm s1) r = hal_nvm_size (s_nvm s2) r.
Proof. intros [] Hr. rewrite !nvm_size_mem by done. f_equal. auto. Qed.

(** *** The memory interface *)

Lemma read_same s1 s2 r off d k :
  same_store s1 s2 → nvm_region r → is_u32 off → 0 < k ≤ len d → is_u32 k →
  hal_nvm_read (s_nvm s1) r off (Ptr d) k = hal_nvm_read (s_nvm s2) r off (Ptr d) k.
Proof.
  intros [Hw1 Hw2 Hr1 Hr2 _ Hm] Hr Hoff Hk Hk32. specialize (Hm r Hr).
  destruct (decide (off + k ≤ len (nvm_mem (s_nvm s2) r))).
  - rewrite !nvm_read_ok; rewrite ?Hm; try done; lia.
  - rewrite !nvm_read_range; rewrite ?Hm; try done; lia.
Qed.

Lemma write_same s1 s2 r off b k :
  same_store s1 s2 → nvm_region r → is_u32 off → 0 < k ≤ len b → is_u32 k → bytes b →
  ∃ st n1 n2, hal_nvm_write (s_nvm s1) r off (Ptr b) k = Some (st, n1) ∧
    hal_nvm_write (s_nvm s2) r off (Ptr b) k = Some (st, n2) ∧ same_store (set_nvm s1 n1) (set_nvm s2 n2).
Proof.
  intros [Hw1 Hw2 Hr1 Hr2 Hsb Hm] Hr Hoff Hk Hk32 Hb. pose proof (Hm r Hr) as Hmr.
  destruct (decide (off + k ≤ len (nvm_mem (s_nvm s2) r))).
  - destruct (nvm_write_ok (s_nvm s1) r off b k) as (n1 & E1 & ? & ? & Hm1 & Ho1); rewrite ?Hmr; try done; [lia|].
    destruct (nvm_write_ok (s_nvm s2) r off b k) as (n2 & E2 & ? & ? & Hm2 & Ho2); try done; [lia|].
    exists HAL_OK, n1, n2. split; [done|]. split; [done|]. constructor; try done. intros r' Hr'. cbn.
    destruct (decide (r' = r)) as [->|]; [by rewrite Hm1, Hm2, Hmr|]. rewrite Ho1, Ho2 by done. by apply Hm.
  - exists HAL_ERR_RANGE, (s_nvm s1), (s_nvm s2).
    rewrite !nvm_write_range; rewrite ?Hmr; done || lia.
Qed.

Lemma sync_same s1 s2 :
  same_store s1 s2 →
  ∃ st n1 n2, hal_nvm_sync (s_nvm s1) = Some (st, n1) ∧ hal_nvm_sync (s_nvm s2) = Some (st, n2) ∧
    same_store (set_nvm s1 n1) (set_nvm s2 n2).
Proof.
  intros [Hw1 Hw2 Hr1 Hr2 Hsb Hm].
  destruct (nvm_sync_ok (s_nvm s1) Hw1 Hr1) as (n1 & E1 & ? & ? & Hm1).
  destruct (nvm_sync_ok (s_nvm s2) Hw2 Hr2) as (n2 & E2 & ? & ? & Hm2).
  exists HAL_OK, n1, n2. split; [done|]. split; [done|]. constructor; try done. intros r Hr. cbn.
  rewrite Hm1, Hm2. by apply Hm.
Qed.

(** *** fs_store.c *)

Lemma write_sync_same s1 s2 off raw n :
  same_store s1 s2 → is_u32 off → 0 < n → len raw = n → is_u32 n → bytes raw →
  agree (write_sync s1 off raw n) (write_sync s2 off raw n).
Proof.
  intros Hs Hoff Hn Hl Hn32 Hb. unfold write_sync.
  destruct (write_same s1 s2 HAL_NVM_EEPROM off raw n Hs) as (st & n1 & n2 & -> & -> & Hs'); try done; [by left|lia|].
  bind_simpl. destruct (hal_is_ok st); cbn [negb]; [|by apply agree_ret].
  destruct (sync_same _ _ Hs') as (st' & n1' & n2' & -> & -> & Hs''). bind_simpl.
  by destruct (hal_is_ok st'); cbn [negb]; apply agree_ret.
Qed.

Lemma sb_write_same s1 s2 : same_store s1 s2 → agree (sb_write s1) (sb_write s2).
Proof.
  intros Hs. rewrite !sb_write_eq, (sm_sb _ _ Hs). apply write_sync_same; auto with card; done.
Qed.

(** Both sides take the same step: the same test, or the same reading. *)
Ltac lockstep :=
  repeat match goal with
  | |- agree (?m ≫= _) (?m ≫= _) => apply agree_read; [reflexivity|intros]
  | |- agree (match ?x with _ => _ end) _ => destruct x
  | |- agree (Some _) (Some _) => apply agree_ret; first [assumption | apply same_with_sb; assumption]
  | |- agree None None => apply agree_none
  end.

Lemma mount_same s1 s2 : same_store s1 s2 → agree (fs_store_mount s1) (fs_store_mount s2).
Proof.
  intros Hs. unfold fs_store_mount, set_mounted. rewrite (sm_sb _ _ Hs). cbn [s_nvm s_sb].
  rewrite !(same_size s1 s2) by (done || (by left) || (by right)).
  rewrite (read_same s1 s2 HAL_NVM_EEPROM FS_SB_OFFSET) by (done || (by left)). lockstep.
Qed.

Lemma format_loop_same idx fd s1 s2 :
  same_store s1 s2 → len fd = FS_DESC_SIZE → bytes fd → agree (format_loop idx fd s1) (format_loop idx fd s2).
Proof.
  intros Hs Hl Hb. revert s1 s2 Hs. induction idx as [|i idx IH]; intros s1 s2 Hs; cbn [format_loop]; [by apply agree_ret|].
  destruct (write_same s1 s2 HAL_NVM_EEPROM (desc_off i) fd FS_DESC_SIZE Hs) as (st & n1 & n2 & -> & -> & Hs');
    try done; [by left|apply u32_range|by rewrite Hl|]. bind_simpl.
  destruct (hal_is_ok st); cbn [negb]; [by apply IH|by apply agree_ret].
Qed.

Lemma format_same s1 s2 : same_store s1 s2 → agree (fs_store_format s1) (fs_store_format s2).
Proof.
  intros Hs. unfold fs_store_format. rewrite (same_size s1 s2) by (done || (by left)).
  rewrite memset_array_eq by (done || unfold is_u8; lia). bind_simpl. case_if; [by apply agree_ret|].
  apply agree_bind; [apply format_loop_same; [done|done|solve_bytes]|]. intros st t1 t2 Ht.
  rewrite (sm_sb _ _ Ht). lockstep.
  apply agree_bind; [by apply sb_write_same, same_with_sb|]. intros st' u1 u2 Hu.
  unfold set_mounted. rewrite (sm_sb _ _ Hu). lockstep.
Qed.

Lemma max_files_same s1 s2 : same_store s1 s2 → fs_store_max_files s1 = fs_store_max_files s2.
Proof. intros Hs. unfold fs_store_max_files. by rewrite (sm_sb _ _ Hs). Qed.

Lemma desc_raw_read_same s1 s2 i :
  same_store s1 s2 → desc_raw_read s1 i (local_array FS_DESC_SIZE) = desc_raw_read s2 i (local_array FS_DESC_SIZE).
Proof.
  intros Hs. unfold desc_raw_read. rewrite (sm_sb _ _ Hs), (read_same s1 s2); done || (by left) || apply u32_range.
Qed.

Lemma read_desc_same s1 s2 i o : same_store s1 s2 → fs_store_read_desc s1 i o = fs_store_read_desc s2 i o.
Proof.
  intros Hs. unfold fs_store_read_desc. by rewrite (desc_raw_read_same s1 s2), (same_size s1 s2) by (done || (by right)).
Qed.

Lemma find_first_ext (f g : Z → option bool) idx : (∀ i, f i = g i) → find_first f idx = find_first g idx.
Proof. intros E. induction idx as [|i idx IH]; [done|]. cbn [find_first]. rewrite E, IH. done. Qed.

Lemma find_free_slot_same s1 s2 : same_store s1 s2 → fs_store_find_free_slot s1 = fs_store_find_free_slot s2.
Proof.
  intros Hs. unfold fs_store_find_free_slot. rewrite (sm_sb _ _ Hs).
  rewrite (find_first_ext (fs_store_slot_is_free s1) (fs_store_slot_is_free s2)); [done|].
  intros i. unfold fs_store_slot_is_free. by rewrite (desc_raw_read_same s1 s2).
Qed.

(** The single-byte fields of a descriptor; the others are cut to size when stored. *)
Definition desc_bytes (d : fs_descriptor) : Prop :=
  is_u8 (d_ac_read d) ∧ is_u8 (d_ac_update d) ∧ is_u8 (d_sfi d) ∧ is_u8 (d_flags d).

Lemma bytes_desc_fields d : desc_bytes d → bytes (desc_body d).
Proof.
  intros (? & ? & ? & ?). unfold desc_body.
  repeat (apply bytes_app; [first [apply bytes_be16 | apply bytes_be32 | idtac]|]);
    try apply bytes_be16; repeat (apply bytes_cons; split; [done || apply u8_range|]); constructor.
Qed.

Lemma write_desc_same s1 s2 i d :
  same_store s1 s2 → desc_bytes d → agree (fs_store_write_desc s1 i (Ptr d)) (fs_store_write_desc s2 i (Ptr d)).
Proof.
  intros Hs Hd. unfold fs_store_write_desc. rewrite (sm_sb _ _ Hs), desc_raw_seal. bind_simpl. lockstep.
  apply write_sync_same; try done; [apply u32_range|]. by apply bytes_seal, bytes_desc_fields.
Qed.

Lemma free_desc_same s1 s2 i : same_store s1 s2 → agree (fs_store_free_desc s1 i) (fs_store_free_desc s2 i).
Proof.
  intros Hs. unfold fs_store_free_desc. rewrite (sm_sb _ _ Hs).
  rewrite memset_array_eq by (done || unfold is_u8; lia). bind_simpl. lockstep.
  apply write_sync_same; try done; [apply u32_range|solve_bytes].
Qed.

Lemma alloc_data_same s1 s2 n o : same_store s1 s2 → agree (fs_store_alloc_data s1 n o) (fs_store_alloc_data s2 n o).
Proof.
  intros Hs. unfold fs_store_alloc_data, set_data_top.
  rewrite (sm_sb _ _ Hs), (same_size s1 s2) by (done || (by right)). lockstep.
  apply agree_bind; [by apply sb_write_same, same_with_sb|]. intros st t1 t2 Ht. lockstep.
Qed.

Lemma read_data_same s1 s2 off n d :
  same_store s1 s2 → is_u32 off → 0 ≤ n ≤ len d → is_u32 n →
  fs_store_read_data s1 off n (Ptr d) = fs_store_read_data s2 off n (Ptr d).
Proof.
  intros Hs Hoff Hn Hn32. unfold fs_store_read_data. rewrite (sm_sb _ _ Hs). case_if; [done|].
  rewrite (read_same s1 s2); done || (by right) || lia.
Qed.

Lemma write_data_same s1 s2 off n b :
  same_store s1 s2 → is_u32 off → 0 ≤ n ≤ len b → is_u32 n → bytes b →
  agree (fs_store_write_data s1 off n (Ptr b)) (fs_store_write_data s2 off n (Ptr b)).
Proof.
  intros Hs Hoff Hn Hn32 Hb. unfold fs_store_write_data. rewrite (sm_sb _ _ Hs).
  case_if; [by apply agree_ret|]. case_if; [by apply agree_ret|].
  destruct (write_same s1 s2 HAL_NVM_FLASH off b n Hs) as (st & n1 & n2 & -> & -> & Hs'); try done; [by right|lia|].
  bind_simpl. destruct (hal_is_ok st); cbn [negb]; [|by apply agree_ret].
  destruct (sync_same _ _ Hs') as (st' & n1' & n2' & -> & -> & Hs''). bind_simpl. lockstep.
Qed.
(** *** fs.c *)

Lemma bind_same {A B} (x y : option A) (f g : A → option B) : x = y → (∀ a, f a = g a) → x ≫= f = y ≫= g.
Proof. intros -> Hf. destruct y; [apply Hf|done]. Qed.

Create HintDb same discriminated.
#[local] Hint Resolve sb_write_same mount_same format_same read_desc_same find_free_slot_same write_desc_same
  free_desc_same alloc_data_same agree_ret : same.

(** The same for two readings of the two cards, and for the whole of an operation. *)
Ltac read_steps :=
  repeat match goal with
  | |- ?x = ?x => reflexivity
  | |- _ ≫= _ = _ ≫= _ => apply bind_same; [solve [eauto with same]|intros]
  | |- (match ?x with _ => _ end) = _ => destruct x
  | |- _ = _ => solve [eauto with same]
  end.

Ltac op_steps :=
  repeat match goal with
  | |- agree (?m ≫= _) (?m ≫= _) => apply agree_read; [reflexivity|intros]
  | |- agree (_ ≫= _) (_ ≫= _) => apply agree_read; [solve [eauto with same]|intros]
  | |- agree (_ ≫= _) (_ ≫= _) => apply agree_bind; [solve [eauto with same]|intros]
  | |- agree (match ?x with _ => _ end) _ => destruct x
  | |- agree (Some _) (Some _) => apply agree_ret; assumption
  | |- agree None None => apply agree_none
  | |- agree _ _ => solve [eauto with same]
  end.

Lemma get_desc_same s1 s2 i : same_store s1 s2 → get_desc s1 i = get_desc s2 i.
Proof. intros Hs. unfold get_desc. by rewrite (read_desc_same s1 s2). Qed.
#[local] Hint Resolve get_desc_same : same.

Lemma find_child_same s1 s2 p fid o : same_store s1 s2 → fs_find_child s1 p fid o = fs_find_child s2 p fid o.
Proof.
  intros Hs. unfold fs_find_child. rewrite (max_files_same s1 s2 Hs). destruct o; [done|].
  apply bind_same; [|done]. induction (upto _) as [|i idx IH]; [done|]. cbn [find_child_loop]. read_steps; apply IH.
Qed.

Lemma find_by_sfi_same s1 s2 df sfi o : same_store s1 s2 → fs_find_by_sfi s1 df sfi o = fs_find_by_sfi s2 df sfi o.
Proof.
  intros Hs. unfold fs_find_by_sfi. rewrite (max_files_same s1 s2 Hs). destruct o; [done|]. case_if; [done|].
  apply bind_same; [|done]. apply find_first_ext. intros i. read_steps.
Qed.

Lemma child_count_same s1 s2 p : same_store s1 s2 → fs_child_count s1 p = fs_child_count s2 p.
Proof.
  intros Hs. unfold fs_child_count. rewrite (max_files_same s1 s2 Hs). generalize 0.
  induction (upto _) as [|i idx IH]; intros c; [done|]. cbn [foreach]. apply bind_same; [read_steps|apply IH].
Qed.

Lemma resolve_same s1 s2 i : same_store s1 s2 → resolve s1 i = resolve s2 i.
Proof. intros Hs. unfold resolve. read_steps. Qed.
#[local] Hint Resolve find_child_same find_by_sfi_same child_count_same resolve_same : same.

Lemma select_by_fid_same s1 s2 se fid : same_store s1 s2 → fs_select_by_fid s1 se fid = fs_select_by_fid s2 se fid.
Proof.
  intros Hs. unfold fs_select_by_fid. destruct se as [|se]; [done|].
  repeat (apply bind_same; [solve [read_steps]|intros]). read_steps.
Qed.

Lemma select_child_same s1 s2 se fid w : same_store s1 s2 → select_child_typed s1 se fid w = select_child_typed s2 se fid w.
Proof. intros Hs. unfold select_child_typed. read_steps. Qed.

Lemma select_parent_same s1 s2 se : same_store s1 s2 → fs_select_parent s1 se = fs_select_parent s2 se.
Proof. intros Hs. unfold fs_select_parent. read_steps. Qed.

Lemma path_loop_same s1 s2 path steps idx sc :
  same_store s1 s2 → path_loop s1 path steps idx sc = path_loop s2 path steps idx sc.
Proof.
  intros Hs. revert sc. induction idx as [|n idx IH]; intros sc; [done|]. cbn [path_loop].
  do 2 (apply bind_same; [done|intros]). apply bind_same; [read_steps|intros].
  read_steps; apply IH.
Qed.
#[local] Hint Resolve select_by_fid_same select_child_same select_parent_same path_loop_same : same.

Lemma select_by_path_same s1 s2 se path n m :
  same_store s1 s2 → fs_select_by_path s1 se path n m = fs_select_by_path s2 se path n m.
Proof. intros Hs. unfold fs_select_by_path. read_steps. Qed.

Lemma ef_read_same s1 s2 i off n d o :
  same_store s1 s2 → 0 ≤ n ≤ len d → n < 65536 → fs_ef_read s1 i off n (Ptr d) o = fs_ef_read s2 i off n (Ptr d) o.
Proof.
  intros Hs Hn Hn16. unfold fs_ef_read. destruct o; [done|]. apply bind_same; [by apply resolve_same|]. intros [st fd].
  do 3 (case_if; [done|]). set (k := if n <? u16 (d_size fd - off) then n else u16 (d_size fd - off)).
  assert (0 ≤ k ≤ n) as Hk by (pose proof (u16_range (d_size fd - off)); unfold is_u16 in *; unfold k; case_if; lia).
  case_if; [done|]. rewrite (read_data_same s1 s2); done || (apply u32_range) || (unfold is_u32; lia).
Qed.

Lemma ef_write_same s1 s2 i off n b :
  same_store s1 s2 → 0 ≤ n ≤ len b → n < 65536 → bytes b →
  agree (fs_ef_write s1 i off n (Ptr b)) (fs_ef_write s2 i off n (Ptr b)).
Proof.
  intros Hs Hn Hn16 Hb. unfold fs_ef_write. op_steps.
  apply write_data_same; done || (apply u32_range) || (unfold is_u32; lia).
Qed.

Lemma personalise_loop_same layout s1 s2 :
  same_store s1 s2 → Forall (λ e, is_u8 (l_sfi e)) layout →
  agree (personalise_loop layout s1) (personalise_loop layout s2).
Proof.
  intros Hs Hl. revert s1 s2 Hs. induction Hl as [|e layout He _ IH]; intros s1 s2 Hs; cbn [personalise_loop]; [by apply agree_ret|].
  apply agree_bind; [op_steps|]. intros [st o] t1 t2 Ht. op_steps.
  apply agree_bind; [apply write_desc_same; [done|]; unfold desc_bytes, is_u8 in *; cbn; lia|].
  intros st' u1 u2 Hu. op_steps.
Qed.

Lemma personalise_same s1 s2 : same_store s1 s2 → agree (fs_personalise s1) (fs_personalise s2).
Proof.
  intros Hs. unfold fs_personalise. op_steps.
  apply agree_bind; [by apply write_desc_same|intros]. op_steps.
  apply personalise_loop_same; [done|]. repeat constructor; unfold is_u8; cbn; lia.
Qed.
#[local] Hint Resolve personalise_same : same.

Lemma fs_init_same s1 s2 : same_store s1 s2 → agree (fs_init s1) (fs_init s2).
Proof. intros Hs. unfold fs_init. op_steps. Qed.

Lemma create_same s1 s2 se req o :
  same_store s1 s2 → desc_bytes req → agree (fs_create_file s1 se (Ptr req) o) (fs_create_file s2 se (Ptr req) o).
Proof.
  intros Hs (Hr & Hu & Hf & _). unfold fs_create_file. op_steps.
  apply agree_read; [read_steps|intros]. op_steps.
  apply agree_bind; [op_steps|]. intros [st off] t1 t2 Ht. op_steps.
  apply agree_bind; [apply write_desc_same; [done|]; unfold desc_bytes, is_u8 in *; cbn; lia|intros]. op_steps.
Qed.

Lemma delete_same s1 s2 se fid : same_store s1 s2 → agree (fs_delete_file s1 se fid) (fs_delete_file s2 se fid).
Proof. intros Hs. unfold fs_delete_file. op_steps. apply agree_read; [read_steps|intros]. op_steps. Qed.
#[local] Hint Resolve fs_init_same create_same delete_same select_by_path_same ef_read_same ef_write_same : same.

(** *** The command handlers *)

Lemma emit_fci_same s1 s2 c r i o : same_store s1 s2 → emit_fci s1 c r i o = emit_fci s2 c r i o.
Proof. intros Hs. unfold emit_fci. do 2 (case_if; [done|]). unfold fs_get. by rewrite (read_desc_same s1 s2). Qed.

Lemma select_by_p1_same s1 s2 se c : same_store s1 s2 → select_by_p1 s1 se c = select_by_p1 s2 se c.
Proof.
  intros Hs. unfold select_by_p1, fs_select_child_df, fs_select_child_ef. read_steps.
  all: apply bind_same; [read_steps|intros]; read_steps.
Qed.

Lemma resolve_target_same s1 s2 k p1 p2 : same_store s1 s2 → resolve_target s1 k p1 p2 = resolve_target s2 k p1 p2.
Proof. intros Hs. unfold resolve_target. read_steps. Qed.
#[local] Hint Resolve emit_fci_same select_by_p1_same resolve_target_same : same.

(** A handler that does the same on both cards. *)
Definition same_handler (h1 : scos_cmd_handler N1) (h2 : scos_cmd_handler N2) : Prop :=
  ∀ k c r s1 s2, same_store s1 s2 → cmd_wf c → agree (h1 (Ptr k) (Ptr c) r s1) (h2 (Ptr k) (Ptr c) r s2).

Lemma select_handler_same : same_handler scos_cmd_select scos_cmd_select.
Proof. intros k c r s1 s2 Hs _. unfold scos_cmd_select. op_steps. Qed.

Lemma read_binary_same : same_handler scos_cmd_read_binary scos_cmd_read_binary.
Proof.
  intros k c r s1 s2 Hs [_ _ _ Hle _]. unfold scos_cmd_read_binary.
  destruct r as [|r]; [by apply agree_ret|]. case_if; [by apply agree_ret|]. case_if; [by apply agree_ret|].
  specialize (Hle ltac:(done)). unfold APDU_SHORT_LE_MAX in *. op_steps.
  apply agree_read; [apply ef_read_same; [done|change (len (local_array 256)) with 256|]; lia|intros]. op_steps.
Qed.

Lemma update_binary_same : same_handler scos_cmd_update_binary scos_cmd_update_binary.
Proof.
  intros k c r s1 s2 Hs [_ _ Hlc _ Hd]. unfold scos_cmd_update_binary, APDU_SHORT_LC_MAX in *.
  destruct r as [|r]; [by apply agree_ret|].
  destruct (c_data c) as [|d]; cbn [is_null]; [rewrite orb_true_r; by apply agree_ret|]. destruct Hd as [Hd Hb].
  op_steps. apply agree_bind; [apply ef_write_same; done || lia|intros]. op_steps.
Qed.

Lemma create_handler_same : same_handler scos_cmd_create_file scos_cmd_create_file.
Proof.
  intros k c r s1 s2 Hs [_ _ Hlc _ Hd]. unfold scos_cmd_create_file, APDU_SHORT_LC_MAX in *.
  destruct (k_lifecycle k); try (by apply agree_ret).
  all: case_if; [by apply agree_ret|]; case_if; [by apply agree_ret|].
  all: destruct (c_data c) as [|data]; [done|]; destruct Hd as [Hd Hbd].
  all: rewrite parse_fcp_eq by (done || lia); bind_simpl.
  all: destruct (fcp_reference (slice 0 (c_lc c) data)) as [sw req] eqn:Href.
  all: case_if; [by apply agree_ret|]; subst sw.
  all: destruct (fcp_reference_ok _ _ (bytes_slice _ _ _ Hbd) Href) as (_ & _ & _ & _ & _ & [] & _).
  all: apply agree_bind; [by apply create_same|intros [st o] t1 t2 Ht]; op_steps.
Qed.

Lemma delete_handler_same : same_handler scos_cmd_delete_file scos_cmd_delete_file.
Proof. intros k c r s1 s2 Hs _. unfold scos_cmd_delete_file. op_steps. Qed.

Lemma dispatch_same : same_handler scos_dispatch scos_dispatch.
Proof.
  intros k c r s1 s2 Hs Hc. destruct r as [|r]; [by apply agree_ret|]. rewrite !scos_dispatch_cases.
  repeat case_if; [by apply select_handler_same|by apply read_binary_same|by apply update_binary_same
    |by apply create_handler_same|by apply delete_handler_same|by apply agree_ret].
Qed.

(** *** kernel.c *)

Lemma answer_same k r sw s1 s2 : same_store s1 s2 → agree (answer k r sw s1) (answer k r sw s2).
Proof. intros Hs. unfold answer. op_steps. Qed.
#[local] Hint Resolve answer_same : same.

Lemma scos_init_same k s1 s2 : same_store s1 s2 → agree (scos_init k s1) (scos_init k s2).
Proof. intros Hs. unfold scos_init. op_steps. Qed.

Lemma scos_process_same k cmd n rsp cap x s1 s2 :
  same_store s1 s2 → bytes cmd → 0 ≤ n ≤ len cmd → n < 65536 →
  agree (scos_process k (Ptr cmd) n rsp cap x s1) (scos_process k (Ptr cmd) n rsp cap x s2).
Proof.
  intros Hs Hcmd Hn Hn16. unfold scos_process. destruct k as [|k], rsp as [|rsp], x as [|x]; try by apply agree_ret.
  case_if; [by apply agree_ret|]. cbv zeta. destruct (k_lifecycle k); auto with same.
  pose proof (apdu_parse_safe cmd n apdu_command_zero Hcmd Hn Hn16) as Hp.
  apply wp_elim in Hp as ([pst c] & -> & Hc). bind_simpl.
  destruct pst; auto with same. destruct Hc as (c' & -> & Hcw). destruct (apdu_check_cla (c_cla c')); auto with same.
  apply agree_bind; [by apply dispatch_same|]. intros [[sw k'] r] t1 t2 Ht. auto with same.
Qed.

(** *** Whole runs *)

Lemma card_do_same e k s1 s2 : same_store s1 s2 → event_ok e → agree (card_do e k s1) (card_do e k s2).
Proof.
  intros Hs He. destruct e as [cmd| |k0 m]; cbn [card_do].
  - destruct He as [Hb Hl]. pose proof (len_nonneg cmd).
    apply agree_bind; [by apply scos_process_same; done || lia|]. intros [[[st k'] rsp] n] t1 t2 Ht. op_steps.
  - op_steps.
  - apply agree_bind; [by apply scos_init_same, same_with_sb|]. intros [st k'] t1 t2 Ht. op_steps.
Qed.

Lemma card_run_same es k s1 s2 : same_store s1 s2 → Forall event_ok es → agree (card_run es k s1) (card_run es k s2).
Proof.
  intros Hs Hes. revert k s1 s2 Hs. induction Hes as [|e es He _ IH]; intros k s1 s2 Hs; cbn [card_run]; [by apply agree_ret|].
  apply agree_bind; [by apply card_do_same|]. intros [out k1] t1 t2 Ht.
  apply agree_bind; [by apply IH|]. intros [outs k2] u1 u2 Hu. op_steps.
Qed.

Lemma run_on_both k s1 s2 es :
  same_store s1 s2 → safe_inv s1 (k_sel k) → Forall event_ok es →
  ∃ outs k' s1' s2', card_run es k s1 = Some (outs, k', s1') ∧ card_run es k s2 = Some (outs, k', s2') ∧
    same_store s1' s2'.
Proof.
  intros Hs Hsafe Hes. pose proof (card_run_same es k s1 s2 Hs Hes) as Ha.
  destruct (wp_elim _ _ (card_run_total es k s1 Hes Hsafe)) as ([[outs k'] s1'] & E & _). rewrite E in Ha |- *.
  inversion Ha as [? [ok2 s2'] [Ho Hs'] Hx Hy|]; subst. cbn in Ho, Hs'. subst ok2. by exists outs, k', s1', s2'.
Qed.
End same.

(** [C6] The card does not depend on its memory driver: on any two devices that keep
    the contract and hold the same bytes (a chip and a simulator, say), any
    commands, resets and power cycles whatever are answered alike, byte for byte,
    and leave the same bytes behind. *)
Theorem memory_driver_irrelevant {N1 N2} `{HalNvmSpec N1} `{HalNvmSpec N2} k (s1 : store N1) (s2 : store N2) es :
  same_store s1 s2 → safe_inv s1 (k_sel k) → Forall event_ok es →
  ∃ outs k' s1' s2', card_run es k s1 = Some (outs, k', s1') ∧ card_run es k s2 = Some (outs, k', s2') ∧
    same_store s1' s2'.
Proof. apply run_on_both. Qed.

(** ** The simulator and the chip *)

(** The sizes the simulator is built with by default are those of the chip. *)
#[local] Instance default_sizes : ScosConfig := {| SCOS_EEPROM_KB := 16; SCOS_FLASH_KB := 256 |}.

Lemma default_sizes_match : SCOS_EEPROM_BYTES = SCV1_EEPROM_SIZE ∧ SCOS_FLASH_BYTES = SCV1_DFLASH_SIZE.
Proof. done. Qed.

Definition sim_memory (e f : list Z) (seed : Z) : vcard :=
  Vcard e f (VcardConfig NULL SCOS_EEPROM_BYTES SCOS_FLASH_BYTES seed true) true VCARD_POWER_ON seed.

(** A simulator and a chip with the same contents. *)
Lemma sim_and_chip_same b e f seed x :
  bytes e → bytes f → len e = SCV1_EEPROM_SIZE → len f = SCV1_DFLASH_SIZE →
  same_store (Store b (sim_memory e f seed)) (Store b (Scv1 e f true x)).
Proof.
  intros He Hf Hle Hlf. destruct default_sizes_match as [Hes Hfs]. constructor; try done.
  - constructor; cbn [s_nvm sim_memory s_eeprom s_flash s_cfg s_configured eeprom_size flash_size];
      rewrite ?Hes, ?Hfs, ?Hle, ?Hlf; done || (unfold SCV1_EEPROM_SIZE, SCV1_DFLASH_SIZE; lia).
  - intros r [-> | ->]; cbn [nvm_mem SimHalNvmSpec ArmHalNvmSpec s_nvm]; unfold vcard_mem, scv1_mem; cbn;
      [rewrite Hes, <- Hle|rewrite Hfs, <- Hlf]; by rewrite slice_0_all.
Qed.

(** A blank chip and a blank simulator, powered up and sent a few commands. *)
Definition blank_eeprom : list Z := replicate (Z.to_nat SCV1_EEPROM_SIZE) 0xFF.
Definition blank_flash : list Z := replicate (Z.to_nat SCV1_DFLASH_SIZE) 0xFF.
Definition no_superblock : superblock := Superblock false 0 0 0.
Definition sample_events : list card_event :=
  [ PowerCycle scos_kernel_zero no_superblock; Command [0x00; 0xA4; 0x00; 0x00]; WarmReset;
    Command [0x00; 0xD6; 0x81; 0x03; 2; 7; 9]; PowerCycle scos_kernel_zero no_superblock;
    Command [0x00; 0xB0; 0x81; 0x03; 2] ].

Lemma memory_driver_irrelevant_witness :
  ∃ outs k' s1' s2',
    card_run sample_events scos_kernel_zero (Store no_superblock (sim_memory blank_eeprom blank_flash 1)) = Some (outs, k', s1') ∧
    card_run sample_events scos_kernel_zero (Store no_superblock (Scv1 blank_eeprom blank_flash true 5)) = Some (outs, k', s2') ∧
    same_store s1' s2'.
Proof.
  assert (same_store (Store no_superblock (sim_memory blank_eeprom blank_flash 1))
            (Store no_superblock (Scv1 blank_eeprom blank_flash true 5))) as Hs.
  { apply sim_and_chip_same; unfold blank_eeprom, blank_flash;
      [apply bytes_replicate; unfold is_u8; lia..|by rewrite len_replicate|by rewrite len_replicate]. }
  apply (memory_driver_irrelevant scos_kernel_zero _ _ sample_events Hs).
  - split; [constructor; [apply Hs|done|done]|by constructor].
  - unfold sample_events. repeat (apply Forall_cons; split; [first [exact I|split; [solve_bytes|done]|done]|]). by apply Forall_nil.
Defined.
