(* ===== verification/PowerCut.v ===== *)
(** * Power cuts

    A card loses power whenever the reader takes it away, in the middle of a
    command as well as between two.  The program's protection is the order of its
    writes: fs_store.c records the new allocation mark before a descriptor that
    relies on it is written, and the superblock of a new card last.  This file
    runs the card OS on a memory that remembers every state it has been in, one
    write of the HAL being one step (docs/filesystem.md: [hal_nvm_write] is an
    atomic [memcpy]), and shows what the next power-up finds after a cut at any of
    those moments. *)

From S2P Require Import Prelude OsMem Crc16 Sw Apdu Hal SimHal FsTypes FsStore Fs FsTree KernelTypes CmdSelect CmdBinary CmdCreate Dispatch Kernel SameCard.

(** ** A memory that remembers *)

(** A device, and the states it was in before each write and each sync that it
    carried out, oldest first. *)
Record recorder (N : Type) := Recorder { r_dev : N; r_log : list N }.
#[global] Arguments Recorder {N}.
#[global] Arguments r_dev {N}.
#[global] Arguments r_log {N}.

Definition recorded {N} (n n' : N) (st : hal_status) (log : list N) : hal_status * recorder N :=
  (st, Recorder n' (if hal_is_ok st then log ++ [n] else log)).

#[export] Instance RecorderNvm {N} `{HalNvm N} : HalNvm (recorder N) := {
  hal_nvm_size n := hal_nvm_size (r_dev n);
  hal_nvm_page_size n := hal_nvm_page_size (r_dev n);
  hal_nvm_read n := hal_nvm_read (r_dev n);
  hal_nvm_write n r off src k :=
    '(st, d) ← hal_nvm_write (r_dev n) r off src k; Some (recorded (r_dev n) d st (r_log n));
  hal_nvm_sync n := '(st, d) ← hal_nvm_sync (r_dev n); Some (recorded (r_dev n) d st (r_log n));
}.

(** Everything the memory has been, and is. *)
Definition moments {N} (n : recorder N) : list N := r_log n ++ [r_dev n].

(** It keeps the contract of the device it records. *)
#[export] Program Instance RecorderSpec {N} `{HalNvmSpec N} : HalNvmSpec (recorder N) := {
  nvm_ready n := nvm_ready (r_dev n);
  nvm_wf n := nvm_wf (r_dev n);
  nvm_mem n := nvm_mem (r_dev n);
}.
Next Obligation. intros N ? ? n r ?. by apply (nvm_mem_bytes (r_dev n)). Qed.
Next Obligation. intros N ? ? n r ?. by apply (nvm_mem_len (r_dev n)). Qed.
Next Obligation. intros N ? ? n r ?. by apply (nvm_size_mem (r_dev n)). Qed.
Next Obligation. intros N ? ? n r off d k ? ? ? ? ?. by apply (nvm_read_total (r_dev n)). Qed.
Next Obligation. intros N ? ? n r off d k ? ? ? ? ? ? ?. by apply (nvm_read_ok (r_dev n)). Qed.
Next Obligation. intros N ? ? n r off d k ? ? ? ? ? ? ?. by apply (nvm_read_range (r_dev n)). Qed.
Next Obligation.
  intros N ? ? n r off s k ? ? ? ? ?. destruct (nvm_write_total (r_dev n) r off s k) as (st & d & E & ? & ?); try done.
  cbn [hal_nvm_write RecorderNvm]. rewrite E. by eexists _, _.
Qed.
Next Obligation.
  intros N ? ? n r off s k ? ? ? ? ? ? ? ?.
  destruct (nvm_write_ok (r_dev n) r off s k) as (d & E & ? & ? & ? & ?); try done.
  cbn [hal_nvm_write RecorderNvm]. rewrite E. by eexists.
Qed.
Next Obligation.
  intros N ? ? n r off s k ? ? ? ? ? ? ?. cbn [hal_nvm_write RecorderNvm].
  rewrite nvm_write_range by done. by destruct n.
Qed.
Next Obligation.
  intros N ? ? n ?. destruct (nvm_sync_total (r_dev n)) as (st & d & E & ? & ?); [done|].
  cbn [hal_nvm_sync RecorderNvm]. rewrite E. by eexists _, _.
Qed.
Next Obligation.
  intros N ? ? n ? ?. destruct (nvm_sync_ok (r_dev n)) as (d & E & ? & ? & ?); try done.
  cbn [hal_nvm_sync RecorderNvm]. rewrite E. by eexists.
Qed.

Section cut.
Context {N : Type} `{HalNvmSpec N}.
Implicit Types (s : store (recorder N)) (d : N) (v : fs_view).

Definition dev s : N := r_dev (s_nvm s).
Definition log s : list N := r_log (s_nvm s).

(** The states the memory goes through on the way from [s] to [s']. *)
Definition between (Q : N → Prop) s s' : Prop := ∃ l, log s' = log s ++ l ∧ Forall Q l.

Lemma between_refl Q s : between Q s s.
Proof. exists []. by rewrite app_nil_r. Qed.

Lemma between_trans Q s1 s2 s3 : between Q s1 s2 → between Q s2 s3 → between Q s1 s3.
Proof. intros (l & E & Hl) (l' & E' & Hl'). exists (l ++ l'). rewrite E', E, app_assoc. by rewrite Forall_app. Qed.

Lemma between_mono (Q R : N → Prop) s s' : between Q s s' → (∀ d, Q d → R d) → between R s s'.
Proof. intros (l & E & Hl) HQ. exists l. split; [done|]. by eapply Forall_impl. Qed.

(** A device that works and holds what the card [s] holds. *)
Definition holds_memory s d : Prop := nvm_wf d ∧ nvm_ready d ∧ ∀ r, nvm_mem d r = nvm_mem (dev s) r.

(** One write and its sync: the memory is as before, or as after. *)
Definition one_change s s' : Prop := between (λ d, holds_memory s d ∨ holds_memory s' d) s s'.

Lemma one_change_refl s : one_change s s.
Proof. apply between_refl. Qed.

Lemma holds_itself s : nvm_wf (s_nvm s) → nvm_ready (s_nvm s) → holds_memory s (dev s).
Proof. done. Qed.

(** *** The operations of fs_store.c that write *)

Lemma write_moments s r off b n :
  nvm_wf (s_nvm s) → nvm_ready (s_nvm s) → nvm_region r → is_u32 off → 0 < n ≤ len b → is_u32 n → bytes b →
  (∃ d, hal_nvm_write (s_nvm s) r off (Ptr b) n = Some (HAL_OK, Recorder d (log s ++ [dev s])) ∧
     nvm_wf d ∧ nvm_ready d) ∨
  hal_nvm_write (s_nvm s) r off (Ptr b) n = Some (HAL_ERR_RANGE, s_nvm s).
Proof.
  intros Hwf Hr Hreg Hoff Hn Hn32 Hb. destruct (decide (off + n ≤ len (nvm_mem (dev s) r))) as [Hle|Hgt].
  - left. destruct (nvm_write_ok (dev s) r off b n) as (d & E & ? & ? & _); try done; [lia|].
    exists d. cbn [hal_nvm_write RecorderNvm]. fold (dev s). by rewrite E.
  - right. apply nvm_write_range; try done. cbn [nvm_mem RecorderSpec]. fold (dev s). lia.
Qed.

Lemma sync_moments d l :
  nvm_wf d → nvm_ready d →
  ∃ d', hal_nvm_sync (Recorder d l) = Some (HAL_OK, Recorder d' (l ++ [d])) ∧ nvm_wf d' ∧ nvm_ready d' ∧
    ∀ r, nvm_mem d' r = nvm_mem d r.
Proof.
  intros Hwf Hr. destruct (nvm_sync_ok d Hwf Hr) as (d' & E & ? & ? & ?). exists d'.
  cbn [hal_nvm_sync RecorderNvm r_dev r_log]. by rewrite E.
Qed.

(** What a write followed by a sync went through. *)
Lemma written_moments s b d d' :
  nvm_wf (s_nvm s) → nvm_ready (s_nvm s) → nvm_wf d → nvm_ready d → (∀ r, nvm_mem d' r = nvm_mem d r) →
  one_change s (Store b (Recorder d' ((log s ++ [dev s]) ++ [d]))).
Proof.
  intros Hwf Hr Hwf1 Hr1 Hm. exists [dev s; d]. split; [by rewrite <- app_assoc|].
  apply Forall_cons. split; [by left|]. apply Forall_singleton. right. split; [done|]. split; [done|].
  intros r. by rewrite Hm.
Qed.

Lemma write_sync_moments s off raw n :
  nvm_wf (s_nvm s) → nvm_ready (s_nvm s) → is_u32 off → 0 < n → len raw = n → is_u32 n → bytes raw →
  wp (write_sync s off raw n) (λ '(_, s'), one_change s s').
Proof.
  intros Hwf Hr Hoff Hn Hl Hn32 Hb. unfold write_sync.
  destruct (write_moments s HAL_NVM_EEPROM off raw n) as [(d & -> & Hwf1 & Hr1)| ->]; try done; [by left|lia|..];
    bind_simpl; cbn [hal_is_ok negb set_nvm s_nvm]; [|exact (one_change_refl s)].
  destruct (sync_moments d (log s ++ [dev s]) Hwf1 Hr1) as (d' & -> & _ & _ & Hm). bind_simpl.
  by apply written_moments.
Qed.

Lemma write_data_moments s off n b :
  nvm_wf (s_nvm s) → nvm_ready (s_nvm s) → is_u32 off → 0 ≤ n ≤ len b → is_u32 n → bytes b →
  wp (fs_store_write_data s off n (Ptr b)) (λ '(_, s'), one_change s s').
Proof.
  intros Hwf Hr Hoff Hn Hn32 Hb. unfold fs_store_write_data.
  case_if; [apply one_change_refl|]. case_if; [apply one_change_refl|].
  destruct (write_moments s HAL_NVM_FLASH off b n) as [(d & -> & Hwf1 & Hr1)| ->]; try done; [by right|lia|..];
    bind_simpl; cbn [hal_is_ok negb set_nvm s_nvm]; [|exact (one_change_refl s)].
  destruct (sync_moments d (log s ++ [dev s]) Hwf1 Hr1) as (d' & -> & _ & _ & Hm). bind_simpl.
  by apply written_moments.
Qed.

Lemma write_desc_moments s i fd :
  nvm_wf (s_nvm s) → nvm_ready (s_nvm s) → desc_bytes fd →
  wp (fs_store_write_desc s i (Ptr fd)) (λ '(_, s'), one_change s s').
Proof.
  intros Hwf Hr Hd. unfold fs_store_write_desc. rewrite desc_raw_seal. do 3 (case_if; [apply one_change_refl|]).
  apply write_sync_moments; try done; [apply u32_range|]. by apply bytes_seal, bytes_desc_fields.
Qed.

Lemma free_desc_moments s i :
  nvm_wf (s_nvm s) → nvm_ready (s_nvm s) → wp (fs_store_free_desc s i) (λ '(_, s'), one_change s s').
Proof.
  intros Hwf Hr. unfold fs_store_free_desc. rewrite memset_array_eq by (done || unfold is_u8; lia).
  do 2 (case_if; [apply one_change_refl|]).
  apply write_sync_moments; try done; [apply u32_range|solve_bytes].
Qed.

(** The mark in the mirror is changed before the superblock is written: the memory is not. *)
Lemma alloc_data_moments s n o :
  nvm_wf (s_nvm s) → nvm_ready (s_nvm s) → wp (fs_store_alloc_data s n (Ptr o)) (λ '(_, s'), one_change s s').
Proof.
  intros Hwf Hr. unfold fs_store_alloc_data. do 2 (case_if; [apply one_change_refl|]). rewrite sb_write_eq.
  eapply wp_bind, wp_mono; [apply write_sync_moments; auto with card; done|]. by intros [st s'] Hs'.
Qed.

(** *** What the next power-up finds *)

(** Two views with the same files and contents; space may have leaked. *)
Definition same_files v v' : Prop := v_slots v' = v_slots v ∧ v_flash v' = v_flash v ∧ v_top v ≤ v_top v'.

#[export] Instance same_files_preorder : PreOrder same_files.
Proof.
  split; [intros v; by split_and!|]. intros v1 v2 v3 (Hs & Hf & Ht) (Hs' & Hf' & Ht'). split_and!; [congruence..|lia].
Qed.

Lemma same_files_tree v v' : same_files v v' → tree_inv v → tree_inv v'.
Proof. intros (Hs & _ & Ht). apply tree_grow; [|done]. intros i. unfold file_at. by rewrite Hs. Qed.

(** A device on which a well-formed file system with the files of [v] is mounted. *)
Definition keeps v d : Prop :=
  ∃ b, store_ok (Store b d) ∧ sb_synced (Store b d) ∧ tree_inv (view (Store b d)) ∧ same_files v (view (Store b d)).

Lemma keeps_files v v' d : same_files v v' → keeps v' d → keeps v d.
Proof. intros Hv (b & ? & ? & ? & ?). exists b. split_and!; try done. by etrans. Qed.

(** The device under a mounted card, or another one with the same memory. *)
Lemma holds_keeps s d : store_ok s → sb_synced s → tree_inv (view s) → holds_memory s d → keeps (view s) d.
Proof.
  intros Hs Hsy Ht (Hwf & Hr & Hm). exists (s_sb s).
  assert (eeprom (Store (s_sb s) d) = eeprom s) as He by apply Hm.
  assert (flash (Store (s_sb s) d) = flash s) as Hf by apply Hm.
  assert (view (Store (s_sb s) d) = view s) as Hv by (unfold view, max_files; cbn [s_sb]; by rewrite He, Hf).
  rewrite Hv. destruct Hs. split; [by constructor; rewrite ?He, ?Hf|]. split; [|done].
  unfold sb_synced. by rewrite He.
Qed.

(** It starts. *)
Lemma keeps_boots v d k0 m :
  keeps v d →
  ∃ k1 (s1 : store N), scos_init (Ptr k0) (Store m d) = Some (SCOS_OK, Ptr k1, s1) ∧ operational (k1, s1) ∧
    s_nvm s1 = d ∧ same_files v (view s1).
Proof.
  intros (b & Hs & Hsy & Ht & Hv).
  destruct (init_operational k0 (Store m d) (Store b d)) as (k1 & Hi & Hop); try done.
  { apply init_mounted; [|done..]. exact (mount_synced (Store b d) m Hs Hsy). }
  by exists k1, (Store b d).
Qed.

(** *** The operations of fs.c that write *)

(** The way from [s] to [s'] leads through cards with the files of one or of the other. *)
Definition atomic_change s s' : Prop := between (λ d, keeps (view s) d ∨ keeps (view s') d) s s'.

(** A card of which nothing is lost by a cut. *)
Definition sound s : Prop := store_ok s ∧ sb_synced s ∧ tree_inv (view s).

Lemma one_change_atomic s s' : sound s → sound s' → one_change s s' → atomic_change s s'.
Proof.
  intros (? & ? & ?) (? & ? & ?) Hc. eapply between_mono; [exact Hc|].
  intros d [Hd|Hd]; [left|right]; by apply holds_keeps.
Qed.

Lemma ef_write_moments s se i off n b :
  card_inv s se → is_u16 i → is_u16 off → 0 ≤ n ≤ len b → is_u16 n → bytes b →
  wp (fs_ef_write s i off n (Ptr b)) (λ '(_, s'), atomic_change s s').
Proof.
  intros HI Hi Hoff Hn Hn16 Hb. pose proof HI as (Hs & Ht & _ & Hsy). pose proof (store_ok_safe s Hs) as Hsafe.
  assert (sound s) as Hsnd by done.
  destruct (wp_elim _ _ (ef_write_inv s se i off n b HI Hi Hoff Hn Hn16 Hb)) as ([st s'] & E & (Hs' & Ht' & _ & Hsy')).
  rewrite E. cbn [wp]. apply one_change_atomic; [done|by split|]. revert E. unfold fs_ef_write. cbn [is_null].
  case_if; [intros [= <- <-]; apply one_change_refl|].
  destruct (resolve_total s i Hsafe Hi) as (st1 & fd & -> & _). bind_simpl.
  do 3 (case_if; [intros [= <- <-]; apply one_change_refl|]). intros E.
  pose proof (write_data_moments s (u32 (d_data_offset fd + off)) n b (so_wf _ Hs) (so_ready _ Hs)) as Hw.
  rewrite E in Hw. apply Hw; [apply u32_range|done|unfold is_u16, is_u32 in *; lia|done].
Qed.

Lemma delete_moments s se fid :
  card_inv s se →
  ∃ st se' s', fs_delete_file s (Ptr se) fid = Some (st, Ptr se', s') ∧ atomic_change s s'.
Proof.
  intros (Hs & Ht & Hse & Hsy). assert (sound s) as Hsnd by done. pose proof (store_ok_safe s Hs) as Hsafe.
  destruct (delete_view s se fid Hs Ht Hse) as (st & se' & s' & E & Hs' & Ht' & _ & Hsy' & _).
  exists st, se', s'. split; [done|]. apply one_change_atomic; [done|split; auto|]. revert E. unfold fs_delete_file.
  case_if; [intros [= _ _ <-]; apply one_change_refl|].
  destruct (find_child_total s (cur_df se) fid FS_INVALID_INDEX Hsafe) as (st1 & i & -> & Hi). bind_simpl.
  destruct st1; try (intros [= _ _ <-]; apply one_change_refl).
  destruct (get_desc_total s i Hsafe Hi) as (st2 & fd & -> & _). bind_simpl.
  do 2 (case_if; [intros [= _ _ <-]; apply one_change_refl|]).
  intros ([|] & _ & E)%bind_Some; [injection E as _ _ <-; apply one_change_refl|].
  pose proof (free_desc_moments s i (so_wf _ Hs) (so_ready _ Hs)) as Hw.
  apply wp_elim in Hw as ([st3 s3] & Hf & Hc). rewrite Hf in E. revert E. bind_simpl.
  case_if; by intros [= _ _ <-].
Qed.

(** Follow a computation that returned through its tests and readings up to the
    first step that may write; the branches that end before leave [s] as it was. *)
Ltac by_calls E :=
  repeat match type of E with
  | Some _ = Some _ => injection E as _ _ <-; apply between_refl
  | (if _ then fs_store_alloc_data _ _ _ else _) ≫= _ = _ => fail 1
  | _ ≫= _ = _ => apply bind_Some in E as (? & _ & E)
  | (match ?x with _ => _ end) = _ => destruct x
  end.

(** CREATE FILE: the mark first, then the descriptor.  A cut between the two
    leaves a card with the files of before, and space that is lost. *)
Lemma create_moments s se req x :
  card_inv s se → desc_typed req →
  wp (fs_create_file s (Ptr se) (Ptr req) (Ptr x)) (λ '(_, _, s'), atomic_change s s').
Proof.
  intros (Hs & Ht & Hse & Hsy) Hreq. assert (sound s) as Hsnd by done. pose proof Hreq as [].
  destruct (create_view s se req x Hs Ht Hse Hreq) as (st & o & s' & E & Hs' & Ht' & _ & Hsy' & _).
  rewrite E. cbn [wp]. assert (sound s') as Hsnd' by (split; auto).
  destruct (create_alloc_view s req Hs) as (st1 & off & s1 & Ea & Hbad & Hgood); [done|].
  assert (one_change s s1) as Hc1.
  { destruct (d_type req =? FS_TYPE_EF_TRANSPARENT); [|injection Ea as _ _ <-; apply between_refl].
    pose proof (alloc_data_moments s (d_size req) 0 (so_wf _ Hs) (so_ready _ Hs)) as Hw. by rewrite Ea in Hw. }
  unfold fs_create_file in E. by_calls E. rewrite Ea in E. rewrite bind_some in E. cbv beta iota in E.
  destruct (fs_ok st1) eqn:Eok; cbn [negb] in E.
  2: { injection E as _ _ <-. rewrite (Hbad ltac:(by intros ->)). apply between_refl. }
  apply fs_ok_true in Eok as ->. destruct (Hgood eq_refl) as (Hs1 & _ & Hsy1 & _ & Hv1 & Htop & _).
  assert (same_files (view s) (view s1)) as Hsame by (by rewrite Hv1).
  assert (sound s1) as Hsnd1 by (split; [done|split; [auto|by eapply same_files_tree]]).
  match type of E with fs_store_write_desc s1 ?slot (Ptr ?fd) ≫= _ = _ =>
    pose proof (write_desc_moments s1 slot fd (so_wf _ Hs1) (so_ready _ Hs1)) as Hw end.
  apply wp_elim in Hw as ([st2 s2] & Hw & Hc2); [|by split_and!]. rewrite Hw in E. cbn in E.
  assert (s2 = s') as -> by (by destruct (fs_ok st2); injection E).
  apply (between_trans _ s s1 s').
  - eapply between_mono; [by apply one_change_atomic|].
    intros d [Hd|Hd]; left; [done|]. by eapply keeps_files.
  - eapply between_mono; [by apply one_change_atomic|].
    intros d [Hd|Hd]; [left|by right]. by eapply keeps_files.
Qed.

(** *** Commands *)

(** At most one of the writing operations is called by a handler, on the card it
    was given. *)
Definition atomic_handler (h : scos_cmd_handler (recorder N)) : Prop :=
  ∀ k c r b s, card_inv s (k_sel k) → cmd_wf c → rsp_wf r b → bytes b →
    wp (h (Ptr k) (Ptr c) (Ptr r) s) (λ '(_, _, _, s'), atomic_change s s').

Lemma unchanged_atomic (h : scos_cmd_handler (recorder N)) `{!HandlerSpec card_inv h} :
  (∀ k c r s sw k' r' s', h (Ptr k) (Ptr c) (Ptr r) s = Some (sw, k', r', s') → s' = s) → atomic_handler h.
Proof.
  intros Hh k c r b s HI Hc Hr Hb.
  destruct (handler_spec k c r b s HI Hc Hr Hb) as (sw & se' & r' & b' & s' & E & _).
  rewrite E. apply Hh in E as ->. apply between_refl.
Qed.

Ltac reads_only E :=
  repeat match type of E with
  | Some _ = Some _ => by injection E
  | None = Some _ => done
  | _ ≫= _ = _ => apply bind_Some in E as (? & _ & E)
  | (match ?x with _ => _ end) = _ => destruct x
  end.

Lemma select_atomic : atomic_handler scos_cmd_select.
Proof. apply (unchanged_atomic _). intros k c r s sw k' r' s' E. unfold scos_cmd_select in E. reads_only E. Qed.

Lemma read_binary_atomic_change : atomic_handler scos_cmd_read_binary.
Proof. apply (unchanged_atomic _). intros k c r s sw k' r' s' E. unfold scos_cmd_read_binary in E. reads_only E. Qed.

Lemma update_atomic : atomic_handler scos_cmd_update_binary.
Proof.
  intros k c r b s HI [_ _ Hlc _ Hd] Hr Hb. destruct (fs_inv_safe s _ HI) as [Hs Hse].
  unfold scos_cmd_update_binary. do 2 (case_if; [apply between_refl|]).
  destruct (resolve_target_total s k (c_p1 c) (c_p2 c) Hs Hse) as (sw & i & off & -> & _ & Hi & Hoff). bind_simpl.
  case_if; [apply between_refl|]. destruct (c_data c) as [|d]; [done|]. destruct Hd as [Hd Hbd].
  unfold APDU_SHORT_LC_MAX in *.
  eapply wp_bind, wp_mono; [apply (ef_write_moments s (k_sel k)); try done; [lia|unfold is_u16; lia]|].
  intros [st s'] Hs'. by case_if.
Qed.

Lemma create_atomic : atomic_handler scos_cmd_create_file.
Proof.
  intros k c r b s HI [_ _ Hlc _ Hd] Hr Hb. unfold scos_cmd_create_file, APDU_SHORT_LC_MAX in *.
  destruct (k_lifecycle k); try apply between_refl.
  all: case_if; [apply between_refl|]; case_if; [apply between_refl|].
  all: destruct (c_data c) as [|data]; [done|]; destruct Hd as [Hd Hbd].
  all: rewrite parse_fcp_eq by (done || lia); bind_simpl.
  all: destruct (fcp_reference (slice 0 (c_lc c) data)) as [sw req] eqn:Href.
  all: case_if; [apply between_refl|]; subst sw.
  all: destruct (fcp_reference_ok _ _ (bytes_slice _ _ _ Hbd) Href) as (_ & _ & _ & _ & _ & Hty & _).
  all: eapply wp_bind, wp_mono; [by apply (create_moments s (k_sel k))|].
  all: intros [[st o] s'] Hs'; by case_if.
Qed.

Lemma delete_atomic : atomic_handler scos_cmd_delete_file.
Proof.
  intros k c r b s HI [_ _ Hlc _ Hd] Hr Hb. unfold scos_cmd_delete_file.
  destruct (k_lifecycle k); try apply between_refl.
  all: case_if; [apply between_refl|].
  all: destruct (c_data c) as [|data]; [apply between_refl|]; destruct Hd as [Hd Hbd].
  all: case_if; [apply between_refl|].
  all: destruct (data_fid_some data Hbd) as (fid & -> & _); [lia|]; bind_simpl.
  all: destruct (delete_moments s (k_sel k) fid HI) as (st & se' & s' & -> & Hs'); bind_simpl.
  all: by case_if.
Qed.

Lemma dispatch_atomic_change : atomic_handler scos_dispatch.
Proof.
  intros k c r b s HI Hc Hr Hb. rewrite scos_dispatch_cases.
  repeat case_if; [by eapply select_atomic|by eapply read_binary_atomic_change|by eapply update_atomic
    |by eapply create_atomic|by eapply delete_atomic|apply between_refl].
Qed.

Lemma process_moments k s cmd n rsp x :
  card_inv s (k_sel k) → bytes cmd → 0 ≤ n ≤ len cmd → n < 65536 → bytes rsp → len rsp = SCOS_APDU_RSP_MAX →
  ∃ k' rsp' m s', scos_process (Ptr k) (Ptr cmd) n (Ptr rsp) SCOS_APDU_RSP_MAX (Ptr x) s =
      Some (SCOS_OK, Ptr k', Ptr rsp', Ptr m, s') ∧ card_inv s' (k_sel k') ∧ atomic_change s s'.
Proof.
  intros HI Hcmd Hn Hn16 Hb Hl.
  destruct (process_answers card_inv k s cmd n rsp SCOS_APDU_RSP_MAX x HI Hcmd Hn Hn16 Hb)
    as (se' & rsp' & m & s' & E & _ & _ & _ & HI'); [done|by rewrite Hl|].
  exists (set_sel k se'), rsp', m, s'. split; [done|]. split; [done|]. revert E. unfold scos_process.
  assert (∀ sw k0 r t, answer k0 r sw t = Some (SCOS_OK, Ptr (set_sel k se'), Ptr rsp', Ptr m, s') → s' = t) as Hans.
  { intros sw k0 r t Ha. unfold answer in Ha. destruct (apdu_rsp_finish r sw) as [[? [|]]|]; by simplify_eq/=. }
  change (SCOS_APDU_RSP_MAX <? 2) with false. cbv zeta. cbn [apdu_rsp_init is_null].
  destruct (k_lifecycle k); try (intros ->%Hans; apply between_refl).
  pose proof (apdu_parse_safe cmd n apdu_command_zero Hcmd Hn Hn16) as Hp.
  apply wp_elim in Hp as ([pst c] & -> & Hc). bind_simpl.
  destruct pst; try (intros ->%Hans; apply between_refl). destruct Hc as (c' & -> & Hcw).
  destruct (apdu_check_cla (c_cla c')); try (intros ->%Hans; apply between_refl).
  pose proof (dispatch_atomic_change k c' (ApduResponse (Ptr rsp) SCOS_APDU_RSP_MAX 0 false) rsp s HI Hcw) as Hw.
  apply wp_elim in Hw as ([[[sw k1] r1] s1] & -> & Hch); [|by apply fresh_rsp_wf; rewrite ?Hl|done]. bind_simpl.
  by intros ->%Hans.
Qed.

(** *** Formatting a blank card *)

(** A device with the first bytes, the size and the FLASH of the card [s]. *)
Record same_head s d : Prop := {
  sh_wf : nvm_wf d; sh_ready : nvm_ready d;
  sh_head : take 4 (nvm_mem d HAL_NVM_EEPROM) = take 4 (eeprom s);
  sh_size : len (nvm_mem d HAL_NVM_EEPROM) = len (eeprom s);
  sh_flash : nvm_mem d HAL_NVM_FLASH = flash s;
}.

Lemma take_splice_head (l x : list Z) off : 4 ≤ off → off ≤ len l → take 4 (splice l off x) = take 4 l.
Proof.
  intros Hoff Hl. unfold splice, len in *. rewrite take_app_le by (rewrite length_take; lia).
  rewrite take_take. f_equal. lia.
Qed.

(** The slots are erased one by one, behind the superblock. *)
Lemma format_loop_moments s0 idx fd s :
  same_head s0 (dev s) → Forall (λ i, 0 ≤ i < FS_MAX_FILES) idx → len fd = FS_DESC_SIZE → bytes fd →
  FS_DESC_BASE + FS_DESC_SIZE * FS_MAX_FILES ≤ len (eeprom s0) →
  wp (format_loop idx fd s) (λ '(_, s'), s_sb s' = s_sb s ∧ same_head s0 (dev s') ∧ between (same_head s0) s s').
Proof.
  intros Hh Hidx Hl Hb Hle. revert s Hh. induction Hidx as [|i idx Hi _ IH]; intros s Hh; [split; [done|split; [done|apply between_refl]]|].
  cbn [format_loop]. pose proof Hh as [Hwf Hr Hhd Hsz Hfl].
  unfold FS_MAX_FILES in *. destruct (desc_off_small i) as [Hoff Hoff32]; [lia|].
  assert (FS_DESC_BASE = 16 ∧ FS_DESC_SIZE = 20) as [Hbase Hsize] by done.
  destruct (nvm_write_ok (dev s) HAL_NVM_EEPROM (desc_off i) fd FS_DESC_SIZE) as (d & E & Hwf' & Hr' & Hm & Ho);
    try done; [by left|lia|lia|].
  cbn [hal_nvm_write RecorderNvm]. fold (dev s) (log s). rewrite E. bind_simpl. cbn [recorded hal_is_ok negb].
  rewrite <- Hl, slice_0_all in Hm.
  assert (same_head s0 d) as Hd.
  { constructor; try done; rewrite ?Hm.
    - rewrite take_splice_head; [done|lia|lia].
    - rewrite len_splice; lia.
    - by rewrite Ho. }
  eapply wp_mono; [by apply IH|]. intros [st s'] (Hsb & Hs' & Hbt). split; [done|]. split; [done|].
  eapply between_trans; [|exact Hbt]. exists [dev s]. split; [done|]. by apply Forall_singleton.
Qed.

(** The superblock comes last: a write, then its sync. *)
Lemma sb_write_moments s :
  nvm_wf (s_nvm s) → nvm_ready (s_nvm s) → FS_DESC_BASE ≤ len (eeprom s) →
  ∃ d d', sb_write s = Some (FS_OK, Store (s_sb s) (Recorder d' (log s ++ [dev s; d]))) ∧
    nvm_wf d ∧ nvm_ready d ∧ ∀ r, nvm_mem d' r = nvm_mem d r.
Proof.
  intros Hwf Hr Hle. rewrite sb_write_eq. set (raw := seal _).
  assert (bytes raw) as Hb by (unfold raw; auto with card). assert (len raw = FS_SUPERBLOCK_SIZE) as Hl by done. clearbody raw.
  change FS_DESC_BASE with FS_SUPERBLOCK_SIZE in Hle. unfold write_sync.
  destruct (write_moments s HAL_NVM_EEPROM FS_SB_OFFSET raw FS_SUPERBLOCK_SIZE) as [(d & -> & Hwf1 & Hr1)|Hbad];
    try done; [by left|by rewrite Hl| |].
  - bind_simpl. cbn [hal_is_ok negb set_nvm s_nvm].
    destruct (sync_moments d (log s ++ [dev s]) Hwf1 Hr1) as (d' & -> & _ & _ & Hm). bind_simpl.
    exists d, d'. rewrite <- app_assoc. done.
  - exfalso. destruct (nvm_write_ok (s_nvm s) HAL_NVM_EEPROM FS_SB_OFFSET raw FS_SUPERBLOCK_SIZE) as (n' & E & _);
      try done; [by left|by rewrite Hl|]. rewrite Hbad in E. discriminate E.
Qed.

Lemma format_moments s :
  nvm_wf (s_nvm s) → nvm_ready (s_nvm s) → FS_DESC_BASE + FS_DESC_SIZE * FS_MAX_FILES ≤ len (eeprom s) →
  ∃ s' l d, fs_store_format s = Some (FS_OK, s') ∧ log s' = log s ++ l ++ [d] ∧ Forall (same_head s) l ∧
    holds_memory s' d ∧ store_ok s' ∧ sb_synced s' ∧ view s' = FsView (replicate 32 SlotFree) 0 (flash s).
Proof.
  intros Hwf Hr Hle. destruct (format_ok s Hwf Hr Hle) as (s' & E & Hs' & Hsy & Hv). exists s'.
  pose proof E as E'. unfold fs_store_format in E'. revert E'. rewrite nvm_size_mem by done. fold (eeprom s).
  change (u32 (FS_DESC_BASE + u32 (FS_MAX_FILES * FS_DESC_SIZE))) with (FS_DESC_BASE + FS_DESC_SIZE * FS_MAX_FILES).
  replace (len (eeprom s) <? FS_DESC_BASE + FS_DESC_SIZE * FS_MAX_FILES) with false by lia.
  rewrite memset_array_eq by (done || unfold is_u8; lia). bind_simpl.
  pose proof (format_loop_moments s (upto FS_MAX_FILES) (replicate (Z.to_nat FS_DESC_SIZE) 255) s) as Hloop.
  apply wp_elim in Hloop as ([st s1] & Hl1 & Hsb1 & Hh1 & l & Hlog1 & Hl); try done;
    [|by apply Forall_forall; intros i Hi%elem_of_upto|solve_bytes].
  rewrite Hl1. bind_simpl. destruct (fs_ok st) eqn:Est; cbn [negb]; [|intros [= -> _]; discriminate Est].
  set (s2 := Store _ (s_nvm s1)). pose proof Hh1 as [Hwf1 Hr1 _ Hsz1 _].
  destruct (sb_write_moments s2) as (d & d' & -> & Hwfd & Hrd & Hm); try done.
  { unfold eeprom. cbn [s2 s_nvm nvm_mem RecorderSpec]. fold (dev s1). rewrite Hsz1.
    change (FS_DESC_BASE + FS_DESC_SIZE * FS_MAX_FILES) with 656 in Hle. change FS_DESC_BASE with 16. lia. }
  bind_simpl. cbn [fs_ok negb]. intros [= Hs2]. exists (l ++ [dev s1]), d. split; [done|]. split; [|split; [|split; [|done]]].
  - rewrite <- Hs2. unfold log, set_mounted. cbn [s_nvm r_log]. fold (log s2). change (log s2) with (log s1).
    change (dev s2) with (dev s1). rewrite Hlog1, <- !app_assoc. done.
  - rewrite Forall_app. split; [done|]. by apply Forall_singleton.
  - rewrite <- Hs2. split; [done|]. split; [done|]. intros r. symmetry. apply Hm.
Qed.

(** A blank card boots, as a new one. *)
Lemma blank_boots s d k0 m :
  blank_card s → FS_DESC_BASE + FS_DESC_SIZE * FS_MAX_FILES ≤ len (eeprom s) → factory_data ≤ len (flash s) →
  same_head s d →
  ∃ k1 (s1 : store N), scos_init (Ptr k0) (Store m d) = Some (SCOS_OK, Ptr k1, s1) ∧ operational (k1, s1) ∧
    view s1 = factory_view (flash s).
Proof.
  intros Hb He Hf [Hwf Hr Hhd Hsz Hfl].
  destruct (init_blank (Store m d)) as (s1 & Hi & Hs1 & Hsy1 & _ & Hv1); try done.
  - unfold blank_card, eeprom in *. cbn [s_nvm]. by rewrite Hhd.
  - unfold eeprom in *. cbn [s_nvm]. by rewrite Hsz.
  - unfold flash in *. cbn [s_nvm]. by rewrite Hfl.
  - change (flash (Store m d)) with (nvm_mem d HAL_NVM_FLASH) in Hv1. rewrite Hfl in Hv1.
    destruct (init_operational k0 (Store m d) s1 Hi Hs1 Hsy1) as (k1 & ? & ?); [rewrite Hv1; apply factory_tree|].
    by exists k1, s1.
Qed.

(** A mounted card without an MF does not start, and is left as it is. *)
Lemma rootless_stays_dead s d k0 m :
  store_ok s → sb_synced s → file_at (view s) FS_ROOT_INDEX = None → holds_memory s d →
  ∃ k1 (s1 : store N), scos_init (Ptr k0) (Store m d) = Some (SCOS_ERR_STATE, Ptr k1, s1) ∧
    k_lifecycle k1 = SCOS_LC_FS_ERROR ∧ s_nvm s1 = d.
Proof.
  intros Hs Hsy Hroot (Hwf & Hr & Hm). set (t := Store (s_sb s) d).
  assert (eeprom t = eeprom s) as He by apply Hm. assert (flash t = flash s) as Hf by apply Hm.
  assert (view t = view s) as Hv by (unfold view, max_files; cbn [t s_sb]; by rewrite He, Hf).
  assert (store_ok t) as Ht by (destruct Hs; constructor; rewrite ?He, ?Hf; done).
  assert (fs_store_mount (Store m d) = Some (FS_OK, t)) as Hmt
    by (apply (mount_synced t m Ht); unfold sb_synced; by rewrite He).
  destruct (get_desc_none t FS_ROOT_INDEX Ht) as (st & fd & Hg & Hst & _); [done|by rewrite Hv|].
  unfold scos_init, fs_init. rewrite Hmt. bind_simpl. rewrite Hg. bind_simpl.
  destruct st; try done; eexists _, t; (split; [done|]); done.
Qed.
End cut.

(** ** Theorems *)

(** The card with a memory that remembers from now on. *)
Definition recording {N} (s : store N) : store (recorder N) := Store (s_sb s) (Recorder (s_nvm s) []).

(** [C4] No command can be caught half-done by a power cut: whatever is sent to an
    operational card, and at whichever moment between two accesses to the memory
    the power fails, the next power-up finds an operational card on a well-formed
    file tree, with the files and contents from before the command or those from
    after it; at most, space set aside for a new file stays unused. *)
Theorem power_cut_is_atomic {N} `{HalNvmSpec N} k (s : store N) cmd n rsp x :
  operational (k, s) → bytes cmd → 0 ≤ n ≤ len cmd → n < 65536 → bytes rsp → len rsp = SCOS_APDU_RSP_MAX →
  ∃ k' rsp' m s' s'',
    scos_process (Ptr k) (Ptr cmd) n (Ptr rsp) SCOS_APDU_RSP_MAX (Ptr x) s = Some (SCOS_OK, Ptr k', Ptr rsp', Ptr m, s') ∧
    scos_process (Ptr k) (Ptr cmd) n (Ptr rsp) SCOS_APDU_RSP_MAX (Ptr x) (recording s) =
      Some (SCOS_OK, Ptr k', Ptr rsp', Ptr m, s'') ∧
    same_store s' s'' ∧
    ∀ d k0 m0, d ∈ moments (s_nvm s'') →
      ∃ k1 s1, scos_init (Ptr k0) (Store m0 d) = Some (SCOS_OK, Ptr k1, s1) ∧ operational (k1, s1) ∧
        s_nvm s1 = d ∧ (same_files (view s) (view s1) ∨ same_files (view s') (view s1)).
Proof.
  intros [Hlc HI] Hcmd Hn Hn16 Hb Hl. cbn in Hlc, HI. pose proof HI as (Hs & Ht & Hse & Hsy).
  assert (same_store s (recording s)) as Hsame by (destruct Hs; by constructor).
  assert (card_inv (recording s) (k_sel k)) as HIr by (split; [by destruct Hs|done]).
  destruct (process_moments k (recording s) cmd n rsp x HIr Hcmd Hn Hn16 Hb Hl)
    as (k' & rsp' & m & s'' & E & (Hs2 & Ht2 & _ & Hsy2) & l & Hlog & Hl2).
  pose proof (scos_process_same (Ptr k) cmd n (Ptr rsp) SCOS_APDU_RSP_MAX (Ptr x) s (recording s) Hsame Hcmd Hn Hn16) as Ha.
  rewrite E in Ha. inversion Ha as [[out s'] ? [Ho Hs'] E1 E2|]; subst. cbn in Ho, Hs'. subst out.
  exists k', rsp', m, s', s''. split; [done|]. split; [done|]. split; [done|].
  assert (view s'' = view s') as Hv.
  { unfold view, max_files, eeprom, flash. rewrite (sm_sb _ _ Hs').
    by rewrite (sm_mem _ _ Hs' HAL_NVM_EEPROM), (sm_mem _ _ Hs' HAL_NVM_FLASH) by ((by left) || (by right)). }
  intros d k0 m0 Hd. assert (keeps (view s) d ∨ keeps (view s') d) as [Hk|Hk].
  { unfold moments in Hd. fold (log s'') in Hd. rewrite Hlog, <- Hv in *. apply elem_of_app in Hd as [Hd|Hd].
    - rewrite Forall_forall in Hl2. by apply Hl2.
    - apply list_elem_of_singleton in Hd as ->. right. apply holds_keeps; try done. destruct Hs2. by apply holds_itself. }
  all: destruct (keeps_boots _ _ k0 m0 Hk) as (k1 & s1 & ? & ? & ? & ?); exists k1, s1; auto.
Qed.

(** [C30] The first power-up of a card can be cut short while the file system is
    laid out, and repeated: until the superblock is written, the last step, the
    card reads as blank and the next power-up makes a factory card of it.  From
    then on, until the MF is written, it is mounted without a root: the next
    power-up reports a damaged file system and changes nothing, so that the card
    never starts again. *)
Theorem interrupted_format {N} `{HalNvmSpec N} (s : store N) :
  nvm_wf (s_nvm s) → nvm_ready (s_nvm s) → blank_card s →
  FS_DESC_BASE + FS_DESC_SIZE * FS_MAX_FILES ≤ len (eeprom s) → factory_data ≤ len (flash s) →
  ∃ s' l d, fs_store_format (recording s) = Some (FS_OK, s') ∧ moments (s_nvm s') = l ++ [d; dev s'] ∧
    (∀ d0 k0 m, d0 ∈ l →
       ∃ k1 s1, scos_init (Ptr k0) (Store m d0) = Some (SCOS_OK, Ptr k1, s1) ∧ operational (k1, s1) ∧
         view s1 = factory_view (flash s)) ∧
    (∀ d0 k0 m, d0 ∈ [d; dev s'] →
       ∃ k1 s1, scos_init (Ptr k0) (Store m d0) = Some (SCOS_ERR_STATE, Ptr k1, s1) ∧
         k_lifecycle k1 = SCOS_LC_FS_ERROR ∧ s_nvm s1 = d0).
Proof.
  intros Hwf Hr Hb He Hf. destruct (format_moments (recording s) Hwf Hr He) as (s' & l & d & E & Hlog & Hl & Hd & Hs' & Hsy & Hv).
  exists s', l, d. split; [done|]. split.
  { unfold moments. fold (log s'). rewrite Hlog. cbn [recording log s_nvm r_log app]. by rewrite <- app_assoc. }
  split; intros d0 k0 m Hd0.
  - apply (blank_boots (recording s) d0 k0 m Hb He Hf). rewrite Forall_forall in Hl. by apply Hl.
  - apply (rootless_stays_dead s' d0 k0 m Hs' Hsy); [by rewrite Hv|].
    apply list_elem_of_In in Hd0 as [<-|[<-|[]]]; [done|]. destruct Hs'. by apply holds_itself.
Qed.

(** ** Witnesses *)

#[local] Existing Instance small_config.

(** CREATE FILE of an EF of 8 bytes, on a factory card. *)
Definition create_command : list Z := [0x00; 0xE0; 0x00; 0x00; 13] ++ sample_fcp.

Lemma power_cut_is_atomic_witness :
  ∃ k' rsp' m s' s'',
    scos_process (Ptr factory_kernel) (Ptr create_command) 18 (Ptr (local_array SCOS_APDU_RSP_MAX)) SCOS_APDU_RSP_MAX (Ptr 0)
      factory_store = Some (SCOS_OK, Ptr k', Ptr rsp', Ptr m, s') ∧
    scos_process (Ptr factory_kernel) (Ptr create_command) 18 (Ptr (local_array SCOS_APDU_RSP_MAX)) SCOS_APDU_RSP_MAX (Ptr 0)
      (recording factory_store) = Some (SCOS_OK, Ptr k', Ptr rsp', Ptr m, s'') ∧
    same_store s' s'' ∧
    ∀ d k0 m0, d ∈ moments (s_nvm s'') →
      ∃ k1 s1, scos_init (Ptr k0) (Store m0 d) = Some (SCOS_OK, Ptr k1, s1) ∧ operational (k1, s1) ∧
        s_nvm s1 = d ∧ (same_files (view factory_store) (view s1) ∨ same_files (view s') (view s1)).
Proof.
  apply (power_cut_is_atomic factory_kernel factory_store create_command 18 (local_array SCOS_APDU_RSP_MAX) 0);
    [apply factory_operational|unfold create_command, sample_fcp; solve_bytes|split; vm_compute; discriminate
    |reflexivity|apply sample_buffer|reflexivity].
Defined.

Lemma interrupted_format_witness :
  ∃ s' l d, fs_store_format (recording blank_store) = Some (FS_OK, s') ∧ moments (s_nvm s') = l ++ [d; dev s'] ∧
    (∀ d0 k0 m, d0 ∈ l →
       ∃ k1 s1, scos_init (Ptr k0) (Store m d0) = Some (SCOS_OK, Ptr k1, s1) ∧ operational (k1, s1) ∧
         view s1 = factory_view (flash blank_store)) ∧
    (∀ d0 k0 m, d0 ∈ [d; dev s'] →
       ∃ k1 s1, scos_init (Ptr k0) (Store m d0) = Some (SCOS_ERR_STATE, Ptr k1, s1) ∧
         k_lifecycle k1 = SCOS_LC_FS_ERROR ∧ s_nvm s1 = d0).
Proof.
  destruct blank_store_facts as (Hwf & Hr & Hb & He & Hf). exact (interrupted_format blank_store Hwf Hr Hb He Hf).
Defined.

(** The start of the card on a memory, and how many files it finds. *)
Definition restart (d : vcard) : option (scos_status * nat) :=
  '(st, _, s) ← scos_init (Ptr scos_kernel_zero) (Store (Superblock false 0 0 0) d);
  Some (st, length (List.filter (λ sl, match sl with SlotFile _ => true | _ => false end) (v_slots (view s)))).

Definition restarts_found {A} (r : option (A * store (recorder vcard))) : list (option (scos_status * nat)) :=
  match r with Some (_, s) => restart <$> moments (s_nvm s) | None => [] end.

(** CREATE FILE goes through five moments: before the superblock is written,
    before that is synced, the same around the descriptor, and the end. *)
#[local] Transparent factory_store formatted_store.

Example create_moments_found :
  restarts_found (scos_process (Ptr factory_kernel) (Ptr create_command) 18 (Ptr (local_array SCOS_APDU_RSP_MAX))
              SCOS_APDU_RSP_MAX (Ptr 0) (recording factory_store)) =
    [Some (SCOS_OK, 5%nat); Some (SCOS_OK, 5%nat); Some (SCOS_OK, 5%nat); Some (SCOS_OK, 6%nat); Some (SCOS_OK, 6%nat)].
Proof. vm_compute. reflexivity. Qed.

(** The whole of the first power-up (fs.c:508): cut before the superblock is
    written, or at the end, the card starts with its five files; between the
    superblock and the MF it never starts again; and after the MF it starts with
    the files that happened to be there, which nothing completes. *)
Example first_power_up_moments :
  restarts_found (scos_init (Ptr scos_kernel_zero) (recording blank_store)) =
    replicate 33 (Some (SCOS_OK, 5%nat)) ++ replicate 2 (Some (SCOS_ERR_STATE, 0%nat)) ++
    replicate 4 (Some (SCOS_OK, 1%nat)) ++ replicate 2 (Some (SCOS_OK, 2%nat)) ++
    replicate 4 (Some (SCOS_OK, 3%nat)) ++ replicate 4 (Some (SCOS_OK, 4%nat)) ++ replicate 2 (Some (SCOS_OK, 5%nat)).
Proof. vm_compute. reflexivity. Qed.
