(* ===== verification/Session.v ===== *)
(** * Sessions of command APDUs

    What a reader and the card say to each other between two resets: a sequence
    of commands with the responses of [scos_process] (kernel.c), independent of
    the buffers and of the link that carry them; and what a card keeps when its
    memory is carried over to the next power-up. *)

From S2P Require Import Prelude OsMem Sw Apdu Hal SimHal FsTypes FsStore Fs FsTree KernelTypes CmdBinary Dispatch Kernel.

(** Kernels that differ in their buffers and the reset count only. *)
Definition same_card (k k' : scos_kernel) : Prop := k_lifecycle k' = k_lifecycle k ∧ k_sel k' = k_sel k.

#[export] Instance same_card_equiv : Equivalence same_card.
Proof. unfold same_card. split; [done|intros ? ? []; split; congruence|intros ? ? ? [] []; split; congruence]. Qed.

Section session.
Context {N : Type} `{HalNvmSpec N}.
Implicit Types (s : store N).

(** The card in state [c] answers the command [d] with [r]: so says the kernel,
    given the command in any buffer and any buffer for the response. *)
Inductive exchange : scos_kernel * store N → list Z → list Z → scos_kernel * store N → Prop :=
| exchange_intro k s d k' s' ke buf rsp x ke' rsp' m :
    same_card k ke → bytes buf → len d ≤ len buf → slice 0 (len d) buf = d → len d ≤ SCOS_APDU_CMD_MAX →
    bytes rsp → len rsp = SCOS_APDU_RSP_MAX →
    scos_process (Ptr ke) (Ptr buf) (len d) (Ptr rsp) SCOS_APDU_RSP_MAX (Ptr x) s =
      Some (SCOS_OK, Ptr ke', Ptr rsp', Ptr m, s') →
    same_card ke' k' → exchange (k, s) d (take (Z.to_nat m) rsp') (k', s').

Inductive session : scos_kernel * store N → list (list Z) → list (list Z) → scos_kernel * store N → Prop :=
| session_nil k s k' : same_card k k' → session (k, s) [] [] (k', s)
| session_cons c d r c1 ds rs c2 : exchange c d r c1 → session c1 ds rs c2 → session c (d :: ds) (r :: rs) c2.

Lemma session_length c ds rs c' : session c ds rs c' → length rs = length ds.
Proof. induction 1; cbn; congruence. Qed.

(** A session of one command. *)
Lemma session_one k s d rs k' s' :
  session (k, s) [d] rs (k', s') → ∃ r k1, rs = [r] ∧ exchange (k, s) d r (k1, s') ∧ same_card k1 k'.
Proof.
  intros Hs. inversion Hs as [|? ? r c1 ? ? ? He Hnil]; subst. inversion Hnil as [k1 ? ? Hk|]; subst. by exists r, k1.
Qed.

Lemma operational_same k k' s : same_card k k' → operational (k, s) → operational (k', s).
Proof. intros [Hl Hs] [H1 H2]. cbn in *. split; cbn; congruence. Qed.

Lemma exchange_operational c d r c' : operational c → exchange c d r c' → operational c'.
Proof.
  intros Hop He. destruct He as [k s d k' s' ke buf rsp x ke' rsp' m Hk Hb Hl Hsl Hmax Hrb Hrl Hp Hk'].
  pose proof (operational_same _ _ _ Hk Hop) as Hope. pose proof (len_nonneg d).
  eapply operational_same; [exact Hk'|]. eapply step_operational; [exact Hope|].
  by eapply (step_command ke s buf (len d) rsp x); try done; lia.
Qed.

Lemma session_operational c ds rs c' : operational c → session c ds rs c' → operational c'.
Proof.
  intros Hop Hs. induction Hs as [k s k' Hk|c d r c1 ds rs c2 He _ IH]; [by eapply operational_same|].
  by apply IH; eapply exchange_operational.
Qed.

(** A command in front of the rest of the buffer. *)
Lemma buffer_split (buf d : list Z) : slice 0 (len d) buf = d → bytes buf → ∃ t, buf = d ++ t ∧ bytes t.
Proof.
  intros Hs Hb. exists (drop (Z.to_nat (len d)) buf). split; [|by apply bytes_drop].
  unfold slice in Hs. rewrite drop_0 in Hs. rewrite <- Hs at 1. by rewrite take_drop.
Qed.

(** The responses to an UPDATE BINARY that fits and to the READ BINARY of what
    is there. *)
Lemma exchange_update k s p1 p2 data i off d r k' s' :
  operational (k, s) → addressed (view s) (k_sel k) p1 p2 i off d data →
  exchange (k, s) (encode_command 0 INS_UPDATE_BINARY p1 p2 data None) r (k', s') →
  r = [0x90; 0x00] ∧ k_sel k' = k_sel k ∧ updated s s' i d off data ∧ ef_holds (view s') d off data.
Proof.
  intros Hop Had He. inversion He as [? ? ? ? ? ke buf rsp x ke' rsp' m Hk Hb _ Hsl _ Hrb Hrl Hp Hk']; subst.
  destruct (buffer_split _ _ Hsl Hb) as (t & -> & Ht). pose proof (proj2 Hk) as Hsel.
  destruct (update_apdu ke s p1 p2 data i off d t rsp x) as (rsp1 & n1 & s1 & Hup & Hr & _ & Hupd & Hh);
    [by eapply operational_same|by rewrite Hsel|done..|].
  rewrite Hp in Hup. injection Hup as -> -> -> ->. rewrite <- Hsel, <- (proj2 Hk'). done.
Qed.

Lemma exchange_read k s p1 p2 data i off d r k' s' :
  operational (k, s) → addressed (view s) (k_sel k) p1 p2 i off d data → ef_holds (view s) d off data →
  exchange (k, s) (encode_command 0 INS_READ_BINARY p1 p2 [] (Some (len data))) r (k', s') →
  r = data ++ [0x90; 0x00] ∧ k_sel k' = k_sel k ∧ s' = s.
Proof.
  intros Hop Had Hh He. inversion He as [? ? ? ? ? ke buf rsp x ke' rsp' m Hk Hb _ Hsl _ Hrb Hrl Hp Hk']; subst.
  destruct (buffer_split _ _ Hsl Hb) as (t & -> & Ht). pose proof (proj2 Hk) as Hsel.
  destruct (read_apdu ke s p1 p2 data i off d t rsp x) as (rsp2 & n2 & Hrd & Hr);
    [by eapply operational_same|by rewrite Hsel|done..|].
  rewrite Hp in Hrd. injection Hrd as -> -> -> ->. rewrite <- Hsel, <- (proj2 Hk'). done.
Qed.

(** ** Another device with the same memory *)

Definition same_memory (n n' : N) : Prop := ∀ r, nvm_mem n' r = nvm_mem n r.

Lemma view_same_memory s n : same_memory (s_nvm s) n → view (set_nvm s n) = view s.
Proof. intros Hm. unfold view, eeprom, flash, max_files. cbn [set_nvm s_nvm s_sb]. by rewrite !Hm. Qed.

Lemma card_inv_same_memory s se n :
  card_inv s se → nvm_wf n → nvm_ready n → same_memory (s_nvm s) n → card_inv (set_nvm s n) se.
Proof.
  intros (Hs & Ht & Hse & Hsy) Hwf Hr Hm. unfold card_inv. rewrite view_same_memory by done.
  split; [|split; [done|split; [done|]]].
  - destruct Hs. by split; unfold eeprom, flash in *; cbn [set_nvm s_nvm s_sb]; rewrite ?Hm.
  - unfold sb_synced, eeprom in *. cbn [set_nvm s_nvm s_sb]. by rewrite Hm.
Qed.

(** Start-up on it finds the file system that was there. *)
Lemma init_same_memory k s n k0 m :
  operational (k, s) → nvm_wf n → nvm_ready n → same_memory (s_nvm s) n →
  ∃ k', scos_init (Ptr k0) (Store m n) = Some (SCOS_OK, Ptr k', set_nvm s n) ∧ operational (k', set_nvm s n) ∧
    k_sel k' = FsSelection FS_ROOT_INDEX FS_INVALID_INDEX.
Proof.
  intros [Hlc Hinv] Hwf Hr Hm. cbn in Hlc, Hinv.
  assert (operational (k, set_nvm s n)) as Hop by (split; [done|by apply card_inv_same_memory]).
  destruct (power_cycle_operational k (set_nvm s n) k0 m Hop) as (k' & Hi & Hop'). exists k'. split; [done|]. split; [done|].
  revert Hi. unfold scos_init. destruct (fs_init _) as [[st s1]|]; [|done]. bind_simpl. destruct (negb (fs_ok st)); [done|].
  cbn [fs_selection_reset]. by intros [= <- _].
Qed.
End session.
