(* ===== verification/Responses.v ===== *)
(** * What a response can be

    The type of every response of the card: which status words each command may
    be answered with, and when data may come with them.  The status words are
    found by walking through the code of each command with a rule for each
    construct of the option monad; nothing is assumed of the memory for that. *)

From S2P Require Import Prelude OsMem Sw Apdu Tlv Hal SimHal FsTypes FsStore Fs FsTree KernelTypes CmdSelect CmdBinary CmdCreate Dispatch Kernel.

(** ** Whatever it returns satisfies [Q] *)

Definition yields {A} (m : option A) (Q : A → Prop) : Prop := ∀ a, m = Some a → Q a.

Lemma yields_some {A} (a : A) (Q : A → Prop) : Q a → yields (Some a) Q.
Proof. by intros Ha b [= <-]. Qed.

Lemma yields_none {A} (Q : A → Prop) : yields None Q.
Proof. by intros a. Qed.

Lemma yields_bind {A B} (m : option A) (f : A → option B) (P : A → Prop) (Q : B → Prop) :
  yields m P → (∀ a, P a → yields (f a) Q) → yields (m ≫= f) Q.
Proof. intros Hm Hf. destruct m as [a|]; [|by intros b]. exact (Hf a (Hm a eq_refl)). Qed.

Lemma yields_any {A} (m : option A) : yields m (λ _, True).
Proof. by intros a. Qed.

Lemma yields_mono {A} (m : option A) (P Q : A → Prop) : yields m P → (∀ a, P a → Q a) → yields m Q.
Proof. intros Hm HQ a Ha. by apply HQ, Hm. Qed.

(** What is known of the subroutines. *)
Create HintDb yields.

(** Go down the code to its returns; at each, [t]. *)
Ltac walk_to t :=
  repeat first
    [ match goal with
      | |- yields None _ => apply yields_none
      | |- yields (Some _) _ => apply yields_some; t
      | |- yields (_ ≫= _) _ => eapply yields_bind; [first [solve [auto with yields nocore]|apply yields_any]|]; intros; cbv beta iota; cbn [fst snd] in *
      | |- yields (match ?x with _ => _ end) _ => destruct x eqn:?
      | x : (_ * _)%type |- _ => destruct x; cbv beta iota; cbn [fst snd] in *
      end ].

(** ** The statuses of the file system's operations *)

Definition raw_status (st : fs_status) : Prop :=
  match st with FS_OK | FS_ERR_NOT_FORMATTED | FS_ERR_PARAM | FS_ERR_NVM => True | _ => False end.
Definition desc_status (st : fs_status) : Prop :=
  match st with FS_ERR_NOT_FOUND | FS_ERR_CORRUPT => True | _ => raw_status st end.
Definition select_status (st : fs_status) : Prop :=
  match st with FS_ERR_NOT_USABLE | FS_ERR_WRONG_TYPE => True | _ => desc_status st end.

Definition file_status (st : fs_status) : Prop := match st with FS_ERR_RANGE => True | _ => select_status st end.

Definition create_status (st : fs_status) : Prop :=
  match st with FS_ERR_EXISTS | FS_ERR_NO_SPACE => True | _ => select_status st end.

(** A status that one of the operations called has returned. *)
Ltac status :=
  cbn [fst snd] in *; destruct_and?; repeat match goal with |- context [?x] => is_var x; match type of x with fs_status => destruct x end end;
  cbn [raw_status desc_status select_status file_status create_status] in *; (done || contradiction || congruence).

Section statuses.
Context {N : Type} `{HalNvm N}.
Implicit Types s : store N.

Lemma raw_read_status s i b : yields (desc_raw_read s i b) (λ r, raw_status r.1).
Proof. unfold desc_raw_read. walk_to status. Qed.
Hint Resolve raw_read_status : yields.

Lemma read_desc_status s i o : yields (fs_store_read_desc s i o) (λ r, desc_status r.1).
Proof. unfold fs_store_read_desc. walk_to status. Qed.
Hint Resolve read_desc_status : yields.

Lemma get_desc_status s i : yields (get_desc s i) (λ r, desc_status r.1).
Proof. unfold get_desc. walk_to status. Qed.
Hint Resolve get_desc_status : yields.

Lemma find_child_status s p f o : yields (fs_find_child s p f o) (λ r, desc_status r.1).
Proof.
  unfold fs_find_child. destruct o; [by apply yields_some|].
  apply (yields_bind _ _ (λ r, desc_status r.1)); [|intros [] ?; by apply yields_some].
  induction (upto (fs_store_max_files s)) as [|i idx IH]; [by apply yields_some|]. cbn [find_child_loop].
  walk_to status; exact IH.
Qed.
Hint Resolve find_child_status : yields.

Lemma resolve_status s i : yields (resolve s i) (λ r, select_status r.1 ∧ r.1 ≠ FS_ERR_WRONG_TYPE).
Proof. unfold resolve. walk_to status. Qed.
Hint Resolve resolve_status : yields.

Lemma select_fid_status s se fid : yields (fs_select_by_fid s se fid) (λ r, select_status r.1).
Proof. unfold fs_select_by_fid. walk_to status. Qed.
Hint Resolve select_fid_status : yields.

Lemma select_typed_status s se fid b : yields (select_child_typed s se fid b) (λ r, select_status r.1).
Proof. unfold select_child_typed. walk_to status. Qed.
Hint Resolve select_typed_status : yields.

Lemma select_parent_status s se : yields (fs_select_parent s se) (λ r, select_status r.1).
Proof. unfold fs_select_parent. walk_to status. Qed.
Hint Resolve select_parent_status : yields.

Lemma path_loop_status s path steps idx se : yields (path_loop s path steps idx se) (λ r, select_status r.1).
Proof.
  revert se. induction idx as [|n idx IH]; intros se; [by apply yields_some|]. cbn [path_loop].
  walk_to status; apply IH.
Qed.
Hint Resolve path_loop_status : yields.

Lemma select_path_status s se path n b : yields (fs_select_by_path s se path n b) (λ r, select_status r.1).
Proof. unfold fs_select_by_path. walk_to status. Qed.
Hint Resolve select_path_status : yields.

Lemma find_sfi_status s df sfi o :
  yields (fs_find_by_sfi s df sfi o) (λ r, r.1 = FS_OK ∨ r.1 = FS_ERR_PARAM ∨ r.1 = FS_ERR_NOT_FOUND).
Proof. unfold fs_find_by_sfi. walk_to ltac:(cbn; tauto). Qed.
Hint Resolve find_sfi_status : yields.


Lemma read_data_status s off n dst : yields (fs_store_read_data s off n dst) (λ r, raw_status r.1 ∨ r.1 = FS_ERR_RANGE).
Proof. unfold fs_store_read_data. walk_to ltac:(cbn; tauto). Qed.
Hint Resolve read_data_status : yields.

Lemma write_data_status s off n src : yields (fs_store_write_data s off n src) (λ r, file_status r.1).
Proof. unfold fs_store_write_data. walk_to ltac:(cbn; tauto). Qed.
Hint Resolve write_data_status : yields.

Lemma file_read_status s i off n dst o : yields (fs_ef_read s i off n dst o) (λ r, file_status r.1.1).
Proof.
  unfold fs_ef_read. walk_to ltac:(cbn [fst snd file_status] in *; destruct_and?; destruct_or?; subst; status).
Qed.
Hint Resolve file_read_status : yields.

Lemma file_write_status s i off n src : yields (fs_ef_write s i off n src) (λ r, file_status r.1).
Proof. unfold fs_ef_write. walk_to status. apply write_data_status. Qed.
Hint Resolve file_write_status : yields.

(** Creating and deleting. *)
Lemma write_sync_status s off raw n : yields (write_sync s off raw n) (λ r, raw_status r.1).
Proof. unfold write_sync. walk_to status. Qed.
Hint Resolve write_sync_status : yields.

Lemma sb_write_status s : yields (sb_write s) (λ r, raw_status r.1).
Proof. unfold sb_write. walk_to status. apply write_sync_status. Qed.
Hint Resolve sb_write_status : yields.

Lemma write_desc_status s i d : yields (fs_store_write_desc s i d) (λ r, raw_status r.1).
Proof. unfold fs_store_write_desc. walk_to status. apply write_sync_status. Qed.
Hint Resolve write_desc_status : yields.

Lemma free_desc_status s i : yields (fs_store_free_desc s i) (λ r, raw_status r.1).
Proof. unfold fs_store_free_desc. walk_to status. apply write_sync_status. Qed.
Hint Resolve free_desc_status : yields.

Lemma alloc_data_status s n o : yields (fs_store_alloc_data s n o) (λ r, create_status r.1.1).
Proof. unfold fs_store_alloc_data. walk_to status. Qed.
Hint Resolve alloc_data_status : yields.

Lemma data_for_status s req :
  yields (if d_type req =? FS_TYPE_EF_TRANSPARENT then fs_store_alloc_data s (d_size req) (Ptr 0) else Some (FS_OK, Ptr 0, s))
    (λ r, create_status r.1.1).
Proof. walk_to status. apply alloc_data_status. Qed.
Hint Resolve data_for_status : yields.

Lemma type_check_status req e : create_type_check req = Some e → create_status e.
Proof. unfold create_type_check. intros Hc. repeat case_match; try done; by injection Hc as <-. Qed.

Lemma create_file_status s se req o : yields (fs_create_file s se req o) (λ r, create_status r.1.1).
Proof.
  unfold fs_create_file.
  walk_to ltac:(try match goal with E : create_type_check _ = Some _ |- _ => apply type_check_status in E end; status).
Qed.
Hint Resolve create_file_status : yields.

Lemma delete_file_status s se fid : yields (fs_delete_file s se fid) (λ r, select_status r.1.1).
Proof. unfold fs_delete_file. walk_to status. Qed.
Hint Resolve delete_file_status : yields.

End statuses.
#[export] Hint Resolve select_fid_status select_typed_status select_parent_status select_path_status find_sfi_status : yields.

(** ** The commands *)

(** The status words of each command; 6CXX, with the length that would have been
    right, comes on top for SELECT. *)
Definition command_statuses (ins : Z) : list Z :=
  if ins =? INS_SELECT then
    [SW_OK; SW_MEMORY_FAILURE; SW_CMD_INCOMPATIBLE_FILE; SW_CONDITIONS_NOT_SATISFIED; SW_WRONG_DATA; SW_FUNC_NOT_SUPPORTED;
     SW_FILE_NOT_FOUND; SW_INCORRECT_P1P2; SW_LC_INCONSISTENT_P1P2; SW_NO_PRECISE_DIAGNOSIS]
  else if ins =? INS_READ_BINARY then
    [SW_OK; SW_NVM_UNCHANGED_EOF; SW_MEMORY_FAILURE; SW_WRONG_LENGTH; SW_CMD_INCOMPATIBLE_FILE; SW_CONDITIONS_NOT_SATISFIED;
     SW_COMMAND_NOT_ALLOWED_NO_EF; SW_FILE_NOT_FOUND; SW_INCORRECT_P1P2; SW_LC_INCONSISTENT_P1P2; SW_WRONG_P1P2;
     SW_NO_PRECISE_DIAGNOSIS]
  else if ins =? INS_UPDATE_BINARY then
    [SW_OK; SW_MEMORY_FAILURE; SW_WRONG_LENGTH; SW_CMD_INCOMPATIBLE_FILE; SW_CONDITIONS_NOT_SATISFIED;
     SW_COMMAND_NOT_ALLOWED_NO_EF; SW_FILE_NOT_FOUND; SW_INCORRECT_P1P2; SW_WRONG_P1P2]
  else if ins =? INS_CREATE_FILE then
    [SW_OK; SW_MEMORY_FAILURE; SW_WRONG_LENGTH; SW_CMD_INCOMPATIBLE_FILE; SW_CONDITIONS_NOT_SATISFIED; SW_WRONG_DATA;
     SW_FUNC_NOT_SUPPORTED; SW_FILE_NOT_FOUND; SW_NOT_ENOUGH_SPACE; SW_INCORRECT_P1P2; SW_FILE_ALREADY_EXISTS]
  else if ins =? INS_DELETE_FILE then
    [SW_OK; SW_MEMORY_FAILURE; SW_WRONG_LENGTH; SW_CMD_INCOMPATIBLE_FILE; SW_CONDITIONS_NOT_SATISFIED; SW_FILE_NOT_FOUND;
     SW_INCORRECT_P1P2]
  else [SW_INS_NOT_SUPPORTED].

Definition may_answer (ins sw : Z) : Prop :=
  sw ∈ command_statuses ins ∨ ins = INS_SELECT ∧ ∃ n, sw = SW_WRONG_LE n.

(** What becomes of the response under construction: data only on success, or
    with the warning that the file ended. *)
Definition quiet (rsp r : ptr apdu_response) (sw : Z) : Prop :=
  r = rsp ∨ sw = SW_OK ∨ sw = SW_NVM_UNCHANGED_EOF ∨ ∃ x, r = Ptr x ∧ r_overflow x = true.

(** A status word of the table. *)
Ltac in_table := apply (bool_decide_unpack _); vm_compute; exact I.

Section commands.
Context {N : Type} `{HalNvm N}.
Implicit Types s : store N.

(** The result of the command [ins]. *)
Definition answers (ins : Z) (rsp : ptr apdu_response) (m : option (Z * ptr scos_kernel * ptr apdu_response * store N)) : Prop :=
  yields m (λ '(sw, k, r, s), may_answer ins sw ∧ quiet rsp r sw).

Lemma put_result r src n :
  yields (apdu_rsp_put (Ptr r) src n) (λ '(ok, r'), ∃ x, r' = Ptr x ∧ (ok = false → r_overflow x = true)).
Proof. unfold apdu_rsp_put. walk_to ltac:(by eexists). Qed.
Hint Resolve put_result : yields.

Lemma put_u8_result r b :
  yields (apdu_rsp_put_u8 (Ptr r) b) (λ '(ok, r'), ∃ x, r' = Ptr x ∧ (ok = false → r_overflow x = true)).
Proof. apply put_result. Qed.
Hint Resolve put_u8_result : yields.

(** A way out that leaves the response alone. *)
Ltac refuses := apply yields_some; split; [left; in_table|by left].

(** SELECT. *)
Lemma emit_fci_answers s c r i opt :
  yields (emit_fci s c (Ptr r) i opt) (λ '(sw, r'), may_answer INS_SELECT sw ∧ quiet (Ptr r) r' sw).
Proof.
  unfold emit_fci, fs_get.
  destruct (opt =? SEL_RET_NONE); [refuses|]. destruct (opt =? SEL_RET_FMD); [refuses|].
  eapply yields_bind; [apply read_desc_status|]. intros [st d] Hst. cbn [fst] in Hst.
  destruct (negb (fs_ok st)).
  { apply yields_some. split; [|by left]. left. destruct st; try done; in_table. }
  eapply yields_bind; [apply yields_any|]. intros [n body] _. cbv beta iota.
  destruct (n =? 0); [refuses|]. destruct (negb (c_le_present c)); [refuses|].
  destruct (c_le c <? u16 (n + 2)); [apply yields_some; split; [right; eauto|by left]|].
  eapply yields_bind; [apply put_u8_result|]. intros [ok r1] (x & -> & Hx). cbv beta iota.
  destruct ok; cbn [negb]; [|apply yields_some; split; [left; in_table|right; right; right; eauto]].
  eapply yields_bind; [apply put_u8_result|]. intros [ok r1] (y & -> & Hy). cbv beta iota.
  destruct ok; cbn [negb]; [|apply yields_some; split; [left; in_table|right; right; right; eauto]].
  eapply yields_bind; [apply put_result|]. intros [ok r1] (z & -> & Hz). cbv beta iota.
  destruct ok; cbn [negb]; apply yields_some; (split; [left; in_table|]); [by right; left|right; right; right; eauto].
Qed.

Lemma child_status (b : bool) s se fid :
  yields (if b then select_child_typed s se fid true else select_child_typed s se fid false) (λ r, select_status r.1).
Proof. destruct b; apply select_typed_status. Qed.
Hint Resolve child_status : yields.

Lemma by_p1_status s se c :
  yields (select_by_p1 s se c) (λ r, match r with
    | inl sw => sw ∈ [SW_WRONG_DATA; SW_FUNC_NOT_SUPPORTED; SW_INCORRECT_P1P2; SW_LC_INCONSISTENT_P1P2; SW_NO_PRECISE_DIAGNOSIS]
    | inr (st, _) => select_status st
    end).
Proof.
  unfold select_by_p1, fs_select_child_df, fs_select_child_ef.
  walk_to ltac:(first [in_table | repeat match goal with x : (_ * _)%type |- _ => destruct x end; status]).
Qed.


Lemma select_answers k c r s : answers INS_SELECT (Ptr r) (scos_cmd_select (Ptr k) (Ptr c) (Ptr r) s).
Proof.
  unfold answers, scos_cmd_select.
  destruct (negb (Z.land (c_p2 c) 0xF0 =? 0)); [refuses|]. destruct (negb (Z.land (c_p2 c) SEL_OCC_MASK =? SEL_OCC_FIRST)); [refuses|].
  eapply yields_bind; [apply by_p1_status|]. intros [sw|[st sel]] Hsw.
  { apply yields_some. split; [|by left]. left. set_unfold in Hsw. destruct_or! Hsw; subst; in_table. }
  destruct (negb (fs_ok st)). { apply yields_some. split; [|by left]. left. destruct st; try done; in_table. }
  eapply yields_bind; [apply emit_fci_answers|]. intros [sw r'] [Hm Hq].
  destruct (negb (sw =? SW_OK)); [by apply yields_some|]. destruct sel; [apply yields_none|].
  apply yields_some. split; [left; in_table|by right; left].
Qed.

(** READ and UPDATE BINARY. *)
Lemma target_status s k p1 p2 :
  yields (resolve_target s k p1 p2) (λ '(sw, i, off),
    sw ∈ [SW_OK; SW_INCORRECT_P1P2; SW_FILE_NOT_FOUND; SW_COMMAND_NOT_ALLOWED_NO_EF]).
Proof.
  unfold resolve_target.
  walk_to ltac:(first [in_table | cbn [fst] in *; destruct_or?; subst; in_table]).
Qed.

Lemma read_answers k c r s : answers INS_READ_BINARY (Ptr r) (scos_cmd_read_binary (Ptr k) (Ptr c) (Ptr r) s).
Proof.
  unfold answers, scos_cmd_read_binary. destruct (negb (c_lc c =? 0)); [refuses|]. destruct (negb (c_le_present c)); [refuses|].
  eapply yields_bind; [apply target_status|]. intros [[sw i] off] Hsw.
  destruct (negb (sw =? SW_OK)).
  { apply yields_some. split; [|by left]. left. set_unfold in Hsw. destruct_or! Hsw; subst; in_table. }
  destruct (APDU_SHORT_LE_MAX <? c_le c); [refuses|].
  eapply yields_bind; [apply file_read_status|]. intros [[st b] got] Hst. cbn [fst] in Hst.
  destruct (negb (fs_ok st)). { apply yields_some. split; [|by left]. left. destruct st; try done; in_table. }
  destruct got as [|got]; [apply yields_none|].
  eapply yields_bind; [apply put_result|]. intros [ok r'] (x & -> & Hx). cbv beta iota.
  destruct ok; cbn [negb]; [|apply yields_some; split; [left; in_table|right; right; right; eauto]].
  destruct (got <? c_le c); apply yields_some; (split; [left; in_table|]); [by right; right; left|by right; left].
Qed.

Lemma update_answers k c r s : answers INS_UPDATE_BINARY (Ptr r) (scos_cmd_update_binary (Ptr k) (Ptr c) (Ptr r) s).
Proof.
  unfold answers, scos_cmd_update_binary. destruct ((c_lc c =? 0) || is_null (c_data c)); [refuses|]. destruct (c_le_present c); [refuses|].
  eapply yields_bind; [apply target_status|]. intros [[sw i] off] Hsw.
  destruct (negb (sw =? SW_OK)).
  { apply yields_some. split; [|by left]. left. set_unfold in Hsw. destruct_or! Hsw; subst; in_table. }
  eapply yields_bind; [apply file_write_status|]. intros [st s'] Hst. cbn [fst] in Hst.
  destruct (negb (fs_ok st)); [|refuses]. apply yields_some. split; [|by left]. left. destruct st; try done; in_table.
Qed.

(** CREATE and DELETE FILE. *)
Definition template_status (sw : Z) : Prop := sw ∈ [SW_OK; SW_WRONG_DATA; SW_FUNC_NOT_SUPPORTED; SW_NOT_ENOUGH_SPACE].

Lemma object_status o st : yields (fcp_object o st) (λ r, template_status r.1).
Proof. unfold fcp_object, template_status. walk_to ltac:(in_table). Qed.

Lemma parse_status body n : yields (parse_fcp body n) (λ r, template_status r.1).
Proof.
  unfold parse_fcp, template_status.
  eapply (yields_bind _ _ (λ r, match r with inl sw => sw = SW_WRONG_DATA | _ => True end)).
  { unfold fcp_inner. walk_to ltac:(done). }
  intros [sw|[inner m]] Hi; [subst; apply yields_some; in_table|]. unfold parse_fcp_inner.
  destruct (m =? 0); [apply yields_some; in_table|].
  apply (yields_bind _ _ (λ r, template_status r.1)).
  - generalize (tlv_reader_init (Ptr (TlvReader NULL 0 0)) inner m) (Ptr tlv_object_zero) fcp_start.
    induction (S (Z.to_nat m)) as [|fuel IH]; intros r obj st; [apply yields_none|]. cbn [parse_fcp_loop].
    eapply yields_bind; [apply yields_any|]. intros [[ts r'] obj'] _.
    destruct ts; try (apply yields_some; unfold template_status; in_table).
    destruct obj' as [|o]; [apply yields_none|]. eapply yields_bind; [apply object_status|]. intros [sw st'] Hsw.
    destruct (negb (sw =? SW_OK)); [by apply yields_some|apply IH].
  - intros [sw st] Hsw. destruct (negb (sw =? SW_OK)); [by apply yields_some|]. apply yields_some. unfold fcp_finish.
    repeat case_match; in_table.
Qed.

Lemma create_answers k c r s : answers INS_CREATE_FILE (Ptr r) (scos_cmd_create_file (Ptr k) (Ptr c) (Ptr r) s).
Proof.
  unfold answers, scos_cmd_create_file. destruct (k_lifecycle k); try refuses.
  all: destruct (negb (c_p1 c =? 0x00) || negb (c_p2 c =? 0x00)); [refuses|].
  all: destruct ((c_lc c =? 0) || is_null (c_data c)); [refuses|].
  all: eapply yields_bind; [apply parse_status|]; intros [sw req] Hsw; cbn [fst] in Hsw.
  all: destruct (negb (sw =? SW_OK));
    [apply yields_some; split; [|by left]; left; unfold template_status in Hsw; set_unfold in Hsw; destruct_or! Hsw; subst; in_table|].
  all: eapply yields_bind; [apply create_file_status|]; intros [[st x] s'] Hst; cbn [fst] in Hst.
  all: destruct (negb (fs_ok st)); [|refuses].
  all: apply yields_some; split; [|by left]; left; destruct st; try done; in_table.
Qed.

Lemma delete_answers k c r s : answers INS_DELETE_FILE (Ptr r) (scos_cmd_delete_file (Ptr k) (Ptr c) (Ptr r) s).
Proof.
  unfold answers, scos_cmd_delete_file. destruct (k_lifecycle k); try refuses.
  all: destruct (negb (c_p1 c =? 0x00) || negb (c_p2 c =? 0x00)); [refuses|].
  all: destruct (c_data c) as [|data]; [refuses|]; destruct (negb (c_lc c =? 2)); [refuses|].
  all: eapply yields_bind; [apply yields_any|]; intros fid _.
  all: eapply yields_bind; [apply delete_file_status|]; intros [[st sel] s'] Hst; cbn [fst] in Hst.
  all: destruct sel as [|sel]; [apply yields_none|].
  all: destruct (negb (fs_ok st)); [|refuses].
  all: apply yields_some; split; [|by left]; left; destruct st; try done; in_table.
Qed.

(** Only SELECT and READ BINARY touch the response. *)
Definition leaves_response (rsp : ptr apdu_response) (m : option (Z * ptr scos_kernel * ptr apdu_response * store N)) : Prop :=
  yields m (λ '(sw, k, r, s), r = rsp).

Lemma update_leaves k c r s : leaves_response r (scos_cmd_update_binary k c r s).
Proof. unfold leaves_response, scos_cmd_update_binary. walk_to ltac:(done). Qed.
Lemma create_leaves k c r s : leaves_response r (scos_cmd_create_file k c r s).
Proof. unfold leaves_response, scos_cmd_create_file. walk_to ltac:(done). Qed.
Lemma delete_leaves k c r s : leaves_response r (scos_cmd_delete_file k c r s).
Proof. unfold leaves_response, scos_cmd_delete_file. walk_to ltac:(done). Qed.

End commands.

(** ** The whole response *)

(** The status words of a response: those of a card out of operation, those of a
    command refused as such, and those of the command. *)
Inductive response_status (lc : scos_lifecycle) (cmd : list Z) : Z → Prop :=
| status_dead sw :
    lc ≠ SCOS_LC_OPERATIONAL → sw ∈ [SW_MEMORY_FAILURE; SW_CONDITIONS_NOT_SATISFIED] → response_status lc cmd sw
| status_refused sw :
    lc = SCOS_LC_OPERATIONAL →
    sw ∈ [SW_WRONG_LENGTH; SW_FUNC_NOT_SUPPORTED; SW_LOGICAL_CHANNEL_NOT_SUPPORTED; SW_SECURE_MESSAGING_NOT_SUPPORTED;
          SW_CHAINING_NOT_SUPPORTED; SW_CLA_NOT_SUPPORTED] →
    response_status lc cmd sw
| status_command ins sw :
    lc = SCOS_LC_OPERATIONAL → cmd !! 1%nat = Some ins → may_answer ins sw → response_status lc cmd sw.

Record response_of (lc : scos_lifecycle) (cmd data : list Z) (sw : Z) : Prop := {
  ro_data : bytes data;
  ro_status : response_status lc cmd sw;
  ro_quiet : data ≠ [] → sw = SW_OK ∨ sw = SW_NVM_UNCHANGED_EOF
}.

Section process.
Context {N : Type} `{HalNvmSpec N}.
Implicit Types s : store N.

Lemma dispatch_answers k c r s :
  yields (scos_dispatch (Ptr k) (Ptr c) (Ptr r) s) (λ '(sw, k', r', s'),
    may_answer (c_ins c) sw ∧ quiet (Ptr r) r' sw ∧ (r' = Ptr r ∨ may_answer (c_ins c) SW_NO_PRECISE_DIAGNOSIS)).
Proof.
  rewrite scos_dispatch_cases.
  destruct (Z.eqb_spec (c_ins c) INS_SELECT) as [->|]; [|destruct (Z.eqb_spec (c_ins c) INS_READ_BINARY) as [->|];
    [|destruct (Z.eqb_spec (c_ins c) INS_UPDATE_BINARY) as [->|]; [|destruct (Z.eqb_spec (c_ins c) INS_CREATE_FILE) as [->|];
    [|destruct (Z.eqb_spec (c_ins c) INS_DELETE_FILE) as [->|]]]]].
  - eapply yields_mono; [apply select_answers|]. intros [[[sw k'] r'] s'] [??]. split_and!; [done..|]. right. left. in_table.
  - eapply yields_mono; [apply read_answers|]. intros [[[sw k'] r'] s'] [??]. split_and!; [done..|]. right. left. in_table.
  - intros [[[sw k'] r'] s'] E. pose proof (update_leaves _ _ _ _ _ E) as Hl. pose proof (update_answers _ _ _ _ _ E) as [??]. by split_and!; [..|left].
  - intros [[[sw k'] r'] s'] E. pose proof (create_leaves _ _ _ _ _ E) as Hl. pose proof (create_answers _ _ _ _ _ E) as [??]. by split_and!; [..|left].
  - intros [[[sw k'] r'] s'] E. pose proof (delete_leaves _ _ _ _ _ E) as Hl. pose proof (delete_answers _ _ _ _ _ E) as [??]. by split_and!; [..|left].
  - apply yields_some. split_and!; [|by left|by left]. left. unfold command_statuses.
    repeat (rewrite (proj2 (Z.eqb_neq _ _)) by done). in_table.
Qed.

Lemma parse_ins cmd n o :
  yields (apdu_parse (Ptr cmd) n (Ptr o)) (λ '(st, c), st = APDU_PARSE_OK → ∃ c', c = Ptr c' ∧ cmd !! 1%nat = Some (c_ins c')).
Proof.
  unfold apdu_parse. destruct (n <? APDU_HEADER_LEN); [by apply yields_some|].
  change (rd cmd 1) with (cmd !! 1%nat). destruct (rd cmd 0) as [cla|]; [|apply yields_none].
  destruct (cmd !! 1%nat) as [ins|]; [|apply yields_none].
  bind_simpl. walk_to ltac:(first [done | by eexists]).
Qed.

(** The kernel's last step: an overflown response becomes 6F00 without data. *)
Lemma answer_response lc cmd k r b sw s :
  rsp_wf r b → bytes b → response_status lc cmd sw →
  (r_overflow r = false → r_len r ≠ 0 → sw = SW_OK ∨ sw = SW_NVM_UNCHANGED_EOF) →
  (r_overflow r = true → response_status lc cmd SW_NO_PRECISE_DIAGNOSIS) →
  ∃ rsp' m data sw', answer k (Ptr r) sw s = Some (SCOS_OK, k, Ptr rsp', Ptr m, s) ∧
    take (Z.to_nat m) rsp' = data ++ [sw1 sw'; sw2 sw'] ∧ response_of lc cmd data sw'.
Proof.
  intros Hr Hb Hst Hq Ho. unfold answer. rewrite (rsp_finish_wf r b sw Hr). bind_simpl. cbn [r_buf].
  pose proof Hr as [_ ? ? ?]. destruct (r_overflow r).
  - eexists _, _, [], SW_NO_PRECISE_DIAGNOSIS. split; [done|]. split; [apply (take_splice b 0 [_; _]); lia|].
    split; [by apply Forall_nil|by apply Ho|done].
  - eexists _, _, (slice 0 (r_len r) b), sw. split; [done|].
    split; [rewrite (take_splice b (r_len r) [_; _]) by lia; done|].
    split; [by apply bytes_slice|done|]. intros Hd. apply Hq; [done|]. intros Hz. by rewrite Hz in Hd.
Qed.

End process.

(** ** The order of the checks *)

Section order.
Context {N : Type} `{HalNvm N}.
Implicit Types s : store N.

(** A bare status word, and nothing done. *)
Definition refused_with (k : scos_kernel) (rsp : list Z) s (sw : Z)
    : option (scos_status * ptr scos_kernel * ptr (list Z) * ptr Z * store N) :=
  Some (SCOS_OK, Ptr k, Ptr (splice rsp 0 [sw1 sw; sw2 sw]), Ptr 2, s).

Lemma answer_refused k rsp cap sw s :
  2 ≤ cap < 65536 → cap ≤ len rsp →
  answer (Ptr k) (Ptr (ApduResponse (Ptr rsp) cap 0 false)) sw s = refused_with k rsp s sw.
Proof. intros Hc Hl. unfold answer. rewrite (rsp_finish_wf _ rsp sw) by (by apply fresh_rsp_wf). bind_simpl. done. Qed.
End order.

(** An extended APDU: the length byte is zero and more follows. *)
Definition extended (cmd : list Z) : Prop := 5 < len cmd ∧ cmd !! 4%nat = Some 0.

Lemma parse_extended cmd o :
  len cmd < 65536 →
  yields (apdu_parse (Ptr cmd) (len cmd) (Ptr o)) (λ '(st, _), st = APDU_PARSE_EXTENDED ↔ extended cmd).
Proof.
  intros Hl. unfold apdu_parse, extended, APDU_HEADER_LEN.
  destruct (Z.ltb_spec (len cmd) 4); [apply yields_some; split; [done|lia]|].
  destruct (rd cmd 0), (rd cmd 1), (rd cmd 2), (rd cmd 3); bind_simpl; try exact (yields_none _).
  destruct (Z.eqb_spec (len cmd) 4); [apply yields_some; split; [done|lia]|].
  change (rd cmd 4) with (cmd !! 4%nat). destruct (cmd !! 4%nat) as [p3|]; [|apply yields_none]. bind_simpl.
  destruct (Z.eqb_spec (len cmd) (4 + 1)); [apply yields_some; split; [done|lia]|].
  destruct (Z.eqb_spec p3 0) as [->|Hp]; [apply yields_some; split; [intros _; split; [lia|done]|done]|].
  walk_to ltac:(split; [done|intros [_ [= ->]]; done]).
Qed.

(** What is no short APDU is refused by its structure alone. *)
Lemma parse_malformed cmd o :
  bytes cmd → len cmd < 65536 →
  (∀ cla ins p1 p2 d le, valid_body d le → cmd ≠ encode_command cla ins p1 p2 d le) →
  ∃ st c, apdu_parse (Ptr cmd) (len cmd) (Ptr o) = Some (st, c) ∧ st ≠ APDU_PARSE_OK ∧
    (st = APDU_PARSE_EXTENDED ↔ extended cmd).
Proof.
  intros Hb Hl Hno. pose proof (len_nonneg cmd).
  destruct (wp_elim _ _ (apdu_parse_safe cmd (len cmd) o Hb ltac:(lia) Hl)) as ([st c] & E & Hc).
  exists st, c. split; [done|]. split; [|by apply (parse_extended cmd o Hl _ E)].
  intros ->. destruct Hc as (c' & -> & _).
  destruct (apdu_parse_decode cmd o c' Hb Hl E) as (cla & ins & p1 & p2 & d & le & Hv & He & _). by destruct (Hno cla ins p1 p2 d le Hv).
Qed.

(** ** Properties *)

(** [C7] The type of a response: whatever the state of the card and whatever
    arrives, the response is data bytes followed by a status word; the status
    word is one of the table, for the card's life cycle and the instruction byte
    received; and data come only with 9000 or with the warning 6282. *)
Theorem responses_are_typed {N} `{HalNvmSpec N} k (s : store N) cmd n rsp cap x :
  safe_inv s (k_sel k) → bytes cmd → 0 ≤ n ≤ len cmd → n < 65536 → bytes rsp → 2 ≤ cap < 65536 → cap ≤ len rsp →
  ∃ k' rsp' m s' data sw, scos_process (Ptr k) (Ptr cmd) n (Ptr rsp) cap (Ptr x) s = Some (SCOS_OK, Ptr k', Ptr rsp', Ptr m, s') ∧
    take (Z.to_nat m) rsp' = data ++ [sw1 sw; sw2 sw] ∧ response_of (k_lifecycle k) cmd data sw.
Proof.
  intros HI Hcmd Hn Hn16 Hb Hcap Hroom. unfold scos_process. replace (cap <? 2) with false by lia. cbn [apdu_rsp_init is_null].
  set (r := ApduResponse (Ptr rsp) cap 0 false).
  pose proof (fresh_rsp_wf rsp cap Hcap Hroom) as Hr. fold r in Hr.
  assert (∀ sw, response_status (k_lifecycle k) cmd sw →
    ∃ k' rsp' m s' data sw', answer (Ptr k) (Ptr r) sw s = Some (SCOS_OK, Ptr k', Ptr rsp', Ptr m, s') ∧
      take (Z.to_nat m) rsp' = data ++ [sw1 sw'; sw2 sw'] ∧ response_of (k_lifecycle k) cmd data sw') as Hans.
  { intros sw Hst. destruct (answer_response (k_lifecycle k) cmd (Ptr k) r rsp sw s Hr Hb Hst) as (rsp' & m & data & sw' & ? & ? & ?);
      [done|done|]. by exists k, rsp', m, s, data, sw'. }
  destruct (k_lifecycle k) eqn:Hlc; try (apply Hans, status_dead; [done|in_table]).
  destruct (wp_elim _ _ (apdu_parse_safe cmd n apdu_command_zero Hcmd Hn Hn16)) as ([pst c] & Hp & Hc).
  pose proof (parse_ins cmd n apdu_command_zero _ Hp) as Hins. rewrite Hp. bind_simpl.
  destruct pst; try (apply Hans, status_refused; [done|in_table]).
  destruct Hc as (c' & -> & Hcw). destruct (Hins eq_refl) as (c1 & [= <-] & Hi).
  destruct (apdu_check_cla (c_cla c')); try (apply Hans, status_refused; [done|in_table]).
  destruct (dispatch_handler safe_inv k c' r rsp s HI Hcw Hr Hb) as (sw & se' & r' & b' & s' & E & _ & _ & Hr' & _ & Hb' & _).
  pose proof (dispatch_answers k c' r s _ E) as (Hsw & Hq & Hover). rewrite E. bind_simpl.
  destruct (answer_response SCOS_LC_OPERATIONAL cmd (Ptr (set_sel k se')) r' b' sw s' Hr' Hb') as (rsp' & m & data & sw' & ? & ? & ?);
    [by eapply status_command| | |by exists (set_sel k se'), rsp', m, s', data, sw'].
  - intros Hov Hlen. destruct Hq as [[= ->]|[?|[?|(y & [= ->] & Hy)]]]; [done|by left|by right|congruence].
  - intros Hov. destruct Hover as [[= ->]|?]; [done|]. by eapply status_command.
Qed.

(** [C8] The order of the checks is fixed, and each refusal comes before anything
    else is looked at: what is no short APDU is answered 6A81 when it is an
    extended one and 6700 otherwise, whatever its class and instruction; a
    command in a class the card does not serve is answered by its class, whatever
    the instruction, so that it does not tell which instructions exist; and an
    instruction that does not exist is answered 6D00, whatever its parameters.
    Nothing is touched by any of it. *)
Theorem validation_order {N} `{HalNvm N} k (s : store N) rsp cap x :
  k_lifecycle k = SCOS_LC_OPERATIONAL → 2 ≤ cap < 65536 → cap ≤ len rsp →
  (∀ cmd, bytes cmd → len cmd < 65536 →
     (∀ cla ins p1 p2 d le, valid_body d le → cmd ≠ encode_command cla ins p1 p2 d le) →
     (extended cmd ∧ scos_process (Ptr k) (Ptr cmd) (len cmd) (Ptr rsp) cap (Ptr x) s = refused_with k rsp s SW_FUNC_NOT_SUPPORTED ∨
      ¬ extended cmd ∧ scos_process (Ptr k) (Ptr cmd) (len cmd) (Ptr rsp) cap (Ptr x) s = refused_with k rsp s SW_WRONG_LENGTH)) ∧
  (∀ cla ins p1 p2 d le, valid_body d le →
     let cmd := encode_command cla ins p1 p2 d le in
     (apdu_check_cla cla ≠ APDU_CLA_OK →
        scos_process (Ptr k) (Ptr cmd) (len cmd) (Ptr rsp) cap (Ptr x) s = refused_with k rsp s (apdu_cla_status_sw (apdu_check_cla cla))) ∧
     (apdu_check_cla cla = APDU_CLA_OK → ins ∉ [INS_SELECT; INS_READ_BINARY; INS_UPDATE_BINARY; INS_CREATE_FILE; INS_DELETE_FILE] →
        scos_process (Ptr k) (Ptr cmd) (len cmd) (Ptr rsp) cap (Ptr x) s = refused_with k rsp s SW_INS_NOT_SUPPORTED)).
Proof.
  intros Hlc Hcap Hroom. unfold scos_process. replace (cap <? 2) with false by lia. rewrite Hlc. cbn [apdu_rsp_init is_null]. split.
  - intros cmd Hb Hl Hno. destruct (parse_malformed cmd apdu_command_zero Hb Hl Hno) as (st & c & -> & Hok & Hext). bind_simpl.
    destruct st; try done; rewrite answer_refused by done; [right|right|left]; (split; [first [by apply Hext|by intros ?%Hext]|done]).
  - intros cla ins p1 p2 d le Hv. rewrite apdu_parse_encode by done. bind_simpl. cbn [parsed_command c_cla].
    split; [intros Hcla; destruct (apdu_check_cla cla); [done|..]; by rewrite answer_refused|].
    intros -> Hins. unfold scos_dispatch, k_commands. cbn [dispatch_loop e_ins parsed_command c_ins].
    set_unfold in Hins. repeat (rewrite (proj2 (Z.eqb_neq _ _)) by (intros E; apply Hins; rewrite <- E; tauto)).
    bind_simpl. by rewrite answer_refused.
Qed.

(** ** Witnesses: the card of Kernel.v, fresh from the factory *)

#[local] Existing Instance small_config.

Lemma responses_are_typed_witness :
  ∃ k' rsp' m s' data sw,
    scos_process (Ptr factory_kernel) (Ptr [0x00; 0xB0; 0x81; 0x00; 0x04]) 5 (Ptr (local_array SCOS_APDU_RSP_MAX)) 258 (Ptr 0)
      factory_store = Some (SCOS_OK, Ptr k', Ptr rsp', Ptr m, s') ∧
    take (Z.to_nat m) rsp' = data ++ [sw1 sw; sw2 sw] ∧ response_of SCOS_LC_OPERATIONAL [0x00; 0xB0; 0x81; 0x00; 0x04] data sw.
Proof.
  apply (responses_are_typed factory_kernel factory_store [0x00; 0xB0; 0x81; 0x00; 0x04] 5 (local_array SCOS_APDU_RSP_MAX) 258 0);
    [apply factory_safe|solve_bytes|split; vm_compute; discriminate|reflexivity|apply sample_buffer
    |split; [vm_compute; discriminate|reflexivity]|vm_compute; discriminate].
Defined.

Lemma validation_order_witness :
  (∀ cmd, bytes cmd → len cmd < 65536 →
     (∀ cla ins p1 p2 d le, valid_body d le → cmd ≠ encode_command cla ins p1 p2 d le) →
     (extended cmd ∧ scos_process (Ptr factory_kernel) (Ptr cmd) (len cmd) (Ptr [1; 2; 3]) 3 (Ptr 0) factory_store =
        refused_with factory_kernel [1; 2; 3] factory_store SW_FUNC_NOT_SUPPORTED ∨
      ¬ extended cmd ∧ scos_process (Ptr factory_kernel) (Ptr cmd) (len cmd) (Ptr [1; 2; 3]) 3 (Ptr 0) factory_store =
        refused_with factory_kernel [1; 2; 3] factory_store SW_WRONG_LENGTH)) ∧
  scos_process (Ptr factory_kernel) (Ptr [0x80; 0xA4; 0x00; 0x00]) 4 (Ptr [1; 2; 3]) 3 (Ptr 0) factory_store =
    Some (SCOS_OK, Ptr factory_kernel, Ptr [0x6E; 0x00; 3], Ptr 2, factory_store).
Proof.
  destruct (validation_order factory_kernel factory_store [1; 2; 3] 3 0 eq_refl) as [Hs Hc]; [split; [discriminate|reflexivity]|discriminate|].
  split; [exact Hs|]. refine (proj1 (Hc 0x80 0xA4 0x00 0x00 [] None _) _); [split; [vm_compute; discriminate|exact Logic.I]|discriminate].
Defined.
