(* ===== verification/CardLoop.v ===== *)
(** * The APDU pump (src/kernel/card_loop.c)

    The loop over a link: what [hal_card_receive] returns on each call is the
    link's choice, so the loop is run against the list of those answers, and
    gives the responses it sends. *)

From S2P Require Import Prelude OsMem Sw Apdu Hal SimHal FsTypes FsStore Fs FsTree KernelTypes CmdSelect CmdBinary CmdCreate Dispatch Kernel.

(** One call of [hal_card_receive]: the status, the contents of the buffer
    afterwards, and the length it reports. *)
Record link_event := LinkEvent { le_status : hal_status; le_buf : list Z; le_received : Z }.

Definition set_cmd (k : scos_kernel) (cmd : list Z) : scos_kernel :=
  ScosKernel (k_lifecycle k) (k_reset_count k) (k_sel k) cmd (k_cmd_len k) (k_rsp k) (k_rsp_len k).
Definition set_cmd_len (k : scos_kernel) (n : Z) : scos_kernel :=
  ScosKernel (k_lifecycle k) (k_reset_count k) (k_sel k) (k_cmd k) n (k_rsp k) (k_rsp_len k).
Definition set_rsp (k : scos_kernel) (rsp : list Z) : scos_kernel :=
  ScosKernel (k_lifecycle k) (k_reset_count k) (k_sel k) (k_cmd k) (k_cmd_len k) rsp (k_rsp_len k).
Definition set_rsp_len (k : scos_kernel) (n : Z) : scos_kernel :=
  ScosKernel (k_lifecycle k) (k_reset_count k) (k_sel k) (k_cmd k) (k_cmd_len k) (k_rsp k) n.

Section card_loop.
Context {N : Type} `{HalNvm N}.

(** The responses sent, and the state when the loop returned ([true]) or is
    still waiting for the link ([false]). *)
Fixpoint card_loop (evs : list link_event) (k : scos_kernel) (s : store N)
    : option (list (list Z) * bool * scos_kernel * store N) :=
  match evs with
  | [] => Some ([], false, k, s)
  | ev :: evs =>
      let k := set_cmd k (le_buf ev) in
      match le_status ev with
      | HAL_ERR_LINK_DOWN => Some ([], true, k, s)
      | HAL_CARD_RESET =>
          match scos_reset (Ptr k) with NULL => None | Ptr k => card_loop evs k s end
      | HAL_OK =>
          if len (k_cmd k) <? le_received ev then card_loop evs k s else
          let k := set_rsp_len (set_cmd_len k (u16 (le_received ev))) 0 in
          '(st, k', rsp, rsp_len, s) ←
            scos_process (Ptr k) (Ptr (k_cmd k)) (k_cmd_len k) (Ptr (k_rsp k)) SCOS_APDU_RSP_MAX (Ptr (k_rsp_len k)) s;
          match k', rsp, rsp_len with
          | Ptr k', Ptr rsp, Ptr n =>
              let k := set_rsp_len (set_rsp k' rsp) n in
              match st with
              | SCOS_OK =>
                  '(out, fin, k, s) ← card_loop evs k s;
                  Some (slice 0 (u32 n) rsp :: out, fin, k, s)
              | _ => card_loop evs k s
              end
          | _, _, _ => None
          end
      | _ => card_loop evs k s
      end
  end.

Definition scos_card_loop (evs : list link_event) (k : ptr scos_kernel) (s : store N)
    : option (list (list Z) * bool * ptr scos_kernel * store N) :=
  match k with
  | NULL => Some ([], true, NULL, s)
  | Ptr k => '(out, fin, k, s) ← card_loop evs k s; Some (out, fin, Ptr k, s)
  end.

End card_loop.

(** The command buffer is the kernel's: always of its size, whatever the link
    puts there. *)
Definition link_wf (ev : link_event) : Prop :=
  len (le_buf ev) = SCOS_APDU_CMD_MAX ∧ bytes (le_buf ev) ∧ 0 ≤ le_received ev.

Record buffers_wf (k : scos_kernel) : Prop := {
  bw_rsp : len (k_rsp k) = SCOS_APDU_RSP_MAX;
  bw_rsp_bytes : bytes (k_rsp k);
}.

(** The commands the loop executes: delivered whole before the link went down. *)
Fixpoint delivered (evs : list link_event) : nat :=
  match evs with
  | [] => 0
  | ev :: evs =>
      match le_status ev with
      | HAL_ERR_LINK_DOWN => 0
      | HAL_OK => if SCOS_APDU_CMD_MAX <? le_received ev then delivered evs else S (delivered evs)
      | _ => delivered evs
      end
  end.

Section loop_ok.
Context {N : Type} `{HalNvmSpec N} (I : store N → fs_selection → Prop) `{!FsSpec I}.
Context (I_reset : ∀ s se, I s se → I s (FsSelection FS_ROOT_INDEX FS_INVALID_INDEX)).

Lemma card_loop_ok evs k (s : store N) :
  Forall link_wf evs → I s (k_sel k) → buffers_wf k →
  ∃ out fin k' s', card_loop evs k s = Some (out, fin, k', s') ∧ I s' (k_sel k') ∧ buffers_wf k' ∧
    length out = delivered evs ∧ Forall (λ r, 2 ≤ len r ≤ SCOS_APDU_RSP_MAX) out.
Proof.
  intros Hevs. revert k s. induction Hevs as [|ev evs (Hl & Hb & Hrec) _ IH]; intros k s HI Hk.
  { exists [], false, k, s. split_and!; try done. }
  assert (∀ k s, I s (k_sel k) → buffers_wf k → ∃ out fin k' s', card_loop evs k s = Some (out, fin, k', s') ∧
    I s' (k_sel k') ∧ buffers_wf k' ∧ length out = delivered evs ∧ Forall (λ r, 2 ≤ len r ≤ SCOS_APDU_RSP_MAX) out) as IH'
    by exact IH.
  pose proof Hk as [Hkl Hkb]. cbn [card_loop delivered].
  destruct (le_status ev); try (by apply IH; [|constructor]).
  - cbn [k_cmd set_cmd]. rewrite Hl. destruct (Z.ltb_spec SCOS_APDU_CMD_MAX (le_received ev)) as [Hbig|Hle];
      [by apply IH; [|constructor]|].
    unfold SCOS_APDU_CMD_MAX, SCOS_APDU_RSP_MAX in *.
    rewrite u16_id by (unfold is_u16; lia).
    set (k1 := set_rsp_len (set_cmd_len (set_cmd k (le_buf ev)) (le_received ev)) 0).
    destruct (process_answers I k1 s (le_buf ev) (le_received ev) (k_rsp k) 258 0 HI Hb)
      as (se' & rsp' & n & s' & Hp & Hn & Hlr & Hbr & HI'); [lia|lia|done|lia|lia|].
    change (k_cmd k1) with (le_buf ev). change (k_cmd_len k1) with (le_received ev). change (k_rsp k1) with (k_rsp k).
    change (k_rsp_len k1) with 0. rewrite Hp. bind_simpl.
    destruct (IH' (set_rsp_len (set_rsp (set_sel k1 se') rsp') n) s' HI') as (out & fin & k' & s2 & -> & ? & ? & Hlo & Hout).
    { constructor; cbn; done || (unfold SCOS_APDU_RSP_MAX; lia). }
    bind_simpl. eexists _, fin, k', s2. split; [reflexivity|]. split; [done|]. split; [done|].
    split; [cbn; by rewrite Hlo|]. constructor; [|done]. rewrite u32_id, len_slice by (unfold is_u32; lia). lia.
  - apply IH'; [cbn; by eapply I_reset|]. constructor; [done|].
    apply (bool_decide_unpack _); vm_compute; exact Logic.I.
  - exists [], true, (set_cmd k (le_buf ev)), s. by split_and!.
Qed.

End loop_ok.

Lemma card_inv_reset {N} `{HalNvmSpec N} (s : store N) se :
  card_inv s se → card_inv s (FsSelection FS_ROOT_INDEX FS_INVALID_INDEX).
Proof. intros (? & ? & _ & ?). split; [done|]. split; [done|]. split; [by apply sel_reset_inv|done]. Qed.

(** [C10] Whatever the link delivers (commands, resets, errors, lengths beyond
    the buffer), the pump keeps the card well formed and sends exactly one
    response, of 2 to 258 bytes, for each command delivered. *)
Theorem card_loop_one_response_each {N} `{HalNvmSpec N} evs k (s : store N) :
  Forall link_wf evs → card_inv s (k_sel k) → buffers_wf k →
  ∃ out fin k' s', scos_card_loop evs (Ptr k) s = Some (out, fin, Ptr k', s') ∧ card_inv s' (k_sel k') ∧
    length out = delivered evs ∧ Forall (λ r, 2 ≤ len r ≤ SCOS_APDU_RSP_MAX) out.
Proof.
  intros Hevs HI Hk. destruct (card_loop_ok card_inv card_inv_reset evs k s Hevs HI Hk) as (out & fin & k' & s' & Hl & ? & _ & ? & ?).
  exists out, fin, k', s'. split; [unfold scos_card_loop; by rewrite Hl|done].
Qed.

#[local] Existing Instance small_config.

Definition sample_link : list link_event :=
  let buf l := take 261 (l ++ local_array SCOS_APDU_CMD_MAX) in
  [ LinkEvent HAL_OK (buf [0; 0xA4; 0; 0]) 4;
    LinkEvent HAL_CARD_RESET (buf []) 0;
    LinkEvent HAL_ERR_IO (buf []) 0;
    LinkEvent HAL_OK (buf [0; 0xB0]) 300;
    LinkEvent HAL_OK (buf [0; 0xB0; 0x81; 0; 4]) 5;
    LinkEvent HAL_ERR_LINK_DOWN (buf []) 0 ].

Lemma card_loop_one_response_each_witness :
  ∃ out fin k' s', scos_card_loop sample_link (Ptr factory_kernel) factory_store = Some (out, fin, Ptr k', s') ∧
    card_inv s' (k_sel k') ∧ length out = 2%nat ∧ Forall (λ r, 2 ≤ len r ≤ SCOS_APDU_RSP_MAX) out.
Proof.
  apply (card_loop_one_response_each sample_link factory_kernel factory_store);
    [|apply factory_card|split; [reflexivity|apply sample_rsp_wf]].
  unfold sample_link, link_wf.
  repeat (apply Forall_cons; split; [split; [reflexivity|split; [solve_bytes|vm_compute; discriminate]]|]).
  by apply Forall_nil.
Defined.
