(* ===== verification/Pump.v ===== *)
(** * The APDU pump over a card link (src/kernel/card_loop.c, include/hal/hal.h)

    The loop of CardLoop.v with [hal_card_receive] and [hal_card_send] under it.
    The link is a type class, with the contract the two links discharge
    (ArmCard.v for the chip, SimCard.v for the simulator); what the pump
    guarantees is proved against the contract. *)

From S2P Require Import Prelude OsMem Sw Apdu Hal SimHal FsTypes FsStore Fs FsTree KernelTypes Kernel Session CardLoop.

(** What a call of [hal_card_receive] comes to: it waits for a reader that has
    sent nothing more, or it returns; with the buffer and the link. *)
Inductive link_result (L : Type) :=
| LinkWaiting (buf : list Z) (l : L)
| LinkReturned (st : hal_status) (n : Z) (buf : list Z) (l : L).
Arguments LinkWaiting {L} buf l.
Arguments LinkReturned {L} st n buf l.

Class CardLink (L : Type) := {
  link_receive : L → list Z → Z → option (link_result L);
  link_send : L → list Z → Z → option (hal_status * L);
}.

Section serve.
Context {L : Type} `{CardLink L} {N : Type} `{HalNvm N}.

Fixpoint send_all (sent : list (list Z)) (l : L) : option L :=
  match sent with
  | [] => Some l
  | r :: sent => '(_, l) ← link_send l r (len r); send_all sent l
  end.

(** Each turn receives into the kernel's command buffer and hands the result to
    one turn of the card loop.  Every turn that does not end the loop or wait
    takes input, so one unit of fuel a character and one more is enough. *)
Fixpoint serve (fuel : nat) (l : L) (k : scos_kernel) (s : store N) : option (L * bool * scos_kernel * store N) :=
  match fuel with
  | O => None
  | S fuel =>
      r ← link_receive l (k_cmd k) SCOS_APDU_CMD_MAX;
      match r with
      | LinkWaiting buf l => Some (l, false, set_cmd k buf, s)
      | LinkReturned st n buf l =>
          '(sent, fin, k, s) ← card_loop [LinkEvent st buf n] k s;
          l ← send_all sent l;
          if (fin : bool) then Some (l, true, k, s) else serve fuel l k s
      end
  end.
End serve.

(** ** The contract of a link *)

(** The buffer keeps its size, a command fits, and a call that does not end the
    link takes input. *)
Inductive delivers {L} (ok : L → Prop) (left : L → nat) (l : L) : link_result L → Prop :=
| delivers_waiting buf l' : len buf = SCOS_APDU_CMD_MAX → bytes buf → ok l' → delivers ok left l (LinkWaiting buf l')
| delivers_return st n buf l' :
    len buf = SCOS_APDU_CMD_MAX → bytes buf → 0 ≤ n ≤ SCOS_APDU_CMD_MAX → ok l' →
    (left l' < left l)%nat ∨ st = HAL_ERR_LINK_DOWN →
    st = HAL_OK ∨ st = HAL_CARD_RESET ∨ st = HAL_ERR_LINK_DOWN →
    delivers ok left l (LinkReturned st n buf l').

Class CardLinkSpec (L : Type) `{CardLink L} := {
  link_ok : L → Prop;
  link_left : L → nat;
  link_receive_total l buf :
    link_ok l → len buf = SCOS_APDU_CMD_MAX → bytes buf →
    ∃ r, link_receive l buf SCOS_APDU_CMD_MAX = Some r ∧ delivers link_ok link_left l r;
  link_send_total l b :
    link_ok l → bytes b → ∃ st l', link_send l b (len b) = Some (st, l') ∧ link_ok l' ∧ link_left l' = link_left l;
}.

(** ** What the pump keeps *)

Lemma send_all_total {L} `{CardLinkSpec L} sent (l : L) :
  Forall bytes sent → link_ok l → ∃ l', send_all sent l = Some l' ∧ link_ok l' ∧ link_left l' = link_left l.
Proof.
  intros Hb. revert l. induction Hb as [|r sent Hr Hb IH]; intros l Hl; cbn [send_all]; [by eexists|].
  destruct (link_send_total l r Hl Hr) as (st & l1 & -> & Hl1 & Hm). bind_simpl. cbv beta iota.
  destruct (IH l1 Hl1) as (l2 & -> & ? & ?). exists l2. split; [done|]. split; [done|congruence].
Qed.

(** The pump is proved for an invariant [I] of the file system and for any
    property [P] of the life cycle that a reset establishes. *)
Section turn.
Context {N : Type} `{HalNvmSpec N} (I : store N → fs_selection → Prop) `{!FsSpec I}.
Context (P : scos_lifecycle → Prop).
Implicit Types (s : store N).

Record serving (k : scos_kernel) (s : store N) : Prop := {
  sv_lifecycle : P (k_lifecycle k);
  sv_inv : I s (k_sel k);
  sv_buffers : buffers_wf k;
  sv_cmd : len (k_cmd k) = SCOS_APDU_CMD_MAX;
  sv_cmd_bytes : bytes (k_cmd k)
}.

Lemma serving_set_cmd k s buf :
  serving k s → len buf = SCOS_APDU_CMD_MAX → bytes buf → serving (set_cmd k buf) s.
Proof. intros [Hlc HI [Hr Hrb] _ _] Hl Hb. by split. Qed.

(** One command delivered by the link. *)
Lemma loop_command k s buf n :
  serving k s → len buf = SCOS_APDU_CMD_MAX → bytes buf → 0 ≤ n ≤ SCOS_APDU_CMD_MAX →
  ∃ r k' s', card_loop [LinkEvent HAL_OK buf n] k s = Some ([r], false, k', s') ∧ serving k' s' ∧
    2 ≤ len r ≤ SCOS_APDU_RSP_MAX ∧ bytes r ∧ exchange (k, s) (slice 0 n buf) r (k', s').
Proof.
  intros [Hlc HI [Hkl Hkb] _ _] Hl Hb Hn.
  cbn [card_loop le_status le_received le_buf]. unfold SCOS_APDU_CMD_MAX, SCOS_APDU_RSP_MAX in *.
  change (k_cmd (set_cmd k buf)) with buf. rewrite Hl. replace (261 <? n) with false by lia.
  rewrite u16_id by (unfold is_u16; lia).
  set (k1 := set_rsp_len (set_cmd_len (set_cmd k buf) n) 0).
  destruct (process_answers I k1 s buf n (k_rsp k) 258 0 HI Hb)
    as (se' & rsp' & m & s' & Hp & Hm & Hlr & Hbr & HI'); [lia|lia|done|lia|lia|].
  change (k_cmd k1) with buf. change (k_cmd_len k1) with n. change (k_rsp k1) with (k_rsp k).
  change (k_rsp_len k1) with 0. rewrite Hp. bind_simpl. assert (len (slice 0 n buf) = n) as Hln by (apply len_slice; lia).
  eexists _, _, s'. split; [reflexivity|]. rewrite u32_id by (unfold is_u32; lia).
  assert (len (slice 0 m rsp') = m) as -> by (apply len_slice; lia). split; [|split; [lia|split; [by apply bytes_slice|]]].
  2: { unfold slice at 2. rewrite drop_0. eapply (exchange_intro k s (slice 0 n buf) _ s' k1 buf (k_rsp k) 0); rewrite ?Hln; try done; unfold SCOS_APDU_CMD_MAX, SCOS_APDU_RSP_MAX; lia. }
  split; [done|done| |done|done]. split; cbn [k_rsp set_rsp_len set_rsp]; [unfold SCOS_APDU_RSP_MAX; lia|done].
Qed.

Context (I_reset : ∀ s se, I s se → I s (FsSelection FS_ROOT_INDEX FS_INVALID_INDEX)).
Context (P_operational : P SCOS_LC_OPERATIONAL).

(** One turn of the pump for anything the receiver may deliver. *)
Lemma loop_event k s st buf n :
  serving k s → len buf = SCOS_APDU_CMD_MAX → bytes buf → 0 ≤ n ≤ SCOS_APDU_CMD_MAX →
  st = HAL_OK ∨ st = HAL_CARD_RESET ∨ st = HAL_ERR_LINK_DOWN →
  ∃ sent fin k' s', card_loop [LinkEvent st buf n] k s = Some (sent, fin, k', s') ∧ serving k' s' ∧ Forall bytes sent ∧
    (st = HAL_ERR_LINK_DOWN → fin = true).
Proof.
  intros Hs Hl Hb Hn [-> |[-> | ->]].
  - destruct (loop_command k s buf n Hs Hl Hb Hn) as (r & k' & s' & -> & Hs' & _ & Hr & _).
    eexists _, _, k', s'. split; [done|]. split; [done|]. split; [by apply Forall_singleton|done].
  - destruct Hs as [_ HI _ _ _]. cbn [card_loop le_status scos_reset fs_selection_reset].
    eexists _, _, _, s. split; [reflexivity|]. split; [|by split; [constructor|]].
    split; [done|cbn; by eapply I_reset|split; [done|solve_bytes]|done|solve_bytes].
  - eexists _, _, _, s. split; [reflexivity|]. split; [by apply serving_set_cmd|by split; [constructor|]].
Qed.

(** On any link that keeps the contract, the pump ends up waiting or with the
    link down, on a card that serves. *)
Lemma serve_total {L} `{CardLinkSpec L} fuel (l : L) k s :
  serving k s → link_ok l → (link_left l < fuel)%nat →
  ∃ l' fin k' s', serve fuel l k s = Some (l', fin, k', s') ∧ serving k' s' ∧ link_ok l'.
Proof.
  revert l k s. induction fuel as [|fuel IH]; intros l k s Hs Hl Hfuel; [lia|].
  pose proof Hs as [_ _ _ Hcl Hcb]. cbn [serve].
  destruct (link_receive_total l (k_cmd k) Hl Hcl Hcb) as (r & -> & Hr). bind_simpl.
  destruct Hr as [buf l1 Hbl Hbb Hl1|st n buf l1 Hbl Hbb Hn Hl1 Hleft Hst].
  - eexists _, _, _, s. split; [done|]. split; [by apply serving_set_cmd|done].
  - destruct (loop_event k s st buf n Hs Hbl Hbb Hn Hst) as (sent & fin & k' & s' & -> & Hs' & Hsent & Hfin).
    bind_simpl. cbv beta iota. destruct (send_all_total sent l1 Hsent Hl1) as (l2 & -> & Hl2 & Hm). bind_simpl.
    destruct fin; [by eexists _, _, k', s'|]. apply IH; [done|done|]. destruct Hleft as [?| ->]; [lia|by specialize (Hfin eq_refl)].
Qed.
End turn.

Lemma scos_init_buffers {N} `{HalNvm N} k0 (s : store N) k s' :
  scos_init (Ptr k0) s = Some (SCOS_OK, Ptr k, s') →
  k_cmd k = local_array SCOS_APDU_CMD_MAX ∧ k_rsp k = local_array SCOS_APDU_RSP_MAX.
Proof.
  unfold scos_init. destruct (fs_init s) as [[st s1]|]; [|done]. bind_simpl. destruct (negb (fs_ok st)); [done|].
  cbn [fs_selection_reset]. intros [= <- _]. done.
Qed.

Lemma safe_inv_reset {N} `{HalNvmSpec N} (s : store N) se :
  safe_inv s se → safe_inv s (FsSelection FS_ROOT_INDEX FS_INVALID_INDEX).
Proof. intros [Hs _]. split; [done|apply sel_reset_typed]. Qed.

(** Start-up on a device of any contents: the kernel is ready to answer, whether
    the file system mounted or not. *)
Lemma scos_init_serves {N} `{HalNvmSpec N} k0 (s : store N) :
  store_safe s →
  ∃ st k s', scos_init (Ptr k0) s = Some (st, Ptr k, s') ∧ serving safe_inv (λ _, True) k s' ∧
    (st = SCOS_OK ∨ k_lifecycle k = SCOS_LC_FS_ERROR).
Proof.
  intros Hs. unfold scos_init. destruct (wp_elim _ _ (fs_init_total s Hs)) as ([st s'] & -> & Hs'). bind_simpl. cbv beta iota.
  destruct (negb (fs_ok st)).
  - eexists _, _, s'. split; [done|]. split; [|by right].
    split; [done|split; [done|by split; cbn; unfold is_u16; lia]|split; [done|solve_bytes]|done|solve_bytes].
  - cbn [fs_selection_reset]. eexists _, _, s'. split; [done|]. split; [|by left].
    split; [done|split; [done|apply sel_reset_typed]|split; [done|solve_bytes]|done|solve_bytes].
Qed.
