(* ===== verification/ArmCard.v ===== *)
(** * The firmware of the SCV1 card (src/hal/arm-scv1/card_main.c)

    The entry point: power-up, mounting, the banner, the APDU pump over the
    serial link, power-down; and what a reader sees of it end to end. *)

From stdpp Require Import strings.
From S2P Require Import Prelude OsMem Sw Apdu Hal ArmHal ArmIo FsTypes FsStore Fs FsTree KernelTypes Kernel Session CardLoop Pump.
#[local] Open Scope Z_scope.

(** Ten digits hold 32 bits, and the buffer has room for twelve. *)
Definition put_u32_dec (v : Z) : list Z := if v =? 0 then [48] else dec_digits 12 v [].

Definition scv1_atr_bytes : list Z := [0x3B; 0x94; 0x11; 0x00; 0x53; 0x43; 0x4F; 0x53].

(** [hal_card_atr] of hal_arm_io.c: the program linked with it brings the bytes. *)
Definition arm_card_atr (atr : list Z) (out_len : ptr Z) : list Z * ptr Z :=
  (atr, if is_null out_len then NULL else Ptr (len atr)).

(** [version] is SCOS_VERSION_STRING of the build. *)
Definition banner (version : string) (h : semihost) : list Z :=
  chars "SmartCard OS on SCV1 (ARM Cortex-M3)" ++ CRLF ++ chars "Version: " ++ chars version ++ CRLF ++
  chars "OSFLASH 0x00002000  " ++ put_u32_dec (SCV1_OSFLASH_SIZE / 1024) ++
  chars " KB" ++ CRLF ++ chars "EEPROM  0x00010000  " ++ put_u32_dec (SCV1_EEPROM_SIZE / 1024) ++
  chars " KB" ++ CRLF ++ chars "DFLASH  0x00014000  " ++ put_u32_dec (SCV1_DFLASH_SIZE / 1024) ++
  chars " KB" ++ CRLF ++ chars "SRAM    0x20000000  " ++ put_u32_dec (SCV1_SRAM_SIZE / 1024) ++
  chars " KB" ++ CRLF ++ chars "ATR: 3B 94 11 00 53 43 4F 53" ++ CRLF ++
  chars "Started by the SCV1 boot ROM from an ACTIVE OS slot." ++ CRLF ++
  chars (if sh_available h then "NVM: persistent (semihosting)" else "NVM: volatile (no semihosting host)") ++ CRLF ++
  chars "Waiting for APDU..." ++ CRLF.

(** The serial link: the ATR, what the reader sends, what has been sent. *)
Record arm_link := ArmLink { al_atr : list Z; al_input : list Z; al_out : list Z }.

#[export] Instance ArmCardLink : CardLink arm_link := {
  link_receive l buf cap :=
    r ← hal_card_receive (al_atr l) (al_input l) (Ptr buf) cap (Ptr 0) (al_out l);
    Some (match r with
          | RxWaiting buf out => LinkWaiting buf (ArmLink (al_atr l) [] out)
          | RxReturn st n buf out rest => LinkReturned st n buf (ArmLink (al_atr l) rest out)
          end);
  link_send l b n :=
    '(st, out) ← hal_card_send (al_out l) (Ptr b) n;
    Some (st, ArmLink (al_atr l) (al_input l) out);
}.

Inductive arm_exit := ArmHalted | ArmServing | ArmPoweredDown.

(** [main]; what the UART has sent, and the state in which the firmware stands:
    halted by a fatal error, waiting for the reader, or powered down. *)
Definition arm_main (version : string) (h : semihost) (v : scv1) (input : list Z)
    : option (arm_exit * list Z * scos_kernel * store scv1 * semihost) :=
  '(hst, v) ← arm_hal_init h v;
  let s := Store (Superblock false 0 0 0) v in
  match hst with
  | HAL_OK =>
      '(st, k, s) ← scos_init (Ptr scos_kernel_zero) s;
      k ← deref k;
      let fs_error := bool_decide (k_lifecycle k = SCOS_LC_FS_ERROR) in
      if negb (bool_decide (st = SCOS_OK)) && negb fs_error then
        Some (ArmHalted, chars "fatal: OS init failed" ++ CRLF, k, s, h)
      else
        let out := (if fs_error then chars "WARNING: filesystem did not mount; answering 6581" ++ CRLF else []) ++
                   banner version h in
        '(l, fin, k, s) ← serve (S (length input)) (ArmLink scv1_atr_bytes input out) k s;
        if (fin : bool) then
          '(h, v) ← arm_hal_shutdown h (s_nvm s);
          Some (ArmPoweredDown, al_out l ++ chars "card powered down" ++ CRLF, k, set_nvm s v, h)
        else Some (ArmServing, al_out l, k, s, h)
  | _ => Some (ArmHalted, chars "fatal: HAL init failed" ++ CRLF, scos_kernel_zero, s, h)
  end.

(** ** The serial link keeps the contract *)

Record arm_link_wf (l : arm_link) : Prop := {
  aw_atr : bytes (al_atr l);
  aw_input : bytes (al_input l);
  aw_bound : len (al_input l) < 4294967296
}.

#[export] Program Instance ArmCardLinkSpec : CardLinkSpec arm_link := {
  link_ok := arm_link_wf; link_left l := length (al_input l);
}.
Next Obligation.
  cbn [link_receive ArmCardLink]. intros [atr input out] buf [Ha Hi H32] Hl Hb. cbn [al_atr al_input al_out] in *.
  destruct (receive_total atr SCOS_APDU_CMD_MAX 0 buf input out Ha Hi H32) as (r & -> & Hr);
    [rewrite Hl; done|done|done|]. bind_simpl. eexists. split; [done|].
  destruct Hr as [buf' out' Hbl Hbb|st n buf' out' rest Hbl Hbb Hn Hrb Hrl Hst]; constructor; cbn; try done; try congruence.
  - split; cbn [al_atr al_input]; [done|by apply Forall_nil|unfold len; cbn; lia].
  - split; cbn; done || lia.
  - left. unfold len in Hrl. lia.
Qed.
Next Obligation.
  cbn [link_send ArmCardLink]. intros [atr input out] b [Ha Hi H32] Hb. rewrite send_line by done. bind_simpl.
  eexists _, _. by split; [|split].
Qed.

(** ** The pump over well-formed lines *)

Section serve_ok.
Context {N : Type} `{HalNvmSpec N} (I : store N → fs_selection → Prop) `{!FsSpec I}.
Context (P : scos_lifecycle → Prop).
Implicit Types (s : store N).

(** A line that spells a command is answered by one line. *)
Lemma serve_line fuel atr d rest k s out :
  serving I P k s → bytes atr → bytes d → 0 < len d ≤ SCOS_APDU_CMD_MAX →
  ∃ r k' s', serve (S fuel) (ArmLink atr (hex_line d ++ rest) out) k s = serve fuel (ArmLink atr rest (out ++ hex_line r)) k' s' ∧
    serving I P k' s' ∧ 2 ≤ len r ≤ SCOS_APDU_RSP_MAX ∧ exchange (k, s) d r (k', s').
Proof.
  intros Hs Ha Hd Hl. pose proof Hs as [_ _ _ Hcl Hcb]. cbn [serve link_receive ArmCardLink al_atr al_input al_out]. unfold hex_line. rewrite <- app_assoc.
  change (flat_map hex_byte d) with (hex_bytes d). change ([LF] ++ rest) with (LF :: rest).
  pose proof (len_hex_bytes d) as Hhl.
  unfold SCOS_APDU_CMD_MAX in *.
  destruct (receive_line_eq atr (hex_bytes d) LF rest (k_cmd k) 261 0 out) as (buf & Hbl & Hbb & Hcmd & ->);
    [done|by apply hex_plain|by left|lia|lia|lia|done|].
  pose proof (hex_frame 261 d Hd Hl) as Hf. destruct (Hcmd d Hf) as (Hbuf & _ & _). rewrite Hf. cbn [on_frame]. bind_simpl.
  destruct (loop_command I P k s buf (len d) Hs) as (r & k' & s' & -> & Hs' & Hr & Hrb & He);
    [unfold SCOS_APDU_CMD_MAX; lia|done|unfold SCOS_APDU_CMD_MAX; lia|]. bind_simpl.
  cbn [send_all link_send ArmCardLink al_atr al_input al_out]. rewrite send_line by done. bind_simpl.
  rewrite Hbuf, slice_splice_same in He by lia. by exists r, k', s'.
Qed.

Lemma serve_lines_rest cmds rest atr k s out fuel :
  serving I P k s → bytes atr → Forall (λ d, bytes d ∧ 0 < len d ≤ SCOS_APDU_CMD_MAX) cmds →
  ∃ rsps k' s', serve (length cmds + fuel) (ArmLink atr (concat (map hex_line cmds) ++ rest) out) k s =
      serve fuel (ArmLink atr rest (out ++ concat (map hex_line rsps))) k' s' ∧ serving I P k' s' ∧
    session (k, s) cmds rsps (k', s') ∧ Forall (λ r, 2 ≤ len r ≤ SCOS_APDU_RSP_MAX) rsps.
Proof.
  intros Hs Ha Hc. revert k s out Hs. induction Hc as [|d cmds [Hd Hl] Hc IH]; intros k s out Hs.
  { exists [], k, s. cbn [map concat length Nat.add app]. rewrite app_nil_r. split; [done|]. split; [done|]. by split; constructor. }
  cbn [map concat length Nat.add]. rewrite <- app_assoc.
  destruct (serve_line (length cmds + fuel) atr d (concat (map hex_line cmds) ++ rest) k s out Hs Ha Hd Hl)
    as (r & k' & s' & -> & Hs' & Hr & He).
  destruct (IH k' s' (out ++ hex_line r) Hs') as (rsps & k2 & s2 & -> & Hs2 & Hse & Hall).
  exists (r :: rsps), k2, s2. cbn [map concat]. rewrite app_assoc.
  split; [done|]. split; [done|]. split; [by econstructor|by constructor].
Qed.

(** Without more input the pump waits; the line [.quit] ends it. *)
Lemma serve_waits fuel atr out k s : serve (S fuel) (ArmLink atr [] out) k s = Some (ArmLink atr [] out, false, k, s).
Proof. cbn [serve link_receive ArmCardLink al_atr al_input al_out]. by destruct k. Qed.

Definition quit_line : list Z := chars ".quit" ++ [LF].

Lemma serve_quits fuel atr rest out k s :
  serving I P k s → bytes atr →
  ∃ k', serve (S fuel) (ArmLink atr (quit_line ++ rest) out) k s = Some (ArmLink atr rest out, true, k', s) ∧ serving I P k' s.
Proof.
  intros Hs Ha. pose proof Hs as [_ _ _ Hcl Hcb]. cbn [serve link_receive ArmCardLink al_atr al_input al_out].
  unfold quit_line. rewrite <- app_assoc. change ([LF] ++ rest) with (LF :: rest). unfold SCOS_APDU_CMD_MAX in *.
  destruct (receive_line_eq atr (chars ".quit") LF rest (k_cmd k) 261 0 out) as (buf & Hbl & Hbb & _ & ->);
    [done|apply (bool_decide_unpack _); vm_compute; exact Logic.I|by left|by vm_compute|lia|lia|done|].
  change (line_frame 261 (chars ".quit")) with FrQuit. cbn [on_frame]. bind_simpl. cbn [card_loop le_status le_buf]. bind_simpl.
  cbn [send_all]. bind_simpl. exists (set_cmd k buf). split; [done|]. apply serving_set_cmd; [exact _|done|unfold SCOS_APDU_CMD_MAX; lia|done].
Qed.

End serve_ok.

(** ** From the power-up of a chip *)

(** What [main] does once a card is operational. *)
Definition serve_and_stop (version : string) (h : semihost) (input : list Z) (k : scos_kernel) (s : store scv1)
    : option (arm_exit * list Z * scos_kernel * store scv1 * semihost) :=
  '(l, fin, k, s) ← serve (S (length input)) (ArmLink scv1_atr_bytes input (banner version h)) k s;
  if (fin : bool) then
    '(h, v) ← arm_hal_shutdown h (s_nvm s);
    Some (ArmPoweredDown, al_out l ++ chars "card powered down" ++ CRLF, k, set_nvm s v, h)
  else Some (ArmServing, al_out l, k, s, h).

Lemma serving_operational {N} `{HalNvmSpec N} k (s : store N) :
  serving card_inv (eq SCOS_LC_OPERATIONAL) k s → operational (k, s).
Proof. intros [Hlc HI _ _ _]. by split. Qed.

(** The card behind a fresh kernel. *)
Lemma fresh_serving {N} `{HalNvmSpec N} k0 (s : store N) k s' :
  scos_init (Ptr k0) s = Some (SCOS_OK, Ptr k, s') → operational (k, s') → serving card_inv (eq SCOS_LC_OPERATIONAL) k s'.
Proof.
  intros Hi Hop. destruct (scos_init_buffers _ _ _ _ Hi) as [Hc Hr].
  split; [symmetry; apply Hop|apply Hop| |by rewrite Hc|rewrite Hc; solve_bytes]. split; rewrite Hr; [done|solve_bytes].
Qed.

Lemma blank_chip_serves (v : scv1) :
  scv1_wf v → scv1_ready v → eeprom_region v = replicate (Z.to_nat SCV1_EEPROM_SIZE) 0xFF →
  ∃ k s, scos_init (Ptr scos_kernel_zero) (Store (Superblock false 0 0 0) v) = Some (SCOS_OK, Ptr k, s) ∧
    serving card_inv (eq SCOS_LC_OPERATIONAL) k s ∧ view s = factory_view (dflash_region v) ∧
    k_sel k = FsSelection FS_ROOT_INDEX FS_INVALID_INDEX.
Proof.
  intros Hwf Hr He. set (s0 := Store (Superblock false 0 0 0) v).
  assert (eeprom s0 = eeprom_region v) as Hee by done. assert (flash s0 = dflash_region v) as Hff by done.
  destruct (init_blank s0) as (s & Hi & Hs & Hsy & _ & Hv); [done|done| | | |].
  - unfold blank_card. rewrite Hee, He, take_replicate.
    replace (4 `min` Z.to_nat SCV1_EEPROM_SIZE)%nat with 4%nat by (unfold SCV1_EEPROM_SIZE; lia). done.
  - rewrite Hee, (aw_esize _ Hwf). vm_compute. congruence.
  - rewrite Hff, (aw_fsize _ Hwf). vm_compute. congruence.
  - destruct (init_operational scos_kernel_zero s0 s Hi Hs Hsy) as (k & Hk & Hop); [rewrite Hv; apply factory_tree|].
    exists k, s. split; [done|]. split; [by eapply fresh_serving|]. split; [done|].
    revert Hk. unfold scos_init. rewrite Hi. bind_simpl. cbn [fs_ok negb fs_selection_reset]. by intros [= <-].
Qed.

(** Power-up of a new card, and what follows. *)
Lemma arm_main_blank version h v input :
  scv1_wf v → sh_available h = false ∨ (∀ p, sh_files h !! p = None) →
  slice 0 4 (eeprom_region v) ≠ [0x53; 0x43; 0x4F; 0x53] →
  ∃ k s, serving card_inv (eq SCOS_LC_OPERATIONAL) k s ∧ k_sel k = FsSelection FS_ROOT_INDEX FS_INVALID_INDEX ∧
    view s = factory_view (replicate (Z.to_nat SCV1_DFLASH_SIZE) 0xFF) ∧
    arm_main version h v input = serve_and_stop version h input k s.
Proof.
  intros Hwf Hh Hm. unfold arm_main, arm_hal_init. rewrite power_on_no_files by done. bind_simpl. cbv beta iota.
  unfold powered_regions. rewrite bool_decide_false by done. cbn [fst snd].
  assert (bytes (replicate (Z.to_nat SCV1_DFLASH_SIZE) 0xFF) ∧ len (replicate (Z.to_nat SCV1_DFLASH_SIZE) 0xFF) = SCV1_DFLASH_SIZE) as [HFb HFl]
    by (split; [by apply Forall_replicate|rewrite len_replicate; unfold SCV1_DFLASH_SIZE; lia]).
  revert HFb HFl. generalize (replicate (Z.to_nat SCV1_DFLASH_SIZE) 0xFF) as F. intros F HFb HFl.
  set (v' := Scv1 _ _ true _).
  destruct (blank_chip_serves v') as (k & s & -> & Hs & Hv & Hsel); [|done|done|].
  { split; cbn [v' eeprom_region dflash_region]; [by apply Forall_replicate|exact HFb|rewrite len_replicate; unfold SCV1_EEPROM_SIZE; lia|exact HFl]. }
  bind_simpl. cbv beta iota. cbn [deref]. bind_simpl.
  rewrite <- (sv_lifecycle _ _ _ _ Hs).
  rewrite bool_decide_true by done. rewrite bool_decide_false by done. cbn [negb andb]. cbv zeta iota. cbn [app].
  exists k, s. split; [exact Hs|]. split; [exact Hsel|]. split; [exact Hv|reflexivity].
Qed.

Lemma shutdown_total h v : scv1_wf v → ∃ h' v', arm_hal_shutdown h v = Some (h', v') ∧ a_powered v' = false.
Proof.
  intros [_ _ He Hf]. unfold arm_hal_shutdown, scv1_nvm_power_off.
  destruct (a_powered v) eqn:Hp; cbn [negb]; [|by eexists _, v].
  destruct (sh_available h) eqn:Ha; bind_simpl; [|by eexists _, _].
  destruct (semihost_store_total h EEPROM_FILE _ _ He) as (x & h1 & -> & _); [unfold SCV1_EEPROM_SIZE; lia|]. bind_simpl. cbv beta iota.
  destruct (semihost_store_total h1 DFLASH_FILE _ _ Hf) as (y & h2 & -> & _); [unfold SCV1_DFLASH_SIZE; lia|]. bind_simpl. cbv beta iota.
  bind_simpl. by eexists _, _.
Qed.

(** On a chip and a debugger of any contents. *)
Lemma arm_main_any version h v input :
  scv1_wf v → (∀ p f, sh_files h !! p = Some f → bytes f) → bytes input → len input < 4294967296 →
  ∃ ex out k s h', arm_main version h v input = Some (ex, out, k, s, h') ∧
    (ex = ArmServing ∧ safe_inv s (k_sel k) ∨ ex = ArmPoweredDown ∧ a_powered (s_nvm s) = false).
Proof.
  intros Hwf Hfiles Hi H32. unfold arm_main, arm_hal_init.
  destruct (power_on_any h v Hwf Hfiles) as (v' & -> & Hwf' & Hr). bind_simpl. cbv beta iota.
  destruct (scos_init_serves scos_kernel_zero (Store (Superblock false 0 0 0) v')) as (st & k & s & -> & Hs & Hst);
    [by split; cbn; [|unfold is_u16; lia|unfold is_u32; lia]|].
  bind_simpl. cbv beta iota. cbn [deref]. bind_simpl. cbv zeta.
  replace (negb (bool_decide (st = SCOS_OK)) && negb (bool_decide (k_lifecycle k = SCOS_LC_FS_ERROR))) with false
    by (destruct Hst as [-> | ->]; [done|by rewrite (bool_decide_true (_ = SCOS_LC_FS_ERROR)), andb_false_r by done]).
  set (out := _ ++ banner version h).
  destruct (serve_total safe_inv (λ _, True) safe_inv_reset Logic.I (S (length input)) (ArmLink scv1_atr_bytes input out) k s Hs)
    as (l & fin & k' & s' & -> & Hs' & _); [split; cbn; [solve_bytes|done|done]|cbn; lia|].
  bind_simpl. cbv beta iota. pose proof (sv_inv _ _ _ _ Hs') as Hsafe. destruct fin.
  - destruct (shutdown_total h (s_nvm s')) as (h' & v2 & -> & Hp); [apply Hsafe|].
    bind_simpl. cbv beta iota. eexists _, _, _, _, _. split; [done|]. by right.
  - eexists _, _, _, _, _. split; [done|]. by left.
Qed.

(** Serving the lines of a session, to the end of the input or to [.quit]. *)
Lemma serve_and_stop_lines version h cmds k s :
  serving card_inv (eq SCOS_LC_OPERATIONAL) k s → Forall (λ d, bytes d ∧ 0 < len d ≤ SCOS_APDU_CMD_MAX) cmds →
  ∃ rsps k' s', serve_and_stop version h (concat (map hex_line cmds)) k s =
      Some (ArmServing, banner version h ++ concat (map hex_line rsps), k', s', h) ∧
    serving card_inv (eq SCOS_LC_OPERATIONAL) k' s' ∧ session (k, s) cmds rsps (k', s') ∧
    Forall (λ r, 2 ≤ len r ≤ SCOS_APDU_RSP_MAX) rsps.
Proof.
  intros Hs Hc. set (input := concat (map hex_line cmds)). pose proof (lines_length cmds) as Hll. fold input in Hll.
  destruct (serve_lines_rest card_inv (eq SCOS_LC_OPERATIONAL) cmds [] scv1_atr_bytes k s (banner version h) (S (length input - length cmds)) Hs)
    as (rsps & k2 & s2 & Hserve & Hs2 & Hse & Hall); [solve_bytes|done|].
  exists rsps, k2, s2. unfold serve_and_stop. fold input in Hserve. rewrite app_nil_r in Hserve.
  replace (S (length input)) with (length cmds + S (length input - length cmds))%nat by lia.
  rewrite Hserve, (serve_waits card_inv). by split.
Qed.


Lemma serve_and_stop_quits version h cmds k s :
  serving card_inv (eq SCOS_LC_OPERATIONAL) k s → Forall (λ d, bytes d ∧ 0 < len d ≤ SCOS_APDU_CMD_MAX) cmds →
  ∃ rsps k1 k' s', serve_and_stop version h (concat (map hex_line cmds) ++ quit_line) k s =
      ('(h', v) ← arm_hal_shutdown h (s_nvm s');
       Some (ArmPoweredDown, (banner version h ++ concat (map hex_line rsps)) ++ chars "card powered down" ++ CRLF, k', set_nvm s' v, h')) ∧
    serving card_inv (eq SCOS_LC_OPERATIONAL) k' s' ∧ session (k, s) cmds rsps (k1, s').
Proof.
  intros Hs Hc. set (input := concat (map hex_line cmds) ++ quit_line).
  assert (length cmds ≤ length input)%nat as Hll by (unfold input; rewrite length_app; pose proof (lines_length cmds); lia).
  destruct (serve_lines_rest card_inv (eq SCOS_LC_OPERATIONAL) cmds (quit_line ++ []) scv1_atr_bytes k s (banner version h)
    (S (length input - length cmds)) Hs) as (rsps & k1 & s1 & Hserve & Hs1 & Hse & _); [solve_bytes|done|].
  destruct (serve_quits card_inv (eq SCOS_LC_OPERATIONAL) (length input - length cmds) scv1_atr_bytes []
    (banner version h ++ concat (map hex_line rsps)) k1 s1 Hs1) as (k' & Hquit & Hs'); [solve_bytes|].
  exists rsps, k1, k', s1. unfold serve_and_stop. rewrite app_nil_r in Hserve. fold input in Hserve.
  replace (S (length input)) with (length cmds + S (length input - length cmds))%nat by lia.
  rewrite Hserve. rewrite app_nil_r in Hquit. rewrite Hquit. bind_simpl. cbv beta iota. cbn [al_out]. split; [reflexivity|]. split; [exact Hs'|exact Hse].
Qed.

(** [C16] The card from its first power-up to its last answer: on a chip that
    holds no file system and no image file, the firmware comes up with the file
    system of a new card, sends its banner, and then answers every line of hex
    digits that spells a command of 1 to 261 bytes with exactly one line of hex
    digits: the 2 to 258 bytes with which the kernel answers that command in the
    state the commands before have left.  At the end the card waits for the next
    line on a well-formed file tree. *)
Theorem firmware_answers_each_line version h v cmds :
  scv1_wf v → sh_available h = false ∨ (∀ p, sh_files h !! p = None) →
  slice 0 4 (eeprom_region v) ≠ [0x53; 0x43; 0x4F; 0x53] →
  Forall (λ d, bytes d ∧ 0 < len d ≤ SCOS_APDU_CMD_MAX) cmds →
  ∃ k0 s0 rsps k s, arm_main version h v (concat (map hex_line cmds)) =
      Some (ArmServing, banner version h ++ concat (map hex_line rsps), k, s, h) ∧
    operational (k0, s0) ∧ view s0 = factory_view (replicate (Z.to_nat SCV1_DFLASH_SIZE) 0xFF) ∧
    session (k0, s0) cmds rsps (k, s) ∧ operational (k, s) ∧ Forall (λ r, 2 ≤ len r ≤ SCOS_APDU_RSP_MAX) rsps.
Proof.
  intros Hwf Hh Hm Hc.
  destruct (arm_main_blank version h v (concat (map hex_line cmds)) Hwf Hh Hm) as (k & s & Hs & _ & Hv & Hmain).
  destruct (serve_and_stop_lines version h cmds k s Hs Hc) as (rsps & k2 & s2 & Hserve & Hs2 & Hse & Hall).
  exists k, s, rsps, k2, s2. rewrite Hmain, Hserve. split; [reflexivity|]. split; [by apply serving_operational|].
  split; [exact Hv|]. split; [done|]. split; [by apply serving_operational|done].
Qed.

(** [C11] No input can wedge or crash the card: whatever its memory and the
    debugger's files hold and whatever bytes arrive on the serial line, noise
    included, the firmware comes up, makes no access outside its memory, never
    loops without consuming input, and ends up waiting for more input or powered
    down at the reader's request, never halted.  On a new chip it is then still
    operational, on a well-formed file tree. *)
Theorem firmware_survives_any_input version h v input :
  scv1_wf v → (∀ p f, sh_files h !! p = Some f → bytes f) → bytes input → len input < 4294967296 →
  ∃ ex out k s h', arm_main version h v input = Some (ex, out, k, s, h') ∧
    (ex = ArmServing ∧ safe_inv s (k_sel k) ∨ ex = ArmPoweredDown ∧ a_powered (s_nvm s) = false) ∧
    (sh_available h = false ∨ (∀ p, sh_files h !! p = None) → slice 0 4 (eeprom_region v) ≠ [0x53; 0x43; 0x4F; 0x53] →
     ex = ArmServing → operational (k, s)).
Proof.
  intros Hwf Hfiles Hi H32.
  destruct (arm_main_any version h v input Hwf Hfiles Hi H32) as (ex & out & k & s & h' & Hrun & Hex).
  exists ex, out, k, s, h'. split; [done|]. split; [done|]. intros Hh Hm ->.
  destruct (arm_main_blank version h v input Hwf Hh Hm) as (k0 & s0 & Hs0 & _ & _ & Hmain). rewrite Hrun in Hmain.
  unfold serve_and_stop in Hmain.
  destruct (serve_total card_inv (eq SCOS_LC_OPERATIONAL) card_inv_reset eq_refl (S (length input))
    (ArmLink scv1_atr_bytes input (banner version h)) k0 s0 Hs0) as (l & fin & k' & s' & Hserve & Hs' & _);
    [split; cbn; [solve_bytes|done|done]|cbn; lia|].
  rewrite Hserve in Hmain. cbn [mbind option_bind] in Hmain. destruct fin.
  - destruct (arm_hal_shutdown h (s_nvm s')) as [[h2 v2]|]; done.
  - injection Hmain as _ -> -> _. by apply serving_operational.
Qed.

Definition demo_cmds : list (list Z) := [[0x00; 0xA4; 0x00; 0x00]; [0x00; 0xB0; 0x81; 0x00; 0x04]].

Lemma firmware_answers_each_line_witness :
  ∃ k0 s0 rsps k s, arm_main "0.1.0" no_debugger (demo_chip [] false) (concat (map hex_line demo_cmds)) =
      Some (ArmServing, banner "0.1.0" no_debugger ++ concat (map hex_line rsps), k, s, no_debugger) ∧
    operational (k0, s0) ∧ view s0 = factory_view (replicate (Z.to_nat SCV1_DFLASH_SIZE) 0xFF) ∧
    session (k0, s0) demo_cmds rsps (k, s) ∧ operational (k, s) ∧ Forall (λ r, 2 ≤ len r ≤ SCOS_APDU_RSP_MAX) rsps.
Proof.
  apply (firmware_answers_each_line "0.1.0" no_debugger (demo_chip [] false) demo_cmds).
  - apply demo_chip_wf; [solve_bytes|unfold SCV1_EEPROM_SIZE; change (len []) with 0; lia].
  - by left.
  - cbn [demo_chip eeprom_region app]. unfold slice. rewrite drop_0, take_replicate.
    replace (Z.to_nat 4 `min` Z.to_nat (SCV1_EEPROM_SIZE - len []))%nat with 4%nat
      by (unfold SCV1_EEPROM_SIZE; change (len []) with 0; lia). discriminate.
  - repeat (apply Forall_cons; split; [split; [solve_bytes|split; vm_compute; congruence]|]). by apply Forall_nil.
Defined.

Definition demo_input : list Z := chars "# noise" ++ [LF] ++ chars "xyz" ++ [CR; LF] ++ chars ".reset" ++ [LF] ++ chars "00A4".

Lemma firmware_survives_any_input_witness :
  ∃ ex out k s h', arm_main "0.1.0" no_debugger (demo_chip [] false) demo_input = Some (ex, out, k, s, h') ∧
    (ex = ArmServing ∧ safe_inv s (k_sel k) ∨ ex = ArmPoweredDown ∧ a_powered (s_nvm s) = false) ∧
    (sh_available no_debugger = false ∨ (∀ p, sh_files no_debugger !! p = None) →
     slice 0 4 (eeprom_region (demo_chip [] false)) ≠ [0x53; 0x43; 0x4F; 0x53] → ex = ArmServing → operational (k, s)).
Proof.
  apply (firmware_survives_any_input "0.1.0" no_debugger (demo_chip [] false) demo_input).
  - apply demo_chip_wf; [solve_bytes|unfold SCV1_EEPROM_SIZE; change (len []) with 0; lia].
  - intros p f. cbn. by rewrite lookup_empty.
  - solve_bytes.
  - reflexivity.
Defined.
