(* ===== verification/ArmSession.v ===== *)
(** * Sessions with the SCV1 card across power cycles

    ArmCard.v's firmware run twice, with a power-down in between that saves the
    memory in the debugger's files (hal_arm_nvm.c, semihost.c): the second run
    continues on the file system the first one left. *)

From stdpp Require Import strings.
From S2P Require Import Prelude OsMem Sw Apdu Hal ArmHal ArmIo FsTypes FsStore Fs FsTree KernelTypes CmdBinary Dispatch Kernel Session CardLoop Pump ArmCard.
#[local] Open Scope Z_scope.

(** A chip with a new card in it, and a debugger with no image files that
    accepts them. *)
Record new_card (h : semihost) (v : scv1) : Prop := {
  nc_chip : scv1_wf v;
  nc_blank : slice 0 4 (eeprom_region v) ≠ [0x53; 0x43; 0x4F; 0x53];
  nc_debugger : sh_available h = true;
  nc_eeprom : sh_writable h EEPROM_FILE = true;
  nc_dflash : sh_writable h DFLASH_FILE = true;
  nc_files : ∀ p, sh_files h !! p = None
}.

(** ** Power-up on saved files *)

Lemma arm_main_resumes version h v2 k s input :
  serving card_inv (eq SCOS_LC_OPERATIONAL) k s → scv1_wf v2 →
  sh_available h = true → sh_writable h EEPROM_FILE = true → sh_writable h DFLASH_FILE = true →
  ∃ h' v', arm_hal_shutdown h (s_nvm s) = Some (h', v') ∧ view (set_nvm s v') = view s ∧
    ∃ k2 s2, arm_main version h' v2 input = serve_and_stop version h' input k2 s2 ∧
      serving card_inv (eq SCOS_LC_OPERATIONAL) k2 s2 ∧ view s2 = view s ∧
      k_sel k2 = FsSelection FS_ROOT_INDEX FS_INVALID_INDEX.
Proof.
  intros Hs Hwf2 Ha Hwe Hwd. pose proof (sv_inv _ _ _ _ Hs) as Hinv. pose proof (proj1 Hinv) as Hok.
  destruct (power_cycle_files h (s_nvm s) v2 (so_wf _ Hok) Hwf2 (so_ready _ Hok) Ha Hwe Hwd) as (h' & Hoff & Ha' & Hon).
  eexists h', _. split; [exact Hoff|]. split; [by apply view_same_memory|].
  set (v3 := Scv1 _ _ true _) in Hon. assert (same_memory (s_nvm s) v3) as Hm by done.
  destruct (init_same_memory k s v3 scos_kernel_zero (Superblock false 0 0 0)) as (k2 & Hi & Hop & Hsel);
    [by apply serving_operational| |done|exact Hm|].
  { destruct (so_wf _ Hok). by split. }
  exists k2, (set_nvm s v3). split; [|split; [by eapply fresh_serving|split; [by apply view_same_memory|done]]].
  unfold arm_main. rewrite Hon. bind_simpl. cbv beta iota. rewrite Hi. bind_simpl. cbv beta iota. cbn [deref]. bind_simpl.
  pose proof (op_lifecycle _ Hop) as Hlc. cbn [fst] in Hlc. rewrite Hlc. rewrite bool_decide_true by done. rewrite bool_decide_false by done. reflexivity.
Qed.

(** ** Properties *)

(** [C18] Nothing is lost when the card is powered down: whatever is sent to a
    new card, if it ends powered down then the next run of the firmware, on a
    chip whose memory holds anything at all, finds in the debugger's files the
    very files the first run left, with the MF selected, and answers each line
    as the kernel answers on them. *)
Theorem firmware_resumes version h v v2 input cmds :
  new_card h v → scv1_wf v2 → bytes input → len input < 4294967296 →
  Forall (λ d, bytes d ∧ 0 < len d ≤ SCOS_APDU_CMD_MAX) cmds →
  ∃ ex out k s h', arm_main version h v input = Some (ex, out, k, s, h') ∧ (ex = ArmServing ∨ ex = ArmPoweredDown) ∧
    (ex = ArmPoweredDown →
     ∃ k2 s2 rsps k3 s3, arm_main version h' v2 (concat (map hex_line cmds)) =
         Some (ArmServing, banner version h' ++ concat (map hex_line rsps), k3, s3, h') ∧
       operational (k2, s2) ∧ view s2 = view s ∧ k_sel k2 = FsSelection FS_ROOT_INDEX FS_INVALID_INDEX ∧
       session (k2, s2) cmds rsps (k3, s3)).
Proof.
  intros [Hwf Hm Ha Hwe Hwd Hf] Hwf2 Hi H32 Hc.
  destruct (arm_main_blank version h v input Hwf (or_intror Hf) Hm) as (k0 & s0 & Hs0 & _ & _ & ->). unfold serve_and_stop.
  destruct (serve_total card_inv (eq SCOS_LC_OPERATIONAL) card_inv_reset eq_refl (S (length input))
    (ArmLink scv1_atr_bytes input (banner version h)) k0 s0 Hs0) as (l & fin & k & s & -> & Hs & _);
    [split; cbn; [solve_bytes|done|done]|cbn; lia|]. bind_simpl. cbv beta iota. destruct fin.
  - destruct (arm_main_resumes version h v2 k s (concat (map hex_line cmds)) Hs Hwf2 Ha Hwe Hwd)
      as (h' & v' & -> & Hv' & k2 & s2 & Hmain & Hs2 & Hv2 & Hsel). bind_simpl. cbv beta iota.
    eexists _, _, _, _, h'. split; [done|]. split; [by right|]. intros _.
    destruct (serve_and_stop_lines version h' cmds k2 s2 Hs2 Hc) as (rsps & k3 & s3 & Hserve & _ & Hse & _).
    exists k2, s2, rsps, k3, s3. rewrite Hmain, Hserve, Hv'. split; [done|].
    split; [by apply serving_operational|]. by split.
  - eexists _, _, _, _, _. split; [done|]. split; [by left|done].
Qed.

(** The EF of a new card that has the short identifier 1, and a stretch of it. *)
Lemma factory_addressed F off data :
  0 ≤ off → 0 < len data → bytes data → off + len data ≤ 32 →
  addressed (factory_view F) (FsSelection FS_ROOT_INDEX FS_INVALID_INDEX) 0x81 off 1 off factory_ef data.
Proof.
  intros Ho Hl Hb Hfit. split; try done; unfold is_u8; try lia.
  exists factory_ef. split; [reflexivity|]. split; [reflexivity|]. split; [reflexivity|]. right. by repeat split.
Qed.

Lemma update_line_ok off data :
  is_u8 off → bytes data → 0 < len data ≤ 255 →
  bytes (encode_command 0 INS_UPDATE_BINARY 0x81 off data None) ∧
  0 < len (encode_command 0 INS_UPDATE_BINARY 0x81 off data None) ≤ SCOS_APDU_CMD_MAX.
Proof.
  intros Ho Hb Hl. unfold encode_command. rewrite decide_False by (intros ->; change (len []) with 0 in Hl; lia).
  rewrite app_nil_r, len_app, (len_cons (len data)). change (len [_; _; _; _]) with 4. split; [|unfold SCOS_APDU_CMD_MAX; lia].
  apply bytes_app; [|apply bytes_cons; split; [unfold is_u8; lia|done]]. repeat constructor; unfold INS_UPDATE_BINARY; lia || apply Ho.
Qed.

Lemma read_line_ok off n :
  is_u8 off → 0 < n ≤ 255 →
  bytes (encode_command 0 INS_READ_BINARY 0x81 off [] (Some n)) ∧
  0 < len (encode_command 0 INS_READ_BINARY 0x81 off [] (Some n)) ≤ SCOS_APDU_CMD_MAX.
Proof.
  intros Ho Hn. change (len _) with 5. split; [|done]. unfold is_u8 in Ho.
  unfold encode_command, le_to_wire. rewrite decide_True by done. replace (n =? 256) with false by lia.
  repeat constructor; unfold INS_READ_BINARY; lia.
Qed.

(** [C17] Data written to the card outlive the power: on a new card, a line with
    an UPDATE BINARY of the file with the short identifier 1 is answered 9000,
    the line [.quit] powers the card down, and after the next power-up, whatever
    the memory held in between, a line with a READ BINARY is answered with the
    very data and 9000.  These are all the characters the card sends. *)
Theorem data_outlives_power version h v v2 off data :
  new_card h v → scv1_wf v2 → 0 ≤ off → 0 < len data → bytes data → off + len data ≤ 32 →
  ∃ k s h' k2 s2,
    arm_main version h v (hex_line (encode_command 0 INS_UPDATE_BINARY 0x81 off data None) ++ quit_line) =
      Some (ArmPoweredDown, banner version h ++ hex_line [0x90; 0x00] ++ chars "card powered down" ++ CRLF, k, s, h') ∧
    arm_main version h' v2 (hex_line (encode_command 0 INS_READ_BINARY 0x81 off [] (Some (len data)))) =
      Some (ArmServing, banner version h' ++ hex_line (data ++ [0x90; 0x00]), k2, s2, h').
Proof.
  intros [Hwf Hm Ha Hwe Hwd Hf] Hwf2 Ho Hl Hb Hfit.
  set (up := encode_command 0 INS_UPDATE_BINARY 0x81 off data None).
  set (rd := encode_command 0 INS_READ_BINARY 0x81 off [] (Some (len data))).
  assert (bytes up ∧ 0 < len up ≤ SCOS_APDU_CMD_MAX) as Hup by (apply update_line_ok; unfold is_u8; done || lia).
  assert (bytes rd ∧ 0 < len rd ≤ SCOS_APDU_CMD_MAX) as Hrd by (apply read_line_ok; unfold is_u8; lia).
  assert (∀ d, bytes d ∧ 0 < len d ≤ SCOS_APDU_CMD_MAX → Forall (λ d, bytes d ∧ 0 < len d ≤ SCOS_APDU_CMD_MAX) [d]) as Hone
    by (intros; by apply Forall_singleton).
  assert (∀ d, concat (map hex_line [d]) = hex_line d) as Hline by (intros d; cbn [map concat]; apply app_nil_r).
  rewrite <- (Hline up), <- (Hline rd).
  destruct (arm_main_blank version h v (concat (map hex_line [up]) ++ quit_line) Hwf (or_intror Hf) Hm) as (k0 & s0 & Hs0 & Hsel0 & Hv0 & ->).
  destruct (serve_and_stop_quits version h [up] k0 s0 Hs0 (Hone _ Hup)) as (rsps & k1 & k & s1 & -> & Hs1 & Hse).
  destruct (session_one _ _ _ _ _ _ Hse) as (r & ka & -> & He & _).
  assert (addressed (view s0) (k_sel k0) 0x81 off 1 off factory_ef data) as Had by (rewrite Hv0, Hsel0; by apply factory_addressed).
  destruct (exchange_update k0 s0 0x81 off data 1 off factory_ef r ka s1) as (-> & _ & Hupd & Hh); [by apply serving_operational|done|done|].
  destruct (arm_main_resumes version h v2 k s1 (concat (map hex_line [rd])) Hs1 Hwf2 Ha Hwe Hwd)
    as (h' & v' & -> & _ & k2 & s2 & Hmain & Hs2 & Hv2 & Hsel). bind_simpl. cbv beta iota.
  destruct (serve_and_stop_lines version h' [rd] k2 s2 Hs2 (Hone _ Hrd)) as (rsps2 & k3 & s3 & Hserve2 & _ & Hse2 & _).
  destruct (session_one _ _ _ _ _ _ Hse2) as (r2 & kb & -> & He2 & _).
  assert (addressed (view s2) (k_sel k2) 0x81 off 1 off factory_ef data) as Had2
    by (rewrite Hv2, Hsel, <- Hsel0; by eapply updated_addressed).
  destruct (exchange_read k2 s2 0x81 off data 1 off factory_ef r2 kb s3) as (-> & _ & _); [by apply serving_operational|done|by rewrite Hv2|done|].
  rewrite !Hline in *. eexists _, _, h', k3, s3. split; [|by rewrite Hmain, Hserve2]. by rewrite <- !app_assoc.
Qed.

(** ** Witnesses *)

Definition empty_debugger : semihost := Semihost true ∅ (λ _, true).

Lemma demo_new_card : new_card empty_debugger (demo_chip [] false).
Proof.
  split; [| |done|done|done|intros p; apply lookup_empty].
  - apply demo_chip_wf; [solve_bytes|unfold SCV1_EEPROM_SIZE; change (len []) with 0; lia].
  - cbn [demo_chip eeprom_region app]. unfold slice. rewrite drop_0, take_replicate.
    replace (Z.to_nat 4 `min` Z.to_nat (SCV1_EEPROM_SIZE - len []))%nat with 4%nat
      by (unfold SCV1_EEPROM_SIZE; change (len []) with 0; lia). discriminate.
Qed.

Lemma demo_other_chip : scv1_wf (demo_chip demo_magic false).
Proof. apply demo_chip_wf; [solve_bytes|unfold SCV1_EEPROM_SIZE; change (len demo_magic) with 4; lia]. Qed.

Lemma firmware_resumes_witness :
  ∃ ex out k s h', arm_main "0.1.0" empty_debugger (demo_chip [] false) (chars "00D6810003010203" ++ [LF] ++ quit_line) =
      Some (ex, out, k, s, h') ∧ (ex = ArmServing ∨ ex = ArmPoweredDown) ∧
    (ex = ArmPoweredDown →
     ∃ k2 s2 rsps k3 s3, arm_main "0.1.0" h' (demo_chip demo_magic false) (concat (map hex_line demo_cmds)) =
         Some (ArmServing, banner "0.1.0" h' ++ concat (map hex_line rsps), k3, s3, h') ∧
       operational (k2, s2) ∧ view s2 = view s ∧ k_sel k2 = FsSelection FS_ROOT_INDEX FS_INVALID_INDEX ∧
       session (k2, s2) demo_cmds rsps (k3, s3)).
Proof.
  apply (firmware_resumes "0.1.0" empty_debugger (demo_chip [] false) (demo_chip demo_magic false)
    (chars "00D6810003010203" ++ [LF] ++ quit_line) demo_cmds).
  - exact demo_new_card.
  - exact demo_other_chip.
  - solve_bytes.
  - reflexivity.
  - repeat (apply Forall_cons; split; [split; [solve_bytes|split; vm_compute; congruence]|]). by apply Forall_nil.
Defined.

Lemma data_outlives_power_witness :
  ∃ k s h' k2 s2,
    arm_main "0.1.0" empty_debugger (demo_chip [] false)
        (hex_line (encode_command 0 INS_UPDATE_BINARY 0x81 3 [7; 9; 11] None) ++ quit_line) =
      Some (ArmPoweredDown, banner "0.1.0" empty_debugger ++ hex_line [0x90; 0x00] ++ chars "card powered down" ++ CRLF, k, s, h') ∧
    arm_main "0.1.0" h' (demo_chip demo_magic false) (hex_line (encode_command 0 INS_READ_BINARY 0x81 3 [] (Some (len [7; 9; 11])))) =
      Some (ArmServing, banner "0.1.0" h' ++ hex_line ([7; 9; 11] ++ [0x90; 0x00]), k2, s2, h').
Proof.
  apply (data_outlives_power "0.1.0" empty_debugger (demo_chip [] false) (demo_chip demo_magic false) 3 [7; 9; 11]).
  - exact demo_new_card.
  - exact demo_other_chip.
  - discriminate.
  - reflexivity.
  - solve_bytes.
  - discriminate.
Defined.
