(* ===== verification/SimCard.v ===== *)
(** * The simulator's entry point (simulator/main.c, the banner of
    simulator/virtual_card.c)

    The arguments of the process, power-up, the pump over standard input and
    output, power-down; and what a reader of the simulator sees of it. *)

From stdpp Require Import strings.
From S2P Require Import Prelude OsMem Sw Apdu Hal SimHal ArmIo SimLink FsTypes FsStore Fs FsTree KernelTypes Kernel CardLoop Pump.
#[local] Open Scope Z_scope.

(** ** The link *)

Record sim_link := SimCardLink { sl_input : list Z; sl_io : sim_io }.

#[export] Instance SimLinkInstance : CardLink sim_link := {
  link_receive l buf cap :=
    r ← sim_card_receive (sl_input l) (Ptr buf) cap (Ptr 0) (sl_io l);
    Some (LinkReturned (sr_st r) (sr_n r) (sr_buf r) (SimCardLink (sr_rest r) (sr_io r)));
  link_send l b n :=
    '(st, io) ← sim_card_send (sl_io l) (Ptr b) n;
    Some (st, SimCardLink (sl_input l) io);
}.

#[export] Program Instance SimLinkSpec : CardLinkSpec sim_link := {
  link_ok _ := True; link_left l := length (sl_input l);
}.
Next Obligation.
  cbn [link_receive SimLinkInstance]. intros [input io] buf _ Hl Hb. cbn [sl_input sl_io].
  destruct (sim_receive_total input buf SCOS_APDU_CMD_MAX 0 io) as (r & -> & [Hsl Hsb Hn Hrest Hst]);
    [rewrite Hl; done|done|done|]. bind_simpl. eexists. split; [done|]. constructor; cbn; try done. congruence.
Qed.
Next Obligation.
  cbn [link_send SimLinkInstance]. intros [input io] b _ Hb. cbn [sl_io sl_input]. unfold sim_card_send.
  destruct (print_hex_eq io b (len b)) as (io' & ->); [pose proof (len_nonneg b); lia|]. bind_simpl. by eexists _, _.
Qed.

(** ** Arguments *)

(** [printf] of a 32-bit number with "%u" (ten digits are enough). *)
Definition udec (v : Z) : list Z := if v =? 0 then [48] else dec_digits 10 v [].

(** [strtoul] with base 0: white space, a sign, a prefix that gives the base,
    digits; the value, and what is left of the string ([None]: there was no
    digit, and nothing was taken).  The host's [unsigned long]
    has 64 bits: values beyond saturate, a minus sign negates modulo 2^64. *)
Definition is_space (c : Z) : bool := (c =? 32) || ((9 <=? c) && (c <=? 13)).

Fixpoint skip_space (s : list Z) : list Z :=
  match s with c :: s' => if is_space c then skip_space s' else s | [] => [] end.

(** The digit's value, in the bases up to sixteen. *)
Definition digit_value (base c : Z) : option Z :=
  let v := hex_nibble c in if (0 <=? v) && (v <? base) then Some v else None.

Fixpoint digits (base : Z) (s : list Z) (acc : Z) (any : bool) : Z * bool * list Z :=
  match s with
  | c :: s' => match digit_value base c with Some v => digits base s' (acc * base + v) true | None => (acc, any, s) end
  | [] => (acc, any, [])
  end.

Definition ULONG_MAX : Z := 18446744073709551615.

Definition strtoul (s : list Z) : Z * option (list Z) :=
  let s := skip_space s in
  let '(neg, s) := match s with c :: s' => if c =? 45 then (true, s') else if c =? 43 then (false, s') else (false, s) | [] => (false, s) end in
  let '(base, body) := match s with
    | z :: x :: d :: rest =>
        if (z =? 48) && ((x =? 120) || (x =? 88)) && (0 <=? hex_nibble d) then (16, d :: rest)
        else if z =? 48 then (8, s) else (10, s)
    | z :: _ => if z =? 48 then (8, s) else (10, s)
    | [] => (10, s)
    end in
  let '(v, any, rest) := digits base body 0 false in
  if any then ((if ULONG_MAX <? v then ULONG_MAX else if neg then u64 (- v) else v), Some rest) else (0, None).

Definition parse_u32 (s : list Z) (out : Z) : Z * Z :=
  match s with
  | [] => (-1, out)
  | _ =>
      let '(v, fin) := strtoul s in
      (* without a digit [end] is [s], which is not empty *)
      match fin with
      | Some [] => if 0xFFFFFFFF <? v then (-1, out) else (0, u32 v)
      | _ => (-1, out)
      end
  end.

(** ** The command line, as the usage text describes it *)

(** A number is what [strtoul] takes to the end of the string, if it fits. *)
Definition u32_text (s : string) (n : Z) : Prop := strtoul (chars s) = (n, Some []) ∧ n < 4294967296.

Inductive verdict := Runs (c : vcard_config) | Helps | Refuses.

(** What the arguments ask for, from the settings made so far: options from left
    to right, up to the end, a request for help or the first mistake. *)
Inductive command_line : vcard_config → list string → verdict → Prop :=
| line_end c : command_line c [] (Runs c)
| line_state_dir c d args w :
    command_line (VcardConfig (Ptr d) (eeprom_size c) (flash_size c) (rng_seed c) (quiet c)) args w →
    command_line c ("--state-dir"%string :: d :: args) w
| line_eeprom c s n args w :
    u32_text s n → command_line (VcardConfig (state_dir c) n (flash_size c) (rng_seed c) (quiet c)) args w →
    command_line c ("--eeprom"%string :: s :: args) w
| line_flash c s n args w :
    u32_text s n → command_line (VcardConfig (state_dir c) (eeprom_size c) n (rng_seed c) (quiet c)) args w →
    command_line c ("--flash"%string :: s :: args) w
| line_seed c s n args w :
    u32_text s n → command_line (VcardConfig (state_dir c) (eeprom_size c) (flash_size c) n (quiet c)) args w →
    command_line c ("--seed"%string :: s :: args) w
| line_quiet c args w :
    command_line (VcardConfig (state_dir c) (eeprom_size c) (flash_size c) (rng_seed c) true) args w →
    command_line c ("--quiet"%string :: args) w
| line_help c a args : a ∈ ["--help"; "-h"]%string → command_line c (a :: args) Helps
| line_unknown c a args :
    a ∉ ["--state-dir"; "--eeprom"; "--flash"; "--seed"; "--quiet"; "--help"; "-h"]%string →
    command_line c (a :: args) Refuses
| line_no_value c a : a ∈ ["--state-dir"; "--eeprom"; "--flash"; "--seed"]%string → command_line c [a] Refuses
| line_no_number c a s args :
    a ∈ ["--eeprom"; "--flash"; "--seed"]%string → (∀ n, ¬ u32_text s n) → command_line c (a :: s :: args) Refuses.

Definition verdict_code (w : verdict) : option Z :=
  match w with Runs _ => None | Helps => Some 0 | Refuses => Some 2 end.

Lemma digits_nonneg base s acc any : 0 ≤ base → 0 ≤ acc → 0 ≤ (digits base s acc any).1.1.
Proof.
  intros Hb. revert acc any. induction s as [|c s IH]; intros acc any Ha; cbn [digits]; [done|].
  unfold digit_value. destruct ((0 <=? hex_nibble c) && _) eqn:E; [|done]. apply IH. nia.
Qed.

Lemma strtoul_nonneg s : 0 ≤ (strtoul s).1.
Proof.
  unfold strtoul. destruct (match skip_space s with [] => _ | _ => _ end) as [neg s'].
  set (bb := match s' with [] => _ | _ => _ end). assert (0 ≤ bb.1) as Hb by (subst bb; by repeat case_match).
  destruct bb as [base body]. pose proof (digits_nonneg base body 0 false Hb ltac:(done)) as Hd.
  destruct (digits base body 0 false) as [[v any] rest]. cbn [fst] in Hd. destruct any; cbn [fst]; [|done].
  case_if; [done|]. case_if; [unfold u64; lia|done].
Qed.

(** [parse_u32] takes exactly the numbers. *)
Lemma parse_u32_text s out :
  (∃ n, u32_text s n ∧ parse_u32 (chars s) out = (0, n)) ∨
  ((∀ n, ¬ u32_text s n) ∧ (parse_u32 (chars s) out).1 = -1).
Proof.
  unfold parse_u32, u32_text. pose proof (strtoul_nonneg (chars s)) as Hn.
  destruct (chars s) as [|c t]; [right; split; [|done]; by intros n [[=] _]|].
  destruct (strtoul (c :: t)) as [v [[|x rest]|]]; cbn [fst] in Hn;
    try (right; split; [|done]; by intros n [[=] _]).
  destruct (Z.ltb_spec 0xFFFFFFFF v).
  - right. split; [|done]. intros n [[= <-] ?]. lia.
  - left. exists v. split; [split; [done|lia]|]. f_equal. apply u32_id. unfold is_u32. lia.
Qed.

Lemma u32_text_parse s n out : u32_text s n → parse_u32 (chars s) out = (0, n).
Proof.
  intros [Hs Hn]. destruct (parse_u32_text s out) as [(m & [Hm _] & ->)|[Hno _]]; [congruence|].
  by destruct (Hno n).
Qed.

(** Every command line has a verdict. *)
Lemma command_line_total c args : ∃ w, command_line c args w.
Proof.
  remember (length args) as n eqn:Hn. revert args Hn c.
  induction n as [n IH] using lt_wf_ind. intros [|a args] Hn c; [eexists; apply line_end|]. cbn [length] in Hn.
  destruct (decide (a ∈ ["--state-dir"; "--eeprom"; "--flash"; "--seed"; "--quiet"; "--help"; "-h"]%string)) as [Ha|];
    [|eexists; by apply line_unknown].
  destruct (decide (a ∈ ["--help"; "-h"]%string)); [eexists; by apply line_help|].
  destruct (decide (a = "--quiet"%string)) as [-> |].
  { destruct (IH (length args)) with (args := args)
      (c := VcardConfig (state_dir c) (eeprom_size c) (flash_size c) (rng_seed c) true) as [w Hw]; [lia|done|].
    eexists. by apply line_quiet. }
  assert (a ∈ ["--state-dir"; "--eeprom"; "--flash"; "--seed"]%string) as Hv
    by (rewrite !elem_of_cons, elem_of_nil in *; tauto).
  destruct args as [|s args]; [eexists; by apply line_no_value|]. cbn [length] in Hn.
  assert (∀ c, ∃ w, command_line c args w) as Hrest by (intros c'; apply (IH (length args)); [lia|done]).
  destruct (decide (a = "--state-dir"%string)) as [-> |].
  { destruct (Hrest (VcardConfig (Ptr s) (eeprom_size c) (flash_size c) (rng_seed c) (quiet c))) as [w Hw].
    eexists. by apply line_state_dir. }
  assert (a ∈ ["--eeprom"; "--flash"; "--seed"]%string) as Hnum
    by (rewrite !elem_of_cons, elem_of_nil in *; tauto).
  destruct (parse_u32_text s 0) as [(m & Hm & _)|[Hno _]]; [|eexists; by apply line_no_number].
  rewrite !elem_of_cons, elem_of_nil in Hnum. destruct Hnum as [-> |[-> |[-> |[]]]].
  - destruct (Hrest (VcardConfig (state_dir c) m (flash_size c) (rng_seed c) (quiet c))) as [w Hw]. eexists. by eapply line_eeprom.
  - destruct (Hrest (VcardConfig (state_dir c) (eeprom_size c) m (rng_seed c) (quiet c))) as [w Hw]. eexists. by eapply line_flash.
  - destruct (Hrest (VcardConfig (state_dir c) (eeprom_size c) (flash_size c) m (quiet c))) as [w Hw]. eexists. by eapply line_seed.
Qed.

Section main.
Context `{ScosConfig}.

(** What else the build puts into the texts: the version and the budgets. *)
Record build := Build { SCOS_VERSION_STRING : string; SCOS_RAM_KB : Z; SCOS_ROM_KB : Z }.

Definition line (s : string) : list Z := chars s ++ [LF].

Definition usage (argv0 : string) (io : sim_io) : sim_io :=
  eprint io (chars "usage: " ++ chars argv0 ++ line " [options]" ++ [LF] ++
    line "  --state-dir DIR   persist virtual EEPROM/FLASH in DIR" ++
    line "                    (default: none -- NVM is volatile)" ++
    chars "  --eeprom BYTES    usable EEPROM size (<= " ++ udec SCOS_EEPROM_BYTES ++ line ")" ++
    chars "  --flash BYTES     usable FLASH size  (<= " ++ udec SCOS_FLASH_BYTES ++ line ")" ++
    line "  --seed N          PRNG seed for reproducible runs (default 1)" ++
    line "  --quiet           suppress the banner" ++
    line "  --help            this text").

Definition set_state_dir (c : vcard_config) (d : string) : vcard_config :=
  VcardConfig (Ptr d) (eeprom_size c) (flash_size c) (rng_seed c) (quiet c).
Definition set_eeprom_size (c : vcard_config) (n : Z) : vcard_config :=
  VcardConfig (state_dir c) n (flash_size c) (rng_seed c) (quiet c).
Definition set_flash_size (c : vcard_config) (n : Z) : vcard_config :=
  VcardConfig (state_dir c) (eeprom_size c) n (rng_seed c) (quiet c).
Definition set_rng_seed (c : vcard_config) (n : Z) : vcard_config :=
  VcardConfig (state_dir c) (eeprom_size c) (flash_size c) n (quiet c).
Definition set_quiet (c : vcard_config) : vcard_config :=
  VcardConfig (state_dir c) (eeprom_size c) (flash_size c) (rng_seed c) true.

Definition streq_lit (a b : string) : bool := bool_decide (a = b).

(** The loop over the arguments: the exit code if it returns, the
    configuration, standard error. *)
Fixpoint parse_args (argv0 : string) (args : list string) (c : vcard_config) (io : sim_io)
    : option Z * vcard_config * sim_io :=
  match args with
  | [] => (None, c, io)
  | a :: args =>
      if streq_lit a "--state-dir" || streq_lit a "--eeprom" || streq_lit a "--flash" || streq_lit a "--seed" then
        match args with
        | [] => (Some 2, c, eprint io (chars argv0 ++ chars ": missing value for " ++ line a))
        | value :: args =>
            if streq_lit a "--state-dir" then parse_args argv0 args (set_state_dir c value) io
            else if streq_lit a "--eeprom" then
              let '(e, n) := parse_u32 (chars value) (eeprom_size c) in
              if negb (e =? 0) then (Some 2, c, eprint io (chars argv0 ++ line ": bad --eeprom value"))
              else parse_args argv0 args (set_eeprom_size c n) io
            else if streq_lit a "--flash" then
              let '(e, n) := parse_u32 (chars value) (flash_size c) in
              if negb (e =? 0) then (Some 2, c, eprint io (chars argv0 ++ line ": bad --flash value"))
              else parse_args argv0 args (set_flash_size c n) io
            else
              let '(e, seed) := parse_u32 (chars value) 0 in
              if negb (e =? 0) then (Some 2, c, eprint io (chars argv0 ++ line ": bad --seed value"))
              else parse_args argv0 args (set_rng_seed c seed) io
        end
      else if streq_lit a "--quiet" then parse_args argv0 args (set_quiet c) io
      else if streq_lit a "--help" || streq_lit a "-h" then (Some 0, c, usage argv0 io)
      else (Some 2, c, usage argv0 (eprint io (chars argv0 ++ chars ": unknown option '" ++ chars a ++ line "'")))
  end.

(** The ATR in hex, a space between two bytes. *)
Fixpoint spaced_hex (b : list Z) : list Z :=
  match b with
  | [] => []
  | [x] => hex_byte x
  | x :: b => hex_byte x ++ [32] ++ spaced_hex b
  end.

Definition vcard_print_banner (b : build) (v : vcard) (io : sim_io) : sim_io :=
  let c := cfg v in
  if quiet c then io else
  let io := eprint io (line "SmartCard OS Simulator" ++ chars "Version: " ++ line (SCOS_VERSION_STRING b) ++ [LF] ++
    chars "RAM:     " ++ udec (SCOS_RAM_KB b) ++ line " KB   (budget; not enforced at run time)" ++
    chars "ROM:     " ++ udec (SCOS_ROM_KB b) ++ line " KB   (budget; checked against the build)" ++
    chars "EEPROM:  " ++ udec (eeprom_size c / 1024) ++ chars " KB   page " ++ udec VCARD_EEPROM_PAGE ++ line " B" ++
    chars "FLASH:   " ++ udec (flash_size c / 1024) ++ chars " KB   page " ++ udec VCARD_FLASH_PAGE ++ line " B") in
  let io := eprint io (chars "State:   " ++
    match state_dir c with Ptr d => chars d | NULL => chars "(volatile, RAM-backed)" end ++ [LF]) in
  let io := eprint io (chars "ATR:     " ++ spaced_hex s_atr) in
  eprint io ([LF; LF] ++ line "Waiting for APDU...").

Definition scos_status_code (st : scos_status) : Z :=
  match st with SCOS_OK => 0 | SCOS_ERR_PARAM => -1 | SCOS_ERR_STATE => -2 | SCOS_ERR_HAL => -3 end.

(** "%d" of it. *)
Definition status_text (st : scos_status) : list Z :=
  let n := scos_status_code st in if n <? 0 then chars "-" ++ udec (- n) else udec n.

Definition mount_warning : list Z :=
  chars "WARNING: filesystem did not mount. The card will answer 6581 " ++ line "to every command." ++
  chars "         It was NOT auto-formatted: that would destroy the " ++ line "data most worth" ++
  line "         recovering. Use a fresh --state-dir to start over.".

(** [main]: the exit code, the host's files, the streams and the chip.  Standard
    input ends, so the pump returns. *)
Definition sim_main (b : build) (argv0 : string) (args : list string) (h : host) (v : vcard) (flush : bool)
    (input : list Z) : option (Z * host * sim_io * vcard) :=
  let '(code, c, io) := parse_args argv0 args default_config (SimIo [] [] flush) in
  match code with
  | Some code => Some (code, h, io, v)
  | None =>
      let v := vcard_configure (Ptr c) v in
      '(hst, v) ← hal_init h v;
      match hst with
      | HAL_OK =>
          '(st, k, s) ← scos_init (Ptr scos_kernel_zero) (Store (Superblock false 0 0 0) v);
          k ← deref k;
          let fs_error := bool_decide (k_lifecycle k = SCOS_LC_FS_ERROR) in
          if negb (bool_decide (st = SCOS_OK)) && negb fs_error then
            let io := eprint io (chars "fatal: OS init failed (" ++ status_text st ++ line ")") in
            '(h, v) ← hal_shutdown h (s_nvm s);
            Some (1, h, io, v)
          else
            let io := if bool_decide (st = SCOS_OK) then io else eprint io mount_warning in
            let io := vcard_print_banner b (s_nvm s) io in
            '(l, fin, k, s) ← serve (S (length input)) (SimCardLink input io) k s;
            if (fin : bool) then
              '(h, v) ← hal_shutdown h (s_nvm s);
              Some (0, h, sl_io l, v)
            else None
      | _ => Some (1, h, eprint io (line "fatal: HAL init failed"), v)
      end
  end.

(** ** What a run comes to *)

Definition config_ok (c : vcard_config) : Prop := 0 ≤ eeprom_size c ∧ 0 ≤ flash_size c.

Lemma streq_other a b : a ≠ b → streq_lit a b = false.
Proof. apply bool_decide_eq_false_2. Qed.

(** The loop over the arguments follows the description. *)
Lemma parse_args_verdict argv0 c args w io :
  command_line c args w →
  (parse_args argv0 args c io).1.1 = verdict_code w ∧ (∀ c', w = Runs c' → (parse_args argv0 args c io).1.2 = c').
Proof.
  intros Hl. revert io. induction Hl as [c|c d args w _ IH|c s n args w Hs _ IH|c s n args w Hs _ IH|c s n args w Hs _ IH
    |c args w _ IH|c a args Ha|c a args Ha|c a Ha|c a s args Ha Hs]; intros io; cbn [parse_args].
  - split; [done|]. by intros c' [= ->].
  - apply IH.
  - rewrite (u32_text_parse s n (eeprom_size c) Hs). apply IH.
  - rewrite (u32_text_parse s n (flash_size c) Hs). apply IH.
  - rewrite (u32_text_parse s n 0 Hs). apply IH.
  - apply IH.
  - rewrite !elem_of_cons, elem_of_nil in Ha. by destruct Ha as [-> |[-> |[]]].
  - rewrite !not_elem_of_cons in Ha. destruct Ha as (? & ? & ? & ? & ? & ? & ? & _). by rewrite !streq_other.
  - rewrite !elem_of_cons, elem_of_nil in Ha. by destruct Ha as [-> |[-> |[-> |[-> |[]]]]].
  - assert (∀ out, (parse_u32 (chars s) out).1 = -1) as Hp
      by (intros out; destruct (parse_u32_text s out) as [(n & Hn & _)|[_ ?]]; [by destruct (Hs n)|done]).
    rewrite !elem_of_cons, elem_of_nil in Ha.
    destruct Ha as [-> |[-> |[-> |[]]]]; [specialize (Hp (eeprom_size c))|specialize (Hp (flash_size c))|specialize (Hp 0)].
    + destruct (parse_u32 _ (eeprom_size c)) as [e n]. cbn [fst] in Hp. by subst e.
    + destruct (parse_u32 _ (flash_size c)) as [e n]. cbn [fst] in Hp. by subst e.
    + destruct (parse_u32 _ 0) as [e n]. cbn [fst] in Hp. by subst e.
Qed.

Lemma command_line_unique c args w1 w2 : command_line c args w1 → command_line c args w2 → w1 = w2.
Proof using H.
  intros H1 H2.
  destruct (parse_args_verdict "" c args w1 (SimIo [] [] true) H1) as [Hc1 Hr1].
  destruct (parse_args_verdict "" c args w2 (SimIo [] [] true) H2) as [Hc2 Hr2].
  rewrite Hc1 in Hc2. destruct w1, w2; cbn in Hc2; try done. f_equal. by rewrite <- (Hr1 _ eq_refl), (Hr2 _ eq_refl).
Qed.

Lemma command_line_sizes c args c' : command_line c args (Runs c') → config_ok c → config_ok c'.
Proof using Type.
  remember (Runs c') as w eqn:Hw. intros Hl. revert Hw.
  assert (∀ s n, u32_text s n → 0 ≤ n) as Hpos
    by (intros s n [E _]; pose proof (strtoul_nonneg (chars s)) as Hp; by rewrite E in Hp).
  induction Hl as [c|c d args w _ IH|c s n args w Hs _ IH|c s n args w Hs _ IH|c s n args w Hs _ IH
    |c args w _ IH| | | |]; intros Hw [He Hf]; try done; [injection Hw as ->; done|..];
    apply IH; try done; split; cbn; eauto.
Qed.

Lemma vcard_configure_wf c : config_ok c → vcard_wf (vcard_configure (Ptr c) vcard_zero).
Proof.
  intros [He Hf]. assert (is_u32 SCOS_EEPROM_BYTES ∧ is_u32 SCOS_FLASH_BYTES) as [Hec Hfc] by (split; apply u32_range).
  unfold is_u32 in *.
  split; cbn [vcard_configure vcard_zero s_configured s_eeprom s_flash s_cfg eeprom_size flash_size]; rewrite ?len_replicate by lia;
    try done; try lia.
  - apply bytes_replicate. unfold is_u8. lia.
  - apply bytes_replicate. unfold is_u8. lia.
  - case_match; lia.
  - case_match; lia.
Qed.

(** Standard input ends: the pump over the simulator's link returns. *)
Lemma sim_serve_returns {N} `{HalNvm N} fuel (l : sim_link) k (s : store N) l' fin k' s' :
  serve fuel l k s = Some (l', fin, k', s') → fin = true.
Proof.
  revert l k s. induction fuel as [|fuel IH]; intros l k s; cbn [serve link_receive SimLinkInstance]; [done|].
  destruct (sim_card_receive _ _ _ _ _) as [r|]; [|done]. bind_simpl.
  destruct (card_loop _ k s) as [[[[sent fin1] k1] s1]|]; [|done]. bind_simpl.
  destruct (send_all _ _) as [l2|]; [|done]. bind_simpl. destruct fin1; [by intros [= _ <- _ _]|apply IH].
Qed.

(** Power-down saves the two regions in the directory of the configuration, if
    it has one, and touches nothing else. *)
Lemma sim_shutdown_total h v :
  vcard_wf v →
  ∃ h' v', hal_shutdown h v = Some (h', v') ∧ s_power v' = VCARD_POWER_OFF ∧ s_cfg v' = s_cfg v ∧
    (∀ p, (∀ dir, state_dir (s_cfg v) = Ptr dir → p ≠ path_join dir EEPROM_IMAGE ∧ p ≠ path_join dir FLASH_IMAGE) →
       h_files h' !! p = h_files h !! p).
Proof.
  intros [Hc He Hf Hes Hfs Hel Hfl]. unfold hal_shutdown, vcard_power_off, with_cfg. rewrite Hc.
  destruct (s_power v); [by bind_simpl; eexists _, _|]. destruct (state_dir (s_cfg v)) as [|dir] eqn:Hd; [by bind_simpl; eexists _, _|].
  unfold region_store. rewrite !rd_n_some by lia. bind_simpl.
  destruct (open_ok h _); bind_simpl; cbn [open_ok]; case_match; bind_simpl; eexists _, _;
    (split; [done|split; [done|split; [cbn; by rewrite ?Hd|]]]); intros p Hp; destruct (Hp dir eq_refl) as [? ?];
    cbn [h_files]; by rewrite ?lookup_insert_ne.
Qed.

(** The memory contract again, for a chip whose configuration is fixed: no
    operation changes it. *)
Lemma sim_write_cfg v r off src k st v' : sim_nvm_write v r off src k = Some (st, v') → s_cfg v' = s_cfg v.
Proof using Type*.
  unfold sim_nvm_write. destruct src as [|s]; [by intros [= _ <-]|].
  case_if; [by intros [= _ <-]|]. case_if; [by intros [= _ <-]|].
  destruct (vcard_nvm_base v r) as [[|b] size]; [by intros [= _ <-]|]. case_if; [by intros [= _ <-]|].
  destruct (rd_n s 0 k) as [x|]; [|done]. bind_simpl. destruct (wr_n b off x) as [b'|]; [|done]. bind_simpl.
  intros [= _ <-]. unfold vcard_set_base. by case_if.
Qed.

#[local] Program Instance ConfiguredSpec (c : vcard_config) : HalNvmSpec vcard := {
  nvm_ready := vcard_ready; nvm_wf v := vcard_wf v ∧ s_cfg v = c; nvm_mem := vcard_mem;
}.
Next Obligation. intros c v r [Hwf _]. by apply (@nvm_mem_bytes _ _ SimHalNvmSpec). Qed.
Next Obligation. intros c v r [Hwf _]. by apply (@nvm_mem_len _ _ SimHalNvmSpec). Qed.
Next Obligation. intros c v r [Hwf _]. by apply (@nvm_size_mem _ _ SimHalNvmSpec). Qed.
Next Obligation. intros c v r off d k [Hwf _]. by apply (@nvm_read_total _ _ SimHalNvmSpec). Qed.
Next Obligation. intros c v r off d k [Hwf _]. by apply (@nvm_read_ok _ _ SimHalNvmSpec). Qed.
Next Obligation. intros c v r off d k [Hwf _]. by apply (@nvm_read_range _ _ SimHalNvmSpec). Qed.
Next Obligation.
  intros c v r off b k [Hwf Hc] ? ? ? ?. destruct (@nvm_write_total _ _ SimHalNvmSpec v r off b k) as (st & v' & E & Hwf' & Hl); try done.
  exists st, v'. split; [done|]. split; [|done]. split; [done|]. by rewrite (sim_write_cfg _ _ _ _ _ _ _ E).
Qed.
Next Obligation.
  intros c v r off b k [Hwf Hc] ? ? ? ? ? ? ?.
  destruct (@nvm_write_ok _ _ SimHalNvmSpec v r off b k) as (v' & E & Hwf' & Hr & Hm & Ho); try done.
  exists v'. split; [done|]. split; [|done]. split; [done|]. by rewrite (sim_write_cfg _ _ _ _ _ _ _ E).
Qed.
Next Obligation. intros c v r off b k [Hwf _]. by apply (@nvm_write_range _ _ SimHalNvmSpec). Qed.
Next Obligation. intros c v Hwf. by eexists _, v. Qed.
Next Obligation.
  intros c v [Hwf Hc] Hr. destruct (@nvm_sync_ok _ _ SimHalNvmSpec v Hwf Hr) as (v' & E & ? & ? & ?). exists v'.
  split; [done|]. assert (v' = v) as -> by (revert E; cbn [hal_nvm_sync SimHalNvm]; unfold sim_nvm_sync; congruence). done.
Qed.

Lemma sim_power_on_cfg h v st v' : vcard_power_on h v = Some (st, v') → s_configured v = true → s_cfg v' = s_cfg v.
Proof.
  unfold vcard_power_on, with_cfg. intros E Hc. revert E. rewrite Hc. cbv zeta.
  destruct (match state_dir (s_cfg v) with NULL => _ | Ptr _ => _ end) as [[e f]|]; [|done]. bind_simpl. by intros [= _ <-].
Qed.

(** The size of a region: what was asked for, if the array has it. *)
Definition usable (n max : Z) : Z := if decide (1 ≤ n ≤ max) then n else max.

(** The configuration a run of the simulator works with. *)
Definition in_force (c : vcard_config) : vcard_config :=
  VcardConfig (state_dir c) (usable (eeprom_size c) SCOS_EEPROM_BYTES) (usable (flash_size c) SCOS_FLASH_BYTES)
    (rng_seed c) (quiet c).

Lemma configured c v : config_ok c → s_cfg (vcard_configure (Ptr c) v) = in_force c.
Proof.
  intros [He Hf]. unfold vcard_configure, in_force, usable. cbn [s_cfg].
  f_equal; case_decide; case_match; lia.
Qed.

(** Only the image files of the state directory may differ. *)
Definition only_images (c : vcard_config) (h h' : host) : Prop :=
  ∀ p, (∀ dir, state_dir c = Ptr dir → p ≠ path_join dir EEPROM_IMAGE ∧ p ≠ path_join dir FLASH_IMAGE) →
    h_files h' !! p = h_files h !! p.

(** Power-up, service and power-down with accepted arguments. *)
Lemma sim_main_runs b argv0 args h flush input c io :
  parse_args argv0 args default_config (SimIo [] [] flush) = (None, c, io) → config_ok c →
  (∀ p f, h_files h !! p = Some f → bytes f) →
  ∃ h' io' v, sim_main b argv0 args h vcard_zero flush input = Some (0, h', io', v) ∧
    s_power v = VCARD_POWER_OFF ∧ s_cfg v = in_force c ∧ only_images c h h'.
Proof.
  intros Hargs Hc Hfiles. unfold sim_main. rewrite Hargs. cbv zeta. unfold hal_init.
  pose proof (vcard_configure_wf c Hc) as Hcwf.
  destruct (vcard_power_on_ready h (vcard_configure (Ptr c) vcard_zero)) as (v1 & Hon & Hwf & Hr); [done..|].
  pose proof (sim_power_on_cfg _ _ _ _ Hon (vw_configured _ Hcwf)) as Hcfg. rewrite (configured c vcard_zero Hc) in Hcfg.
  rewrite Hon. bind_simpl. cbv beta iota. pose (K := ConfiguredSpec (in_force c)).
  destruct (@scos_init_serves _ _ K scos_kernel_zero (Store (Superblock false 0 0 0) v1)) as (st & k & s & -> & Hs & Hst);
    [by split; cbn; [|unfold is_u16; lia|unfold is_u32; lia]|].
  bind_simpl. cbv beta iota. cbn [deref]. bind_simpl. cbv zeta.
  replace (negb (bool_decide (st = SCOS_OK)) && negb (bool_decide (k_lifecycle k = SCOS_LC_FS_ERROR))) with false
    by (destruct Hst as [-> | ->]; [done|by rewrite (bool_decide_true (_ = SCOS_LC_FS_ERROR)), andb_false_r by done]).
  set (io1 := vcard_print_banner _ _ _).
  destruct (@serve_total _ _ K safe_inv _ (λ _, True) safe_inv_reset Logic.I _ _ _ (S (length input)) (SimCardLink input io1) k s Hs)
    as (l & fin & k' & s' & Hserve & Hs' & _); [done|cbn; lia|].
  rewrite Hserve. apply sim_serve_returns in Hserve as ->. bind_simpl. cbv beta iota.
  pose proof (sv_inv _ _ _ _ Hs') as [[[Hwf' Hcfg'] _ _] _].
  destruct (sim_shutdown_total h (s_nvm s') Hwf') as (h' & v2 & -> & Hp & Hcfg2 & Hfr). bind_simpl. cbv beta iota.
  eexists h', _, v2. split; [done|]. split; [done|]. split; [by rewrite Hcfg2|].
  intros p Hpp. apply Hfr. by rewrite Hcfg'.
Qed.

(** [C19] The simulator always comes to an end, and as its arguments ask: for any
    arguments, image files and bytes on standard input, [main] returns, never
    with a fatal error and never with the chip still powered.  Arguments the usage
    text describes, all numbers in range, give 0 after a run with exactly the
    settings they make, out of which only the two image files of the state
    directory may come changed; a request for help gives 0 and a mistake gives 2,
    both without a chip powered or a file touched. *)
Theorem simulator_always_exits b argv0 args h flush input :
  (∀ p f, h_files h !! p = Some f → bytes f) →
  ∃ w code h' io v,
    command_line default_config args w ∧ (∀ w', command_line default_config args w' → w' = w) ∧
    sim_main b argv0 args h vcard_zero flush input = Some (code, h', io, v) ∧ s_power v = VCARD_POWER_OFF ∧
    match w with
    | Runs c => code = 0 ∧ s_cfg v = in_force c ∧ only_images c h h'
    | Helps => code = 0 ∧ h' = h ∧ v = vcard_zero
    | Refuses => code = 2 ∧ h' = h ∧ v = vcard_zero
    end.
Proof.
  intros Hfiles. destruct (command_line_total default_config args) as [w Hw].
  destruct (parse_args_verdict argv0 _ _ _ (SimIo [] [] flush) Hw) as [Hcode Hrun].
  assert (∀ w', command_line default_config args w' → w' = w) as Hu by (intros; by eapply command_line_unique).
  destruct w as [c| |].
  - specialize (Hrun c eq_refl). destruct (parse_args argv0 args default_config (SimIo [] [] flush)) as [[code c'] io] eqn:E.
    cbn in Hcode, Hrun. subst code c'.
    destruct (sim_main_runs b argv0 args h flush input c io E) as (h' & io' & v & Hm & Hp & Hcfg & Hfr);
      [eapply command_line_sizes; [done|split; apply u32_range]|done|].
    exists (Runs c), 0, h', io', v. auto 10.
  - exists Helps, 0, h, (parse_args argv0 args default_config (SimIo [] [] flush)).2, vcard_zero.
    split; [done|]. split; [done|]. split; [|done]. unfold sim_main.
    destruct (parse_args argv0 args default_config _) as [[code c'] io]. cbn in Hcode. by subst code.
  - exists Refuses, 2, h, (parse_args argv0 args default_config (SimIo [] [] flush)).2, vcard_zero.
    split; [done|]. split; [done|]. split; [|done]. unfold sim_main.
    destruct (parse_args argv0 args default_config _) as [[code c'] io]. cbn in Hcode. by subst code.
Qed.
End main.

(** Numbers the command line takes, and texts it does not. *)
Example numbers_read :
  Forall (λ x, parse_u32 (chars x.1) 7 = (0, x.2))
    [("1024", 1024); ("0x400", 1024); ("010", 8); (" +7", 7); ("0", 0); ("4294967295", 4294967295)]%string ∧
  Forall (λ s, parse_u32 (chars s) 7 = (-1, 7)) [""; "12k"; "-1"; "0x"; "08"; "4294967296"; "7 "]%string.
Proof. split; repeat constructor. Qed.

#[local] Existing Instance small_config.

Lemma simulator_always_exits_witness :
  ∃ w code h' io v,
    command_line default_config ["--seed"; "7"; "--state-dir"; "card"]%string w ∧
    (∀ w', command_line default_config ["--seed"; "7"; "--state-dir"; "card"]%string w' → w' = w) ∧
    sim_main (Build "0.1.0" 8 64) "simulator" ["--seed"; "7"; "--state-dir"; "card"]%string
      (Host ∅ (λ _, true)) vcard_zero true (chars "00A40000" ++ [LF] ++ chars "quit") = Some (code, h', io, v) ∧
    s_power v = VCARD_POWER_OFF ∧
    match w with
    | Runs c => code = 0 ∧ s_cfg v = in_force c ∧ only_images c (Host ∅ (λ _, true)) h'
    | Helps => code = 0 ∧ h' = Host ∅ (λ _, true) ∧ v = vcard_zero
    | Refuses => code = 2 ∧ h' = Host ∅ (λ _, true) ∧ v = vcard_zero
    end.
Proof.
  apply (simulator_always_exits (Build "0.1.0" 8 64) "simulator" ["--seed"; "7"; "--state-dir"; "card"]%string
    (Host ∅ (λ _, true)) true (chars "00A40000" ++ [LF] ++ chars "quit")).
  intros p f. cbn. by rewrite lookup_empty.
Defined.
