(* ===== verification/SamsungHal.v ===== *)
(** * The Samsung placeholder (src/hal/samsung/hal_samsung_stub.c)

    A platform that provides nothing: every entry point answers
    [HAL_ERR_UNSUPPORTED].  It has no state.  It keeps the memory contract of
    Hal.v, as a device that is never ready, so everything proved of the kernel's
    memory safety holds on it; and the kernel on it comes up refusing. *)

From S2P Require Import Prelude OsMem Sw Hal FsTypes FsStore Fs KernelTypes Kernel.

Definition stub_init : hal_status := HAL_ERR_UNSUPPORTED.
Definition stub_reset : unit := tt.
Definition stub_shutdown : unit := tt.
Definition stub_nvm_size (u : unit) (region : Z) : Z := 0.
Definition stub_nvm_page_size (u : unit) (region : Z) : Z := 0.
Definition stub_nvm_read (u : unit) (region offset : Z) (dst : ptr (list Z)) (n : Z) : option (hal_status * ptr (list Z)) :=
  Some (HAL_ERR_UNSUPPORTED, dst).
Definition stub_nvm_write (u : unit) (region offset : Z) (src : ptr (list Z)) (n : Z) : option (hal_status * unit) :=
  Some (HAL_ERR_UNSUPPORTED, u).
Definition stub_nvm_sync (u : unit) : option (hal_status * unit) := Some (HAL_ERR_UNSUPPORTED, u).
Definition stub_random_bytes (dst : ptr (list Z)) (n : Z) : hal_status * ptr (list Z) := (HAL_ERR_UNSUPPORTED, dst).
Definition stub_timer_get_ms : Z := 0.

(** The status, the buffer and the length. *)
Definition stub_card_receive (buf : ptr (list Z)) (cap : Z) (out_len : ptr Z) : hal_status * ptr (list Z) * ptr Z :=
  (HAL_ERR_UNSUPPORTED, buf, match out_len with NULL => NULL | Ptr _ => Ptr 0 end).
Definition stub_card_send (buf : ptr (list Z)) (n : Z) : hal_status := HAL_ERR_UNSUPPORTED.
Definition stub_card_atr (out_len : ptr Z) : ptr (list Z) * ptr Z :=
  (NULL, match out_len with NULL => NULL | Ptr _ => Ptr 0 end).

#[export] Instance StubHalNvm : HalNvm unit := {
  hal_nvm_size := stub_nvm_size;
  hal_nvm_page_size := stub_nvm_page_size;
  hal_nvm_read := stub_nvm_read;
  hal_nvm_write := stub_nvm_write;
  hal_nvm_sync := stub_nvm_sync;
}.

#[export] Program Instance StubHalNvmSpec : HalNvmSpec unit := {
  nvm_ready := λ _, False; nvm_wf := λ _, True; nvm_mem := λ _ _, [];
}.
Next Obligation. constructor. Qed.
Next Obligation. done. Qed.
Next Obligation. done. Qed.
Next Obligation. intros u r off d k _ _ _ _ Hd. exists HAL_ERR_UNSUPPORTED, d. split; [reflexivity|done]. Qed.
Next Obligation. intros u r off d k _ []. Qed.
Next Obligation. intros u r off d k _ []. Qed.
Next Obligation. intros u r off s k _ _ _ _ _. exists HAL_ERR_UNSUPPORTED, u. split; [reflexivity|done]. Qed.
Next Obligation. intros u r off s k _ []. Qed.
Next Obligation. intros u r off s k _ []. Qed.
Next Obligation. intros u _. exists HAL_ERR_UNSUPPORTED, u. split; [reflexivity|done]. Qed.
Next Obligation. intros u _ []. Qed.

(** On the placeholder the kernel does not come up: the file system does not
    mount, and the card is left in the state that answers 6581 to everything. *)
Lemma stub_boot_refused k s :
  ∃ k' s', scos_init (Ptr k) s = Some (SCOS_ERR_STATE, Ptr k', s') ∧ k_lifecycle k' = SCOS_LC_FS_ERROR.
Proof. destruct s as [sb u]. by eexists _, _. Qed.
