(* ===== verification/CFlash.v ===== *)
(** * Code-flash semantics (src/boot/cflash.c, include/boot/cflash.h)

    Erase by pages, program by clearing bits: the loops of the source, and what
    they amount to on whole regions. *)

From S2P Require Import Prelude OsMem.

Inductive cf_status := CF_OK | CF_ERR_PARAM | CF_ERR_RANGE | CF_ERR_ALIGN | CF_ERR_NOT_ERASED.

#[export] Instance cf_status_eq_dec : EqDecision cf_status.
Proof. solve_decision. Defined.

Definition cf_in_range (size off n : Z) : bool := u64 (off + n) <=? size.

Definition cf_erase_page (base : ptr (list Z)) (size page_size off : Z) : option (cf_status * ptr (list Z)) :=
  match base with
  | NULL => Some (CF_ERR_PARAM, base)
  | Ptr b =>
      if (size =? 0) || (page_size =? 0) then Some (CF_ERR_PARAM, base) else
      if negb (off mod page_size =? 0) then Some (CF_ERR_ALIGN, base) else
      if negb (cf_in_range size off page_size) then Some (CF_ERR_RANGE, base) else
      b ← foreach (upto page_size) (λ i b, wr b (u32 (off + i)) 0xFF) b;
      Some (CF_OK, Ptr b)
  end.

(** [for (off = 0; off < size; off += page_size)], one unit of fuel a page. *)
Fixpoint erase_loop (fuel : nat) (base : ptr (list Z)) (size page_size off : Z)
    : option (cf_status * ptr (list Z)) :=
  match fuel with
  | O => None
  | S fuel =>
      if off <? size then
        '(st, base) ← cf_erase_page base size page_size off;
        match st with
        | CF_OK => erase_loop fuel base size page_size (u32 (off + page_size))
        | _ => Some (st, base)
        end
      else Some (CF_OK, base)
  end.

Definition cf_erase_all (base : ptr (list Z)) (size page_size : Z) : option (cf_status * ptr (list Z)) :=
  if is_null base || (size =? 0) || (page_size =? 0) then Some (CF_ERR_PARAM, base) else
  if negb (size mod page_size =? 0) then Some (CF_ERR_RANGE, base) else
  erase_loop (S (Z.to_nat (size / page_size))) base size page_size 0.

(** The check loop of [cf_program]: would every byte only clear bits? *)
Fixpoint program_check (base src : list Z) (off : Z) (idx : list Z) : option bool :=
  match idx with
  | [] => Some true
  | i :: idx =>
      old ← rd base (u32 (off + i));
      nw ← rd src i;
      if negb (u8 (Z.land old nw) =? nw) then Some false else program_check base src off idx
  end.

Definition cf_program (base : ptr (list Z)) (size off : Z) (src : ptr (list Z)) (n : Z)
    : option (cf_status * ptr (list Z)) :=
  match base with
  | NULL => Some (CF_ERR_PARAM, base)
  | Ptr b =>
      if (size =? 0) || (is_null src && (0 <? n)) then Some (CF_ERR_PARAM, base) else
      if negb (cf_in_range size off n) then Some (CF_ERR_RANGE, base) else
      match src with
      | NULL => Some (CF_OK, base)  (* n = 0: neither loop has an iteration *)
      | Ptr s =>
          ok ← program_check b s off (upto n);
          if negb ok then Some (CF_ERR_NOT_ERASED, base) else
          b ← foreach (upto n) (λ i b, x ← rd s i; wr b (u32 (off + i)) x) b;
          Some (CF_OK, Ptr b)
      end
  end.

Fixpoint erased_loop (base : list Z) (idx : list Z) : option bool :=
  match idx with
  | [] => Some true
  | i :: idx => x ← rd base i; if negb (x =? 0xFF) then Some false else erased_loop base idx
  end.

Definition cf_is_erased (base : ptr (list Z)) (size : Z) : option bool :=
  match base with NULL => Some false | Ptr b => erased_loop b (upto size) end.

(** ** Regions *)

Definition erased (n : Z) : list Z := replicate (Z.to_nat n) 0xFF.

(** [y] can be programmed over [x]: it clears bits only. *)
Definition clears (x y : Z) : Prop := Z.land x y = y.

#[export] Instance clears_dec x y : Decision (clears x y).
Proof. unfold clears. apply _. Defined.

#[export] Instance clears_preorder : PreOrder clears.
Proof.
  split; [intros x; apply Z.land_diag|]. intros x y z Hxy Hyz. unfold clears in *.
  by rewrite <- Hyz, Z.land_assoc, Hxy.
Qed.

Lemma clears_ff y : is_u8 y → clears 0xFF y.
Proof. intros Hy. unfold clears. rewrite Z.land_comm, land_255. unfold is_u8 in Hy. by rewrite Z.mod_small. Qed.

Lemma clears_zero x : clears x 0.
Proof. apply Z.land_0_r. Qed.

(** A region whose bytes were only ever programmed. *)
Definition only_cleared (b b' : list Z) : Prop := Forall2 clears b b'.

#[export] Instance only_cleared_dec b b' : Decision (only_cleared b b').
Proof. unfold only_cleared. apply _. Defined.

#[export] Instance only_cleared_preorder : PreOrder only_cleared.
Proof.
  split; [intros l; unfold only_cleared; by induction l; constructor|]. intros l1 l2 l3. unfold only_cleared.
  revert l2 l3. induction l1 as [|x l1 IH]; intros l2 l3 H12 H23.
  - apply Forall2_nil_inv_l in H12 as ->. by apply Forall2_nil_inv_l in H23 as ->.
  - apply Forall2_cons_inv_l in H12 as (y & l2' & Hxy & H12 & ->).
    apply Forall2_cons_inv_l in H23 as (z & l3' & Hyz & H23 & ->).
    constructor; [by transitivity y|by eapply IH].
Qed.

Lemma len_erased n : 0 ≤ n → len (erased n) = n.
Proof. apply len_replicate. Qed.

Lemma bytes_erased n : bytes (erased n).
Proof. apply Forall_replicate. done. Qed.

Lemma slice_erased off n m : 0 ≤ off → 0 ≤ n → off + n ≤ m → slice off n (erased m) = erased n.
Proof.
  intros. unfold slice, erased. rewrite drop_replicate, take_replicate. f_equal. lia.
Qed.

Lemma only_cleared_erased b : bytes b → only_cleared (erased (len b)) b.
Proof.
  intros Hb. unfold erased, len. rewrite Nat2Z.id. induction Hb; [constructor|].
  cbn. constructor; [by apply clears_ff|done].
Qed.

Lemma only_cleared_len b b' : only_cleared b b' → len b' = len b.
Proof. intros Hc%Forall2_length. unfold len. lia. Qed.

Lemma only_cleared_splice b off src :
  0 ≤ off → off + len src ≤ len b → only_cleared (slice off (len src) b) src → only_cleared b (splice b off src).
Proof.
  intros Hoff Hl Hc. unfold splice, slice in *. rewrite <- (take_drop (Z.to_nat off) b) at 1.
  rewrite <- (take_drop (length src) (drop (Z.to_nat off) b)) at 1. rewrite drop_drop.
  apply Forall2_app; [done|]. apply Forall2_app; [|done].
  unfold len in Hc. by rewrite Nat2Z.id in Hc.
Qed.

(** ** The operations on whole regions *)

Lemma foreach_wr_u32 b src off :
  0 ≤ off → off + len src ≤ len b → len b < 4294967296 →
  foreach (upto (len src)) (λ i b, x ← rd src i; wr b (u32 (off + i)) x) b = Some (splice b off src).
Proof.
  intros Hoff Hl H32. rewrite <- (foreach_wr b src off (rd src)); [|done|done|].
  - apply foreach_ext_in. intros i d Hi%elem_of_upto. by rewrite u32_id by (unfold is_u32; lia).
  - intros j x Hx. unfold rd. replace (0 <=? Z.of_nat j) with true by lia. by rewrite Nat2Z.id.
Qed.

Lemma erase_page_eq b size page off :
  size = len b → 0 < page → size < 4294967296 → 0 ≤ off → off mod page = 0 → off + page ≤ size →
  cf_erase_page (Ptr b) size page off = Some (CF_OK, Ptr (splice b off (erased page))).
Proof.
  intros -> Hp H32 Hoff Hal Hfit. unfold cf_erase_page, cf_in_range.
  replace ((len b =? 0) || (page =? 0)) with false by lia. rewrite Hal. cbn [Z.eqb negb].
  rewrite u64_id by lia. replace (off + page <=? len b) with true by lia. cbn [negb].
  pose proof (foreach_wr b (erased page) off (λ _, Some 0xFF)) as Hw. rewrite len_erased in Hw by lia.
  rewrite (foreach_ext_in _ _ (λ i d, x ← Some 0xFF; wr d (off + i) x)).
  - rewrite Hw; [done|lia|lia|]. intros j x Hx. by apply lookup_replicate in Hx as [-> _].
  - intros i d Hi%elem_of_upto. by rewrite u32_id by (unfold is_u32; lia).
Qed.

Lemma erase_loop_eq fuel b size page k :
  size = len b → 0 < page → size < 4294967296 → size mod page = 0 → 0 ≤ k → k * page ≤ size →
  size / page - k < Z.of_nat fuel →
  erase_loop fuel (Ptr b) size page (k * page) = Some (CF_OK, Ptr (splice b (k * page) (erased (size - k * page)))).
Proof.
  intros Hsz Hp H32 Hmod. revert b k Hsz. induction fuel as [|fuel IH]; intros b k Hsz Hk Hle Hfuel.
  { assert (k ≤ size / page) by (apply Z.div_le_lower_bound; lia). lia. }
  assert (size = page * (size / page)) as Hdiv by (apply Z.div_exact; lia).
  cbn [erase_loop]. destruct (Z.ltb_spec (k * page) size) as [Hlt|Hge].
  2:{ replace (size - k * page) with 0 by lia. unfold erased. cbn. by rewrite splice_nil. }
  assert (k < size / page) by nia. assert ((k + 1) * page ≤ size) by nia.
  rewrite erase_page_eq; [|done|lia|lia|lia|apply Z.mod_mul; lia|lia]. bind_simpl.
  replace (k * page + page) with ((k + 1) * page) by lia. rewrite u32_id by (unfold is_u32; lia).
  rewrite IH; [|rewrite len_splice; rewrite ?len_erased; lia|lia|lia|lia].
  f_equal. f_equal. f_equal.
  replace ((k + 1) * page) with (k * page + len (erased page)) by (rewrite len_erased; lia).
  rewrite splice_splice_adjacent by (rewrite ?len_erased; lia). f_equal.
  unfold erased. rewrite <- replicate_add. f_equal. rewrite len_replicate by lia. lia.
Qed.

Lemma erase_all_eq b size page :
  size = len b → 0 < size < 4294967296 → 0 < page → size mod page = 0 →
  cf_erase_all (Ptr b) size page = Some (CF_OK, Ptr (erased size)).
Proof.
  intros Hsz H32 Hp Hmod. unfold cf_erase_all. cbn [is_null].
  replace (size =? 0) with false by lia. replace (page =? 0) with false by lia. rewrite Hmod. cbn [orb Z.eqb negb].
  pose proof (erase_loop_eq (S (Z.to_nat (size / page))) b size page 0) as He. rewrite Z.mul_0_l in He.
  assert (0 ≤ size / page) by (apply Z.div_pos; lia).
  rewrite He by (done || lia). rewrite Z.sub_0_r. rewrite splice_all; [done|]. rewrite len_erased; lia.
Qed.

Lemma program_check_eq b src off n :
  bytes src → 0 ≤ off → 0 ≤ n ≤ len src → off + n ≤ len b → len b < 4294967296 →
  program_check b src off (upto n) = Some (bool_decide (only_cleared (slice off n b) (slice 0 n src))).
Proof.
  intros Hb Hoff Hn Hl H32. unfold upto.
  assert (∀ (m : nat) k, 0 ≤ k → k + Z.of_nat m = n →
    program_check b src off (seqZ k (Z.of_nat m)) =
      Some (bool_decide (only_cleared (slice (off + k) (Z.of_nat m) b) (slice k (Z.of_nat m) src)))) as Hgen.
  { induction m as [|m IH]; intros k Hk Hm.
    { by rewrite !slice_zero. }
    rewrite seqZ_cons by lia. cbn [program_check]. rewrite u32_id by (unfold is_u32; lia).
    destruct (rd_some b (off + k)) as (x & -> & Hx); [lia|]. destruct (rd_some src k) as (y & -> & Hy); [lia|].
    bind_simpl. replace (Z.of_nat (S m)) with (Z.succ (Z.of_nat m)) by lia.
    rewrite (slice_app_cons _ _ _ x), (slice_app_cons _ _ _ y) by (done || lia).
    replace (Z.pred (Z.succ (Z.of_nat m))) with (Z.of_nat m) by lia.
    assert (is_u8 y) as Hyb by (by apply (Forall_lookup_1 _ _ _ _ Hb Hy)).
    assert ((u8 (Z.land x y) =? y) = bool_decide (clears x y)) as ->.
    { unfold clears. assert (u8 (Z.land x y) = Z.land x y) as ->.
      { apply Z.mod_small. rewrite Z.land_comm. rewrite <- (Z.mod_small y 256) by done.
        rewrite <- land_255, <- Z.land_assoc, (Z.land_comm 255), Z.land_assoc, land_255. lia. }
      apply Bool.eq_iff_eq_true. by rewrite Z.eqb_eq, bool_decide_eq_true. }
    destruct (decide (clears x y)) as [Hc|Hc].
    - rewrite bool_decide_true by done. cbn [negb]. rewrite IH by lia. f_equal. apply bool_decide_ext.
      replace (off + Z.succ k) with (Z.succ (off + k)) by lia. split; [by constructor|by intros [_ ?]%Forall2_cons].
    - rewrite bool_decide_false by done. cbn [negb]. f_equal. symmetry. apply bool_decide_false.
      by intros [? _]%Forall2_cons. }
  specialize (Hgen (Z.to_nat n) 0). rewrite Z2Nat.id, Z.add_0_r in Hgen by lia. apply Hgen; lia.
Qed.

(** The whole contract of [cf_program]. *)
Lemma program_eq b size off src n :
  size = len b → 0 < size < 4294967296 → bytes src → 0 ≤ off < 4294967296 → 0 ≤ n ≤ len src → n < 4294967296 →
  cf_program (Ptr b) size off (Ptr src) n =
    Some (if negb (off + n <=? size) then (CF_ERR_RANGE, Ptr b)
          else if bool_decide (only_cleared (slice off n b) (slice 0 n src)) then (CF_OK, Ptr (splice b off (slice 0 n src)))
          else (CF_ERR_NOT_ERASED, Ptr b)).
Proof.
  intros -> H32 Hb Hoff Hn Hn32. unfold cf_program, cf_in_range. cbn [is_null andb].
  replace (len b =? 0) with false by lia. cbn [orb]. rewrite u64_id by lia.
  destruct (Z.leb_spec (off + n) (len b)) as [Hfit|]; [|done]. cbn [negb].
  rewrite program_check_eq by (done || lia). bind_simpl. destruct (bool_decide _); [|done]. cbn [negb].
  assert (len (slice 0 n src) = n) as Hl by (apply len_slice; lia).
  pose proof (foreach_wr b (slice 0 n src) off (rd src)) as Hw. rewrite Hl in Hw.
  rewrite (foreach_ext_in _ _ (λ i d, x ← rd src i; wr d (off + i) x)).
  - rewrite Hw; [done|lia|lia|]. intros j x. apply rd_slice.
  - intros i d Hi%elem_of_upto. by rewrite u32_id by (unfold is_u32; lia).
Qed.

(** Programming either stores exactly the given bytes where every one of
    them only clears bits, or it refuses and leaves the whole region as it was;
    nothing outside the addressed range ever changes. *)
Lemma cf_program_clears_only b off src n :
  0 < len b < 4294967296 → bytes src → 0 ≤ off < 4294967296 → 0 ≤ n ≤ len src → n < 4294967296 →
  ∃ st b', cf_program (Ptr b) (len b) off (Ptr src) n = Some (st, Ptr b') ∧ only_cleared b b' ∧
    (st = CF_OK ↔ off + n ≤ len b ∧ only_cleared (slice off n b) (slice 0 n src)) ∧
    (st = CF_OK → b' = splice b off (slice 0 n src)) ∧ (st ≠ CF_OK → b' = b).
Proof.
  intros H32 Hb Hoff Hn Hn32. rewrite (program_eq b (len b)) by done.
  destruct (Z.leb_spec (off + n) (len b)) as [Hfit|Hbig]; cbn [negb].
  2:{ exists CF_ERR_RANGE, b. split; [done|]. split; [done|]. split; [split; [done|intros [? _]; lia]|done]. }
  assert (len (slice 0 n src) = n) as Hl by (apply len_slice; lia).
  destruct (bool_decide_reflect (only_cleared (slice off n b) (slice 0 n src))) as [Hc|Hc].
  - exists CF_OK, (splice b off (slice 0 n src)). split; [done|].
    split; [apply only_cleared_splice; [lia|lia|by rewrite Hl]|]. split; done.
  - exists CF_ERR_NOT_ERASED, b. split; [done|]. split; [done|]. split; [|done].
    split; [done|by intros [_ ?]].
Qed.

Lemma cf_program_clears_only_witness :
  ∃ st b', cf_program (Ptr [0xFF; 0x0F; 0xFF]) (len [0xFF; 0x0F; 0xFF]) 0 (Ptr [0x12; 0xF0]) 2 = Some (st, Ptr b') ∧
    only_cleared [0xFF; 0x0F; 0xFF] b' ∧
    (st = CF_OK ↔ 0 + 2 ≤ len [0xFF; 0x0F; 0xFF] ∧ only_cleared (slice 0 2 [0xFF; 0x0F; 0xFF]) (slice 0 2 [0x12; 0xF0])) ∧
    (st = CF_OK → b' = splice [0xFF; 0x0F; 0xFF] 0 (slice 0 2 [0x12; 0xF0])) ∧ (st ≠ CF_OK → b' = [0xFF; 0x0F; 0xFF]).
Proof.
  apply (cf_program_clears_only [0xFF; 0x0F; 0xFF] 0 [0x12; 0xF0] 2);
    [split; reflexivity|solve_bytes|split; [vm_compute; discriminate|reflexivity]
    |split; vm_compute; discriminate|reflexivity].
Defined.
