(* ===== verification/BootHdr.v ===== *)
(** * The OS slot header (src/boot/boot_hdr.c, include/boot/boot_hdr.h) *)

From S2P Require Import Prelude OsMem Crc16.

Definition BOOT_HDR_SIZE : Z := 16.
Definition BOOT_HDR_MAGIC_0 : Z := 0x53.
Definition BOOT_HDR_MAGIC_1 : Z := 0x43.
Definition BOOT_HDR_MAGIC_2 : Z := 0x4F.
Definition BOOT_HDR_MAGIC_3 : Z := 0x53.
Definition BOOT_HDR_VERSION : Z := 1.
Definition BOOT_STATE_LOADED : Z := 0xFFFF.
Definition BOOT_STATE_ACTIVE : Z := 0x0000.
Definition BOOT_BLOCK_SIZE : Z := 128.

Record boot_hdr := BootHdr { h_length : Z; h_image_crc : Z; h_state : Z; h_version : Z }.

Definition boot_hdr_zero : boot_hdr := BootHdr 0 0 0 0.

Definition rd16 (b : list Z) (p : Z) : option Z :=
  x ← rd b p; y ← rd b (p + 1); Some (u16 (Z.lor (Z.shiftl (u16 x) 8) y)).

Definition rd32 (b : list Z) (p : Z) : option Z :=
  x ← rd b p; y ← rd b (p + 1); z ← rd b (p + 2); w ← rd b (p + 3);
  Some (Z.lor (Z.lor (Z.lor (u32 (Z.shiftl (u32 x) 24)) (u32 (Z.shiftl (u32 y) 16))) (u32 (Z.shiftl (u32 z) 8))) (u32 w)).

Definition wr16 (b : list Z) (p v : Z) : option (list Z) :=
  b ← wr b p (u8 (Z.shiftr v 8)); wr b (p + 1) (u8 v).

Definition wr32 (b : list Z) (p v : Z) : option (list Z) :=
  b ← wr b p (u8 (Z.shiftr v 24)); b ← wr b (p + 1) (u8 (Z.shiftr v 16));
  b ← wr b (p + 2) (u8 (Z.shiftr v 8)); wr b (p + 3) (u8 v).

Definition boot_hdr_parse (raw : ptr (list Z)) (out : ptr boot_hdr) : option (bool * ptr boot_hdr) :=
  match raw, out with
  | Ptr r, Ptr _ =>
      m0 ← rd r 0; m1 ← rd r 1; m2 ← rd r 2; m3 ← rd r 3;
      if negb (m0 =? BOOT_HDR_MAGIC_0) || negb (m1 =? BOOT_HDR_MAGIC_1) ||
         negb (m2 =? BOOT_HDR_MAGIC_2) || negb (m3 =? BOOT_HDR_MAGIC_3)
      then Some (false, out) else
      version ← rd16 r 4;
      if negb (version =? u16 BOOT_HDR_VERSION) then Some (false, out) else
      stored ← rd16 r 12;
      crc ← crc16 raw 12;
      if negb (stored =? crc) then Some (false, out) else
      length ← rd32 r 6;
      image_crc ← rd16 r 10;
      state ← rd16 r 14;
      Some (true, Ptr (BootHdr length image_crc state version))
  | _, _ => Some (false, out)
  end.

Definition boot_hdr_serialise (h : ptr boot_hdr) (raw : ptr (list Z)) : option (ptr (list Z)) :=
  match h, raw with
  | Ptr h, Ptr r =>
      r ← wr r 0 BOOT_HDR_MAGIC_0;
      r ← wr r 1 BOOT_HDR_MAGIC_1;
      r ← wr r 2 BOOT_HDR_MAGIC_2;
      r ← wr r 3 BOOT_HDR_MAGIC_3;
      r ← wr16 r 4 (u16 BOOT_HDR_VERSION);
      r ← wr32 r 6 (h_length h);
      r ← wr16 r 10 (h_image_crc h);
      crc ← crc16 (Ptr r) 12;
      r ← wr16 r 12 crc;
      r ← wr r 14 0xFF;
      r ← wr r 15 0xFF;
      Some (Ptr r)
  | _, _ => Some raw
  end.

(** ** The header as bytes *)

Definition hdr_body (length image_crc : Z) : list Z :=
  [BOOT_HDR_MAGIC_0; BOOT_HDR_MAGIC_1; BOOT_HDR_MAGIC_2; BOOT_HDR_MAGIC_3] ++ be16 BOOT_HDR_VERSION ++
  be32 length ++ be16 image_crc.

Definition hdr_bytes (length image_crc state : Z) : list Z := seal (hdr_body length image_crc) ++ be16 state.

Lemma len_hdr_bytes l c s : len (hdr_bytes l c s) = BOOT_HDR_SIZE.
Proof. done. Qed.

Lemma bytes_hdr_body l c : bytes (hdr_body l c).
Proof. unfold hdr_body. repeat apply bytes_app; auto with card. by apply (bool_decide_unpack _). Qed.

Lemma bytes_hdr_bytes l c s : bytes (hdr_bytes l c s).
Proof. apply bytes_app; [apply bytes_seal, bytes_hdr_body|auto with card]. Qed.

Lemma be16_u8 v : be16 v = [u8 (Z.shiftr v 8); u8 v].
Proof. unfold be16. rewrite land_255. unfold u8. by rewrite Z.mod_mod. Qed.

Lemma be32_u8 v : be32 v = [u8 (Z.shiftr v 24); u8 (Z.shiftr v 16); u8 (Z.shiftr v 8); u8 v].
Proof. unfold be32. rewrite land_255. unfold u8. by rewrite Z.mod_mod. Qed.

Lemma rd16_val r p x y :
  rd r p = Some x → rd r (p + 1) = Some y → is_u8 x → is_u8 y → rd16 r p = Some (x * 256 + y).
Proof.
  intros Hx Hy Hbx Hby. unfold rd16. rewrite Hx, Hy. bind_simpl. f_equal. unfold is_u8 in *.
  rewrite (u16_id x) by (unfold is_u16; lia). rewrite (lor_shiftl_add x y 8) by (change (2 ^ 8) with 256; lia).
  change (2 ^ 8) with 256. apply u16_id. unfold is_u16. lia.
Qed.

(** [boot_hdr_serialise] writes the header with the state word erased. *)
Lemma serialise_eq h r :
  len r = BOOT_HDR_SIZE → is_u32 (h_length h) → is_u16 (h_image_crc h) →
  boot_hdr_serialise (Ptr h) (Ptr r) = Some (Ptr (hdr_bytes (h_length h) (h_image_crc h) BOOT_STATE_LOADED)).
Proof.
  intros Hl Hlen Hcrc. assert (length r = 16%nat) as Hr by (unfold len, BOOT_HDR_SIZE in Hl; lia).
  do 16 (destruct r as [|? r]; [done|]). destruct r; [clear Hr Hl|done].
  unfold boot_hdr_serialise, hdr_bytes, seal, hdr_body. rewrite !be16_u8, be32_u8.
  cbv -[u8 Z.shiftr crc16 crc_bytes u16]. rewrite crc16_bytes by (unfold len; simpl; lia).
  rewrite u16_id by done. cbv -[u8 Z.shiftr crc_bytes]. reflexivity.
Qed.

(** A header parses to what it says. *)
Lemma parse_hdr_bytes l c s rest o :
  is_u32 l → is_u16 c → is_u16 s → 
  boot_hdr_parse (Ptr (hdr_bytes l c s ++ rest)) (Ptr o) = Some (true, Ptr (BootHdr l c s BOOT_HDR_VERSION)).
Proof.
  intros Hl Hc Hs. pose proof (crc_bytes_u16 (hdr_body l c)) as Hk.
  destruct (be32_bytes l Hl) as (a0 & a1 & a2 & a3 & Hbl & H0 & H1 & H2 & H3 & Hvl).
  destruct (be16_bytes c Hc) as (c0 & c1 & Hbc & Hc0 & Hc1 & Hvc).
  destruct (be16_bytes s Hs) as (s0 & s1 & Hbs & Hs0 & Hs1 & Hvs).
  destruct (be16_bytes _ Hk) as (k0 & k1 & Hbk & Hk0 & Hk1 & Hvk).
  assert (hdr_bytes l c s ++ rest = hdr_body l c ++ [k0; k1; s0; s1] ++ rest) as Heq.
  { unfold hdr_bytes, seal. by rewrite Hbk, Hbs, <- !app_assoc. }
  assert (crc16 (Ptr (hdr_bytes l c s ++ rest)) 12 = Some (crc_bytes (hdr_body l c))) as Hcrc.
  { rewrite Heq, crc16_bytes by (rewrite len_app; pose proof (len_nonneg ([k0; k1; s0; s1] ++ rest));
      change (len (hdr_body l c)) with 12; lia).
    reflexivity. }
  unfold boot_hdr_parse. rewrite Hcrc, Heq. clear Hcrc Heq.
  revert Hvk. generalize (crc_bytes (hdr_body l c)). intros k Hvk.
  unfold hdr_body. rewrite Hbl, Hbc. change (be16 BOOT_HDR_VERSION) with [0; 1]. cbn [app].
  set (raw := BOOT_HDR_MAGIC_0 :: _).
  change (rd raw 0) with (Some BOOT_HDR_MAGIC_0). change (rd raw 1) with (Some BOOT_HDR_MAGIC_1).
  change (rd raw 2) with (Some BOOT_HDR_MAGIC_2). change (rd raw 3) with (Some BOOT_HDR_MAGIC_3).
  bind_simpl. rewrite !Z.eqb_refl. cbn [negb orb].
  rewrite (rd16_val raw 4 0 1 eq_refl eq_refl) by (unfold is_u8; lia). bind_simpl. change (negb (0 * 256 + 1 =? u16 BOOT_HDR_VERSION)) with false. cbv iota.
  rewrite (rd16_val raw 12 k0 k1 eq_refl eq_refl Hk0 Hk1). bind_simpl. rewrite Hvk, Z.eqb_refl. cbn [negb].
  unfold rd32. change (rd raw 6) with (Some a0). change (rd raw (6 + 1)) with (Some a1).
  change (rd raw (6 + 2)) with (Some a2). change (rd raw (6 + 3)) with (Some a3). bind_simpl.
  rewrite (rd16_val raw 10 c0 c1 eq_refl eq_refl Hc0 Hc1). bind_simpl. rewrite (rd16_val raw 14 s0 s1 eq_refl eq_refl Hs0 Hs1). bind_simpl.
  rewrite be32_val by done. rewrite Hvl, Hvc, Hvs. done.
Qed.

Lemma parse_hdr_all l c s o :
  is_u32 l → is_u16 c → is_u16 s →
  boot_hdr_parse (Ptr (hdr_bytes l c s)) (Ptr o) = Some (true, Ptr (BootHdr l c s BOOT_HDR_VERSION)).
Proof. intros. rewrite <- (app_nil_r (hdr_bytes l c s)). by apply parse_hdr_bytes. Qed.

Lemma state_loaded_u16 : is_u16 BOOT_STATE_LOADED.
Proof. unfold is_u16, BOOT_STATE_LOADED. lia. Qed.
Lemma state_active_u16 : is_u16 BOOT_STATE_ACTIVE.
Proof. unfold is_u16, BOOT_STATE_ACTIVE. lia. Qed.
#[export] Hint Resolve state_loaded_u16 state_active_u16 : card.

(** Clearing the two bytes of the state word of a header. *)
Lemma activate_bytes l c s : splice (hdr_bytes l c s) 14 [0; 0] = hdr_bytes l c BOOT_STATE_ACTIVE.
Proof.
  unfold hdr_bytes. change (be16 BOOT_STATE_ACTIVE) with [0; 0].
  unfold seal. generalize (crc_bytes (hdr_body l c)). intros k. reflexivity.
Qed.

(** Parsing any sixteen bytes is defined. *)
Lemma parse_total r o :
  bytes r → BOOT_HDR_SIZE ≤ len r →
  ∃ ok h, boot_hdr_parse (Ptr r) (Ptr o) = Some (ok, Ptr h) ∧ (ok = false → h = o) ∧
    (ok = true → is_u32 (h_length h) ∧ is_u16 (h_image_crc h) ∧ is_u16 (h_state h)).
Proof.
  intros Hb Hl. unfold BOOT_HDR_SIZE in Hl.
  assert (∀ p, 0 ≤ p < len r → ∃ x, rd r p = Some x ∧ is_u8 x) as Hrd by (intros; by apply rd_byte).
  assert (∀ p, 0 ≤ p → p + 1 < len r → ∃ v, rd16 r p = Some v ∧ is_u16 v) as H16.
  { intros p ? ?. destruct (Hrd p) as (x & Hx & Hbx); [lia|]. destruct (Hrd (p + 1)) as (y & Hy & Hby); [lia|].
    rewrite (rd16_val r p x y Hx Hy Hbx Hby). eexists. split; [done|]. unfold is_u8, is_u16 in *. lia. }
  unfold boot_hdr_parse.
  destruct (Hrd 0) as (m0 & -> & _); [lia|]. destruct (Hrd 1) as (m1 & -> & _); [lia|].
  destruct (Hrd 2) as (m2 & -> & _); [lia|]. destruct (Hrd 3) as (m3 & -> & _); [lia|]. bind_simpl.
  case_if; [by exists false, o|].
  destruct (H16 4) as (v & -> & _); [lia|lia|]. bind_simpl. case_if; [by exists false, o|].
  destruct (H16 12) as (k & -> & _); [lia|lia|]. bind_simpl. rewrite crc16_bytes by lia. bind_simpl.
  case_if; [by exists false, o|].
  unfold rd32. destruct (Hrd 6) as (a0 & -> & Ha0); [lia|]. destruct (Hrd (6 + 1)) as (a1 & -> & Ha1); [lia|].
  destruct (Hrd (6 + 2)) as (a2 & -> & Ha2); [lia|]. destruct (Hrd (6 + 3)) as (a3 & -> & Ha3); [lia|]. bind_simpl.
  destruct (H16 10) as (c & -> & Hc); [lia|lia|]. destruct (H16 14) as (s & -> & Hs); [lia|lia|]. bind_simpl.
  rewrite be32_val by done. eexists true, _. split; [done|]. split; [done|]. intros _. cbn.
  split; [unfold is_u8, is_u32 in *; lia|done].
Qed.

(** [r] starts with the header [h]. *)
Record has_header (r : list Z) (h : boot_hdr) : Prop := {
  hh_bytes : slice 0 BOOT_HDR_SIZE r = hdr_bytes (h_length h) (h_image_crc h) (h_state h);
  hh_length : is_u32 (h_length h);
  hh_crc : is_u16 (h_image_crc h);
  hh_state : is_u16 (h_state h);
  hh_version : h_version h = BOOT_HDR_VERSION
}.

Lemma has_header_parse r h o :
  has_header r h → boot_hdr_parse (Ptr r) (Ptr o) = Some (true, Ptr h).
Proof.
  intros [Hb Hl Hc Hs Hv]. unfold slice in Hb. rewrite <- (take_drop 16 r).
  change (drop (Z.to_nat 0) r) with r in Hb. change (Z.to_nat BOOT_HDR_SIZE) with 16%nat in Hb. rewrite Hb.
  rewrite parse_hdr_bytes by done. destruct h as [l c s v]. cbn in *. by subst v.
Qed.

Lemma be16_of_bytes x y : is_u8 x → is_u8 y → be16 (x * 256 + y) = [x; y].
Proof.
  intros Hx Hy. rewrite be16_u8, shiftr_256 by done. change (2 ^ 8) with 256. unfold u8, is_u8 in *.
  f_equal; [|f_equal]; lia.
Qed.

Lemma be32_of_bytes x y z w :
  is_u8 x → is_u8 y → is_u8 z → is_u8 w → be32 (((x * 256 + y) * 256 + z) * 256 + w) = [x; y; z; w].
Proof.
  intros Hx Hy Hz Hw. rewrite be32_u8, !shiftr_256 by done.
  change (2 ^ 24) with 16777216. change (2 ^ 16) with 65536. change (2 ^ 8) with 256. unfold u8, is_u8 in *.
  f_equal; [|f_equal; [|f_equal; [|f_equal]]]; lia.
Qed.

Lemma parse_has_header r o h :
  bytes r → BOOT_HDR_SIZE ≤ len r → boot_hdr_parse (Ptr r) (Ptr o) = Some (true, Ptr h) → has_header r h.
Proof.
  intros Hb Hl Hp. assert (16 ≤ length r)%nat as Hn by (unfold len, BOOT_HDR_SIZE in Hl; lia).
  destruct (parse_total r o Hb Hl) as (ok & h' & Hp' & _ & Hr). rewrite Hp in Hp'. injection Hp' as <- <-.
  destruct (Hr eq_refl) as (Hlen & Hcrc & Hst). clear Hr Hl.
  rewrite <- (take_drop 16 r) in Hp, Hb |- *. apply Forall_app in Hb as [Hb _].
  assert (length (take 16 r) = 16%nat) as Ht by (rewrite length_take; lia). clear Hn.
  revert Hp Hb Ht. generalize (take 16 r) (drop 16 r). clear r. intros b rest Hp Hb Ht.
  do 16 (destruct b as [|? b]; [done|]). destruct b; [clear Ht|done].
  do 16 (apply bytes_cons in Hb; destruct Hb as [? Hb]).
  unfold boot_hdr_parse in Hp. rewrite crc16_bytes in Hp by (unfold len; cbn [app length]; lia).
  unfold rd32 in Hp. cbn [app] in Hp |- *.
  set (r := z :: _) in *.
  revert Hp.
  change (rd r 0) with (Some z). change (rd r 1) with (Some z0). change (rd r 2) with (Some z1).
  change (rd r 3) with (Some z2). bind_simpl.
  destruct (Z.eqb_spec z BOOT_HDR_MAGIC_0) as [->|]; [|done]. destruct (Z.eqb_spec z0 BOOT_HDR_MAGIC_1) as [->|]; [|done].
  destruct (Z.eqb_spec z1 BOOT_HDR_MAGIC_2) as [->|]; [|done]. destruct (Z.eqb_spec z2 BOOT_HDR_MAGIC_3) as [->|]; [|done].
  cbn [negb orb]. rewrite (rd16_val r 4 z3 z4 eq_refl eq_refl) by done. bind_simpl.
  destruct (Z.eqb_spec (z3 * 256 + z4) (u16 BOOT_HDR_VERSION)) as [Hv|]; [|done]. cbn [negb].
  rewrite (rd16_val r 12 z11 z12 eq_refl eq_refl) by done. bind_simpl.
  change (slice 0 12 r) with
    [BOOT_HDR_MAGIC_0; BOOT_HDR_MAGIC_1; BOOT_HDR_MAGIC_2; BOOT_HDR_MAGIC_3; z3; z4; z5; z6; z7; z8; z9; z10].
  change (rd r 6) with (Some z5). change (rd r (6 + 1)) with (Some z6).
  change (rd r (6 + 2)) with (Some z7). change (rd r (6 + 3)) with (Some z8).
  rewrite (rd16_val r 10 z9 z10 eq_refl eq_refl) by done. rewrite (rd16_val r 14 z13 z14 eq_refl eq_refl) by done.
  bind_simpl. rewrite be32_val by done.
  match goal with |- context [crc_bytes ?l] => set (k := crc_bytes l) end.
  destruct (Z.eqb_spec (z11 * 256 + z12) k) as [Hk|]; [|done]. cbn [negb]. intros [= <-].
  split; [|exact Hlen|exact Hcrc|exact Hst|exact Hv]. clear Hlen Hcrc Hst. cbn [h_length h_image_crc h_state].
  change (slice 0 BOOT_HDR_SIZE r) with (take 16 r). subst r.
  unfold hdr_bytes, seal, hdr_body.
  rewrite be32_of_bytes, !be16_of_bytes by done.
  replace (be16 BOOT_HDR_VERSION) with [z3; z4] by (rewrite <- (be16_of_bytes z3 z4), Hv by done; done).
  cbn [app]. fold k. rewrite <- Hk, be16_of_bytes by done. done.
Qed.

(** What the loader writes as a header it reads back: the length and the
    image check sum, in state LOADED; and clearing the state word afterwards,
    which needs no erase, changes the state to ACTIVE and nothing else. *)
Lemma boot_hdr_roundtrip h r o :
  len r = BOOT_HDR_SIZE → is_u32 (h_length h) → is_u16 (h_image_crc h) →
  ∃ raw, boot_hdr_serialise (Ptr h) (Ptr r) = Some (Ptr raw) ∧
    boot_hdr_parse (Ptr raw) (Ptr o) =
      Some (true, Ptr (BootHdr (h_length h) (h_image_crc h) BOOT_STATE_LOADED BOOT_HDR_VERSION)) ∧
    boot_hdr_parse (Ptr (splice raw 14 [0; 0])) (Ptr o) =
      Some (true, Ptr (BootHdr (h_length h) (h_image_crc h) BOOT_STATE_ACTIVE BOOT_HDR_VERSION)).
Proof.
  intros Hl Hlen Hcrc. exists (hdr_bytes (h_length h) (h_image_crc h) BOOT_STATE_LOADED).
  split; [by apply serialise_eq|]. rewrite activate_bytes. split; apply parse_hdr_all; auto with card.
Qed.

Lemma boot_hdr_roundtrip_witness :
  ∃ raw, boot_hdr_serialise (Ptr (BootHdr 512 0x1234 0 0)) (Ptr (replicate 16 7)) = Some (Ptr raw) ∧
    boot_hdr_parse (Ptr raw) (Ptr boot_hdr_zero) =
      Some (true, Ptr (BootHdr 512 0x1234 BOOT_STATE_LOADED BOOT_HDR_VERSION)) ∧
    boot_hdr_parse (Ptr (splice raw 14 [0; 0])) (Ptr boot_hdr_zero) =
      Some (true, Ptr (BootHdr 512 0x1234 BOOT_STATE_ACTIVE BOOT_HDR_VERSION)).
Proof.
  apply (boot_hdr_roundtrip (BootHdr 512 0x1234 0 0) (replicate 16 7) boot_hdr_zero);
    [reflexivity|vm_compute; split; congruence|vm_compute; split; congruence].
Defined.
