(* ===== verification/BootLoader.v ===== *)
(** * The boot loader (src/boot/boot_loader.c, include/boot/boot_loader.h)

    The slot check of the reset path, the plausibility check of an image and the
    six commands of the loader.  The two flash regions are buffers of the
    context; they do not overlap (two different regions of the chip). *)

From S2P Require Import Prelude OsMem Crc16 CFlash BootHdr.

Definition SW_OK : Z := 0x9000.
Definition SW_WRONG_LENGTH : Z := 0x6700.
Definition SW_WRONG_P1P2 : Z := 0x6A86.
Definition SW_NO_SPACE : Z := 0x6A84.
Definition SW_COND_NOT_MET : Z := 0x6985.
Definition SW_MEMORY_FAILURE : Z := 0x6581.
Definition SW_NOT_FOUND : Z := 0x6A82.
Definition SW_BAD_DATA : Z := 0x6A80.
Definition SW_DATA_INVALID : Z := 0x6984.
Definition SW_INS_NOT_SUP : Z := 0x6D00.
Definition SW_CLA_NOT_SUP : Z := 0x6E00.

Definition BOOT_CLA : Z := 0x80.
Definition BOOT_INS_GET_STATUS : Z := 0xF2.
Definition BOOT_INS_ERASE : Z := 0x0E.
Definition BOOT_INS_LOAD : Z := 0x54.
Definition BOOT_INS_VERIFY : Z := 0xA0.
Definition BOOT_INS_ACTIVATE : Z := 0x44.
Definition BOOT_INS_RESTART : Z := 0xF0.
Definition BOOT_STATUS_RSP_LEN : Z := 16.

Inductive boot_slot_state := BOOT_SLOT_BLANK | BOOT_SLOT_LOADED | BOOT_SLOT_ACTIVE | BOOT_SLOT_DAMAGED.
Inductive boot_action := BOOT_ACT_NONE | BOOT_ACT_RESTART.

#[export] Instance boot_slot_state_eq_dec : EqDecision boot_slot_state.
Proof. solve_decision. Defined.
#[export] Instance boot_action_eq_dec : EqDecision boot_action.
Proof. solve_decision. Defined.

(** The value of the enumerator in the status response. *)
Definition slot_code (st : boot_slot_state) : Z :=
  match st with BOOT_SLOT_BLANK => 0 | BOOT_SLOT_LOADED => 1 | BOOT_SLOT_ACTIVE => 2 | BOOT_SLOT_DAMAGED => 3 end.

Record boot_ctx := BootCtx {
  osflash : ptr (list Z);
  osflash_size : Z;
  oshdr : ptr (list Z);
  oshdr_size : Z;
  page_size : Z;
  load_addr : Z;
  sram_base : Z;
  sram_size : Z;
  high_water : Z;
  ctx_erased : bool
}.

Definition set_osflash (c : boot_ctx) (b : ptr (list Z)) : boot_ctx :=
  BootCtx b (osflash_size c) (oshdr c) (oshdr_size c) (page_size c) (load_addr c) (sram_base c) (sram_size c)
    (high_water c) (ctx_erased c).
Definition set_oshdr (c : boot_ctx) (b : ptr (list Z)) : boot_ctx :=
  BootCtx (osflash c) (osflash_size c) b (oshdr_size c) (page_size c) (load_addr c) (sram_base c) (sram_size c)
    (high_water c) (ctx_erased c).
Definition set_high_water (c : boot_ctx) (n : Z) : boot_ctx :=
  BootCtx (osflash c) (osflash_size c) (oshdr c) (oshdr_size c) (page_size c) (load_addr c) (sram_base c) (sram_size c)
    n (ctx_erased c).
Definition set_erased (c : boot_ctx) (e : bool) : boot_ctx :=
  BootCtx (osflash c) (osflash_size c) (oshdr c) (oshdr_size c) (page_size c) (load_addr c) (sram_base c) (sram_size c)
    (high_water c) e.

Definition boot_ctx_init (ctx : ptr boot_ctx) (osflash : ptr (list Z)) (osflash_size : Z)
    (oshdr : ptr (list Z)) (oshdr_size page_size load_addr sram_base sram_size : Z) : ptr boot_ctx :=
  match ctx with
  | NULL => NULL
  | Ptr _ => Ptr (BootCtx osflash osflash_size oshdr oshdr_size page_size load_addr sram_base sram_size 0 false)
  end.

(** ** Slot inspection *)

Definition boot_slot_check (oshdr : ptr (list Z)) (oshdr_size : Z) (osflash : ptr (list Z)) (osflash_size : Z)
    (out : ptr boot_hdr) : option (boot_slot_state * ptr boot_hdr) :=
  if is_null oshdr || (oshdr_size <? BOOT_HDR_SIZE) || is_null osflash then Some (BOOT_SLOT_DAMAGED, out) else
  '(ok, hp) ← boot_hdr_parse oshdr (Ptr boot_hdr_zero);
  if negb ok then Some (BOOT_SLOT_BLANK, out) else
  h ← deref hp;
  let out := match out with NULL => NULL | Ptr _ => Ptr h end in
  if (h_length h =? 0) || (osflash_size <? h_length h) then Some (BOOT_SLOT_DAMAGED, out) else
  crc ← crc16 osflash (h_length h);
  if negb (crc =? h_image_crc h) then Some (BOOT_SLOT_DAMAGED, out) else
  Some (if h_state h =? BOOT_STATE_ACTIVE then BOOT_SLOT_ACTIVE else BOOT_SLOT_LOADED, out).

(** Four bytes, little-endian, as the loader reads them. *)
Definition rd_le32 (b : list Z) (p : Z) : option Z :=
  x ← rd b p; y ← rd b (p + 1); z ← rd b (p + 2); w ← rd b (p + 3);
  Some (Z.lor (Z.lor (Z.lor (u32 x) (u32 (Z.shiftl (u32 y) 8))) (u32 (Z.shiftl (u32 z) 16))) (u32 (Z.shiftl (u32 w) 24))).

Definition boot_image_plausible (img : ptr (list Z)) (len load_addr sram_base sram_size : Z) : option bool :=
  match img with
  | NULL => Some false
  | Ptr img =>
      if len <? 8 then Some false else
      sp ← rd_le32 img 0;
      pc ← rd_le32 img 4;
      let sram_end := u64 (sram_base + sram_size) in
      if (sp <=? sram_base) || (sram_end <? sp) then Some false else
      if negb (sp mod 4 =? 0) then Some false else
      if Z.land pc 1 =? 0 then Some false else
      let entry := Z.land pc 0xFFFFFFFE in
      if entry <? load_addr then Some false else
      if u64 (load_addr + len) <=? entry then Some false else
      Some true
  end.

(** ** Commands: the status word, and the context after the command *)

Definition build_status (ctx : boot_ctx) (rsp : ptr (list Z)) (rsp_cap rsp_len : Z)
    : option (Z * ptr (list Z) * Z) :=
  if rsp_cap <? BOOT_STATUS_RSP_LEN then Some (SW_WRONG_LENGTH, rsp, rsp_len) else
  '(st, hp) ← boot_slot_check (oshdr ctx) (oshdr_size ctx) (osflash ctx) (osflash_size ctx) (Ptr boot_hdr_zero);
  h ← deref hp;
  let have_hdr := match st with BOOT_SLOT_LOADED | BOOT_SLOT_ACTIVE => true | _ => false end in
  r ← deref rsp;
  r ← wr r 0 1;
  r ← wr r 1 (u8 (slot_code st));
  r ← wr r 2 (u8 (Z.shiftr (osflash_size ctx) 24));
  r ← wr r 3 (u8 (Z.shiftr (osflash_size ctx) 16));
  r ← wr r 4 (u8 (Z.shiftr (osflash_size ctx) 8));
  r ← wr r 5 (u8 (osflash_size ctx));
  r ← wr r 6 (if have_hdr then u8 (Z.shiftr (h_length h) 24) else 0);
  r ← wr r 7 (if have_hdr then u8 (Z.shiftr (h_length h) 16) else 0);
  r ← wr r 8 (if have_hdr then u8 (Z.shiftr (h_length h) 8) else 0);
  r ← wr r 9 (if have_hdr then u8 (h_length h) else 0);
  r ← wr r 10 (if have_hdr then u8 (Z.shiftr (h_image_crc h) 8) else 0);
  r ← wr r 11 (if have_hdr then u8 (h_image_crc h) else 0);
  r ← wr r 12 (u8 BOOT_BLOCK_SIZE);
  r ← wr r 13 (if ctx_erased ctx then 1 else 0);
  r ← wr r 14 (u8 (Z.shiftr (high_water ctx) 8));
  r ← wr r 15 (u8 (high_water ctx));
  Some (SW_OK, Ptr r, BOOT_STATUS_RSP_LEN).

Definition do_erase (ctx : boot_ctx) : option (Z * boot_ctx) :=
  '(st, b) ← cf_erase_all (oshdr ctx) (oshdr_size ctx) (page_size ctx);
  let ctx := set_oshdr ctx b in
  if negb (bool_decide (st = CF_OK)) then Some (SW_MEMORY_FAILURE, ctx) else
  '(st, b) ← cf_erase_all (osflash ctx) (osflash_size ctx) (page_size ctx);
  let ctx := set_osflash ctx b in
  if negb (bool_decide (st = CF_OK)) then Some (SW_MEMORY_FAILURE, ctx) else
  Some (SW_OK, set_high_water (set_erased ctx true) 0).

Definition do_load (ctx : boot_ctx) (p1 p2 : Z) (data : ptr (list Z)) (lc : Z) : option (Z * boot_ctx) :=
  if negb (ctx_erased ctx) then Some (SW_COND_NOT_MET, ctx) else
  if (lc =? 0) || (BOOT_BLOCK_SIZE <? lc) then Some (SW_WRONG_LENGTH, ctx) else
  let block := Z.lor (Z.shiftl p1 8) p2 in
  let off := u32 (block * BOOT_BLOCK_SIZE) in
  let e := u64 (off + lc) in
  if osflash_size ctx <? e then Some (SW_NO_SPACE, ctx) else
  '(cst, b) ← cf_program (osflash ctx) (osflash_size ctx) off data lc;
  let ctx := set_osflash ctx b in
  if bool_decide (cst = CF_ERR_NOT_ERASED) then Some (SW_COND_NOT_MET, ctx) else
  if negb (bool_decide (cst = CF_OK)) then Some (SW_MEMORY_FAILURE, ctx) else
  Some (SW_OK, if high_water ctx <? u32 e then set_high_water ctx (u32 e) else ctx).

Definition do_verify (ctx : boot_ctx) (data : ptr (list Z)) (lc : Z) : option (Z * boot_ctx) :=
  if negb (lc =? 6) then Some (SW_WRONG_LENGTH, ctx) else
  if negb (ctx_erased ctx) then Some (SW_COND_NOT_MET, ctx) else
  d ← deref data;
  len ← rd32 d 0;
  crc ← rd16 d 4;
  if (len =? 0) || (osflash_size ctx <? len) then Some (SW_NO_SPACE, ctx) else
  if high_water ctx <? len then Some (SW_BAD_DATA, ctx) else
  c ← crc16 (osflash ctx) len;
  if negb (c =? crc) then Some (SW_BAD_DATA, ctx) else
  ok ← boot_image_plausible (osflash ctx) len (load_addr ctx) (sram_base ctx) (sram_size ctx);
  if negb ok then Some (SW_DATA_INVALID, ctx) else
  raw ← boot_hdr_serialise (Ptr (BootHdr len crc BOOT_STATE_LOADED BOOT_HDR_VERSION))
          (Ptr (replicate (Z.to_nat BOOT_HDR_SIZE) 0));
  '(st, b) ← cf_program (oshdr ctx) (oshdr_size ctx) 0 raw BOOT_HDR_SIZE;
  let ctx := set_oshdr ctx b in
  if negb (bool_decide (st = CF_OK)) then Some (SW_MEMORY_FAILURE, ctx) else Some (SW_OK, ctx).

Definition do_activate (ctx : boot_ctx) : option (Z * boot_ctx) :=
  '(st, _) ← boot_slot_check (oshdr ctx) (oshdr_size ctx) (osflash ctx) (osflash_size ctx) (Ptr boot_hdr_zero);
  match st with
  | BOOT_SLOT_BLANK => Some (SW_NOT_FOUND, ctx)
  | BOOT_SLOT_DAMAGED => Some (SW_DATA_INVALID, ctx)
  | BOOT_SLOT_ACTIVE => Some (SW_OK, ctx)
  | BOOT_SLOT_LOADED =>
      '(cst, b) ← cf_program (oshdr ctx) (oshdr_size ctx) 14 (Ptr [0; 0]) 2;
      let ctx := set_oshdr ctx b in
      if negb (bool_decide (cst = CF_OK)) then Some (SW_MEMORY_FAILURE, ctx) else Some (SW_OK, ctx)
  end.

(** ** Dispatch *)

(** What a handled command leaves behind: status word, context, response
    buffer, response length and the action for the caller. *)
Record boot_result := BootResult {
  b_sw : Z;
  b_ctx : ptr boot_ctx;
  b_rsp : ptr (list Z);
  b_rsp_len : ptr Z;
  b_action : ptr boot_action
}.

(** The [switch] of [boot_handle], with the body already located. *)
Definition boot_switch (c : boot_ctx) (ins p1 p2 : Z) (data : ptr (list Z)) (lc : Z)
    (rsp : ptr (list Z)) (rsp_cap : Z) : option boot_result :=
  let stop sw := Some (BootResult sw (Ptr c) rsp (Ptr 0) (Ptr BOOT_ACT_NONE)) in
  let run m := '(sw, c) ← m; Some (BootResult sw (Ptr c) rsp (Ptr 0) (Ptr BOOT_ACT_NONE)) in
  if ins =? BOOT_INS_GET_STATUS then
    if negb (lc =? 0) then stop SW_WRONG_LENGTH else
    if negb (p1 =? 0) || negb (p2 =? 0) then stop SW_WRONG_P1P2 else
    '(sw, rsp, n) ← build_status c rsp rsp_cap 0;
    Some (BootResult sw (Ptr c) rsp (Ptr n) (Ptr BOOT_ACT_NONE))
  else if ins =? BOOT_INS_ERASE then
    if negb (lc =? 0) then stop SW_WRONG_LENGTH else
    if negb (p1 =? 0) || negb (p2 =? 0) then stop SW_WRONG_P1P2 else run (do_erase c)
  else if ins =? BOOT_INS_LOAD then
    if lc =? 0 then stop SW_WRONG_LENGTH else run (do_load c p1 p2 data lc)
  else if ins =? BOOT_INS_VERIFY then
    if lc =? 0 then stop SW_WRONG_LENGTH else
    if negb (p1 =? 0) || negb (p2 =? 0) then stop SW_WRONG_P1P2 else run (do_verify c data lc)
  else if ins =? BOOT_INS_ACTIVATE then
    if negb (lc =? 0) then stop SW_WRONG_LENGTH else
    if negb (p1 =? 0) || negb (p2 =? 0) then stop SW_WRONG_P1P2 else run (do_activate c)
  else if ins =? BOOT_INS_RESTART then
    if negb (lc =? 0) then stop SW_WRONG_LENGTH else
    if negb (p1 =? 0) || negb (p2 =? 0) then stop SW_WRONG_P1P2 else
    '(st, _) ← boot_slot_check (oshdr c) (oshdr_size c) (osflash c) (osflash_size c) NULL;
    match st with
    | BOOT_SLOT_ACTIVE => Some (BootResult SW_OK (Ptr c) rsp (Ptr 0) (Ptr BOOT_ACT_RESTART))
    | _ => stop SW_NOT_FOUND
    end
  else stop SW_INS_NOT_SUP.

Definition boot_handle (ctx : ptr boot_ctx) (cmd : ptr (list Z)) (len : Z) (rsp : ptr (list Z)) (rsp_cap : Z)
    (rsp_len : ptr Z) (action : ptr boot_action) : option boot_result :=
  match ctx, cmd, rsp_len, action with
  | Ptr c, Ptr b, Ptr _, Ptr _ =>
      let stop sw := Some (BootResult sw ctx rsp (Ptr 0) (Ptr BOOT_ACT_NONE)) in
      if len <? 4 then stop SW_WRONG_LENGTH else
      cla ← rd b 0;
      if negb (cla =? BOOT_CLA) then stop SW_CLA_NOT_SUP else
      ins ← rd b 1;
      p1 ← rd b 2;
      p2 ← rd b 3;
      if 5 <? len then
        lc ← rd b 4;
        if (lc =? 0) || negb (lc =? len - 5) then stop SW_WRONG_LENGTH else
        boot_switch c ins p1 p2 (at_off b 5) lc rsp rsp_cap
      else if len =? 5 then
        x ← rd b 4;
        if negb (x =? 0) && negb (ins =? BOOT_INS_GET_STATUS) then stop SW_WRONG_LENGTH else
        boot_switch c ins p1 p2 NULL 0 rsp rsp_cap
      else boot_switch c ins p1 p2 NULL 0 rsp rsp_cap
  | _, _, _, _ => Some (BootResult SW_WRONG_LENGTH ctx rsp rsp_len action)
  end.

(** ** The slot, abstractly

    What a command does to the two regions and to the progress of the loader,
    over whole regions: this is the contract [boot_handle] is proved against. *)

Record geometry := Geometry { g_page : Z; g_load_addr : Z; g_sram_base : Z; g_sram_size : Z }.

Record slot := Slot { s_flash : list Z; s_hdr : list Z; s_high : Z; s_erased : bool }.

Definition ctx_of (g : geometry) (s : slot) : boot_ctx :=
  BootCtx (Ptr (s_flash s)) (len (s_flash s)) (Ptr (s_hdr s)) (len (s_hdr s)) (g_page g) (g_load_addr g)
    (g_sram_base g) (g_sram_size g) (s_high s) (s_erased s).

Record slot_wf (g : geometry) (s : slot) : Prop := {
  sw_flash_bytes : bytes (s_flash s);
  sw_hdr_bytes : bytes (s_hdr s);
  sw_page : 0 < g_page g;
  sw_flash_pages : len (s_flash s) mod g_page g = 0;
  sw_hdr_pages : len (s_hdr s) mod g_page g = 0;
  sw_flash_size : 0 < len (s_flash s) < 4294967296;
  sw_hdr_size : BOOT_HDR_SIZE ≤ len (s_hdr s) < 4294967296;
  sw_load : is_u32 (g_load_addr g);
  sw_sram : is_u32 (g_sram_base g);
  sw_sram_size : is_u32 (g_sram_size g);
  sw_high : 0 ≤ s_high s ≤ len (s_flash s);
  sw_tail : s_erased s = true →
    slice (s_high s) (len (s_flash s) - s_high s) (s_flash s) = erased (len (s_flash s) - s_high s)
}.

(** The image a header describes is there. *)
Definition image_ok (fl : list Z) (h : boot_hdr) : Prop :=
  0 < h_length h ≤ len fl ∧ crc_bytes (slice 0 (h_length h) fl) = h_image_crc h.

#[export] Instance image_ok_dec fl h : Decision (image_ok fl h).
Proof. unfold image_ok. apply _. Defined.

Definition slot_state (fl hd : list Z) : boot_slot_state * boot_hdr :=
  match boot_hdr_parse (Ptr hd) (Ptr boot_hdr_zero) with
  | Some (true, Ptr h) =>
      (if decide (image_ok fl h) then if h_state h =? BOOT_STATE_ACTIVE then BOOT_SLOT_ACTIVE else BOOT_SLOT_LOADED
       else BOOT_SLOT_DAMAGED, h)
  | _ => (BOOT_SLOT_BLANK, boot_hdr_zero)
  end.

Definition le32_val (x y z w : Z) : Z := ((w * 256 + z) * 256 + y) * 256 + x.

(** The first two words of an image that this core can be handed. *)
Definition plausible (g : geometry) (img : list Z) (n : Z) : Prop :=
  match img with
  | s0 :: s1 :: s2 :: s3 :: p0 :: p1 :: p2 :: p3 :: _ =>
      let sp := le32_val s0 s1 s2 s3 in
      let pc := le32_val p0 p1 p2 p3 in
      8 ≤ n ∧ g_sram_base g < sp ≤ g_sram_base g + g_sram_size g ∧ sp mod 4 = 0 ∧ pc mod 2 = 1 ∧
      g_load_addr g ≤ pc - 1 < g_load_addr g + n
  | _ => False
  end.

#[export] Instance plausible_dec g img n : Decision (plausible g img n).
Proof. unfold plausible. repeat (destruct img as [|? img]; try apply _). Defined.

Inductive boot_cmd :=
| CmdMalformed (sw : Z)
| CmdStatus
| CmdErase
| CmdLoad (off : Z) (d : list Z)
| CmdVerify (d : list Z)
| CmdActivate
| CmdRestart.

#[export] Instance boot_cmd_eq_dec : EqDecision boot_cmd.
Proof. solve_decision. Defined.

Definition decode_body (ins p1 p2 : Z) (d : list Z) : boot_cmd :=
  let bare c := if negb (len d =? 0) then CmdMalformed SW_WRONG_LENGTH
                else if negb (p1 =? 0) || negb (p2 =? 0) then CmdMalformed SW_WRONG_P1P2 else c in
  if ins =? BOOT_INS_GET_STATUS then bare CmdStatus
  else if ins =? BOOT_INS_ERASE then bare CmdErase
  else if ins =? BOOT_INS_LOAD then
    if len d =? 0 then CmdMalformed SW_WRONG_LENGTH else CmdLoad ((p1 * 256 + p2) * BOOT_BLOCK_SIZE) d
  else if ins =? BOOT_INS_VERIFY then
    if len d =? 0 then CmdMalformed SW_WRONG_LENGTH
    else if negb (p1 =? 0) || negb (p2 =? 0) then CmdMalformed SW_WRONG_P1P2 else CmdVerify d
  else if ins =? BOOT_INS_ACTIVATE then bare CmdActivate
  else if ins =? BOOT_INS_RESTART then bare CmdRestart
  else CmdMalformed SW_INS_NOT_SUP.

Definition decode (b : list Z) : boot_cmd :=
  match b with
  | cla :: ins :: p1 :: p2 :: body =>
      if negb (cla =? BOOT_CLA) then CmdMalformed SW_CLA_NOT_SUP else
      match body with
      | [] => decode_body ins p1 p2 []
      | [x] => if negb (x =? 0) && negb (ins =? BOOT_INS_GET_STATUS) then CmdMalformed SW_WRONG_LENGTH
               else decode_body ins p1 p2 []
      | lc :: d => if (lc =? 0) || negb (lc =? len d) then CmdMalformed SW_WRONG_LENGTH
                   else decode_body ins p1 p2 d
      end
  | _ => CmdMalformed SW_WRONG_LENGTH
  end.

Definition verify_spec (g : geometry) (s : slot) (l crc : Z) : Z * slot :=
  let hdr := hdr_bytes l crc BOOT_STATE_LOADED in
  if (l =? 0) || (len (s_flash s) <? l) then (SW_NO_SPACE, s)
  else if s_high s <? l then (SW_BAD_DATA, s)
  else if negb (crc_bytes (slice 0 l (s_flash s)) =? crc) then (SW_BAD_DATA, s)
  else if negb (bool_decide (plausible g (s_flash s) l)) then (SW_DATA_INVALID, s)
  else if negb (bool_decide (only_cleared (slice 0 BOOT_HDR_SIZE (s_hdr s)) hdr)) then (SW_MEMORY_FAILURE, s)
  else (SW_OK, Slot (s_flash s) (splice (s_hdr s) 0 hdr) (s_high s) (s_erased s)).

Definition boot_spec (g : geometry) (s : slot) (c : boot_cmd) : Z * slot :=
  match c with
  | CmdMalformed sw => (sw, s)
  | CmdStatus => (SW_OK, s)
  | CmdErase => (SW_OK, Slot (erased (len (s_flash s))) (erased (len (s_hdr s))) 0 true)
  | CmdLoad off d =>
      if negb (s_erased s) then (SW_COND_NOT_MET, s)
      else if BOOT_BLOCK_SIZE <? len d then (SW_WRONG_LENGTH, s)
      else if len (s_flash s) <? off + len d then (SW_NO_SPACE, s)
      else if bool_decide (only_cleared (slice off (len d) (s_flash s)) d)
      then (SW_OK, Slot (splice (s_flash s) off d) (s_hdr s) (Z.max (s_high s) (off + len d)) true)
      else (SW_COND_NOT_MET, s)
  | CmdVerify d =>
      match d with
      | [l0; l1; l2; l3; c0; c1] =>
          if negb (s_erased s) then (SW_COND_NOT_MET, s)
          else verify_spec g s (((l0 * 256 + l1) * 256 + l2) * 256 + l3) (c0 * 256 + c1)
      | _ => (SW_WRONG_LENGTH, s)
      end
  | CmdActivate =>
      match (slot_state (s_flash s) (s_hdr s)).1 with
      | BOOT_SLOT_BLANK => (SW_NOT_FOUND, s)
      | BOOT_SLOT_DAMAGED => (SW_DATA_INVALID, s)
      | BOOT_SLOT_ACTIVE => (SW_OK, s)
      | BOOT_SLOT_LOADED => (SW_OK, Slot (s_flash s) (splice (s_hdr s) 14 [0; 0]) (s_high s) (s_erased s))
      end
  | CmdRestart =>
      match (slot_state (s_flash s) (s_hdr s)).1 with
      | BOOT_SLOT_ACTIVE => (SW_OK, s)
      | _ => (SW_NOT_FOUND, s)
      end
  end.

(** The response data of GET STATUS. *)
Definition status_bytes (s : slot) : list Z :=
  let '(st, h) := slot_state (s_flash s) (s_hdr s) in
  let have := match st with BOOT_SLOT_LOADED | BOOT_SLOT_ACTIVE => true | _ => false end in
  [1; slot_code st] ++ be32 (len (s_flash s)) ++ (if have then be32 (h_length h) else [0; 0; 0; 0]) ++
  (if have then be16 (h_image_crc h) else [0; 0]) ++
  [BOOT_BLOCK_SIZE; if s_erased s then 1 else 0] ++ be16 (s_high s).

Definition boot_answer (g : geometry) (s : slot) (c : boot_cmd) (rsp : list Z) : boot_result :=
  let '(sw, s') := boot_spec g s c in
  BootResult sw (Ptr (ctx_of g s'))
    (Ptr match c with CmdStatus => splice rsp 0 (status_bytes s) | _ => rsp end)
    (Ptr match c with CmdStatus => BOOT_STATUS_RSP_LEN | _ => 0 end)
    (Ptr match c with CmdRestart => if sw =? SW_OK then BOOT_ACT_RESTART else BOOT_ACT_NONE | _ => BOOT_ACT_NONE end).

(** ** The slot check *)

Lemma has_header_inj r h h' : has_header r h → has_header r h' → h = h'.
Proof.
  intros H%(has_header_parse _ _ boot_hdr_zero) H'%(has_header_parse _ _ boot_hdr_zero).
  rewrite H in H'. by injection H'.
Qed.

(** What each state of the slot says. *)
Definition slot_says (fl hd : list Z) (st : boot_slot_state) (h : boot_hdr) : Prop :=
  match st with
  | BOOT_SLOT_BLANK => ∀ h, ¬ has_header hd h
  | BOOT_SLOT_DAMAGED => has_header hd h ∧ ¬ image_ok fl h
  | BOOT_SLOT_LOADED => has_header hd h ∧ image_ok fl h ∧ h_state h ≠ BOOT_STATE_ACTIVE
  | BOOT_SLOT_ACTIVE => has_header hd h ∧ image_ok fl h ∧ h_state h = BOOT_STATE_ACTIVE
  end.

Lemma slot_state_says fl hd :
  bytes hd → BOOT_HDR_SIZE ≤ len hd → slot_says fl hd (slot_state fl hd).1 (slot_state fl hd).2.
Proof.
  intros Hb Hl. unfold slot_state.
  destruct (parse_total hd boot_hdr_zero Hb Hl) as (ok & h & Hp & _). rewrite Hp. destruct ok; cbn.
  - pose proof (parse_has_header _ _ _ Hb Hl Hp) as Hh. destruct (decide (image_ok fl h)) as [Hi|Hi]; [|done].
    destruct (Z.eqb_spec (h_state h) BOOT_STATE_ACTIVE); done.
  - intros h' Hh%(has_header_parse _ _ boot_hdr_zero). congruence.
Qed.

Lemma slot_says_inj fl hd st st' h h' :
  slot_says fl hd st h → slot_says fl hd st' h' → st = st'.
Proof.
  destruct st, st'; cbn; intros; destruct_and?; try done; try (by exfalso; naive_solver);
    repeat match goal with H : has_header hd ?x, H' : has_header hd ?y |- _ =>
      assert_fails (constr_eq x y); pose proof (has_header_inj _ _ _ H H'); subst x end; congruence.
Qed.

Lemma slot_check_eq fl hd out :
  bytes hd → BOOT_HDR_SIZE ≤ len hd →
  boot_slot_check (Ptr hd) (len hd) (Ptr fl) (len fl) out =
    let '(st, h) := slot_state fl hd in
    Some (st, match st, out with BOOT_SLOT_BLANK, _ => out | _, NULL => NULL | _, Ptr _ => Ptr h end).
Proof.
  intros Hb Hl. unfold boot_slot_check, slot_state. cbn [is_null orb].
  replace (len hd <? BOOT_HDR_SIZE) with false by lia. cbn [orb].
  destruct (parse_total hd boot_hdr_zero Hb Hl) as (ok & h & Hp & _ & Hr). rewrite Hp. bind_simpl.
  destruct ok; cbn [negb]; [|done]. cbn [deref]. bind_simpl. destruct (Hr eq_refl) as (Hlen & _). unfold is_u32 in Hlen.
  destruct (decide (image_ok fl h)) as [[Hn Hc]|Hi]; unfold image_ok in *.
  - replace ((h_length h =? 0) || (len fl <? h_length h)) with false by lia.
    rewrite crc16_bytes by lia. bind_simpl. rewrite Hc, Z.eqb_refl. cbn [negb].
    by destruct (h_state h =? BOOT_STATE_ACTIVE), out.
  - destruct ((h_length h =? 0) || (len fl <? h_length h)) eqn:E; [by destruct out|].
    rewrite crc16_bytes by lia. bind_simpl.
    destruct (Z.eqb_spec (crc_bytes (slice 0 (h_length h) fl)) (h_image_crc h)) as [Hc|]; [|by destruct out].
    exfalso. apply Hi. split; [lia|done].
Qed.

(** ** The plausibility check *)

Lemma lor_reverse a b c d : Z.lor (Z.lor (Z.lor a b) c) d = Z.lor (Z.lor (Z.lor d c) b) a.
Proof.
  apply Z.bits_inj'. intros n _. rewrite !Z.lor_spec.
  by destruct (Z.testbit a n), (Z.testbit b n), (Z.testbit c n), (Z.testbit d n).
Qed.

Lemma rd_le32_val b p x y z w :
  rd b p = Some x → rd b (p + 1) = Some y → rd b (p + 2) = Some z → rd b (p + 3) = Some w →
  is_u8 x → is_u8 y → is_u8 z → is_u8 w → rd_le32 b p = Some (le32_val x y z w).
Proof.
  intros Hx Hy Hz Hw Hbx Hby Hbz Hbw. unfold rd_le32, le32_val. rewrite Hx, Hy, Hz, Hw. bind_simpl. f_equal.
  by rewrite <- (be32_val w z y x), lor_reverse by done.
Qed.

Lemma land_even pc : is_u32 pc → Z.land pc 0xFFFFFFFE = pc - pc mod 2.
Proof.
  intros Hpc. assert (Z.land pc 0xFFFFFFFF = pc) as Hall.
  { change 0xFFFFFFFF with (Z.ones 32). rewrite Z.land_ones by done. by apply Z.mod_small. }
  assert (Z.land pc 1 = pc mod 2) as H1 by (change 1 with (Z.ones 1); by rewrite Z.land_ones).
  change 0xFFFFFFFF with (Z.lor 0xFFFFFFFE 1) in Hall. rewrite Z.land_lor_distr_r, H1 in Hall.
  pose proof (Z.add_lor_land (Z.land pc 0xFFFFFFFE) (pc mod 2)) as Hadd. rewrite Hall in Hadd.
  assert (Z.land (Z.land pc 0xFFFFFFFE) (pc mod 2) = 0) as Hz; [|lia].
  rewrite <- H1, <- Z.land_assoc, (Z.land_comm pc 1), (Z.land_assoc 0xFFFFFFFE).
  change (Z.land 0xFFFFFFFE 1) with 0. apply Z.land_0_r.
Qed.

Lemma land_odd pc : (Z.land pc 1 =? 0) = negb (pc mod 2 =? 1).
Proof. change (Z.land pc 1) with (Z.land pc (Z.ones 1)). rewrite Z.land_ones by done. change (2 ^ 1) with 2. lia. Qed.

(** [boot_image_plausible] decides [plausible]. *)
Lemma plausible_eq g img n :
  bytes img → n ≤ len img < 4294967296 → is_u32 (g_load_addr g) → is_u32 (g_sram_base g) → is_u32 (g_sram_size g) →
  boot_image_plausible (Ptr img) n (g_load_addr g) (g_sram_base g) (g_sram_size g) =
    Some (bool_decide (plausible g img n)).
Proof.
  intros Hb Hn Hla Hsb Hss. unfold boot_image_plausible.
  destruct (Z.ltb_spec n 8) as [Hsmall|Hbig].
  { f_equal. symmetry. apply bool_decide_false. unfold plausible.
    do 8 (destruct img as [|? img]; [tauto|]). lia. }
  assert (8 ≤ length img)%nat as Hl by (unfold len in Hn; lia).
  do 8 (destruct img as [|? img]; [cbn in Hl; lia|]). clear Hl.
  do 8 (apply bytes_cons in Hb; destruct Hb as [? Hb]).
  rewrite (rd_le32_val _ 0 z z0 z1 z2), (rd_le32_val _ 4 z3 z4 z5 z6) by done. bind_simpl.
  set (sp := le32_val z z0 z1 z2). set (pc := le32_val z3 z4 z5 z6). unfold is_u32 in *.
  assert (is_u32 pc) as Hpc by (unfold pc, le32_val, is_u8, is_u32 in *; lia).
  rewrite !u64_id, land_odd, land_even by (done || lia). unfold is_u32 in Hpc.
  pose proof (bool_decide_spec (plausible g (z :: z0 :: z1 :: z2 :: z3 :: z4 :: z5 :: z6 :: img) n)) as Hd.
  revert Hd. generalize (bool_decide (plausible g (z :: z0 :: z1 :: z2 :: z3 :: z4 :: z5 :: z6 :: img) n)).
  cbn [plausible]. fold sp pc. clearbody sp pc. intros d Hd.
  assert (∀ Q : Prop, ¬ Q → (d ↔ Q) → Some false = Some d) as Hno by (by destruct d; intros Q HQ [Hq _]; [destruct HQ; apply Hq|]).
  destruct (Z.leb_spec sp (g_sram_base g)); [by eapply Hno, Hd; lia|].
  destruct (Z.ltb_spec (g_sram_base g + g_sram_size g) sp); [by eapply Hno, Hd; lia|]. cbn [orb].
  destruct (Z.eqb_spec (sp mod 4) 0); [|by eapply Hno, Hd; lia]. cbn [negb].
  destruct (Z.eqb_spec (pc mod 2) 1) as [Hodd|]; [|by eapply Hno, Hd; lia]. cbn [negb]. rewrite Hodd in *.
  destruct (Z.ltb_spec (pc - 1) (g_load_addr g)); [by eapply Hno, Hd; lia|].
  destruct (Z.leb_spec (g_load_addr g + n) (pc - 1)); [by eapply Hno, Hd; lia|].
  destruct d; [done|]. exfalso. apply Hd. lia.
Qed.

(** ** The commands *)

Lemma slot_state_range fl hd :
  bytes hd → BOOT_HDR_SIZE ≤ len hd →
  is_u32 (h_length (slot_state fl hd).2) ∧ is_u16 (h_image_crc (slot_state fl hd).2).
Proof.
  intros Hb Hl. unfold slot_state. destruct (parse_total hd boot_hdr_zero Hb Hl) as (ok & h & Hp & _ & Hr).
  rewrite Hp. destruct ok; [|done]. by destruct (Hr eq_refl) as (? & ? & _).
Qed.

Lemma len_status_bytes s : len (status_bytes s) = BOOT_STATUS_RSP_LEN.
Proof. unfold status_bytes. destruct (slot_state _ _) as [[] h]; done. Qed.

Lemma bytes_status_bytes s : bytes (status_bytes s).
Proof.
  unfold status_bytes. destruct (slot_state _ _) as [st h].
  repeat apply bytes_app; try apply bytes_be16; try apply bytes_be32;
    try (by destruct st; try apply bytes_be16; try apply bytes_be32; apply (bool_decide_unpack _); vm_compute);
    destruct st, (s_erased s); try apply bytes_be16; try apply bytes_be32; apply (bool_decide_unpack _); vm_compute; exact I.
Qed.

Lemma wr_next b x v k : k = len x → k < len b → wr (splice b 0 x) k v = Some (splice b 0 (x ++ [v])).
Proof.
  intros -> Hk. pose proof (len_nonneg x). rewrite wr_some by (rewrite len_splice; lia).
  f_equal. rewrite <- (splice_snoc b 0 x v) by lia. f_equal. 
Qed.

Lemma build_status_eq g s rsp cap n :
  slot_wf g s → BOOT_STATUS_RSP_LEN ≤ cap ≤ len rsp →
  build_status (ctx_of g s) (Ptr rsp) cap n = Some (SW_OK, Ptr (splice rsp 0 (status_bytes s)), BOOT_STATUS_RSP_LEN).
Proof.
  intros Hwf Hcap. unfold build_status. replace (cap <? BOOT_STATUS_RSP_LEN) with false by lia.
  cbn [ctx_of oshdr oshdr_size osflash osflash_size ctx_erased high_water].
  rewrite slot_check_eq by apply Hwf. unfold status_bytes. destruct (slot_state _ _) as [st h]. bind_simpl.
  unfold BOOT_STATUS_RSP_LEN in Hcap. rewrite !be16_u8, !be32_u8.
  destruct st, (s_erased s); cbn [app deref]; bind_simpl; rewrite <- (splice_nil rsp 0) at 1;
    do 16 (rewrite wr_next by (unfold len in *; cbn [length app]; lia); bind_simpl); reflexivity.
Qed.

Lemma erase_eq g s :
  slot_wf g s →
  do_erase (ctx_of g s) =
    Some (SW_OK, ctx_of g (Slot (erased (len (s_flash s))) (erased (len (s_hdr s))) 0 true)).
Proof.
  intros []. unfold do_erase, ctx_of, BOOT_HDR_SIZE in *. cbn.
  rewrite (erase_all_eq (s_hdr s)) by (done || lia). bind_simpl. cbv beta iota. rewrite bool_decide_true by done. cbn.
  rewrite erase_all_eq by (done || lia). bind_simpl. cbv beta iota. rewrite bool_decide_true by done. cbn.
  by rewrite !len_erased by lia.
Qed.

Lemma load_eq g s p1 p2 b lc :
  slot_wf g s → bytes b → is_u8 p1 → is_u8 p2 → 0 < lc < 256 → lc ≤ len b →
  do_load (ctx_of g s) p1 p2 (Ptr b) lc =
    Some (let '(sw, s') := boot_spec g s (CmdLoad ((p1 * 256 + p2) * BOOT_BLOCK_SIZE) (slice 0 lc b)) in
          (sw, ctx_of g s')).
Proof.
  intros Hwf Hb Hp1 Hp2 Hlc Hl. destruct Hwf. assert (len (slice 0 lc b) = lc) as Hls by (apply len_slice; lia).
  unfold do_load. cbn [ctx_of ctx_erased boot_spec osflash osflash_size].
  destruct (s_erased s) eqn:He; [|done]. cbn [negb]. rewrite Hls.
  replace (lc =? 0) with false by lia. cbn [orb]. destruct (Z.ltb_spec BOOT_BLOCK_SIZE lc); [done|].
  rewrite (lor_shiftl_add p1 p2 8) by (unfold is_u8 in *; change (2 ^ 8) with 256; lia). change (2 ^ 8) with 256.
  set (off := (p1 * 256 + p2) * BOOT_BLOCK_SIZE).
  assert (0 ≤ off < 8388608) as Hoff by (unfold off, BOOT_BLOCK_SIZE, is_u8 in *; lia). clearbody off.
  rewrite (u32_id off), u64_id by (unfold is_u32; lia).
  destruct (Z.ltb_spec (len (s_flash s)) (off + lc)); [done|].
  rewrite (program_eq _ _ off b lc) by (done || lia). replace (off + lc <=? len (s_flash s)) with true by lia. cbn [negb].
  destruct (bool_decide _).
  - bind_simpl. cbv beta iota. rewrite bool_decide_false, bool_decide_true by done. cbn. rewrite u32_id by (unfold is_u32; lia).
    unfold ctx_of. cbn.
    rewrite len_splice by (rewrite ?Hls; lia).
    destruct (Z.ltb_spec (s_high s) (off + lc)); [rewrite Z.max_r by lia|rewrite Z.max_l by lia]; by rewrite <- He.
  - bind_simpl. cbv beta iota. rewrite bool_decide_true by done. done.
Qed.

Lemma verify_eq g s b lc :
  slot_wf g s → bytes b → 0 < lc < 256 → lc ≤ len b →
  do_verify (ctx_of g s) (Ptr b) lc =
    Some (let '(sw, s') := boot_spec g s (CmdVerify (slice 0 lc b)) in (sw, ctx_of g s')).
Proof.
  intros Hwf Hb Hlc Hl. unfold do_verify. cbn [boot_spec].
  assert (len (slice 0 lc b) = lc) as Hls by (apply len_slice; lia).
  destruct (Z.eqb_spec lc 6) as [->|Hne]; cbn [negb].
  2:{ destruct (slice 0 lc b) as [|? [|? [|? [|? [|? [|? [|? ?]]]]]]]; try done. }
  assert (6 ≤ length b)%nat as Hlen by (unfold len in Hl; lia).
  do 6 (destruct b as [|? b]; [cbn in Hlen; lia|]). clear Hlen Hl Hlc Hls.
  do 6 (apply bytes_cons in Hb; destruct Hb as [? Hb]).
  change (slice 0 6 (z :: z0 :: z1 :: z2 :: z3 :: z4 :: b)) with [z; z0; z1; z2; z3; z4].
  cbn [ctx_of ctx_erased]. destruct (s_erased s) eqn:He; [|done]. cbn [negb deref]. bind_simpl.
  unfold rd32. set (r := z :: _). change (rd r 0) with (Some z). change (rd r (0 + 1)) with (Some z0).
  change (rd r (0 + 2)) with (Some z1). change (rd r (0 + 3)) with (Some z2).
  rewrite (rd16_val r 4 z3 z4 eq_refl eq_refl) by done. bind_simpl. rewrite be32_val by done. clear r.
  set (l := ((z * 256 + z0) * 256 + z1) * 256 + z2). set (crc := z3 * 256 + z4).
  assert (is_u32 l) as Hl by (unfold l, is_u8, is_u32 in *; lia).
  assert (is_u16 crc) as Hcrc by (unfold crc, is_u8, is_u16 in *; lia). clearbody l crc.
  destruct Hwf. unfold verify_spec. cbn [ctx_of osflash_size osflash high_water load_addr sram_base sram_size oshdr oshdr_size].
  destruct (Z.eqb_spec l 0); [done|]. destruct (Z.ltb_spec (len (s_flash s)) l); [done|]. cbn [orb].
  destruct (Z.ltb_spec (s_high s) l); [done|]. unfold is_u32 in Hl. rewrite crc16_bytes by lia. bind_simpl.
  destruct (crc_bytes _ =? crc); [|done]. cbn [negb].
  rewrite plausible_eq by (done || lia). bind_simpl. destruct (bool_decide (plausible _ _ _)); [|done]. cbn [negb].
  rewrite serialise_eq by done. bind_simpl. cbn [h_length h_image_crc].
  set (h := hdr_bytes l crc BOOT_STATE_LOADED). assert (len h = BOOT_HDR_SIZE) as Hh by apply len_hdr_bytes.
  pose proof (bytes_hdr_bytes l crc BOOT_STATE_LOADED) as Hhb. fold h in Hhb. clearbody h.
  rewrite (program_eq _ _ 0 h BOOT_HDR_SIZE) by (done || lia || unfold BOOT_HDR_SIZE in *; lia).
  rewrite <- Hh, slice_0_all. replace (0 + len h <=? len (s_hdr s)) with true by lia. cbn [negb].
  destruct (bool_decide (only_cleared _ h)); bind_simpl; cbv beta iota.
  - rewrite bool_decide_true by done. cbn [negb]. unfold ctx_of, set_oshdr. cbn. by rewrite len_splice by lia.
  - by rewrite bool_decide_false by done.
Qed.

Lemma activate_eq g s :
  slot_wf g s →
  do_activate (ctx_of g s) =
    Some (let '(sw, s') := boot_spec g s CmdActivate in (sw, ctx_of g s')).
Proof.
  intros []. unfold do_activate. cbn [ctx_of boot_spec osflash_size osflash oshdr oshdr_size].
  rewrite slot_check_eq by (done || lia). destruct (slot_state _ _) as [st h]. bind_simpl. cbn [fst].
  destruct st; try done. unfold BOOT_HDR_SIZE in *.
  rewrite (program_eq (s_hdr s) (len (s_hdr s)) 14 [0; 0] 2 eq_refl);
    [|lia|solve_bytes|lia|change (len [0; 0]) with 2; lia|lia].
  change (slice 0 2 [0; 0]) with [0; 0]. replace (14 + 2 <=? len (s_hdr s)) with true by lia. cbn [negb].
  assert (length (slice 14 2 (s_hdr s)) = 2%nat) as Hl.
  { pose proof (len_slice 14 2 (s_hdr s)) as Hs. unfold len in *. lia. }
  destruct (slice 14 2 (s_hdr s)) as [|x [|y [|]]]; [done|done| |done].
  rewrite bool_decide_true by (repeat constructor; apply clears_zero). bind_simpl. cbv beta iota.
  rewrite bool_decide_true by done. cbn [negb]. unfold ctx_of, set_oshdr. cbn.
  by rewrite len_splice by (unfold len in *; cbn; lia).
Qed.

(** ** The whole of [boot_handle] *)

(** The data field [d] as [boot_handle] hands it to a command. *)
Definition body_is (data : ptr (list Z)) (lc : Z) (d : list Z) : Prop :=
  data = NULL ∧ lc = 0 ∧ d = [] ∨
  ∃ b, data = Ptr b ∧ bytes b ∧ 0 < lc < 256 ∧ lc ≤ len b ∧ d = slice 0 lc b.

Lemma body_is_len data lc d : body_is data lc d → len d = lc ∧ 0 ≤ lc.
Proof.
  intros [(-> & -> & ->)|(b & -> & Hb & Hlc & Hl & ->)]; [done|]. rewrite len_slice by lia. lia.
Qed.

Lemma boot_switch_eq g s ins p1 p2 data lc d rsp cap :
  slot_wf g s → is_u8 p1 → is_u8 p2 → body_is data lc d → BOOT_STATUS_RSP_LEN ≤ cap ≤ len rsp →
  boot_switch (ctx_of g s) ins p1 p2 data lc (Ptr rsp) cap =
    Some (boot_answer g s (decode_body ins p1 p2 d) rsp).
Proof.
  intros Hwf Hp1 Hp2 Hd Hcap. destruct (body_is_len _ _ _ Hd) as [Hlen Hlc].
  unfold boot_switch, decode_body. rewrite !Hlen.
  repeat match goal with |- context [ins =? ?i] => destruct (Z.eqb_spec ins i) as [->|]; cbn [negb]; [|] end.
  - destruct (lc =? 0); cbn [negb]; [|done]. destruct (_ || _); [done|].
    rewrite build_status_eq by done. done.
  - destruct (lc =? 0); cbn [negb]; [|done]. destruct (_ || _); [done|]. rewrite erase_eq by done. done.
  - destruct Hd as [(-> & -> & ->)|(b & -> & Hb & Hlc' & Hl & ->)]; [done|]. replace (lc =? 0) with false by lia.
    rewrite load_eq by done. unfold boot_answer. by destruct (boot_spec _ _ _).
  - destruct Hd as [(-> & -> & ->)|(b & -> & Hb & Hlc' & Hl & ->)]; [done|]. replace (lc =? 0) with false by lia.
    destruct (_ || _); [done|]. rewrite verify_eq by done. unfold boot_answer. by destruct (boot_spec _ _ _).
  - destruct (lc =? 0); cbn [negb]; [|done]. destruct (_ || _); [done|]. rewrite activate_eq by done.
    unfold boot_answer. by destruct (boot_spec _ _ _).
  - destruct (lc =? 0); cbn [negb]; [|done]. destruct (_ || _); [done|].
    cbn [ctx_of osflash_size osflash oshdr oshdr_size]. rewrite slot_check_eq by (apply Hwf || (destruct Hwf; lia)).
    unfold boot_answer, boot_spec. destruct (slot_state _ _) as [st h]. bind_simpl. by destruct st.
  - done.
Qed.

Lemma handle_eq g s b n rsp cap x a :
  slot_wf g s → bytes b → 0 ≤ n ≤ len b → BOOT_STATUS_RSP_LEN ≤ cap ≤ len rsp →
  boot_handle (Ptr (ctx_of g s)) (Ptr b) n (Ptr rsp) cap (Ptr x) (Ptr a) =
    Some (boot_answer g s (decode (slice 0 n b)) rsp).
Proof.
  intros Hwf Hb Hn Hcap. unfold boot_handle.
  assert (len (slice 0 n b) = n) as Hls by (apply len_slice; lia).
  pose proof (bytes_slice 0 n b Hb) as Hsb. 
  assert (slice 0 n b ++ drop (Z.to_nat n) b = b) as Happ by apply take_drop.
  revert Hls Hsb Happ. generalize (slice 0 n b) (drop (Z.to_nat n) b). intros c rest Hls Hsb <-. clear Hn.
  subst n. destruct (Z.ltb_spec (len c) 4) as [Hsmall|H4].
  { unfold len in Hsmall. do 4 (destruct c as [|? c]; [done|]). cbn in Hsmall. lia. }
  assert (4 ≤ length c)%nat as Hl by (unfold len in H4; lia).
  do 4 (destruct c as [|? c]; [cbn in Hl; lia|]). clear Hl H4.
  do 4 (apply bytes_cons in Hsb; destruct Hsb as [? Hsb]).
  cbn [decode]. cbn [app]. 
  set (r := z :: z0 :: z1 :: z2 :: c ++ rest). change (rd r 0) with (Some z). change (rd r 1) with (Some z0).
  change (rd r 2) with (Some z1). change (rd r 3) with (Some z2). bind_simpl.
  destruct (z =? BOOT_CLA); [|done]. cbn [negb].
  destruct c as [|x0 [|x1 c]].
  - change (5 <? len [z; z0; z1; z2]) with false. change (len [z; z0; z1; z2] =? 5) with false. cbv iota.
    apply boot_switch_eq; try done. by left.
  - change (5 <? len [z; z0; z1; z2; x0]) with false. change (len [z; z0; z1; z2; x0] =? 5) with true. cbv iota.
    change (rd r 4) with (Some x0). bind_simpl. destruct (_ && _); [done|]. apply boot_switch_eq; try done. by left.
  - assert (len (z :: z0 :: z1 :: z2 :: x0 :: x1 :: c) = 5 + len (x1 :: c)) as -> by (rewrite !len_cons; lia).
    pose proof (len_nonneg c). pose proof (len_cons x1 c).
    replace (5 <? 5 + len (x1 :: c)) with true by lia. change (rd r 4) with (Some x0). bind_simpl.
    replace (5 + len (x1 :: c) - 5) with (len (x1 :: c)) by lia.
    destruct (Z.eqb_spec x0 0); [done|]. destruct (Z.eqb_spec x0 (len (x1 :: c))) as [Hx|]; [|done]. cbn [negb orb].
    apply bytes_cons in Hsb as [Hx0 Hsb].
    apply boot_switch_eq; try done. right. exists ((x1 :: c) ++ rest). split; [done|].
    split; [by apply bytes_app; [|apply (Forall_app _ (z :: z0 :: z1 :: z2 :: x0 :: x1 :: c))]|].
    split; [unfold is_u8 in *; lia|]. split; [rewrite len_app; pose proof (len_nonneg rest); lia|].
    rewrite Hx. unfold slice, len. rewrite Nat2Z.id. symmetry. apply (take_app_length (x1 :: c)).
Qed.
