(* ===== verification/BootSafety.v ===== *)
(** * What the boot loader guarantees

    Sessions of loader commands: the well-formedness of the slot is invariant,
    nothing but ERASE gives up an installed image, nothing but ACTIVATE makes an
    image bootable, and the download protocol installs the image it is given. *)

From S2P Require Import Prelude OsMem Crc16 CFlash BootHdr BootLoader.

(** The commands of one power session, with one response buffer. *)
Fixpoint boot_session (ctx : ptr boot_ctx) (rsp : ptr (list Z)) (cap : Z) (cmds : list (list Z))
    : option (list boot_result * ptr boot_ctx) :=
  match cmds with
  | [] => Some ([], ctx)
  | b :: bs =>
      r ← boot_handle ctx (Ptr b) (len b) rsp cap (Ptr 0) (Ptr BOOT_ACT_NONE);
      '(rs, ctx') ← boot_session (b_ctx r) (b_rsp r) cap bs;
      Some (r :: rs, ctx')
  end.

Definition cmd_ok (c : boot_cmd) : Prop :=
  match c with
  | CmdMalformed sw => is_u16 sw ∧ sw ≠ 0
  | CmdLoad off d => 0 ≤ off ∧ bytes d
  | CmdVerify d => bytes d
  | _ => True
  end.

Lemma decode_body_ok ins p1 p2 d : is_u8 p1 → is_u8 p2 → bytes d → cmd_ok (decode_body ins p1 p2 d).
Proof.
  intros Hp1 Hp2 Hd. unfold decode_body, is_u8, BOOT_BLOCK_SIZE in *.
  repeat case_if; cbn; try done; split; try done; lia.
Qed.

Lemma decode_ok b : bytes b → cmd_ok (decode b).
Proof.
  intros Hb. destruct b as [|cla [|ins [|p1 [|p2 body]]]]; try (split; done).
  do 4 (apply bytes_cons in Hb; destruct Hb as [? Hb]). cbn. case_if; [done|].
  assert (bytes []) as Hnil by constructor.
  destruct body as [|x [|y body]]; [by apply decode_body_ok|case_if; [done|by apply decode_body_ok]|].
  case_if; [done|]. apply bytes_cons in Hb as [? Hb]. by apply decode_body_ok.
Qed.

Section loader.
Context (g : geometry).

(** ** One command *)

Lemma slot_wf_set_hdr s off d :
  slot_wf g s → bytes d → 0 ≤ off → off + len d ≤ len (s_hdr s) →
  slot_wf g (Slot (s_flash s) (splice (s_hdr s) off d) (s_high s) (s_erased s)).
Proof.
  intros [] Hd Hoff Hl. split; cbn; rewrite ?len_splice by done; try done. by apply bytes_splice.
Qed.

Lemma slot_wf_erase s :
  slot_wf g s → slot_wf g (Slot (erased (len (s_flash s))) (erased (len (s_hdr s))) 0 true).
Proof.
  intros []. unfold BOOT_HDR_SIZE in *.
  split; cbn; rewrite ?len_erased by lia; try done; try apply bytes_erased; [lia|].
  intros _. rewrite Z.sub_0_r. by apply slice_erased; lia.
Qed.

Lemma slot_wf_load s off d :
  slot_wf g s → s_erased s = true → bytes d → 0 ≤ off → off + len d ≤ len (s_flash s) →
  slot_wf g (Slot (splice (s_flash s) off d) (s_hdr s) (Z.max (s_high s) (off + len d)) true).
Proof.
  intros Hwf He Hd Hoff Hl. pose proof (len_nonneg d). pose proof (sw_tail _ _ Hwf He) as Htail. destruct Hwf.
  split; cbn; rewrite ?len_splice by done; try done; [by apply bytes_splice|lia|]. intros _.
  rewrite slice_splice_other by lia.
  set (m := Z.max (s_high s) (off + len d)). set (n := len (s_flash s)) in *.
  pose proof (slice_slice (s_flash s) (s_high s) (n - s_high s) (m - s_high s) (n - m)) as Hss.
  replace (s_high s + (m - s_high s)) with m in Hss by lia. rewrite <- Hss by lia. rewrite Htail.
  apply slice_erased; lia.
Qed.

Lemma boot_spec_wf s c : slot_wf g s → cmd_ok c → slot_wf g (boot_spec g s c).2.
Proof.
  intros Hwf Hc. destruct c as [sw| | |off d|d| |]; cbn [boot_spec]; try done.
  - by apply slot_wf_erase.
  - destruct Hc as [Hoff Hd]. destruct (s_erased s) eqn:He; cbn [negb]; [|done].
    repeat case_if; try done. apply slot_wf_load; done || lia.
  - do 7 (destruct d as [|? d]; try done). case_if; [done|]. unfold verify_spec. repeat case_if; try done.
    pose proof (sw_hdr_size _ _ Hwf). cbn [snd].
    apply slot_wf_set_hdr; [done|apply bytes_hdr_bytes|done|]. rewrite len_hdr_bytes. lia.
  - destruct (slot_state _ _).1; try done. pose proof (sw_hdr_size _ _ Hwf). unfold BOOT_HDR_SIZE in *.
    apply slot_wf_set_hdr; [done|solve_bytes|done|]. change (len [0; 0]) with 2. lia.
  - by destruct (slot_state _ _).1.
Qed.

Lemma boot_spec_sw s c : cmd_ok c → is_u16 (boot_spec g s c).1 ∧ (boot_spec g s c).1 ≠ 0.
Proof.
  intros Hc. destruct c as [sw| | |off d|d| |]; cbn [boot_spec]; try done.
  - repeat case_if; done.
  - do 7 (destruct d as [|? d]; try done). case_if; [done|]. unfold verify_spec. repeat case_if; done.
  - by destruct (slot_state _ _).1.
  - by destruct (slot_state _ _).1.
Qed.
(** ** Sessions *)

Lemma handle_step s b rsp cap :
  slot_wf g s → bytes b → BOOT_STATUS_RSP_LEN ≤ cap ≤ len rsp →
  ∃ rsp', boot_handle (Ptr (ctx_of g s)) (Ptr b) (len b) (Ptr rsp) cap (Ptr 0) (Ptr BOOT_ACT_NONE) =
      Some (boot_answer g s (decode b) rsp) ∧
    b_ctx (boot_answer g s (decode b) rsp) = Ptr (ctx_of g (boot_spec g s (decode b)).2) ∧
    b_rsp (boot_answer g s (decode b) rsp) = Ptr rsp' ∧ len rsp' = len rsp ∧
    slot_wf g (boot_spec g s (decode b)).2.
Proof.
  intros Hwf Hb Hcap. rewrite handle_eq by (done || (pose proof (len_nonneg b); lia)). rewrite slice_0_all.
  pose proof (boot_spec_wf s (decode b) Hwf (decode_ok b Hb)) as Hwf'.
  unfold boot_answer. destruct (boot_spec g s (decode b)) as [sw s']. eexists.
  split; [reflexivity|]. split; [reflexivity|]. split; [reflexivity|]. split; [|exact Hwf'].
  destruct (decode b); try done. rewrite len_splice; rewrite ?len_status_bytes; lia.
Qed.

Lemma session_invariant (C : list Z → Prop) (P : slot → Prop) (Q : boot_result → Prop) cap :
  (∀ s b rsp, slot_wf g s → P s → bytes b → C b →
    P (boot_spec g s (decode b)).2 ∧ Q (boot_answer g s (decode b) rsp)) →
  ∀ cmds s rsp, slot_wf g s → P s → Forall bytes cmds → Forall C cmds → BOOT_STATUS_RSP_LEN ≤ cap ≤ len rsp →
  ∃ rs s', boot_session (Ptr (ctx_of g s)) (Ptr rsp) cap cmds = Some (rs, Ptr (ctx_of g s')) ∧
    slot_wf g s' ∧ P s' ∧ Forall Q rs ∧ length rs = length cmds.
Proof.
  intros Hstep cmds. induction cmds as [|b cmds IH]; intros s rsp Hwf HP Hb HC Hcap.
  { exists [], s. split; [done|]. split; [done|]. split; [done|]. by split; [constructor|]. }
  apply Forall_cons in Hb as [Hb Hbs]. apply Forall_cons in HC as [HCb HC].
  destruct (Hstep s b rsp Hwf HP Hb HCb) as [HP' HQ].
  destruct (handle_step s b rsp cap Hwf Hb Hcap) as (rsp' & Hh & Hctx & Hrsp & Hl & Hwf').
  destruct (IH _ rsp' Hwf' HP' Hbs HC ltac:(lia)) as (rs & s' & Hs & Hw & Hp & Hq & Hn).
  exists (boot_answer g s (decode b) rsp :: rs), s'. cbn [boot_session]. rewrite Hh. bind_simpl.
  rewrite Hctx, Hrsp, Hs. bind_simpl. split; [done|]. split; [done|]. split; [done|].
  split; [by constructor|]. cbn. by rewrite Hn.
Qed.

(** ** Without ERASE *)

(** What a session without ERASE may have done to the slot [s0]. *)
Definition kept (s0 s : slot) : Prop :=
  only_cleared (s_flash s0) (s_flash s) ∧ only_cleared (s_hdr s0) (s_hdr s) ∧ s_erased s = s_erased s0 ∧
  (s_erased s0 = false → s_flash s = s_flash s0 ∧ (s_hdr s = s_hdr s0 ∨ s_hdr s = splice (s_hdr s0) 14 [0; 0])).

Lemma only_cleared_zeros b off :
  0 ≤ off → off + 2 ≤ len b → only_cleared b (splice b off [0; 0]).
Proof.
  intros Hoff Hl. apply only_cleared_splice; [done|done|].
  assert (len (slice off 2 b) = 2) as H2 by (apply len_slice; lia).
  change (len [0; 0]) with 2. unfold len in H2.
  destruct (slice off 2 b) as [|x [|y [|]]]; cbn in H2; try lia.
  constructor; [apply clears_zero|]. constructor; [apply clears_zero|constructor].
Qed.

Lemma only_cleared_splice_bool b off d :
  0 ≤ off → off + len d ≤ len b → bool_decide (only_cleared (slice off (len d) b) d) = true →
  only_cleared b (splice b off d).
Proof. intros ? ? Hc%bool_decide_eq_true. by apply only_cleared_splice. Qed.

Lemma splice_splice_same b off x y :
  0 ≤ off → off + len x ≤ len b → len y = len x → splice (splice b off x) off y = splice b off y.
Proof.
  intros Hoff Hl Hxy. apply list_eq. intros k. rewrite !lookup_splice by (rewrite ?len_splice; lia).
  rewrite Hxy. by case_decide.
Qed.

Lemma kept_step s0 s c :
  slot_wf g s → kept s0 s → cmd_ok c → c ≠ CmdErase → kept s0 (boot_spec g s c).2.
Proof.
  intros Hwf Hk Hc He. pose proof (sw_hdr_size _ _ Hwf) as Hh. unfold BOOT_HDR_SIZE in Hh.
  assert (∀ fl hd hi, only_cleared (s_flash s) fl → only_cleared (s_hdr s) hd → s_erased s = true →
    kept s0 (Slot fl hd hi true)) as Hgen.
  { intros fl hd hi Hfl Hhd Her. destruct Hk as (Hkf & Hkh & Hke & _). rewrite Hke in Her.
    split; [by transitivity (s_flash s)|]. split; [by transitivity (s_hdr s)|]. cbn. split; [by rewrite Her|congruence]. }
  destruct c as [sw| | |off d|d| |]; cbn [boot_spec]; try done.
  - destruct Hc as [Hoff Hd]. destruct (s_erased s) eqn:Her; cbn [negb]; [|done].
    repeat case_if; try done. apply Hgen; [|done|done]. by apply only_cleared_splice_bool.
  - do 7 (destruct d as [|? d]; try done). destruct (s_erased s) eqn:Her; cbn [negb]; [|done].
    unfold verify_spec. repeat case_if; try done. cbn [snd]. rewrite Her. apply Hgen; [done| |done].
    apply only_cleared_splice_bool; [done|rewrite len_hdr_bytes; unfold BOOT_HDR_SIZE; lia|].
    by rewrite len_hdr_bytes.
  - destruct (slot_state _ _).1; try done. destruct Hk as (Hkf & Hkh & Hke & Hk). split; [done|].
    split; [transitivity (s_hdr s); [done|apply only_cleared_zeros; lia]|]. split; [done|].
    intros Her. destruct (Hk Her) as [Hf Hhd]. split; [done|]. right. cbn.
    pose proof (only_cleared_len _ _ Hkh) as Hl.
    destruct Hhd as [->|Hhd]; [done|]. rewrite Hhd, splice_splice_same; [done|done|change (len [0; 0]) with 2; lia|done].
  - by destruct (slot_state _ _).1.
Qed.

(** ** Without ACTIVATE *)

(** After an ERASE the state word stays erased until ACTIVATE clears it. *)
Definition inactive (s : slot) : Prop := slice 14 2 (s_hdr s) = [0xFF; 0xFF].

Lemma state_word l c st : slice 14 2 (hdr_bytes l c st) = be16 st.
Proof. unfold hdr_bytes, seal. generalize (crc_bytes (hdr_body l c)). intros k. reflexivity. Qed.

Lemma inactive_state s fl : inactive s → bytes (s_hdr s) → BOOT_HDR_SIZE ≤ len (s_hdr s) →
  (slot_state fl (s_hdr s)).1 ≠ BOOT_SLOT_ACTIVE.
Proof.
  intros Hi Hb Hl Ha. pose proof (slot_state_says fl (s_hdr s) Hb Hl) as Hs. rewrite Ha in Hs.
  destruct Hs as (Hh & _ & Hst). pose proof (hh_bytes _ _ Hh) as Hbytes.
  pose proof (slice_slice (s_hdr s) 0 BOOT_HDR_SIZE 14 2) as Hss. rewrite Hbytes, Hst, state_word in Hss.
  unfold inactive in Hi. rewrite Z.add_0_l, Hi in Hss. by specialize (Hss ltac:(done) ltac:(done) ltac:(done)).
Qed.

Lemma inactive_step s c :
  slot_wf g s → inactive s ∨ c = CmdErase → c ≠ CmdActivate → inactive (boot_spec g s c).2.
Proof.
  intros Hwf Hi Hc. pose proof (sw_hdr_size _ _ Hwf) as Hh. unfold BOOT_HDR_SIZE in Hh.
  assert (c ≠ CmdErase → inactive s) as Hi' by (intros ?; destruct Hi; [done|congruence]).
  destruct c as [sw| | |off d|d| |]; cbn [boot_spec]; try (by apply Hi').
  - unfold inactive. cbn. rewrite slice_erased by lia. done.
  - specialize (Hi' ltac:(done)). repeat case_if; done.
  - specialize (Hi' ltac:(done)). do 7 (destruct d as [|? d]; try done). case_if; [done|]. unfold verify_spec.
    repeat case_if; done.
  - done.
  - specialize (Hi' ltac:(done)). by destruct (slot_state _ _).1.
Qed.

(** No command restarts into a slot that is not active. *)
Lemma answer_action s b rsp :
  (slot_state (s_flash s) (s_hdr s)).1 ≠ BOOT_SLOT_ACTIVE →
  b_action (boot_answer g s (decode b) rsp) = Ptr BOOT_ACT_NONE.
Proof.
  intros Hs. unfold boot_answer. destruct (boot_spec g s (decode b)) as [sw s'] eqn:E. cbn [b_action].
  destruct (decode b); try done. cbn [boot_spec] in E. destruct (slot_state _ _).1; by injection E as <- <-.
Qed.

(** ** The download protocol *)

Definition erase_cmd : list Z := [BOOT_CLA; BOOT_INS_ERASE; 0; 0].
Definition load_cmd (k : Z) (d : list Z) : list Z := [BOOT_CLA; BOOT_INS_LOAD; k / 256; k mod 256; len d] ++ d.
Definition verify_cmd (l crc : Z) : list Z := [BOOT_CLA; BOOT_INS_VERIFY; 0; 0; 6] ++ be32 l ++ be16 crc.
Definition activate_cmd : list Z := [BOOT_CLA; BOOT_INS_ACTIVATE; 0; 0].
Definition restart_cmd : list Z := [BOOT_CLA; BOOT_INS_RESTART; 0; 0].

(** The blocks of an image from block [k] on, as LOAD commands. *)
Definition block (img : list Z) (k : Z) : list Z := slice (k * BOOT_BLOCK_SIZE) BOOT_BLOCK_SIZE img.
Definition block_count (img : list Z) : Z := (len img + (BOOT_BLOCK_SIZE - 1)) / BOOT_BLOCK_SIZE.
Definition load_cmds (img : list Z) : list (list Z) :=
  map (λ k, load_cmd k (block img k)) (upto (block_count img)).

Definition install (img : list Z) : list (list Z) :=
  erase_cmd :: load_cmds img ++ [verify_cmd (len img) (crc_bytes img); activate_cmd; restart_cmd].

(** Flash of [n] bytes holding the first [k] bytes of the image. *)
Definition loaded (img : list Z) (k n : Z) : list Z := slice 0 k img ++ erased (n - k).

Definition after_load (img : list Z) (hd : list Z) (n k : Z) : slot :=
  Slot (loaded img (Z.min (k * BOOT_BLOCK_SIZE) (len img)) n) hd (Z.min (k * BOOT_BLOCK_SIZE) (len img)) true.

Lemma len_loaded img k n : 0 ≤ k ≤ len img → k ≤ n → len (loaded img k n) = n.
Proof. intros Hk Hn. unfold loaded. rewrite len_app, len_slice, len_erased by lia. lia. Qed.

Lemma slice_app_r a b o n : 0 ≤ o → slice (len a + o) n (a ++ b) = slice o n b.
Proof.
  intros Ho. unfold slice, len. f_equal. rewrite drop_app_ge by lia. f_equal. lia.
Qed.

Lemma load_next img k d n :
  0 ≤ k → 0 ≤ d → k + d ≤ len img → len img ≤ n →
  splice (loaded img k n) k (slice k d img) = loaded img (k + d) n.
Proof.
  intros Hk Hd Hl Hn. apply list_eq. intros i.
  assert (len (slice k d img) = d) as Hs by (apply len_slice; lia).
  rewrite lookup_splice by (rewrite ?len_loaded; lia). rewrite Hs.
  assert (∀ m, 0 ≤ m ≤ len img → loaded img m n !! i =
    if decide (Z.of_nat i < m) then img !! i else if decide (Z.of_nat i < n) then Some 0xFF else None) as Hlk.
  { intros m Hm. unfold loaded.
    assert (Z.of_nat (length (slice 0 m img)) = m) as Hlm by (apply (len_slice 0 m img); lia). case_decide.
    - rewrite lookup_app_l by lia.
      rewrite lookup_slice by lia. rewrite decide_True by lia. f_equal.
    - rewrite lookup_app_r by lia. unfold erased.
      case_decide; [apply lookup_replicate_2; lia|apply lookup_ge_None_2; rewrite length_replicate; lia]. }
  rewrite !Hlk by lia.
  destruct (decide (k ≤ Z.of_nat i < k + d)).
  - rewrite lookup_slice by lia. rewrite decide_True by lia. rewrite decide_True by lia. f_equal. lia.
  - destruct (decide (Z.of_nat i < k)), (decide (Z.of_nat i < k + d)); done || lia.
Qed.

Fixpoint spec_session (s : slot) (cs : list boot_cmd) : list Z * slot :=
  match cs with
  | [] => ([], s)
  | c :: cs => let '(sw, s1) := boot_spec g s c in let '(sws, s2) := spec_session s1 cs in (sw :: sws, s2)
  end.

Lemma spec_session_app s cs cs' :
  spec_session s (cs ++ cs') =
    let '(sws, s1) := spec_session s cs in let '(sws', s2) := spec_session s1 cs' in (sws ++ sws', s2).
Proof.
  revert s. induction cs as [|c cs IH]; intros s; cbn [app spec_session]; [by destruct (spec_session s cs')|].
  destruct (boot_spec g s c) as [sw s1]. rewrite IH. destruct (spec_session s1 cs) as [sws s2].
  by destruct (spec_session s2 cs').
Qed.

(** When the loader asks for the restart. *)
Definition restarts (c : boot_cmd) (sw : Z) : boot_action :=
  match c with CmdRestart => if sw =? SW_OK then BOOT_ACT_RESTART else BOOT_ACT_NONE | _ => BOOT_ACT_NONE end.

Lemma session_refines cap cmds s rsp :
  slot_wf g s → Forall bytes cmds → BOOT_STATUS_RSP_LEN ≤ cap ≤ len rsp →
  ∃ rs, boot_session (Ptr (ctx_of g s)) (Ptr rsp) cap cmds =
      Some (rs, Ptr (ctx_of g (spec_session s (map decode cmds)).2)) ∧
    map b_sw rs = (spec_session s (map decode cmds)).1 ∧
    Forall2 (λ c r, b_action r = Ptr (restarts c (b_sw r))) (map decode cmds) rs ∧
    slot_wf g (spec_session s (map decode cmds)).2.
Proof.
  revert s rsp. induction cmds as [|b cmds IH]; intros s rsp Hwf Hb Hcap.
  { exists []. split; [done|]. split; [done|]. by split; [constructor|]. }
  apply Forall_cons in Hb as [Hb Hbs].
  destruct (handle_step s b rsp cap Hwf Hb Hcap) as (rsp' & Hh & Hctx & Hrsp & Hl & Hwf').
  destruct (IH _ rsp' Hwf' Hbs ltac:(lia)) as (rs & Hs & Hsw & Hact & Hw).
  exists (boot_answer g s (decode b) rsp :: rs). cbn [boot_session map spec_session]. rewrite Hh. bind_simpl.
  rewrite Hctx, Hrsp, Hs. bind_simpl. clear Hctx Hrsp Hh Hs. unfold boot_answer.
  destruct (boot_spec g s (decode b)) as [sw s1]. cbn [snd] in *.
  destruct (spec_session s1 (map decode cmds)) as [sws s2]. cbn [fst snd] in *.
  split; [done|]. split; [by rewrite Hsw|]. split; [|done]. constructor; [|done]. by destruct (decode b).
Qed.

Lemma len_block img k :
  0 ≤ k → k * BOOT_BLOCK_SIZE < len img →
  len (block img k) = Z.min BOOT_BLOCK_SIZE (len img - k * BOOT_BLOCK_SIZE).
Proof.
  unfold BOOT_BLOCK_SIZE. intros Hk Hl. unfold block, slice, len, BOOT_BLOCK_SIZE in *.
  rewrite length_take, length_drop. lia.
Qed.

Lemma block_slice img k :
  0 ≤ k → k * BOOT_BLOCK_SIZE < len img →
  block img k = slice (k * BOOT_BLOCK_SIZE) (Z.min BOOT_BLOCK_SIZE (len img - k * BOOT_BLOCK_SIZE)) img.
Proof.
  unfold BOOT_BLOCK_SIZE. intros Hk Hl. unfold block, BOOT_BLOCK_SIZE.
  destruct (Z.le_gt_cases 128 (len img - k * 128)); [by rewrite Z.min_l|]. rewrite Z.min_r by lia.
  unfold slice. rewrite !take_ge; [done|rewrite length_drop; unfold len in *; lia..].
Qed.

Lemma decode_load k d :
  0 ≤ k < 65536 → 0 < len d → decode (load_cmd k d) = CmdLoad (k * BOOT_BLOCK_SIZE) d.
Proof.
  intros Hk Hd. unfold load_cmd. cbn [app decode]. cbn [Z.eqb BOOT_CLA Pos.eqb negb].
  destruct d as [|x d]; [done|]. replace (len (x :: d) =? 0) with false by lia. rewrite Z.eqb_refl. cbn [orb negb].
  unfold decode_body. cbn [Z.eqb Pos.eqb BOOT_INS_LOAD BOOT_INS_GET_STATUS BOOT_INS_ERASE].
  replace (len (x :: d) =? 0) with false by lia. f_equal. f_equal. lia.
Qed.

Lemma load_block img hd n k :
  bytes img → 0 ≤ k < 65536 → k * BOOT_BLOCK_SIZE < len img → len img ≤ n →
  boot_spec g (after_load img hd n k) (decode (load_cmd k (block img k))) = (SW_OK, after_load img hd n (k + 1)).
Proof.
  intros Hb Hk Hl Hn. pose proof (len_block img k ltac:(lia) Hl) as Hlb.
  rewrite decode_load by (unfold BOOT_BLOCK_SIZE in *; lia). unfold after_load, boot_spec. cbn [s_erased s_flash s_hdr s_high negb].
  unfold BOOT_BLOCK_SIZE in *. rewrite !Z.min_l by lia.
  rewrite len_loaded by lia. set (d := Z.min 128 (len img - k * 128)) in *.
  rewrite Hlb. replace (128 <? d) with false by lia. replace (n <? k * 128 + d) with false by lia.
  rewrite bool_decide_true.
  - rewrite block_slice by (unfold BOOT_BLOCK_SIZE; lia). unfold BOOT_BLOCK_SIZE. fold d.
    rewrite load_next by lia. replace (Z.min ((k + 1) * 128) (len img)) with (k * 128 + d) by lia. do 2 f_equal. lia.
  - unfold loaded. pose proof (len_slice 0 (k * 128) img) as Hls.
    replace (k * 128) with (len (slice 0 (k * 128) img) + 0) at 1 by lia.
    rewrite slice_app_r, slice_erased by lia. rewrite <- Hlb. apply only_cleared_erased. by apply bytes_slice.
Qed.

Lemma load_all img hd n m k :
  bytes img → 0 ≤ k → k + Z.of_nat m ≤ block_count img → len img ≤ n → len img ≤ 65536 * BOOT_BLOCK_SIZE →
  spec_session (after_load img hd n k) (map decode (map (λ j, load_cmd j (block img j)) (seqZ k (Z.of_nat m)))) =
    (replicate m SW_OK, after_load img hd n (k + Z.of_nat m)).
Proof.
  unfold block_count, BOOT_BLOCK_SIZE. intros Hb. revert k. induction m as [|m IH]; intros k Hk Hm Hn H64.
  { cbn. by rewrite Z.add_0_r. }
  rewrite seqZ_cons by lia. cbn [map spec_session].
  rewrite load_block by (done || unfold BOOT_BLOCK_SIZE; lia).
  replace (Z.pred (Z.of_nat (S m))) with (Z.of_nat m) by lia. replace (Z.succ k) with (k + 1) by lia.
  rewrite IH by lia. cbn. do 2 f_equal. lia.
Qed.

Lemma after_erase img n hd : 0 ≤ n → after_load img hd n 0 = Slot (erased n) hd 0 true.
Proof.
  intros Hn. unfold after_load, loaded. pose proof (len_nonneg img). rewrite Z.mul_0_l, Z.min_l by lia.
  by rewrite slice_zero, Z.sub_0_r.
Qed.

Lemma after_all img n hd :
  after_load img hd n (block_count img) = Slot (img ++ erased (n - len img)) hd (len img) true.
Proof.
  unfold after_load, loaded, block_count, BOOT_BLOCK_SIZE. pose proof (len_nonneg img).
  rewrite Z.min_r by lia. by rewrite slice_0_all.
Qed.

Lemma plausible_app img rest n : plausible g img n → plausible g (img ++ rest) n.
Proof. unfold plausible. do 8 (destruct img as [|? img]; [done|]). done. Qed.

Lemma plausible_len img n : plausible g img n → 8 ≤ n.
Proof. unfold plausible. do 8 (destruct img as [|? img]; [done|]). tauto. Qed.

Lemma splice_splice_within b x off y :
  len x ≤ len b → 0 ≤ off → off + len y ≤ len x → splice (splice b 0 x) off y = splice b 0 (splice x off y).
Proof.
  intros Hx Ho Hy. apply list_eq. intros i.
  rewrite !lookup_splice by (rewrite ?len_splice; rewrite ?len_splice; lia). rewrite len_splice by lia.
  replace (i - Z.to_nat 0)%nat with i by lia.
  destruct (decide (off ≤ Z.of_nat i < off + len y)), (decide (0 ≤ Z.of_nat i < 0 + len x)); done || lia.
Qed.

(** A header region that starts with a header. *)
Lemma has_header_splice hd l c st :
  BOOT_HDR_SIZE ≤ len hd → is_u32 l → is_u16 c → is_u16 st →
  has_header (splice hd 0 (hdr_bytes l c st)) (BootHdr l c st BOOT_HDR_VERSION).
Proof.
  intros Hl Hlen Hc Hst. by split.
Qed.

Lemma slot_state_eq fl hd st h :
  bytes hd → BOOT_HDR_SIZE ≤ len hd → slot_says fl hd st h → has_header hd h → slot_state fl hd = (st, h).
Proof.
  intros Hb Hl Hs Hh. pose proof (slot_state_says fl hd Hb Hl) as Hs'.
  destruct (slot_state fl hd) as [st' h']. cbn in Hs'. rewrite (slot_says_inj _ _ _ _ _ _ Hs Hs') in *. f_equal.
  destruct st'; cbn in Hs'; [by destruct (Hs' h)|..]; destruct Hs' as [Hs' _]; by apply (has_header_inj hd).
Qed.

Lemma decode_verify l crc : is_u32 l → is_u16 crc → decode (verify_cmd l crc) = CmdVerify (be32 l ++ be16 crc).
Proof.
  intros Hl Hc. destruct (be32_bytes l Hl) as (a & b & c & d & Hb & _). destruct (be16_bytes crc Hc) as (e & f & He & _).
  unfold verify_cmd. by rewrite Hb, He.
Qed.

(** VERIFY and ACTIVATE over an erased header and the flash they describe. *)
Lemma verify_ok fl n l :
  let c := crc_bytes (slice 0 l fl) in
  BOOT_HDR_SIZE ≤ n → 0 < l ≤ len fl → len fl < 4294967296 → plausible g fl l →
  boot_spec g (Slot fl (erased n) l true) (CmdVerify (be32 l ++ be16 c)) =
    (SW_OK, Slot fl (splice (erased n) 0 (hdr_bytes l c BOOT_STATE_LOADED)) l true).
Proof.
  intros c Hn Hl H32 Hp. assert (is_u32 l) as Hlu by (unfold is_u32; lia).
  pose proof (crc_bytes_u16 (slice 0 l fl)) as Hcu. fold c in Hcu.
  destruct (be32_bytes l Hlu) as (a0 & a1 & a2 & a3 & Hb & _ & _ & _ & _ & Hv).
  destruct (be16_bytes c Hcu) as (c0 & c1 & Hbc & _ & _ & Hvc).
  rewrite Hb, Hbc. cbn [app boot_spec s_erased negb]. rewrite Hv, Hvc. unfold verify_spec. cbn [s_flash s_hdr s_high s_erased].
  replace ((l =? 0) || (len fl <? l)) with false by lia. rewrite Z.ltb_irrefl. fold c. rewrite Z.eqb_refl. cbn [negb].
  rewrite bool_decide_true by done. cbn [negb]. rewrite bool_decide_true; [done|].
  rewrite slice_erased by (done || lia). rewrite <- (len_hdr_bytes l c BOOT_STATE_LOADED).
  apply only_cleared_erased, bytes_hdr_bytes.
Qed.

Section header.
Context (fl hd : list Z) (l c : Z).
Context (Hhd : bytes hd) (Hn : BOOT_HDR_SIZE ≤ len hd) (Hl : 0 < l ≤ len fl) (H32 : len fl < 4294967296).
Context (Hc : crc_bytes (slice 0 l fl) = c).

Lemma header_state st : is_u16 st →
  slot_state fl (splice hd 0 (hdr_bytes l c st)) =
    (if st =? BOOT_STATE_ACTIVE then BOOT_SLOT_ACTIVE else BOOT_SLOT_LOADED, BootHdr l c st BOOT_HDR_VERSION).
Proof.
  intros Hst. assert (has_header (splice hd 0 (hdr_bytes l c st)) (BootHdr l c st BOOT_HDR_VERSION)) as Hh.
  { apply has_header_splice; [done|unfold is_u32; lia|rewrite <- Hc; apply crc_bytes_u16|done]. }
  apply slot_state_eq; [by apply bytes_splice, bytes_hdr_bytes|rewrite len_splice; rewrite ?len_hdr_bytes; lia| |done].
  destruct (Z.eqb_spec st BOOT_STATE_ACTIVE); cbn; (split; [done|split; [by split|done]]).
Qed.
End header.

Lemma activate_ok fl hd l hi :
  let c := crc_bytes (slice 0 l fl) in
  bytes hd → BOOT_HDR_SIZE ≤ len hd → 0 < l ≤ len fl → len fl < 4294967296 →
  boot_spec g (Slot fl (splice hd 0 (hdr_bytes l c BOOT_STATE_LOADED)) hi true) CmdActivate =
    (SW_OK, Slot fl (splice hd 0 (hdr_bytes l c BOOT_STATE_ACTIVE)) hi true).
Proof.
  intros c Hhd Hn Hl H32. cbn [boot_spec s_flash s_hdr]. rewrite (header_state fl hd l c) by done.
  change (BOOT_STATE_LOADED =? BOOT_STATE_ACTIVE) with false. cbv iota. cbn [fst s_high s_erased].
  rewrite splice_splice_within, activate_bytes; rewrite ?len_hdr_bytes; done.
Qed.

Lemma restart_ok fl hd l hi :
  let c := crc_bytes (slice 0 l fl) in
  let s := Slot fl (splice hd 0 (hdr_bytes l c BOOT_STATE_ACTIVE)) hi true in
  bytes hd → BOOT_HDR_SIZE ≤ len hd → 0 < l ≤ len fl → len fl < 4294967296 →
  boot_spec g s CmdRestart = (SW_OK, s).
Proof. intros c s Hhd Hn Hl H32. cbn [boot_spec s_flash s_hdr s]. by rewrite (header_state fl hd l c). Qed.

(** The whole download, command by command. *)
Lemma install_session s img :
  let fl := img ++ erased (len (s_flash s) - len img) in
  let hd := splice (erased (len (s_hdr s))) 0 (hdr_bytes (len img) (crc_bytes img) BOOT_STATE_ACTIVE) in
  slot_wf g s → bytes img → plausible g img (len img) → len img ≤ len (s_flash s) → len img ≤ 65536 * BOOT_BLOCK_SIZE →
  spec_session s (map decode (install img)) =
    (replicate (length (install img)) SW_OK, Slot fl hd (len img) true).
Proof.
  intros fl hd Hwf Hb Hp Hl H64. pose proof (plausible_len _ _ Hp). destruct Hwf. unfold BOOT_HDR_SIZE in *.
  assert (len fl = len (s_flash s)) as Hfl by (unfold fl; rewrite len_app, len_erased by lia; lia).
  assert (slice 0 (len img) fl = img) as Himg by (unfold fl; rewrite slice_app_l, slice_0_all by lia; done).
  assert (0 ≤ block_count img) as Hbc by (unfold block_count, BOOT_BLOCK_SIZE; lia).
  unfold install. cbn [map]. change (decode erase_cmd) with CmdErase. cbn [spec_session boot_spec].
  rewrite map_app, spec_session_app.
  pose proof (load_all img (erased (len (s_hdr s))) (len (s_flash s)) (Z.to_nat (block_count img)) 0) as Hload.
  rewrite Z2Nat.id, Z.add_0_l, after_erase, after_all in Hload by lia. fold fl in Hload.
  unfold load_cmds, upto. rewrite Hload by (done || lia).
  cbn [map]. rewrite decode_verify by (apply crc_bytes_u16 || (unfold is_u32; lia)).
  change (decode activate_cmd) with CmdActivate. change (decode restart_cmd) with CmdRestart. cbn [spec_session].
  pose proof (verify_ok fl (len (s_hdr s)) (len img)) as Hv. cbv zeta in Hv. rewrite Himg in Hv.
  rewrite Hv by ((by apply plausible_app) || (unfold BOOT_HDR_SIZE; lia)). clear Hv.
  pose proof (activate_ok fl (erased (len (s_hdr s))) (len img) (len img)) as Ha. cbv zeta in Ha. rewrite Himg in Ha.
  rewrite Ha by (apply bytes_erased || (rewrite ?len_erased; unfold BOOT_HDR_SIZE; lia)). clear Ha.
  pose proof (restart_ok fl (erased (len (s_hdr s))) (len img) (len img)) as Hr. cbv zeta in Hr. rewrite Himg in Hr.
  rewrite Hr by (apply bytes_erased || (rewrite ?len_erased; unfold BOOT_HDR_SIZE; lia)). clear Hr.
  f_equal. cbn [length]. rewrite length_app, !length_map, length_seqZ. cbn [length].
  rewrite Nat.add_comm. cbn [replicate Nat.add]. f_equal. 
  change [SW_OK; SW_OK; SW_OK] with (replicate 3 SW_OK). by rewrite <- replicate_add, Nat.add_comm.
Qed.

Lemma install_bytes img : bytes img → len img ≤ 65536 * BOOT_BLOCK_SIZE → Forall bytes (install img).
Proof.
  unfold BOOT_BLOCK_SIZE. intros Hb H64. unfold install. constructor; [solve_bytes|]. apply Forall_app. split.
  - unfold load_cmds. apply Forall_map, Forall_forall. intros k [Hk0 Hk]%elem_of_upto.
    unfold block_count, BOOT_BLOCK_SIZE in Hk. unfold load_cmd. apply bytes_app; [|by apply bytes_slice].
    assert (k * BOOT_BLOCK_SIZE < len img) as Hlt by (unfold BOOT_BLOCK_SIZE; lia).
    rewrite len_block by done. unfold BOOT_BLOCK_SIZE in *.
    repeat (apply Forall_cons; split; [unfold is_u8, BOOT_CLA, BOOT_INS_LOAD; lia|]). constructor.
  - constructor; [apply bytes_app; [solve_bytes|apply bytes_app; [apply bytes_be32|apply bytes_be16]]|].
    constructor; [solve_bytes|]. constructor; [solve_bytes|constructor].
Qed.

End loader.

(** ** Properties *)

(** [C20] [boot_handle] implements the abstract slot machine: on any bytes
    whatsoever it stays inside its buffers, answers with the status word the
    machine prescribes (never 0000), moves the two regions as the machine does,
    and keeps the slot well formed. *)
Theorem boot_handle_refines g s b n rsp cap x a :
  slot_wf g s → bytes b → 0 ≤ n ≤ len b → BOOT_STATUS_RSP_LEN ≤ cap ≤ len rsp →
  let c := decode (slice 0 n b) in
  ∃ rsp', boot_handle (Ptr (ctx_of g s)) (Ptr b) n (Ptr rsp) cap (Ptr x) (Ptr a) =
      Some (BootResult (boot_spec g s c).1 (Ptr (ctx_of g (boot_spec g s c).2)) (Ptr rsp')
              (Ptr (if decide (c = CmdStatus) then BOOT_STATUS_RSP_LEN else 0)) (Ptr (restarts c (boot_spec g s c).1))) ∧
    rsp' = (if decide (c = CmdStatus) then splice rsp 0 (status_bytes s) else rsp) ∧
    (boot_spec g s c).1 ≠ 0 ∧ slot_wf g (boot_spec g s c).2.
Proof.
  intros Hwf Hb Hn Hcap c. rewrite handle_eq by done. fold c.
  assert (cmd_ok c) as Hc by (by apply decode_ok, bytes_slice).
  exists (if decide (c = CmdStatus) then splice rsp 0 (status_bytes s) else rsp).
  split; [|split; [done|split; [by apply boot_spec_sw|by apply boot_spec_wf]]].
  unfold boot_answer. destruct (boot_spec g s c) as [sw s'], c; try done.
Qed.

(** [C21] An installed image cannot be lost by accident: no sequence of commands
    without ERASE turns a cleared bit of either region back, and when no ERASE
    has been given since the reset, the image is untouched and the header at
    most has its state word cleared. *)
Theorem image_safe_without_erase g s cmds rsp cap :
  slot_wf g s → Forall bytes cmds → Forall (λ b, decode b ≠ CmdErase) cmds → BOOT_STATUS_RSP_LEN ≤ cap ≤ len rsp →
  ∃ rs s', boot_session (Ptr (ctx_of g s)) (Ptr rsp) cap cmds = Some (rs, Ptr (ctx_of g s')) ∧
    only_cleared (s_flash s) (s_flash s') ∧ only_cleared (s_hdr s) (s_hdr s') ∧
    (s_erased s = false → s_flash s' = s_flash s ∧ (s_hdr s' = s_hdr s ∨ s_hdr s' = splice (s_hdr s) 14 [0; 0])).
Proof.
  intros Hwf Hb HC Hcap.
  destruct (session_invariant g (λ b, decode b ≠ CmdErase) (kept s) (λ _, True) cap) with cmds s rsp
    as (rs & s' & Hs & _ & (? & ? & _ & ?) & _); try done.
  - intros s1 b rsp1 Hw Hk Hb1 He. split; [|done]. by apply kept_step; [..|apply decode_ok|].
  - by repeat split; [reflexivity..|left].
  - by exists rs, s'.
Qed.

(** [C22] Nothing boots that was not activated: after an ERASE, whatever is
    loaded, verified or sent otherwise, no command makes the loader restart
    into the slot and the slot is not active, until an ACTIVATE. *)
Theorem no_boot_without_activate g s cmds rsp cap :
  slot_wf g s → Forall bytes cmds → Forall (λ b, decode b ≠ CmdActivate) cmds → BOOT_STATUS_RSP_LEN ≤ cap ≤ len rsp →
  ∃ r rs s' st, boot_session (Ptr (ctx_of g s)) (Ptr rsp) cap (erase_cmd :: cmds) = Some (r :: rs, Ptr (ctx_of g s')) ∧
    b_sw r = SW_OK ∧ Forall (λ r, b_action r = Ptr BOOT_ACT_NONE) rs ∧
    boot_slot_check (Ptr (s_hdr s')) (len (s_hdr s')) (Ptr (s_flash s')) (len (s_flash s')) NULL = Some (st, NULL) ∧
    st ≠ BOOT_SLOT_ACTIVE.
Proof.
  intros Hwf Hb HC Hcap. assert (bytes erase_cmd) as Hbe by solve_bytes.
  destruct (handle_step g s erase_cmd rsp cap Hwf Hbe Hcap) as (rsp' & Hh & Hctx & Hrsp & Hl & Hwf').
  assert (∀ s1, slot_wf g s1 → inactive s1 → (slot_state (s_flash s1) (s_hdr s1)).1 ≠ BOOT_SLOT_ACTIVE) as Hna.
  { intros s1 Hw Hi. pose proof (sw_hdr_size _ _ Hw). apply inactive_state; [done|apply Hw|lia]. }
  destruct (session_invariant g (λ b, decode b ≠ CmdActivate) inactive (λ r, b_action r = Ptr BOOT_ACT_NONE) cap)
    with cmds (boot_spec g s (decode erase_cmd)).2 rsp' as (rs & s' & Hs & Hw & Hi & Hact & _); try done; [| |lia|].
  - intros s1 b rsp1 Hw Hi Hb1 Hc. split; [by apply inactive_step; [|left|]|]. by apply answer_action, Hna.
  - by apply inactive_step; [|right|].
  - exists (boot_answer g s (decode erase_cmd) rsp), rs, s', (slot_state (s_flash s') (s_hdr s')).1.
    cbn [boot_session]. rewrite Hh. bind_simpl. rewrite Hctx, Hrsp, Hs. bind_simpl.
    split; [done|]. split; [done|]. split; [done|]. split; [|by apply Hna].
    pose proof (sw_hdr_size _ _ Hw). rewrite slot_check_eq by (apply Hw || lia). by destruct (slot_state _ _) as [[] h].
Qed.

(** The download protocol installs what it is given: ERASE, the image in
    blocks of 128 bytes, VERIFY with its length and check sum, ACTIVATE and
    RESTART are all answered 9000; the flash then holds the image followed by
    erased bytes, the reset path finds the slot active with that image's
    header, and the loader asks for the restart. *)
Lemma download_installs_image g s img rsp cap :
  slot_wf g s → bytes img → plausible g img (len img) → len img ≤ len (s_flash s) →
  len img ≤ 65536 * BOOT_BLOCK_SIZE → BOOT_STATUS_RSP_LEN ≤ cap ≤ len rsp →
  ∃ rs hd, boot_session (Ptr (ctx_of g s)) (Ptr rsp) cap (install img) =
      Some (rs, Ptr (ctx_of g (Slot (img ++ erased (len (s_flash s) - len img)) hd (len img) true))) ∧
    Forall (λ r, b_sw r = SW_OK) rs ∧ b_action <$> last rs = Some (Ptr BOOT_ACT_RESTART) ∧
    boot_slot_check (Ptr hd) (len hd) (Ptr (img ++ erased (len (s_flash s) - len img))) (len (s_flash s))
      (Ptr boot_hdr_zero) =
      Some (BOOT_SLOT_ACTIVE, Ptr (BootHdr (len img) (crc_bytes img) BOOT_STATE_ACTIVE BOOT_HDR_VERSION)).
Proof.
  intros Hwf Hb Hp Hl H64 Hcap. pose proof (plausible_len _ _ _ Hp).
  pose proof (install_session g s img Hwf Hb Hp Hl H64) as Hi.
  destruct (session_refines g cap (install img) s rsp Hwf) as (rs & Hs & Hsw & Hact & Hw); [|done|].
  { by apply install_bytes. }
  rewrite Hi in *. cbn [fst snd] in *. eexists rs, _. split; [exact Hs|].
  assert (Forall (λ r, b_sw r = SW_OK) rs) as Hok.
  { assert (Forall (λ x, x = SW_OK) (b_sw <$> rs)) as Hok; [|by apply Forall_fmap in Hok].
    change (b_sw <$> rs) with (map b_sw rs). rewrite Hsw. by apply Forall_replicate. }
  split; [exact Hok|]. split.
  - unfold install in Hact. rewrite app_comm_cons, map_app in Hact.
    change (map decode [verify_cmd (len img) (crc_bytes img); activate_cmd; restart_cmd]) with
      (map decode [verify_cmd (len img) (crc_bytes img); activate_cmd] ++ [CmdRestart]) in Hact.
    rewrite app_assoc in Hact. apply Forall2_app_inv_l in Hact as (r1 & r2 & _ & H2 & ->).
    apply Forall2_cons_inv_l in H2 as (r & rest & Hr & H2 & ->). apply Forall2_nil_inv_l in H2 as ->.
    rewrite last_snoc. cbn. rewrite Hr. apply Forall_app in Hok as [_ Hok]. apply Forall_cons in Hok as [-> _]. done.
  - destruct Hwf. assert (len (img ++ erased (len (s_flash s) - len img)) = len (s_flash s)) as Hfl
      by (rewrite len_app, len_erased; lia).
    rewrite <- Hfl at 2. unfold BOOT_HDR_SIZE in *.
    assert (len (erased (len (s_hdr s))) = len (s_hdr s)) as Hle by (apply len_erased; lia).
    rewrite slot_check_eq; [|by apply bytes_splice, bytes_hdr_bytes; apply bytes_erased
                            |rewrite len_splice; rewrite ?len_hdr_bytes, ?Hle; unfold BOOT_HDR_SIZE; lia].
    rewrite header_state; [done|apply bytes_erased|rewrite Hle; unfold BOOT_HDR_SIZE; lia|lia|lia| |done].
    by rewrite slice_app_l, slice_0_all by lia.
Qed.

(** ** Witnesses: a slot of two small pages and an image of 8 bytes *)

Definition demo_geometry : geometry := Geometry 16 0x2000 0x20000000 0x1000.
Definition demo_slot : slot := Slot (erased 32) (erased 16) 0 false.
(** Initial stack pointer 0x20000100, reset vector 0x00002005. *)
Definition demo_image : list Z := [0x00; 0x01; 0x00; 0x20; 0x05; 0x20; 0x00; 0x00].
Definition demo_rsp : list Z := replicate 18 0.

Lemma demo_wf : slot_wf demo_geometry demo_slot.
Proof.
  split; try (apply bytes_erased); try reflexivity; try (by vm_compute);
    try (vm_compute; split; congruence); done.
Qed.

Lemma demo_cap : BOOT_STATUS_RSP_LEN ≤ 18 ≤ len demo_rsp.
Proof. by vm_compute. Qed.

Lemma boot_handle_refines_witness :
  let c := decode (slice 0 4 erase_cmd) in
  ∃ rsp', boot_handle (Ptr (ctx_of demo_geometry demo_slot)) (Ptr erase_cmd) 4 (Ptr demo_rsp) 18 (Ptr 0)
      (Ptr BOOT_ACT_NONE) =
      Some (BootResult (boot_spec demo_geometry demo_slot c).1 (Ptr (ctx_of demo_geometry (boot_spec demo_geometry demo_slot c).2))
              (Ptr rsp') (Ptr (if decide (c = CmdStatus) then BOOT_STATUS_RSP_LEN else 0))
              (Ptr (restarts c (boot_spec demo_geometry demo_slot c).1))) ∧
    rsp' = (if decide (c = CmdStatus) then splice demo_rsp 0 (status_bytes demo_slot) else demo_rsp) ∧
    (boot_spec demo_geometry demo_slot c).1 ≠ 0 ∧ slot_wf demo_geometry (boot_spec demo_geometry demo_slot c).2.
Proof.
  apply (boot_handle_refines demo_geometry demo_slot erase_cmd 4 demo_rsp 18 0 BOOT_ACT_NONE);
    [apply demo_wf|solve_bytes|split; vm_compute; congruence|apply demo_cap].
Defined.

Lemma image_safe_without_erase_witness :
  ∃ rs s', boot_session (Ptr (ctx_of demo_geometry demo_slot)) (Ptr demo_rsp) 18 [load_cmd 0 demo_image; activate_cmd] =
      Some (rs, Ptr (ctx_of demo_geometry s')) ∧
    only_cleared (s_flash demo_slot) (s_flash s') ∧ only_cleared (s_hdr demo_slot) (s_hdr s') ∧
    (s_erased demo_slot = false → s_flash s' = s_flash demo_slot ∧
      (s_hdr s' = s_hdr demo_slot ∨ s_hdr s' = splice (s_hdr demo_slot) 14 [0; 0])).
Proof.
  apply (image_safe_without_erase demo_geometry demo_slot [load_cmd 0 demo_image; activate_cmd] demo_rsp 18);
    [apply demo_wf|repeat constructor; solve_bytes|repeat constructor; discriminate|apply demo_cap].
Defined.

Lemma no_boot_without_activate_witness :
  ∃ r rs s' st, boot_session (Ptr (ctx_of demo_geometry demo_slot)) (Ptr demo_rsp) 18
      (erase_cmd :: [load_cmd 0 demo_image; restart_cmd]) = Some (r :: rs, Ptr (ctx_of demo_geometry s')) ∧
    b_sw r = SW_OK ∧ Forall (λ r, b_action r = Ptr BOOT_ACT_NONE) rs ∧
    boot_slot_check (Ptr (s_hdr s')) (len (s_hdr s')) (Ptr (s_flash s')) (len (s_flash s')) NULL = Some (st, NULL) ∧
    st ≠ BOOT_SLOT_ACTIVE.
Proof.
  apply (no_boot_without_activate demo_geometry demo_slot [load_cmd 0 demo_image; restart_cmd] demo_rsp 18);
    [apply demo_wf|constructor; [solve_bytes|constructor; [solve_bytes|constructor]]
    |repeat constructor; discriminate|apply demo_cap].
Defined.

Lemma download_installs_image_witness :
  ∃ rs hd, boot_session (Ptr (ctx_of demo_geometry demo_slot)) (Ptr demo_rsp) 18 (install demo_image) =
      Some (rs, Ptr (ctx_of demo_geometry
        (Slot (demo_image ++ erased (len (s_flash demo_slot) - len demo_image)) hd (len demo_image) true))) ∧
    Forall (λ r, b_sw r = SW_OK) rs ∧ b_action <$> last rs = Some (Ptr BOOT_ACT_RESTART) ∧
    boot_slot_check (Ptr hd) (len hd) (Ptr (demo_image ++ erased (len (s_flash demo_slot) - len demo_image)))
      (len (s_flash demo_slot)) (Ptr boot_hdr_zero) =
      Some (BOOT_SLOT_ACTIVE, Ptr (BootHdr (len demo_image) (crc_bytes demo_image) BOOT_STATE_ACTIVE BOOT_HDR_VERSION)).
Proof.
  apply (download_installs_image demo_geometry demo_slot demo_image demo_rsp 18);
    [apply demo_wf|solve_bytes|apply (bool_decide_unpack _); vm_compute; exact I
    |vm_compute; congruence|vm_compute; congruence|apply demo_cap].
Defined.
