(* ===== verification/BootMain.v ===== *)
(** * The boot ROM (src/hal/arm-scv1/boot_main.c)

    Power-up of the OS slot, the boot decision, the loader over the serial link
    and the hand-over to the image; and what a host sees of it. *)

From stdpp Require Import strings.
From S2P Require Import Prelude OsMem Crc16 Hal ArmHal ArmIo CFlash BootHdr BootLoader BootSafety.
#[local] Open Scope Z_scope.

Definition boot_atr_bytes : list Z := [0x3B; 0x94; 0x11; 0x00; 0x42; 0x4F; 0x4F; 0x54].

Definition OSFLASH_FILE : string := "card_osflash.bin".
Definition OSHDR_FILE : string := "card_oshdr.bin".
Definition BOOTSEL_FILE : string := "card_bootsel.bin".

Definition bootsel_asserted (h : semihost) : option bool :=
  if negb (sh_available h) then Some false else
  '(n, _) ← semihost_load h BOOTSEL_FILE [0] 1;
  Some (0 <=? n).

(** The slot's two regions after power-up. *)
Definition slot_power_on (h : semihost) (fl hd : list Z) : option (list Z * list Z) :=
  let blank fl hd :=
    fl ← foreach (upto SCV1_OSFLASH_SIZE) (λ i b, wr b i 0xFF) fl;
    hd ← foreach (upto SCV1_OSHDR_SIZE) (λ i b, wr b i 0xFF) hd;
    Some (fl, hd) in
  if sh_available h then
    '(a, fl) ← semihost_load h OSFLASH_FILE fl SCV1_OSFLASH_SIZE;
    '(b, hd) ← semihost_load h OSHDR_FILE hd SCV1_OSHDR_SIZE;
    if (0 <? a) && (0 <? b) then Some (fl, hd) else blank fl hd
  else blank fl hd.

(** [g_dirty] and the files afterwards. *)
Definition slot_flush (h : semihost) (dirty : bool) (c : boot_ctx) : option (semihost * bool) :=
  if negb dirty || negb (sh_available h) then Some (h, dirty) else
  fl ← deref (osflash c);
  hd ← deref (oshdr c);
  '(_, h) ← semihost_store h OSFLASH_FILE fl SCV1_OSFLASH_SIZE;
  '(_, h) ← semihost_store h OSHDR_FILE hd SCV1_OSHDR_SIZE;
  Some (h, false).

(** [g_ctx.erased = false; g_ctx.high_water = 0;] *)
Definition ctx_reset (c : boot_ctx) : boot_ctx := set_high_water (set_erased c false) 0.

(** How the boot ROM ends: it hands the core to the image in the slot (it does
    not come back), the link closed, or it waits for the link. *)
Inductive boot_exit := BootJump | BootLinkClosed | BootWaiting.

(** One command taken off the link: the response is sent, and the loader says
    whether to hand over. *)
Definition loader_command (h : semihost) (c : boot_ctx) (cmd : list Z) (n : Z) (rsp : list Z) (dirty : bool)
    (out : list Z) : option (boot_action * semihost * boot_ctx * list Z * bool * list Z) :=
  r ← boot_handle (Ptr c) (Ptr cmd) n (Ptr rsp) BOOT_STATUS_RSP_LEN (Ptr 0) (Ptr BOOT_ACT_NONE);
  c ← deref (b_ctx r);
  rsp ← deref (b_rsp r);
  rsplen ← deref (b_rsp_len r);
  act ← deref (b_action r);
  let dirty := if b_sw r =? 0x9000 then true else dirty in
  rsp ← wr rsp rsplen (u8 (Z.shiftr (b_sw r) 8));
  rsp ← wr rsp (u32 (rsplen + 1)) (u8 (b_sw r));
  '(_, out) ← hal_card_send out (Ptr rsp) (u32 (rsplen + 2));
  match act with
  | BOOT_ACT_RESTART => '(h, dirty) ← slot_flush h dirty c; Some (act, h, c, rsp, dirty, out)
  | BOOT_ACT_NONE => Some (act, h, c, rsp, dirty, out)
  end.

(** The loop of the loader; one unit of fuel a turn, and every turn that does
    not wait consumes input. *)
Fixpoint loader_loop (fuel : nat) (input : list Z) (h : semihost) (c : boot_ctx) (cmd rsp : list Z) (dirty : bool)
    (out : list Z) : option (boot_exit * semihost * boot_ctx * list Z) :=
  match fuel with
  | O => None
  | S fuel =>
      r ← hal_card_receive boot_atr_bytes input (Ptr cmd) (5 + BOOT_BLOCK_SIZE) (Ptr 0) out;
      match r with
      | RxWaiting _ out => Some (BootWaiting, h, c, out)
      | RxReturn st n cmd out rest =>
          match st with
          | HAL_ERR_LINK_DOWN =>
              '(h, dirty) ← slot_flush h dirty c;
              Some (BootLinkClosed, h, c, out)
          | HAL_CARD_RESET =>
              '(h, dirty) ← slot_flush h dirty c;
              strap ← bootsel_asserted h;
              jump ← (if negb strap then
                        '(st, _) ← boot_slot_check (oshdr c) SCV1_OSHDR_SIZE (osflash c) SCV1_OSFLASH_SIZE (Ptr boot_hdr_zero);
                        Some (bool_decide (st = BOOT_SLOT_ACTIVE))
                      else Some false);
              if (jump : bool) then Some (BootJump, h, c, out)
              else loader_loop fuel rest h (ctx_reset c) cmd rsp dirty out
          | HAL_OK =>
              '(act, h, c, rsp, dirty, out) ← loader_command h c cmd n rsp dirty out;
              match act with
              | BOOT_ACT_RESTART => Some (BootJump, h, c, out)
              | BOOT_ACT_NONE => loader_loop fuel rest h c cmd rsp dirty out
              end
          | _ => loader_loop fuel rest h c cmd rsp dirty out
          end
      end
  end.

(** *** Reporting *)

Definition put_hex8 (out : list Z) (b : Z) : option (list Z) :=
  let d := chars "0123456789ABCDEF" in
  s0 ← rd d (Z.land (Z.shiftr b 4) 0x0F);
  s1 ← rd d (Z.land b 0x0F);
  Some (out ++ [s0; s1]).

Definition put_u32 (v : Z) : list Z := if v =? 0 then [48] else dec_digits 10 v [].

Definition slot_name (st : boot_slot_state) : string :=
  match st with
  | BOOT_SLOT_BLANK => "BLANK (no OS loaded)"
  | BOOT_SLOT_LOADED => "LOADED (not activated)"
  | BOOT_SLOT_ACTIVE => "ACTIVE"
  | BOOT_SLOT_DAMAGED => "DAMAGED (header or image failed CRC)"
  end.

Definition boot_banner (st : boot_slot_state) (h : boot_hdr) (strap persistent : bool) : option (list Z) :=
  let out := chars "SCV1 BOOT ROM v1  (mask ROM, 8 KB at 0x00000000)" ++ CRLF ++ chars "OS slot: 0x00002000  " ++
    put_u32 (SCV1_OSFLASH_SIZE / 1024) ++ chars " KB" ++ CRLF ++ chars "State:   " ++ chars (slot_name st) ++ CRLF in
  out ← match st with
    | BOOT_SLOT_LOADED | BOOT_SLOT_ACTIVE =>
        let out := out ++ chars "Image:   " ++ put_u32 (h_length h) ++ chars " bytes, CRC " in
        out ← put_hex8 out (u8 (Z.shiftr (h_image_crc h) 8));
        out ← put_hex8 out (u8 (h_image_crc h));
        Some (out ++ CRLF)
    | _ => Some out
    end;
  let out := if strap then out ++ chars "BOOTSEL: held -- staying in the loader" ++ CRLF else out in
  Some (out ++ chars "ATR:     3B 94 11 00 42 4F 4F 54" ++ CRLF ++
    chars (if persistent then "Slot:    persistent (semihosting)" else "Slot:    volatile (no semihosting host)") ++ CRLF ++
    chars "Waiting for loader APDUs (CLA 80)..." ++ CRLF).

(** [main]: how it ends, the debugger's files, the two regions of the slot and
    what was sent.  The buffers of the loop are static storage. *)
Definition boot_main (h : semihost) (fl hd input : list Z)
    : option (boot_exit * semihost * list Z * list Z * list Z) :=
  '(fl, hd) ← slot_power_on h fl hd;
  '(st, hp) ← boot_slot_check (Ptr hd) SCV1_OSHDR_SIZE (Ptr fl) SCV1_OSFLASH_SIZE (Ptr boot_hdr_zero);
  hdr ← deref hp;
  strap ← bootsel_asserted h;
  ok ← (if negb strap && bool_decide (st = BOOT_SLOT_ACTIVE) then
          boot_image_plausible (Ptr fl) (h_length hdr) SCV1_OSFLASH_BASE SCV1_SRAM_BASE SCV1_SRAM_SIZE
        else Some false);
  if (ok : bool) then
    Some (BootJump, h, fl, hd, chars "SCV1 BOOT ROM: OS slot ACTIVE, starting OS" ++ CRLF)
  else
    out ← boot_banner st hdr strap (sh_available h);
    c ← deref (boot_ctx_init (Ptr (BootCtx NULL 0 NULL 0 0 0 0 0 0 false)) (Ptr fl) SCV1_OSFLASH_SIZE (Ptr hd) SCV1_OSHDR_SIZE
                 SCV1_CFLASH_PAGE SCV1_OSFLASH_BASE SCV1_SRAM_BASE SCV1_SRAM_SIZE);
    '(ex, h, c, out) ← loader_loop (S (length input)) input h c (replicate (Z.to_nat (5 + BOOT_BLOCK_SIZE)) 0)
      (replicate (Z.to_nat (BOOT_STATUS_RSP_LEN + 2)) 0) false out;
    fl ← deref (osflash c);
    hd ← deref (oshdr c);
    match ex with
    | BootLinkClosed => Some (ex, h, fl, hd, out ++ chars "boot loader: link closed" ++ CRLF)
    | _ => Some (ex, h, fl, hd, out)
    end.

(** ** One command over the link *)

Definition rom_geometry : geometry := Geometry SCV1_CFLASH_PAGE SCV1_OSFLASH_BASE SCV1_SRAM_BASE SCV1_SRAM_SIZE.

Record rom_wf (s : slot) : Prop := {
  rw_slot : slot_wf rom_geometry s;
  rw_flash : len (s_flash s) = SCV1_OSFLASH_SIZE;
  rw_hdr : len (s_hdr s) = SCV1_OSHDR_SIZE
}.

Definition rom_ctx (s : slot) : boot_ctx := ctx_of rom_geometry s.

Lemma boot_spec_len g s c :
  slot_wf g s → cmd_ok c →
  len (s_flash (boot_spec g s c).2) = len (s_flash s) ∧ len (s_hdr (boot_spec g s c).2) = len (s_hdr s).
Proof.
  intros Hwf Hc. pose proof (sw_hdr_size _ _ Hwf). pose proof (sw_flash_size _ _ Hwf). unfold BOOT_HDR_SIZE in *.
  destruct c as [sw| | |off d|d| |]; cbn [boot_spec]; try done.
  - cbn. rewrite !len_erased by lia. done.
  - destruct Hc as [Hoff Hd]. repeat case_if; try done. cbn. rewrite len_splice by lia. done.
  - do 7 (destruct d as [|? d]; try done). case_if; [done|]. unfold verify_spec. repeat case_if; try done. cbn [snd s_flash s_hdr].
    rewrite len_splice; rewrite ?len_hdr_bytes; unfold BOOT_HDR_SIZE; done || lia.
  - destruct (slot_state _ _).1; try done. cbn [snd s_flash s_hdr]. change (len [0; 0]) with 2 in *.
    rewrite len_splice by (change (len [0; 0]) with 2; lia). done.
  - by destruct (slot_state _ _).1.
Qed.

Lemma rom_step s c : rom_wf s → cmd_ok c → rom_wf (boot_spec rom_geometry s c).2.
Proof.
  intros [Hwf Hf Hh] Hc. destruct (boot_spec_len _ _ _ Hwf Hc). split; [by apply boot_spec_wf|congruence..].
Qed.

(** The response on the link: the data of GET STATUS, then the status word. *)
Definition response (s : slot) (c : boot_cmd) (sw : Z) : list Z :=
  (if decide (c = CmdStatus) then status_bytes s else []) ++ [u8 (Z.shiftr sw 8); u8 sw].

Lemma append_sw b n (hi lo : Z) :
  0 ≤ n → n + 2 ≤ len b →
  ∃ b1 b2, wr b n hi = Some b1 ∧ wr b1 (n + 1) lo = Some b2 ∧ len b2 = len b ∧
    slice 0 (n + 2) b2 = slice 0 n b ++ [hi; lo] ∧ (bytes b → is_u8 hi → is_u8 lo → bytes b2).
Proof.
  intros Hn Hl. eexists _, _. split; [apply wr_some; lia|].
  split; [apply wr_some; unfold len; rewrite length_insert; unfold len in Hl; lia|].
  split; [unfold len; by rewrite !length_insert|]. split; [|intros; by repeat apply Forall_insert].
  apply list_eq. intros i. rewrite lookup_slice by lia.
  assert (Z.of_nat (length (slice 0 n b)) = n) as Hs by (apply (len_slice 0 n b); lia). unfold len in Hl.
  destruct (decide (Z.of_nat i < n)).
  - rewrite decide_True, lookup_app_l by lia. rewrite lookup_slice, decide_True by lia.
    rewrite !list_lookup_insert_ne by lia. done.
  - rewrite lookup_app_r by lia. destruct (decide (i = Z.to_nat n)) as [->|]; [|destruct (decide (i = S (Z.to_nat n))) as [->|]].
    + rewrite decide_True by lia. replace (Z.to_nat n - length (slice 0 n b))%nat with 0%nat by lia.
      rewrite list_lookup_insert_ne by lia. replace (Z.to_nat 0 + Z.to_nat n)%nat with (Z.to_nat n) by lia.
      apply list_lookup_insert_eq. lia.
    + rewrite decide_True by lia. replace (S (Z.to_nat n) - length (slice 0 n b))%nat with 1%nat by lia.
      replace (Z.to_nat (n + 1)) with (Z.to_nat 0 + S (Z.to_nat n))%nat by lia.
      apply list_lookup_insert_eq. rewrite length_insert. lia.
    + rewrite decide_False by lia. symmetry. apply lookup_ge_None_2. cbn. lia.
Qed.

Lemma slot_flush_total h d s : rom_wf s → ∃ h' d', slot_flush h d (rom_ctx s) = Some (h', d').
Proof.
  intros [_ Hf Hh]. unfold slot_flush. destruct (negb d || negb (sh_available h)); [by eexists _, _|].
  cbn [rom_ctx ctx_of osflash oshdr deref]. bind_simpl.
  destruct (semihost_store_total h OSFLASH_FILE _ _ Hf) as (x & h1 & -> & _); [done|]. bind_simpl. cbv beta iota.
  destruct (semihost_store_total h1 OSHDR_FILE _ _ Hh) as (y & h2 & -> & _); [done|]. bind_simpl. by eexists _, _.
Qed.

(** What a command does to the debugger's files: nothing, but for the one that
    hands over. *)
Definition files_after (act : boot_action) (h : semihost) (s : slot) (h' : semihost) : Prop :=
  match act with BOOT_ACT_NONE => h' = h | BOOT_ACT_RESTART => ∃ d, slot_flush h true (rom_ctx s) = Some (h', d) end.

Lemma loader_command_eq h s cmd n rsp dirty out :
  let c := decode (slice 0 n cmd) in
  let sw := (boot_spec rom_geometry s c).1 in
  let s' := (boot_spec rom_geometry s c).2 in
  rom_wf s → bytes cmd → 0 ≤ n ≤ len cmd → bytes rsp → len rsp = BOOT_STATUS_RSP_LEN + 2 →
  ∃ h' rsp' dirty', loader_command h (rom_ctx s) cmd n rsp dirty out =
      Some (restarts c sw, h', rom_ctx s', rsp', dirty', out ++ hex_line (response s c sw)) ∧
    rom_wf s' ∧ bytes rsp' ∧ len rsp' = BOOT_STATUS_RSP_LEN + 2 ∧ files_after (restarts c sw) h s' h'.
Proof.
  intros c sw s' Hs Hb Hn Hrb Hrl. pose proof Hs as [Hwf Hf Hh]. assert (cmd_ok c) as Hc by (by apply decode_ok, bytes_slice).
  pose proof (rom_step s c Hs Hc) as Hs'. fold s' in Hs'. unfold BOOT_STATUS_RSP_LEN in Hrl.
  unfold loader_command, rom_ctx. rewrite handle_eq by (done || (unfold BOOT_STATUS_RSP_LEN; lia)). fold c. bind_simpl.
  unfold boot_answer. assert (boot_spec rom_geometry s c = (sw, s')) as -> by (by destruct (boot_spec rom_geometry s c)).
  cbn [b_ctx b_rsp b_rsp_len b_action b_sw deref]. bind_simpl.
  set (b := match c with CmdStatus => _ | _ => rsp end). set (m := match c with CmdStatus => BOOT_STATUS_RSP_LEN | _ => 0 end).
  assert (len b = 18 ∧ bytes b ∧ (m = 0 ∨ m = 16) ∧ slice 0 m b = if decide (c = CmdStatus) then status_bytes s else [])
    as (Hbl & Hbb & Hm & Hmb).
  { unfold b, m, BOOT_STATUS_RSP_LEN. destruct c; try (by split; [lia|split; [done|split; [by left|done]]]).
    assert (len (status_bytes s) = 16) as Hsl by apply len_status_bytes.
    split; [rewrite len_splice; lia|]. split; [apply bytes_splice; [done|apply bytes_status_bytes]|]. split; [by right|].
    rewrite decide_True by done. rewrite <- Hsl. apply slice_splice_same; lia. }
  destruct (append_sw b m (u8 (Z.shiftr sw 8)) (u8 sw)) as (b1 & b2 & -> & Hw2 & Hl2 & Hsl2 & Hb2); [lia|lia|]. bind_simpl.
  rewrite !u32_id by (unfold is_u32; lia). rewrite Hw2. bind_simpl.
  assert (bytes b2) as Hb2' by (apply Hb2; [done|apply u8_range|apply u8_range]).
  assert (hal_card_send out (Ptr b2) (m + 2) = Some (HAL_OK, out ++ hex_line (response s c sw))) as ->.
  { unfold hal_card_send. rewrite put_hex_line_eq by (done || lia). bind_simpl. rewrite Hsl2, Hmb. done. }
  bind_simpl. cbv beta iota. fold (restarts c sw). fold (rom_ctx s').
  destruct (restarts c sw) eqn:Hact.
  - eexists _, b2, _. split; [done|]. split; [done|]. split; [done|]. split; [unfold BOOT_STATUS_RSP_LEN; lia|done].
  - assert ((sw =? 0x9000) = true) as -> by (revert Hact; unfold restarts; change SW_OK with 0x9000; destruct c; try done; by destruct (sw =? 0x9000)).
    destruct (slot_flush_total h true s' Hs') as (h' & d' & E). rewrite E. bind_simpl. cbv beta iota.
    eexists _, b2, _. split; [done|]. split; [done|]. split; [done|]. split; [unfold BOOT_STATUS_RSP_LEN; lia|by exists d'].
Qed.

(** ** The loader *)

Lemma rom_slot_check s out :
  rom_wf s →
  boot_slot_check (oshdr (rom_ctx s)) SCV1_OSHDR_SIZE (osflash (rom_ctx s)) SCV1_OSFLASH_SIZE out =
    let '(st, h) := slot_state (s_flash s) (s_hdr s) in
    Some (st, match st, out with BOOT_SLOT_BLANK, _ => out | _, NULL => NULL | _, Ptr _ => Ptr h end).
Proof.
  intros [Hwf Hf Hh]. cbn [rom_ctx ctx_of oshdr osflash]. rewrite <- Hf, <- Hh.
  pose proof (sw_hdr_size _ _ Hwf). apply slot_check_eq; [apply Hwf|lia].
Qed.

Lemma rom_reset s : rom_wf s → ∃ s', ctx_reset (rom_ctx s) = rom_ctx s' ∧ rom_wf s' ∧ s_flash s' = s_flash s ∧ s_hdr s' = s_hdr s.
Proof.
  intros [[] Hf Hh]. exists (Slot (s_flash s) (s_hdr s) 0 false).
  split; [done|]. split; [|done]. split; [|done|done]. split; cbn; try done. lia.
Qed.

Lemma bootsel_total h : ∃ b, bootsel_asserted h = Some b ∧ (sh_available h = false → b = false).
Proof.
  unfold bootsel_asserted, semihost_load. destruct (sh_available h); cbn [negb]; [|by exists false].
  destruct (sh_files h !! BOOTSEL_FILE) as [f|]; [|by eexists].
  pose proof (len_nonneg f). rewrite wr_n_some; [by eexists|done|].
  rewrite Z.add_0_l. change (len [0]) with 1. rewrite len_slice; lia.
Qed.

Lemma restarts_active s c : restarts c (boot_spec rom_geometry s c).1 = BOOT_ACT_RESTART →
  (slot_state (s_flash s) (s_hdr s)).1 = BOOT_SLOT_ACTIVE ∧ (boot_spec rom_geometry s c).2 = s.
Proof. destruct c; try done. cbn [boot_spec restarts]. destruct (slot_state _ _).1; done. Qed.

(** Whatever arrives on the link, the loader stops in a well-formed slot, and
    hands over only to an active one. *)
Lemma loader_total fuel input h s cmd rsp dirty out :
  rom_wf s → bytes input → len input < 4294967296 → (length input < fuel)%nat →
  bytes cmd → len cmd = 5 + BOOT_BLOCK_SIZE → bytes rsp → len rsp = BOOT_STATUS_RSP_LEN + 2 →
  ∃ ex h' s' out', loader_loop fuel input h (rom_ctx s) cmd rsp dirty out = Some (ex, h', rom_ctx s', out') ∧
    rom_wf s' ∧ (ex = BootJump → (slot_state (s_flash s') (s_hdr s')).1 = BOOT_SLOT_ACTIVE).
Proof.
  revert input h s cmd rsp dirty out.
  induction fuel as [|fuel IH]; intros input h s cmd rsp dirty out Hs Hi H32 Hfuel Hcb Hcl Hrb Hrl; [lia|]. cbn [loader_loop].
  assert (bytes boot_atr_bytes) as Hatr by solve_bytes.
  destruct (receive_total boot_atr_bytes (5 + BOOT_BLOCK_SIZE) 0 cmd input out Hatr Hi H32) as (r & -> & Hr);
    [rewrite Hcl; done|done|done|]. bind_simpl.
  destruct Hr as [buf out1 Hbl Hbb|st n buf out1 rest Hbl Hbb Hn Hrestb Hrestl Hst]; [by eexists _, h, s, _|].
  assert (∀ h s dirty rsp out, rom_wf s → bytes rsp → len rsp = BOOT_STATUS_RSP_LEN + 2 →
    ∃ ex h' s' out', loader_loop fuel rest h (rom_ctx s) buf rsp dirty out = Some (ex, h', rom_ctx s', out') ∧
      rom_wf s' ∧ (ex = BootJump → (slot_state (s_flash s') (s_hdr s')).1 = BOOT_SLOT_ACTIVE)) as Hnext.
  { intros. apply IH; try done; [lia|unfold len in *; lia|congruence]. }
  destruct Hst as [-> |[-> | ->]].
  - destruct (loader_command_eq h s buf n rsp dirty out1) as (h' & rsp' & d' & -> & Hs' & Hrb' & Hrl' & _); [done|done|lia|done|done|].
    bind_simpl. cbv beta iota.
    destruct (restarts (decode (slice 0 n buf)) (boot_spec rom_geometry s (decode (slice 0 n buf))).1) eqn:E; [by apply Hnext|].
    destruct (restarts_active _ _ E) as [Ha Heq]. eexists _, _, _, _. split; [done|]. rewrite Heq. by split.
  - destruct (slot_flush_total h dirty s Hs) as (h' & d' & ->). bind_simpl. cbv beta iota.
    destruct (bootsel_total h') as (strap & -> & _). bind_simpl. destruct strap; cbn [negb]; bind_simpl.
    + destruct (rom_reset s Hs) as (s' & -> & Hs' & _). by apply Hnext.
    + rewrite rom_slot_check by done. destruct (slot_state (s_flash s) (s_hdr s)) as [st hd] eqn:E. bind_simpl. cbv beta iota.
      destruct (bool_decide_reflect (st = BOOT_SLOT_ACTIVE)) as [->|].
      * eexists _, _, s, _. split; [done|]. split; [done|]. by rewrite E.
      * destruct (rom_reset s Hs) as (s' & -> & Hs' & _). by apply Hnext.
  - destruct (slot_flush_total h dirty s Hs) as (h' & d' & ->). bind_simpl. cbv beta iota. by eexists _, _, s, _.
Qed.

(** A line that spells a command, other than GET STATUS and RESTART. *)
Lemma loader_line fuel d rest h s cmd rsp dirty out :
  let c := decode d in
  rom_wf s → bytes d → 0 < len d ≤ 5 + BOOT_BLOCK_SIZE → c ≠ CmdStatus →
  bytes cmd → len cmd = 5 + BOOT_BLOCK_SIZE → bytes rsp → len rsp = BOOT_STATUS_RSP_LEN + 2 →
  ∃ h' cmd' rsp' dirty' out',
    out' = out ++ hex_line [u8 (Z.shiftr (boot_spec rom_geometry s c).1 8); u8 (boot_spec rom_geometry s c).1] ∧
    rom_wf (boot_spec rom_geometry s c).2 ∧ bytes cmd' ∧ len cmd' = len cmd ∧ bytes rsp' ∧ len rsp' = len rsp ∧
    files_after (restarts c (boot_spec rom_geometry s c).1) h (boot_spec rom_geometry s c).2 h' ∧
    loader_loop (S fuel) (hex_line d ++ rest) h (rom_ctx s) cmd rsp dirty out =
      match restarts c (boot_spec rom_geometry s c).1 with
      | BOOT_ACT_RESTART => Some (BootJump, h', rom_ctx (boot_spec rom_geometry s c).2, out')
      | BOOT_ACT_NONE => loader_loop fuel rest h' (rom_ctx (boot_spec rom_geometry s c).2) cmd' rsp' dirty' out'
      end.
Proof.
  intros c Hs Hd Hl Hc Hcb Hcl Hrb Hrl. cbn [loader_loop]. unfold hex_line at 2. rewrite <- app_assoc.
  change (flat_map hex_byte d) with (hex_bytes d). change ([LF] ++ rest) with (LF :: rest).
  assert (bytes boot_atr_bytes) as Hatr by solve_bytes. unfold BOOT_BLOCK_SIZE in *.
  destruct (receive_line_eq boot_atr_bytes (hex_bytes d) LF rest cmd (5 + 128) 0 out) as (buf & Hbl & Hbb & Hcmd & ->);
    [done|by apply hex_plain|by left|rewrite len_hex_bytes; lia|lia|lia|done|].
  pose proof (hex_frame (5 + 128) d Hd Hl) as Hf. destruct (Hcmd d Hf) as (Hbuf & _ & _). rewrite Hf. cbn [on_frame]. bind_simpl.
  destruct (loader_command_eq h s buf (len d) rsp dirty out) as (h' & rsp' & d' & Hcommand & Hs' & Hrb' & Hrl' & Hh'); [done|done|lia|done|done|].
  assert (slice 0 (len d) buf = d) as Hsl by (rewrite Hbuf; apply slice_splice_same; lia).
  rewrite Hsl in Hcommand, Hs', Hh'. fold c in Hcommand, Hs', Hh'. rewrite Hcommand. bind_simpl. cbv beta iota.
  unfold response. rewrite decide_False by done. cbn [app].
  eexists h', buf, rsp', d', _. split; [done|]. split; [done|]. split; [done|]. split; [done|]. split; [done|]. split; [congruence|].
  split; [exact Hh'|]. by destruct (restarts c _).
Qed.

(** The line that carries a status word. *)
Definition sw_line (sw : Z) : list Z := hex_line [u8 (Z.shiftr sw 8); u8 sw].

Lemma loader_lines cmds fuel rest h s cmd rsp dirty out :
  rom_wf s →
  Forall (λ d, bytes d ∧ 0 < len d ≤ 5 + BOOT_BLOCK_SIZE ∧ decode d ≠ CmdStatus ∧ decode d ≠ CmdRestart) cmds →
  bytes cmd → len cmd = 5 + BOOT_BLOCK_SIZE → bytes rsp → len rsp = BOOT_STATUS_RSP_LEN + 2 →
  ∃ cmd' rsp' dirty' out',
    out' = out ++ concat (map sw_line (spec_session rom_geometry s (map decode cmds)).1) ∧
    rom_wf (spec_session rom_geometry s (map decode cmds)).2 ∧ bytes cmd' ∧ len cmd' = len cmd ∧ bytes rsp' ∧ len rsp' = len rsp ∧
    loader_loop (length cmds + fuel) (concat (map hex_line cmds) ++ rest) h (rom_ctx s) cmd rsp dirty out =
      loader_loop fuel rest h (rom_ctx (spec_session rom_geometry s (map decode cmds)).2) cmd' rsp' dirty' out'.
Proof.
  intros Hs Hc. revert h s cmd rsp dirty out Hs. induction Hc as [|d cmds (Hd & Hl & Hns & Hnr) Hc IH];
    intros h s cmd rsp dirty out Hs Hcb Hcl Hrb Hrl.
  { exists cmd, rsp, dirty, out. cbn. rewrite app_nil_r. done. }
  cbn [map concat length Nat.add spec_session]. rewrite <- app_assoc.
  destruct (loader_line (length cmds + fuel) d (concat (map hex_line cmds) ++ rest) h s cmd rsp dirty out)
    as (h1 & cmd1 & rsp1 & dirty1 & out1 & Ho1 & Hs1 & Hcb1 & Hcl1 & Hrb1 & Hrl1 & Hh1 & ->); try done.
  destruct (boot_spec rom_geometry s (decode d)) as [sw s1]. cbn [fst snd] in *.
  assert (restarts (decode d) sw = BOOT_ACT_NONE) as Hact by (by destruct (decode d)).
  rewrite Hact in Hh1 |- *. cbn [files_after] in Hh1. subst h1.
  destruct (IH h s1 cmd1 rsp1 dirty1 out1) as (cmd2 & rsp2 & dirty2 & out2 & Ho2 & Hs2 & Hcb2 & Hcl2 & Hrb2 & Hrl2 & ->);
    [done|done|congruence|done|congruence|].
  destruct (spec_session rom_geometry s1 (map decode cmds)) as [sws s2]. cbn [fst snd map concat] in *.
  exists cmd2, rsp2, dirty2, out2. split; [rewrite Ho2, Ho1, <- app_assoc; done|].
  split; [done|]. split; [done|]. split; [congruence|]. split; [done|]. split; [congruence|done].
Qed.

(** ** Power-up *)

Lemma erase_loop_all b n :
  len b = n → 0 ≤ n → foreach (upto n) (λ i b, wr b i 0xFF) b = Some (erased n).
Proof.
  intros Hl Hn. pose proof (foreach_wr b (erased n) 0 (λ _, Some 0xFF)) as Hw. rewrite len_erased in Hw by lia.
  rewrite (foreach_ext _ _ (λ i d, x ← Some 0xFF; wr d (0 + i) x)) by (intros; done).
  rewrite Hw; [|lia|lia|].
  - rewrite splice_all; [done|]. rewrite len_erased; lia.
  - intros j x Hx. by apply lookup_replicate in Hx as [-> _].
Qed.

Lemma power_on_total h fl hd :
  len fl = SCV1_OSFLASH_SIZE → len hd = SCV1_OSHDR_SIZE → bytes fl → bytes hd → (∀ p f, sh_files h !! p = Some f → bytes f) →
  ∃ fl' hd', slot_power_on h fl hd = Some (fl', hd') ∧ rom_wf (Slot fl' hd' 0 false) ∧
    (sh_available h = false ∨ sh_files h !! OSFLASH_FILE = None → fl' = erased SCV1_OSFLASH_SIZE ∧ hd' = erased SCV1_OSHDR_SIZE).
Proof.
  intros Hfl Hhd Hfb Hhb Hfiles.
  assert (∀ fl hd, len fl = SCV1_OSFLASH_SIZE → len hd = SCV1_OSHDR_SIZE → bytes fl → bytes hd → rom_wf (Slot fl hd 0 false)) as Hwf.
  { intros fl' hd' Hf Hh Hfb' Hhb'. split; [|done|done].
    split; cbn [s_flash s_hdr s_high s_erased]; rewrite ?Hf, ?Hh; try done; vm_compute; split; congruence. }
  assert (∀ fl hd, len fl = SCV1_OSFLASH_SIZE → len hd = SCV1_OSHDR_SIZE →
    (fl ← foreach (upto SCV1_OSFLASH_SIZE) (λ i b, wr b i 0xFF) fl;
     hd ← foreach (upto SCV1_OSHDR_SIZE) (λ i b, wr b i 0xFF) hd;
     Some (fl, hd)) = Some (erased SCV1_OSFLASH_SIZE, erased SCV1_OSHDR_SIZE)) as Hblank.
  { intros fl' hd' Hf Hh. rewrite (erase_loop_all fl') by (done || (unfold SCV1_OSFLASH_SIZE; lia)). bind_simpl.
    rewrite (erase_loop_all hd') by (done || (unfold SCV1_OSHDR_SIZE; lia)). bind_simpl. reflexivity. }
  assert (rom_wf (Slot (erased SCV1_OSFLASH_SIZE) (erased SCV1_OSHDR_SIZE) 0 false)) as Herased.
  { apply Hwf; try apply bytes_erased; apply len_erased; unfold SCV1_OSFLASH_SIZE, SCV1_OSHDR_SIZE; lia. }
  unfold slot_power_on. cbv zeta. destruct (sh_available h) eqn:Ha.
  - destruct (semihost_load_total h OSFLASH_FILE fl SCV1_OSFLASH_SIZE) as (a & fl1 & -> & Hl1 & Hb1 & Hr1 & _); try done. bind_simpl. cbv beta iota.
    destruct (semihost_load_total h OSHDR_FILE hd SCV1_OSHDR_SIZE) as (b & hd1 & -> & Hl2 & Hb2 & _ & _); try done. bind_simpl. cbv beta iota.
    destruct (Z.ltb_spec 0 a); cbn [andb]; [|rewrite Hblank by done; eexists _, _; split; [done|by split]].
    destruct (0 <? b); [|rewrite Hblank by done; eexists _, _; split; [done|by split]].
    exists fl1, hd1. split; [done|]. split; [by apply Hwf|]. intros [|Hn]; [done|]. specialize (Hr1 Hn). lia.
  - rewrite Hblank by done. eexists _, _. split; [done|]. by split.
Qed.

Lemma banner_total st hdr strap p : ∃ out, boot_banner st hdr strap p = Some out.
Proof.
  unfold boot_banner. destruct st; bind_simpl; try (by eexists);
    change put_hex8 with put_hex_byte; rewrite put_hex_byte_eq by apply u8_range; bind_simpl; rewrite put_hex_byte_eq by apply u8_range; bind_simpl; by eexists.
Qed.

Lemma main_ctx s :
  rom_wf s → s_high s = 0 → s_erased s = false →
  deref (boot_ctx_init (Ptr (BootCtx NULL 0 NULL 0 0 0 0 0 0 false)) (Ptr (s_flash s)) SCV1_OSFLASH_SIZE (Ptr (s_hdr s))
    SCV1_OSHDR_SIZE SCV1_CFLASH_PAGE SCV1_OSFLASH_BASE SCV1_SRAM_BASE SCV1_SRAM_SIZE) = Some (rom_ctx s).
Proof.
  intros [_ Hf Hh] H0 He. unfold boot_ctx_init, rom_ctx, ctx_of. cbn [deref]. rewrite Hf, Hh, H0, He. done.
Qed.

(** Start-up: the image is started when it may be, the loader runs otherwise. *)
Lemma boot_main_cases h fl hd input :
  len fl = SCV1_OSFLASH_SIZE → len hd = SCV1_OSHDR_SIZE → bytes fl → bytes hd → (∀ p f, sh_files h !! p = Some f → bytes f) →
  ∃ s, rom_wf s ∧ slot_power_on h fl hd = Some (s_flash s, s_hdr s) ∧
   ((slot_state (s_flash s) (s_hdr s)).1 = BOOT_SLOT_ACTIVE ∧
      plausible rom_geometry (s_flash s) (h_length (slot_state (s_flash s) (s_hdr s)).2) ∧
      (∃ out, boot_main h fl hd input = Some (BootJump, h, s_flash s, s_hdr s, out)) ∨
    ∃ strap out, boot_banner (slot_state (s_flash s) (s_hdr s)).1 (slot_state (s_flash s) (s_hdr s)).2 strap (sh_available h) = Some out ∧
      (sh_available h = false → strap = false) ∧
      boot_main h fl hd input =
        '(ex, h, c, out) ← loader_loop (S (length input)) input h (rom_ctx s) (replicate (Z.to_nat (5 + BOOT_BLOCK_SIZE)) 0)
          (replicate (Z.to_nat (BOOT_STATUS_RSP_LEN + 2)) 0) false out;
        fl ← deref (osflash c);
        hd ← deref (oshdr c);
        match ex with
        | BootLinkClosed => Some (ex, h, fl, hd, out ++ chars "boot loader: link closed" ++ CRLF)
        | _ => Some (ex, h, fl, hd, out)
        end).
Proof.
  intros Hfl Hhd Hfb Hhb Hfiles.
  destruct (power_on_total h fl hd Hfl Hhd Hfb Hhb Hfiles) as (fl' & hd' & Hpo & Hs & _).
  exists (Slot fl' hd' 0 false). split; [done|]. split; [done|]. cbn [s_flash s_hdr]. unfold boot_main. rewrite Hpo. bind_simpl. cbv beta iota.
  pose proof (rom_slot_check _ (Ptr boot_hdr_zero) Hs) as Hsc. cbn [rom_ctx ctx_of osflash oshdr s_flash s_hdr] in Hsc. rewrite Hsc.
  pose proof (slot_state_range fl' hd' (sw_hdr_bytes _ _ (rw_slot _ Hs))) as Hrange.
  assert ((slot_state fl' hd').1 = BOOT_SLOT_BLANK → (slot_state fl' hd').2 = boot_hdr_zero) as Hz.
  { unfold slot_state. repeat case_match; done. }
  assert ((slot_state fl' hd').1 = BOOT_SLOT_ACTIVE → h_length (slot_state fl' hd').2 ≤ len fl') as Hlen.
  { intros Ha. pose proof (slot_state_says fl' hd') as Hsays. rewrite Ha in Hsays.
    destruct Hsays as (_ & [Hl _] & _); [apply (sw_hdr_bytes _ _ (rw_slot _ Hs))|apply (sw_hdr_size _ _ (rw_slot _ Hs))|lia]. }
  destruct (slot_state fl' hd') as [st hdr]. cbn [fst snd] in *. bind_simpl. cbv beta iota.
  assert (deref (match st with BOOT_SLOT_BLANK => Ptr boot_hdr_zero | _ => Ptr hdr end) = Some hdr) as ->
    by (destruct st; cbn; [by rewrite Hz|done..]). bind_simpl.
  destruct (bootsel_total h) as (strap & -> & Hstrap). bind_simpl.
  destruct (banner_total st hdr strap (sh_available h)) as (out & Hout).
  pose proof (main_ctx _ Hs eq_refl eq_refl) as Hctx. cbn [s_flash s_hdr] in Hctx. rewrite Hctx. clear Hctx.
  destruct (negb strap && bool_decide (st = BOOT_SLOT_ACTIVE)) eqn:E.
  - apply andb_true_iff in E as [_ ->%bool_decide_eq_true]. destruct Hs as [[] Hf Hh]. cbn [s_flash s_hdr] in *.
    pose proof (plausible_eq rom_geometry fl' (h_length hdr)) as Hp. cbn [g_load_addr g_sram_base g_sram_size rom_geometry] in Hp.
    rewrite Hp; [|done|split; [by apply Hlen|lia]|done|done|done]. bind_simpl.
    destruct (bool_decide_reflect (plausible rom_geometry fl' (h_length hdr))); [left; split_and!; [done|done|by eexists]|]. right. exists strap, out. split; [done|]. split; [done|]. rewrite Hout. bind_simpl. reflexivity.
  - bind_simpl. right. exists strap, out. split; [done|]. split; [done|]. rewrite Hout. bind_simpl. reflexivity.
Qed.

(** The commands of an installation, the last one apart. *)
Definition install_but_restart (img : list Z) : list (list Z) :=
  erase_cmd :: load_cmds img ++ [verify_cmd (len img) (crc_bytes img); activate_cmd].

Lemma install_snoc img : install img = install_but_restart img ++ [restart_cmd].
Proof. unfold install, install_but_restart. cbn [app]. by rewrite <- app_assoc. Qed.

Lemma install_lines_ok img :
  bytes img → is_u32 (len img) → len img ≤ 65536 * BOOT_BLOCK_SIZE →
  Forall (λ d, bytes d ∧ 0 < len d ≤ 5 + BOOT_BLOCK_SIZE ∧ decode d ≠ CmdStatus ∧ decode d ≠ CmdRestart)
    (install_but_restart img).
Proof.
  intros Hb H32 Hl. pose proof (install_bytes img Hb Hl) as Hall. rewrite install_snoc in Hall.
  apply Forall_app in Hall as [Hall _]. unfold BOOT_BLOCK_SIZE in *.
  apply Forall_forall. intros d Hd. split; [by eapply Forall_forall in Hall|].
  apply elem_of_cons in Hd as [-> |[Hd|Hd]%elem_of_app]; [by vm_compute| |].
  - unfold load_cmds in Hd. apply list_elem_of_In, in_map_iff in Hd as (k & <- & [Hk0 Hk]%list_elem_of_In%elem_of_upto).
    unfold block_count, BOOT_BLOCK_SIZE in Hk.
    assert (k * BOOT_BLOCK_SIZE < len img) as Hlt by (unfold BOOT_BLOCK_SIZE; lia).
    pose proof (len_block img k Hk0 Hlt) as Hlb. rewrite decode_load by (rewrite ?Hlb; unfold BOOT_BLOCK_SIZE in *; lia).
    unfold load_cmd. rewrite len_app, Hlb. unfold BOOT_BLOCK_SIZE in *. change (len [_; _; _; _; _]) with 5. by split; [lia|].
  - apply elem_of_cons in Hd as [-> |[-> |[]%elem_of_nil]%elem_of_cons]; [|by vm_compute].
    rewrite decode_verify by (done || apply crc_bytes_u16). unfold verify_cmd. rewrite !len_app.
    change (len [_; _; _; _; _]) with 5. change (len (be32 _)) with 4. change (len (be16 _)) with 2. by split; [lia|].
Qed.

Lemma answers_ok n : concat (map sw_line (replicate n SW_OK)) = concat (replicate n (sw_line SW_OK)).
Proof. f_equal. induction n as [|n IH]; [done|]. cbn [replicate map]. by rewrite IH. Qed.

(** The loader, given an installation line by line. *)
Lemma loader_installs fuel h s img cmd rsp dirty out :
  let fl := img ++ erased (SCV1_OSFLASH_SIZE - len img) in
  let hd := splice (erased SCV1_OSHDR_SIZE) 0 (hdr_bytes (len img) (crc_bytes img) BOOT_STATE_ACTIVE) in
  rom_wf s → bytes img → plausible rom_geometry img (len img) → len img ≤ SCV1_OSFLASH_SIZE →
  bytes cmd → len cmd = 5 + BOOT_BLOCK_SIZE → bytes rsp → len rsp = BOOT_STATUS_RSP_LEN + 2 →
  (length (install img) ≤ fuel)%nat →
  ∃ h' d', loader_loop fuel (concat (map hex_line (install img))) h (rom_ctx s) cmd rsp dirty out =
    Some (BootJump, h', rom_ctx (Slot fl hd (len img) true), out ++ concat (replicate (length (install img)) (sw_line 0x9000))) ∧
    rom_wf (Slot fl hd (len img) true) ∧ slot_flush h true (rom_ctx (Slot fl hd (len img) true)) = Some (h', d').
Proof.
  intros fl hd Hs Hb Hp Hl Hcb Hcl Hrb Hrl Hfuel. pose proof Hs as [Hwf Hf Hh].
  assert (len img ≤ 65536 * BOOT_BLOCK_SIZE ∧ is_u32 (len img)) as [H64 H32].
  { pose proof (plausible_len _ _ _ Hp). unfold SCV1_OSFLASH_SIZE, BOOT_BLOCK_SIZE, is_u32 in *. lia. }
  pose proof (install_session rom_geometry s img Hwf Hb Hp ltac:(lia) H64) as Hi. rewrite Hf, Hh in Hi. fold fl hd in Hi.
  rewrite install_snoc, length_app in Hfuel. cbn [length] in Hfuel.
  destruct (loader_lines (install_but_restart img) (S (fuel - length (install_but_restart img) - 1)) (concat (map hex_line [restart_cmd]))
    h s cmd rsp dirty out Hs (install_lines_ok img Hb H32 H64) Hcb Hcl Hrb Hrl)
    as (cmd1 & rsp1 & d1 & out1 & Ho1 & Hs1 & Hcb1 & Hcl1 & Hrb1 & Hrl1 & Hrun).
  rewrite install_snoc, map_app, spec_session_app in Hi.
  destruct (spec_session rom_geometry s (map decode (install_but_restart img))) as [sws s1]. cbn [fst snd] in *.
  destruct (loader_line (fuel - length (install_but_restart img) - 1) restart_cmd [] h s1 cmd1 rsp1 d1 out1)
    as (h2 & ? & ? & ? & out2 & Ho2 & Hs2 & _ & _ & _ & _ & Hh2 & Hrun2);
    [done|solve_bytes|by vm_compute|done|done|congruence|done|congruence|].
  rewrite install_snoc, map_app, concat_app. exists h2.
  replace (length (install_but_restart img) + S (fuel - length (install_but_restart img) - 1))%nat with fuel in Hrun by lia.
  cbn [map concat] in Hrun |- *. rewrite Hrun, Hrun2, Ho2, Ho1. clear Hrun Hrun2 Ho1 Ho2.
  cbn [map spec_session] in Hi. change (decode restart_cmd) with CmdRestart in *.
  destruct (boot_spec rom_geometry s1 CmdRestart) as [sw s2]. cbn [fst snd].
  apply pair_eq in Hi as [Hsws ->]. rewrite length_app in *. cbn [length] in *. rewrite Nat.add_comm in Hsws. cbn [Nat.add replicate] in *.
  assert (sws ++ [sw] = replicate (length (install_but_restart img)) SW_OK ++ [SW_OK]) as [-> [= ->]]%app_inj_tail.
  { rewrite Hsws. change [SW_OK] with (replicate 1 SW_OK). by rewrite <- replicate_add, Nat.add_comm. }
  change (restarts CmdRestart SW_OK) with BOOT_ACT_RESTART in Hh2 |- *. cbn [files_after fst snd] in *. destruct Hh2 as (d' & Hh2).
  exists d'. split; [|done]. do 2 f_equal.
  rewrite <- app_assoc. f_equal. rewrite replicate_add, concat_app. f_equal. apply (answers_ok (length (install_but_restart img))).
Qed.

(** ** Properties *)

(** [C12] The boot ROM hands the core over only to an active slot whose image
    matches its header: whatever the RAM behind the slot holds at power-up,
    whatever files the debugger has and whatever bytes arrive on the serial
    line, it makes no access outside its memory and stops consuming input
    after finitely many steps, and if it jumps, the header region then holds a
    header in state ACTIVE whose length lies within the flash and whose check
    sum is that of the flash. *)
Theorem boot_rom_jumps_only_active h fl hd input :
  len fl = SCV1_OSFLASH_SIZE → len hd = SCV1_OSHDR_SIZE → bytes fl → bytes hd →
  (∀ p f, sh_files h !! p = Some f → bytes f) → bytes input → len input < 4294967296 →
  ∃ ex h' fl' hd' out, boot_main h fl hd input = Some (ex, h', fl', hd', out) ∧
    len fl' = SCV1_OSFLASH_SIZE ∧ len hd' = SCV1_OSHDR_SIZE ∧
    (ex = BootJump → ∃ hdr, has_header hd' hdr ∧ h_state hdr = BOOT_STATE_ACTIVE ∧
      0 < h_length hdr ≤ SCV1_OSFLASH_SIZE ∧ crc_bytes (slice 0 (h_length hdr) fl') = h_image_crc hdr).
Proof.
  intros Hfl Hhd Hfb Hhb Hfiles Hi H32.
  assert (∀ s, rom_wf s → (slot_state (s_flash s) (s_hdr s)).1 = BOOT_SLOT_ACTIVE →
    ∃ hdr, has_header (s_hdr s) hdr ∧ h_state hdr = BOOT_STATE_ACTIVE ∧
      0 < h_length hdr ≤ SCV1_OSFLASH_SIZE ∧ crc_bytes (slice 0 (h_length hdr) (s_flash s)) = h_image_crc hdr) as Hactive.
  { intros s [Hwf Hf Hh] Ha. pose proof (slot_state_says (s_flash s) (s_hdr s)) as Hsays. rewrite Ha in Hsays.
    destruct Hsays as (Hhas & [Hlen Hcrc] & Hst); [apply Hwf|apply Hwf|]. rewrite Hf in Hlen. eauto. }
  destruct (boot_main_cases h fl hd input Hfl Hhd Hfb Hhb Hfiles) as (s & Hs & _ & [(Ha & _ & out & ->)|(strap & out & _ & _ & ->)]).
  - eexists _, _, _, _, _. split; [done|]. split; [apply Hs|]. split; [apply Hs|]. intros _. by apply Hactive.
  - destruct (loader_total (S (length input)) input h s (replicate (Z.to_nat (5 + BOOT_BLOCK_SIZE)) 0)
      (replicate (Z.to_nat (BOOT_STATUS_RSP_LEN + 2)) 0) false out Hs Hi H32) as (ex & h' & s' & out' & -> & Hs' & Hj);
      [lia|(apply bytes_replicate; unfold is_u8; lia)|by vm_compute|(apply bytes_replicate; unfold is_u8; lia)|by vm_compute|].
    bind_simpl. cbv beta iota. cbn [rom_ctx ctx_of osflash oshdr deref]. bind_simpl.
    destruct ex; (eexists _, _, _, _, _; split; [done|]; split; [apply Hs'|]; split; [apply Hs'|]);
      intros E; try done. apply (Hactive s' Hs'), Hj, E.
Qed.

(** The slot after an installation. *)
Definition installed_flash (img : list Z) : list Z := img ++ erased (SCV1_OSFLASH_SIZE - len img).
Definition installed_header (img : list Z) : list Z :=
  splice (erased SCV1_OSHDR_SIZE) 0 (hdr_bytes (len img) (crc_bytes img) BOOT_STATE_ACTIVE).

Lemma installed_state img :
  bytes img → 0 < len img ≤ SCV1_OSFLASH_SIZE →
  slot_state (installed_flash img) (installed_header img) =
    (BOOT_SLOT_ACTIVE, BootHdr (len img) (crc_bytes img) BOOT_STATE_ACTIVE BOOT_HDR_VERSION).
Proof.
  intros Hb Hl. unfold installed_flash, installed_header.
  assert (len (erased SCV1_OSHDR_SIZE) = SCV1_OSHDR_SIZE) as Hle by (apply len_erased; unfold SCV1_OSHDR_SIZE; lia).
  assert (len (img ++ erased (SCV1_OSFLASH_SIZE - len img)) = SCV1_OSFLASH_SIZE) as Hfi by (rewrite len_app, len_erased; lia).
  assert (crc_bytes (slice 0 (len img) (img ++ erased (SCV1_OSFLASH_SIZE - len img))) = crc_bytes img) as Hc
    by (by rewrite slice_app_l, slice_0_all by lia).
  rewrite (header_state _ _ (len img) (crc_bytes img)).
  - change (BOOT_STATE_ACTIVE =? BOOT_STATE_ACTIVE) with true. reflexivity.
  - apply bytes_erased.
  - rewrite Hle. unfold SCV1_OSHDR_SIZE, BOOT_HDR_SIZE. lia.
  - rewrite Hfi. lia.
  - rewrite Hfi. unfold SCV1_OSFLASH_SIZE. lia.
  - exact Hc.
  - unfold is_u16, BOOT_STATE_ACTIVE. lia.
Qed.

(** A download into a slot that is blank at power-up, line by line. *)
Lemma rom_installs h fl hd img :
  len fl = SCV1_OSFLASH_SIZE → len hd = SCV1_OSHDR_SIZE → bytes fl → bytes hd → (∀ p f, sh_files h !! p = Some f → bytes f) →
  (sh_available h = false ∨ sh_files h !! OSFLASH_FILE = None) →
  bytes img → plausible rom_geometry img (len img) → len img ≤ SCV1_OSFLASH_SIZE →
  ∃ h' d' strap out, boot_main h fl hd (concat (map hex_line (install img))) =
      Some (BootJump, h', installed_flash img, installed_header img,
            out ++ concat (replicate (length (install img)) (hex_line [0x90; 0x00]))) ∧
    boot_banner BOOT_SLOT_BLANK boot_hdr_zero strap (sh_available h) = Some out ∧ (sh_available h = false → strap = false) ∧
    rom_wf (Slot (installed_flash img) (installed_header img) (len img) true) ∧
    slot_flush h true (rom_ctx (Slot (installed_flash img) (installed_header img) (len img) true)) = Some (h', d').
Proof.
  intros Hfl Hhd Hfb Hhb Hfiles Hempty Hb Hp Hl. set (input := concat (map hex_line (install img))).
  destruct (boot_main_cases h fl hd input Hfl Hhd Hfb Hhb Hfiles) as (s & Hs & Hpo & Hcases).
  destruct (power_on_total h fl hd Hfl Hhd Hfb Hhb Hfiles) as (fl' & hd' & Hpo' & _ & Hblank).
  rewrite Hpo in Hpo'. injection Hpo' as Hf' Hh'. destruct (Hblank Hempty) as [-> ->].
  assert (slot_state (s_flash s) (s_hdr s) = (BOOT_SLOT_BLANK, boot_hdr_zero)) as Hst by (rewrite Hf', Hh'; by vm_compute).
  rewrite Hst in Hcases. destruct Hcases as [(? & _)|(strap & out & Hout & Hstrap & ->)]; [done|]. cbn [fst snd] in Hout.
  destruct (loader_installs (S (length input)) h s img (replicate (Z.to_nat (5 + BOOT_BLOCK_SIZE)) 0)
    (replicate (Z.to_nat (BOOT_STATUS_RSP_LEN + 2)) 0) false out) as (h' & d' & Hrun & Hwf & Hflush);
    [done|done|done|done|(apply bytes_replicate; unfold is_u8; lia)|by vm_compute|(apply bytes_replicate; unfold is_u8; lia)|by vm_compute| |].
  { apply Nat.le_le_succ_r, lines_length. }
  fold input in Hrun. rewrite Hrun. clear Hrun. bind_simpl. cbv beta iota. cbn [rom_ctx ctx_of osflash oshdr deref s_flash s_hdr]. bind_simpl.
  by exists h', d', strap, out.
Qed.

(** The debugger's files after the hand-over, and the slot at the next power-up. *)
Definition saved_slot (h : semihost) (s : slot) : semihost :=
  Semihost (sh_available h) (<[OSHDR_FILE := s_hdr s]> (<[OSFLASH_FILE := s_flash s]> (sh_files h))) (sh_writable h).

Lemma store_whole h path b n :
  sh_available h = true → sh_writable h path = true → len b = n →
  semihost_store h path b n = Some (0, Semihost (sh_available h) (<[path := b]> (sh_files h)) (sh_writable h)).
Proof.
  intros Hav Hw Hl. pose proof (len_nonneg b). unfold semihost_store. rewrite Hav, Hw. cbn [negb].
  rewrite rd_n_some by lia. bind_simpl. by rewrite <- Hl, slice_0_all.
Qed.

Lemma flush_saves h s :
  rom_wf s → sh_available h = true → sh_writable h OSFLASH_FILE = true → sh_writable h OSHDR_FILE = true →
  slot_flush h true (rom_ctx s) = Some (saved_slot h s, false).
Proof.
  intros [_ Hf Hh] Hav Hw1 Hw2. unfold slot_flush. rewrite Hav. cbn [negb orb rom_ctx ctx_of osflash oshdr deref]. bind_simpl.
  rewrite (store_whole h OSFLASH_FILE) by done. bind_simpl. cbv beta iota. by rewrite store_whole.
Qed.

Lemma load_whole h path f b n :
  sh_available h = true → sh_files h !! path = Some f → len f = n → len b = n → semihost_load h path b n = Some (n, f).
Proof.
  intros Hav Hf Hl Hb. pose proof (len_nonneg f). unfold semihost_load. rewrite Hav, Hf. cbn [negb].
  replace (Z.min (len f) n) with (len f) by lia. rewrite slice_0_all, wr_n_some by lia. bind_simpl.
  rewrite splice_all by lia. by rewrite Hl.
Qed.

Lemma power_on_loads h fl hd s :
  rom_wf s → sh_available h = true → sh_files h !! OSFLASH_FILE = Some (s_flash s) → sh_files h !! OSHDR_FILE = Some (s_hdr s) →
  len fl = SCV1_OSFLASH_SIZE → len hd = SCV1_OSHDR_SIZE → slot_power_on h fl hd = Some (s_flash s, s_hdr s).
Proof.
  intros [_ Hf Hh] Hav Hff Hfh Hfl Hhd. unfold slot_power_on. cbv zeta. rewrite Hav.
  rewrite (load_whole h OSFLASH_FILE (s_flash s)) by done. bind_simpl. cbv beta iota.
  rewrite (load_whole h OSHDR_FILE (s_hdr s)) by done. bind_simpl. done.
Qed.

(** The start of an activated, plausible image: no word is exchanged. *)
Lemma boot_main_starts h fl hd input s hdr :
  rom_wf s → slot_power_on h fl hd = Some (s_flash s, s_hdr s) → slot_state (s_flash s) (s_hdr s) = (BOOT_SLOT_ACTIVE, hdr) →
  h_length hdr ≤ SCV1_OSFLASH_SIZE → plausible rom_geometry (s_flash s) (h_length hdr) → bootsel_asserted h = Some false →
  boot_main h fl hd input =
    Some (BootJump, h, s_flash s, s_hdr s, chars "SCV1 BOOT ROM: OS slot ACTIVE, starting OS" ++ CRLF).
Proof.
  intros Hs Hpo Hst Hl Hp Hsel. unfold boot_main. rewrite Hpo. bind_simpl. cbv beta iota.
  pose proof (rom_slot_check _ (Ptr boot_hdr_zero) Hs) as Hsc. cbn [rom_ctx ctx_of osflash oshdr] in Hsc.
  rewrite Hsc, Hst. bind_simpl. cbn [deref]. bind_simpl. rewrite Hsel. bind_simpl. cbn [negb andb].
  rewrite bool_decide_eq_true_2 by done. pose proof (plausible_len _ _ _ Hp). destruct Hs as [[] Hf Hh].
  pose proof (plausible_eq rom_geometry (s_flash s) (h_length hdr)) as Hpe.
  cbn [g_load_addr g_sram_base g_sram_size rom_geometry] in Hpe.
  rewrite Hpe; [|done|lia|done|done|done]. bind_simpl. by rewrite bool_decide_eq_true_2.
Qed.

(** An operating system can be installed over the serial link: on a chip
    without a debugger, the boot ROM comes up with a blank slot whatever the
    RAM behind it held, answers each line of the download of a plausible image
    with 9000, and then jumps into the slot, whose flash holds the image
    followed by erased bytes and whose header is ACTIVE for it. *)
Theorem boot_rom_installs_over_uart h fl hd img :
  len fl = SCV1_OSFLASH_SIZE → len hd = SCV1_OSHDR_SIZE → bytes fl → bytes hd →
  (∀ p f, sh_files h !! p = Some f → bytes f) → sh_available h = false →
  bytes img → plausible rom_geometry img (len img) → len img ≤ SCV1_OSFLASH_SIZE →
  ∃ h' hd' out, boot_main h fl hd (concat (map hex_line (install img))) =
      Some (BootJump, h', img ++ erased (SCV1_OSFLASH_SIZE - len img), hd',
            out ++ concat (replicate (length (install img)) (hex_line [0x90; 0x00]))) ∧
    boot_banner BOOT_SLOT_BLANK boot_hdr_zero false false = Some out ∧
    boot_slot_check (Ptr hd') SCV1_OSHDR_SIZE (Ptr (img ++ erased (SCV1_OSFLASH_SIZE - len img))) SCV1_OSFLASH_SIZE (Ptr boot_hdr_zero) =
      Some (BOOT_SLOT_ACTIVE, Ptr (BootHdr (len img) (crc_bytes img) BOOT_STATE_ACTIVE BOOT_HDR_VERSION)).
Proof.
  intros Hfl Hhd Hfb Hhb Hfiles Hav Hb Hp Hl. pose proof (plausible_len _ _ _ Hp).
  destruct (rom_installs h fl hd img) as (h' & d' & strap & out & Hrun & Hout & Hstrap & Hwf & _); try done; [by left|].
  exists h', (installed_header img), out. split; [exact Hrun|]. split; [by rewrite (Hstrap Hav), Hav in Hout|].
  pose proof (rom_slot_check _ (Ptr boot_hdr_zero) Hwf) as Hsc. cbn [rom_ctx ctx_of osflash oshdr s_flash s_hdr] in Hsc.
  assert (0 < len img ≤ SCV1_OSFLASH_SIZE) as Hrange by lia. rewrite (installed_state img Hb Hrange) in Hsc.
  fold (installed_flash img). rewrite Hsc. reflexivity.
Qed.

(** ** Witnesses: no debugger, RAM that comes up with zeros *)

Definition ram (n : Z) : list Z := replicate (Z.to_nat n) 0.

Lemma ram_ok n : 0 ≤ n → len (ram n) = n ∧ bytes (ram n).
Proof.
  intros Hn. split; [unfold ram, len; rewrite length_replicate; lia|]. apply bytes_replicate. unfold is_u8. lia.
Qed.

Lemma no_files p f : sh_files no_debugger !! p = Some f → bytes f.
Proof. cbn. by rewrite lookup_empty. Qed.

Lemma boot_rom_jumps_only_active_witness :
  ∃ ex h' fl' hd' out,
    boot_main no_debugger (ram SCV1_OSFLASH_SIZE) (ram SCV1_OSHDR_SIZE) (chars ".reset" ++ [LF] ++ hex_line restart_cmd) =
      Some (ex, h', fl', hd', out) ∧
    len fl' = SCV1_OSFLASH_SIZE ∧ len hd' = SCV1_OSHDR_SIZE ∧
    (ex = BootJump → ∃ hdr, has_header hd' hdr ∧ h_state hdr = BOOT_STATE_ACTIVE ∧
      0 < h_length hdr ≤ SCV1_OSFLASH_SIZE ∧ crc_bytes (slice 0 (h_length hdr) fl') = h_image_crc hdr).
Proof.
  apply boot_rom_jumps_only_active;
    [apply ram_ok; unfold SCV1_OSFLASH_SIZE; lia|apply ram_ok; unfold SCV1_OSHDR_SIZE; lia
    |apply ram_ok; unfold SCV1_OSFLASH_SIZE; lia|apply ram_ok; unfold SCV1_OSHDR_SIZE; lia
    |apply no_files|solve_bytes|reflexivity].
Defined.

Lemma boot_rom_installs_over_uart_witness :
  ∃ h' hd' out,
    boot_main no_debugger (ram SCV1_OSFLASH_SIZE) (ram SCV1_OSHDR_SIZE) (concat (map hex_line (install demo_image))) =
      Some (BootJump, h', demo_image ++ erased (SCV1_OSFLASH_SIZE - len demo_image), hd',
            out ++ concat (replicate (length (install demo_image)) (hex_line [0x90; 0x00]))) ∧
    boot_banner BOOT_SLOT_BLANK boot_hdr_zero false false = Some out ∧
    boot_slot_check (Ptr hd') SCV1_OSHDR_SIZE (Ptr (demo_image ++ erased (SCV1_OSFLASH_SIZE - len demo_image))) SCV1_OSFLASH_SIZE
      (Ptr boot_hdr_zero) =
      Some (BOOT_SLOT_ACTIVE, Ptr (BootHdr (len demo_image) (crc_bytes demo_image) BOOT_STATE_ACTIVE BOOT_HDR_VERSION)).
Proof.
  apply boot_rom_installs_over_uart;
    [apply ram_ok; unfold SCV1_OSFLASH_SIZE; lia|apply ram_ok; unfold SCV1_OSHDR_SIZE; lia
    |apply ram_ok; unfold SCV1_OSFLASH_SIZE; lia|apply ram_ok; unfold SCV1_OSHDR_SIZE; lia
    |apply no_files|reflexivity|solve_bytes|apply (bool_decide_unpack _); vm_compute; exact I|vm_compute; congruence].
Defined.
