(* ===== verification/Startup.v ===== *)
(** * From reset to [main] (startup.c, scv1.ld, [boot_jump] of boot_main.c)

    What the core does before the C program runs: the boot ROM gives it to the
    image in the slot, and the image's reset handler builds the C program's
    memory.  Memory is words by address; the linker's symbols are a record, and
    what scv1.ld guarantees of them its well-formedness. *)

From stdpp Require Import strings.
From S2P Require Import Prelude Crc16 Hal ArmHal ArmIo Fault CFlash BootHdr BootLoader BootSafety BootMain.
#[local] Open Scope Z_scope.

(** ** Memory *)

(** A word access; a misaligned one, or one where nothing is, faults, and so
    does a write outside the SRAM. *)
Definition load (m : gmap Z Z) (a : Z) : option Z := if a mod 4 =? 0 then m !! a else None.

Definition in_sram (a : Z) : bool := (SCV1_SRAM_BASE <=? a) && (a + 4 <=? SCV1_SRAM_BASE + SCV1_SRAM_SIZE).

Definition store (m : gmap Z Z) (a v : Z) : option (gmap Z Z) :=
  if (a mod 4 =? 0) && in_sram a then Some (<[a := v]> m) else None.

(** ** The reset handler *)

(** The symbols of scv1.ld. *)
Record linker := Linker { _sidata : Z; _sdata : Z; _edata : Z; _sbss : Z; _ebss : Z; _estack : Z }.

(** [while (dst < &_edata) { *dst++ = *src++; }] *)
Fixpoint copy_data (fuel : nat) (m : gmap Z Z) (src dst edata : Z) : option (gmap Z Z) :=
  match fuel with
  | O => None
  | S fuel =>
      if dst <? edata then
        w ← load m src;
        m ← store m dst w;
        copy_data fuel m (u32 (src + 4)) (u32 (dst + 4)) edata
      else Some m
  end.

(** [for (p = &_sbss; p < &_ebss; p++) { *p = 0u; }] *)
Fixpoint zero_bss (fuel : nat) (m : gmap Z Z) (p ebss : Z) : option (gmap Z Z) :=
  match fuel with
  | O => None
  | S fuel => if p <? ebss then m ← store m p 0; zero_bss fuel m (u32 (p + 4)) ebss else Some m
  end.

(** As many turns as the SRAM has words, and one. *)
Definition sram_turns : nat := S (Z.to_nat (SCV1_SRAM_SIZE / 4)).

(** [main] is the program's: it runs on the memory it is given, and the core
    stops with a message should it return. *)
Definition scv1_reset_handler {A} (main : gmap Z Z → option A) (L : linker) (m : gmap Z Z) : option (A * fault_outcome) :=
  m ← copy_data sram_turns m (_sidata L) (_sdata L) (_edata L);
  m ← zero_bss sram_turns m (_sbss L) (_ebss L);
  r ← main m;
  Some (r, fault_halt "!! SCV1: main() returned").

(** ** The hand-over *)

(** Stack pointer, program counter and vector table of the core. *)
Record core := Core { c_msp : Z; c_pc : Z; c_vtor : Z }.

Definition boot_jump (m : gmap Z Z) (base : Z) : option core :=
  sp ← load m base;
  pc ← load m (base + 4);
  Some (Core sp pc base).

(** The slot's flash, as the core reads it. *)
Definition flash_mapped (m : gmap Z Z) (fl : list Z) : Prop :=
  ∀ o, 0 ≤ o → o + 4 ≤ len fl → (SCV1_OSFLASH_BASE + o) mod 4 = 0 →
    m !! (SCV1_OSFLASH_BASE + o) = rd_le32 fl o.

(** What scv1.ld makes of the symbols: everything on word boundaries, the
    initial values inside the image, the data, the zeroed part and 2 KB of stack
    one after the other inside the SRAM. *)
Record linked (L : linker) : Prop := {
  lk_aligned : _sidata L mod 4 = 0 ∧ _sdata L mod 4 = 0 ∧ _edata L mod 4 = 0 ∧ _sbss L mod 4 = 0 ∧ _ebss L mod 4 = 0;
  lk_code : SCV1_OSFLASH_BASE ≤ _sidata L ∧ _sidata L + (_edata L - _sdata L) ≤ SCV1_OSFLASH_BASE + SCV1_OSFLASH_SIZE;
  lk_data : SCV1_SRAM_BASE ≤ _sdata L ≤ _edata L;
  lk_bss : _edata L ≤ _sbss L ≤ _ebss L;
  lk_stack : _ebss L + 2048 ≤ _estack L ∧ _estack L = SCV1_SRAM_BASE + SCV1_SRAM_SIZE;
}.

(** A word of one of the memory's sections. *)
Definition word_in (lo hi a : Z) : Prop := lo ≤ a < hi ∧ a mod 4 = 0.
#[export] Instance word_in_dec lo hi a : Decision (word_in lo hi a).
Proof. unfold word_in. apply _. Defined.

(** ** Lemmas *)

Lemma store_some m a v :
  a mod 4 = 0 → SCV1_SRAM_BASE ≤ a → a + 4 ≤ SCV1_SRAM_BASE + SCV1_SRAM_SIZE → store m a v = Some (<[a := v]> m).
Proof.
  intros Ha Hlo Hhi. unfold store, in_sram. replace (a mod 4 =? 0) with true by lia.
  replace (_ <=? a) with true by lia. replace (a + 4 <=? _) with true by lia. done.
Qed.

(** The copy: the words of the target are those of the source as they were. *)
Lemma copy_data_spec fuel m src dst edata :
  src mod 4 = 0 → dst mod 4 = 0 → edata mod 4 = 0 → SCV1_SRAM_BASE ≤ dst ≤ edata → edata ≤ SCV1_SRAM_BASE + SCV1_SRAM_SIZE →
  0 ≤ src → src + (edata - dst) ≤ SCV1_SRAM_BASE → (∀ a, word_in src (src + (edata - dst)) a → is_Some (m !! a)) →
  (Z.to_nat ((edata - dst) / 4) < fuel)%nat →
  ∃ m', copy_data fuel m src dst edata = Some m' ∧
    ∀ a, m' !! a = if decide (word_in dst edata a) then m !! (src + (a - dst)) else m !! a.
Proof.
  revert m src dst. induction fuel as [|fuel IH]; intros m src dst Hs Hd He Hlo Hhi H0 Hsrc Hm Hf; [lia|]. cbn [copy_data].
  unfold SCV1_SRAM_BASE, SCV1_SRAM_SIZE in *. destruct (Z.ltb_spec dst edata) as [Hlt|Hge].
  - destruct (Hm src) as [w Hw]; [split; lia|]. unfold load. replace (src mod 4 =? 0) with true by lia. rewrite Hw. bind_simpl.
    rewrite store_some by (unfold SCV1_SRAM_BASE, SCV1_SRAM_SIZE; lia). bind_simpl. rewrite !u32_id by (unfold is_u32; lia).
    destruct (IH (<[dst := w]> m) (src + 4) (dst + 4)) as (m' & -> & Hm'); try lia.
    { intros a Ha. unfold word_in in Ha. rewrite lookup_insert_ne by lia. apply Hm. split; lia. }
    exists m'. split; [done|]. intros a. rewrite Hm'. destruct (decide (a = dst)) as [->|Hne].
    + rewrite decide_False, lookup_insert_eq by (unfold word_in; lia). rewrite decide_True by (unfold word_in; lia).
      rewrite Z.sub_diag, Z.add_0_r. done.
    + destruct (decide (word_in (dst + 4) edata a)) as [Hi|Ho]; unfold word_in in *.
      * rewrite decide_True by lia. rewrite lookup_insert_ne by lia. f_equal. lia.
      * rewrite decide_False by lia. by rewrite lookup_insert_ne.
  - exists m. split; [done|]. intros a. rewrite decide_False by (unfold word_in; lia). done.
Qed.

Lemma zero_bss_spec fuel m p ebss :
  p mod 4 = 0 → ebss mod 4 = 0 → SCV1_SRAM_BASE ≤ p ≤ ebss → ebss ≤ SCV1_SRAM_BASE + SCV1_SRAM_SIZE →
  (Z.to_nat ((ebss - p) / 4) < fuel)%nat →
  ∃ m', zero_bss fuel m p ebss = Some m' ∧ ∀ a, m' !! a = if decide (word_in p ebss a) then Some 0 else m !! a.
Proof.
  revert m p. induction fuel as [|fuel IH]; intros m p Hp He Hlo Hhi Hf; [lia|]. cbn [zero_bss].
  unfold SCV1_SRAM_BASE, SCV1_SRAM_SIZE in *. destruct (Z.ltb_spec p ebss) as [Hlt|Hge].
  - rewrite store_some by (unfold SCV1_SRAM_BASE, SCV1_SRAM_SIZE; lia). bind_simpl. rewrite u32_id by (unfold is_u32; lia).
    destruct (IH (<[p := 0]> m) (p + 4)) as (m' & -> & Hm'); try lia.
    exists m'. split; [done|]. intros a. rewrite Hm'. destruct (decide (a = p)) as [->|Hne].
    + rewrite decide_False, lookup_insert_eq by (unfold word_in; lia). by rewrite decide_True by (unfold word_in; lia).
    + rewrite lookup_insert_ne by done. unfold word_in. by repeat case_decide; try lia.
  - exists m. split; [done|]. intros a. rewrite decide_False by (unfold word_in; lia). done.
Qed.

(** Without input the loader waits. *)
Lemma loader_idle fuel h c cmd rsp dirty out :
  loader_loop (S fuel) [] h c cmd rsp dirty out = Some (BootWaiting, h, c, out).
Proof. done. Qed.

(** The first two words of a plausible image, as the core reads them. *)
Lemma jump_plausible m fl n :
  bytes fl → flash_mapped m fl → plausible rom_geometry fl n → n ≤ len fl →
  ∃ c, boot_jump m SCV1_OSFLASH_BASE = Some c ∧ c_vtor c = SCV1_OSFLASH_BASE ∧
    SCV1_SRAM_BASE < c_msp c ≤ SCV1_SRAM_BASE + SCV1_SRAM_SIZE ∧ c_msp c mod 4 = 0 ∧
    c_pc c mod 2 = 1 ∧ SCV1_OSFLASH_BASE ≤ c_pc c - 1 < SCV1_OSFLASH_BASE + n.
Proof.
  intros Hb Hm Hp Hn. pose proof (plausible_len _ _ _ Hp) as H8. unfold flash_mapped, SCV1_OSFLASH_BASE in Hm.
  pose proof (Hm 0 ltac:(lia) ltac:(lia) eq_refl) as Hsp. pose proof (Hm 4 ltac:(lia) ltac:(lia) eq_refl) as Hpc.
  do 8 (destruct fl as [|? fl]; [done|]). do 8 (apply bytes_cons in Hb; destruct Hb as [? Hb]).
  rewrite (rd_le32_val _ 0 z z0 z1 z2) in Hsp by done. rewrite (rd_le32_val _ 4 z3 z4 z5 z6) in Hpc by done.
  eexists (Core _ _ _). unfold boot_jump, load, SCV1_OSFLASH_BASE.
  change (0x2000 mod 4 =? 0) with true. change ((0x2000 + 4) mod 4 =? 0) with true. cbv iota.
  change (0x2000 + 0) with 0x2000 in Hsp. rewrite Hsp. bind_simpl. rewrite Hpc. bind_simpl.
  destruct Hp as (_ & Hsram & Hal & Hodd & Hin). cbn in Hsram, Hin. done.
Qed.

(** ** Properties *)

(** [C14] Start-up gives the C program the memory it was linked for: whatever the
    SRAM holds at power-up, both loops of the reset handler end without leaving
    it, and [main] then runs (once, and may it return the core stops) on a memory
    whose initialised data are the words of the image, whose zeroed part is zero,
    and which is the old one everywhere else. *)
Theorem startup_initialises_memory L (m : gmap Z Z) :
  linked L → (∀ a, word_in (_sidata L) (_sidata L + (_edata L - _sdata L)) a → is_Some (m !! a)) →
  ∃ m', (∀ A (main : gmap Z Z → option A), scv1_reset_handler main L m =
           (r ← main m'; Some (r, fault_halt "!! SCV1: main() returned"))) ∧
    ∀ a, m' !! a =
      if decide (word_in (_sdata L) (_edata L) a) then m !! (_sidata L + (a - _sdata L))
      else if decide (word_in (_sbss L) (_ebss L) a) then Some 0
      else m !! a.
Proof.
  intros [(H1 & H2 & H3 & H4 & H5) [Hc1 Hc2] Hd Hb [Hs1 Hs2]] Hm.
  unfold SCV1_OSFLASH_BASE, SCV1_OSFLASH_SIZE, SCV1_SRAM_BASE, SCV1_SRAM_SIZE in *.
  destruct (copy_data_spec sram_turns m (_sidata L) (_sdata L) (_edata L)) as (m1 & Hm1 & Hl1);
    try done; try (unfold sram_turns, SCV1_SRAM_BASE, SCV1_SRAM_SIZE; lia).
  destruct (zero_bss_spec sram_turns m1 (_sbss L) (_ebss L)) as (m2 & Hm2 & Hl2);
    try (unfold sram_turns, SCV1_SRAM_BASE, SCV1_SRAM_SIZE; lia).
  exists m2. split; [intros A main; unfold scv1_reset_handler; rewrite Hm1; bind_simpl; rewrite Hm2; by bind_simpl|].
  intros a. rewrite Hl2, Hl1. repeat case_decide; try done. exfalso. unfold word_in in *. lia.
Qed.

(** [C13] Power-up never starts garbage: when the boot ROM starts the image
    before a byte has come in, whatever the files it was loaded from, the core
    gets a stack pointer on a word boundary inside the SRAM, a Thumb address
    inside the image that the header describes, and the image's vector table, at
    an address the architecture allows for one. *)
Theorem cold_start_hands_over_safely h fl hd m h' fl' hd' out :
  len fl = SCV1_OSFLASH_SIZE → len hd = SCV1_OSHDR_SIZE → bytes fl → bytes hd → (∀ p f, sh_files h !! p = Some f → bytes f) →
  boot_main h fl hd [] = Some (BootJump, h', fl', hd', out) → flash_mapped m fl' →
  ∃ c hdr, boot_jump m SCV1_OSFLASH_BASE = Some c ∧ has_header hd' hdr ∧ h_state hdr = BOOT_STATE_ACTIVE ∧
    SCV1_SRAM_BASE < c_msp c ≤ SCV1_SRAM_BASE + SCV1_SRAM_SIZE ∧ c_msp c mod 4 = 0 ∧
    c_pc c mod 2 = 1 ∧ SCV1_OSFLASH_BASE ≤ c_pc c - 1 < SCV1_OSFLASH_BASE + h_length hdr ∧
    c_vtor c = SCV1_OSFLASH_BASE ∧ c_vtor c mod 128 = 0.
Proof.
  intros Hfl Hhd Hfb Hhb Hfiles Hmain Hm.
  destruct (boot_main_cases h fl hd [] Hfl Hhd Hfb Hhb Hfiles) as (s & Hs & _ & [(Ha & Hp & o & Hj)|(strap & o & _ & _ & Hl)]).
  - rewrite Hmain in Hj. injection Hj as -> -> -> ->. pose proof Hs as [Hwf Hf Hh].
    pose proof (slot_state_says (s_flash s) (s_hdr s)) as Hsays. rewrite Ha in Hsays.
    destruct Hsays as (Hhas & [Hlen _] & Hst); [apply Hwf|apply Hwf|].
    destruct (jump_plausible m (s_flash s) _ (sw_flash_bytes _ _ Hwf) Hm Hp) as (c & Hc & Hv & Hsp & Hal & Hodd & Hin); [lia|].
    exists c, (slot_state (s_flash s) (s_hdr s)).2. rewrite Hv. split_and!; done || lia.
  - rewrite Hl in Hmain. change (length []) with 0%nat in Hmain. rewrite loader_idle in Hmain. by cbn in Hmain.
Qed.

(** [C15] An operating system is installed once and starts from then on: a blank
    part with a debugger attached that can write its files takes the download of a
    plausible image over the serial link, answering each line with 9000, and jumps
    into it; and at every later power-up, whatever the RAM holds and whatever is
    sent, the boot ROM starts the same image by itself, on the image's stack inside
    SRAM, at its Thumb entry and with its vector table. *)
Theorem installed_os_starts h fl hd img fl2 hd2 input m :
  len fl = SCV1_OSFLASH_SIZE → len hd = SCV1_OSHDR_SIZE → bytes fl → bytes hd → (∀ p f, sh_files h !! p = Some f → bytes f) →
  sh_available h = true → sh_files h !! OSFLASH_FILE = None → sh_files h !! BOOTSEL_FILE = None →
  sh_writable h OSFLASH_FILE = true → sh_writable h OSHDR_FILE = true →
  bytes img → plausible rom_geometry img (len img) → len img ≤ SCV1_OSFLASH_SIZE →
  len fl2 = SCV1_OSFLASH_SIZE → len hd2 = SCV1_OSHDR_SIZE → flash_mapped m (installed_flash img) →
  ∃ h' out out' c,
    boot_main h fl hd (concat (map hex_line (install img))) =
      Some (BootJump, h', installed_flash img, installed_header img,
            out ++ concat (replicate (length (install img)) (hex_line [0x90; 0x00]))) ∧
    boot_main h' fl2 hd2 input = Some (BootJump, h', installed_flash img, installed_header img, out') ∧
    boot_jump m SCV1_OSFLASH_BASE = Some c ∧ c_vtor c = SCV1_OSFLASH_BASE ∧
    SCV1_SRAM_BASE < c_msp c ≤ SCV1_SRAM_BASE + SCV1_SRAM_SIZE ∧ c_msp c mod 4 = 0 ∧
    c_pc c mod 2 = 1 ∧ SCV1_OSFLASH_BASE ≤ c_pc c - 1 < SCV1_OSFLASH_BASE + len img.
Proof.
  intros Hfl Hhd Hfb Hhb Hfiles Hav Hno Hsel Hw1 Hw2 Hb Hp Hl Hfl2 Hhd2 Hm. pose proof (plausible_len _ _ _ Hp).
  destruct (rom_installs h fl hd img) as (h' & d' & strap & out & Hrun & _ & _ & Hwf & Hflush); try done; [by right|].
  set (s := Slot (installed_flash img) (installed_header img) (len img) true) in *.
  rewrite (flush_saves h s Hwf Hav Hw1 Hw2) in Hflush. injection Hflush as <- _.
  assert (0 < len img ≤ SCV1_OSFLASH_SIZE) as Hrange by lia. pose proof (installed_state img Hb Hrange) as Hst.
  assert (plausible rom_geometry (installed_flash img) (len img)) as Hpi by (by apply plausible_app).
  assert (len (installed_flash img) = SCV1_OSFLASH_SIZE ∧ bytes (installed_flash img)) as [Hlf Hbf]
    by (split; [apply (rw_flash _ Hwf)|apply (sw_flash_bytes _ _ (rw_slot _ Hwf))]).
  destruct (jump_plausible m (installed_flash img) (len img) Hbf Hm Hpi) as (c & Hc & Hv & Hsp & Hal & Hodd & Hin); [lia|].
  exists (saved_slot h s), out. eexists. exists c. split; [exact Hrun|].
  split; [|exact (conj Hc (conj Hv (conj Hsp (conj Hal (conj Hodd Hin)))))].
  change (installed_flash img) with (s_flash s) in Hst, Hpi |- *. change (installed_header img) with (s_hdr s) in Hst |- *.
  clearbody s. clear Hrun. eapply (boot_main_starts (saved_slot h s) fl2 hd2 input s); [exact Hwf| |exact Hst|exact Hl|exact Hpi|].
  - apply power_on_loads; try done; cbn [saved_slot sh_files].
    + rewrite lookup_insert_ne by done. apply lookup_insert_eq.
    + apply lookup_insert_eq.
  - unfold bootsel_asserted, semihost_load. cbn [saved_slot sh_available sh_files]. rewrite Hav.
    rewrite !lookup_insert_ne by done. by rewrite Hsel.
Qed.

(** ** Witnesses *)

(** Two words of data, two of zeros. *)
Definition demo_linker : linker := Linker 0x2010 0x20000000 0x20000008 0x20000008 0x20000010 0x20004000.
Definition demo_memory : gmap Z Z := {[0x2010 := 7; 0x2014 := 8; 0x20000000 := 99; 0x2000000C := 5]}.

Lemma demo_linked : linked demo_linker.
Proof. by constructor. Qed.

Lemma demo_mapped a : word_in 0x2010 0x2018 a → is_Some (demo_memory !! a).
Proof. intros [Ha Hm]. assert (a = 0x2010 ∨ a = 0x2014) as [-> | ->] by lia; by eexists. Qed.

(** A program that looks at its data and returns. *)
Example startup_runs :
  scv1_reset_handler (λ m, Some (map (λ a, m !! a) [0x20000000; 0x20000004; 0x20000008; 0x2000000C])) demo_linker demo_memory =
    Some ([Some 7; Some 8; Some 0; Some 0], fault_halt "!! SCV1: main() returned").
Proof. reflexivity. Qed.

Lemma startup_initialises_memory_witness :
  ∃ m', (∀ A (main : gmap Z Z → option A), scv1_reset_handler main demo_linker demo_memory =
           (r ← main m'; Some (r, fault_halt "!! SCV1: main() returned"))) ∧
    ∀ a, m' !! a =
      if decide (word_in 0x20000000 0x20000008 a) then demo_memory !! (0x2010 + (a - 0x20000000))
      else if decide (word_in 0x20000008 0x20000010 a) then Some 0
      else demo_memory !! a.
Proof. apply (startup_initialises_memory demo_linker demo_memory); [apply demo_linked|intros a Ha; by apply demo_mapped]. Defined.

(** The slot's flash and nothing else. *)
Definition code_words (fl : list Z) : gmap Z Z :=
  list_to_map (map (λ k, (SCV1_OSFLASH_BASE + 4 * k, default 0 (rd_le32 fl (4 * k)))) (upto (len fl / 4))).

Lemma rd_le32_is_some b p : 0 ≤ p → p + 4 ≤ len b → is_Some (rd_le32 b p).
Proof.
  intros Hp Hl. unfold rd_le32. destruct (rd_some b p) as (x & -> & _); [lia|]. destruct (rd_some b (p + 1)) as (y & -> & _); [lia|].
  destruct (rd_some b (p + 2)) as (z & -> & _); [lia|]. destruct (rd_some b (p + 3)) as (w & -> & _); [lia|]. by eexists.
Qed.

Lemma code_words_mapped fl : flash_mapped (code_words fl) fl.
Proof.
  intros o Ho Hl Hmod. destruct (rd_le32_is_some fl o Ho Hl) as [w Hw]. rewrite Hw.
  assert (o = 4 * (o / 4)) as Ho4 by (unfold SCV1_OSFLASH_BASE in Hmod; lia).
  apply elem_of_list_to_map_1.
  - rewrite <- list_fmap_compose. apply NoDup_fmap_2_strong; [cbn; lia|apply NoDup_seqZ].
  - apply list_elem_of_fmap. exists (o / 4). rewrite <- Ho4, Hw. split; [done|]. apply elem_of_upto. lia.
Qed.

(** A debugger with the files of an activated slot. *)
Definition active_files : semihost :=
  Semihost true (<[OSFLASH_FILE := demo_image]> {[OSHDR_FILE := hdr_bytes 8 (crc_bytes demo_image) BOOT_STATE_ACTIVE]}) (λ _, true).

Lemma active_files_bytes p f : sh_files active_files !! p = Some f → bytes f.
Proof.
  cbn. intros [[_ <-]|[_ [_ <-]%lookup_singleton_Some]]%lookup_insert_Some; by apply (bool_decide_unpack _); vm_compute.
Qed.

(** The boot ROM on these files, in flash that comes up with zeros. *)
Definition cold_start : option (boot_exit * semihost * list Z * list Z * list Z) :=
  boot_main active_files (ram SCV1_OSFLASH_SIZE) (ram SCV1_OSHDR_SIZE) [].

Lemma cold_start_jumps : match cold_start with Some (BootJump, _, _, _, _) => true | _ => false end = true.
Proof. by vm_compute. Qed.

Lemma cold_start_hands_over_safely_witness :
  match cold_start with
  | Some (BootJump, h', fl', hd', out) =>
      ∃ c hdr, boot_jump (code_words fl') SCV1_OSFLASH_BASE = Some c ∧ has_header hd' hdr ∧ h_state hdr = BOOT_STATE_ACTIVE ∧
        SCV1_SRAM_BASE < c_msp c ≤ SCV1_SRAM_BASE + SCV1_SRAM_SIZE ∧ c_msp c mod 4 = 0 ∧
        c_pc c mod 2 = 1 ∧ SCV1_OSFLASH_BASE ≤ c_pc c - 1 < SCV1_OSFLASH_BASE + h_length hdr ∧
        c_vtor c = SCV1_OSFLASH_BASE ∧ c_vtor c mod 128 = 0
  | _ => False
  end.
Proof.
  pose proof cold_start_jumps as Hj. destruct cold_start as [[[[[[] h'] fl'] hd'] out]|] eqn:E; try discriminate Hj.
  refine (cold_start_hands_over_safely active_files (ram SCV1_OSFLASH_SIZE) (ram SCV1_OSHDR_SIZE) (code_words fl') h' fl' hd' out
    _ _ _ _ active_files_bytes E (code_words_mapped fl'));
    apply ram_ok; unfold SCV1_OSFLASH_SIZE, SCV1_OSHDR_SIZE; lia.
Defined.

(** A debugger with no files yet. *)
Definition empty_files : semihost := Semihost true ∅ (λ _, true).

Lemma installed_os_starts_witness :
  ∃ h' out out' c,
    boot_main empty_files (ram SCV1_OSFLASH_SIZE) (ram SCV1_OSHDR_SIZE) (concat (map hex_line (install demo_image))) =
      Some (BootJump, h', installed_flash demo_image, installed_header demo_image,
            out ++ concat (replicate (length (install demo_image)) (hex_line [0x90; 0x00]))) ∧
    boot_main h' (ram SCV1_OSFLASH_SIZE) (ram SCV1_OSHDR_SIZE) (chars ".reset") =
      Some (BootJump, h', installed_flash demo_image, installed_header demo_image, out') ∧
    boot_jump (code_words (installed_flash demo_image)) SCV1_OSFLASH_BASE = Some c ∧ c_vtor c = SCV1_OSFLASH_BASE ∧
    SCV1_SRAM_BASE < c_msp c ≤ SCV1_SRAM_BASE + SCV1_SRAM_SIZE ∧ c_msp c mod 4 = 0 ∧
    c_pc c mod 2 = 1 ∧ SCV1_OSFLASH_BASE ≤ c_pc c - 1 < SCV1_OSFLASH_BASE + len demo_image.
Proof.
  apply (installed_os_starts empty_files (ram SCV1_OSFLASH_SIZE) (ram SCV1_OSHDR_SIZE) demo_image (ram SCV1_OSFLASH_SIZE)
    (ram SCV1_OSHDR_SIZE) (chars ".reset") (code_words (installed_flash demo_image)));
    [apply ram_ok; unfold SCV1_OSFLASH_SIZE; lia|apply ram_ok; unfold SCV1_OSHDR_SIZE; lia
    |apply ram_ok; unfold SCV1_OSFLASH_SIZE; lia|apply ram_ok; unfold SCV1_OSHDR_SIZE; lia
    |intros p f E; cbn in E; by rewrite lookup_empty in E|reflexivity|reflexivity|reflexivity|reflexivity|reflexivity
    |solve_bytes|apply (bool_decide_unpack _); vm_compute; exact I|vm_compute; congruence
    |apply ram_ok; unfold SCV1_OSFLASH_SIZE; lia|apply ram_ok; unfold SCV1_OSHDR_SIZE; lia|apply code_words_mapped].
Defined.
