(* ===== verification/Deviations.v ===== *)
(** * Where the code does not do what its comments and documents say

    Concrete runs, each on a small card.  They show behaviour of the definitions
    of the other files that a reader of the source would not expect. *)

From stdpp Require Import strings.
From S2P Require Import Prelude OsMem Crc16 Sw Apdu Tlv Hal SimHal ArmHal ArmIo FsTypes FsStore Fs FsTree KernelTypes CmdSelect CmdCreate Kernel BootHdr BootLoader BootSafety BootMain.
#[local] Open Scope Z_scope.
#[local] Existing Instance small_config.

(** ** The file system *)

(** A card of 400 bytes of EEPROM with a table of 16 slots, as [fs_store_mount]
    accepts it. *)
Definition sixteen_files : store vcard :=
  Store (Superblock false 0 0 0)
    (Vcard (seal ([FS_MAGIC_0; FS_MAGIC_1; FS_MAGIC_2; FS_MAGIC_3] ++ be16 FS_LAYOUT_VERSION ++ be16 16 ++ be32 0 ++ be16 0)
              ++ replicate 1008 0xFF)
       (replicate 1024 0xFF) (VcardConfig NULL 400 1024 1 true) true VCARD_POWER_ON 1).

(** It mounts; one allocation later it does not any more, since [sb_write]
    stores [FS_MAX_FILES] whatever the mirror says (fs_store.c:114). *)
Example allocation_breaks_small_table :
  ∃ s1 s2, fs_store_mount sixteen_files = Some (FS_OK, s1) ∧ max_files s1 = 16 ∧
    fs_store_alloc_data s1 8 (Ptr 0) = Some (FS_OK, Ptr 0, s2) ∧
    fst <$> fs_store_mount s2 = Some FS_ERR_CORRUPT.
Proof. eexists _, _. split; [by vm_compute|]. split; [by vm_compute|]. split; [by vm_compute|]. by vm_compute. Qed.

(** A path that names the current DF keeps the current EF (fs.c:308), while
    selecting the same DF by its identifier drops it. *)
Example path_keeps_current_ef :
  fs_select_by_path factory_store (Ptr (FsSelection 0 1)) (Ptr [0x3F; 0x00]) 2 false = Some (FS_OK, Ptr (FsSelection 0 1)) ∧
  fs_select_by_fid factory_store (Ptr (FsSelection 0 1)) 0x3F00 = Some (FS_OK, Ptr (FsSelection 0 FS_INVALID_INDEX)).
Proof. split; by vm_compute. Qed.

(** The two files of the DF 7F10 damaged in one byte each: the DF counts as
    empty and is deleted, and their slots stay taken (fs.c:92). *)
Definition damaged_children : store vcard :=
  damaged (damaged factory_store (Z.to_nat (desc_off 3 + 6)) 0x55) (Z.to_nat (desc_off 4 + 6)) 0x55.

Example df_with_damaged_children_deleted :
  fst <$> fs_store_read_desc damaged_children 3 (Ptr fs_descriptor_zero) = Some FS_ERR_CORRUPT ∧
  fst <$> fs_store_read_desc damaged_children 4 (Ptr fs_descriptor_zero) = Some FS_ERR_CORRUPT ∧
  fs_child_count damaged_children 2 = Some 0 ∧
  ∃ s', fs_delete_file damaged_children (Ptr root_sel) 0x7F10 = Some (FS_OK, Ptr root_sel, s') ∧
    fs_store_slot_is_free s' 2 = Some true ∧ fs_store_slot_is_free s' 3 = Some false.
Proof. do 3 (split; [by vm_compute|]). eexists. split; [by vm_compute|]. split; by vm_compute. Qed.

(** ** The kernel *)

(** The response to a command, on the wire. *)
Definition respond (k : scos_kernel) (s : store vcard) (cmd : list Z) : option (list Z) :=
  match scos_process (Ptr k) (Ptr cmd) (len cmd) (Ptr (local_array SCOS_APDU_RSP_MAX)) SCOS_APDU_RSP_MAX (Ptr 0) s with
  | Some (SCOS_OK, _, Ptr rsp, Ptr n, _) => Some (take (Z.to_nat n) rsp)
  | _ => None
  end.

(** docs/apdu.md:121 lists 6CXX among the status words not yet emitted: SELECT
    with too small an Le is answered with it. *)
Example wrong_le_is_emitted :
  respond factory_kernel factory_store [0x00; 0xA4; 0x00; 0x04; 0x02; 0x7F; 0x10; 0x01] = Some [0x6C; 0x0C].
Proof. by vm_compute. Qed.

(** A card whose file system does not mount answers 6581 to everything, until a
    warm reset: then it executes commands again (kernel.c:61), and tells the
    reader that the file it asks for does not exist. *)
Example reset_revives_dead_card :
  ∃ k s, scos_init (Ptr scos_kernel_zero) (damaged factory_store 11 1) = Some (SCOS_ERR_STATE, Ptr k, s) ∧
    k_lifecycle k = SCOS_LC_FS_ERROR ∧ respond k s [0; 0xB0; 0x81; 0; 4] = Some [0x65; 0x81] ∧
    ∃ k', scos_reset (Ptr k) = Ptr k' ∧ k_lifecycle k' = SCOS_LC_OPERATIONAL ∧
      respond k' s [0; 0xB0; 0x81; 0; 4] = Some [0x6A; 0x82].
Proof.
  eexists _, _. split; [by vm_compute|]. split; [by vm_compute|]. split; [by vm_compute|].
  eexists. split; [by vm_compute|]. split; by vm_compute.
Qed.

(** ** TLV *)

(** [tlv_put] writes a tag that [tlv_next] reads as another one, with another value
    (tlv.c:197). *)
Example put_tag_not_read_back :
  ∃ b r o, tlv_put (Ptr (replicate 8 0)) 8 (Ptr 0) 0x1F (Ptr [1; 2]) 2 = Some (true, Ptr b, Ptr 4) ∧
    tlv_next (Ptr (TlvReader (Ptr b) 4 0)) (Ptr tlv_object_zero) = Some (TLV_OK, r, Ptr o) ∧ o_tag o = 0x1F02.
Proof. eexists _, _, _. split; [by vm_compute|]. split; by vm_compute. Qed.

(** ** The boot ROM *)

(** An image whose first words are no vector table: eight zero bytes, with a
    header that is ACTIVE and matches. *)
Definition no_vectors : list Z := replicate 8 0.
Definition active_header : list Z := hdr_bytes 8 (crc_bytes no_vectors) BOOT_STATE_ACTIVE ++ replicate 1008 0xFF.

Definition no_vectors_ctx : boot_ctx :=
  match boot_ctx_init (Ptr (BootCtx NULL 0 NULL 0 0 0 0 0 0 false)) (Ptr no_vectors) SCV1_OSFLASH_SIZE (Ptr active_header)
      SCV1_OSHDR_SIZE SCV1_CFLASH_PAGE SCV1_OSFLASH_BASE SCV1_SRAM_BASE SCV1_SRAM_SIZE with
  | Ptr c => c
  | NULL => BootCtx NULL 0 NULL 0 0 0 0 0 0 false
  end.

(** At power-up the boot ROM stays in the loader; a reset on the link starts the
    image (boot_main.c:242). *)
Example reset_skips_vector_check :
  boot_image_plausible (Ptr no_vectors) 8 SCV1_OSFLASH_BASE SCV1_SRAM_BASE SCV1_SRAM_SIZE = Some false ∧
  (λ r, r.1.1.1) <$> loader_loop 2 (chars ".reset" ++ [LF]) no_debugger no_vectors_ctx (replicate 133 0) (replicate 18 0) false [] =
    Some BootJump.
Proof. split; vm_compute; reflexivity. Qed.
